(* ===== verification/_CoqProject ===== *)
-Q . S2P
Prelude.v
Values.v
Decimal.v
IpAddr.v
AuthenticationPolicy.v
ResponseMode.v
External.v
AuditLog.v
Directory.v
Application.v
ClientJwks.v
Client.v
AuthorizationRequest.v
AuthSession.v
AuthSessionStore.v
AuthSessionTheorems.v
LoginIdentifier.v
RateLimit.v
Csrf.v
Lockout.v
SsoSession.v
SessionKey.v
PasswordPolicy.v
Authenticator.v
UserDevice.v
EnrollmentTicket.v
Membership.v
IdentifierLookup.v
Consent.v
SignInStore.v
AuthorizationCode.v
RefreshToken.v
Dpop.v
ClientAssertion.v
ClientAuth.v
Effects.v
TokenClaims.v
AccessGate.v
AuthenticatorManagement.v
SignInGates.v
Authorize.v
ConsentFlow.v
DeviceGate.v
SignInCompletion.v
Login.v
MfaLogin.v
ProgLogic.v
OneShots.v
Frames.v
Handoff.v
Paths.v
TokenService.v
ClientCredentials.v
TokenPaths.v
TokenSteps.v
Example.v
CredentialTheorems.v
AccessTheorems.v
SignInSteps.v
SignInExample.v
AuthorizeTheorems.v
AuthorizeComplete.v
ConsentTheorems.v
CompletionTheorems.v
AuthenticatorTheorems.v
RegistryInvariant.v
LoginSteps.v
LoginTheorems.v
MfaTheorems.v
LoginExample.v
AuthenticatorExample.v
RevocationRace.v
SignInEnds.v
TokenSound.v
TokenReplay.v
TokenComplete.v
ReplayWindow.v
TokenConcurrency.v
