(* ===== verification/Prelude.v ===== *)
(** * assay (the [idp] repository): a verification development

    assay is a multi-tenant OpenID Connect provider in Rust.  [crates/core]
    holds the domain, the use cases and the MariaDB repositories; [crates/api]
    (axum handlers), [crates/web] (HTML) and [crates/contracts] (serde types)
    are layers around it.  This development models the part of [crates/core]
    that decides who gets a token: the authorization request, the authentication
    session that carries it through a sign-in, the sign-in itself with password,
    second factor, policy, device gate, consent and single sign-on, and the token
    endpoint with everything it calls.  Paths below are under
    [src/crates/core/src/].

    ** The program's parts and how they meet

    [AuthorizeService::authorize] ([application/authorize.rs]) builds an
    [AuthorizationRequest] from what a client sent and stores it in an
    [AuthSession], which the sign-in moves forward: the hand-off to the login
    page, the password, the second factor.  A browser with an SSO session may get
    its code at once ([resume], [continue_with_sso]); another one fills in the
    password form ([application/login.rs]) and, when a TOTP is confirmed, the form
    for the code ([application/mfa_login.rs]), which asks the registry of
    authenticators.  Both end in [application/sign_in_completion.rs]: the device
    gate, a new SSO session, consent, and the one place that issues codes
    ([application/code_issuance.rs]) behind the application gate.  Consent not yet
    given is asked for on a page ([application/consent.rs]).  The client brings
    the code to [TokenService::exchange] ([application/token.rs]), which asks in
    turn: [DpopProofVerifier] for a proof of possession,
    [ClientAuthenticator] for the client, the code or refresh-token repository
    for the grant, [ApplicationAccessService] for whether this user may use the
    application, [KeyService] for a signing key, and which reports to
    [AuditService] and to the sign-in history.

    ** Files

    Foundations.
    - [Prelude]: [Result] and its notation, [string_enum!] ([domain/values.rs])
      as the class [StringEnum], identifiers, times (nanoseconds in [Z]), string
      and list functions of Rust's standard library, tactics and hints.
      [Decimal]: [i64] as it is printed and parsed.
    - [External]: the third-party code as classes (below) and toy instances.
    - [Effects]: what a use case may do.  [Stmt] has one constructor per SQL
      statement, [Op] adds the clock, the random generators, the key service, the
      alerts to the operators, the rate limiter of the process, the computations of
      its argon2 hasher and its one reference hash, and [Prog] is a use case as a tree of operations;
      [do] and [try] are [.await] and [.await?].  [Database] is the tables, [World]
      a database with clocks, random streams, limiter, key service and pending
      faults; [exec], [step] and [run] execute, and [run_pool] interleaves.
      [SignInStore] holds the tables of the sign-in and their statements.
    - [ProgLogic]: reasoning on every path of a program at once ([always],
      [guarded], [takes_at_most]) and on interleavings: through the class
      [OneShot], through an invariant, and through a count of turns.
    - [OneShots]: the statements that answer yes once, as instances.
    - [Frames], [Paths]: what a program leaves alone; the tactics that walk one.
      [Handoff]: the hand-off handles stay unique, and a spent one stays spent.

    Domain, a file per aggregate; a field keeps its name behind a prefix.
    - [Values]: the enumerations, prompts and authentication strength of
      [domain/values.rs], the codes of [domain/error.rs], [domain/message.rs].
    - [Directory], [Membership]: [domain/user.rs], [domain/tenant.rs],
      [domain/tenant_context.rs], [domain/resource.rs],
      [domain/tenant_membership.rs] and its table.
    - [Client], [ClientJwks]: [domain/client.rs], [domain/client_jwks.rs].
    - [Application]: [domain/application.rs].
    - [AuditLog]: [domain/audit.rs].
    - [AuthorizationRequest], [ResponseMode]: the request, and the way back.
    - [AuthSession]: the aggregate and its transitions; [AuthSessionStore]: the
      SQL repository, rows and column encodings included, and the in-memory one.
    - [LoginIdentifier], [IdentifierLookup]: [domain/login_identifier.rs],
      [domain/tenant_domain.rs], and the query that finds a user by an identifier.
    - [IpAddr], [AuthenticationPolicy]: [domain/authentication_policy.rs], the
      address ranges (with [std::net]'s parser) apart from the rest.
    - [Lockout]: the lockout policy, and the UPDATE that counts failed logins.
    - [PasswordPolicy]: [domain/password_policy.rs], and [encrypt] and [decrypt] of
      [domain/crypto.rs].
    - [Authenticator]: [domain/user_authenticator.rs], [domain/totp_secret.rs] and
      the one table both are stored in.
    - [SsoSession]: [domain/sso_session.rs] and its tables, [domain/step_up.rs];
      [SessionKey]: the lifetimes of [domain/session_key.rs].
    - [UserDevice], [EnrollmentTicket]: [domain/user_device.rs] and its table,
      [domain/security_alert.rs], the ticket of [application/device_enrollment.rs].
    - [Consent]: [domain/consent.rs] and its table.
    - [RateLimit]: [infrastructure/rate_limit.rs].  [Csrf]: [csrf.rs] of
      [crates/contracts].
    - [AuthorizationCode] (with [domain/pkce.rs]) and [RefreshToken]: entity and
      table, one function per SQL statement.
    - [Dpop], [ClientAssertion]: the checks and the replay tables.
    - [ClientAuth]: [application/client_authentication.rs] up to the credential.
    - [TokenClaims]: the claim sets and [domain/jwt.rs].

    Use cases, as programs.
    - [AccessGate]: [record_audit], [dpop_verify], [check] and [check_saml]
      ([application/application_access.rs]) and [authenticate].
    - [SignInGates]: which policy applies, whether an SSO session can be resumed,
      whether the user has consented, and [issue_code].
    - [Authorize]: [authorize], [resume], [continue_with_sso].  [ConsentFlow]:
      [info], [approve], [deny].
    - [DeviceGate], [SignInCompletion]: the gate of
      [application/device_enrollment.rs] and the common end of a sign-in.
    - [AuthenticatorManagement]: [application/authenticator_management.rs] and
      [application/totp_registration.rs].
    - [Login]: [application/login.rs] with [application/login_user_resolution.rs];
      [MfaLogin]: [application/mfa_login.rs].
    - [TokenService]: [exchange_code] and [exchange_refresh_token], cut at the
      numbered steps of the source.  [ClientCredentials]:
      [issue_client_credentials] and [exchange], the dispatcher.
    - [Example], [SignInExample], [LoginExample], [AuthenticatorExample]: a concrete
      deployment, on which the witnesses compute.

    Theorems.
    - [AuthSessionTheorems]: the repository's contract, as a refinement from the
      SQL implementation to the in-memory one, and what the next request finds
      after each transition.
    - [CredentialTheorems], [AccessTheorems]: what an accepted credential
      proves; when the application gate admits.
    - [SignInSteps] carries the lemmas on each step of the flow;
      [AuthorizeTheorems] (a code without a sign-in goes only to whom it may, and its
      hand-off is spent) and
      [AuthorizeComplete] (a browser that is signed in gets it), [ConsentTheorems]
      and [CompletionTheorems] (device gate, new session, continued flow) are built
      on them.
    - [LoginSteps], [LoginTheorems]: a sign-in by password is earned, a refusal
      takes the time of one password check (once the reference hash stands) and counts
      what it must, and a password alone opens nothing when more is due.
      [MfaTheorems]: the same for the second factor.  [SignInEnds]: both forms end
      within fifty operations, whatever others do.
    - [AuthenticatorTheorems]: codes and TOTP steps are spent once under any
      interleaving; a fresh sheet of recovery codes replaces the old one; enrolling
      TOTP again locks it out.  [RegistryInvariant]: what every row of the registry
      satisfies at any time.  [RevocationRace]: what it does not.
    - [TokenPaths] and [TokenSteps] carry the lemmas on every path and on each
      step; [TokenSound] (a success means the credential was good, and says what
      the tables then hold), [TokenComplete] (a good request succeeds),
      [TokenReplay] (a replay stops the family), [ReplayWindow] (how long a
      replay is remembered) and [TokenConcurrency] (a credential is spent once
      under any interleaving) are built on them.
    - Most files of the domain end in the theorems on their own definitions.

    ** Modelling decisions

    Time is a [Z] of nanoseconds; [DATETIME(6)] truncates to microseconds when
    written ([to_micros]).  chrono's range is [from_timestamp]; where the source
    would panic beyond it, a function answers [None] and a program [Panic].
    [i64] and [u64] casts are written out where they can wrap ([wrap_i64],
    [max_age]).  The two clocks of the source, its own [Clock] and the system time
    that TOTP reads, are one clock here.  Strings are byte strings; the UTF-8 a Rust
    [String] guarantees matters only to character counts, which count
    non-continuation bytes, and to [trim] and [split_whitespace], which know
    Unicode's white space.

    A SQL statement is atomic, as one statement of InnoDB is.  A statement may
    fail, before or after it took effect ([Fault]): a lost connection leaves the
    caller not knowing.  The theorems that speak of success hold under any faults;
    those that promise an outcome assume none ([calm]).  Comparison of text
    columns follows the collation, a parameter; columns of hashes, UUIDs and
    session identifiers are lower-case hexadecimal and are compared exactly.
    Settings of a tenant are functions of the tenant in [Tenancy]; their storage and
    cache are not modelled.

    Outcomes that the source calls [Internal] are the error of the programs of
    [Login] and [MfaLogin], and [login] and [verify_mfa] turn them back.  The reference
    hash of [verify_against_dummy] is state of the process ([w_dummy]): its [OnceLock]
    is empty at first, the operation [DummyHash] fills it (or records that the hasher
    failed) at the first use and answers it from then on, in one step, as
    [get_or_init] lets nobody in between.  [w_hash_work] counts the computations the
    hasher makes for the password form.

    Concurrency: any number of programs, interleaved operation by operation as
    a schedule says, with environment steps between them that may change the
    world as each theorem says it may.

    Every recursion is structural, so no definition carries fuel.  A schedule is
    a finite list; the theorems quantify over all of them, and only witnesses fix
    one, long enough for their programs to finish.

    Third-party code is a parameter, and what a theorem needs of it is a named
    hypothesis: [Hashing] (sha2, base64, uuid; injectivity of the printed UUID
    or of the hash where a statement depends on it), [Jose], [DpopJose],
    [AssertionJose] and [JwtEncoder] (jsonwebtoken), [UrlCrate] (url),
    [PasswordHasher] (argon2), [TicketCrypto] (hmac, hex, uuid; [crypto_laws]),
    [AesGcm] (aes-gcm, base64; [box_laws]), [TotpCrate] (totp-rs),
    [UnicodeCase] (case mapping of [str]), [Collation] (MariaDB).

    ** Limits found

    [dpop_replay_at_last_instant] and [assertion_replay_at_last_instant]: both
    replay tables forget a record at the last instant at which it is still
    needed.  [assertion_check_panics_iff]: the one input on which the claim
    checks panic.  [refresh_race_spares_the_winner] and
    [code_race_spares_the_winner]: revoking a family misses a token that the
    winner of a race has yet to insert.  [requested_mfa_lifts_default_deny]: a
    client that asks for multi-factor authentication turns the tenant's default
    [deny] into a demand for a second factor.  [second_enrolment_blocks_totp]: a
    revoked TOTP row blocks every later one.  [revoked_authenticator_revived]: a
    resumption that overlaps a revocation undoes it.  [limiter_forgets_too_early]:
    calls of the login limiter whose times come out of order (the clock is read
    before the session is looked up, and the limiter asked after) let more attempts
    into one window than the maximum; [limiter_bounds_every_window] says how much of
    the window is left when they run backwards by at most some skew.

    ** Not modelled

    Serialisation to JSON and JWT, hashing and signatures (third-party);
    handlers, templates and adapters (I/O), the sending of mail and SMS among
    them; the administration use cases, whose effects on the directory are the
    environment's.  Planned, in this order: step-up and the other sign-ins
    (portal, administration, passkey, external) over the completion modelled here;
    changing and resetting passwords; introspection, revocation and logout over the
    tables modelled here; permissions; the proofs of device-bound session keys;
    signing-key rotation; caches; XML canonicalisation. *)

From stdpp Require Export base gmap strings list pretty.
From Stdlib Require Export ZArith Lia Ascii.

(** ** Results

    Rust's [Result<T, E>].  The error type comes first so that [Result E] is a
    monad; [?] of the source is the [let?] notation. *)
Inductive Result (E A : Type) : Type :=
  | Ok (value : A)
  | Err (error : E).
Arguments Ok {E A} value.
Arguments Err {E A} error.

#[export] Instance Result_eq_dec {E A} `{EqDecision E, EqDecision A} :
  EqDecision (Result E A).
Proof. solve_decision. Defined.

#[export] Instance Result_ret {E} : MRet (Result E) := fun _ a => Ok a.
#[export] Instance Result_bind {E} : MBind (Result E) :=
  fun _ _ k r => match r with Ok a => k a | Err e => Err e end.
#[export] Instance Result_fmap {E} : FMap (Result E) :=
  fun _ _ f r => match r with Ok a => Ok (f a) | Err e => Err e end.

Definition is_ok {E A} (r : Result E A) : bool :=
  match r with Ok _ => true | Err _ => false end.
(** [Result::ok]. *)
Definition ok {E A} (r : Result E A) : option A :=
  match r with Ok a => Some a | Err _ => None end.
(** [Result::map_err]. *)
Definition map_err {E F A} (f : E -> F) (r : Result E A) : Result F A :=
  match r with Ok a => Ok a | Err e => Err (f e) end.
(** [Option::ok_or]. *)
Definition ok_or {E A} (e : E) (o : option A) : Result E A :=
  match o with Some a => Ok a | None => Err e end.

Declare Scope assay_scope.
Delimit Scope assay_scope with assay.
Notation "'let?' x ':=' e 'in' k" :=
  (match e with Ok x => k | Err er => Err er end)
  (at level 10, x pattern, e at level 100, k at level 200) : assay_scope.
Open Scope assay_scope.

(** [Option::filter], [Option::is_some_and], [bool::then_some]. *)
Definition opt_filter {A} (p : A -> bool) (o : option A) : option A :=
  match o with Some a => if p a then Some a else None | None => None end.
Definition is_some_and {A} (p : A -> bool) (o : option A) : bool :=
  match o with Some a => p a | None => false end.
Definition is_some {A} (o : option A) : bool :=
  match o with Some _ => true | None => false end.
Definition then_some {A} (b : bool) (a : A) : option A := if b then Some a else None.
Definition unwrap_or {A} (d : A) (o : option A) : A :=
  match o with Some a => a | None => d end.

Lemma is_some_true {A} (o : option A) : is_some o = true <-> is_Some o.
Proof.
  destruct o; cbn; (split; [first [intros _; by eauto | discriminate] | first [done | by intros [? ?]]]).
Qed.

(** ** Time

    [DateTime<Utc>] and [Duration] are nanosecond counts in [Z]: chrono's
    resolution.  [timestamp] rounds towards minus infinity and [num_seconds]
    towards zero, as chrono does. *)
Abbreviation DateTime := Z (only parsing).
Abbreviation Duration := Z (only parsing).
Definition NANOS : Z := 1000000000.
Definition seconds (n : Z) : Duration := (n * NANOS)%Z.
Definition timestamp (t : DateTime) : Z := (t / NANOS)%Z.
Definition num_seconds (d : Duration) : Z := Z.quot d NANOS.

(** The first and last second of chrono's calendar. *)
Definition CHRONO_MAX_SECS : Z := 8210266876799.
Definition CHRONO_MIN_SECS : Z := -8334601228800.

(** ** Machine integers: the wrap-around of [u64 as i64]. *)
Definition u64_max : Z := 18446744073709551615.
Definition i64_max : Z := 9223372036854775807.
Definition u64_as_i64 (n : Z) : Z :=
  if (n <=? i64_max)%Z then n else (n - 18446744073709551616)%Z.

(** ** Identifiers: [Uuid] is a 128-bit number; [TenantId] is a newtype of it. *)
Abbreviation Uuid := N (only parsing).
Abbreviation TenantId := N (only parsing).

(** ** Strings

    A Rust [String]/[&str] is a byte string holding valid UTF-8.  The functions
    of [core::str] the source calls are written out over bytes; they agree with
    the standard library on every valid UTF-8 string because UTF-8 is
    self-synchronising. *)
Open Scope string_scope.

Definition byte (c : ascii) : N := N_of_ascii c.
Definition in_range (lo hi : N) (c : ascii) : bool := ((lo <=? byte c) && (byte c <=? hi))%N.
Definition is_upper (c : ascii) : bool := in_range 65 90 c.
Definition is_lower (c : ascii) : bool := in_range 97 122 c.
Definition is_digit (c : ascii) : bool := in_range 48 57 c.
Definition is_ascii_alphanumeric (c : ascii) : bool := is_upper c || is_lower c || is_digit c.
(** A byte of printable, non-blank ASCII. *)
Definition is_graphic (c : ascii) : bool := in_range 33 126 c.

Fixpoint str_forallb (p : ascii -> bool) (s : string) : bool :=
  match s with "" => true | String c s' => p c && str_forallb p s' end.
Fixpoint str_existsb (p : ascii -> bool) (s : string) : bool :=
  match s with "" => false | String c s' => p c || str_existsb p s' end.

Definition str_is_empty (s : string) : bool := match s with "" => true | _ => false end.
(** [str::len] counts bytes, [chars().count()] counts non-continuation bytes. *)
Definition str_len (s : string) : Z := Z.of_nat (String.length s).
Fixpoint char_count_nat (s : string) : nat :=
  match s with
  | "" => 0
  | String c s' => (if in_range 128 191 c then 0 else 1) + char_count_nat s'
  end.
Definition char_count (s : string) : Z := Z.of_nat (char_count_nat s).

(** [chars().take(n)]. *)
Fixpoint clip_chars (n : nat) (s : string) : string :=
  match s with
  | "" => ""
  | String c s' =>
      if in_range 128 191 c then String c (clip_chars n s')
      else match n with O => "" | S k => String c (clip_chars k s') end
  end.
Definition clip (v : option string) (n : nat) : option string := clip_chars n <$> v.

Definition to_lower (c : ascii) : ascii :=
  if is_upper c then ascii_of_N (byte c + 32)%N else c.
Fixpoint to_ascii_lowercase (s : string) : string :=
  match s with "" => "" | String c s' => String (to_lower c) (to_ascii_lowercase s') end.
Definition eq_ignore_ascii_case (a b : string) : bool :=
  String.eqb (to_ascii_lowercase a) (to_ascii_lowercase b).

(** Length in bytes of the [White_Space] character at the head of a string, 0
    when the head is not one: U+0009-000D, U+0020, U+0085, U+00A0, U+1680,
    U+2000-200A, U+2028, U+2029, U+202F, U+205F and U+3000. *)
Definition ws_len (s : string) : nat :=
  match s with
  | String a s1 =>
      if (in_range 9 13 a || in_range 32 32 a)%bool then 1
      else match s1 with
      | String b s2 =>
          if (in_range 194 194 a && (in_range 133 133 b || in_range 160 160 b))%bool then 2
          else match s2 with
          | String c _ =>
              if ((in_range 225 225 a && in_range 154 154 b && in_range 128 128 c)
                  || (in_range 226 226 a && in_range 128 128 b
                      && (in_range 128 138 c || in_range 168 169 c || in_range 175 175 c))
                  || (in_range 226 226 a && in_range 129 129 b && in_range 159 159 c)
                  || (in_range 227 227 a && in_range 128 128 b && in_range 128 128 c))%bool
              then 3 else 0
          | "" => 0
          end
      | "" => 0
      end
  | "" => 0
  end.

Definition flush (w : string) : list string := match w with "" => [] | _ => [w] end.
Fixpoint split_ws_from (s : string) (skip : nat) (cur : string) : list string :=
  match s with
  | "" => flush cur
  | String c s' =>
      match skip with
      | S k => split_ws_from s' k cur
      | O => match ws_len s with
             | S k => flush cur ++ split_ws_from s' k ""
             | O => split_ws_from s' 0 (cur ++ String c "")
             end
      end
  end.
(** [str::split_whitespace]. *)
Definition split_whitespace (s : string) : list string := split_ws_from s 0 "".

Fixpoint all_ws (s : string) (skip : nat) : bool :=
  match s with
  | "" => true
  | String _ s' =>
      match skip with
      | S k => all_ws s' k
      | O => match ws_len s with S k => all_ws s' k | O => false end
      end
  end.
Fixpoint trim_start_from (s : string) (skip : nat) : string :=
  match s with
  | "" => ""
  | String _ s' =>
      match skip with
      | S k => trim_start_from s' k
      | O => match ws_len s with S k => trim_start_from s' k | O => s end
      end
  end.
Fixpoint trim_end (s : string) : string :=
  if all_ws s 0 then "" else
  match s with "" => "" | String c s' => String c (trim_end s') end.
(** [str::trim]. *)
Definition trim (s : string) : string := trim_end (trim_start_from s 0).

(** [str::split] on one ASCII character; always at least one piece. *)
Fixpoint split_on (sep : ascii) (s : string) : list string :=
  match s with
  | "" => [""]
  | String c s' =>
      if Ascii.eqb c sep then "" :: split_on sep s'
      else match split_on sep s' with
           | w :: ws => String c w :: ws
           | [] => [String c ""]
           end
  end.
(** [[String]::join]. *)
Fixpoint join (sep : string) (ws : list string) : string :=
  match ws with
  | [] => ""
  | [w] => w
  | w :: ws' => w ++ sep ++ join sep ws'
  end.
Definition contains_char (c : ascii) (s : string) : bool := str_existsb (Ascii.eqb c) s.
(** [str::split_once] on one character. *)
Fixpoint split_once (sep : ascii) (s : string) : option (string * string) :=
  match s with
  | "" => None
  | String c s' =>
      if Ascii.eqb c sep then Some ("", s')
      else match split_once sep s' with Some (a, b) => Some (String c a, b) | None => None end
  end.
Definition starts_with (p s : string) : bool := String.prefix p s.

Definition hex_digit_upper (n : N) : ascii :=
  if (n <? 10)%N then ascii_of_N (48 + n)%N else ascii_of_N (55 + n)%N.
(** [format!("{b:02X}")]. *)
Definition hex_upper (c : ascii) : string :=
  String (hex_digit_upper (byte c / 16)%N) (String (hex_digit_upper (byte c mod 16)%N) "").

(** [Option<&str>] with the empty string counted as absent. *)
Definition non_empty (v : option string) : option string :=
  opt_filter (fun s => negb (str_is_empty s)) v.

(** *** String lemmas *)
#[global] Arguments String.append : simpl nomatch.

Lemma str_app_nil_r s : (s ++ "")%string = s.
Proof. induction s as [|c s IH]; cbn; [done | by rewrite IH]. Qed.
Lemma str_app_assoc a b c : ((a ++ b) ++ c)%string = (a ++ (b ++ c))%string.
Proof. induction a as [|x a IH]; cbn; [done | by rewrite IH]. Qed.
Lemma str_app_inv_l a b c : (a ++ b)%string = (a ++ c)%string -> b = c.
Proof. induction a as [|x a IH]; cbn; [done | intros [= H]; auto]. Qed.
Lemma str_forallb_app p a b :
  str_forallb p (a ++ b) = str_forallb p a && str_forallb p b.
Proof. induction a as [|x a IH]; cbn; [done | rewrite IH; by destruct (p x)]. Qed.
Lemma str_forallb_impl (p q : ascii -> bool) s :
  (forall c, p c = true -> q c = true) -> str_forallb p s = true -> str_forallb q s = true.
Proof.
  intros Hpq. induction s as [|c s IH]; cbn; [done|].
  rewrite !andb_true_iff. intros [? ?]; auto.
Qed.
Lemma str_is_empty_true s : str_is_empty s = true <-> s = "".
Proof. by destruct s. Qed.
Lemma str_is_empty_false s : str_is_empty s = false <-> s <> "".
Proof. by destruct s. Qed.

Lemma non_empty_Some v s : non_empty v = Some s <-> v = Some s /\ s <> "".
Proof. destruct v as [[|c t]|]; cbn; naive_solver. Qed.
Lemma non_empty_None v : non_empty v = None <-> v = None \/ v = Some "".
Proof. destruct v as [[|c t]|]; cbn; naive_solver. Qed.

Lemma in_range_spec lo hi c : in_range lo hi c = true <-> (lo <= byte c <= hi)%N.
Proof. unfold in_range. rewrite andb_true_iff, !N.leb_le. done. Qed.
Lemma in_range_out lo hi c : ~ (lo <= byte c <= hi)%N -> in_range lo hi c = false.
Proof. intros H. apply not_true_iff_false. by rewrite in_range_spec. Qed.

(** A word of printable ASCII: what scopes, prompts and acr values are made of. *)
Definition word (w : string) : Prop := w <> "" /\ str_forallb is_graphic w = true.

Lemma ws_len_graphic c s : is_graphic c = true -> ws_len (String c s) = 0%nat.
Proof.
  unfold is_graphic. rewrite in_range_spec. intros Hc. unfold ws_len.
  do 6 (rewrite in_range_out; [|lia]). cbn.
  destruct s as [|b [|d s]]; by cbn.
Qed.

Lemma split_ws_word w cur rest :
  str_forallb is_graphic w = true ->
  split_ws_from (w ++ rest) 0 cur = split_ws_from rest 0 (cur ++ w).
Proof.
  revert cur. induction w as [|c w IH]; intros cur.
  { intros _. by rewrite str_app_nil_r. }
  cbn [str_forallb]. rewrite andb_true_iff. intros [Hc Hw].
  change ((String c w ++ rest)%string) with (String c (w ++ rest)).
  cbn [split_ws_from]. rewrite (ws_len_graphic c _ Hc), (IH _ Hw).
  by rewrite str_app_assoc.
Qed.

Lemma flush_word w : w <> "" -> flush w = [w].
Proof. by destruct w. Qed.

(** Words joined by single spaces split back into themselves. *)
Lemma split_whitespace_join ws :
  Forall word ws -> split_whitespace (join " " ws) = ws.
Proof.
  unfold split_whitespace. induction ws as [|w ws IH]; [done|].
  rewrite Forall_cons. intros [[Hne Hw] Hws]. destruct ws as [|w' ws].
  - cbn [join]. rewrite <- (str_app_nil_r w) at 1. rewrite (split_ws_word _ _ _ Hw).
    cbn. by apply flush_word.
  - change (join " " (w :: w' :: ws)) with (w ++ String " " (join " " (w' :: ws)))%string.
    rewrite (split_ws_word _ _ _ Hw).
    change (split_ws_from (String " " (join " " (w' :: ws))) 0 ("" ++ w))
      with (flush w ++ split_ws_from (join " " (w' :: ws)) 0 "")%list.
    rewrite (IH Hws). by rewrite flush_word.
Qed.

(** *** [trim] *)
(** A prefix has no more white space than the string. *)
Lemma ws_len_prefix a b k : ws_len a = S k -> ws_len (a ++ b) = S k.
Proof.
  destruct a as [|x [|y [|z a]]]; cbn; try done.
  - destruct (in_range 9 13 x || in_range 32 32 x) eqn:E; [|done]. by intros <-.
  - destruct (in_range 9 13 x || in_range 32 32 x) eqn:E; [done|].
    destruct (_ && _) eqn:E2; [done|done].
Qed.
Lemma ws_len_bound s k : ws_len s = S k ->
  k = 0 \/ (k = 1 /\ exists a b s', s = String a (String b s') /\ forall r, ws_len (String b r) = 0)
  \/ (k = 2 /\ exists a b c s', s = String a (String b (String c s'))
        /\ (forall r, ws_len (String b r) = 0) /\ forall r, ws_len (String c r) = 0).
Proof.
  assert (forall b r, in_range 128 191 b = true -> ws_len (String b r) = 0) as Hc.
  { intros b r Hb%in_range_spec. unfold ws_len. rewrite !(in_range_out _ _ b) by lia. cbn.
    by destruct r as [|? [|? ?]]. }
  destruct s as [|x [|y s]]; intros H; unfold ws_len in H; cbn iota in H; [done| |].
  - destruct (_ || _); [|done]. injection H as <-. by left.
  - destruct (in_range 9 13 x || in_range 32 32 x); [injection H as <-; by left|].
    destruct (in_range 194 194 x && (in_range 133 133 y || in_range 160 160 y)) eqn:E.
    + injection H as <-. right. left. split; [done|]. exists x, y, s. split; [done|]. intros r. apply Hc.
      apply andb_true_iff in E as [_ [E|E]%orb_true_iff]; apply in_range_spec in E; apply in_range_spec; lia.
    + destruct s as [|z s]; [done|].
      match type of H with (if ?c then _ else _) = _ => destruct c eqn:E3; [|done] end.
      injection H as <-. do 2 right. split; [done|]. exists x, y, z, s. split; [done|].
      repeat (rewrite orb_true_iff in E3 || rewrite andb_true_iff in E3 || rewrite in_range_spec in E3).
      split; intros r; apply Hc, in_range_spec; lia.
Qed.
Lemma trim_end_cons c s : all_ws (String c s) 0 = false -> trim_end (String c s) = String c (trim_end s).
Proof. intros E. cbn [trim_end]. by rewrite E. Qed.
Lemma trim_end_prefix s : exists r, s = trim_end s ++ r.
Proof.
  induction s as [|c s [r IH]]; [by exists ""|]. cbn [trim_end]. destruct (all_ws (String c s) 0).
  - by exists (String c s).
  - exists r. cbn. by f_equal.
Qed.
(** What is left after [trim_end] is white space only if there was nothing else. *)
Lemma all_ws_trim_end n : forall s, String.length s < n -> all_ws (trim_end s) 0 = true -> all_ws s 0 = true.
Proof.
  induction n as [|n IH]; intros s Hn; [lia|]. destruct s as [|c s]; [done|].
  destruct (all_ws (String c s) 0) eqn:E; [done|]. rewrite trim_end_cons by done. intros H.
  cbn [all_ws] in H. destruct (ws_len (String c (trim_end s))) as [|k] eqn:Ek; [done|].
  destruct (trim_end_prefix s) as [r Hr].
  assert (ws_len (String c s) = S k) as Es.
  { rewrite Hr. change (String c (trim_end s ++ r)) with (String c (trim_end s) ++ r). by apply ws_len_prefix. }
  cbn [all_ws] in E. rewrite Es in E. cbn in Hn.
  destruct (ws_len_bound _ _ Es) as [-> | [(-> & a & b & s' & Hs & Hb) | (-> & a & b & d & s' & Hs & Hb & Hd)]].
  - rewrite (IH s) in E; [done|lia|done].
  - injection Hs as -> ->. cbn in E. assert (all_ws (String b s') 0 = false) as Eb by (cbn [all_ws]; by rewrite Hb).
    rewrite trim_end_cons in H by done. cbn in H. rewrite (IH s') in E; [done|cbn in Hn; lia|done].
  - injection Hs as -> ->. cbn in E.
    assert (all_ws (String b (String d s')) 0 = false) as Eb by (cbn [all_ws]; by rewrite Hb).
    assert (all_ws (String d s') 0 = false) as Ed by (cbn [all_ws]; by rewrite Hd).
    rewrite trim_end_cons in H by done. rewrite trim_end_cons in H by done. cbn in H.
    rewrite (IH s') in E; [done|cbn in Hn; lia|done].
Qed.
Lemma trim_end_idempotent s : trim_end (trim_end s) = trim_end s.
Proof.
  induction s as [|c s IH]; [done|]. destruct (all_ws (String c s) 0) eqn:E.
  - cbn [trim_end]. by rewrite E.
  - rewrite trim_end_cons by done. rewrite trim_end_cons; [by rewrite IH|].
    destruct (all_ws (String c (trim_end s)) 0) eqn:Ea; [|done].
    rewrite <- trim_end_cons in Ea by done. apply (all_ws_trim_end (S (String.length (String c s)))) in Ea; [|lia].
    congruence.
Qed.
(** A string that does not start with white space, and what remains of it. *)
Lemma trim_start_ws s k : trim_start_from s k = "" \/ ws_len (trim_start_from s k) = 0.
Proof.
  revert k. induction s as [|c s IH]; intros k; [by left|]. cbn [trim_start_from]. destruct k as [|k]; [|apply IH].
  destruct (ws_len (String c s)) as [|k] eqn:E; [by right|apply IH].
Qed.
Lemma trim_idempotent s : trim (trim s) = trim s.
Proof.
  unfold trim. destruct (trim_start_ws s 0) as [-> | Hs]; [done|].
  set (t := trim_start_from s 0) in *. 
  assert (trim_start_from (trim_end t) 0 = trim_end t) as ->; [|apply trim_end_idempotent].
  destruct t as [|c t]; [done|]. destruct (all_ws (String c t) 0) eqn:E.
  - cbn [trim_end]. by rewrite E.
  - rewrite trim_end_cons by done. cbn [trim_start_from].
    destruct (ws_len (String c (trim_end t))) as [|k] eqn:Ek; [done|].
    destruct (trim_end_prefix t) as [r Hr]. apply (ws_len_prefix _ r) in Ek. cbn in Ek. rewrite <- Hr in Ek.
    unfold ws_len in Hs. congruence.
Qed.

(** Splitting on a separator undoes joining with it. *)
Lemma join_split_on sep s : join (String sep "") (split_on sep s) = s.
Proof.
  induction s as [|c s IH]; [done|]. cbn [split_on].
  destruct (Ascii.eqb_spec c sep) as [->|].
  - destruct (split_on sep s) as [|w ws] eqn:E; [by destruct s; cbn in E; repeat case_match|].
    cbn [join]. by rewrite <- IH.
  - destruct (split_on sep s) as [|w [|w' ws]]; cbn in *; by rewrite <- IH.
Qed.
Lemma split_on_free sep w :
  str_forallb (fun c => negb (Ascii.eqb c sep)) w = true -> split_on sep w = [w].
Proof.
  induction w as [|c w IH]; [done|]. cbn. rewrite andb_true_iff, negb_true_iff.
  intros [-> Hw]. by rewrite (IH Hw).
Qed.
Lemma split_on_app sep w rest :
  str_forallb (fun c => negb (Ascii.eqb c sep)) w = true ->
  split_on sep (w ++ String sep rest) = w :: split_on sep rest.
Proof.
  induction w as [|c w IH]; cbn.
  - intros _. by rewrite Ascii.eqb_refl.
  - rewrite andb_true_iff, negb_true_iff. intros [-> Hw]. by rewrite (IH Hw).
Qed.
Lemma split_on_join sep ws :
  ws <> [] ->
  Forall (fun w => str_forallb (fun c => negb (Ascii.eqb c sep)) w = true) ws ->
  split_on sep (join (String sep "") ws) = ws.
Proof.
  induction ws as [|w ws IH]; [done|]. intros _. rewrite Forall_cons. intros [Hw Hws].
  destruct ws as [|w' ws]; [by apply split_on_free|].
  change (join (String sep "") (w :: w' :: ws))
    with (w ++ String sep (join (String sep "") (w' :: ws)))%string.
  rewrite split_on_app by done. by rewrite IH.
Qed.

(** ** String enums

    The macro [string_enum!] of [domain/values.rs] turns a list of
    [Variant => "literal"] lines into an enum with [as_str] and [parse].  An
    instance of the class below is that list; [as_str] and [parse] are the two
    functions the macro generates from it. *)
Inductive DomainError : Type :=
  | NotFound
  | Conflict (what : string)
  | InvalidValue (what : string)
  | Repository (what : string).
#[export] Instance DomainError_eq_dec : EqDecision DomainError.
Proof. solve_decision. Defined.

Class StringEnum (A : Type) `{EqDecision A} := {
  enum_name : string;
  enum_table : list (A * string);
  enum_total : forall v, v ∈ enum_table.*1;
  enum_variants_distinct : NoDup enum_table.*1;
  enum_literals_distinct : NoDup enum_table.*2
}.
Arguments enum_name A {_ _}.
Arguments enum_table A {_ _}.

Section string_enum.
Context {A : Type} `{StringEnum A}.

Fixpoint table_literal (v : A) (l : list (A * string)) : string :=
  match l with
  | [] => ""
  | (v', s) :: l' => if decide (v' = v) then s else table_literal v l'
  end.
Fixpoint table_variant (s : string) (l : list (A * string)) : option A :=
  match l with
  | [] => None
  | (v, s') :: l' => if String.eqb s' s then Some v else table_variant s l'
  end.
Definition as_str (v : A) : string := table_literal v (enum_table A).
Definition parse (s : string) : Result DomainError A :=
  match table_variant s (enum_table A) with
  | Some v => Ok v
  | None => Err (InvalidValue (enum_name A ++ ": " ++ s))
  end.

Lemma table_literal_elem v l : v ∈ l.*1 -> (v, table_literal v l) ∈ l.
Proof.
  induction l as [|[v' s] l IH]; cbn; [set_solver|].
  rewrite elem_of_cons. case_decide as Hv; subst; intros; [left; done|].
  right. apply IH. naive_solver.
Qed.
Lemma table_literal_unique v s l : NoDup l.*1 -> (v, s) ∈ l -> table_literal v l = s.
Proof.
  induction l as [|[v' s'] l IH]; cbn; [set_solver|].
  rewrite NoDup_cons, elem_of_cons. intros [Hnin Hnd] Hin. case_decide as Hv; subst.
  - destruct Hin as [[= ->]|Hin]; [done|]. exfalso. apply Hnin, list_elem_of_fmap. by exists (v, s).
  - apply IH; naive_solver.
Qed.
Lemma table_variant_elem v s l : NoDup l.*2 -> (v, s) ∈ l -> table_variant s l = Some v.
Proof.
  induction l as [|[v' s'] l IH]; cbn; [set_solver|].
  rewrite NoDup_cons, elem_of_cons. intros [Hnin Hnd] [[= -> ->]|Hin].
  - by rewrite String.eqb_refl.
  - destruct (String.eqb_spec s' s) as [->|]; [|by apply IH].
    exfalso. apply Hnin. apply list_elem_of_fmap. by exists (v, s).
Qed.
Lemma table_variant_Some v s l : table_variant s l = Some v -> (v, s) ∈ l.
Proof.
  induction l as [|[v' s'] l IH]; cbn; [done|].
  rewrite elem_of_cons. destruct (String.eqb_spec s' s) as [->|]; naive_solver.
Qed.

Lemma parse_as_str v : parse (as_str v) = Ok v.
Proof.
  unfold parse. erewrite table_variant_elem; [done|apply enum_literals_distinct|].
  apply table_literal_elem, enum_total.
Qed.
Lemma as_str_inj v w : as_str v = as_str w -> v = w.
Proof. intros E. apply (f_equal parse) in E. rewrite !parse_as_str in E. by injection E. Qed.
Lemma parse_Ok s v : parse s = Ok v <-> s = as_str v.
Proof.
  split; [|intros ->; apply parse_as_str].
  unfold parse. destruct (table_variant s _) as [v'|] eqn:E; [|done].
  intros [= <-]. apply table_variant_Some in E. symmetry. unfold as_str.
  apply table_literal_unique; [apply enum_variants_distinct | done].
Qed.
Lemma parse_Err s : is_ok (parse s) = false <-> forall v : A, s <> as_str v.
Proof.
  split.
  - intros E v ->. by rewrite parse_as_str in E.
  - intros Hs. destruct (parse s) as [v|] eqn:E; [|done].
    apply parse_Ok in E. by destruct (Hs v).
Qed.
(** Stored enumerations are read back exactly.  For every enumeration the
    sources declare with [string_enum!], a string parses to a variant if and only
    if it is that variant's literal, distinct variants have distinct literals, and
    a string that is no literal is an error. *)
Theorem string_enum_exact :
  (forall s (v : A), parse s = Ok v <-> s = as_str v)
  /\ (forall v w : A, as_str v = as_str w -> v = w)
  /\ (forall s, is_ok (parse s) = false <-> forall v : A, s <> as_str v).
Proof. split; [apply parse_Ok|]. split; [apply as_str_inj | apply parse_Err]. Qed.
End string_enum.
#[global] Arguments as_str : simpl never.
#[global] Arguments parse : simpl never.
#[global] Arguments non_empty : simpl never.
