(* ===== verification/Values.v ===== *)
(** * Enumerations and value objects ([domain/values.rs])

    The enums stored as VARCHAR columns with their literals, the vocabulary of
    authentication methods and strengths, the length checks on user-supplied
    names, and the [prompt] set of an authorization request.

    Variants carry a prefix where Rust qualifies them by their type
    ([UserStatus::Active] is [UserActive]). *)

From S2P Require Import Prelude.

(** Discharges the laws of a [StringEnum] by evaluating them. *)
Ltac solve_enum :=
  first [ by intros []; apply (bool_decide_unpack _); vm_compute
        | by apply (bool_decide_unpack _); vm_compute ].

(** ** The [string_enum!] types *)
Inductive UserStatus : Type := UserActive | UserDisabled | UserLocked.
#[export] Instance UserStatus_eq_dec : EqDecision UserStatus.
Proof. solve_decision. Defined.
#[export] Program Instance UserStatus_enum : StringEnum UserStatus := {
  enum_name := "UserStatus";
  enum_table := [(UserActive, "ACTIVE");
                 (UserDisabled, "DISABLED");
                 (UserLocked, "LOCKED")]
}.
Solve All Obligations with solve_enum.

Inductive TenantStatus : Type := TenantActive | TenantDisabled.
#[export] Instance TenantStatus_eq_dec : EqDecision TenantStatus.
Proof. solve_decision. Defined.
#[export] Program Instance TenantStatus_enum : StringEnum TenantStatus := {
  enum_name := "TenantStatus";
  enum_table := [(TenantActive, "ACTIVE");
                 (TenantDisabled, "DISABLED")]
}.
Solve All Obligations with solve_enum.

Inductive MembershipType : Type := MemberHome | MemberGuest.
#[export] Instance MembershipType_eq_dec : EqDecision MembershipType.
Proof. solve_decision. Defined.
#[export] Program Instance MembershipType_enum : StringEnum MembershipType := {
  enum_name := "MembershipType";
  enum_table := [(MemberHome, "HOME");
                 (MemberGuest, "GUEST")]
}.
Solve All Obligations with solve_enum.

Inductive MembershipStatus : Type := MembershipInvited | MembershipActive | MembershipSuspended.
#[export] Instance MembershipStatus_eq_dec : EqDecision MembershipStatus.
Proof. solve_decision. Defined.
#[export] Program Instance MembershipStatus_enum : StringEnum MembershipStatus := {
  enum_name := "MembershipStatus";
  enum_table := [(MembershipInvited, "INVITED");
                 (MembershipActive, "ACTIVE");
                 (MembershipSuspended, "SUSPENDED")]
}.
Solve All Obligations with solve_enum.

Inductive ResourceStatus : Type := ResourceActive | ResourceDisabled.
#[export] Instance ResourceStatus_eq_dec : EqDecision ResourceStatus.
Proof. solve_decision. Defined.
#[export] Program Instance ResourceStatus_enum : StringEnum ResourceStatus := {
  enum_name := "ResourceStatus";
  enum_table := [(ResourceActive, "ACTIVE");
                 (ResourceDisabled, "DISABLED")]
}.
Solve All Obligations with solve_enum.

Inductive ApplicationStatus : Type := ApplicationActive | ApplicationDisabled.
#[export] Instance ApplicationStatus_eq_dec : EqDecision ApplicationStatus.
Proof. solve_decision. Defined.
#[export] Program Instance ApplicationStatus_enum : StringEnum ApplicationStatus := {
  enum_name := "ApplicationStatus";
  enum_table := [(ApplicationActive, "ACTIVE");
                 (ApplicationDisabled, "DISABLED")]
}.
Solve All Obligations with solve_enum.

Inductive AssignmentMode : Type := AssignEveryone | AssignIndividual.
#[export] Instance AssignmentMode_eq_dec : EqDecision AssignmentMode.
Proof. solve_decision. Defined.
#[export] Program Instance AssignmentMode_enum : StringEnum AssignmentMode := {
  enum_name := "AssignmentMode";
  enum_table := [(AssignEveryone, "EVERYONE");
                 (AssignIndividual, "INDIVIDUAL")]
}.
Solve All Obligations with solve_enum.

Inductive AssignmentEnforcement : Type := AssignmentRecordOnly | AssignmentEnforce.
#[export] Instance AssignmentEnforcement_eq_dec : EqDecision AssignmentEnforcement.
Proof. solve_decision. Defined.
#[export] Program Instance AssignmentEnforcement_enum : StringEnum AssignmentEnforcement := {
  enum_name := "AssignmentEnforcement";
  enum_table := [(AssignmentRecordOnly, "record_only");
                 (AssignmentEnforce, "enforce")]
}.
Solve All Obligations with solve_enum.

Inductive ClientType : Type := ClientPublic | ClientConfidential.
#[export] Instance ClientType_eq_dec : EqDecision ClientType.
Proof. solve_decision. Defined.
#[export] Program Instance ClientType_enum : StringEnum ClientType := {
  enum_name := "ClientType";
  enum_table := [(ClientPublic, "public");
                 (ClientConfidential, "confidential")]
}.
Solve All Obligations with solve_enum.

Inductive ClientStatus : Type := ClientActive | ClientDisabled | ClientDeleted.
#[export] Instance ClientStatus_eq_dec : EqDecision ClientStatus.
Proof. solve_decision. Defined.
#[export] Program Instance ClientStatus_enum : StringEnum ClientStatus := {
  enum_name := "ClientStatus";
  enum_table := [(ClientActive, "ACTIVE");
                 (ClientDisabled, "DISABLED");
                 (ClientDeleted, "DELETED")]
}.
Solve All Obligations with solve_enum.

Inductive TokenEndpointAuthMethod : Type := AuthClientSecretBasic | AuthClientSecretPost | AuthPrivateKeyJwt | AuthNone.
#[export] Instance TokenEndpointAuthMethod_eq_dec : EqDecision TokenEndpointAuthMethod.
Proof. solve_decision. Defined.
#[export] Program Instance TokenEndpointAuthMethod_enum : StringEnum TokenEndpointAuthMethod := {
  enum_name := "TokenEndpointAuthMethod";
  enum_table := [(AuthClientSecretBasic, "client_secret_basic");
                 (AuthClientSecretPost, "client_secret_post");
                 (AuthPrivateKeyJwt, "private_key_jwt");
                 (AuthNone, "none")]
}.
Solve All Obligations with solve_enum.

Inductive SigningKeyStatus : Type := KeyActive | KeyRetired.
#[export] Instance SigningKeyStatus_eq_dec : EqDecision SigningKeyStatus.
Proof. solve_decision. Defined.
#[export] Program Instance SigningKeyStatus_enum : StringEnum SigningKeyStatus := {
  enum_name := "SigningKeyStatus";
  enum_table := [(KeyActive, "ACTIVE");
                 (KeyRetired, "RETIRED")]
}.
Solve All Obligations with solve_enum.

Inductive SigningAlgorithm : Type := Rs256 | Es256.
#[export] Instance SigningAlgorithm_eq_dec : EqDecision SigningAlgorithm.
Proof. solve_decision. Defined.
#[export] Program Instance SigningAlgorithm_enum : StringEnum SigningAlgorithm := {
  enum_name := "SigningAlgorithm";
  enum_table := [(Rs256, "RS256");
                 (Es256, "ES256")]
}.
Solve All Obligations with solve_enum.

Inductive CodeChallengeMethod : Type := S256.
#[export] Instance CodeChallengeMethod_eq_dec : EqDecision CodeChallengeMethod.
Proof. solve_decision. Defined.
#[export] Program Instance CodeChallengeMethod_enum : StringEnum CodeChallengeMethod := {
  enum_name := "CodeChallengeMethod";
  enum_table := [(S256, "S256")]
}.
Solve All Obligations with solve_enum.

Inductive Prompt : Type := PromptNone | PromptLogin | PromptConsent | PromptSelectAccount.
#[export] Instance Prompt_eq_dec : EqDecision Prompt.
Proof. solve_decision. Defined.
#[export] Program Instance Prompt_enum : StringEnum Prompt := {
  enum_name := "Prompt";
  enum_table := [(PromptNone, "none");
                 (PromptLogin, "login");
                 (PromptConsent, "consent");
                 (PromptSelectAccount, "select_account")]
}.
Solve All Obligations with solve_enum.

Inductive Scope : Type := ScopeOpenId | ScopeProfile | ScopeEmail | ScopeOfflineAccess.
#[export] Instance Scope_eq_dec : EqDecision Scope.
Proof. solve_decision. Defined.
#[export] Program Instance Scope_enum : StringEnum Scope := {
  enum_name := "Scope";
  enum_table := [(ScopeOpenId, "openid");
                 (ScopeProfile, "profile");
                 (ScopeEmail, "email");
                 (ScopeOfflineAccess, "offline_access")]
}.
Solve All Obligations with solve_enum.

Inductive GrantType : Type := GrantAuthorizationCode | GrantRefreshToken | GrantClientCredentials.
#[export] Instance GrantType_eq_dec : EqDecision GrantType.
Proof. solve_decision. Defined.
#[export] Program Instance GrantType_enum : StringEnum GrantType := {
  enum_name := "GrantType";
  enum_table := [(GrantAuthorizationCode, "authorization_code");
                 (GrantRefreshToken, "refresh_token");
                 (GrantClientCredentials, "client_credentials")]
}.
Solve All Obligations with solve_enum.

Inductive AuthenticationMethod : Type := Password | Totp | WebAuthn | RecoveryCode | EmailOtp | SmsOtp | ExternalIdp | AppApproval.
#[export] Instance AuthenticationMethod_eq_dec : EqDecision AuthenticationMethod.
Proof. solve_decision. Defined.
#[export] Program Instance AuthenticationMethod_enum : StringEnum AuthenticationMethod := {
  enum_name := "AuthenticationMethod";
  enum_table := [(Password, "password");
                 (Totp, "totp");
                 (WebAuthn, "webauthn");
                 (RecoveryCode, "recovery_code");
                 (EmailOtp, "email_otp");
                 (SmsOtp, "sms_otp");
                 (ExternalIdp, "external_idp");
                 (AppApproval, "app_approval")]
}.
Solve All Obligations with solve_enum.

(** ** Authentication methods and strength *)

(** [AuthenticationMethod::amr]: the RFC 8176 reference of a method. *)
Definition amr (m : AuthenticationMethod) : string :=
  match m with
  | Password => "pwd"
  | Totp => "otp"
  | WebAuthn => "hwk"
  | RecoveryCode => "rba"
  | EmailOtp | SmsOtp => "otp"
  | ExternalIdp => "fed"
  | AppApproval => "hwk"
  end.

(** [AuthenticationMethod::is_second_factor]. *)
Definition is_second_factor (m : AuthenticationMethod) : bool :=
  match m with
  | Totp | WebAuthn | RecoveryCode | EmailOtp | SmsOtp | AppApproval => true
  | _ => false
  end.

(** [AuthenticationMethod::ALL] and [AuthenticationMethod::SECOND_FACTORS]. *)
Definition ALL_METHODS : list AuthenticationMethod :=
  [Password; Totp; WebAuthn; RecoveryCode; EmailOtp; SmsOtp; ExternalIdp; AppApproval].
Definition SECOND_FACTORS : list AuthenticationMethod :=
  [Totp; WebAuthn; RecoveryCode; EmailOtp; SmsOtp; AppApproval].

Definition ACR_MULTI_FACTOR : string := "urn:assay:ac:mfa".
Definition ACR_SINGLE_FACTOR : string := "urn:assay:ac:single".
Definition SUPPORTED_ACR_VALUES : list string := [ACR_MULTI_FACTOR; ACR_SINGLE_FACTOR].

Inductive AuthenticationStrength : Type := SingleFactor | MultiFactor.
#[export] Instance AuthenticationStrength_eq_dec : EqDecision AuthenticationStrength.
Proof. solve_decision. Defined.
#[export] Program Instance AuthenticationStrength_enum : StringEnum AuthenticationStrength := {
  enum_name := "AuthenticationStrength";
  enum_table := [(SingleFactor, "single_factor"); (MultiFactor, "multi_factor")]
}.
Solve All Obligations with solve_enum.

(** [AuthenticationStrength::from_methods]. *)
Definition from_methods (methods : list AuthenticationMethod) : AuthenticationStrength :=
  if existsb is_second_factor methods then MultiFactor else SingleFactor.

(** [AuthenticationStrength::satisfies]. *)
Definition satisfies (s required : AuthenticationStrength) : bool :=
  match required with
  | SingleFactor => true
  | MultiFactor => bool_decide (s = MultiFactor)
  end.

(** [AuthenticationStrength::acr]. *)
Definition acr (s : AuthenticationStrength) : string :=
  match s with SingleFactor => ACR_SINGLE_FACTOR | MultiFactor => ACR_MULTI_FACTOR end.

(** ** Translation keys and the length checks ([domain/message.rs]) *)
Record MessageKey : Type := { mk_key : string; mk_value : option string }.
#[export] Instance MessageKey_eq_dec : EqDecision MessageKey.
Proof. solve_decision. Defined.
Definition message (key : string) : MessageKey := {| mk_key := key; mk_value := None |}.
Definition message_with_value (key value : string) : MessageKey :=
  {| mk_key := key; mk_value := Some value |}.

Definition EMAIL_MAX_LEN : Z := 320.
Definition PREFERRED_USERNAME_MAX_LEN : Z := 255.
Definition DISPLAY_NAME_MAX_LEN : Z := 255.

Definition validate_email (email : string) : Result MessageKey unit :=
  if (EMAIL_MAX_LEN <? char_count email)%Z
  then Err (message_with_value "api-email-too-long" (pretty EMAIL_MAX_LEN))
  else match split_on "@" email with
       | [local; domain] =>
           if negb (str_is_empty local) && negb (str_is_empty domain)
           then Ok tt else Err (message "api-email-invalid")
       | _ => Err (message "api-email-invalid")
       end.

Definition validate_preferred_username (value : string) : Result MessageKey unit :=
  if (PREFERRED_USERNAME_MAX_LEN <? char_count value)%Z
  then Err (message_with_value "api-username-too-long" (pretty PREFERRED_USERNAME_MAX_LEN))
  else Ok tt.

Definition validate_display_name (value : string) : Result MessageKey unit :=
  if (DISPLAY_NAME_MAX_LEN <? char_count value)%Z
  then Err (message_with_value "api-display-name-too-long" (pretty DISPLAY_NAME_MAX_LEN))
  else Ok tt.

(** ** The [prompt] set *)
Definition PromptSet : Type := list Prompt.

(** One turn of the loop of [PromptSet::parse]. *)
Definition prompt_push (values : PromptSet) (token : string) : PromptSet :=
  match parse token with
  | Ok prompt => if decide (prompt ∈ values) then values else (values ++ [prompt])%list
  | Err _ => values
  end.
Definition prompt_parse (raw : string) : PromptSet :=
  fold_left prompt_push (split_whitespace raw) [].
Definition prompt_to_storage (p : PromptSet) : option string :=
  match p with [] => None | _ => Some (join " " (map as_str p)) end.
Definition prompt_contains (p : PromptSet) (x : Prompt) : bool := bool_decide (x ∈ p).
Definition prompt_is_empty (p : PromptSet) : bool :=
  match p with [] => true | _ => false end.

(** ** Lemmas *)

(** The enumeration of second factors and the predicate agree. *)
Lemma second_factors_spec m : m ∈ SECOND_FACTORS <-> is_second_factor m = true.
Proof. destruct m; cbn; set_solver. Qed.
Lemma all_methods_complete m : m ∈ ALL_METHODS.
Proof. destruct m; apply (bool_decide_unpack _); vm_compute; exact I. Qed.

Lemma from_methods_multi ms :
  from_methods ms = MultiFactor <-> exists m, m ∈ ms /\ is_second_factor m = true.
Proof.
  unfold from_methods. destruct (existsb _ _) eqn:E.
  - apply existsb_exists in E as (m & Hin & Hm). split; [|done].
    intros _. exists m. by rewrite list_elem_of_In.
  - split; [done|]. intros (m & Hin & Hm). exfalso.
    apply not_true_iff_false in E. apply E, existsb_exists.
    exists m. by rewrite <- list_elem_of_In.
Qed.
Lemma from_methods_app ms ms' :
  from_methods ms = MultiFactor -> from_methods (ms ++ ms')%list = MultiFactor.
Proof. rewrite !from_methods_multi. set_solver. Qed.

Lemma satisfies_refl s : satisfies s s = true.
Proof. by destruct s. Qed.
Lemma satisfies_multi r : satisfies MultiFactor r = true.
Proof. by destruct r. Qed.
Lemma acr_supported s : acr s ∈ SUPPORTED_ACR_VALUES.
Proof. destruct s; cbn; set_solver. Qed.

Lemma prompt_literal_word (p : Prompt) : word (as_str p).
Proof. by destruct p. Qed.
Lemma prompt_push_NoDup p token : NoDup p -> NoDup (prompt_push p token).
Proof.
  intros Hp. unfold prompt_push. destruct (parse token) as [x|]; [|done].
  case_decide as Hin; [done|]. apply NoDup_app. split_and!; [done| |apply NoDup_singleton].
  set_solver.
Qed.
Lemma prompt_parse_NoDup raw : NoDup (prompt_parse raw).
Proof.
  unfold prompt_parse. generalize (split_whitespace raw) as ws.
  assert (forall ws p, NoDup p -> NoDup (fold_left prompt_push ws p)) as H.
  { induction ws as [|w ws IH]; cbn; intros p Hp; [done|]. by apply IH, prompt_push_NoDup. }
  intros ws. apply H, NoDup_nil_2.
Qed.
Lemma prompt_fold_literals (p acc : PromptSet) :
  NoDup (acc ++ p)%list -> fold_left prompt_push (map as_str p) acc = (acc ++ p)%list.
Proof.
  revert acc. induction p as [|x p IH]; intros acc; cbn.
  { by rewrite app_nil_r. }
  intros Hnd. unfold prompt_push at 2. rewrite parse_as_str.
  rewrite decide_False; last first.
  { apply NoDup_app in Hnd as (_ & Hd & _). intros Hx. apply (Hd x Hx). set_solver. }
  rewrite IH; rewrite <- (assoc_L (++)%list); done.
Qed.

(** What [to_storage] writes is read back as the same set. *)
Lemma prompt_storage_roundtrip p :
  NoDup p -> prompt_parse (unwrap_or "" (prompt_to_storage p)) = p.
Proof.
  intros Hp. destruct p as [|x p]; [done|].
  unfold prompt_parse, prompt_to_storage, unwrap_or.
  rewrite split_whitespace_join.
  - rewrite prompt_fold_literals; done.
  - apply Forall_map, Forall_forall. intros y _. apply prompt_literal_word.
Qed.

Lemma prompt_contains_spec p x : prompt_contains p x = true <-> x ∈ p.
Proof. apply bool_decide_eq_true. Qed.

(** ** OAuth 2.0 / OIDC error codes ([domain/error.rs]) *)
Inductive OAuthErrorCode : Type :=
  | InvalidRequest | InvalidClient | InvalidGrant | UnauthorizedClient | UnsupportedGrantType
  | UnsupportedResponseType | InvalidScope | AccessDenied | ServerError | LoginRequired
  | ConsentRequired | InteractionRequired | InvalidTarget | InvalidDpopProof.
#[export] Instance OAuthErrorCode_eq_dec : EqDecision OAuthErrorCode.
Proof. solve_decision. Defined.
Definition error_code_as_str (e : OAuthErrorCode) : string :=
  match e with
  | InvalidRequest => "invalid_request"
  | InvalidClient => "invalid_client"
  | InvalidGrant => "invalid_grant"
  | UnauthorizedClient => "unauthorized_client"
  | UnsupportedGrantType => "unsupported_grant_type"
  | UnsupportedResponseType => "unsupported_response_type"
  | InvalidScope => "invalid_scope"
  | AccessDenied => "access_denied"
  | ServerError => "server_error"
  | LoginRequired => "login_required"
  | ConsentRequired => "consent_required"
  | InteractionRequired => "interaction_required"
  | InvalidTarget => "invalid_target"
  | InvalidDpopProof => "invalid_dpop_proof"
  end.
