(* ===== verification/Decimal.v ===== *)
(** * Decimal numbers in text

    [i64] as [Display] prints it and [str::parse] reads it. *)

From S2P Require Import Prelude.

Definition decimal_digit (c : ascii) : option Z :=
  if is_digit c then Some (Z.of_N (byte c) - 48)%Z else None.
(** The digits of [from_str_radix(_, 10)]; [None] at the first character that is
    none. *)
Fixpoint digits_from (acc : Z) (s : string) : option Z :=
  match s with
  | "" => Some acc
  | String c s' => d ← decimal_digit c; digits_from (acc * 10 + d) s'
  end.
Definition i64_min : Z := (-9223372036854775808)%Z.
Definition in_i64 (z : Z) : bool := (i64_min <=? z)%Z && (z <=? i64_max)%Z.
(** [<i64 as FromStr>::from_str]: an optional sign, then at least one digit; the
    value has to fit. *)
Definition parse_i64 (s : string) : option Z :=
  z ← match s with
      | "" => None
      | String "+" "" | String "-" "" => None
      | String "+" s' => digits_from 0 s'
      | String "-" s' => Z.opp <$> digits_from 0 s'
      | _ => digits_from 0 s
      end;
  if in_i64 z then Some z else None.
(** [Display for i64]. *)
Definition i64_to_string (z : Z) : string := pretty z.

(** ** Printing and reading *)
Lemma decimal_digit_pretty x :
  (x < 10)%N -> decimal_digit (pretty_N_char x) = Some (Z.of_N x).
Proof.
  intros H.
  assert (x = 0 \/ x = 1 \/ x = 2 \/ x = 3 \/ x = 4 \/ x = 5 \/ x = 6 \/ x = 7 \/ x = 8 \/ x = 9)%N as Hx by lia.
  by repeat destruct Hx as [-> | Hx]; [..|subst x].
Qed.
Lemma pretty_N_go_length y : forall t,
  String.length (pretty_N_go y t) = (String.length (pretty_N_go y "") + String.length t)%nat.
Proof.
  induction (N.lt_wf_0 y) as [y _ IH]. intros t.
  destruct (decide (y = 0)%N) as [->|Hy]; [by rewrite !pretty_N_go_0|].
  assert (y `div` 10 < y)%N as Hlt by (apply N.div_lt; lia).
  rewrite !(pretty_N_go_step y) by lia. rewrite !(IH _ Hlt (String _ _)). cbn. lia.
Qed.
Lemma digits_from_go x :
  forall s acc, digits_from acc (pretty_N_go x s)
    = digits_from (acc * 10 ^ Z.of_nat (String.length (pretty_N_go x "")) + Z.of_N x) s.
Proof.
  induction (N.lt_wf_0 x) as [x _ IH]. intros s acc.
  destruct (decide (x = 0)%N) as [->|Hx].
  { rewrite !pretty_N_go_0. cbn [String.length]. f_equal. lia. }
  assert (0 < x)%N as Hpos by lia.
  assert (x `div` 10 < x)%N as Hlt by by apply N.div_lt.
  rewrite !(pretty_N_go_step x) by done. rewrite IH by done. cbn [digits_from].
  rewrite decimal_digit_pretty by (apply N.mod_lt; lia). cbn [mbind option_bind].
  rewrite (pretty_N_go_length _ (String _ _)). cbn [String.length]. f_equal.
  rewrite Nat2Z.inj_add, Z.pow_add_r by lia. change (10 ^ Z.of_nat 1)%Z with 10%Z.
  pose proof (N.div_mod' x 10). lia.
Qed.
Lemma digits_from_pretty (x : N) : digits_from 0 (pretty x) = Some (Z.of_N x).
Proof.
  unfold pretty, pretty_N. case_decide as E; [by subst|]. rewrite digits_from_go. cbn. done.
Qed.
(** What a printed natural starts with. *)
Lemma pretty_N_head (x : N) : exists c s, pretty x = String c s /\ is_digit c = true.
Proof.
  pose proof (digits_from_pretty x) as H. destruct (pretty x) as [|c s] eqn:E.
  { unfold pretty, pretty_N in E. case_decide as Ex; [done|].
    exfalso. assert (String.length (pretty_N_go x "") = 0)%nat as L by by rewrite E.
    rewrite pretty_N_go_step in L by lia.
    rewrite pretty_N_go_length in L. cbn in L. lia. }
  exists c, s. split; [done|]. cbn in H. unfold decimal_digit in H. by destruct (is_digit c).
Qed.
Lemma parse_i64_to_string z : in_i64 z = true -> parse_i64 (i64_to_string z) = Some z.
Proof.
  intros Hz. unfold parse_i64, i64_to_string.
  assert (forall p, exists c s, pretty p = String c s /\ is_digit c = true
            /\ digits_from 0 (String c s) = Some (Z.pos p)) as Hp.
  { intros p. destruct (pretty_N_head (Npos p)) as (c & s & E & Hc).
    exists c, s. split; [exact E|]. split; [done|]. rewrite <- E. apply digits_from_pretty. }
  destruct z as [|p|p]; [done| |]; destruct (Hp p) as (c & s & E & Hc & Hd).
  - change (pretty (Z.pos p)) with (pretty p). rewrite E.
    destruct c as [[] [] [] [] [] [] [] []]; try done; cbv beta iota; rewrite Hd; cbn [mbind option_bind];
      by rewrite Hz.
  - change (pretty (Z.neg p)) with (String "-" (pretty p)). rewrite E, Hd. cbn [fmap option_fmap option_map mbind option_bind].
    change (- Z.pos p)%Z with (Z.neg p). by rewrite Hz.
Qed.
(** Only digits and a sign. *)
Lemma str_forallb_pretty_N_go (p : ascii -> bool) x :
  (forall d, (d < 10)%N -> p (pretty_N_char d) = true) ->
  forall s, str_forallb p s = true -> str_forallb p (pretty_N_go x s) = true.
Proof.
  intros Hp. induction (N.lt_wf_0 x) as [x _ IH]. intros s Hs.
  destruct (decide (x = 0)%N) as [->|Hx]; [by rewrite pretty_N_go_0|].
  rewrite pretty_N_go_step by lia. apply IH; [by apply N.div_lt; lia|].
  cbn. rewrite Hs, andb_true_r. apply Hp, N.mod_lt. lia.
Qed.
Lemma i64_to_string_free (sep : ascii) z :
  is_digit sep = false -> sep <> "-"%char ->
  str_forallb (fun c => negb (Ascii.eqb c sep)) (i64_to_string z) = true.
Proof.
  intros Hsep Hm.
  assert (forall d, (d < 10)%N -> negb (Ascii.eqb (pretty_N_char d) sep) = true) as Hd.
  { intros d Hd. apply negb_true_iff, Ascii.eqb_neq. intros <-.
    apply decimal_digit_pretty in Hd. unfold decimal_digit in Hd. by rewrite Hsep in Hd. }
  assert (forall x : N, str_forallb (fun c => negb (Ascii.eqb c sep)) (pretty x) = true) as Hn.
  { intros x. unfold pretty, pretty_N. case_decide; [cbn [str_forallb]; rewrite andb_true_r; by apply (Hd 0%N)|].
    by apply str_forallb_pretty_N_go. }
  destruct z as [|p|p]; [by apply (Hn 0%N)|apply (Hn (Npos p))|].
  change (i64_to_string (Z.neg p)) with (String "-" (pretty (Npos p))). cbn [str_forallb].
  rewrite Hn, andb_true_r. apply negb_true_iff, Ascii.eqb_neq. congruence.
Qed.
