(* ===== verification/IpAddr.v ===== *)
(** * Addresses and CIDR ranges

    [std::net::IpAddr] as the standard library parses it, and [IpRange] of
    [domain/authentication_policy.rs], which the network condition of an
    authentication policy is made of.  An address is its octets. *)

From S2P Require Import Prelude Values.

Inductive IpAddr : Type := V4 (octets : list Z) | V6 (octets : list Z).
#[export] Instance IpAddr_eq_dec : EqDecision IpAddr.
Proof. solve_decision. Defined.
Definition is_ipv4 (a : IpAddr) : bool := match a with V4 _ => true | V6 _ => false end.
Definition ip_octets (a : IpAddr) : list Z := match a with V4 o | V6 o => o end.

(** ** [core::net::parser]

    A parser consumes a prefix of the string; a failing one consumes nothing
    ([read_atomically]). *)
Definition Parser (A : Type) : Type := string -> option (A * string).
Definition read_given_char (c : ascii) : Parser unit := fun s =>
  match s with
  | String c' s' => if Ascii.eqb c' c then Some (tt, s') else None
  | "" => None
  end.
Definition digit_value (c : ascii) : Z := Z.of_N (byte c).
(** [char::to_digit]. *)
Definition to_digit (radix : Z) (c : ascii) : option Z :=
  let v := (if is_digit c then digit_value c - 48
            else if in_range 97 102 c then digit_value c - 87
            else if in_range 65 70 c then digit_value c - 55 else 16)%Z in
  if (v <? radix)%Z then Some v else None.
(** The digits at the head: how many, their value, the rest. *)
Fixpoint read_digits (radix : Z) (count acc : Z) (s : string) : Z * Z * string :=
  match s with
  | "" => (count, acc, s)
  | String c s' =>
      match to_digit radix c with
      | Some d => read_digits radix (count + 1) (acc * radix + d) s'
      | None => (count, acc, s)
      end
  end.
(** [read_number] with [max_digits] digits at most, of a type whose largest value
    is [largest]. *)
Definition read_number (radix max_digits : Z) (allow_zero_prefix : bool) (largest : Z) : Parser Z :=
  fun s =>
  let '(count, value, rest) := read_digits radix 0 0 s in
  let has_leading_zero := match s with String c _ => Ascii.eqb c "0" | "" => false end in
  if (max_digits <? count)%Z || (largest <? value)%Z then None
  else if (count =? 0)%Z then None
  else if negb allow_zero_prefix && has_leading_zero && (1 <? count)%Z then None
  else Some (value, rest).
Definition read_separator {A} (sep : ascii) (index : nat) (inner : Parser A) : Parser A := fun s =>
  match index with
  | O => inner s
  | S _ => match read_given_char sep s with Some (_, s') => inner s' | None => None end
  end.

(** [read_ipv4_addr]: four octets; [n] are left and [index] were read. *)
Fixpoint read_octets (n index : nat) : Parser (list Z) := fun s =>
  match n with
  | O => Some ([], s)
  | S n' =>
      match read_separator "." index (read_number 10 3 false 255) s with
      | Some (o, s') =>
          match read_octets n' (S index) s' with
          | Some (os, s'') => Some (o :: os, s'')
          | None => None
          end
      | None => None
      end
  end.
Definition read_ipv4_addr : Parser (list Z) := read_octets 4 0.
#[local] Arguments read_ipv4_addr : simpl never.

Definition group_octets (g : Z) : list Z := [(g / 256)%Z; (g mod 256)%Z].
#[local] Arguments group_octets : simpl never.
(** [read_groups]: at most [left] more groups after [index]; the octets read, and
    whether an embedded IPv4 address ended them. *)
Fixpoint read_groups (left index : nat) (s : string) : list Z * bool * string :=
  match left with
  | O => ([], false, s)
  | S left' =>
      match (match left' with
             | O => None
             | S _ => read_separator ":" index read_ipv4_addr s
             end) with
      | Some (v4, s') => (v4, true, s')
      | None =>
          match read_separator ":" index (read_number 16 4 true 65535) s with
          | None => ([], false, s)
          | Some (g, s') =>
              let '(more, embedded, rest) := read_groups left' (S index) s' in
              ((group_octets g ++ more)%list, embedded, rest)
          end
      end
  end.
Definition read_ipv6_addr : Parser (list Z) := fun s =>
  let '(head, embedded, s1) := read_groups 8 0 s in
  if (length head =? 16)%nat then Some (head, s1)
  else if embedded then None
  else
    match read_given_char ":" s1 with
    | None => None
    | Some (_, s2) =>
        match read_given_char ":" s2 with
        | None => None
        | Some (_, s3) =>
            let '(tail, _, s4) := read_groups (7 - length head / 2) 0 s3 in
            Some ((head ++ replicate (16 - length head - length tail) 0%Z ++ tail)%list, s4)
        end
    end.
(** [IpAddr::from_str]: the whole string. *)
Definition parse_ip (s : string) : option IpAddr :=
  match (match read_ipv4_addr s with
         | Some (o, rest) => Some (V4 o, rest)
         | None => match read_ipv6_addr s with Some (o, rest) => Some (V6 o, rest) | None => None end
         end) with
  | Some (a, "") => Some a
  | _ => None
  end.

(** [u8::from_str]: an optional [+], then digits. *)
Definition parse_u8 (s : string) : option Z :=
  let digits := match s with String c s' => if Ascii.eqb c "+" then s' else s | "" => "" end in
  if str_is_empty digits then None
  else
    let '(_, value, rest) := read_digits 10 0 0 digits in
    if str_is_empty rest && (value <=? 255)%Z then Some value else None.

(** ** [IpRange] *)
Record IpRange : Type := { ir_network : IpAddr; ir_prefix_len : Z }.
#[export] Instance IpRange_eq_dec : EqDecision IpRange.
Proof. solve_decision. Defined.
Definition max_prefix_len (a : IpAddr) : Z := if is_ipv4 a then 32 else 128.
Definition invalid_cidr (value : string) : DomainError :=
  InvalidValue ("invalid CIDR or IP address: " ++ value).
(** [IpRange::parse]. *)
Definition range_parse (value : string) : Result DomainError IpRange :=
  let '(addr_part, prefix_part) :=
    match split_once "/" value with
    | Some (addr, prefix) => (addr, Some prefix)
    | None => (value, None)
    end in
  let? network := ok_or (invalid_cidr value) (parse_ip addr_part) in
  let max_len := max_prefix_len network in
  let? prefix_len :=
    match prefix_part with
    | Some p => ok_or (invalid_cidr value) (parse_u8 p)
    | None => Ok max_len
    end in
  if (max_len <? prefix_len)%Z then Err (invalid_cidr value)
  else Ok {| ir_network := network; ir_prefix_len := prefix_len |}.

(** [prefix_matches]; [None] where an index is out of bounds, a panic. *)
Definition prefix_matches (network addr : list Z) (prefix_len : Z) : option bool :=
  let full_bytes := Z.to_nat (prefix_len / 8) in
  if (length network <? full_bytes)%nat || (length addr <? full_bytes)%nat then None
  else if negb (bool_decide (take full_bytes network = take full_bytes addr)) then Some false
  else
    let remaining_bits := (prefix_len mod 8)%Z in
    if (remaining_bits =? 0)%Z then Some true
    else
      let mask := Z.land (Z.shiftl 255 (8 - remaining_bits)) 255 in
      n ← network !! full_bytes;
      a ← addr !! full_bytes;
      Some (Z.land n mask =? Z.land a mask)%Z.
(** [IpRange::contains]. *)
Definition range_contains (r : IpRange) (ip : IpAddr) : option bool :=
  match ir_network r, ip with
  | V4 net, V4 addr => prefix_matches net addr (ir_prefix_len r)
  | V6 net, V6 addr => prefix_matches net addr (ir_prefix_len r)
  | _, _ => Some false
  end.

(** ** What the parser yields *)
Definition octet (z : Z) : Prop := (0 <= z < 256)%Z.
Definition ip_len (a : IpAddr) : nat := if is_ipv4 a then 4 else 16.
Definition ip_wf (a : IpAddr) : Prop := length (ip_octets a) = ip_len a /\ Forall octet (ip_octets a).

Lemma to_digit_nonneg radix c d : to_digit radix c = Some d -> (0 <= d)%Z.
Proof.
  unfold to_digit, digit_value, is_digit, in_range. intros H.
  repeat case_match; simplify_eq; try lia;
    repeat match goal with E : (_ && _)%bool = true |- _ => apply andb_true_iff in E as [E _] end;
    match goal with E : (_ <=? _)%N = true |- _ => apply N.leb_le in E; lia end.
Qed.
Lemma read_digits_nonneg radix s count acc count' v rest :
  (0 <= radix)%Z -> (0 <= acc)%Z -> read_digits radix count acc s = (count', v, rest) -> (0 <= v)%Z.
Proof.
  intros Hr. revert count acc. induction s as [|c s IH]; cbn; intros count acc Ha H; [by simplify_eq|].
  destruct (to_digit radix c) as [d|] eqn:E; [|by simplify_eq].
  eapply IH; [|exact H]. apply to_digit_nonneg in E. nia.
Qed.
Lemma read_number_bounds radix m z largest s v rest :
  (0 <= radix)%Z -> read_number radix m z largest s = Some (v, rest) -> (0 <= v <= largest)%Z.
Proof.
  unfold read_number. intros Hr H. destruct (read_digits radix 0 0 s) as [[count v'] rest'] eqn:E.
  apply read_digits_nonneg in E; [|lia|lia].
  destruct (_ || _)%bool eqn:Eb; [done|]. apply orb_false_iff in Eb as [_ Eb%Z.ltb_ge].
  repeat case_match; simplify_eq; lia.
Qed.
Lemma read_separator_Some {A} sep i (inner : Parser A) s r :
  read_separator sep i inner s = Some r -> exists s', inner s' = Some r.
Proof.
  unfold read_separator. destruct i; [by eauto|]. destruct (read_given_char sep s) as [[u s']|]; [by eauto|done].
Qed.
Lemma read_octets_wf n i s os rest :
  read_octets n i s = Some (os, rest) -> length os = n /\ Forall octet os.
Proof.
  revert i s os. induction n as [|n IH]; cbn; intros i s os H; [by simplify_eq|].
  destruct (read_separator _ _ _ _) as [[o s']|] eqn:E; [|done].
  destruct (read_octets n (S i) s') as [[os' s'']|] eqn:E'; [|done]. simplify_eq.
  apply IH in E' as [<- ?]. apply read_separator_Some in E as (s0 & E).
  apply read_number_bounds in E; [|lia]. cbn. split; [done|]. constructor; [|done]. unfold octet. lia.
Qed.
Lemma group_octets_wf g : (0 <= g <= 65535)%Z -> Forall octet (group_octets g).
Proof.
  intros H. unfold group_octets, octet. repeat constructor; try (apply Z.mod_pos_bound; lia).
  - apply Z.div_pos; lia.
  - apply Z.div_lt_upper_bound; lia.
Qed.
Lemma read_groups_wf left i s os e rest :
  read_groups left i s = (os, e, rest) ->
  Forall octet os /\ exists n, length os = (2 * n)%nat /\ (n <= left)%nat.
Proof.
  revert i s os e rest. induction left as [|left IH]; intros i s os e rest H; cbn in H.
  { simplify_eq. split; [done|]. by exists 0%nat. }
  destruct (match left with O => None | S _ => _ end) as [[v4 s']|] eqn:E.
  - simplify_eq. destruct left as [|left]; [done|]. apply read_separator_Some in E as (s0 & E).
    apply read_octets_wf in E as [El Ef]. split; [done|]. exists 2%nat. lia.
  - clear E. destruct (read_separator _ _ _ _) as [[g s']|] eqn:E.
    + destruct (read_groups left (S i) s') as [[more em] rest'] eqn:E'. simplify_eq.
      apply IH in E' as [Hf (n & Hn & Hle)]. apply read_separator_Some in E as (s0 & E).
      apply read_number_bounds in E; [|lia]. apply group_octets_wf in E.
      split; [by apply Forall_app|]. exists (S n). rewrite length_app, Hn.
      change (length (group_octets g)) with 2%nat. lia.
    + simplify_eq. split; [done|]. exists 0%nat. split; [done|lia].
Qed.
Lemma read_ipv6_addr_wf s os rest :
  read_ipv6_addr s = Some (os, rest) -> length os = 16%nat /\ Forall octet os.
Proof.
  unfold read_ipv6_addr. destruct (read_groups 8 0 s) as [[head e] s1] eqn:Eh.
  apply read_groups_wf in Eh as [Hf (n & Hn & Hle)]. intros H.
  destruct (Nat.eqb_spec (length head) 16); [by simplify_eq|]. destruct e; [done|].
  destruct (read_given_char ":" s1) as [[u s2]|]; [|done].
  destruct (read_given_char ":" s2) as [[u' s3]|]; [|done].
  destruct (read_groups _ 0 s3) as [[tail e'] s4] eqn:Et. simplify_eq.
  apply read_groups_wf in Et as [Hft (m & Hm & Hlm)].
  rewrite Hn, Nat.mul_comm, Nat.div_mul in Hlm by lia.
  rewrite !length_app, length_replicate, Hn, Hm. split; [lia|].
  apply Forall_app. split; [done|]. apply Forall_app. split; [|done].
  apply Forall_replicate. by vm_compute.
Qed.
Lemma parse_ip_wf s a : parse_ip s = Some a -> ip_wf a.
Proof.
  unfold parse_ip. destruct (read_ipv4_addr s) as [[o r]|] eqn:E4.
  - destruct r; intros H; [|done]. simplify_eq. apply read_octets_wf in E4. done.
  - destruct (read_ipv6_addr s) as [[o r]|] eqn:E6; [|done].
    destruct r; intros H; [|done]. simplify_eq. by apply read_ipv6_addr_wf in E6.
Qed.
Lemma parse_u8_bounds s v : parse_u8 s = Some v -> (0 <= v <= 255)%Z.
Proof.
  unfold parse_u8. set (digits := match s with "" => "" | _ => _ end).
  destruct (str_is_empty digits); [done|].
  destruct (read_digits 10 0 0 digits) as [[count v'] rest] eqn:E.
  apply read_digits_nonneg in E; [|lia|lia]. destruct (_ && _)%bool eqn:Eb; [|done].
  apply andb_true_iff in Eb as [_ Eb%Z.leb_le]. intros H. simplify_eq. lia.
Qed.
Definition range_wf (r : IpRange) : Prop :=
  ip_wf (ir_network r) /\ (0 <= ir_prefix_len r <= max_prefix_len (ir_network r))%Z.
Lemma range_parse_wf v r : range_parse v = Ok r -> range_wf r.
Proof.
  unfold range_parse. destruct (match split_once "/" v with Some _ => _ | None => _ end) as [a p].
  destruct (parse_ip a) as [n|] eqn:En; cbn; [|done]. apply parse_ip_wf in En.
  assert (0 <= max_prefix_len n)%Z by (unfold max_prefix_len; destruct (is_ipv4 n); lia).
  destruct (match p with Some _ => _ | None => _ end) as [l|] eqn:El; [|done].
  destruct (Z.ltb_spec (max_prefix_len n) l); [done|]. intros E. simplify_eq. split; [done|]. cbn.
  destruct p as [p|]; [|simplify_eq; lia]. destruct (parse_u8 p) as [l'|] eqn:Ep; [|done].
  apply parse_u8_bounds in Ep. cbn in El. simplify_eq. lia.
Qed.

(** ** The number an address is, and its leading bits *)
Definition big_endian (octets : list Z) : Z := fold_left (fun acc o => acc * 256 + o)%Z octets 0%Z.
Definition ip_number (a : IpAddr) : Z := big_endian (ip_octets a).
Definition leading_bits (n : Z) (a : IpAddr) : Z := (ip_number a / 2 ^ (max_prefix_len a - n))%Z.

Lemma big_endian_from l acc :
  fold_left (fun acc o => acc * 256 + o)%Z l acc
  = (acc * 256 ^ Z.of_nat (length l) + big_endian l)%Z.
Proof.
  unfold big_endian. revert acc. induction l as [|o l IH]; intros acc; cbn [fold_left length]; [lia|].
  rewrite IH, (IH (0 * 256 + o)%Z), Nat2Z.inj_succ, Z.pow_succ_r; lia.
Qed.
Lemma big_endian_app l l' :
  big_endian (l ++ l')%list = (big_endian l * 256 ^ Z.of_nat (length l') + big_endian l')%Z.
Proof. unfold big_endian at 1. rewrite fold_left_app. apply big_endian_from. Qed.
Lemma big_endian_cons o l :
  big_endian (o :: l) = (o * 256 ^ Z.of_nat (length l) + big_endian l)%Z.
Proof. unfold big_endian at 1. cbn [fold_left]. rewrite big_endian_from. lia. Qed.
Lemma big_endian_bounds l :
  Forall octet l -> (0 <= big_endian l < 256 ^ Z.of_nat (length l))%Z.
Proof.
  induction 1 as [|o l Ho Hl IH]; [cbn; lia|]. unfold octet in Ho.
  rewrite big_endian_cons. cbn [length]. rewrite Nat2Z.inj_succ, Z.pow_succ_r by lia. nia.
Qed.
Lemma big_endian_inj l l' :
  Forall octet l -> Forall octet l' -> length l = length l' -> big_endian l = big_endian l' -> l = l'.
Proof.
  intros H. revert l'. induction H as [|o l Ho Hl IH]; intros [|o' l'] H' Hn E; try done.
  apply Forall_cons in H' as [Ho' Hl']. cbn in Hn. injection Hn as Hn.
  rewrite !big_endian_cons, Hn in E.
  pose proof (big_endian_bounds _ Hl). pose proof (big_endian_bounds _ Hl'). rewrite Hn in *.
  unfold octet in *. assert (o = o') as -> by nia. f_equal. apply IH; [done..|]. nia.
Qed.

Lemma big_endian_take k l :
  Forall octet l -> (k <= length l)%nat ->
  (big_endian l / 256 ^ Z.of_nat (length l - k))%Z = big_endian (take k l).
Proof.
  intros Hl Hk. rewrite <- (take_drop k l) at 1. rewrite big_endian_app, length_drop.
  pose proof (big_endian_bounds _ (Forall_drop _ k _ Hl)) as Hb. rewrite length_drop in Hb.
  rewrite Z.div_add_l by lia. rewrite (Z.div_small _ _ Hb). lia.
Qed.
Lemma land_mask n rem :
  octet n -> (0 < rem < 8)%Z ->
  Z.land n (Z.land (Z.shiftl 255 (8 - rem)) 255) = (n / 2 ^ (8 - rem) * 2 ^ (8 - rem))%Z.
Proof.
  intros Hn Hr.
  assert (forallb (fun r => forallb (fun n => Z.eqb
            (Z.land (Z.of_nat n) (Z.land (Z.shiftl 255 (8 - Z.of_nat r)) 255))
            (Z.of_nat n / 2 ^ (8 - Z.of_nat r) * 2 ^ (8 - Z.of_nat r))) (seq 0 256)) (seq 1 7) = true)
    as H by (vm_compute; reflexivity).
  rewrite forallb_forall in H. specialize (H (Z.to_nat rem)).
  rewrite in_seq, forallb_forall in H. specialize (H ltac:(lia) (Z.to_nat n)).
  rewrite in_seq in H. unfold octet in Hn. specialize (H ltac:(lia)).
  rewrite !Z2Nat.id in H by lia. by apply Z.eqb_eq.
Qed.
Lemma land_mask_eqb n a rem :
  octet n -> octet a -> (0 < rem < 8)%Z ->
  let mask := Z.land (Z.shiftl 255 (8 - rem)) 255 in
  (Z.land n mask =? Z.land a mask)%Z = (n / 2 ^ (8 - rem) =? a / 2 ^ (8 - rem))%Z.
Proof.
  intros Hn Ha Hr. cbn zeta. rewrite !land_mask by done.
  assert (0 < 2 ^ (8 - rem))%Z by (apply Z.pow_pos_nonneg; lia).
  destruct (Z.eqb_spec (n / 2 ^ (8 - rem)) (a / 2 ^ (8 - rem))) as [->|Hne]; [apply Z.eqb_refl|].
  apply Z.eqb_neq. intros E. apply Hne. nia.
Qed.
Lemma take_S_be k l n :
  l !! k = Some n -> big_endian (take (S k) l) = (big_endian (take k l) * 256 + n)%Z.
Proof. intros E. rewrite (take_S_r _ _ _ E), big_endian_app. cbn. lia. Qed.
Lemma leading_split l k n rem :
  Forall octet l -> l !! k = Some n -> (0 < rem < 8)%Z ->
  (big_endian l / 2 ^ (8 * Z.of_nat (length l) - (8 * Z.of_nat k + rem)))%Z
  = (big_endian (take k l) * 2 ^ rem + n / 2 ^ (8 - rem))%Z.
Proof.
  intros Hl Hn Hr. pose proof (lookup_lt_Some _ _ _ Hn) as Hk.
  replace (8 * Z.of_nat (length l) - (8 * Z.of_nat k + rem))%Z
    with (8 * Z.of_nat (length l - S k) + (8 - rem))%Z by lia.
  rewrite Z.pow_add_r, Z.pow_mul_r by lia. change (2 ^ 8)%Z with 256%Z.
  rewrite <- Z.div_div by (try apply Z.pow_pos_nonneg; try apply Z.pow_nonzero; lia).
  rewrite big_endian_take by (done || lia). rewrite (take_S_be _ _ _ Hn).
  replace 256%Z with (2 ^ rem * 2 ^ (8 - rem))%Z
    by (rewrite <- Z.pow_add_r by lia; by replace (rem + (8 - rem))%Z with 8%Z by lia).
  rewrite Z.mul_assoc, Z.div_add_l by (apply Z.pow_nonzero; lia). done.
Qed.

Section matching.
Context (net addr : list Z) (p : Z).
Context (Hnet : Forall octet net) (Haddr : Forall octet addr).
Context (Hlen : length net = length addr).
Context (Hp : (0 <= p <= 8 * Z.of_nat (length net))%Z).

Let bits (l : list Z) : Z := (big_endian l / 2 ^ (8 * Z.of_nat (length l) - p))%Z.

Lemma take_eq_be k : take k net = take k addr <-> big_endian (take k net) = big_endian (take k addr).
Proof.
  split; [by intros ->|]. apply big_endian_inj; try by apply Forall_take.
  rewrite !length_take, Hlen. done.
Qed.
Lemma prefix_matches_spec :
  exists b, prefix_matches net addr p = Some b /\ (b = true <-> bits net = bits addr).
Proof.
  unfold prefix_matches. set (k := Z.to_nat (p / 8)). set (rem := (p mod 8)%Z).
  pose proof (Z.mod_pos_bound p 8 ltac:(lia)) as Hrem. fold rem in Hrem.
  pose proof (Z.div_mod p 8 ltac:(lia)) as Hdm. fold rem in Hdm.
  assert (Z.of_nat k = p / 8)%Z as Hk by (apply Z2Nat.id, Z.div_pos; lia).
  assert (k <= length net)%nat as Hkl by lia.
  destruct (Nat.ltb_spec (length net) k); [lia|]. destruct (Nat.ltb_spec (length addr) k); [lia|].
  cbn [orb]. subst bits. cbn beta. rewrite <- Hlen, Hdm, <- Hk.
  destruct (Z.eqb_spec rem 0) as [E0|E0].
  - rewrite E0, Z.add_0_r, <- Z.mul_sub_distr_l, <- Nat2Z.inj_sub, Z.pow_mul_r by lia.
    change (2 ^ 8)%Z with 256%Z. rewrite (big_endian_take k net) by done.
    rewrite Hlen, (big_endian_take k addr) by (done || lia).
    pose proof (take_eq_be k) as Ht.
    case_bool_decide; eexists; (split; [done|]); naive_solver.
  - assert (k < length net)%nat as Hlt by lia.
    destruct (lookup_lt_is_Some_2 net k Hlt) as [n Hn].
    destruct (lookup_lt_is_Some_2 addr k ltac:(lia)) as [a Ha].
    rewrite (leading_split net k n rem) by (done || lia).
    rewrite Hlen, (leading_split addr k a rem) by (done || lia).
    pose proof (Forall_lookup_1 _ _ _ _ Hnet Hn) as On. pose proof (Forall_lookup_1 _ _ _ _ Haddr Ha) as Oa.
    assert (0 < 2 ^ (8 - rem))%Z by (apply Z.pow_pos_nonneg; lia).
    assert (forall x, octet x -> 0 <= x / 2 ^ (8 - rem) < 2 ^ rem)%Z as Hhi.
    { intros x [Hx0 Hx]. split; [by apply Z.div_pos|]. apply Z.div_lt_upper_bound; [done|].
      rewrite <- Z.pow_add_r by lia. by replace (8 - rem + rem)%Z with 8%Z by lia. }
    pose proof (Hhi _ On). pose proof (Hhi _ Oa). rewrite Hn, Ha. cbn [mbind option_bind].
    rewrite land_mask_eqb by (done || lia).
    case_bool_decide as Et; cbn [negb]; eexists; (split; [done|]).
    + apply take_eq_be in Et. rewrite Et, Z.eqb_eq. lia.
    + split; [done|]. intros E. exfalso. apply Et, take_eq_be. nia.
Qed.
End matching.

Lemma range_contains_spec r ip :
  range_wf r -> ip_wf ip ->
  exists b, range_contains r ip = Some b
    /\ (b = true <-> is_ipv4 ip = is_ipv4 (ir_network r)
                     /\ leading_bits (ir_prefix_len r) ip = leading_bits (ir_prefix_len r) (ir_network r)).
Proof.
  destruct r as [[net|net] p]; intros [[Hl Hf] Hp] [Hl' Hf']; cbn in Hl, Hf, Hp;
    destruct ip as [addr|addr]; cbn in Hl', Hf'; unfold range_contains; cbn [ir_network ir_prefix_len];
    try (exists false; split; [done|]; cbn; naive_solver).
  all: destruct (prefix_matches_spec net addr p) as (b & -> & Hb); [done|done|lia|lia|].
  all: exists b; split; [done|]; rewrite Hb; unfold leading_bits, ip_number, max_prefix_len; cbn [is_ipv4 ip_octets].
  all: rewrite Hl, Hl'; cbn; naive_solver.
Qed.
(** What a CIDR range contains.  A range that parses never makes the
    comparison index out of bounds, and it contains an address exactly when both
    are of one family and agree, as numbers, on the leading prefix-length bits. *)
Theorem range_contains_correct value r text ip :
  range_parse value = Ok r -> parse_ip text = Some ip ->
  exists b, range_contains r ip = Some b
    /\ (b = true <-> is_ipv4 ip = is_ipv4 (ir_network r)
                     /\ leading_bits (ir_prefix_len r) ip = leading_bits (ir_prefix_len r) (ir_network r)).
Proof. intros Hr Hip. apply range_contains_spec; [by eapply range_parse_wf|by eapply parse_ip_wf]. Qed.
Lemma range_contains_correct_witness :
  exists b, range_contains {| ir_network := V4 [10; 1; 128; 0]%Z; ir_prefix_len := 18 |} (V4 [10; 1; 191; 7]%Z)
            = Some b
    /\ (b = true <-> true = true
        /\ leading_bits 18 (V4 [10; 1; 191; 7]%Z) = leading_bits 18 (V4 [10; 1; 128; 0]%Z)).
Proof.
  apply (range_contains_correct "10.1.128.0/18"
           {| ir_network := V4 [10; 1; 128; 0]%Z; ir_prefix_len := 18 |} "10.1.191.7" (V4 [10; 1; 191; 7]%Z));
    vm_compute; reflexivity.
Defined.
