(* ===== verification/AuthenticationPolicy.v ===== *)
(** * Authentication policies ([domain/authentication_policy.rs])

    Which policies of a tenant apply to a sign-in, and what they decide together.
    Lockout, of the same file, is in [Lockout]. *)

From Stdlib Require Import Sorting.Sorted.
From S2P Require Import Prelude Values IpAddr.

(** ** Effects and requirements *)
Inductive PolicyEffect : Type := EffectAllow | EffectDeny | EffectRequireMfa | EffectRequireSpecificMethod.
#[export] Instance PolicyEffect_eq_dec : EqDecision PolicyEffect.
Proof. solve_decision. Defined.
Definition policy_effect_as_str (e : PolicyEffect) : string :=
  match e with
  | EffectAllow => "allow"
  | EffectDeny => "deny"
  | EffectRequireMfa => "require_mfa"
  | EffectRequireSpecificMethod => "require_specific_method"
  end.
Definition policy_effect_parse (s : string) : Result DomainError PolicyEffect :=
  if String.eqb s "allow" then Ok EffectAllow
  else if String.eqb s "deny" then Ok EffectDeny
  else if String.eqb s "require_mfa" then Ok EffectRequireMfa
  else if String.eqb s "require_specific_method" then Ok EffectRequireSpecificMethod
  else Err (InvalidValue ("unknown policy effect: " ++ s)).

Record RequiredMethods : Type := {
  rm_methods : list AuthenticationMethod;
  rm_user_verification : bool
}.
#[export] Instance RequiredMethods_eq_dec : EqDecision RequiredMethods.
Proof. solve_decision. Defined.
(** [RequiredMethods::default]. *)
Definition required_methods_default : RequiredMethods :=
  {| rm_methods := []; rm_user_verification := false |}.
Definition method_in (m : AuthenticationMethod) (l : list AuthenticationMethod) : bool :=
  bool_decide (m ∈ l).
Definition satisfied_by (r : RequiredMethods) (used : list AuthenticationMethod)
  (user_verified : bool) : bool :=
  let method_ok := bool_decide (rm_methods r = [])
                   || existsb (fun m => method_in m (rm_methods r)) used in
  let uv_ok := negb (rm_user_verification r) || user_verified in
  method_ok && uv_ok.
Definition describe (r : RequiredMethods) : string :=
  let methods := map as_str (rm_methods r) in
  match bool_decide (methods = []), rm_user_verification r with
  | true, true => "user_verification"
  | true, false => "(none)"
  | false, true => join "|" methods ++ "+user_verification"
  | false, false => join "|" methods
  end.

(** ** Time windows *)
Record TimeWindow : Type := {
  tw_days : list Z;
  tw_start_minute : Z;
  tw_end_minute : Z;
  tw_utc_offset_minutes : Z
}.
#[export] Instance TimeWindow_eq_dec : EqDecision TimeWindow.
Proof. solve_decision. Defined.
Definition window_validate (w : TimeWindow) : Result DomainError unit :=
  if (1439 <? tw_start_minute w)%Z || (1439 <? tw_end_minute w)%Z
  then Err (InvalidValue "time window minutes must be 0-1439")
  else if existsb (fun d => (6 <? d)%Z) (tw_days w)
  then Err (InvalidValue "time window days must be 0 (Sunday) - 6 (Saturday)")
  else if (tw_utc_offset_minutes w <? -840)%Z || (840 <? tw_utc_offset_minutes w)%Z
  then Err (InvalidValue "time window UTC offset must be within +/-14:00")
  else Ok tt.
(** The proleptic Gregorian calendar's days and minutes: 1970-01-01, day 0, was a
    Thursday. *)
Definition epoch_minute (t : DateTime) : Z := (t / seconds 60)%Z.
Definition minute_of_day (t : DateTime) : Z := (epoch_minute t mod 1440)%Z.
Definition epoch_day (t : DateTime) : Z := (epoch_minute t / 1440)%Z.
Definition num_days_from_sunday (day : Z) : Z := ((day + 4) mod 7)%Z.
(** [TimeWindow::contains].  The clock is assumed to read more than 14 hours
    inside chrono's range (the years -262143 to 262142), where the addition of
    the offset cannot overflow. *)
Definition window_contains (w : TimeWindow) (now : DateTime) : bool :=
  let local := (now + seconds (60 * tw_utc_offset_minutes w))%Z in
  let minute := minute_of_day local in
  let weekday := num_days_from_sunday (epoch_day local) in
  let '(in_range, day) :=
    if (tw_start_minute w <=? tw_end_minute w)%Z
    then ((tw_start_minute w <=? minute)%Z && (minute <? tw_end_minute w)%Z, weekday)
    else if (tw_start_minute w <=? minute)%Z then (true, weekday)
    else if (minute <? tw_end_minute w)%Z then (true, (weekday + 6) mod 7)%Z
    else (false, 0%Z) in
  in_range && (bool_decide (tw_days w = []) || bool_decide (day ∈ tw_days w)).

(** ** Conditions and context *)
Record AuthenticationContext : Type := {
  cx_application_id : option Uuid;
  cx_user_id : Uuid;
  cx_ip_address : option string;
  cx_now : DateTime;
  cx_requested_acr : list string
}.
Record PolicyConditions : Type := {
  cd_application_ids : list Uuid;
  cd_user_ids : list Uuid;
  cd_ip_cidrs : list string;
  cd_time_windows : list TimeWindow;
  cd_requested_acr : list string
}.
Fixpoint conditions_validate_each {A} (f : A -> Result DomainError unit) (l : list A)
  : Result DomainError unit :=
  match l with
  | [] => Ok tt
  | a :: l' => let? _ := f a in conditions_validate_each f l'
  end.
Definition conditions_validate (c : PolicyConditions) : Result DomainError unit :=
  let? _ := conditions_validate_each (fun v => let? _ := range_parse v in Ok tt) (cd_ip_cidrs c) in
  conditions_validate_each window_validate (cd_time_windows c).
(** A comparison that would panic counts as no match here; by
    [IpAddr.range_contains_correct] there is none. *)
Definition matches_network (c : PolicyConditions) (ip_address : option string) : bool :=
  match ip_address ≫= parse_ip with
  | None => false
  | Some ip =>
      existsb (fun range => unwrap_or false (range_contains range ip))
        (omap (fun cidr => ok (range_parse cidr)) (cd_ip_cidrs c))
  end.
(** [PolicyConditions::matches]. *)
Definition matches (c : PolicyConditions) (ctx : AuthenticationContext) : bool :=
  let application_ok := bool_decide (cd_application_ids c = [])
    || is_some_and (fun id => bool_decide (id ∈ cd_application_ids c)) (cx_application_id ctx) in
  let user_ok := bool_decide (cd_user_ids c = []) || bool_decide (cx_user_id ctx ∈ cd_user_ids c) in
  let network_ok := bool_decide (cd_ip_cidrs c = []) || matches_network c (cx_ip_address ctx) in
  let time_ok := bool_decide (cd_time_windows c = [])
    || existsb (fun w => window_contains w (cx_now ctx)) (cd_time_windows c) in
  let acr_ok := bool_decide (cd_requested_acr c = [])
    || existsb (fun requested => existsb (fun v => String.eqb v requested) (cd_requested_acr c))
         (cx_requested_acr ctx) in
  application_ok && user_ok && network_ok && time_ok && acr_ok.

(** ** Policies *)
Record AuthenticationPolicy : Type := {
  pl_id : Uuid;
  pl_tenant_id : TenantId;
  pl_policy_code : string;
  pl_policy_name : string;
  pl_priority : Z;
  pl_enabled : bool;
  pl_effect : PolicyEffect;
  pl_effect_params : option RequiredMethods;
  pl_conditions : PolicyConditions;
  pl_created_at : DateTime;
  pl_updated_at : DateTime
}.
Definition is_code_char (b : ascii) : bool :=
  is_ascii_alphanumeric b || Ascii.eqb b "-" || Ascii.eqb b "_" || Ascii.eqb b ".".
Definition validate_code (code : string) : Result DomainError unit :=
  if str_is_empty code || (100 <? str_len code)%Z
  then Err (InvalidValue "policy code must be 1-100 characters")
  else if negb (str_forallb is_code_char code)
  then Err (InvalidValue "policy code must contain only ASCII alphanumerics, '-', '_' or '.'")
  else Ok tt.
Definition validate_effect_params (effect : PolicyEffect) (params : option RequiredMethods)
  : Result DomainError unit :=
  match effect, params with
  | EffectRequireSpecificMethod, Some p =>
      if negb (bool_decide (rm_methods p = [])) || rm_user_verification p then Ok tt
      else Err (InvalidValue "require_specific_method needs at least one method or user_verification")
  | EffectRequireSpecificMethod, None =>
      Err (InvalidValue "require_specific_method needs at least one method or user_verification")
  | _, Some _ => Err (InvalidValue "effect parameters are only valid for require_specific_method")
  | _, None => Ok tt
  end.
Definition validate_name (name : string) : Result DomainError unit :=
  if str_is_empty (trim name) || (200 <? char_count name)%Z
  then Err (InvalidValue "policy name must be 1-200 characters") else Ok tt.

(** ** Decisions *)
Record MethodRequirement : Type := { mr_policy_code : string; mr_requirement : RequiredMethods }.
Inductive PolicyDecision : Type :=
  | DecisionAllow (matched_policy_code : option string)
  | DecisionDeny (policy_code : string)
  | DecisionRequireMfa (policy_code : string)
  | DecisionRequireMethods (requirements : list MethodRequirement).
Definition unmet_method_requirement (d : PolicyDecision) (used : list AuthenticationMethod)
  (user_verified : bool) : option MethodRequirement :=
  match d with
  | DecisionRequireMethods requirements =>
      find (fun m => negb (satisfied_by (mr_requirement m) used user_verified)) requirements
  | _ => None
  end.
Definition satisfied_by_adding (d : PolicyDecision) (used : list AuthenticationMethod)
  (candidate : AuthenticationMethod) (user_verified : bool) : bool :=
  negb (is_some (unmet_method_requirement d (used ++ [candidate])%list user_verified)).

Definition BUILTIN_ACR_POLICY_CODE : string := "builtin:acr_values".
Inductive DefaultPolicyEffect : Type := DefaultAllow | DefaultDeny.
Definition default_effect_as_str (e : DefaultPolicyEffect) : string :=
  match e with DefaultAllow => "allow" | DefaultDeny => "deny" end.
Definition default_effect_parse (s : string) : Result DomainError DefaultPolicyEffect :=
  if String.eqb s "allow" then Ok DefaultAllow
  else if String.eqb s "deny" then Ok DefaultDeny
  else Err (InvalidValue ("unknown default policy effect: " ++ s)).

Definition requests_mfa (requested_acr : list string) : bool :=
  existsb (fun v => String.eqb v ACR_MULTI_FACTOR) requested_acr.

(** The order of evaluation: priority, then code. *)
Definition policy_le (a b : AuthenticationPolicy) : bool :=
  (pl_priority a <? pl_priority b)%Z
  || ((pl_priority a =? pl_priority b)%Z && String.leb (pl_policy_code a) (pl_policy_code b)).
(** [slice::sort_by]: a stable sort. *)
Fixpoint insert_policy (p : AuthenticationPolicy) (l : list AuthenticationPolicy) :=
  match l with
  | [] => [p]
  | q :: l' => if policy_le p q then p :: l else q :: insert_policy p l'
  end.
Definition sort_policies (l : list AuthenticationPolicy) : list AuthenticationPolicy :=
  foldr insert_policy [] l.
Definition applies (ctx : AuthenticationContext) (p : AuthenticationPolicy) : bool :=
  pl_enabled p && matches (pl_conditions p) ctx.
Definition has_effect (e : PolicyEffect) (p : AuthenticationPolicy) : bool :=
  bool_decide (pl_effect p = e).
Definition requirement_of (p : AuthenticationPolicy) : MethodRequirement := {|
  mr_policy_code := pl_policy_code p;
  mr_requirement := unwrap_or required_methods_default (pl_effect_params p) |}.
Definition builtin_requirement : MethodRequirement := {|
  mr_policy_code := BUILTIN_ACR_POLICY_CODE;
  mr_requirement := {| rm_methods := SECOND_FACTORS; rm_user_verification := false |} |}.

(** [evaluate_policies]. *)
Definition evaluate_policies (policies : list AuthenticationPolicy) (ctx : AuthenticationContext)
  (default_effect : DefaultPolicyEffect) : PolicyDecision :=
  let matched := sort_policies (List.filter (applies ctx) policies) in
  match find (has_effect EffectDeny) matched with
  | Some deny => DecisionDeny (pl_policy_code deny)
  | None =>
      let requirements := map requirement_of
                            (List.filter (has_effect EffectRequireSpecificMethod) matched) in
      match requirements with
      | _ :: _ =>
          DecisionRequireMethods
            (if requests_mfa (cx_requested_acr ctx)
             then (requirements ++ [builtin_requirement])%list else requirements)
      | [] =>
          match find (has_effect EffectRequireMfa) matched with
          | Some mfa => DecisionRequireMfa (pl_policy_code mfa)
          | None =>
              if requests_mfa (cx_requested_acr ctx) then DecisionRequireMfa BUILTIN_ACR_POLICY_CODE
              else match find (has_effect EffectAllow) matched with
                   | Some allow => DecisionAllow (Some (pl_policy_code allow))
                   | None =>
                       match default_effect with
                       | DefaultAllow => DecisionAllow None
                       | DefaultDeny => DecisionDeny "(default)"
                       end
                   end
          end
      end
  end.

(** ** The order of evaluation *)
Lemma leb_trans a b c : String.leb a b = true -> String.leb b c = true -> String.leb a c = true.
Proof.
  intros H1%Is_true_true_2 H2%Is_true_true_2. apply Is_true_true_1.
  change (String.le a c). by transitivity b.
Qed.
Lemma leb_antisym a b : String.leb a b = true -> String.leb b a = true -> a = b.
Proof. intros H1%Is_true_true_2 H2%Is_true_true_2. by apply (anti_symm String.le). Qed.
Lemma policy_le_total a b : policy_le a b = true \/ policy_le b a = true.
Proof.
  unfold policy_le. destruct (Z.ltb_spec (pl_priority a) (pl_priority b)); [by left|].
  destruct (Z.ltb_spec (pl_priority b) (pl_priority a)); [by right|].
  assert (pl_priority a = pl_priority b) as -> by lia. rewrite Z.eqb_refl.
  destruct (String.leb_total (pl_policy_code a) (pl_policy_code b)) as [-> | ->]; auto.
Qed.
Lemma policy_le_trans a b c : policy_le a b = true -> policy_le b c = true -> policy_le a c = true.
Proof.
  unfold policy_le. rewrite !orb_true_iff, !andb_true_iff, !Z.ltb_lt, !Z.eqb_eq.
  intros [?|[? H1]] [?|[? H2]]; try (left; lia).
  right. split; [lia|]. by eapply leb_trans.
Qed.
Lemma policy_le_antisym a b :
  policy_le a b = true -> policy_le b a = true -> pl_policy_code a = pl_policy_code b.
Proof.
  unfold policy_le. rewrite !orb_true_iff, !andb_true_iff, !Z.ltb_lt, !Z.eqb_eq.
  intros [?|[? H1]] [?|[? H2]]; try lia. by apply leb_antisym.
Qed.

Lemma insert_policy_Permutation p l : insert_policy p l ≡ₚ p :: l.
Proof.
  induction l as [|q l IH]; cbn; [done|]. destruct (policy_le p q); [done|].
  rewrite IH. apply perm_swap.
Qed.
Lemma sort_policies_Permutation l : sort_policies l ≡ₚ l.
Proof. induction l as [|p l IH]; cbn; [done|]. by rewrite insert_policy_Permutation, IH. Qed.
Lemma sort_policies_In p l : In p (sort_policies l) <-> In p l.
Proof. by rewrite <- !list_elem_of_In, sort_policies_Permutation. Qed.

Definition sorted : list AuthenticationPolicy -> Prop := StronglySorted (fun a b => policy_le a b = true).
Lemma insert_policy_sorted p l : sorted l -> sorted (insert_policy p l).
Proof.
  unfold sorted. induction 1 as [|q l Hs IH Hq]; cbn; [by repeat constructor|].
  destruct (policy_le p q) eqn:E.
  - constructor; [by constructor|]. constructor; [done|].
    eapply Forall_impl; [exact Hq|]. intros x Hx. by eapply policy_le_trans.
  - constructor; [done|]. rewrite insert_policy_Permutation. constructor; [|done].
    destruct (policy_le_total p q); congruence.
Qed.
Lemma sort_policies_sorted l : sorted (sort_policies l).
Proof. induction l; cbn; [constructor|by apply insert_policy_sorted]. Qed.

Lemma find_sorted_first f l p :
  sorted l -> find f l = Some p ->
  In p l /\ f p = true /\ forall q, In q l -> f q = true -> policy_le p q = true.
Proof.
  induction 1 as [|q l Hs IH Hq]; cbn; [done|]. destruct (f q) eqn:E.
  - intros [= ->]. split; [by left|]. split; [done|]. intros q' [->|Hin] _.
    + destruct (policy_le_total q' q'); done.
    + rewrite Forall_forall in Hq. by apply Hq, list_elem_of_In.
  - intros H. destruct (IH H) as (? & ? & Hmin). split; [by right|]. split; [done|].
    intros q' [->|Hin] Hf; [congruence|]. by apply Hmin.
Qed.

Lemma insert_policy_swap p q l :
  pl_policy_code p <> pl_policy_code q ->
  insert_policy p (insert_policy q l) = insert_policy q (insert_policy p l).
Proof.
  intros Hne.
  assert (policy_le p q = negb (policy_le q p)) as Hpq.
  { destruct (policy_le p q) eqn:E, (policy_le q p) eqn:E'; try done.
    - exfalso. by eapply Hne, policy_le_antisym.
    - destruct (policy_le_total p q); congruence. }
  induction l as [|r l IH]; cbn.
  - rewrite Hpq. by destruct (policy_le q p).
  - destruct (policy_le q r) eqn:Eq, (policy_le p r) eqn:Ep; cbn; rewrite ?Eq, ?Ep, ?Hpq.
    + by destruct (policy_le q p); cbn.
    + destruct (policy_le q p) eqn:E; cbn; [done|].
      exfalso. assert (policy_le p r = true) by (eapply policy_le_trans; [|exact Eq]; rewrite Hpq; done).
      congruence.
    + destruct (policy_le q p) eqn:E; cbn; [|done].
      exfalso. assert (policy_le q r = true) by (eapply policy_le_trans; [exact E|exact Ep]). congruence.
    + by rewrite IH.
Qed.
Lemma sort_policies_unique l l' :
  l ≡ₚ l' -> NoDup (pl_policy_code <$> l) -> sort_policies l = sort_policies l'.
Proof.
  induction 1 as [|p l l' Hp IH|p q l|l1 l2 l3 H1 IH1 H2 IH2]; intros Hnd; cbn; [done| | |].
  - rewrite fmap_cons, NoDup_cons in Hnd. f_equal. apply IH, Hnd.
  - rewrite !fmap_cons, !NoDup_cons in Hnd. apply insert_policy_swap.
    intros E. apply (proj1 Hnd). rewrite E. left.
  - rewrite IH1 by done. apply IH2. by rewrite <- H1.
Qed.
Lemma filter_codes_NoDup f l :
  NoDup (pl_policy_code <$> l) -> NoDup (pl_policy_code <$> List.filter f l).
Proof.
  induction l as [|p l IH]; cbn; [done|]. rewrite NoDup_cons. intros [Hnin Hnd].
  destruct (f p); cbn; [|by apply IH]. constructor; [|by apply IH].
  intros H. apply Hnin. apply list_elem_of_fmap in H as (q & -> & Hq).
  apply list_elem_of_fmap. exists q. split; [done|].
  apply list_elem_of_In, filter_In in Hq as [Hq _]. by apply list_elem_of_In.
Qed.
Lemma filter_Permutation f (l l' : list AuthenticationPolicy) :
  l ≡ₚ l' -> List.filter f l ≡ₚ List.filter f l'.
Proof.
  induction 1 as [|p l l' Hp IH|p q l|l1 l2 l3 H1 IH1 H2 IH2]; cbn; [done| | |by etrans].
  - destruct (f p); [by constructor|done].
  - destruct (f p), (f q); try done. apply perm_swap.
Qed.

(** ** What the policies of a tenant decide *)
Section decision.
Context (policies : list AuthenticationPolicy) (ctx : AuthenticationContext).

(** A policy of effect [e] that applies. *)
Definition applying (e : PolicyEffect) (p : AuthenticationPolicy) : Prop :=
  In p policies /\ applies ctx p = true /\ pl_effect p = e.
(** The first of them in the order of priority and code. *)
Definition first_applying (e : PolicyEffect) (p : AuthenticationPolicy) : Prop :=
  applying e p /\ forall q, applying e q -> policy_le p q = true.
Definition none_applies (e : PolicyEffect) : Prop := forall p, ~ applying e p.

Lemma in_matched e p :
  In p (sort_policies (List.filter (applies ctx) policies)) /\ has_effect e p = true <-> applying e p.
Proof.
  rewrite sort_policies_In, filter_In. unfold applying, has_effect. rewrite bool_decide_eq_true. tauto.
Qed.
Lemma find_matched_Some e p :
  find (has_effect e) (sort_policies (List.filter (applies ctx) policies)) = Some p -> first_applying e p.
Proof.
  intros H. apply find_sorted_first in H as (Hin & He & Hmin); [|apply sort_policies_sorted].
  split; [by apply in_matched|]. intros q Hq. apply in_matched in Hq as [? ?]. by apply Hmin.
Qed.
Lemma find_matched_None e :
  find (has_effect e) (sort_policies (List.filter (applies ctx) policies)) = None -> none_applies e.
Proof.
  intros H p Hp. apply in_matched in Hp as [Hin He]. eapply find_none in H; [|exact Hin]. congruence.
Qed.
Lemma requirements_matched r :
  In r (map requirement_of (List.filter (has_effect EffectRequireSpecificMethod)
          (sort_policies (List.filter (applies ctx) policies))))
  <-> exists p, applying EffectRequireSpecificMethod p /\ r = requirement_of p.
Proof.
  rewrite in_map_iff. split.
  - intros (p & <- & Hp%filter_In). exists p. split; [by apply in_matched|done].
  - intros (p & Hp & ->). exists p. split; [done|]. by apply filter_In, in_matched.
Qed.

Lemma evaluate_policies_spec default_effect :
  match evaluate_policies policies ctx default_effect with
  | DecisionDeny code =>
      (exists p, first_applying EffectDeny p /\ code = pl_policy_code p)
      \/ ((forall e, none_applies e) /\ requests_mfa (cx_requested_acr ctx) = false
          /\ default_effect = DefaultDeny /\ code = "(default)")
  | DecisionRequireMethods rs =>
      none_applies EffectDeny /\ (exists p, applying EffectRequireSpecificMethod p)
      /\ forall r, In r rs <-> (exists p, applying EffectRequireSpecificMethod p /\ r = requirement_of p)
                              \/ (requests_mfa (cx_requested_acr ctx) = true /\ r = builtin_requirement)
  | DecisionRequireMfa code =>
      none_applies EffectDeny /\ none_applies EffectRequireSpecificMethod
      /\ ((exists p, first_applying EffectRequireMfa p /\ code = pl_policy_code p)
          \/ (none_applies EffectRequireMfa /\ requests_mfa (cx_requested_acr ctx) = true
              /\ code = BUILTIN_ACR_POLICY_CODE))
  | DecisionAllow found =>
      (forall e, e <> EffectAllow -> none_applies e) /\ requests_mfa (cx_requested_acr ctx) = false
      /\ match found with
         | Some code => exists p, first_applying EffectAllow p /\ code = pl_policy_code p
         | None => none_applies EffectAllow /\ default_effect = DefaultAllow
         end
  end.
Proof.
  unfold evaluate_policies. destruct (find (has_effect EffectDeny) _) as [d|] eqn:Ed.
  { left. exists d. split; [by apply find_matched_Some|done]. }
  apply find_matched_None in Ed.
  destruct (map requirement_of _) as [|r0 rs] eqn:Er.
  2: { split; [done|]. split.
       - assert (In r0 (r0 :: rs)) as H0 by by left. rewrite <- Er in H0.
         apply requirements_matched in H0 as (p & ? & _). by exists p.
       - intros r. rewrite <- requirements_matched, Er.
         destruct (requests_mfa _); [rewrite in_app_iff; cbn; intuition congruence|intuition congruence]. }
  assert (none_applies EffectRequireSpecificMethod) as Es.
  { intros p Hp. assert (In (requirement_of p) []) as []. rewrite <- Er. apply requirements_matched. eauto. }
  destruct (find (has_effect EffectRequireMfa) _) as [m|] eqn:Em.
  { split; [done|]. split; [done|]. left. exists m. split; [by apply find_matched_Some|done]. }
  apply find_matched_None in Em. destruct (requests_mfa _) eqn:Ea; [naive_solver|].
  destruct (find (has_effect EffectAllow) _) as [a|] eqn:Eal.
  - split; [by intros []|]. split; [done|]. exists a. split; [by apply find_matched_Some|done].
  - apply find_matched_None in Eal. destruct default_effect; [by split; [intros []|]|].
    right. split; [by intros []|]. done.
Qed.

(** C37: What the policies decide.  A deny that applies wins over everything, and the
    first of them, in the order of priority and code, is named.  Else, if policies that
    demand a method apply, the requirements are those of all of them, and a second
    factor besides when the client asked for one.  Else the first applying policy that
    demands a second factor is named, or the client's own demand; this is looked at
    before the default, so a client that asks for a second factor gets one demanded even
    where the default denies.  Else the first applying allow is named; and where nothing
    applies and the client asks for nothing the tenant's default decides. *)
Theorem policy_decision_correct default_effect :
  match evaluate_policies policies ctx default_effect with
  | DecisionDeny code =>
      (exists p, first_applying EffectDeny p /\ code = pl_policy_code p)
      \/ ((forall e, none_applies e) /\ requests_mfa (cx_requested_acr ctx) = false
          /\ default_effect = DefaultDeny /\ code = "(default)")
  | DecisionRequireMethods rs =>
      none_applies EffectDeny /\ (exists p, applying EffectRequireSpecificMethod p)
      /\ forall r, In r rs <-> (exists p, applying EffectRequireSpecificMethod p /\ r = requirement_of p)
                              \/ (requests_mfa (cx_requested_acr ctx) = true /\ r = builtin_requirement)
  | DecisionRequireMfa code =>
      none_applies EffectDeny /\ none_applies EffectRequireSpecificMethod
      /\ ((exists p, first_applying EffectRequireMfa p /\ code = pl_policy_code p)
          \/ (none_applies EffectRequireMfa /\ requests_mfa (cx_requested_acr ctx) = true
              /\ code = BUILTIN_ACR_POLICY_CODE))
  | DecisionAllow found =>
      (forall e, e <> EffectAllow -> none_applies e) /\ requests_mfa (cx_requested_acr ctx) = false
      /\ match found with
         | Some code => exists p, first_applying EffectAllow p /\ code = pl_policy_code p
         | None => none_applies EffectAllow /\ default_effect = DefaultAllow
         end
  end.
Proof. apply evaluate_policies_spec. Qed.

Lemma second_factor_used used :
  existsb (fun m => method_in m SECOND_FACTORS) used = true <-> from_methods used = MultiFactor.
Proof.
  rewrite from_methods_multi, existsb_exists. unfold method_in.
  setoid_rewrite bool_decide_eq_true. setoid_rewrite second_factors_spec.
  setoid_rewrite list_elem_of_In. done.
Qed.
Lemma builtin_satisfied used user_verified :
  satisfied_by (mr_requirement builtin_requirement) used user_verified = true
  <-> from_methods used = MultiFactor.
Proof.
  rewrite <- second_factor_used. unfold satisfied_by. cbn [mr_requirement builtin_requirement rm_methods].
  cbn [rm_user_verification negb]. rewrite andb_true_r.
  replace (bool_decide (SECOND_FACTORS = [])) with false by (vm_compute; reflexivity). done.
Qed.
Lemma all_enforced default_effect rs used user_verified :
  evaluate_policies policies ctx default_effect = DecisionRequireMethods rs ->
  unmet_method_requirement (DecisionRequireMethods rs) used user_verified = None
  <-> (forall p, applying EffectRequireSpecificMethod p ->
         satisfied_by (mr_requirement (requirement_of p)) used user_verified = true)
      /\ (requests_mfa (cx_requested_acr ctx) = true -> from_methods used = MultiFactor).
Proof.
  intros E. pose proof (evaluate_policies_spec default_effect) as H. rewrite E in H.
  destruct H as (_ & _ & Hrs). rewrite <- (builtin_satisfied used user_verified).
  assert (unmet_method_requirement (DecisionRequireMethods rs) used user_verified = None
          <-> forall r, In r rs -> satisfied_by (mr_requirement r) used user_verified = true) as ->.
  { cbn. split.
    - intros Hn r Hr. eapply find_none in Hn; [|exact Hr]. by apply negb_false_iff in Hn.
    - intros Hall. destruct (find _ rs) as [r|] eqn:Ef; [|done].
      apply find_some in Ef as [Hr Hn]. rewrite Hall in Hn; done. }
  setoid_rewrite Hrs. naive_solver.
Qed.
(** Every required method is enforced.  When the decision requires methods, a
    sign-in meets it exactly when it meets each policy that applies and, if the
    client asked for a second factor, used one: one policy cannot stand in for
    another, nor a policy for the client's demand. *)
Theorem method_requirements_all_enforced default_effect rs used user_verified :
  evaluate_policies policies ctx default_effect = DecisionRequireMethods rs ->
  unmet_method_requirement (DecisionRequireMethods rs) used user_verified = None
  <-> (forall p, applying EffectRequireSpecificMethod p ->
         satisfied_by (mr_requirement (requirement_of p)) used user_verified = true)
      /\ (requests_mfa (cx_requested_acr ctx) = true -> from_methods used = MultiFactor).
Proof. apply all_enforced. Qed.

(** A client's demand overrides the default deny.  Where no policy applies
    and the tenant denies by default, a request that names the reserved [acr]
    value is not denied: it is asked for a second factor, which then admits it. *)
Theorem requested_mfa_lifts_default_deny :
  (forall e, none_applies e) -> requests_mfa (cx_requested_acr ctx) = true ->
  evaluate_policies policies ctx DefaultDeny = DecisionRequireMfa BUILTIN_ACR_POLICY_CODE.
Proof.
  intros Hnone Hacr. pose proof (evaluate_policies_spec DefaultDeny) as H.
  destruct (evaluate_policies policies ctx DefaultDeny) as [found|code|code|rs].
  - destruct H as (_ & H & _). congruence.
  - destruct H as [(p & [Hp _] & _)|(_ & H & _)]; [by eapply Hnone in Hp|congruence].
  - destruct H as (_ & _ & [(p & [Hp _] & _)|(_ & _ & ->)]); [by eapply Hnone in Hp|done].
  - destruct H as (_ & (p & Hp) & _). by eapply Hnone in Hp.
Qed.
End decision.

(** The order in which policies are loaded does not matter.  Codes are unique
    in a tenant, so two listings of the same policies decide alike. *)
Theorem policy_order_irrelevant policies policies' ctx default_effect :
  policies ≡ₚ policies' -> NoDup (pl_policy_code <$> policies) ->
  evaluate_policies policies ctx default_effect = evaluate_policies policies' ctx default_effect.
Proof.
  intros Hp Hnd. unfold evaluate_policies.
  rewrite (sort_policies_unique _ (List.filter (applies ctx) policies')); [done| |].
  - by apply filter_Permutation.
  - by apply filter_codes_NoDup.
Qed.

(** ** Time windows *)
(** When a time window is open.  A valid window is open exactly when, on the
    window's own clock, the time lies within [(end - start) mod 24h] after [start]
    of some day whose weekday it names: a window that runs over midnight belongs to
    the day on which it starts. *)
Theorem window_contains_correct w now :
  window_validate w = Ok tt -> (0 <= tw_start_minute w)%Z -> (0 <= tw_end_minute w)%Z ->
  let local := epoch_minute (now + seconds (60 * tw_utc_offset_minutes w)) in
  window_contains w now = true
  <-> exists day, (tw_days w = [] \/ num_days_from_sunday day ∈ tw_days w)
        /\ (1440 * day + tw_start_minute w <= local
            < 1440 * day + tw_start_minute w + (tw_end_minute w - tw_start_minute w) mod 1440)%Z.
Proof.
  intros Hv Hs He. cbn zeta. unfold window_validate in Hv.
  destruct (_ || _)%bool eqn:Hb in Hv; [done|]. clear Hv.
  apply orb_false_iff in Hb as [Hs1%Z.ltb_ge He1%Z.ltb_ge].
  unfold window_contains, minute_of_day, epoch_day.
  set (local := epoch_minute _). set (s := tw_start_minute w) in *. set (e := tw_end_minute w) in *.
  pose proof (Z.div_mod local 1440 ltac:(lia)) as Hl. pose proof (Z.mod_pos_bound local 1440 ltac:(lia)) as Hm.
  set (d := (local / 1440)%Z) in *. set (m := (local mod 1440)%Z) in *.
  assert (forall x, (bool_decide (tw_days w = []) || bool_decide (x ∈ tw_days w) = true)%bool
                    <-> tw_days w = [] \/ x ∈ tw_days w) as Hday.
  { intros x. by rewrite orb_true_iff, !bool_decide_eq_true. }
  destruct (Z.leb_spec s e) as [Hse|Hse].
  - rewrite (Z.mod_small (e - s)) by lia. rewrite !andb_true_iff, Z.leb_le, Z.ltb_lt, Hday. split.
    + intros [? ?]. exists d. split; [done|lia].
    + intros (day & ? & ?). assert (day = d) as -> by lia. split; [lia|done].
  - replace ((e - s) mod 1440)%Z with (e - s + 1440)%Z
      by (apply (Z.mod_unique _ _ (-1)); lia).
    assert (num_days_from_sunday (d - 1) = (num_days_from_sunday d + 6) mod 7)%Z as Hprev.
    { unfold num_days_from_sunday. rewrite Z.add_mod_idemp_l by lia.
      replace (d + 4 + 6)%Z with (d - 1 + 4 + 1 * 7)%Z by lia. by rewrite Z.mod_add by lia. }
    destruct (Z.leb_spec s m).
    + rewrite andb_true_l, Hday. split; [intros ?; exists d; split; [done|lia]|].
      intros (day & ? & ?). by assert (day = d) as -> by lia.
    + destruct (Z.ltb_spec m e).
      * rewrite andb_true_l, Hday, <- Hprev. split; [intros ?; exists (d - 1)%Z; split; [done|lia]|].
        intros (day & ? & ?). by assert (day = d - 1)%Z as -> by lia.
      * split; [done|]. intros (day & _ & ?). lia.
Qed.

(** ** Witnesses *)
Definition no_conditions : PolicyConditions := {|
  cd_application_ids := []; cd_user_ids := []; cd_ip_cidrs := []; cd_time_windows := [];
  cd_requested_acr := [] |}.
Definition toy_policy (code : string) (priority : Z) (effect : PolicyEffect)
  (params : option RequiredMethods) : AuthenticationPolicy := {|
  pl_id := 1%N; pl_tenant_id := 1%N; pl_policy_code := code; pl_policy_name := code;
  pl_priority := priority; pl_enabled := true; pl_effect := effect; pl_effect_params := params;
  pl_conditions := no_conditions; pl_created_at := 0%Z; pl_updated_at := 0%Z |}.
Definition toy_sign_in : AuthenticationContext := {|
  cx_application_id := None; cx_user_id := 7%N; cx_ip_address := Some "192.0.2.1"; cx_now := 0%Z;
  cx_requested_acr := [ACR_MULTI_FACTOR] |}.
Definition passkey_policy : AuthenticationPolicy :=
  toy_policy "passkey" 5 EffectRequireSpecificMethod
    (Some {| rm_methods := [WebAuthn]; rm_user_verification := true |}).
Definition password_policy : AuthenticationPolicy :=
  toy_policy "password" 1 EffectRequireSpecificMethod
    (Some {| rm_methods := [Password; WebAuthn]; rm_user_verification := false |}).

Lemma method_requirements_all_enforced_witness :
  unmet_method_requirement
    (DecisionRequireMethods [requirement_of password_policy; requirement_of passkey_policy;
                             builtin_requirement]) [WebAuthn] true = None
  <-> (forall p, applying [passkey_policy; password_policy] toy_sign_in EffectRequireSpecificMethod p ->
         satisfied_by (mr_requirement (requirement_of p)) [WebAuthn] true = true)
      /\ (requests_mfa (cx_requested_acr toy_sign_in) = true -> from_methods [WebAuthn] = MultiFactor).
Proof.
  apply (method_requirements_all_enforced [passkey_policy; password_policy] toy_sign_in DefaultAllow).
  vm_compute. reflexivity.
Defined.
Lemma requested_mfa_lifts_default_deny_witness :
  evaluate_policies [] toy_sign_in DefaultDeny = DecisionRequireMfa BUILTIN_ACR_POLICY_CODE.
Proof.
  apply (requested_mfa_lifts_default_deny [] toy_sign_in); [by intros e p [[] _]|].
  vm_compute. reflexivity.
Defined.
Lemma policy_order_irrelevant_witness :
  evaluate_policies [passkey_policy; password_policy] toy_sign_in DefaultAllow
  = evaluate_policies [password_policy; passkey_policy] toy_sign_in DefaultAllow.
Proof.
  apply (policy_order_irrelevant [passkey_policy; password_policy] [password_policy; passkey_policy]).
  - apply perm_swap.
  - apply (bool_decide_unpack _). vm_compute. exact I.
Defined.
(** Tokyo, Mondays from 22:00 to 06:00; it is Tuesday, 1970-01-06, 03:30 there. *)
Definition toy_window : TimeWindow := {|
  tw_days := [1]%Z; tw_start_minute := 1320; tw_end_minute := 360; tw_utc_offset_minutes := 540 |}.
Lemma window_contains_correct_witness :
  let now := seconds (60 * (1440 * 4 + 1110)) in
  window_contains toy_window now = true
  <-> exists day, (tw_days toy_window = [] \/ num_days_from_sunday day ∈ tw_days toy_window)
        /\ (1440 * day + tw_start_minute toy_window
              <= epoch_minute (now + seconds (60 * tw_utc_offset_minutes toy_window))
            < 1440 * day + tw_start_minute toy_window
              + (tw_end_minute toy_window - tw_start_minute toy_window) mod 1440)%Z.
Proof. apply (window_contains_correct toy_window); [vm_compute; reflexivity|vm_compute; congruence..]. Defined.
Example toy_window_open : window_contains toy_window (seconds (60 * (1440 * 4 + 1110))) = true.
Proof. vm_compute. reflexivity. Qed.
