(* ===== verification/ResponseMode.v ===== *)
(** * Authorization responses ([domain/response_mode.rs])

    How the authorization response reaches the client: in the query of a 302, or
    in an auto-submitted form.  [encode] is the percent-encoder of the query;
    [percent_decode] and [parse_query] are the reference decoder an RP runs, not
    code of the program. *)

From S2P Require Import Prelude.

Inductive ResponseMode : Type := Query | FormPost.
#[export] Instance ResponseMode_eq_dec : EqDecision ResponseMode.
Proof. solve_decision. Defined.

Definition response_mode_as_str (m : ResponseMode) : string :=
  match m with Query => "query" | FormPost => "form_post" end.

Definition response_mode_parse (raw : string) : Result DomainError ResponseMode :=
  let t := trim raw in
  if String.eqb t "query" then Ok Query
  else if String.eqb t "form_post" then Ok FormPost
  else Err (InvalidValue ("unsupported response_mode: " ++ t)).

(** The [#[default]] variant. *)
Definition response_mode_default : ResponseMode := Query.
Definition response_mode_from_stored (raw : option string) : ResponseMode :=
  unwrap_or response_mode_default (raw ≫= fun v => ok (response_mode_parse v)).
Definition response_mode_to_stored (m : ResponseMode) : option string :=
  match m with Query => None | FormPost => Some (response_mode_as_str m) end.

Record AuthorizationResponse : Type := {
  ar_redirect_uri : string;
  ar_parameters : list (string * string);
  ar_response_mode : ResponseMode
}.
#[export] Instance AuthorizationResponse_eq_dec : EqDecision AuthorizationResponse.
Proof. solve_decision. Defined.

(** [AuthorizationResponse::success] and [::error]. *)
Definition response_success (redirect_uri code state : string) (m : ResponseMode)
  : AuthorizationResponse :=
  let parameters := [("code", code)] in
  {| ar_redirect_uri := redirect_uri;
     ar_parameters := if str_is_empty state then parameters
                      else (parameters ++ [("state", state)])%list;
     ar_response_mode := m |}.
Definition response_error (redirect_uri error description state : string) (m : ResponseMode)
  : AuthorizationResponse :=
  let parameters := [("error", error); ("error_description", description)] in
  {| ar_redirect_uri := redirect_uri;
     ar_parameters := if str_is_empty state then parameters
                      else (parameters ++ [("state", state)])%list;
     ar_response_mode := m |}.

Definition is_form_post (r : AuthorizationResponse) : bool :=
  bool_decide (ar_response_mode r = FormPost).

(** [encode]: bytes outside RFC 3986's unreserved set become [%XX]. *)
Definition is_unreserved (c : ascii) : bool :=
  is_upper c || is_lower c || is_digit c
  || Ascii.eqb c "-" || Ascii.eqb c "." || Ascii.eqb c "_" || Ascii.eqb c "~".
Fixpoint encode (value : string) : string :=
  match value with
  | "" => ""
  | String b rest =>
      if is_unreserved b then String b (encode rest)
      else (String "%" (hex_upper b) ++ encode rest)%string
  end.

Definition encode_pair (kv : string * string) : string :=
  (encode kv.1 ++ "=" ++ encode kv.2)%string.

Definition query_location (r : AuthorizationResponse) : string :=
  let encoded := map encode_pair (ar_parameters r) in
  match encoded with
  | [] => ar_redirect_uri r
  | _ =>
      let separator := if contains_char "?" (ar_redirect_uri r) then "&" else "?" in
      (ar_redirect_uri r ++ separator ++ join "&" encoded)%string
  end.
Definition location (r : AuthorizationResponse) : string :=
  if is_form_post r then ar_redirect_uri r else query_location r.

(** ** The receiving side: a reference decoder *)
Definition hex_value (c : ascii) : option N :=
  if is_digit c then Some (byte c - 48)%N
  else if in_range 65 70 c then Some (byte c - 55)%N
  else if in_range 97 102 c then Some (byte c - 87)%N
  else None.
Fixpoint percent_decode (s : string) : option string :=
  match s with
  | "" => Some ""
  | String "%" (String h (String l rest)) =>
      match hex_value h, hex_value l, percent_decode rest with
      | Some hv, Some lv, Some t => Some (String (ascii_of_N (hv * 16 + lv)%N) t)
      | _, _, _ => None
      end
  | String c rest => match percent_decode rest with
                     | Some t => Some (String c t)
                     | None => None
                     end
  end.
Definition decode_pair (kv : string) : option (string * string) :=
  match split_on "=" kv with
  | [k; v] => match percent_decode k, percent_decode v with
              | Some k', Some v' => Some (k', v')
              | _, _ => None
              end
  | _ => None
  end.
Definition parse_query (q : string) : option (list (string * string)) :=
  mapM decode_pair (split_on "&" q).

(** ** Lemmas *)
Lemma response_mode_stored_roundtrip m :
  response_mode_from_stored (response_mode_to_stored m) = m.
Proof. by destruct m. Qed.

(** Every byte is settled by computation over the 256 of them. *)
Fixpoint bytes_below (n : nat) : list ascii :=
  match n with O => [] | S k => ascii_of_nat k :: bytes_below k end.
Lemma bytes_below_elem n c : (nat_of_ascii c < n)%nat -> In c (bytes_below n).
Proof.
  induction n as [|n IH]; [lia|]. cbn. intros Hlt.
  destruct (decide (nat_of_ascii c = n)) as [<-|]; [left; apply ascii_nat_embedding|].
  right. apply IH. lia.
Qed.
Lemma byte_cases (p : ascii -> bool) :
  forallb p (bytes_below 256) = true -> forall c, p c = true.
Proof.
  rewrite forallb_forall. intros H c. apply H, bytes_below_elem, nat_ascii_bounded.
Qed.

Definition hex_roundtrip_byte (c : ascii) : bool :=
  match hex_upper c with
  | String h (String l "") =>
      match hex_value h, hex_value l with
      | Some hv, Some lv => Ascii.eqb (ascii_of_N (hv * 16 + lv)%N) c
                            && is_unreserved h && is_unreserved l
      | _, _ => false
      end
  | _ => false
  end.
Lemma hex_roundtrip_all c : hex_roundtrip_byte c = true.
Proof. revert c. apply byte_cases. by vm_compute. Qed.
Lemma hex_upper_shape c :
  exists h l hv lv, hex_upper c = String h (String l "")
    /\ hex_value h = Some hv /\ hex_value l = Some lv
    /\ ascii_of_N (hv * 16 + lv)%N = c
    /\ is_unreserved h = true /\ is_unreserved l = true.
Proof.
  pose proof (hex_roundtrip_all c) as H. unfold hex_roundtrip_byte in H.
  destruct (hex_upper c) as [|h [|l [|]]] eqn:E; try done.
  destruct (hex_value h) as [hv|] eqn:Eh; [|done].
  destruct (hex_value l) as [lv|] eqn:El; [|done].
  apply andb_true_iff in H as [H Hl]. apply andb_true_iff in H as [H Hh].
  apply Ascii.eqb_eq in H. exists h, l, hv, lv. done.
Qed.

Lemma percent_decode_plain c rest :
  Ascii.eqb c "%" = false ->
  percent_decode (String c rest) =
    match percent_decode rest with Some t => Some (String c t) | None => None end.
Proof. intros H. destruct c as [[] [] [] [] [] [] [] []]; try done. Qed.
Lemma unreserved_not_percent c : is_unreserved c = true -> Ascii.eqb c "%" = false.
Proof.
  assert (forall c, implb (is_unreserved c) (negb (Ascii.eqb c "%")) = true) as H.
  { apply byte_cases. by vm_compute. }
  specialize (H c). intros E. rewrite E in H. cbn in H. by apply negb_true_iff.
Qed.

(** The RP's decoder recovers what the encoder was given. *)
Lemma percent_decode_encode s : percent_decode (encode s) = Some s.
Proof.
  induction s as [|c s IH]; [done|]. cbn [encode].
  destruct (is_unreserved c) eqn:E.
  - rewrite percent_decode_plain; [|by apply unreserved_not_percent]. by rewrite IH.
  - destruct (hex_upper_shape c) as (h & l & hv & lv & -> & Hh & Hl & Hc & _).
    change (String "%" (String h (String l "")) ++ encode s)%string
      with (String "%" (String h (String l (encode s)))).
    cbn [percent_decode]. by rewrite Hh, Hl, IH, Hc.
Qed.

(** The bytes [encode] writes: unreserved ones and the percent sign. *)
Definition is_encoded_byte (c : ascii) : bool := is_unreserved c || Ascii.eqb c "%".
Lemma encode_bytes s : str_forallb is_encoded_byte (encode s) = true.
Proof.
  induction s as [|c s IH]; [done|]. cbn [encode]. destruct (is_unreserved c) eqn:E.
  - cbn. rewrite IH. unfold is_encoded_byte. by rewrite E.
  - destruct (hex_upper_shape c) as (h & l & hv & lv & -> & _ & _ & _ & Hh & Hl).
    change (String "%" (String h (String l "")) ++ encode s)%string
      with (String "%" (String h (String l (encode s)))).
    cbn [str_forallb]. rewrite IH. unfold is_encoded_byte. by rewrite Hh, Hl.
Qed.

Lemma encode_avoids c s :
  is_encoded_byte c = false ->
  str_forallb (fun b => negb (Ascii.eqb b c)) (encode s) = true.
Proof.
  intros Hc. eapply str_forallb_impl, encode_bytes. intros b Hb.
  apply negb_true_iff, Ascii.eqb_neq. intros ->. by rewrite Hc in Hb.
Qed.
Lemma decode_pair_encode_pair kv : decode_pair (encode_pair kv) = Some kv.
Proof.
  destruct kv as [k v]. unfold decode_pair, encode_pair. cbn [fst snd].
  change ("=" ++ encode v)%string with (String "=" (encode v)).
  rewrite split_on_app by (by apply encode_avoids).
  rewrite split_on_free by (by apply encode_avoids).
  by rewrite !percent_decode_encode.
Qed.
Lemma encode_pair_avoids_ampersand kv :
  str_forallb (fun b => negb (Ascii.eqb b "&")) (encode_pair kv) = true.
Proof.
  unfold encode_pair. rewrite !str_forallb_app, !encode_avoids by done. done.
Qed.
Lemma parse_query_encoded ps :
  ps <> [] -> parse_query (join "&" (map encode_pair ps)) = Some ps.
Proof.
  intros Hne. unfold parse_query. rewrite split_on_join.
  - clear Hne. induction ps as [|p ps IH]; [done|]. cbn.
    rewrite decode_pair_encode_pair. cbn. by rewrite IH.
  - by destruct ps.
  - apply Forall_map, Forall_forall. intros. apply encode_pair_avoids_ampersand.
Qed.

Lemma location_form_post r : ar_response_mode r = FormPost -> location r = ar_redirect_uri r.
Proof. intros H. unfold location, is_form_post. by rewrite H. Qed.

(** C34: The relying party reads back what was sent.  In [query] mode the location
    is the registered URI, one separator ([?], or [&] when the URI has a query)
    and a query string; decoding that string gives exactly the parameters of the
    response, whatever bytes their names and values hold. *)
Theorem location_query_roundtrip r :
  ar_response_mode r = Query -> ar_parameters r <> [] ->
  exists q, location r
      = (ar_redirect_uri r ++ (if contains_char "?" (ar_redirect_uri r) then "&" else "?") ++ q)%string
    /\ parse_query q = Some (ar_parameters r).
Proof.
  intros Hm Hp. exists (join "&" (map encode_pair (ar_parameters r))). split.
  - unfold location, is_form_post, query_location. rewrite Hm. cbn.
    by destruct (ar_parameters r) as [|p ps].
  - by apply parse_query_encoded.
Qed.

(** ** Witness *)
Definition awkward_response : AuthorizationResponse := {|
  ar_redirect_uri := "https://app/cb?a=1"; ar_parameters := [("code", "x&y=%z"); ("state", "a b")];
  ar_response_mode := Query |}.
Lemma location_query_roundtrip_witness :
  exists q, location awkward_response
      = (ar_redirect_uri awkward_response
         ++ (if contains_char "?" (ar_redirect_uri awkward_response) then "&" else "?") ++ q)%string
    /\ parse_query q = Some (ar_parameters awkward_response).
Proof. apply (location_query_roundtrip awkward_response); [reflexivity | discriminate]. Defined.
