(* ===== verification/External.v ===== *)
(** * Code the sources call and that is not in the repository

    Hashing, base64, UUID formatting and key parsing are third-party crates
    ([sha2], [base64], [uuid], [jsonwebtoken], [url], [percent_encoding]); string comparison in SQL is
    MariaDB's.  They are parameters of the development, gathered in the classes
    below; a theorem that needs a documented fact about one of them states it as
    a hypothesis.  The [toy_] instances are what the witnesses compute on. *)

From S2P Require Import Prelude.

Class Hashing := {
  (** [hex::encode(Sha256::digest(input.as_bytes()))]: [crypto::sha256_hex]. *)
  sha256_hex : string -> string;
  (** [URL_SAFE_NO_PAD.encode(Sha256::digest(input.as_bytes()))]. *)
  sha256_base64url : string -> string;
  (** [URL_SAFE_NO_PAD.decode]. *)
  base64url_decode : string -> option string;
  (** [Display for Uuid]. *)
  uuid_to_string : Uuid -> string
}.

Class Jose := {
  (** [jsonwebtoken::DecodingKey] and its two constructors that may refuse. *)
  DecodingKey : Type;
  from_rsa_components : string -> string -> option DecodingKey;
  from_ec_components : string -> string -> option DecodingKey
}.

Class Collation := {
  (** The weight string MariaDB compares VARCHARs by ([utf8mb4_unicode_ci]: not
      case sensitive).  Two values are equal in a WHERE or under a unique key
      when their weights are. *)
  collate : string -> string
}.
Definition collates `{Collation} (a b : string) : bool := String.eqb (collate a) (collate b).

Class UrlCrate := {
  (** [url::Url], [Url::parse], and the members the sources use. *)
  Url : Type;
  url_parse : string -> option Url;
  url_scheme : Url -> string;
  url_fragment : Url -> option string;
  url_set_query_none : Url -> Url;
  url_set_fragment_none : Url -> Url;
  (** [query_pairs_mut] and an [append_pair] for each pair. *)
  url_append_pairs : Url -> list (string * string) -> Url;
  url_to_string : Url -> string;
  (** [percent_encoding::utf8_percent_encode(_, NON_ALPHANUMERIC)]. *)
  percent_encode_all : string -> string
}.

Class TicketCrypto := {
  (** [Hmac::<Sha256>::new_from_slice(key)], [update], [finalize]. *)
  hmac_sha256 : string -> string -> string;
  (** [hex::encode] and [hex::decode]. *)
  hex_encode : string -> string;
  hex_decode : string -> option string;
  (** [Uuid::parse_str], and [Uuid::simple] printed. *)
  uuid_parse_str : string -> option Uuid;
  uuid_simple : Uuid -> string
}.

Class AesGcm := {
  (** [Aes256Gcm::encrypt] and [decrypt]: key, nonce, message. *)
  aes_gcm_seal : string -> string -> string -> option string;
  aes_gcm_open : string -> string -> string -> option string;
  (** The [STANDARD] base64 engine. *)
  base64_encode : string -> string;
  base64_decode : string -> Result string string
}.
Class TotpCrate := {
  (** [totp_rs::Builder::build] with SHA-1, six digits and steps of 30 s refuses this
      secret, and why. *)
  totp_build_error : string -> option string;
  (** [Totp::check(code, time)] with skew 0. *)
  totp_check : string -> string -> Z -> bool;
  (** [Totp::to_url] with skew 1 for a secret, an issuer and an account. *)
  totp_to_url : string -> option string -> string -> Result string string;
  (** [Secret::to_base32]. *)
  totp_to_base32 : string -> string
}.

Definition toy_url : UrlCrate := {|
  Url := string;
  url_parse s := if contains_char ":" s then Some s else None;
  url_scheme _ := "https";
  url_fragment s := if contains_char "#" s then Some "" else None;
  url_set_query_none s := s;
  url_set_fragment_none s := s;
  url_append_pairs s pairs := s ++ "?" ++ join "&" (map (fun kv => kv.1 ++ "=" ++ kv.2) pairs);
  url_to_string s := s;
  percent_encode_all s := s
|}.
Definition toy_collation : Collation := {| collate := to_ascii_lowercase |}.
Definition toy_hashing : Hashing := {|
  sha256_hex s := s;
  sha256_base64url s := s;
  base64url_decode s := Some s;
  uuid_to_string u := pretty u
|}.
Definition toy_aes_gcm : AesGcm := {|
  aes_gcm_seal _ _ m := Some m;
  aes_gcm_open _ _ m := Some m;
  base64_encode s := s;
  base64_decode s := Ok s
|}.
(** The code of step [n] is [n] in decimal. *)
Definition toy_totp : TotpCrate := {|
  totp_build_error _ := None;
  totp_check _ code time := String.eqb code (pretty (time / 30)%Z);
  totp_to_url secret issuer account := Ok ("otpauth://totp/" ++ account ++ "?secret=" ++ secret);
  totp_to_base32 s := s
|}.
Definition toy_jose : Jose := {|
  DecodingKey := string * string;
  from_rsa_components n e := Some (n, e);
  from_ec_components x y := Some (x, y)
|}.

(** ** Identifiers derived from them *)
Section derived.
Context {HS : Hashing}.
(** [domain/issuer.rs]: [format!("{base_issuer}/{tenant_id}")]. *)
Definition tenant_issuer (base_issuer : string) (tenant_id : TenantId) : string :=
  (base_issuer ++ "/" ++ uuid_to_string tenant_id)%string.

(** Two tenants never share an issuer when UUIDs print distinctly. *)
Lemma tenant_issuer_inj base t t' :
  (forall a b, uuid_to_string a = uuid_to_string b -> a = b) ->
  tenant_issuer base t = tenant_issuer base t' -> t = t'.
Proof. intros Hinj E. apply Hinj. by do 2 apply str_app_inv_l in E. Qed.
End derived.
