(* ===== verification/AuditLog.v ===== *)
(** * Audit events ([domain/audit.rs], [application/audit.rs])

    The vocabulary of the audit log and the event [AuditService::record]
    builds.  A failure of the sink is logged and swallowed there. *)

From S2P Require Import Prelude.

Inductive AuditEventType : Type :=
  | LoginSucceeded | LoginFailed | LoginLocked | LoginPolicyDenied
  | AuthenticationPolicyCreated | AuthenticationPolicyUpdated | AuthenticationPolicyDeleted
  | AuthorizationCodeIssued | AuthorizationCodeUsed | AuthorizationCodeReuseDetected
  | TokenIssued | ClientAuthenticationFailed | SsoSessionCreated | SsoSessionResumed
  | SsoSessionExpired | SsoSessionTerminated | SamlResponseIssued | UserPermissionGranted
  | UserPermissionRevoked | ClientPermissionGranted | ClientPermissionRevoked
  | ResourceRegistered | ResourceUpdated | ResourceDeleted | ApplicationRegistered
  | ApplicationUpdated | ApplicationDeleted | ApplicationBindingAdded
  | ApplicationBindingRemoved | ApplicationBindingMoved | ApplicationAssigned
  | ApplicationUnassigned | ApplicationAccessDenied | ClientRegistered | ClientUpdated
  | ClientSecretRotated | ClientDeleted | RefreshTokenIssued | RefreshTokenUsed
  | RefreshTokenReuseDetected | RefreshTokenRevoked | RefreshTokenKeyMismatch
  | ConsentGranted | ConsentDenied | ConsentRevoked | TenantInvitationCreated
  | TenantInvitationAccepted | TenantMembershipRevoked | TenantMembershipSuspended
  | TenantMembershipResumed | AccountNoteUpdated | UserCreated | UserStatusChanged
  | UserDeleted | UserPasswordReset | UserProfileUpdated | UserLoginIdentifierAdded
  | UserLoginIdentifierUpdated | UserLoginIdentifierRemoved | UserPrimaryEmailChanged
  | AuthenticatorStatusChanged | RecoveryCodesIssued | RecoveryCodeUsed | EmailOtpSent
  | SmsOtpSent | UserMfaReset | UserAccountUnlocked | ExternalLoginSucceeded
  | ExternalLoginFailed | ExternalIdpCreated | ExternalIdpUpdated | ExternalIdpDeleted
  | StepUpSucceeded | StepUpFailed | PasswordChanged | TenantCreated | TenantUpdated
  | TenantDeleted | TenantDomainAdded | TenantDomainRemoved | SystemSettingsUpdated
  | TenantSettingsUpdated | ServiceRestartRequested | PasswordResetRequested
  | PasswordResetCompleted | EmailVerificationRequested | EmailVerified
  | AccountSetupCompleted | UnregisteredDeviceSignIn | UnregisteredDeviceRefused
  | DeviceRegistered | DeviceRevoked | DeviceExpired | SshKeyRegistered | SshKeyRevoked
  | SessionKeyBound | SessionKeyRejected | ApproverKeyRegistered | ApproverKeyRevoked
  | ApproverKeyRejected | AppApprovalApproved | AppApprovalDenied | AppApprovalRefused.

Definition audit_event_as_str (e : AuditEventType) : string :=
  match e with
  | LoginSucceeded => "login.succeeded"
  | LoginFailed => "login.failed"
  | LoginLocked => "login.locked"
  | LoginPolicyDenied => "login.policy_denied"
  | AuthenticationPolicyCreated => "authentication_policy.created"
  | AuthenticationPolicyUpdated => "authentication_policy.updated"
  | AuthenticationPolicyDeleted => "authentication_policy.deleted"
  | AuthorizationCodeIssued => "authorization_code.issued"
  | AuthorizationCodeUsed => "authorization_code.used"
  | AuthorizationCodeReuseDetected => "authorization_code.reuse_detected"
  | TokenIssued => "token.issued"
  | ClientAuthenticationFailed => "client.authentication_failed"
  | SsoSessionCreated => "sso_session.created"
  | SsoSessionResumed => "sso_session.resumed"
  | SsoSessionExpired => "sso_session.expired"
  | SsoSessionTerminated => "sso_session.terminated"
  | SamlResponseIssued => "saml_response.issued"
  | UserPermissionGranted => "user_permission.granted"
  | UserPermissionRevoked => "user_permission.revoked"
  | ClientPermissionGranted => "client_permission.granted"
  | ClientPermissionRevoked => "client_permission.revoked"
  | ResourceRegistered => "resource.registered"
  | ResourceUpdated => "resource.updated"
  | ResourceDeleted => "resource.deleted"
  | ApplicationRegistered => "application.registered"
  | ApplicationUpdated => "application.updated"
  | ApplicationDeleted => "application.deleted"
  | ApplicationBindingAdded => "application_binding.added"
  | ApplicationBindingRemoved => "application_binding.removed"
  | ApplicationBindingMoved => "application_binding.moved"
  | ApplicationAssigned => "application.assigned"
  | ApplicationUnassigned => "application.unassigned"
  | ApplicationAccessDenied => "application.access_denied"
  | ClientRegistered => "client.registered"
  | ClientUpdated => "client.updated"
  | ClientSecretRotated => "client.secret_rotated"
  | ClientDeleted => "client.deleted"
  | RefreshTokenIssued => "refresh_token.issued"
  | RefreshTokenUsed => "refresh_token.used"
  | RefreshTokenReuseDetected => "refresh_token.reuse_detected"
  | RefreshTokenRevoked => "refresh_token.revoked"
  | RefreshTokenKeyMismatch => "refresh_token.dpop_key_mismatch"
  | ConsentGranted => "consent.granted"
  | ConsentDenied => "consent.denied"
  | ConsentRevoked => "consent.revoked"
  | TenantInvitationCreated => "tenant_invitation.created"
  | TenantInvitationAccepted => "tenant_invitation.accepted"
  | TenantMembershipRevoked => "tenant_membership.revoked"
  | TenantMembershipSuspended => "tenant_membership.suspended"
  | TenantMembershipResumed => "tenant_membership.resumed"
  | AccountNoteUpdated => "account.note_updated"
  | UserCreated => "user.created"
  | UserStatusChanged => "user.status_changed"
  | UserDeleted => "user.deleted"
  | UserPasswordReset => "user.password_reset"
  | UserProfileUpdated => "user.profile_updated"
  | UserLoginIdentifierAdded => "user.login_identifier_added"
  | UserLoginIdentifierUpdated => "user.login_identifier_updated"
  | UserLoginIdentifierRemoved => "user.login_identifier_removed"
  | UserPrimaryEmailChanged => "user.primary_email_changed"
  | AuthenticatorStatusChanged => "authenticator.status_changed"
  | RecoveryCodesIssued => "recovery_codes.issued"
  | RecoveryCodeUsed => "recovery_code.used"
  | EmailOtpSent => "email_otp.sent"
  | SmsOtpSent => "sms_otp.sent"
  | UserMfaReset => "user.mfa_reset"
  | UserAccountUnlocked => "user.account_unlocked"
  | ExternalLoginSucceeded => "external_login.succeeded"
  | ExternalLoginFailed => "external_login.failed"
  | ExternalIdpCreated => "external_idp.created"
  | ExternalIdpUpdated => "external_idp.updated"
  | ExternalIdpDeleted => "external_idp.deleted"
  | StepUpSucceeded => "step_up.succeeded"
  | StepUpFailed => "step_up.failed"
  | PasswordChanged => "password.changed"
  | TenantCreated => "tenant.created"
  | TenantUpdated => "tenant.updated"
  | TenantDeleted => "tenant.deleted"
  | TenantDomainAdded => "tenant.domain_added"
  | TenantDomainRemoved => "tenant.domain_removed"
  | SystemSettingsUpdated => "system_settings.updated"
  | TenantSettingsUpdated => "tenant_settings.updated"
  | ServiceRestartRequested => "service.restart_requested"
  | PasswordResetRequested => "password_reset.requested"
  | PasswordResetCompleted => "password_reset.completed"
  | EmailVerificationRequested => "email_verification.requested"
  | EmailVerified => "email_verification.verified"
  | AccountSetupCompleted => "account_setup.completed"
  | UnregisteredDeviceSignIn => "login.unregistered_device"
  | UnregisteredDeviceRefused => "login.unregistered_device_refused"
  | DeviceRegistered => "device.registered"
  | DeviceRevoked => "device.revoked"
  | DeviceExpired => "device.expired"
  | SshKeyRegistered => "ssh_key.registered"
  | SshKeyRevoked => "ssh_key.revoked"
  | SessionKeyBound => "sso_session.key_bound"
  | SessionKeyRejected => "sso_session.key_rejected"
  | ApproverKeyRegistered => "approver_key.registered"
  | ApproverKeyRevoked => "approver_key.revoked"
  | ApproverKeyRejected => "approver_key.rejected"
  | AppApprovalApproved => "app_approval.approved"
  | AppApprovalDenied => "app_approval.denied"
  | AppApprovalRefused => "app_approval.refused"
  end.

Definition ALL_AUDIT_EVENTS : list AuditEventType := [
  LoginSucceeded; LoginFailed; LoginLocked; LoginPolicyDenied; AuthenticationPolicyCreated;
  AuthenticationPolicyUpdated; AuthenticationPolicyDeleted; AuthorizationCodeIssued;
  AuthorizationCodeUsed; AuthorizationCodeReuseDetected; TokenIssued;
  ClientAuthenticationFailed; SsoSessionCreated; SsoSessionResumed; SsoSessionExpired;
  SsoSessionTerminated; SamlResponseIssued; UserPermissionGranted; UserPermissionRevoked;
  ClientPermissionGranted; ClientPermissionRevoked; ResourceRegistered; ResourceUpdated;
  ResourceDeleted; ApplicationRegistered; ApplicationUpdated; ApplicationDeleted;
  ApplicationBindingAdded; ApplicationBindingRemoved; ApplicationBindingMoved;
  ApplicationAssigned; ApplicationUnassigned; ApplicationAccessDenied; ClientRegistered;
  ClientUpdated; ClientSecretRotated; ClientDeleted; RefreshTokenIssued; RefreshTokenUsed;
  RefreshTokenReuseDetected; RefreshTokenRevoked; RefreshTokenKeyMismatch; ConsentGranted;
  ConsentDenied; ConsentRevoked; TenantInvitationCreated; TenantInvitationAccepted;
  TenantMembershipRevoked; TenantMembershipSuspended; TenantMembershipResumed;
  AccountNoteUpdated; UserCreated; UserStatusChanged; UserDeleted; UserPasswordReset;
  UserProfileUpdated; UserLoginIdentifierAdded; UserLoginIdentifierUpdated;
  UserLoginIdentifierRemoved; UserPrimaryEmailChanged; AuthenticatorStatusChanged;
  RecoveryCodesIssued; RecoveryCodeUsed; EmailOtpSent; SmsOtpSent; UserMfaReset;
  UserAccountUnlocked; ExternalLoginSucceeded; ExternalLoginFailed; ExternalIdpCreated;
  ExternalIdpUpdated; ExternalIdpDeleted; StepUpSucceeded; StepUpFailed; PasswordChanged;
  TenantCreated; TenantUpdated; TenantDeleted; TenantDomainAdded; TenantDomainRemoved;
  SystemSettingsUpdated; TenantSettingsUpdated; ServiceRestartRequested;
  PasswordResetRequested; PasswordResetCompleted; EmailVerificationRequested;
  EmailVerified; AccountSetupCompleted; UnregisteredDeviceSignIn;
  UnregisteredDeviceRefused; DeviceRegistered; DeviceRevoked; DeviceExpired;
  SshKeyRegistered; SshKeyRevoked; SessionKeyBound; SessionKeyRejected;
  ApproverKeyRegistered; ApproverKeyRevoked; ApproverKeyRejected; AppApprovalApproved;
  AppApprovalDenied; AppApprovalRefused].

Inductive AuditResult : Type := AuditSuccess | AuditFailure.
#[export] Instance AuditResult_eq_dec : EqDecision AuditResult.
Proof. solve_decision. Defined.
Definition audit_result_as_str (r : AuditResult) : string :=
  match r with AuditSuccess => "success" | AuditFailure => "failure" end.

Record RequestContext : Type := {
  ctx_correlation_id : string;
  ctx_ip_address : option string;
  ctx_user_agent : option string
}.
Record AuditEvent : Type := {
  ev_type : AuditEventType;
  ev_occurred_at : DateTime;
  ev_tenant_id : option TenantId;
  ev_user_id : option Uuid;
  ev_client_id : option string;
  ev_ip_address : option string;
  ev_user_agent : option string;
  ev_result : AuditResult;
  ev_reason : option string;
  ev_correlation_id : string
}.
(** The event [AuditService::record] builds before it logs and stores it. *)
Definition audit_event (event_type : AuditEventType) (result : AuditResult)
  (tenant_id : option TenantId) (user_id : option Uuid) (client_id reason : option string)
  (ctx : RequestContext) (now : DateTime) : AuditEvent := {|
  ev_type := event_type; ev_occurred_at := now; ev_tenant_id := tenant_id;
  ev_user_id := user_id; ev_client_id := client_id;
  ev_ip_address := ctx_ip_address ctx; ev_user_agent := ctx_user_agent ctx;
  ev_result := result; ev_reason := reason; ev_correlation_id := ctx_correlation_id ctx |}.

(** ** Lemmas *)
Lemma all_audit_events_complete e : e ∈ ALL_AUDIT_EVENTS.
Proof. apply list_elem_of_In. destruct e; cbn; tauto. Qed.
Lemma audit_literals_distinct : NoDup (audit_event_as_str <$> ALL_AUDIT_EVENTS).
Proof. apply (bool_decide_unpack _). by vm_compute. Qed.
(** No two kinds of event share a literal: a search by literal finds one kind. *)
Lemma audit_event_as_str_inj e f : audit_event_as_str e = audit_event_as_str f -> e = f.
Proof.
  intros E. pose proof audit_literals_distinct as Hnd.
  pose proof (all_audit_events_complete e) as He. pose proof (all_audit_events_complete f) as Hf.
  apply list_elem_of_lookup in He as [i Hi], Hf as [j Hj].
  assert (i = j) as ->; [|congruence].
  eapply NoDup_lookup; [exact Hnd | by rewrite list_lookup_fmap, Hi |].
  by rewrite list_lookup_fmap, Hj; cbn; rewrite E.
Qed.
#[export] Instance AuditEventType_eq_dec : EqDecision AuditEventType.
Proof.
  intros e f. destruct (decide (audit_event_as_str e = audit_event_as_str f)) as [E|E].
  - left. by apply audit_event_as_str_inj.
  - right. by intros ->.
Defined.
