(* ===== verification/Directory.v ===== *)
(** * Users, tenants, tenant contexts and resources ([domain/user.rs],
      [domain/tenant.rs], [domain/tenant_context.rs], [domain/resource.rs])

    The rows the use cases read to decide whether somebody may sign in and
    whom a token may address, with the predicates on them. *)

From S2P Require Import Prelude Values External.

(** ** Users *)
Record LoginFailureRecord : Type := {
  lf_failed_login_count : Z;
  lf_locked_until : option DateTime
}.
Definition failure_is_locked (r : LoginFailureRecord) : bool := is_some (lf_locked_until r).

Record User : Type := {
  u_id : Uuid;
  u_tenant_id : TenantId;
  u_sub : Uuid;
  u_email : string;
  u_email_verified : bool;
  u_preferred_username : option string;
  u_name : option string;
  u_language : option string;
  u_theme : option string;
  u_password_hash : string;
  u_must_change_password : bool;
  u_password_changed_at : option DateTime;
  u_status : UserStatus;
  u_pending_setup : bool;
  u_failed_login_count : Z;
  u_locked_until : option DateTime;
  u_created_at : DateTime;
  u_updated_at : DateTime
}.
Definition user_is_active (u : User) : bool :=
  bool_decide (u_status u = UserActive) && negb (u_pending_setup u).
Definition can_finish_setup (u : User) : bool := bool_decide (u_status u = UserActive).
Definition user_is_locked_at (u : User) (now : DateTime) : bool :=
  is_some_and (fun until => (now <? until)%Z) (u_locked_until u).
Definition password_set_at (u : User) : DateTime :=
  unwrap_or (u_created_at u) (u_password_changed_at u).

(** ** Tenants *)
Record Tenant : Type := {
  t_id : TenantId;
  t_parent_tenant_id : option TenantId;
  t_name : string;
  t_status : TenantStatus;
  t_self_registration_enabled : bool;
  t_email_login_enabled : bool;
  t_created_at : DateTime;
  t_updated_at : DateTime
}.
Definition tenant_is_root (t : Tenant) : bool := negb (is_some (t_parent_tenant_id t)).
Definition tenant_is_active (t : Tenant) : bool := bool_decide (t_status t = TenantActive).

Record TenantContext : Type := { tc_tenant_id : TenantId }.
Record TenantScope : Type := { ts_tenant_id : TenantId }.
(** [TenantScope::matches]: the exact tenant, no ancestor and no descendant. *)
Definition scope_matches (s : TenantScope) (requested : TenantContext) : bool :=
  N.eqb (ts_tenant_id s) (tc_tenant_id requested).

(** ** Protected resources: the names an access token may be addressed to *)
Definition RESOURCE_URI_MAX_LEN : Z := 255.
Definition RESOURCE_DISPLAY_NAME_MAX_LEN : Z := 255.

Record ProtectedResource : Type := {
  pr_id : Uuid;
  pr_tenant_id : TenantId;
  pr_resource_uri : string;
  pr_display_name : string;
  pr_status : ResourceStatus;
  pr_created_at : DateTime;
  pr_updated_at : DateTime
}.
Definition resource_is_active (r : ProtectedResource) : bool :=
  bool_decide (pr_status r = ResourceActive).

Definition validate_resource_uri `{UrlCrate} (raw : string) : Result MessageKey string :=
  let value := trim raw in
  if str_is_empty value then Err (message "api-resource-uri-required")
  else if (RESOURCE_URI_MAX_LEN <? char_count value)%Z
  then Err (message_with_value "api-resource-uri-too-long" (pretty RESOURCE_URI_MAX_LEN))
  else match url_parse value with
  | None => Err (message "api-resource-uri-invalid")
  | Some parsed =>
      if is_some (url_fragment parsed) then Err (message "api-resource-uri-fragment")
      else Ok value
  end.
Definition validate_resource_display_name (raw : string) : Result MessageKey string :=
  let value := trim raw in
  if str_is_empty value then Err (message "api-resource-display-name-required")
  else if (RESOURCE_DISPLAY_NAME_MAX_LEN <? char_count value)%Z
  then Err (message_with_value "api-resource-display-name-too-long"
              (pretty RESOURCE_DISPLAY_NAME_MAX_LEN))
  else Ok value.

(** ** Lemmas *)
Lemma user_is_active_spec u :
  user_is_active u = true <-> u_status u = UserActive /\ u_pending_setup u = false.
Proof. unfold user_is_active. by rewrite andb_true_iff, bool_decide_eq_true, negb_true_iff. Qed.
Lemma tenant_is_active_spec t : tenant_is_active t = true <-> t_status t = TenantActive.
Proof. apply bool_decide_eq_true. Qed.
(** What registration stores is the submitted string itself, never a
    normalised form of it. *)
Lemma validate_resource_uri_Ok `{UrlCrate} raw v :
  validate_resource_uri raw = Ok v <->
  v = trim raw /\ v <> "" /\ (char_count v <= RESOURCE_URI_MAX_LEN)%Z
  /\ exists u, url_parse v = Some u /\ url_fragment u = None.
Proof.
  unfold validate_resource_uri. destruct (str_is_empty (trim raw)) eqn:E.
  { apply str_is_empty_true in E. split; [done|]. intros (-> & Hne & _). by rewrite E in Hne. }
  apply str_is_empty_false in E.
  destruct (Z.ltb_spec RESOURCE_URI_MAX_LEN (char_count (trim raw))).
  { split; [done|]. intros (-> & _ & ? & _). lia. }
  destruct (url_parse (trim raw)) as [u|] eqn:Hu; [|naive_solver].
  destruct (url_fragment u) eqn:Hf; cbn; naive_solver.
Qed.
