(* ===== verification/Application.v ===== *)
(** * Applications ([domain/application.rs])

    The layer above a client: whether an application is on, who may use it, and
    the roster a relying party reads back. *)

From S2P Require Import Prelude Values.

Definition APPLICATION_NAME_MAX_LEN : Z := 255.

Record Application : Type := {
  app_id : Uuid;
  app_tenant_id : TenantId;
  app_display_name : string;
  app_status : ApplicationStatus;
  app_assignment_mode : AssignmentMode;
  app_created_at : DateTime;
  app_updated_at : DateTime
}.
Inductive ApplicationAccess : Type := AccessAllowed | AccessDisabled | AccessNotAssigned.
#[export] Instance ApplicationAccess_eq_dec : EqDecision ApplicationAccess.
Proof. solve_decision. Defined.
Definition access_is_allowed (a : ApplicationAccess) : bool := bool_decide (a = AccessAllowed).
Definition access_reason (a : ApplicationAccess) : string :=
  match a with
  | AccessAllowed => "allowed"
  | AccessDisabled => "application_disabled"
  | AccessNotAssigned => "not_assigned"
  end.

Definition admits (a : Application) (assigned : bool) : ApplicationAccess :=
  if negb (bool_decide (app_status a = ApplicationActive)) then AccessDisabled
  else match app_assignment_mode a with
  | AssignEveryone => AccessAllowed
  | AssignIndividual => if assigned then AccessAllowed else AccessNotAssigned
  end.
Definition admits_service_account (a : Application) (assigned : bool) : ApplicationAccess :=
  if negb (bool_decide (app_status a = ApplicationActive)) then AccessDisabled
  else if assigned then AccessAllowed else AccessNotAssigned.
Definition needs_assignment_lookup (a : Application) : bool :=
  bool_decide (app_assignment_mode a = AssignIndividual).
Definition application_is_active (a : Application) : bool :=
  bool_decide (app_status a = ApplicationActive).

Definition validate_application_name (raw : string) : Result MessageKey string :=
  let value := trim raw in
  if str_is_empty value then Err (message "api-application-name-required")
  else if (APPLICATION_NAME_MAX_LEN <? char_count value)%Z
  then Err (message_with_value "api-application-name-too-long" (pretty APPLICATION_NAME_MAX_LEN))
  else Ok value.

(** The four ways an application appears as itself. *)
Inductive BindingTarget : Type :=
  | BindOidc (client_row_id : Uuid)
  | BindSaml (service_provider_id : Uuid)
  | BindServiceAccount (client_row_id : Uuid)
  | BindResource (resource_id : Uuid).
#[export] Instance BindingTarget_eq_dec : EqDecision BindingTarget.
Proof. solve_decision. Defined.
Definition binding_kind (t : BindingTarget) : string :=
  match t with
  | BindOidc _ => "oidc" | BindSaml _ => "saml"
  | BindServiceAccount _ => "service_account" | BindResource _ => "resource"
  end.
Definition binding_target_id (t : BindingTarget) : Uuid :=
  match t with
  | BindOidc i | BindServiceAccount i => i
  | BindSaml i => i
  | BindResource i => i
  end.

Inductive ApplicationUserState : Type := RosterAllowed | RosterBlocked | RosterUnknown.
#[export] Instance ApplicationUserState_eq_dec : EqDecision ApplicationUserState.
Proof. solve_decision. Defined.
Definition roster_state_as_str (s : ApplicationUserState) : string :=
  match s with
  | RosterAllowed => "allowed" | RosterBlocked => "blocked" | RosterUnknown => "unknown"
  end.
Record ApplicationUserFacts : Type := {
  f_user_status : UserStatus;
  f_pending_setup : bool;
  f_active_member : bool;
  f_assigned : bool
}.
Definition roster_state (a : Application) (f : ApplicationUserFacts) : ApplicationUserState :=
  if negb (bool_decide (f_user_status f = UserActive)) || f_pending_setup f then RosterBlocked
  else if bool_decide (app_assignment_mode a = AssignEveryone) && negb (f_active_member f)
  then RosterBlocked
  else if access_is_allowed (admits a (f_assigned f)) then RosterAllowed
  else RosterBlocked.

(** ** Lemmas *)
(** The kind and the id determine the target: one row of [application_bindings]. *)
Lemma binding_target_inj s t :
  binding_kind s = binding_kind t -> binding_target_id s = binding_target_id t -> s = t.
Proof. destruct s, t; cbn; congruence. Qed.
Lemma admits_Allowed a assigned :
  admits a assigned = AccessAllowed <->
  app_status a = ApplicationActive /\ (app_assignment_mode a = AssignEveryone \/ assigned = true).
Proof.
  unfold admits. destruct (app_assignment_mode a), assigned; case_bool_decide; cbn; naive_solver.
Qed.
Lemma admits_service_account_Allowed a assigned :
  admits_service_account a assigned = AccessAllowed <->
  app_status a = ApplicationActive /\ assigned = true.
Proof. unfold admits_service_account. destruct assigned; case_bool_decide; cbn; naive_solver. Qed.
(** [EVERYONE] spares the lookup: the answer does not depend on it. *)
Lemma admits_without_lookup a b b' :
  needs_assignment_lookup a = false -> admits a b = admits a b'.
Proof.
  unfold needs_assignment_lookup, admits. rewrite bool_decide_eq_false.
  by destruct (app_assignment_mode a).
Qed.
(** The roster agrees with the gate.  An application's roster shows a user of
    the tenant as allowed exactly when the gate admits them and they can sign in
    at all: active, set up, and a member where the application is for everyone. *)
Theorem roster_agrees_with_gate a f :
  roster_state a f = RosterAllowed <->
  f_user_status f = UserActive /\ f_pending_setup f = false
  /\ (app_assignment_mode a = AssignEveryone -> f_active_member f = true)
  /\ admits a (f_assigned f) = AccessAllowed.
Proof.
  unfold roster_state, access_is_allowed.
  destruct (f_pending_setup f), (f_active_member f), (app_assignment_mode a) eqn:Em;
    repeat case_bool_decide; cbn; naive_solver.
Qed.
(** The roster answers two of the three states; [unknown] is for a subject
    outside the tenant, about whom there are no facts. *)
Lemma roster_state_known a f : roster_state a f <> RosterUnknown.
Proof. unfold roster_state. by repeat case_match. Qed.
