(* ===== verification/ClientJwks.v ===== *)
(** * Client key sets ([domain/client_jwks.rs])

    The public keys a [private_key_jwt] client registers: validation and
    normalisation at registration, and the selection of the key an assertion is
    verified with.  JSON (de)serialisation is serde's; the model starts at the
    deserialised [SubmittedJwks]. *)

From S2P Require Import Prelude Values External.

Definition MAX_CLIENT_JWKS_KEYS : nat := 8.

(** [domain/jwt.rs]: a normalised public key. *)
Record Jwk : Type := {
  jwk_kty : string; jwk_use : string; jwk_kid : string; jwk_alg : string;
  jwk_n : option string; jwk_e : option string;
  jwk_crv : option string; jwk_x : option string; jwk_y : option string
}.
#[export] Instance Jwk_eq_dec : EqDecision Jwk.
Proof. solve_decision. Defined.

Record ClientJwks : Type := { cj_keys : list Jwk }.
#[export] Instance ClientJwks_eq_dec : EqDecision ClientJwks.
Proof. solve_decision. Defined.

Inductive ClientJwksError : Type :=
  | JwksMalformed | JwksEmpty | TooManyKeys | UnsupportedKeyType | MissingField
  | PrivateKeyMaterial | DuplicateKid | InvalidKeyMaterial.
#[export] Instance ClientJwksError_eq_dec : EqDecision ClientJwksError.
Proof. solve_decision. Defined.

Record SubmittedJwk : Type := {
  s_kty : string; s_kid : option string; s_use : option string;
  s_n : option string; s_e : option string;
  s_crv : option string; s_x : option string; s_y : option string;
  s_d : option string; s_p : option string; s_q : option string;
  s_dp : option string; s_dq : option string; s_qi : option string
}.

Definition has_private_material (k : SubmittedJwk) : bool :=
  is_some (s_d k) || is_some (s_p k) || is_some (s_q k)
  || is_some (s_dp k) || is_some (s_dq k) || is_some (s_qi k).

(** [SubmittedJwk::normalize]. *)
Definition normalize (k : SubmittedJwk) : Result ClientJwksError Jwk :=
  if has_private_material k then Err PrivateKeyMaterial
  else match non_empty (s_kid k) with
  | None => Err MissingField
  | Some kid =>
      if String.eqb (s_kty k) "RSA" then
        match non_empty (s_n k), non_empty (s_e k) with
        | Some n, Some e =>
            Ok {| jwk_kty := "RSA"; jwk_use := unwrap_or "sig" (s_use k); jwk_kid := kid;
                  jwk_alg := "RS256"; jwk_n := Some n; jwk_e := Some e;
                  jwk_crv := None; jwk_x := None; jwk_y := None |}
        | _, _ => Err MissingField
        end
      else if String.eqb (s_kty k) "EC" then
        if negb (bool_decide (s_crv k = Some "P-256")) then Err UnsupportedKeyType
        else match non_empty (s_x k), non_empty (s_y k) with
        | Some x, Some y =>
            Ok {| jwk_kty := "EC"; jwk_use := unwrap_or "sig" (s_use k); jwk_kid := kid;
                  jwk_alg := "ES256"; jwk_n := None; jwk_e := None;
                  jwk_crv := Some "P-256"; jwk_x := Some x; jwk_y := Some y |}
        | _, _ => Err MissingField
        end
      else Err UnsupportedKeyType
  end.

(** Rust's [collect::<Result<Vec<_>, _>>]: the first error wins. *)
Fixpoint collect_results {E A B} (f : A -> Result E B) (l : list A) : Result E (list B) :=
  match l with
  | [] => Ok []
  | a :: l' => let? b := f a in let? bs := collect_results f l' in Ok (b :: bs)
  end.

(** The two nested loops of [build] that look for a repeated [kid]. *)
Fixpoint has_duplicate_kid (keys : list Jwk) : bool :=
  match keys with
  | [] => false
  | key :: rest =>
      existsb (fun other => String.eqb (jwk_kid other) (jwk_kid key)) rest
      || has_duplicate_kid rest
  end.

(** [ClientJwks::select]. *)
Definition select_key (j : ClientJwks) (kid : option string) : option Jwk :=
  match kid with
  | Some kid => find (fun k => String.eqb (jwk_kid k) kid) (cj_keys j)
  | None => match cj_keys j with [k] => Some k | _ => None end
  end.

Section with_jose.
Context {JO : Jose}.

(** [jwt::decoding_key_from_jwk]; [None] is any of its [anyhow] errors. *)
Definition decoding_key_from_jwk (k : Jwk) : option DecodingKey :=
  if String.eqb (jwk_kty k) "RSA" then
    match jwk_n k, jwk_e k with
    | Some n, Some e => from_rsa_components n e
    | _, _ => None
    end
  else if String.eqb (jwk_kty k) "EC" then
    match jwk_x k, jwk_y k with
    | Some x, Some y => from_ec_components x y
    | _, _ => None
    end
  else None.

(** [build]: what [parse_registration_jwks] does after deserialising. *)
Definition build (submitted : list SubmittedJwk) : Result ClientJwksError ClientJwks :=
  if bool_decide (submitted = []) then Err JwksEmpty
  else if (MAX_CLIENT_JWKS_KEYS <? length submitted)%nat then Err TooManyKeys
  else
    let? keys := collect_results normalize submitted in
    if existsb (fun k => negb (is_some (decoding_key_from_jwk k))) keys
    then Err InvalidKeyMaterial
    else if has_duplicate_kid keys then Err DuplicateKid
    else Ok {| cj_keys := keys |}.
End with_jose.

(** What serde reads back from a stored [Jwk] ([to_storage_json] then
    [from_storage]): the same members; [alg] is not a field of [SubmittedJwk]. *)
Definition resubmit (k : Jwk) : SubmittedJwk := {|
  s_kty := jwk_kty k; s_kid := Some (jwk_kid k); s_use := Some (jwk_use k);
  s_n := jwk_n k; s_e := jwk_e k; s_crv := jwk_crv k; s_x := jwk_x k; s_y := jwk_y k;
  s_d := None; s_p := None; s_q := None; s_dp := None; s_dq := None; s_qi := None |}.

(** ** Well-formed keys *)
Definition rsa_key (k : Jwk) : Prop :=
  jwk_kty k = "RSA" /\ jwk_alg k = "RS256" /\
  exists n e, jwk_n k = Some n /\ jwk_e k = Some e /\ n <> "" /\ e <> ""
    /\ jwk_crv k = None /\ jwk_x k = None /\ jwk_y k = None.
Definition ec_key (k : Jwk) : Prop :=
  jwk_kty k = "EC" /\ jwk_alg k = "ES256" /\ jwk_crv k = Some "P-256" /\
  exists x y, jwk_x k = Some x /\ jwk_y k = Some y /\ x <> "" /\ y <> ""
    /\ jwk_n k = None /\ jwk_e k = None.
Definition jwk_wf (k : Jwk) : Prop := jwk_kid k <> "" /\ (rsa_key k \/ ec_key k).

Lemma normalize_wf s k :
  normalize s = Ok k -> jwk_wf k /\ has_private_material s = false.
Proof.
  unfold normalize. destruct (has_private_material s) eqn:Hp; [done|].
  destruct (non_empty (s_kid s)) as [kid|] eqn:Hkid; [|done].
  apply non_empty_Some in Hkid as [_ Hkid].
  destruct (String.eqb_spec (s_kty s) "RSA").
  - destruct (non_empty (s_n s)) as [n|] eqn:Hn; [|done].
    destruct (non_empty (s_e s)) as [e0|] eqn:He; [|done].
    apply non_empty_Some in Hn as [_ Hn]. apply non_empty_Some in He as [_ He].
    intros [= <-]. split; [|done]. split; [done|]. left. unfold rsa_key; cbn. naive_solver.
  - destruct (String.eqb_spec (s_kty s) "EC"); [|done].
    case_bool_decide as Hc; cbn; [|done].
    destruct (non_empty (s_x s)) as [x|] eqn:Hx; [|done].
    destruct (non_empty (s_y s)) as [y|] eqn:Hy; [|done].
    apply non_empty_Some in Hx as [_ Hx]. apply non_empty_Some in Hy as [_ Hy].
    intros [= <-]. split; [|done]. split; [done|]. right. unfold ec_key; cbn. naive_solver.
Qed.

Lemma non_empty_keep s : s <> "" -> non_empty (Some s) = Some s.
Proof. by destruct s. Qed.

Lemma normalize_resubmit k : jwk_wf k -> normalize (resubmit k) = Ok k.
Proof.
  destruct k as [kty u kid alg n e crv x y].
  intros [Hkid [(Hk & Ha & n' & e' & Hn & He & Hn' & He' & Hc & Hx & Hy)
               |(Hk & Ha & Hc & x' & y' & Hx & Hy & Hx' & Hy' & Hn & He)]];
    cbn in *; subst; unfold normalize; cbn;
    by rewrite ?non_empty_keep by done.
Qed.

Lemma collect_results_Ok {E A B} (f : A -> Result E B) l bs :
  collect_results f l = Ok bs <-> Forall2 (fun a b => f a = Ok b) l bs.
Proof.
  revert bs. induction l as [|a l IH]; intros bs; cbn.
  - split; [intros [= <-]; constructor|by inversion 1].
  - split.
    + destruct (f a) as [b|] eqn:Ha; [|done].
      destruct (collect_results f l) as [bs'|]; [|done]. intros [= <-].
      constructor; [done|]. by apply IH.
    + inversion 1 as [|? b ? bs' Hb Hbs]; subst. rewrite Hb.
      apply IH in Hbs. by rewrite Hbs.
Qed.

Lemma has_duplicate_kid_spec keys :
  has_duplicate_kid keys = false <-> NoDup (map jwk_kid keys).
Proof.
  induction keys as [|k keys IH]; cbn; [split; [constructor|done]|].
  rewrite NoDup_cons, orb_false_iff, IH.
  enough (existsb (fun other => String.eqb (jwk_kid other) (jwk_kid k)) keys = false
          <-> jwk_kid k ∉ map jwk_kid keys) by tauto.
  rewrite <- not_true_iff_false, existsb_exists, list_elem_of_In, in_map_iff.
  split; intros H (x & Hx & Hin); apply H; exists x; rewrite ?String.eqb_eq in *; done.
Qed.

Section with_jose.
Context {JO : Jose}.

Definition jwks_wf (j : ClientJwks) : Prop :=
  (1 <= length (cj_keys j) <= MAX_CLIENT_JWKS_KEYS)%nat
  /\ Forall jwk_wf (cj_keys j)
  /\ Forall (fun k => is_Some (decoding_key_from_jwk k)) (cj_keys j)
  /\ NoDup (map jwk_kid (cj_keys j)).

Lemma existsb_undecodable keys :
  existsb (fun k => negb (is_some (decoding_key_from_jwk k))) keys = false
  <-> Forall (fun k => is_Some (decoding_key_from_jwk k)) keys.
Proof.
  induction keys as [|k keys IH]; cbn; [split; [constructor|done]|].
  rewrite Forall_cons, orb_false_iff, IH. destruct (decoding_key_from_jwk k); cbn.
  - naive_solver.
  - split; [naive_solver|]. intros [[? [=]] _].
Qed.

(** [build] succeeds exactly on these inputs. *)
Lemma build_Ok submitted j :
  build submitted = Ok j <->
  submitted <> [] /\ (length submitted <= MAX_CLIENT_JWKS_KEYS)%nat
  /\ collect_results normalize submitted = Ok (cj_keys j)
  /\ Forall (fun k => is_Some (decoding_key_from_jwk k)) (cj_keys j)
  /\ NoDup (map jwk_kid (cj_keys j)).
Proof.
  unfold build. case_bool_decide as Hnil; [naive_solver|].
  destruct (Nat.ltb_spec MAX_CLIENT_JWKS_KEYS (length submitted)) as [Hlen|Hlen].
  { split; [done|]. intros (_ & ? & _). lia. }
  destruct (collect_results normalize submitted) as [keys|e] eqn:Hn; [|naive_solver].
  rewrite <- has_duplicate_kid_spec, <- existsb_undecodable.
  destruct (existsb _ keys) eqn:Hd; [naive_solver congruence|].
  destruct (has_duplicate_kid keys) eqn:Hk; [naive_solver congruence|].
  destruct j as [ks]; cbn. split; [intros [= <-]; done|].
  by intros (_ & _ & [= ->] & _).
Qed.

Lemma build_wf submitted j : build submitted = Ok j -> jwks_wf j.
Proof.
  rewrite build_Ok. intros (Hne & Hlen & Hn & Hd & Hk).
  apply collect_results_Ok in Hn. pose proof (Forall2_length _ _ _ Hn) as Hl.
  split_and!; [|by rewrite <- Hl| |done|done].
  - rewrite <- Hl. destruct submitted; cbn; [done|lia].
  - eapply Forall2_Forall_r; [exact Hn|]. apply Forall_forall.
    intros s _ k Hs. by apply normalize_wf in Hs as [? _].
Qed.

Lemma collect_resubmit keys :
  Forall jwk_wf keys -> collect_results normalize (map resubmit keys) = Ok keys.
Proof.
  induction 1 as [|k keys Hk _ IH]; [done|]. cbn [map collect_results].
  by rewrite normalize_resubmit, IH.
Qed.

(** What registration accepted is read back from storage unchanged. *)
Lemma build_resubmit j : jwks_wf j -> build (map resubmit (cj_keys j)) = Ok j.
Proof.
  intros (Hlen & Hwf & Hd & Hk). apply build_Ok. rewrite length_map.
  split_and!; [|lia|by apply collect_resubmit|done|done].
  destruct (cj_keys j); cbn in *; [lia|done].
Qed.

Lemma select_key_kid j k :
  jwks_wf j -> k ∈ cj_keys j -> select_key j (Some (jwk_kid k)) = Some k.
Proof.
  intros (_ & _ & _ & Hnd). cbn. revert Hnd. generalize (cj_keys j) as keys.
  induction keys as [|k' keys IH]; cbn; [set_solver|].
  rewrite NoDup_cons, elem_of_cons. intros [Hnin Hnd] [<-|Hin].
  - by rewrite String.eqb_refl.
  - destruct (String.eqb_spec (jwk_kid k') (jwk_kid k)) as [E|]; [|by apply IH].
    exfalso. apply Hnin. rewrite E, list_elem_of_In. apply in_map. by apply list_elem_of_In.
Qed.
Lemma select_key_elem j kid k : select_key j kid = Some k -> k ∈ cj_keys j.
Proof.
  destruct kid as [kid|]; cbn.
  - intros H. apply find_some in H as [H _]. by apply list_elem_of_In.
  - destruct (cj_keys j) as [|k' [|]]; intros [= <-]. set_solver.
Qed.
(** Registered keys survive storage.  A key set that registration accepts is
    non-empty, within the limit, made of RSA or P-256 public keys whose [kid]s
    differ, each of which the JOSE library can load; and reading its stored form
    back through the same checks gives the same key set. *)
Theorem registered_jwks_stored submitted j :
  build submitted = Ok j -> jwks_wf j /\ build (map resubmit (cj_keys j)) = Ok j.
Proof. intros H. apply build_wf in H. split; [done | by apply build_resubmit]. Qed.
(** The key an assertion names is the key it is checked with: in a key set
    that registration accepted, every [kid] selects its own key. *)
Theorem registered_key_selected submitted j k :
  build submitted = Ok j -> k ∈ cj_keys j -> select_key j (Some (jwk_kid k)) = Some k.
Proof. intros H. apply build_wf in H. by apply select_key_kid. Qed.
(** Without a [kid] a key is selected only when there is exactly one. *)
Lemma select_key_no_kid j k : select_key j None = Some k <-> cj_keys j = [k].
Proof. cbn. destruct (cj_keys j) as [|k' [|]]; naive_solver. Qed.
End with_jose.

(** ** Witnesses *)
Definition ec_submitted (kid : string) : SubmittedJwk := {|
  s_kty := "EC"; s_kid := Some kid; s_use := None; s_n := None; s_e := None;
  s_crv := Some "P-256"; s_x := Some "x"; s_y := Some "y"; s_d := None; s_p := None;
  s_q := None; s_dp := None; s_dq := None; s_qi := None |}.
Definition ec_registered (kid : string) : Jwk := {|
  jwk_kty := "EC"; jwk_use := "sig"; jwk_kid := kid; jwk_alg := "ES256"; jwk_n := None;
  jwk_e := None; jwk_crv := Some "P-256"; jwk_x := Some "x"; jwk_y := Some "y" |}.
Definition two_keys : ClientJwks := {| cj_keys := [ec_registered "a"; ec_registered "b"] |}.
Lemma registered_jwks_stored_witness :
  jwks_wf (JO := toy_jose) two_keys
  /\ build (JO := toy_jose) (map resubmit (cj_keys two_keys)) = Ok two_keys.
Proof.
  apply (registered_jwks_stored (JO := toy_jose) [ec_submitted "a"; ec_submitted "b"]).
  vm_compute. reflexivity.
Defined.
Lemma registered_key_selected_witness : select_key two_keys (Some "b") = Some (ec_registered "b").
Proof.
  apply (registered_key_selected (JO := toy_jose) [ec_submitted "a"; ec_submitted "b"] two_keys
           (ec_registered "b")).
  - vm_compute. reflexivity.
  - right. left.
Defined.
