(* ===== verification/Client.v ===== *)
(** * Clients ([domain/client.rs]) *)

From S2P Require Import Prelude Values ClientJwks.

Record Client : Type := {
  c_id : Uuid;
  c_tenant_id : TenantId;
  c_client_id : string;
  c_client_secret_hash : option string;
  c_client_type : ClientType;
  c_client_status : ClientStatus;
  c_app_name : string;
  c_redirect_uris : list string;
  c_grant_types : list string;
  c_response_types : list string;
  c_scopes : list string;
  c_token_endpoint_auth_method : TokenEndpointAuthMethod;
  c_jwks : option ClientJwks;
  c_post_logout_redirect_uris : list string;
  c_frontchannel_logout_uri : option string;
  c_backchannel_logout_uri : option string;
  c_created_at : DateTime;
  c_updated_at : DateTime
}.

Definition client_is_active (c : Client) : bool := bool_decide (c_client_status c = ClientActive).
Definition client_is_deleted (c : Client) : bool := bool_decide (c_client_status c = ClientDeleted).
Definition allows_redirect_uri (c : Client) (redirect_uri : string) : bool :=
  existsb (fun u => String.eqb u redirect_uri) (c_redirect_uris c).
Definition allows_post_logout_redirect_uri (c : Client) (uri : string) : bool :=
  existsb (fun u => String.eqb u uri) (c_post_logout_redirect_uris c).
Definition allows_scopes (c : Client) (requested : list string) : bool :=
  forallb (fun s => existsb (String.eqb s) (c_scopes c)) requested.
Definition allows_grant_type (c : Client) (g : GrantType) : bool :=
  existsb (fun g' => String.eqb g' (as_str g)) (c_grant_types c).
Definition uses_private_key_jwt (c : Client) : bool :=
  bool_decide (c_client_type c = ClientConfidential)
  && bool_decide (c_token_endpoint_auth_method c = AuthPrivateKeyJwt).
Definition allows_client_credentials (c : Client) : bool :=
  bool_decide (c_client_type c = ClientConfidential)
  && allows_grant_type c GrantClientCredentials.
Definition is_service_account (c : Client) : bool :=
  allows_client_credentials c && negb (allows_grant_type c GrantAuthorizationCode).

(** ** Lemmas *)
Lemma existsb_eqb_l (x : string) l : existsb (String.eqb x) l = true <-> x ∈ l.
Proof.
  rewrite existsb_exists, list_elem_of_In. split.
  - intros (y & Hy & E). apply String.eqb_eq in E. by subst.
  - intros Hx. exists x. by rewrite String.eqb_refl.
Qed.
Lemma existsb_eqb_r (x : string) l : existsb (fun y => String.eqb y x) l = true <-> x ∈ l.
Proof.
  rewrite existsb_exists, list_elem_of_In. split.
  - intros (y & Hy & E). apply String.eqb_eq in E. by subst.
  - intros Hx. exists x. by rewrite String.eqb_refl.
Qed.

Lemma allows_redirect_uri_spec c u : allows_redirect_uri c u = true <-> u ∈ c_redirect_uris c.
Proof. apply existsb_eqb_r. Qed.
Lemma allows_scopes_spec c req : allows_scopes c req = true <-> req ⊆ c_scopes c.
Proof.
  unfold allows_scopes. rewrite forallb_forall. split.
  - intros H s Hs. apply existsb_eqb_l, H. by apply list_elem_of_In.
  - intros H s Hs. apply existsb_eqb_l, H. by apply list_elem_of_In.
Qed.
Lemma allows_grant_type_spec c g : allows_grant_type c g = true <-> as_str g ∈ c_grant_types c.
Proof. apply existsb_eqb_r. Qed.

(** A public client never obtains the machine grant, whatever its registration says. *)
Lemma public_no_client_credentials c :
  c_client_type c = ClientPublic -> allows_client_credentials c = false.
Proof. intros E. unfold allows_client_credentials. by rewrite E. Qed.
Lemma allows_client_credentials_spec c :
  allows_client_credentials c = true <->
  c_client_type c = ClientConfidential /\ as_str GrantClientCredentials ∈ c_grant_types c.
Proof.
  unfold allows_client_credentials.
  by rewrite andb_true_iff, bool_decide_eq_true, allows_grant_type_spec.
Qed.
