(* ===== verification/AuthorizationRequest.v ===== *)
(** * Authorization requests ([domain/authorization_request.rs])

    [accept] is the only way to make an [AuthorizationRequest] from what a client
    sent.  The source calls [expect] on values it validated; the model returns
    [None] where such a call would panic, and [accept_total] shows it never does. *)

From S2P Require Import Prelude Values ResponseMode ClientJwks Client.

Record AuthorizationParameters : Type := {
  p_response_type : option string;
  p_client_id : option string;
  p_redirect_uri : option string;
  p_scope : option string;
  p_state : option string;
  p_nonce : option string;
  p_code_challenge : option string;
  p_code_challenge_method : option string;
  p_prompt : option string;
  p_max_age : option Z;
  p_acr_values : option string;
  p_login_hint : option string;
  p_ui_locales : option string;
  p_response_mode : option string
}.

Inductive AuthorizationRequestRejection : Type :=
  | NotRedirectable (error : OAuthErrorCode) (description : string)
  | Redirectable (redirect_uri : string) (state : option string)
                 (error : OAuthErrorCode) (description : string).

Record PkceChallenge : Type := { pk_challenge : string; pk_method : CodeChallengeMethod }.
#[export] Instance PkceChallenge_eq_dec : EqDecision PkceChallenge.
Proof. solve_decision. Defined.

Record AuthorizationRequest : Type := {
  rq_client_id : string;
  rq_redirect_uri : string;
  rq_scope : list string;
  rq_state : string;
  rq_nonce : string;
  rq_pkce : PkceChallenge;
  rq_prompt : PromptSet;
  rq_response_mode : ResponseMode;
  rq_max_age : option Z;
  rq_acr_values : option string;
  rq_login_hint : option string;
  rq_ui_locales : option string
}.

Definition split_scope (raw : option string) : list string :=
  split_whitespace (unwrap_or "" raw).

(** [validate_redirectable]: the checks whose failure is sent to [redirect_uri]. *)
Definition validate_redirectable (params : AuthorizationParameters) (client : Client)
  : Result (OAuthErrorCode * string) unit :=
  if negb (bool_decide (p_response_type params = Some "code"))
  then Err (UnsupportedResponseType, "response_type must be `code`")
  else if negb (existsb (fun t => String.eqb t "code") (c_response_types client))
          || negb (existsb (fun t => String.eqb t "authorization_code") (c_grant_types client))
  then Err (UnauthorizedClient, "client is not allowed to use the authorization code flow")
  else
    let scope := split_scope (p_scope params) in
    if negb (existsb (fun s => String.eqb s (as_str ScopeOpenId)) scope)
    then Err (InvalidScope, "scope must include `openid`")
    else if negb (allows_scopes client scope)
    then Err (InvalidScope, "requested scope exceeds the client's registered scopes")
    else if negb (is_some (non_empty (p_state params)))
    then Err (InvalidRequest, "state is required")
    else if is_some_and (fun raw => negb (is_ok (response_mode_parse raw)))
                        (non_empty (p_response_mode params))
    then Err (InvalidRequest, "response_mode must be `query` or `form_post`")
    else if negb (bool_decide (p_code_challenge_method params = Some (as_str S256)))
    then Err (InvalidRequest, "code_challenge_method must be `S256`")
    else if negb (is_some (non_empty (p_code_challenge params)))
    then Err (InvalidRequest, "code_challenge is required")
    else Ok tt.

(** [AuthorizationRequest::accept]; [None] is a panic. *)
Definition accept (params : AuthorizationParameters) (client : Client)
  : option (Result AuthorizationRequestRejection AuthorizationRequest) :=
  if negb (client_is_active client)
  then Some (Err (NotRedirectable InvalidClient "client is not active"))
  else match non_empty (p_redirect_uri params) with
  | None => Some (Err (NotRedirectable InvalidRequest "redirect_uri is required"))
  | Some redirect_uri =>
      if negb (allows_redirect_uri client redirect_uri)
      then Some (Err (NotRedirectable InvalidRequest "redirect_uri is not registered"))
      else
        let state := non_empty (p_state params) in
        match validate_redirectable params client with
        | Err (error, description) => Some (Err (Redirectable redirect_uri state error description))
        | Ok _ =>
            state' ← state;
            challenge ← p_code_challenge params;
            Some (Ok {|
              rq_client_id := c_client_id client;
              rq_redirect_uri := redirect_uri;
              rq_scope := split_scope (p_scope params);
              rq_state := state';
              rq_nonce := unwrap_or "" (p_nonce params);
              rq_pkce := {| pk_challenge := challenge; pk_method := S256 |};
              rq_prompt := prompt_parse (unwrap_or "" (p_prompt params));
              rq_response_mode :=
                unwrap_or response_mode_default
                  (non_empty (p_response_mode params) ≫= fun raw => ok (response_mode_parse raw));
              rq_max_age := p_max_age params;
              rq_acr_values := non_empty (p_acr_values params);
              rq_login_hint := non_empty (p_login_hint params);
              rq_ui_locales := non_empty (p_ui_locales params) |})
        end
  end.

(** ** Questions the rest of the flow asks of an accepted request *)
Definition requested_acr (r : AuthorizationRequest) : list string :=
  split_whitespace (unwrap_or "" (rq_acr_values r)).
Definition forbids_interaction (r : AuthorizationRequest) : bool :=
  prompt_contains (rq_prompt r) PromptNone.
Definition forces_reauthentication (r : AuthorizationRequest) : bool :=
  prompt_contains (rq_prompt r) PromptLogin || prompt_contains (rq_prompt r) PromptSelectAccount.
Definition forces_consent (r : AuthorizationRequest) : bool :=
  prompt_contains (rq_prompt r) PromptConsent.
Definition authentication_is_too_old (r : AuthorizationRequest) (auth_time now : DateTime) : bool :=
  is_some_and (fun max_age => (u64_as_i64 max_age <? num_seconds (now - auth_time))%Z)
              (rq_max_age r).
Definition scopes_needing_consent (r : AuthorizationRequest) : list string :=
  base.filter (fun s => s <> as_str ScopeOpenId) (rq_scope r).
Definition success_response (r : AuthorizationRequest) (code : string) : AuthorizationResponse :=
  response_success (rq_redirect_uri r) code (rq_state r) (rq_response_mode r).
Definition error_response (r : AuthorizationRequest) (error : OAuthErrorCode)
  (description : string) : AuthorizationResponse :=
  response_error (rq_redirect_uri r) (error_code_as_str error) description (rq_state r)
    (rq_response_mode r).

(** ** What acceptance guarantees *)
Record request_valid (client : Client) (r : AuthorizationRequest) : Prop := {
  rv_active : c_client_status client = ClientActive;
  rv_client_id : rq_client_id r = c_client_id client;
  rv_redirect_uri : rq_redirect_uri r ∈ c_redirect_uris client;
  rv_code_flow : "code" ∈ c_response_types client /\ "authorization_code" ∈ c_grant_types client;
  rv_openid : "openid" ∈ rq_scope r;
  rv_scope : rq_scope r ⊆ c_scopes client;
  rv_state : rq_state r <> "";
  rv_challenge : pk_challenge (rq_pkce r) <> "" /\ pk_method (rq_pkce r) = S256;
  rv_prompt : NoDup (rq_prompt r)
}.


Lemma validate_redirectable_Ok params client :
  validate_redirectable params client = Ok tt ->
  p_response_type params = Some "code"
  /\ "code" ∈ c_response_types client /\ "authorization_code" ∈ c_grant_types client
  /\ "openid" ∈ split_scope (p_scope params)
  /\ split_scope (p_scope params) ⊆ c_scopes client
  /\ is_Some (non_empty (p_state params))
  /\ (forall raw, non_empty (p_response_mode params) = Some raw ->
        is_ok (response_mode_parse raw) = true)
  /\ p_code_challenge_method params = Some "S256"
  /\ is_Some (non_empty (p_code_challenge params)).
Proof.
  unfold validate_redirectable. cbv zeta.
  repeat match goal with
  | |- context [if ?b then Err _ else _] => let E := fresh "E" in destruct b eqn:E; [discriminate|]
  end.
  intros _. rewrite ?negb_false_iff, ?orb_false_iff in *. destruct_and?.
  rewrite ?negb_false_iff, ?bool_decide_eq_true, ?existsb_eqb_r, ?allows_scopes_spec, ?is_some_true in *.
  split_and!; try done.
  intros raw Hraw. rewrite Hraw in *. cbn in *. by apply negb_false_iff.
Qed.

(** No [expect] of [accept] fires. *)
Lemma accept_total params client : is_Some (accept params client).
Proof.
  unfold accept. destruct (negb _); [eauto|].
  destruct (non_empty (p_redirect_uri params)) as [u|]; [|eauto].
  destruct (negb _); [eauto|].
  destruct (validate_redirectable params client) as [[]|[]] eqn:E; [|eauto].
  apply validate_redirectable_Ok in E as (_&_&_&_&_&[st Hst]&_&_&[ch Hch]).
  apply non_empty_Some in Hch as [Hch _]. rewrite Hst, Hch. cbn. eauto.
Qed.

Lemma accept_Ok params client r :
  accept params client = Some (Ok r) -> request_valid client r.
Proof.
  unfold accept. destruct (negb (client_is_active client)) eqn:Ha; [done|].
  destruct (non_empty (p_redirect_uri params)) as [u|] eqn:Hu; [|done].
  destruct (negb (allows_redirect_uri client u)) eqn:Hr; [done|].
  destruct (validate_redirectable params client) as [[]|[]] eqn:E; [|done].
  apply validate_redirectable_Ok in E
    as (_ & Hrt & Hgt & Hop & Hsc & [st Hst] & _ & _ & [ch Hch]).
  rewrite Hst. apply non_empty_Some in Hst as [_ Hst].
  apply non_empty_Some in Hch as [-> Hch]. cbn. intros [= <-].
  apply negb_false_iff, bool_decide_eq_true in Ha.
  apply negb_false_iff, allows_redirect_uri_spec in Hr.
  split; cbn; try done. apply prompt_parse_NoDup.
Qed.
(** An accepted request is valid.  Whatever a client sends, a request that
    [accept] lets through names an active client and one of its registered
    redirect URIs, asks for the code flow the client is registered for, with
    [openid] and scopes within the registration, and carries a state and an S256
    challenge. *)
Theorem accept_sound params client r :
  accept params client = Some (Ok r) -> request_valid client r.
Proof. apply accept_Ok. Qed.

Lemma accept_redirectable params client uri st e d :
  accept params client = Some (Err (Redirectable uri st e d)) ->
  c_client_status client = ClientActive /\ uri ∈ c_redirect_uris client
  /\ p_redirect_uri params = Some uri /\ st = non_empty (p_state params)
  /\ validate_redirectable params client = Err (e, d).
Proof.
  unfold accept. destruct (negb (client_is_active client)) eqn:Ha; [done|].
  destruct (non_empty (p_redirect_uri params)) as [u|] eqn:Hu; [|done].
  destruct (negb (allows_redirect_uri client u)) eqn:Hr; [done|].
  apply negb_false_iff, bool_decide_eq_true in Ha.
  apply negb_false_iff, allows_redirect_uri_spec in Hr.
  apply non_empty_Some in Hu as [Hu _].
  destruct (validate_redirectable params client) as [[]|[]] eqn:E.
  - destruct (non_empty (p_state params)); [|done].
    destruct (p_code_challenge params); [|done]. done.
  - intros [= <- <- <- <-]. done.
Qed.
(** No open redirect.  An error answer is sent to a URI only when it is the
    one presented and an active client has registered it; it carries the state
    that was presented and the error of the checks that follow. *)
Theorem accept_no_open_redirect params client uri st e d :
  accept params client = Some (Err (Redirectable uri st e d)) ->
  c_client_status client = ClientActive /\ uri ∈ c_redirect_uris client
  /\ p_redirect_uri params = Some uri /\ st = non_empty (p_state params)
  /\ validate_redirectable params client = Err (e, d).
Proof. apply accept_redirectable. Qed.

(** When an error stays with the user.  A request is refused without a
    redirect exactly when the client is not active or the redirect URI is missing,
    empty or not registered. *)
Theorem accept_refuses_in_place params client :
  (exists e d, accept params client = Some (Err (NotRedirectable e d))) <->
  c_client_status client <> ClientActive
  \/ (forall uri, p_redirect_uri params = Some uri -> uri = "" \/ uri ∉ c_redirect_uris client).
Proof.
  unfold accept. destruct (client_is_active client) eqn:Ha; cbn.
  2:{ apply bool_decide_eq_false in Ha. split; [by left|eauto]. }
  apply bool_decide_eq_true in Ha.
  destruct (non_empty (p_redirect_uri params)) as [u|] eqn:Hu.
  2:{ split; [|eauto]. intros _. right. intros uri E. rewrite E in Hu.
      apply non_empty_None in Hu as [|[= ->]]; naive_solver. }
  apply non_empty_Some in Hu as [Hu Hune].
  destruct (allows_redirect_uri client u) eqn:Hr; cbn.
  - apply allows_redirect_uri_spec in Hr. split; [|naive_solver].
    intros (e & d & E). exfalso.
    destruct (validate_redirectable params client) as [[]|[]]; [|done].
    destruct (non_empty (p_state params)); [|done]. by destruct (p_code_challenge params).
  - split; [|eauto]. intros _. right. intros uri E. right.
    rewrite <- allows_redirect_uri_spec. congruence.
Qed.

(** A valid request is accepted as sent.  For an active client and a
    registered redirect URI, a request that passes the checks is accepted, with
    the redirect URI, scopes, state, challenge, nonce and [max_age] presented. *)
Theorem accept_complete params client uri :
  c_client_status client = ClientActive ->
  non_empty (p_redirect_uri params) = Some uri -> uri ∈ c_redirect_uris client ->
  validate_redirectable params client = Ok tt ->
  exists r, accept params client = Some (Ok r) /\ rq_redirect_uri r = uri
    /\ rq_scope r = split_scope (p_scope params) /\ p_state params = Some (rq_state r)
    /\ p_code_challenge params = Some (pk_challenge (rq_pkce r))
    /\ rq_nonce r = unwrap_or "" (p_nonce params) /\ rq_max_age r = p_max_age params.
Proof.
  intros Ha Hu Hr Hv. destruct (accept_total params client) as [res Hres].
  unfold accept in *. unfold client_is_active in *. rewrite bool_decide_true in * by done.
  cbn in *. rewrite Hu in *. apply allows_redirect_uri_spec in Hr. rewrite Hr in *. cbn in *.
  rewrite Hv in *. destruct (non_empty (p_state params)) as [st|] eqn:Hst; [|done].
  apply non_empty_Some in Hst as [Hst _].
  destruct (p_code_challenge params) as [ch|] eqn:Hch; [|done].
  cbn. eexists. split; [done|]. cbn. done.
Qed.

Lemma scopes_needing_consent_spec r s :
  s ∈ scopes_needing_consent r <-> s ∈ rq_scope r /\ s <> "openid".
Proof. unfold scopes_needing_consent. rewrite list_elem_of_filter. cbn. naive_solver. Qed.

(** A [max_age] past the [i64] range wraps to a negative number, and the
    comparison then asks for re-authentication: it is never skipped. *)
Theorem max_age_overflow_forces_reauthentication r max_age auth_time now :
  rq_max_age r = Some max_age -> (i64_max < max_age <= u64_max)%Z -> (auth_time <= now)%Z ->
  authentication_is_too_old r auth_time now = true.
Proof.
  intros E Hm Ht. unfold authentication_is_too_old. rewrite E. cbn.
  unfold u64_as_i64, i64_max, u64_max in *.
  destruct (Z.leb_spec max_age 9223372036854775807); [lia|].
  apply Z.ltb_lt. assert (0 <= num_seconds (now - auth_time))%Z; [|lia].
  unfold num_seconds, NANOS. apply Z.quot_pos; lia.
Qed.

(** ** Witnesses *)
Definition web_client : Client := {|
  c_id := 3%N; c_tenant_id := 1%N; c_client_id := "app"; c_client_secret_hash := None;
  c_client_type := ClientPublic; c_client_status := ClientActive; c_app_name := "App";
  c_redirect_uris := ["https://app/cb"]; c_grant_types := ["authorization_code"];
  c_response_types := ["code"]; c_scopes := ["openid"; "email"];
  c_token_endpoint_auth_method := AuthNone; c_jwks := None; c_post_logout_redirect_uris := [];
  c_frontchannel_logout_uri := None; c_backchannel_logout_uri := None;
  c_created_at := 0; c_updated_at := 0 |}.
Definition web_parameters (scope : string) : AuthorizationParameters := {|
  p_response_type := Some "code"; p_client_id := Some "app";
  p_redirect_uri := Some "https://app/cb"; p_scope := Some scope; p_state := Some "st";
  p_nonce := Some "n"; p_code_challenge := Some "ch"; p_code_challenge_method := Some "S256";
  p_prompt := Some "login consent"; p_max_age := Some 60%Z; p_acr_values := None;
  p_login_hint := None; p_ui_locales := None; p_response_mode := None |}.
Definition web_request : AuthorizationRequest := {|
  rq_client_id := "app"; rq_redirect_uri := "https://app/cb"; rq_scope := ["openid"; "email"];
  rq_state := "st"; rq_nonce := "n"; rq_pkce := {| pk_challenge := "ch"; pk_method := S256 |};
  rq_prompt := [PromptLogin; PromptConsent]; rq_response_mode := Query; rq_max_age := Some 60%Z;
  rq_acr_values := None; rq_login_hint := None; rq_ui_locales := None |}.
Lemma accept_sound_witness : request_valid web_client web_request.
Proof. apply (accept_sound (web_parameters "openid email")). vm_compute. reflexivity. Defined.
Definition scope_refusal : AuthorizationRequestRejection :=
  match accept (web_parameters "openid phone") web_client with
  | Some (Err e) => e
  | _ => NotRedirectable ServerError ""
  end.
Lemma accept_no_open_redirect_witness :
  exists e d, scope_refusal = Redirectable "https://app/cb" (Some "st") e d
    /\ c_client_status web_client = ClientActive
    /\ "https://app/cb" ∈ c_redirect_uris web_client
    /\ p_redirect_uri (web_parameters "openid phone") = Some "https://app/cb"
    /\ Some "st" = non_empty (p_state (web_parameters "openid phone"))
    /\ validate_redirectable (web_parameters "openid phone") web_client = Err (e, d).
Proof.
  eexists _, _. split; [vm_compute; reflexivity|].
  apply (accept_no_open_redirect (web_parameters "openid phone") web_client). vm_compute. reflexivity.
Defined.
Lemma accept_complete_witness :
  exists r, accept (web_parameters "openid email") web_client = Some (Ok r)
    /\ rq_redirect_uri r = "https://app/cb"
    /\ rq_scope r = split_scope (p_scope (web_parameters "openid email"))
    /\ p_state (web_parameters "openid email") = Some (rq_state r)
    /\ p_code_challenge (web_parameters "openid email") = Some (pk_challenge (rq_pkce r))
    /\ rq_nonce r = unwrap_or "" (p_nonce (web_parameters "openid email"))
    /\ rq_max_age r = p_max_age (web_parameters "openid email").
Proof.
  apply (accept_complete (web_parameters "openid email") web_client "https://app/cb").
  - reflexivity.
  - reflexivity.
  - left.
  - vm_compute. reflexivity.
Defined.
Definition overflowing_request : AuthorizationRequest := {|
  rq_client_id := "app"; rq_redirect_uri := "https://app/cb"; rq_scope := ["openid"];
  rq_state := "st"; rq_nonce := "n"; rq_pkce := {| pk_challenge := "ch"; pk_method := S256 |};
  rq_prompt := []; rq_response_mode := Query; rq_max_age := Some u64_max;
  rq_acr_values := None; rq_login_hint := None; rq_ui_locales := None |}.
Lemma max_age_overflow_forces_reauthentication_witness :
  authentication_is_too_old overflowing_request (seconds 10) (seconds 10) = true.
Proof.
  apply (max_age_overflow_forces_reauthentication overflowing_request u64_max (seconds 10)
           (seconds 10)).
  - reflexivity.
  - split; [reflexivity | discriminate].
  - discriminate.
Defined.
