(* ===== verification/AuthSession.v ===== *)
(** * The AuthSession aggregate ([domain/auth_session.rs])

    The state of one authorization flow, from [/authorize] to the issue of a
    code.  Each transition returns the new state and a change value that the
    repository persists in one statement.  Values the source draws from the
    random generator ([AuthSessionId::generate], [HandoffHandle::generate]) are
    arguments here: [fresh_id], [fresh_handle]. *)

From S2P Require Import Prelude Values External AuthorizationRequest.

(** Newtypes over [String]: a plain secret and its SHA-256. *)
Record AuthSessionId : Type := { session_id_plain : string }.
Record AuthSessionIdHash : Type := { session_id_hash : string }.
Record HandoffHandle : Type := { handle_plain : string }.
Record HandoffHandleHash : Type := { handle_hash_value : string }.
#[export] Instance AuthSessionIdHash_eq_dec : EqDecision AuthSessionIdHash.
Proof. solve_decision. Defined.
#[export] Instance HandoffHandleHash_eq_dec : EqDecision HandoffHandleHash.
Proof. solve_decision. Defined.

Definition session_id_from_presented (raw : string) : option AuthSessionId :=
  if str_is_empty raw then None else Some {| session_id_plain := raw |}.
Definition handle_from_presented (raw : string) : option HandoffHandle :=
  if str_is_empty raw then None else Some {| handle_plain := raw |}.

Record PendingHandoff : Type := { ho_handle_hash : HandoffHandleHash; ho_expires_at : DateTime }.

Record Authentication : Type := {
  au_user_id : Uuid;
  au_auth_time : DateTime;
  au_sso_sid : option string;
  au_methods : option (list AuthenticationMethod)
}.

Inductive AuthenticationProgress : Type :=
  | Anonymous
  | PasswordVerified (user_id : Uuid) (verified_at : DateTime)
  | Authenticated (authentication : Authentication) (password_verified_at : option DateTime).

Record IdRotation : Type := { rot_previous : AuthSessionIdHash; rot_issued : AuthSessionId }.
Record HandoffExchange : Type := { hx_consumed : HandoffHandleHash; hx_rotation : IdRotation }.
Inductive HandoffUnavailable : Type := handoff_unavailable.
Record PasswordVerification : Type := {
  pv_user_id : Uuid; pv_verified_at : DateTime; pv_rotation : IdRotation }.
Record AuthenticationCompletion : Type := {
  ac_authentication : Authentication; ac_rotation : IdRotation }.

Record AuthSession : Type := {
  as_id_hash : AuthSessionIdHash;
  as_tenant_id : TenantId;
  as_request : AuthorizationRequest;
  as_handoff : option PendingHandoff;
  as_progress : AuthenticationProgress;
  as_expires_at : DateTime;
  as_created_at : DateTime;
  as_updated_at : DateTime
}.

(** The columns, as [AuthSessionParts] lists them. *)
Record AuthSessionParts : Type := {
  ap_id_hash : AuthSessionIdHash;
  ap_tenant_id : TenantId;
  ap_request : AuthorizationRequest;
  ap_handle_hash : option HandoffHandleHash;
  ap_handle_expires_at : option DateTime;
  ap_authenticated_user_id : option Uuid;
  ap_auth_time : option DateTime;
  ap_password_verified_at : option DateTime;
  ap_sso_sid : option string;
  ap_authentication_methods : option (list AuthenticationMethod);
  ap_expires_at : DateTime;
  ap_created_at : DateTime;
  ap_updated_at : DateTime
}.

Definition progress_of_parts (p : AuthSessionParts) : AuthenticationProgress :=
  match ap_authenticated_user_id p, ap_auth_time p, ap_password_verified_at p with
  | Some user_id, Some auth_time, password_verified_at =>
      Authenticated {| au_user_id := user_id; au_auth_time := auth_time;
                       au_sso_sid := ap_sso_sid p; au_methods := ap_authentication_methods p |}
                    password_verified_at
  | Some user_id, None, Some verified_at => PasswordVerified user_id verified_at
  | _, _, _ => Anonymous
  end.
Definition handoff_of_parts (p : AuthSessionParts) : option PendingHandoff :=
  match ap_handle_hash p, ap_handle_expires_at p with
  | Some h, Some e => Some {| ho_handle_hash := h; ho_expires_at := e |}
  | _, _ => None
  end.
(** [AuthSession::reconstitute]. *)
Definition reconstitute (p : AuthSessionParts) : AuthSession := {|
  as_id_hash := ap_id_hash p;
  as_tenant_id := ap_tenant_id p;
  as_request := ap_request p;
  as_handoff := handoff_of_parts p;
  as_progress := progress_of_parts p;
  as_expires_at := ap_expires_at p;
  as_created_at := ap_created_at p;
  as_updated_at := ap_updated_at p |}.

(** [AuthSession::to_parts]. *)
Definition to_parts (s : AuthSession) : AuthSessionParts :=
  let '(user, auth_time, verified_at, sid, methods) :=
    match as_progress s with
    | Anonymous => (None, None, None, None, None)
    | PasswordVerified user_id verified_at => (Some user_id, None, Some verified_at, None, None)
    | Authenticated a pv =>
        (Some (au_user_id a), Some (au_auth_time a), pv, au_sso_sid a, au_methods a)
    end in
  {| ap_id_hash := as_id_hash s;
     ap_tenant_id := as_tenant_id s;
     ap_request := as_request s;
     ap_handle_hash := ho_handle_hash <$> as_handoff s;
     ap_handle_expires_at := ho_expires_at <$> as_handoff s;
     ap_authenticated_user_id := user;
     ap_auth_time := auth_time;
     ap_password_verified_at := verified_at;
     ap_sso_sid := sid;
     ap_authentication_methods := methods;
     ap_expires_at := as_expires_at s;
     ap_created_at := as_created_at s;
     ap_updated_at := as_updated_at s |}.

Definition session_is_expired_at (s : AuthSession) (now : DateTime) : bool :=
  (as_expires_at s <=? now)%Z.
Definition handoff_is_valid_at (s : AuthSession) (now : DateTime) : bool :=
  is_some_and (fun h => (now <? ho_expires_at h)%Z) (as_handoff s).

Definition identified_user (s : AuthSession) : option Uuid :=
  match as_progress s with
  | Anonymous => None
  | PasswordVerified user_id _ => Some user_id
  | Authenticated a _ => Some (au_user_id a)
  end.
Definition password_verified_user (s : AuthSession) : option Uuid :=
  match as_progress s with
  | Anonymous => None
  | PasswordVerified user_id _ => Some user_id
  | Authenticated a pv => (fun _ => au_user_id a) <$> pv
  end.
Definition completed_authentication (s : AuthSession) : option Authentication :=
  match as_progress s with Authenticated a _ => Some a | _ => None end.

Section transitions.
Context {HS : Hashing}.

Definition hash_session_id (i : AuthSessionId) : AuthSessionIdHash :=
  {| session_id_hash := sha256_hex (session_id_plain i) |}.
Definition hash_handle (h : HandoffHandle) : HandoffHandleHash :=
  {| handle_hash_value := sha256_hex (handle_plain h) |}.
Definition issued_hash (r : IdRotation) : AuthSessionIdHash := hash_session_id (rot_issued r).

(** [AuthSession::start]. *)
Definition start (tenant_id : TenantId) (request : AuthorizationRequest) (now : DateTime)
  (lifetime handoff_lifetime : Duration)
  (fresh_handle : HandoffHandle) (fresh_id : AuthSessionId) : AuthSession * HandoffHandle :=
  ({| as_id_hash := hash_session_id fresh_id;
      as_tenant_id := tenant_id;
      as_request := request;
      as_handoff := Some {| ho_handle_hash := hash_handle fresh_handle;
                            ho_expires_at := (now + handoff_lifetime)%Z |};
      as_progress := Anonymous;
      as_expires_at := (now + lifetime)%Z;
      as_created_at := now;
      as_updated_at := now |}, fresh_handle).

(** [rotate_id], with the progress and handoff the caller has already set. *)
Definition rotate_id (s : AuthSession) (fresh_id : AuthSessionId) : AuthSession * IdRotation :=
  ({| as_id_hash := hash_session_id fresh_id;
      as_tenant_id := as_tenant_id s;
      as_request := as_request s;
      as_handoff := as_handoff s;
      as_progress := as_progress s;
      as_expires_at := as_expires_at s;
      as_created_at := as_created_at s;
      as_updated_at := as_updated_at s |},
   {| rot_previous := as_id_hash s; rot_issued := fresh_id |}).

Definition with_handoff (s : AuthSession) (h : option PendingHandoff) : AuthSession :=
  {| as_id_hash := as_id_hash s; as_tenant_id := as_tenant_id s; as_request := as_request s;
     as_handoff := h; as_progress := as_progress s; as_expires_at := as_expires_at s;
     as_created_at := as_created_at s; as_updated_at := as_updated_at s |}.
Definition with_progress (s : AuthSession) (p : AuthenticationProgress) : AuthSession :=
  {| as_id_hash := as_id_hash s; as_tenant_id := as_tenant_id s; as_request := as_request s;
     as_handoff := as_handoff s; as_progress := p; as_expires_at := as_expires_at s;
     as_created_at := as_created_at s; as_updated_at := as_updated_at s |}.

(** [AuthSession::exchange_handoff].  [handoff.take().expect(..)] cannot fail
    behind the guard: the match on [as_handoff] is the guard's witness. *)
Definition exchange_handoff (s : AuthSession) (now : DateTime) (fresh_id : AuthSessionId)
  : Result HandoffUnavailable (AuthSession * HandoffExchange) :=
  if negb (handoff_is_valid_at s now) || session_is_expired_at s now
  then Err handoff_unavailable
  else match as_handoff s with
  | Some h =>
      let '(s', rotation) := rotate_id (with_handoff s None) fresh_id in
      Ok (s', {| hx_consumed := ho_handle_hash h; hx_rotation := rotation |})
  | None => Err handoff_unavailable
  end.

(** [AuthSession::record_password_verification]. *)
Definition record_password_verification (s : AuthSession) (user_id : Uuid)
  (verified_at : DateTime) (fresh_id : AuthSessionId) : AuthSession * PasswordVerification :=
  let '(s', rotation) := rotate_id (with_progress s (PasswordVerified user_id verified_at)) fresh_id in
  (s', {| pv_user_id := user_id; pv_verified_at := verified_at; pv_rotation := rotation |}).

Definition password_verified_before (p : AuthenticationProgress) : option DateTime :=
  match p with
  | Anonymous => None
  | PasswordVerified _ verified_at => Some verified_at
  | Authenticated _ pv => pv
  end.
(** [AuthSession::complete_authentication]. *)
Definition complete_authentication (s : AuthSession) (a : Authentication)
  (fresh_id : AuthSessionId) : AuthSession * AuthenticationCompletion :=
  let pv := password_verified_before (as_progress s) in
  let '(s', rotation) := rotate_id (with_progress s (Authenticated a pv)) fresh_id in
  (s', {| ac_authentication := a; ac_rotation := rotation |}).
End transitions.

(** ** Lemmas *)

(** Decomposing into columns loses nothing. *)
Lemma reconstitute_to_parts s : reconstitute (to_parts s) = s.
Proof.
  destruct s as [i t r h p e c u]. unfold reconstitute, to_parts; cbn.
  destruct h as [[hh he]|], p as [|uid v|[uid at_ sid ms] pv]; reflexivity.
Qed.

(** The columns that do not depend on the progress. *)
Create HintDb parts.
Ltac by_progress := intros s; unfold to_parts; by destruct (as_progress s).
Lemma to_parts_id_hash : forall s, ap_id_hash (to_parts s) = as_id_hash s.
Proof. by_progress. Qed.
Lemma to_parts_tenant_id : forall s, ap_tenant_id (to_parts s) = as_tenant_id s.
Proof. by_progress. Qed.
Lemma to_parts_request : forall s, ap_request (to_parts s) = as_request s.
Proof. by_progress. Qed.
Lemma to_parts_handle_hash : forall s, ap_handle_hash (to_parts s) = ho_handle_hash <$> as_handoff s.
Proof. by_progress. Qed.
Lemma to_parts_handle_expires_at :
  forall s, ap_handle_expires_at (to_parts s) = ho_expires_at <$> as_handoff s.
Proof. by_progress. Qed.
Lemma to_parts_expires_at : forall s, ap_expires_at (to_parts s) = as_expires_at s.
Proof. by_progress. Qed.
Lemma to_parts_verified_at :
  forall s, ap_password_verified_at (to_parts s) = password_verified_before (as_progress s).
Proof. by_progress. Qed.
#[export] Hint Rewrite to_parts_id_hash to_parts_tenant_id to_parts_request to_parts_handle_hash
  to_parts_handle_expires_at to_parts_expires_at to_parts_verified_at : parts.

Section lemmas.
Context {HS : Hashing}.

(** Each transition replaces the identifier and reports the one it replaced. *)
Lemma record_password_verification_spec s u v i s' c :
  record_password_verification s u v i = (s', c) ->
  as_id_hash s' = hash_session_id i /\ rot_previous (pv_rotation c) = as_id_hash s
  /\ rot_issued (pv_rotation c) = i
  /\ as_progress s' = PasswordVerified u v /\ completed_authentication s' = None.
Proof. by intros [= <- <-]. Qed.
Lemma complete_authentication_spec s a i s' c :
  complete_authentication s a i = (s', c) ->
  as_id_hash s' = hash_session_id i /\ rot_previous (ac_rotation c) = as_id_hash s
  /\ rot_issued (ac_rotation c) = i /\ completed_authentication s' = Some a.
Proof. by intros [= <- <-]. Qed.
Lemma exchange_handoff_Ok s now i s' x :
  exchange_handoff s now i = Ok (s', x) <->
  exists h, as_handoff s = Some h /\ (now < ho_expires_at h)%Z /\ (now < as_expires_at s)%Z
    /\ s' = (rotate_id (with_handoff s None) i).1
    /\ x = {| hx_consumed := ho_handle_hash h;
              hx_rotation := {| rot_previous := as_id_hash s; rot_issued := i |} |}.
Proof.
  unfold exchange_handoff, handoff_is_valid_at, session_is_expired_at.
  destruct (as_handoff s) as [h|]; cbn; [|naive_solver].
  destruct (Z.ltb_spec now (ho_expires_at h)); cbn; [|naive_solver lia].
  destruct (Z.leb_spec (as_expires_at s) now); cbn; [naive_solver lia|].
  split; [intros [= <- <-]; by exists h | intros (h' & [= <-] & _ & _ & -> & ->); done].
Qed.
(** An exchanged handle is gone: the next exchange is refused. *)
Lemma exchange_handoff_once s now i s' x now' i' :
  exchange_handoff s now i = Ok (s', x) ->
  exchange_handoff s' now' i' = Err handoff_unavailable.
Proof. rewrite exchange_handoff_Ok. by intros (h & _ & _ & _ & -> & _). Qed.
End lemmas.
