(* ===== verification/AuthSessionStore.v ===== *)
(** * Persisting AuthSession ([infrastructure/repositories/auth_session.rs] and
      [infrastructure/repositories/in_memory_auth_session.rs])

    The [auth_sessions] table as its rows, with the columns encoded as the
    repository binds them, and the in-memory repository the use-case tests run
    on.  One SQL statement is one function: a statement is atomic. *)

From S2P Require Import Prelude Values ResponseMode External AuthorizationRequest AuthSession.

(** DATETIME(6): sub-microsecond digits are dropped. *)
Definition to_micros (t : DateTime) : DateTime := (t / 1000 * 1000)%Z.
Lemma to_micros_le t : (to_micros t <= t)%Z.
Proof. unfold to_micros. pose proof (Z.mul_div_le t 1000 ltac:(lia)). lia. Qed.
Lemma to_micros_seconds n : to_micros (seconds n) = seconds n.
Proof.
  unfold to_micros, seconds, NANOS.
  replace (n * 1000000000)%Z with (n * 1000000 * 1000)%Z by lia. rewrite Z.div_mul; lia.
Qed.

(** A row; JSON columns are kept decoded (serde's round trip is not modelled). *)
Record AuthSessionRow : Type := {
  r_id_hash : string;
  r_tenant_id : TenantId;
  r_client_id : string;
  r_redirect_uri : string;
  r_scope : list string;
  r_state : string;
  r_nonce : string;
  r_code_challenge : string;
  r_code_challenge_method : string;
  r_prompt : option string;
  r_response_mode : option string;
  r_max_age : option Z;
  r_acr_values : option string;
  r_login_hint : option string;
  r_ui_locales : option string;
  r_handle_hash : option string;
  r_handle_expires_at : option DateTime;
  r_authenticated_user_id : option Uuid;
  r_auth_time : option DateTime;
  r_password_verified_at : option DateTime;
  r_sso_sid : option string;
  r_authentication_methods : option (list AuthenticationMethod);
  r_expires_at : DateTime;
  r_created_at : DateTime;
  r_updated_at : DateTime
}.

Definition row_request (r : AuthSessionRow) (m : CodeChallengeMethod) : AuthorizationRequest := {|
  rq_client_id := r_client_id r;
  rq_redirect_uri := r_redirect_uri r;
  rq_scope := r_scope r;
  rq_state := r_state r;
  rq_nonce := r_nonce r;
  rq_pkce := {| pk_challenge := r_code_challenge r; pk_method := m |};
  rq_prompt := prompt_parse (unwrap_or "" (r_prompt r));
  rq_response_mode := response_mode_from_stored (r_response_mode r);
  rq_max_age := (fun v => Z.max v 0) <$> r_max_age r;
  rq_acr_values := r_acr_values r;
  rq_login_hint := r_login_hint r;
  rq_ui_locales := r_ui_locales r |}.

Definition row_parts (r : AuthSessionRow) (m : CodeChallengeMethod) : AuthSessionParts := {|
  ap_id_hash := {| session_id_hash := r_id_hash r |};
  ap_tenant_id := r_tenant_id r;
  ap_request := row_request r m;
  ap_handle_hash := Build_HandoffHandleHash <$> r_handle_hash r;
  ap_handle_expires_at := r_handle_expires_at r;
  ap_authenticated_user_id := r_authenticated_user_id r;
  ap_auth_time := r_auth_time r;
  ap_password_verified_at := r_password_verified_at r;
  ap_sso_sid := r_sso_sid r;
  ap_authentication_methods := r_authentication_methods r;
  ap_expires_at := r_expires_at r;
  ap_created_at := r_created_at r;
  ap_updated_at := r_updated_at r |}.

(** [map_row]. *)
Definition map_row (r : AuthSessionRow) : Result DomainError AuthSession :=
  let? m := parse (r_code_challenge_method r) in
  Ok (reconstitute (row_parts r m)).

(** The INSERT of [create]: [created_at] and [updated_at] are the database's
    clock; the three columns the statement does not name stay NULL. *)
Definition insert_row (s : AuthSession) (db_now : DateTime) : AuthSessionRow :=
  let rq := as_request s in {|
  r_id_hash := session_id_hash (as_id_hash s);
  r_tenant_id := as_tenant_id s;
  r_client_id := rq_client_id rq;
  r_redirect_uri := rq_redirect_uri rq;
  r_scope := rq_scope rq;
  r_state := rq_state rq;
  r_nonce := rq_nonce rq;
  r_code_challenge := pk_challenge (rq_pkce rq);
  r_code_challenge_method := as_str (pk_method (rq_pkce rq));
  r_prompt := prompt_to_storage (rq_prompt rq);
  r_response_mode := response_mode_to_stored (rq_response_mode rq);
  r_max_age := u64_as_i64 <$> rq_max_age rq;
  r_acr_values := rq_acr_values rq;
  r_login_hint := rq_login_hint rq;
  r_ui_locales := rq_ui_locales rq;
  r_handle_hash := (fun h => handle_hash_value (ho_handle_hash h)) <$> as_handoff s;
  r_handle_expires_at := (fun h => to_micros (ho_expires_at h)) <$> as_handoff s;
  r_authenticated_user_id := identified_user s;
  r_auth_time := (fun a => to_micros (au_auth_time a)) <$> completed_authentication s;
  r_password_verified_at := None;
  r_sso_sid := None;
  r_authentication_methods := None;
  r_expires_at := to_micros (as_expires_at s);
  r_created_at := to_micros db_now;
  r_updated_at := to_micros db_now |}.

(** ** The SQL repository

    The primary key is [id_hash]; [handle_hash] is unique among the rows that have
    one. *)
Definition duplicate_key {A} : Result DomainError A := Err (Repository "Duplicate entry").

Definition sql_create (rows : list AuthSessionRow) (s : AuthSession) (db_now : DateTime)
  : Result DomainError (list AuthSessionRow) :=
  if existsb (fun r => String.eqb (r_id_hash r) (session_id_hash (as_id_hash s))
                       || is_some_and (fun h => bool_decide (r_handle_hash r = Some (handle_hash_value (ho_handle_hash h))))
                            (as_handoff s)) rows
  then duplicate_key
  else Ok (rows ++ [insert_row s db_now])%list.

(** SELECT .. fetch_optional, then [map_row] and [transpose]. *)
Definition sql_fetch (p : AuthSessionRow -> bool) (rows : list AuthSessionRow)
  : Result DomainError (option AuthSession) :=
  match find p rows with
  | None => Ok None
  | Some r => let? s := map_row r in Ok (Some s)
  end.
Definition sql_find (rows : list AuthSessionRow) (tenant_id : TenantId) (i : AuthSessionIdHash)
  : Result DomainError (option AuthSession) :=
  sql_fetch (fun r => String.eqb (r_id_hash r) (session_id_hash i)
                      && N.eqb (r_tenant_id r) tenant_id) rows.
Definition sql_find_by_handoff (rows : list AuthSessionRow) (tenant_id : TenantId)
  (h : HandoffHandleHash) : Result DomainError (option AuthSession) :=
  sql_fetch (fun r => bool_decide (r_handle_hash r = Some (handle_hash_value h))
                      && N.eqb (r_tenant_id r) tenant_id) rows.

(** UPDATE .. SET id_hash = issued, .. WHERE p: fails when [issued] is the
    primary key of a row it does not match; returns the number of rows it matched. *)
Definition sql_update (p : AuthSessionRow -> bool) (issued : string)
  (set : AuthSessionRow -> AuthSessionRow) (rows : list AuthSessionRow)
  : Result DomainError (list AuthSessionRow * nat) :=
  if existsb (fun r => String.eqb (r_id_hash r) issued && negb (p r)) rows && existsb p rows
  then duplicate_key
  else Ok (map (fun r => if p r then set r else r) rows, length (List.filter p rows)).

(** [updated_at] is ON UPDATE CURRENT_TIMESTAMP: the database's clock. *)
Definition set_handoff_exchange (db_now : DateTime) (issued : string) (r : AuthSessionRow) : AuthSessionRow := {|
  r_id_hash := issued; r_tenant_id := r_tenant_id r; r_client_id := r_client_id r;
  r_redirect_uri := r_redirect_uri r; r_scope := r_scope r; r_state := r_state r;
  r_nonce := r_nonce r; r_code_challenge := r_code_challenge r;
  r_code_challenge_method := r_code_challenge_method r; r_prompt := r_prompt r;
  r_response_mode := r_response_mode r; r_max_age := r_max_age r;
  r_acr_values := r_acr_values r; r_login_hint := r_login_hint r;
  r_ui_locales := r_ui_locales r; r_handle_hash := None; r_handle_expires_at := None;
  r_authenticated_user_id := r_authenticated_user_id r; r_auth_time := r_auth_time r;
  r_password_verified_at := r_password_verified_at r; r_sso_sid := r_sso_sid r;
  r_authentication_methods := r_authentication_methods r; r_expires_at := r_expires_at r;
  r_created_at := r_created_at r; r_updated_at := to_micros db_now |}.
Definition set_progress (db_now : DateTime) (issued : string) (user : option Uuid) (auth_time pv : option DateTime)
  (sid : option string) (methods : option (list AuthenticationMethod)) (r : AuthSessionRow)
  : AuthSessionRow := {|
  r_id_hash := issued; r_tenant_id := r_tenant_id r; r_client_id := r_client_id r;
  r_redirect_uri := r_redirect_uri r; r_scope := r_scope r; r_state := r_state r;
  r_nonce := r_nonce r; r_code_challenge := r_code_challenge r;
  r_code_challenge_method := r_code_challenge_method r; r_prompt := r_prompt r;
  r_response_mode := r_response_mode r; r_max_age := r_max_age r;
  r_acr_values := r_acr_values r; r_login_hint := r_login_hint r;
  r_ui_locales := r_ui_locales r; r_handle_hash := r_handle_hash r;
  r_handle_expires_at := r_handle_expires_at r;
  r_authenticated_user_id := user; r_auth_time := auth_time;
  r_password_verified_at := pv; r_sso_sid := sid;
  r_authentication_methods := methods; r_expires_at := r_expires_at r;
  r_created_at := r_created_at r; r_updated_at := to_micros db_now |}.

Section sql_saves.
Context {HS : Hashing}.

Definition sql_save_handoff_exchange (rows : list AuthSessionRow) (x : HandoffExchange)
  (db_now : DateTime) : Result DomainError (list AuthSessionRow * bool) :=
  let issued := session_id_hash (issued_hash (hx_rotation x)) in
  let previous := session_id_hash (rot_previous (hx_rotation x)) in
  let? (rows', n) := sql_update
    (fun r => String.eqb (r_id_hash r) previous
              && bool_decide (r_handle_hash r = Some (handle_hash_value (hx_consumed x))))
    issued (set_handoff_exchange db_now issued) rows in
  Ok (rows', Nat.eqb n 1).

Definition sql_save_password_verification (rows : list AuthSessionRow)
  (v : PasswordVerification) (db_now : DateTime) : Result DomainError (list AuthSessionRow) :=
  let issued := session_id_hash (issued_hash (pv_rotation v)) in
  let previous := session_id_hash (rot_previous (pv_rotation v)) in
  let? (rows', _) := sql_update (fun r => String.eqb (r_id_hash r) previous) issued
    (set_progress db_now issued (Some (pv_user_id v)) None
       (Some (to_micros (pv_verified_at v))) None None) rows in
  Ok rows'.

Definition sql_save_authentication (rows : list AuthSessionRow)
  (c : AuthenticationCompletion) (db_now : DateTime) : Result DomainError (list AuthSessionRow) :=
  let issued := session_id_hash (issued_hash (ac_rotation c)) in
  let previous := session_id_hash (rot_previous (ac_rotation c)) in
  let a := ac_authentication c in
  let? (rows', _) := sql_update (fun r => String.eqb (r_id_hash r) previous) issued
    (fun r => set_progress db_now issued (Some (au_user_id a))
                (Some (to_micros (au_auth_time a))) (r_password_verified_at r)
                (au_sso_sid a) (au_methods a) r) rows in
  Ok rows'.
End sql_saves.

Definition sql_delete (rows : list AuthSessionRow) (i : AuthSessionIdHash) : list AuthSessionRow :=
  List.filter (fun r => negb (String.eqb (r_id_hash r) (session_id_hash i))) rows.
Definition sql_delete_expired (rows : list AuthSessionRow) (now : DateTime)
  : list AuthSessionRow * nat :=
  (List.filter (fun r => negb (r_expires_at r <=? to_micros now)%Z) rows,
   length (List.filter (fun r => (r_expires_at r <=? to_micros now)%Z) rows)).

(** ** The in-memory repository *)

(** [InMemoryAuthSessions::rewrite]: the first row with the id, if any. *)
Fixpoint mem_rewrite (previous : AuthSessionIdHash)
  (f : AuthSessionParts -> AuthSessionParts) (rows : list AuthSession) : list AuthSession * bool :=
  match rows with
  | [] => ([], false)
  | s :: rest =>
      if decide (as_id_hash s = previous) then (reconstitute (f (to_parts s)) :: rest, true)
      else let '(rest', b) := mem_rewrite previous f rest in (s :: rest', b)
  end.
Definition mem_create (rows : list AuthSession) (s : AuthSession) : list AuthSession :=
  (rows ++ [s])%list.
Definition mem_find (rows : list AuthSession) (tenant_id : TenantId) (i : AuthSessionIdHash)
  : option AuthSession :=
  find (fun s => N.eqb (as_tenant_id s) tenant_id && bool_decide (as_id_hash s = i)) rows.
Definition mem_find_by_handoff (rows : list AuthSession) (tenant_id : TenantId)
  (h : HandoffHandleHash) : option AuthSession :=
  find (fun s => N.eqb (as_tenant_id s) tenant_id
                 && bool_decide (ho_handle_hash <$> as_handoff s = Some h)) rows.

Definition parts_exchanged (issued : AuthSessionIdHash) (p : AuthSessionParts)
  : AuthSessionParts := {|
  ap_id_hash := issued; ap_tenant_id := ap_tenant_id p; ap_request := ap_request p;
  ap_handle_hash := None; ap_handle_expires_at := None;
  ap_authenticated_user_id := ap_authenticated_user_id p; ap_auth_time := ap_auth_time p;
  ap_password_verified_at := ap_password_verified_at p; ap_sso_sid := ap_sso_sid p;
  ap_authentication_methods := ap_authentication_methods p; ap_expires_at := ap_expires_at p;
  ap_created_at := ap_created_at p; ap_updated_at := ap_updated_at p |}.
Definition parts_progress (issued : AuthSessionIdHash) (user : option Uuid)
  (auth_time pv : option DateTime) (sid : option string)
  (methods : option (list AuthenticationMethod)) (p : AuthSessionParts) : AuthSessionParts := {|
  ap_id_hash := issued; ap_tenant_id := ap_tenant_id p; ap_request := ap_request p;
  ap_handle_hash := ap_handle_hash p; ap_handle_expires_at := ap_handle_expires_at p;
  ap_authenticated_user_id := user; ap_auth_time := auth_time;
  ap_password_verified_at := pv; ap_sso_sid := sid;
  ap_authentication_methods := methods; ap_expires_at := ap_expires_at p;
  ap_created_at := ap_created_at p; ap_updated_at := ap_updated_at p |}.

Section mem_saves.
Context {HS : Hashing}.

Definition mem_save_handoff_exchange (rows : list AuthSession) (x : HandoffExchange)
  : list AuthSession * bool :=
  let rotation := hx_rotation x in
  if existsb (fun s => bool_decide (as_id_hash s = rot_previous rotation)
                       && bool_decide (ho_handle_hash <$> as_handoff s = Some (hx_consumed x))) rows
  then mem_rewrite (rot_previous rotation) (parts_exchanged (issued_hash rotation)) rows
  else (rows, false).
Definition mem_save_password_verification (rows : list AuthSession) (v : PasswordVerification)
  : list AuthSession :=
  let rotation := pv_rotation v in
  (mem_rewrite (rot_previous rotation)
     (parts_progress (issued_hash rotation) (Some (pv_user_id v)) None
        (Some (pv_verified_at v)) None None) rows).1.
Definition mem_save_authentication (rows : list AuthSession) (c : AuthenticationCompletion)
  : list AuthSession :=
  let rotation := ac_rotation c in
  let a := ac_authentication c in
  (mem_rewrite (rot_previous rotation)
     (fun p => parts_progress (issued_hash rotation) (Some (au_user_id a))
                 (Some (au_auth_time a)) (ap_password_verified_at p)
                 (au_sso_sid a) (au_methods a) p) rows).1.
End mem_saves.
Definition mem_delete (rows : list AuthSession) (i : AuthSessionIdHash) : list AuthSession :=
  List.filter (fun s => negb (bool_decide (as_id_hash s = i))) rows.
Definition mem_delete_expired (rows : list AuthSession) (now : DateTime) : list AuthSession * nat :=
  let rows' := List.filter (fun s => negb (session_is_expired_at s now)) rows in
  (rows', (length rows - length rows')%nat).

(** ** Equivalence up to the database's own clock columns *)
Definition forget_clock (s : AuthSession) : AuthSession := {|
  as_id_hash := as_id_hash s; as_tenant_id := as_tenant_id s; as_request := as_request s;
  as_handoff := as_handoff s; as_progress := as_progress s; as_expires_at := as_expires_at s;
  as_created_at := 0; as_updated_at := 0 |}.
#[export] Instance AuthSession_equiv : Equiv AuthSession :=
  fun s t => forget_clock s = forget_clock t.
#[export] Instance AuthSession_equivalence : Equivalence (≡@{AuthSession}).
Proof. split; unfold equiv, AuthSession_equiv; congruence. Qed.
#[export] Instance as_id_hash_proper : Proper ((≡) ==> (=)) as_id_hash.
Proof. intros s t E. by injection E. Qed.
#[export] Instance as_tenant_id_proper : Proper ((≡) ==> (=)) as_tenant_id.
Proof. intros s t E. by injection E. Qed.
#[export] Instance as_handoff_proper : Proper ((≡) ==> (=)) as_handoff.
Proof. intros s t E. by injection E. Qed.
#[export] Instance as_progress_proper : Proper ((≡) ==> (=)) as_progress.
Proof. intros s t E. by injection E. Qed.
#[export] Instance as_expires_at_proper : Proper ((≡) ==> (=)) as_expires_at.
Proof. intros s t E. by injection E. Qed.
#[export] Instance completed_authentication_proper : Proper ((≡) ==> (=)) completed_authentication.
Proof. intros s t E. unfold completed_authentication. by rewrite E. Qed.

Lemma forget_parts_equiv (p q : AuthSessionParts) :
  ap_id_hash p = ap_id_hash q -> ap_tenant_id p = ap_tenant_id q ->
  ap_request p = ap_request q -> handoff_of_parts p = handoff_of_parts q ->
  progress_of_parts p = progress_of_parts q -> ap_expires_at p = ap_expires_at q ->
  reconstitute p ≡ reconstitute q.
Proof.
  intros. unfold equiv, AuthSession_equiv, forget_clock, reconstitute; cbn. congruence.
Qed.

(** A row and the session it stands for; the columns are in normal form. *)
Definition parts_normal (p : AuthSessionParts) : Prop := to_parts (reconstitute p) = p.
Definition row_rep (r : AuthSessionRow) (s : AuthSession) : Prop :=
  exists m, parse (r_code_challenge_method r) = Ok m
    /\ parts_normal (row_parts r m) /\ reconstitute (row_parts r m) ≡ s.

Lemma row_rep_map_row r s : row_rep r s -> exists s', map_row r = Ok s' /\ s' ≡ s.
Proof. intros (m & Hm & _ & Hs). unfold map_row. rewrite Hm. eauto. Qed.
Lemma row_rep_id r s : row_rep r s -> as_id_hash s = {| session_id_hash := r_id_hash r |}.
Proof. intros (m & _ & _ & Hs). by rewrite <- Hs. Qed.
Lemma row_rep_tenant r s : row_rep r s -> as_tenant_id s = r_tenant_id r.
Proof. intros (m & _ & _ & Hs). by rewrite <- Hs. Qed.
Lemma row_rep_expires r s : row_rep r s -> as_expires_at s = r_expires_at r.
Proof. intros (m & _ & _ & Hs). by rewrite <- Hs. Qed.
Lemma row_rep_handle r s :
  row_rep r s -> ho_handle_hash <$> as_handoff s = Build_HandoffHandleHash <$> r_handle_hash r.
Proof.
  intros (m & _ & Hn & Hs). rewrite <- Hs.
  apply (f_equal ap_handle_hash) in Hn. by rewrite to_parts_handle_hash in Hn.
Qed.
Lemma row_rep_verified_at r s :
  row_rep r s -> ap_password_verified_at (to_parts s) = r_password_verified_at r.
Proof.
  intros (m & _ & Hn & Hs). apply (f_equal ap_password_verified_at) in Hn.
  rewrite to_parts_verified_at in *. rewrite <- (as_progress_proper _ _ Hs). done.
Qed.

(** The column tuples the two UPDATEs write are normal. *)
Definition tuple_normal (user : option Uuid) (auth_time pv : option DateTime)
  (sid : option string) (methods : option (list AuthenticationMethod)) : Prop :=
  is_Some user /\ (is_Some auth_time \/ (is_Some pv /\ sid = None /\ methods = None)).

Lemma parts_normal_progress p q :
  parts_normal p ->
  ap_handle_hash q = ap_handle_hash p -> ap_handle_expires_at q = ap_handle_expires_at p ->
  tuple_normal (ap_authenticated_user_id q) (ap_auth_time q) (ap_password_verified_at q)
    (ap_sso_sid q) (ap_authentication_methods q) ->
  parts_normal q.
Proof.
  intros Hn Eh Ee Ht.
  pose proof (f_equal ap_handle_hash Hn) as Hh. pose proof (f_equal ap_handle_expires_at Hn) as He.
  rewrite to_parts_handle_hash in Hh. rewrite to_parts_handle_expires_at in He.
  cbn in Hh, He. destruct q as [i t r hh he u at_ pv sid ms e c up]; cbn in *. subst hh he.
  unfold parts_normal, to_parts, reconstitute, progress_of_parts, handoff_of_parts in *; cbn in *.
  rewrite Hh, He.
  by destruct Ht as [[u' ->] [[t' ->]|([pv' ->] & -> & ->)]]; [|destruct at_].
Qed.

Lemma set_progress_rep now issued u t pv sid ms r s :
  tuple_normal u t pv sid ms -> row_rep r s ->
  row_rep (set_progress now issued u t pv sid ms r)
    (reconstitute (parts_progress {| session_id_hash := issued |} u t pv sid ms (to_parts s))).
Proof.
  intros Ht (m & Hm & Hn & Hs). exists m. split; [done|]. split.
  - by eapply parts_normal_progress.
  - pose proof (f_equal ap_handle_hash Hn) as Hh. rewrite to_parts_handle_hash in Hh.
    pose proof (f_equal ap_handle_expires_at Hn) as He. rewrite to_parts_handle_expires_at in He.
    apply forget_parts_equiv; cbn; autorewrite with parts.
    + done.
    + by rewrite <- (as_tenant_id_proper _ _ Hs).
    + by injection Hs.
    + unfold handoff_of_parts; cbn. autorewrite with parts.
      rewrite <- (as_handoff_proper _ _ Hs), Hh, He. done.
    + done.
    + by rewrite <- (as_expires_at_proper _ _ Hs).
Qed.
Lemma parts_normal_no_handoff p q :
  parts_normal p -> ap_handle_hash q = None -> ap_handle_expires_at q = None ->
  ap_authenticated_user_id q = ap_authenticated_user_id p -> ap_auth_time q = ap_auth_time p ->
  ap_password_verified_at q = ap_password_verified_at p -> ap_sso_sid q = ap_sso_sid p ->
  ap_authentication_methods q = ap_authentication_methods p ->
  parts_normal q.
Proof.
  destruct p as [i t r hh he u at_ pv sid ms e c up], q; cbn.
  intros Hn -> -> -> -> -> -> ->. revert Hn.
  unfold parts_normal, to_parts, reconstitute, progress_of_parts, handoff_of_parts; cbn.
  destruct u, at_, pv; cbn; intros [=]; by subst.
Qed.
Lemma set_handoff_exchange_rep now issued r s :
  row_rep r s ->
  row_rep (set_handoff_exchange now issued r)
    (reconstitute (parts_exchanged {| session_id_hash := issued |} (to_parts s))).
Proof.
  intros (m & Hm & Hn & Hs). exists m. split; [done|]. split.
  - by eapply parts_normal_no_handoff.
  - assert (progress_of_parts (to_parts s) = as_progress s) as Hp.
    { by rewrite <- (reconstitute_to_parts s) at 2. }
    apply forget_parts_equiv; cbn; autorewrite with parts.
    + done.
    + by rewrite <- (as_tenant_id_proper _ _ Hs).
    + by injection Hs.
    + done.
    + change (progress_of_parts (parts_exchanged {| session_id_hash := issued |} (to_parts s)))
        with (progress_of_parts (to_parts s)).
      rewrite Hp, <- (as_progress_proper _ _ Hs). done.
    + by rewrite <- (as_expires_at_proper _ _ Hs).
Qed.

(** ** The SQL repository refines the in-memory one *)

(** A table and the sessions it stands for.  Ids are the primary key. *)
Definition store_rep (rows : list AuthSessionRow) (mem : list AuthSession) : Prop :=
  Forall2 row_rep rows mem /\ NoDup (r_id_hash <$> rows).

Definition has_id (i : AuthSessionIdHash) (r : AuthSessionRow) : bool :=
  String.eqb (r_id_hash r) (session_id_hash i).

Lemma has_id_decide i r s : row_rep r s -> has_id i r = bool_decide (as_id_hash s = i).
Proof.
  intros Hr. rewrite (row_rep_id _ _ Hr). unfold has_id. destruct i as [i]; cbn.
  destruct (String.eqb_spec (r_id_hash r) i); symmetry;
    [apply bool_decide_eq_true | apply bool_decide_eq_false]; congruence.
Qed.

Lemma filter_absent {A} (p : A -> bool) l : existsb p l = false -> List.filter p l = [].
Proof. induction l as [|x l IH]; cbn; [done|]. destruct (p x); cbn; [done|auto]. Qed.
Lemma map_absent {A} (p : A -> bool) f l :
  existsb p l = false -> map (fun x => if p x then f x else x) l = l.
Proof. induction l as [|x l IH]; cbn; [done|]. destruct (p x); cbn; [done|]. intros; f_equal; auto. Qed.
Lemma has_id_elsewhere i r rows :
  NoDup (r_id_hash <$> (r :: rows)) -> has_id i r = true -> existsb (has_id i) rows = false.
Proof.
  rewrite fmap_cons, NoDup_cons. unfold has_id. intros [Hn _] Hi. apply String.eqb_eq in Hi.
  apply not_true_iff_false. rewrite existsb_exists. intros (r' & Hin & E).
  apply String.eqb_eq in E. apply Hn. rewrite Hi, <- E. apply list_elem_of_fmap. exists r'.
  by rewrite list_elem_of_In.
Qed.

(** One UPDATE by primary key is one [rewrite] of the list. *)
Lemma update_rewrite i set f rows mem :
  store_rep rows mem ->
  (forall r s, row_rep r s -> row_rep (set r) (reconstitute (f (to_parts s)))) ->
  Forall2 row_rep (map (fun r => if has_id i r then set r else r) rows) (mem_rewrite i f mem).1
  /\ Nat.eqb (length (List.filter (has_id i) rows)) 1 = (mem_rewrite i f mem).2.
Proof.
  intros [HF Hnd] Hset. induction HF as [|r s rows mem Hr HF IH]; [done|].
  pose proof (has_id_decide i r s Hr) as Hi. cbn [map List.filter mem_rewrite].
  case_decide as Hd; rewrite Hi.
  - rewrite bool_decide_true in * by done.
    pose proof (has_id_elsewhere i r rows Hnd Hi) as Hr'.
    rewrite (filter_absent _ _ Hr'), (map_absent _ _ _ Hr'). cbn.
    split; [constructor; auto | done].
  - rewrite bool_decide_false by done.
    rewrite fmap_cons, NoDup_cons in Hnd. destruct (IH (proj2 Hnd)) as [IH1 IH2].
    destruct (mem_rewrite i f mem) as [rest b]. cbn in *. split; [by constructor | done].
Qed.

(** The primary key survives an UPDATE that the constraint let through. *)
Lemma update_ids p issued set rows rows' n :
  NoDup (r_id_hash <$> rows) -> (forall r, r_id_hash (set r) = issued) ->
  (forall r i, p r = true -> p i = true -> r_id_hash r = r_id_hash i) ->
  sql_update p issued set rows = Ok (rows', n) -> NoDup (r_id_hash <$> rows').
Proof.
  intros Hnd Hset Hp. unfold sql_update.
  destruct (existsb (fun r => String.eqb (r_id_hash r) issued && negb (p r)) rows
            && existsb p rows) eqn:E; [done|]. intros [= <- _].
  apply andb_false_iff in E. destruct E as [E|E]; [|by rewrite map_absent].
  induction rows as [|r rows IH]; [done|].
  rewrite fmap_cons, NoDup_cons in Hnd. cbn in E. apply orb_false_iff in E. destruct E as [Er E].
  cbn [map]. rewrite fmap_cons, NoDup_cons. split; [|by apply IH, E; destruct Hnd].
  rewrite list_elem_of_fmap. setoid_rewrite list_elem_of_In. intros (x & Hx & Hin).
  apply in_map_iff in Hin. destruct Hin as (r' & <- & Hin).
  assert (r_id_hash r <> r_id_hash r') as Hne.
  { intros Heq. apply (proj1 Hnd). rewrite Heq, list_elem_of_fmap. exists r'.
    by rewrite list_elem_of_In. }
  rewrite <- not_true_iff_false, existsb_exists in E.
  destruct (p r) eqn:Pr, (p r') eqn:Pr'; rewrite ?Hset in Hx.
  - apply Hne. by apply Hp.
  - apply E. exists r'. rewrite <- Hx, String.eqb_refl, Pr'. by split.
  - rewrite Hx, String.eqb_refl in Er. by cbn in Er.
  - done.
Qed.

Lemma has_id_same i r r' : has_id i r = true -> has_id i r' = true -> r_id_hash r = r_id_hash r'.
Proof. unfold has_id. rewrite !String.eqb_eq. congruence. Qed.

Lemma sql_update_rep i issued set f rows mem rows' n :
  store_rep rows mem ->
  (forall r, r_id_hash (set r) = issued) ->
  (forall r s, row_rep r s -> row_rep (set r) (reconstitute (f (to_parts s)))) ->
  sql_update (has_id i) issued set rows = Ok (rows', n) ->
  store_rep rows' (mem_rewrite i f mem).1 /\ Nat.eqb n 1 = (mem_rewrite i f mem).2.
Proof.
  intros Hrep Hid Hset Hup.
  destruct (update_rewrite i set f rows mem Hrep Hset) as [H1 H2].
  pose proof (update_ids _ _ _ _ _ _ (proj2 Hrep) Hid (has_id_same i) Hup) as Hnd.
  unfold sql_update in Hup. destruct (_ && _); [done|]. injection Hup as <- <-. done.
Qed.

Section refinement.
Context {HS : Hashing}.

(** The change as the DATETIME(6) columns keep it. *)
Definition truncate_verification (v : PasswordVerification) : PasswordVerification :=
  {| pv_user_id := pv_user_id v; pv_verified_at := to_micros (pv_verified_at v);
     pv_rotation := pv_rotation v |}.
Definition truncate_completion (c : AuthenticationCompletion) : AuthenticationCompletion :=
  {| ac_authentication := {|
       au_user_id := au_user_id (ac_authentication c);
       au_auth_time := to_micros (au_auth_time (ac_authentication c));
       au_sso_sid := au_sso_sid (ac_authentication c);
       au_methods := au_methods (ac_authentication c) |};
     ac_rotation := ac_rotation c |}.

Lemma save_password_verification_rep rows mem v db_now rows' :
  store_rep rows mem ->
  sql_save_password_verification rows v db_now = Ok rows' ->
  store_rep rows' (mem_save_password_verification mem (truncate_verification v)).
Proof.
  intros Hrep. unfold sql_save_password_verification.
  destruct (sql_update _ _ _ _) as [[rows'' n]|] eqn:E; [|done]. intros [= <-].
  refine (proj1 (sql_update_rep _ _ _ _ _ _ _ _ Hrep _ _ E)); [done|].
  intros r s Hr. unfold issued_hash, hash_session_id.
  apply set_progress_rep; [|done]. split; [eauto|]. right; eauto.
Qed.
Lemma save_authentication_rep rows mem c db_now rows' :
  store_rep rows mem ->
  sql_save_authentication rows c db_now = Ok rows' ->
  store_rep rows' (mem_save_authentication mem (truncate_completion c)).
Proof.
  intros Hrep. unfold sql_save_authentication.
  destruct (sql_update _ _ _ _) as [[rows'' n]|] eqn:E; [|done]. intros [= <-].
  refine (proj1 (sql_update_rep _ _ _ _ _ _ _ _ Hrep _ _ E)); [done|].
  intros r s Hr. rewrite (row_rep_verified_at _ _ Hr). unfold issued_hash, hash_session_id.
  apply set_progress_rep; [|done]. split; [eauto|]. left; eauto.
Qed.

(** The two conditions of the exchange's WHERE. *)
Definition exchange_matches (x : HandoffExchange) (r : AuthSessionRow) : bool :=
  String.eqb (r_id_hash r) (session_id_hash (rot_previous (hx_rotation x)))
  && bool_decide (r_handle_hash r = Some (handle_hash_value (hx_consumed x))).

Lemma exchange_matches_rep x r s :
  row_rep r s ->
  exchange_matches x r
  = bool_decide (as_id_hash s = rot_previous (hx_rotation x))
    && bool_decide (ho_handle_hash <$> as_handoff s = Some (hx_consumed x)).
Proof.
  intros Hr. unfold exchange_matches. fold (has_id (rot_previous (hx_rotation x)) r).
  rewrite (has_id_decide _ _ _ Hr), (row_rep_handle _ _ Hr). f_equal. apply bool_decide_ext.
  destruct (hx_consumed x), (r_handle_hash r); cbn; split; congruence.
Qed.
Lemma exchange_matches_exists x rows mem :
  Forall2 row_rep rows mem ->
  existsb (exchange_matches x) rows
  = existsb (fun s => bool_decide (as_id_hash s = rot_previous (hx_rotation x))
      && bool_decide (ho_handle_hash <$> as_handoff s = Some (hx_consumed x))) mem.
Proof.
  induction 1 as [|r s rows mem Hr _ IH]; [done|]. cbn.
  by rewrite (exchange_matches_rep _ _ _ Hr), IH.
Qed.
(** Where the row to consume exists, the WHERE selects by primary key alone. *)
Lemma exchange_matches_key x rows :
  NoDup (r_id_hash <$> rows) -> existsb (exchange_matches x) rows = true ->
  forall r, In r rows -> exchange_matches x r = has_id (rot_previous (hx_rotation x)) r.
Proof.
  intros Hnd Hex r Hr. apply existsb_exists in Hex. destruct Hex as (r0 & Hr0 & Hm).
  unfold exchange_matches in *. fold (has_id (rot_previous (hx_rotation x)) r).
  apply andb_true_iff in Hm. destruct Hm as [Hid Hh].
  destruct (has_id _ r) eqn:E; [|done]. cbn.
  assert (r = r0) as ->; [|done].
  pose proof (has_id_same _ _ _ E Hid) as Heq.
  apply list_elem_of_In, list_elem_of_lookup in Hr as [i Hi].
  apply list_elem_of_In, list_elem_of_lookup in Hr0 as [j Hj].
  assert (i = j) as ->; [|congruence].
  eapply NoDup_lookup; [exact Hnd | by rewrite list_lookup_fmap, Hi |].
  by rewrite list_lookup_fmap, Hj; cbn; rewrite Heq.
Qed.
Lemma sql_update_ext p q issued set rows :
  (forall r, In r rows -> p r = q r) ->
  sql_update p issued set rows = sql_update q issued set rows.
Proof.
  intros Hpq. unfold sql_update.
  assert (forall (f g : AuthSessionRow -> bool),
            (forall r, In r rows -> f r = g r) -> existsb f rows = existsb g rows) as Hex.
  { clear. intros f g. induction rows as [|r rows IH]; cbn; [done|]. intros H.
    rewrite (H r), IH; auto. }
  rewrite (Hex p q), (Hex _ (fun r => String.eqb (r_id_hash r) issued && negb (q r)));
    [|intros r Hr; by rewrite (Hpq r Hr)|done].
  rewrite (map_ext_in _ (fun r => if q r then set r else r));
    [|intros r Hr; by rewrite (Hpq r Hr)].
  by rewrite (filter_ext_in p q).
Qed.

Lemma save_handoff_exchange_rep rows mem x db_now rows' b :
  store_rep rows mem ->
  sql_save_handoff_exchange rows x db_now = Ok (rows', b) ->
  store_rep rows' (mem_save_handoff_exchange mem x).1
  /\ b = (mem_save_handoff_exchange mem x).2.
Proof.
  intros Hrep. unfold sql_save_handoff_exchange, mem_save_handoff_exchange.
  rewrite <- (exchange_matches_exists x _ _ (proj1 Hrep)).
  change (fun r => _ && _) with (exchange_matches x).
  destruct (existsb (exchange_matches x) rows) eqn:Hex.
  - rewrite (sql_update_ext _ (has_id (rot_previous (hx_rotation x))))
      by (by apply exchange_matches_key; [apply Hrep|]).
    destruct (sql_update _ _ _ _) as [[rows'' n]|] eqn:E; [|done]. intros [= <- <-].
    refine (sql_update_rep _ _ _ _ _ _ _ _ Hrep _ _ E); [done|].
    intros r s Hr. unfold issued_hash, hash_session_id. by apply set_handoff_exchange_rep.
  - unfold sql_update. rewrite Hex, andb_false_r. intros [= <- <-].
    by rewrite (map_absent _ _ _ Hex), (filter_absent _ _ Hex).
Qed.
End refinement.

(** *** Reads *)
Lemma fetch_rep p q rows mem :
  Forall2 row_rep rows mem ->
  (forall r s, row_rep r s -> p r = q s) ->
  exists o, sql_fetch p rows = Ok o /\ option_Forall2 (≡) o (find q mem).
Proof.
  intros HF Hpq. induction HF as [|r s rows mem Hr _ IH].
  - exists None. split; [done | constructor].
  - unfold sql_fetch in *. cbn. rewrite (Hpq r s Hr). destruct (q s); [|done].
    destruct (row_rep_map_row _ _ Hr) as (s' & -> & Hs). exists (Some s'). by repeat constructor.
Qed.
Lemma find_rep rows mem t i :
  store_rep rows mem ->
  exists o, sql_find rows t i = Ok o /\ option_Forall2 (≡) o (mem_find mem t i).
Proof.
  intros [HF _]. apply fetch_rep; [done|]. intros r s Hr. fold (has_id i r).
  by rewrite (has_id_decide _ _ _ Hr), (row_rep_tenant _ _ Hr), andb_comm.
Qed.
Lemma find_by_handoff_rep rows mem t h :
  store_rep rows mem ->
  exists o, sql_find_by_handoff rows t h = Ok o
            /\ option_Forall2 (≡) o (mem_find_by_handoff mem t h).
Proof.
  intros [HF _]. apply fetch_rep; [done|]. intros r s Hr.
  rewrite (row_rep_tenant _ _ Hr), (row_rep_handle _ _ Hr), andb_comm. f_equal.
  apply bool_decide_ext. destruct h, (r_handle_hash r); cbn; split; congruence.
Qed.

(** *** Deletions *)
Lemma filter_rep (p : AuthSessionRow -> bool) (q : AuthSession -> bool) rows mem :
  store_rep rows mem -> (forall r s, row_rep r s -> p r = q s) ->
  store_rep (List.filter p rows) (List.filter q mem).
Proof.
  intros [HF Hnd] Hpq. split.
  - clear Hnd. induction HF as [|r s rows mem Hr _ IH]; [done|]. cbn.
    rewrite (Hpq r s Hr). destruct (q s); [by constructor | done].
  - clear HF Hpq. induction rows as [|r rows IH]; [done|].
    rewrite fmap_cons, NoDup_cons in Hnd. destruct Hnd as [Hn Hnd]. cbn.
    destruct (p r); [|auto]. rewrite fmap_cons, NoDup_cons. split; [|auto].
    intros Hin. apply Hn. rewrite list_elem_of_fmap in *. destruct Hin as (r' & E & Hin).
    exists r'. split; [done|]. apply list_elem_of_In in Hin. apply filter_In in Hin.
    apply list_elem_of_In, Hin.
Qed.
Lemma delete_rep rows mem i :
  store_rep rows mem -> store_rep (sql_delete rows i) (mem_delete mem i).
Proof.
  intros Hrep. apply filter_rep; [done|]. intros r s Hr. fold (has_id i r).
  by rewrite (has_id_decide _ _ _ Hr).
Qed.
Lemma delete_expired_rep rows mem now :
  store_rep rows mem ->
  store_rep (sql_delete_expired rows now).1 (mem_delete_expired mem (to_micros now)).1.
Proof.
  intros Hrep. apply filter_rep; [done|]. intros r s Hr.
  unfold session_is_expired_at. by rewrite (row_rep_expires _ _ Hr).
Qed.

(** *** Creation *)

(** A request the columns can hold: what [accept] produces, with [max_age]
    inside BIGINT. *)
Definition storable_request (rq : AuthorizationRequest) : Prop :=
  NoDup (rq_prompt rq) /\ (forall v, rq_max_age rq = Some v -> 0 <= v <= i64_max)%Z.
Definition truncate_session (s : AuthSession) : AuthSession := {|
  as_id_hash := as_id_hash s; as_tenant_id := as_tenant_id s; as_request := as_request s;
  as_handoff := (fun h => {| ho_handle_hash := ho_handle_hash h;
                             ho_expires_at := to_micros (ho_expires_at h) |}) <$> as_handoff s;
  as_progress := as_progress s; as_expires_at := to_micros (as_expires_at s);
  as_created_at := as_created_at s; as_updated_at := as_updated_at s |}.

Lemma row_request_insert s now :
  storable_request (as_request s) ->
  row_request (insert_row s now) (pk_method (rq_pkce (as_request s))) = as_request s.
Proof.
  intros [Hp Hm]. unfold row_request, insert_row; cbn.
  rewrite prompt_storage_roundtrip, response_mode_stored_roundtrip by done.
  destruct (as_request s) as [c u sc st n [ch me] p rm ma ac lh ul]; cbn in *. f_equal.
  destruct ma as [v|]; [|done]. cbn. unfold u64_as_i64. specialize (Hm v eq_refl).
  rewrite (proj2 (Z.leb_le _ _)) by lia. f_equal. lia.
Qed.
Lemma insert_row_rep s now :
  as_progress s = Anonymous -> storable_request (as_request s) ->
  row_rep (insert_row s now) (truncate_session s).
Proof.
  intros Ha Hs. exists (pk_method (rq_pkce (as_request s))).
  split; [apply parse_as_str|]. unfold parts_normal, row_parts. rewrite (row_request_insert _ _ Hs).
  unfold insert_row, identified_user, completed_authentication, to_parts, reconstitute,
    progress_of_parts, handoff_of_parts, equiv, AuthSession_equiv, forget_clock; cbn.
  rewrite Ha. destruct s as [[i] t rq [[[h] e]|] p ex c u]; done.
Qed.
Lemma create_rep rows mem s now rows' :
  store_rep rows mem -> as_progress s = Anonymous -> storable_request (as_request s) ->
  sql_create rows s now = Ok rows' ->
  store_rep rows' (mem_create mem (truncate_session s)).
Proof.
  intros [HF Hnd] Ha Hs. unfold sql_create.
  destruct (existsb _ rows) eqn:E; [done|]. intros [= <-]. split.
  - apply Forall2_app; [done|]. constructor; [|done]. by apply insert_row_rep.
  - rewrite fmap_app, NoDup_app. split; [done|]. split; [|apply NoDup_singleton].
    intros h Hin. rewrite list_elem_of_fmap in Hin. destruct Hin as (r & -> & Hin). cbn.
    rewrite list_elem_of_singleton. intros Heq. apply not_true_iff_false in E. apply E.
    apply existsb_exists. exists r. rewrite <- list_elem_of_In. split; [done|].
    apply orb_true_iff. left. by apply String.eqb_eq.
Qed.
