(* ===== verification/AuthSessionTheorems.v ===== *)
(** * The authentication session: its contract

    The repository trait as a language of operations, the SQL repository and the
    in-memory one as two interpreters of it, and the theorem that the first
    implements the second; the transitions of the aggregate and what the next
    request finds of them. *)

From S2P Require Import Prelude Values ResponseMode External AuthorizationRequest AuthSession.
From S2P Require Import AuthSessionStore.

(** ** The repository as a language *)
Inductive StoreOp : Type :=
  | OpCreate (s : AuthSession)
  | OpFind (t : TenantId) (i : AuthSessionIdHash)
  | OpFindByHandoff (t : TenantId) (h : HandoffHandleHash)
  | OpSaveHandoffExchange (x : HandoffExchange)
  | OpSavePasswordVerification (v : PasswordVerification)
  | OpSaveAuthentication (c : AuthenticationCompletion)
  | OpDelete (i : AuthSessionIdHash)
  | OpDeleteExpired (now : DateTime).
Inductive StoreAnswer : Type :=
  | AnsDone | AnsSession (o : option AuthSession) | AnsConsumed (b : bool) | AnsCount (n : nat).
(** Two answers are alike if they agree up to the database's clock columns. *)
Definition answers_alike (a b : StoreAnswer) : Prop :=
  match a, b with
  | AnsSession o, AnsSession o' => option_Forall2 (≡) o o'
  | _, _ => a = b
  end.

Section store.
Context {HS : Hashing}.

Definition sql_op (db_now : DateTime) (op : StoreOp) (rows : list AuthSessionRow)
  : Result DomainError (list AuthSessionRow * StoreAnswer) :=
  match op with
  | OpCreate s => let? rows' := sql_create rows s db_now in Ok (rows', AnsDone)
  | OpFind t i => let? o := sql_find rows t i in Ok (rows, AnsSession o)
  | OpFindByHandoff t h => let? o := sql_find_by_handoff rows t h in Ok (rows, AnsSession o)
  | OpSaveHandoffExchange x =>
      let? (rows', b) := sql_save_handoff_exchange rows x db_now in Ok (rows', AnsConsumed b)
  | OpSavePasswordVerification v =>
      let? rows' := sql_save_password_verification rows v db_now in Ok (rows', AnsDone)
  | OpSaveAuthentication c =>
      let? rows' := sql_save_authentication rows c db_now in Ok (rows', AnsDone)
  | OpDelete i => Ok (sql_delete rows i, AnsDone)
  | OpDeleteExpired now =>
      let '(rows', n) := sql_delete_expired rows now in Ok (rows', AnsCount n)
  end.
Definition mem_op (op : StoreOp) (mem : list AuthSession) : list AuthSession * StoreAnswer :=
  match op with
  | OpCreate s => (mem_create mem s, AnsDone)
  | OpFind t i => (mem, AnsSession (mem_find mem t i))
  | OpFindByHandoff t h => (mem, AnsSession (mem_find_by_handoff mem t h))
  | OpSaveHandoffExchange x =>
      let '(mem', b) := mem_save_handoff_exchange mem x in (mem', AnsConsumed b)
  | OpSavePasswordVerification v => (mem_save_password_verification mem v, AnsDone)
  | OpSaveAuthentication c => (mem_save_authentication mem c, AnsDone)
  | OpDelete i => (mem_delete mem i, AnsDone)
  | OpDeleteExpired now => let '(mem', n) := mem_delete_expired mem now in (mem', AnsCount n)
  end.
(** What DATETIME(6) keeps of an operation's timestamps. *)
Definition truncate_op (op : StoreOp) : StoreOp :=
  match op with
  | OpCreate s => OpCreate (truncate_session s)
  | OpSavePasswordVerification v => OpSavePasswordVerification (truncate_verification v)
  | OpSaveAuthentication c => OpSaveAuthentication (truncate_completion c)
  | OpDeleteExpired now => OpDeleteExpired (to_micros now)
  | op => op
  end.
(** What the use cases create: a session nobody has authenticated in, for a
    request the columns can hold. *)
Definition op_ok (op : StoreOp) : Prop :=
  match op with
  | OpCreate s => as_progress s = Anonymous /\ storable_request (as_request s)
  | _ => True
  end.

Lemma delete_expired_count rows mem now :
  store_rep rows mem ->
  (sql_delete_expired rows now).2 = (mem_delete_expired mem (to_micros now)).2.
Proof.
  intros [HF _]. unfold sql_delete_expired, mem_delete_expired. cbn [fst snd].
  induction HF as [|r s rows mem Hr _ IH]; [done|]. cbn [List.filter length].
  unfold session_is_expired_at at 1. rewrite (row_rep_expires _ _ Hr).
  pose proof (filter_length_le (fun s => negb (session_is_expired_at s (to_micros now))) mem).
  destruct (r_expires_at r <=? to_micros now)%Z; cbn [negb length]; lia.
Qed.

(** One operation of the SQL repository is that operation of the in-memory one. *)
Lemma store_op_rep db_now op rows mem rows' a :
  store_rep rows mem -> op_ok op -> sql_op db_now op rows = Ok (rows', a) ->
  store_rep rows' (mem_op (truncate_op op) mem).1
  /\ answers_alike a (mem_op (truncate_op op) mem).2.
Proof.
  intros Hrep Hok. destruct op as [s|t i|t h|x|v|c|i|now]; cbn [sql_op truncate_op mem_op fst snd].
  - destruct (sql_create rows s db_now) as [rows1|] eqn:E; [|done]. intros [= <- <-].
    split; [|done]. destruct Hok. by eapply create_rep.
  - destruct (find_rep rows mem t i Hrep) as (o & -> & Ho). by intros [= <- <-].
  - destruct (find_by_handoff_rep rows mem t h Hrep) as (o & -> & Ho). by intros [= <- <-].
  - destruct (sql_save_handoff_exchange rows x db_now) as [[rows1 b]|] eqn:E; [|done].
    intros [= <- <-]. pose proof (save_handoff_exchange_rep _ _ _ _ _ _ Hrep E) as [H1 ->].
    by destruct (mem_save_handoff_exchange mem x).
  - destruct (sql_save_password_verification rows v db_now) as [rows1|] eqn:E; [|done].
    intros [= <- <-]. split; [|done]. by eapply save_password_verification_rep.
  - destruct (sql_save_authentication rows c db_now) as [rows1|] eqn:E; [|done].
    intros [= <- <-]. split; [|done]. by eapply save_authentication_rep.
  - intros [= <- <-]. split; [|done]. by apply delete_rep.
  - intros [= <- <-]. pose proof (delete_expired_rep rows mem now Hrep) as H1.
    pose proof (delete_expired_count rows mem now Hrep) as H2.
    cbn [sql_delete_expired mem_delete_expired fst snd] in *. by rewrite H2.
Qed.

(** A session of a client with the store: operations, each at some time. *)
Fixpoint sql_run (ops : list (DateTime * StoreOp)) (rows : list AuthSessionRow)
  : Result DomainError (list AuthSessionRow * list StoreAnswer) :=
  match ops with
  | [] => Ok (rows, [])
  | (db_now, op) :: rest =>
      let? (rows1, a) := sql_op db_now op rows in
      let? (rows2, answers) := sql_run rest rows1 in Ok (rows2, a :: answers)
  end.
Fixpoint mem_run (ops : list StoreOp) (mem : list AuthSession) : list AuthSession * list StoreAnswer :=
  match ops with
  | [] => (mem, [])
  | op :: rest =>
      let '(mem1, a) := mem_op op mem in
      let '(mem2, answers) := mem_run rest mem1 in (mem2, a :: answers)
  end.

Lemma mem_run_cons op rest mem :
  mem_run (op :: rest) mem
  = ((mem_run rest (mem_op op mem).1).1, (mem_op op mem).2 :: (mem_run rest (mem_op op mem).1).2).
Proof. cbn [mem_run]. destruct (mem_op op mem) as [m a]. cbn [fst snd]. by destruct (mem_run rest m). Qed.
Lemma store_run_rep ops rows mem rows' answers :
  store_rep rows mem -> Forall (fun o => op_ok o.2) ops -> sql_run ops rows = Ok (rows', answers) ->
  store_rep rows' (mem_run (map (fun o => truncate_op o.2) ops) mem).1
  /\ Forall2 answers_alike answers (mem_run (map (fun o => truncate_op o.2) ops) mem).2.
Proof.
  intros Hrep Hok. revert rows mem rows' answers Hrep.
  induction Hok as [|[db_now op] ops Ho _ IH]; intros rows mem rows' answers Hrep;
    cbn [sql_run snd map].
  { by intros [= <- <-]. }
  destruct (sql_op db_now op rows) as [[rows1 a]|] eqn:E1; [|done].
  destruct (sql_run ops rows1) as [[rows2 rest]|] eqn:E2; [|done]. intros [= <- <-].
  destruct (store_op_rep _ _ _ _ _ _ Hrep Ho E1) as [H1 Ha].
  destruct (IH _ _ _ _ H1 E2) as [H2 Hr]. rewrite mem_run_cons. split; [exact H2|].
  constructor; [exact Ha | exact Hr].
Qed.
(** C23: The SQL session store implements the in-memory one.  From the empty tables,
    any sequence of operations that the database carries out gives, one after another,
    the answers of the in-memory repository on the same operations with their
    timestamps cut to microseconds, up to the two columns the database fills in from
    its own clock; provided ([op_ok]) that the sessions it creates are ones nobody has
    authenticated in, for requests the columns can hold: no prompt twice, and a
    [max_age] of at most [i64::MAX].  Without the last the answers differ. *)
Theorem session_store_refinement ops rows' answers :
  Forall (fun o => op_ok o.2) ops -> sql_run ops [] = Ok (rows', answers) ->
  Forall2 answers_alike answers (mem_run (map (fun o => truncate_op o.2) ops) []).2.
Proof.
  intros Hok Hrun. apply (store_run_rep ops [] [] rows' answers); [|done|done].
  split; constructor.
Qed.

(** ** Transitions and the store *)

(** The store with one session rewritten: nothing else is found differently. *)
Lemma mem_rewrite_find t i f mem s s' :
  mem_find mem t i = Some s -> NoDup (as_id_hash <$> mem) ->
  (forall x, x ∈ mem -> as_id_hash x <> as_id_hash s') ->
  reconstitute (f (to_parts s)) ≡ s' -> as_tenant_id s' = t ->
  option_Forall2 (≡) (mem_find (mem_rewrite i f mem).1 t (as_id_hash s')) (Some s')
  /\ mem_find (mem_rewrite i f mem).1 t i = None.
Proof.
  intros Hf Hnd Hfresh Heq Ht. induction mem as [|x mem IH]; [done|].
  rewrite fmap_cons, NoDup_cons in Hnd. destruct Hnd as [Hx Hnd].
  assert (as_id_hash s <> as_id_hash s') as Hne.
  { apply find_some in Hf. apply Hfresh. apply list_elem_of_In, Hf. }
  assert (as_id_hash s = i) as Hi.
  { apply find_some in Hf. destruct Hf as [_ Hf]. apply andb_true_iff in Hf.
    destruct Hf as [_ Hf]. by apply bool_decide_eq_true in Hf. }
  cbn [mem_rewrite]. case_decide as Hd.
  - assert (s = x) as ->.
    { unfold mem_find in Hf. cbn [find] in Hf. rewrite (bool_decide_true _ Hd), andb_true_r in Hf.
      destruct (N.eqb (as_tenant_id x) t); [by injection Hf|].
      apply find_some in Hf. destruct Hf as [Hin _]. exfalso. apply Hx. rewrite Hd, <- Hi.
      apply list_elem_of_fmap. exists s. by rewrite list_elem_of_In. }
    unfold mem_find. cbn [fst find].
    set (x' := reconstitute (f (to_parts x))) in *.
    pose proof (as_tenant_id_proper _ _ Heq) as Htx. pose proof (as_id_hash_proper _ _ Heq) as Hix.
    rewrite Htx, Hix, Ht, N.eqb_refl, (bool_decide_true (as_id_hash s' = as_id_hash s') eq_refl).
    rewrite (bool_decide_false (as_id_hash s' = i)) by congruence.
    cbn [andb]. split; [by constructor|].
    destruct (find _ mem) as [y|] eqn:Ey; [|done]. apply find_some in Ey. destruct Ey as [Hin Ey].
    apply andb_true_iff in Ey. rewrite bool_decide_eq_true in Ey. exfalso. apply Hx.
    rewrite Hd, <- (proj2 Ey). apply list_elem_of_fmap. exists y. by rewrite list_elem_of_In.
  - assert (mem_find mem t i = Some s) as Hf'.
    { unfold mem_find in *. cbn [find] in Hf.
      by rewrite (bool_decide_false _ Hd), andb_false_r in Hf. }
    destruct (IH Hf' Hnd) as [IH1 IH2]; [intros y Hy; apply Hfresh; by constructor|].
    revert IH1 IH2. destruct (mem_rewrite i f mem) as [rest b]. cbn [fst]. intros IH1 IH2.
    unfold mem_find in *. cbn [find].
    rewrite (bool_decide_false (as_id_hash x = as_id_hash s')) by (apply Hfresh; constructor).
    rewrite (bool_decide_false _ Hd), !andb_false_r. done.
Qed.
Lemma mem_find_spec mem t i s :
  mem_find mem t i = Some s -> s ∈ mem /\ as_tenant_id s = t /\ as_id_hash s = i.
Proof.
  intros H. apply find_some in H. destruct H as [Hin E]. apply andb_true_iff in E.
  by rewrite list_elem_of_In, N.eqb_eq, bool_decide_eq_true in *.
Qed.

(** What a request needs of the fresh identifier it draws. *)
Definition fresh_session_id (mem : list AuthSession) (i : AuthSessionId) : Prop :=
  forall s, s ∈ mem -> as_id_hash s <> hash_session_id i.
(** The store after a transition was saved: the session is found under its new
    identifier as the transition left it, and no longer under the old one. *)
Definition saved (mem' : list AuthSession) (t : TenantId) (s s' : AuthSession) : Prop :=
  option_Forall2 (≡) (mem_find mem' t (as_id_hash s')) (Some s')
  /\ mem_find mem' t (as_id_hash s) = None.

(** Verifying the password rotates the session identifier.  After the
    transition is saved, the session is found under the fresh identifier, with the
    password verified but nobody authenticated, and the identifier the browser had
    before finds nothing. *)
Theorem password_verification_saved mem t i s u v fresh s' change :
  NoDup (as_id_hash <$> mem) -> mem_find mem t i = Some s -> fresh_session_id mem fresh ->
  record_password_verification s u v fresh = (s', change) ->
  saved (mem_save_password_verification mem change) t s s'
  /\ as_progress s' = PasswordVerified u v /\ completed_authentication s' = None.
Proof.
  intros Hnd Hf Hfresh [= <- <-]. split; [|done].
  destruct (mem_find_spec _ _ _ _ Hf) as (_ & Ht & Hi).
  unfold saved, mem_save_password_verification. cbn [pv_rotation rot_previous].
  rewrite Hi. apply mem_rewrite_find with (s := s); [done|done|done| |done].
  match goal with |- _ ≡ ?x => rewrite <- (reconstitute_to_parts x) end.
  apply forget_parts_equiv; unfold handoff_of_parts; cbn; autorewrite with parts; done.
Qed.
(** Completing the sign-in rotates the session identifier: the same for the
    final step, which keeps when the password was verified. *)
Theorem authentication_saved mem t i s a fresh s' change :
  NoDup (as_id_hash <$> mem) -> mem_find mem t i = Some s -> fresh_session_id mem fresh ->
  complete_authentication s a fresh = (s', change) ->
  saved (mem_save_authentication mem change) t s s'
  /\ as_progress s' = Authenticated a (password_verified_before (as_progress s))
  /\ completed_authentication s' = Some a.
Proof.
  intros Hnd Hf Hfresh [= <- <-]. split; [|done].
  destruct (mem_find_spec _ _ _ _ Hf) as (_ & Ht & Hi).
  unfold saved, mem_save_authentication. cbn [ac_rotation rot_previous].
  rewrite Hi. apply mem_rewrite_find with (s := s); [done|done|done| |done].
  match goal with |- _ ≡ ?x => rewrite <- (reconstitute_to_parts x) end.
  apply forget_parts_equiv; unfold handoff_of_parts, progress_of_parts; cbn;
    autorewrite with parts; by destruct a.
Qed.

Lemma mem_rewrite_gone i f mem :
  NoDup (as_id_hash <$> mem) ->
  (forall x, as_id_hash (reconstitute (f (to_parts x))) <> i) ->
  forall y, y ∈ (mem_rewrite i f mem).1 -> as_id_hash y <> i.
Proof.
  intros Hnd Hf. induction mem as [|x mem IH]; [intros y Hy; by apply elem_of_nil in Hy|].
  rewrite fmap_cons, NoDup_cons in Hnd. destruct Hnd as [Hx Hnd]. intros y.
  cbn [mem_rewrite]. case_decide as Hd.
  - cbn [fst]. rewrite elem_of_cons. intros [->|Hy]; [apply Hf|]. intros E. apply Hx.
    rewrite Hd, <- E. apply list_elem_of_fmap. by exists y.
  - specialize (IH Hnd y). destruct (mem_rewrite i f mem) as [rest b]. cbn [fst] in *.
    rewrite elem_of_cons. intros [->|Hy]; [done | by apply IH].
Qed.
Lemma mem_rewrite_done i f mem s : s ∈ mem -> as_id_hash s = i -> (mem_rewrite i f mem).2 = true.
Proof.
  intros Hs Hi. induction mem as [|x mem IH]; [by apply elem_of_nil in Hs|].
  cbn [mem_rewrite]. case_decide as Hd; [done|].
  apply elem_of_cons in Hs. destruct Hs as [->|Hs]; [done|]. specialize (IH Hs).
  by destruct (mem_rewrite i f mem) as [rest b].
Qed.

(** C24: A hand-off is exchanged once.  If two requests load the same session and
    both may exchange its hand-off, the first to save succeeds: the session is
    found under its fresh identifier, without a hand-off, and no longer under the
    old one; the second is told that it lost and changes nothing. *)
Theorem handoff_exchanged_once mem t i s now fresh s' x now2 fresh2 s2 x2 :
  NoDup (as_id_hash <$> mem) -> mem_find mem t i = Some s -> fresh_session_id mem fresh ->
  exchange_handoff s now fresh = Ok (s', x) -> exchange_handoff s now2 fresh2 = Ok (s2, x2) ->
  exists mem', mem_save_handoff_exchange mem x = (mem', true)
    /\ saved mem' t s s' /\ as_handoff s' = None
    /\ mem_save_handoff_exchange mem' x2 = (mem', false).
Proof.
  intros Hnd Hf Hfresh H1 H2.
  apply exchange_handoff_Ok in H1. destruct H1 as (h & Hh & _ & _ & -> & ->).
  apply exchange_handoff_Ok in H2. destruct H2 as (h' & _ & _ & _ & _ & ->).
  destruct (mem_find_spec _ _ _ _ Hf) as (Hin & Ht & Hi).
  assert (existsb (fun s0 => bool_decide (as_id_hash s0 = i)
            && bool_decide (ho_handle_hash <$> as_handoff s0 = Some (ho_handle_hash h))) mem = true)
    as Hex.
  { apply existsb_exists. exists s. rewrite <- list_elem_of_In. split; [done|].
    by rewrite Hh, !bool_decide_true. }
  unfold mem_save_handoff_exchange at 1. cbn [hx_rotation hx_consumed rot_previous].
  rewrite Hi, Hex. rewrite <- Hi in Hf |- *.
  pose proof (mem_rewrite_done (as_id_hash s)
    (parts_exchanged (issued_hash {| rot_previous := as_id_hash s; rot_issued := fresh |}))
    mem s Hin eq_refl) as Hdone.
  pose proof (mem_rewrite_gone (as_id_hash s)
    (parts_exchanged (issued_hash {| rot_previous := as_id_hash s; rot_issued := fresh |}))
    mem Hnd) as Hgone.
  pose proof (mem_rewrite_find t (as_id_hash s)
    (parts_exchanged (issued_hash {| rot_previous := as_id_hash s; rot_issued := fresh |}))
    mem s (rotate_id (with_handoff s None) fresh).1 Hf Hnd Hfresh) as Hfind.
  destruct (mem_rewrite _ _ mem) as [mem' b]. cbn [fst snd] in *. subst b.
  exists mem'. split; [done|]. split; [|split; [done|]].
  - apply Hfind; [|done]. clear. unfold equiv, AuthSession_equiv.
    destruct s as [? ? ? ? [| |[]] ? ? ?]; reflexivity.
  - unfold mem_save_handoff_exchange. cbn [hx_rotation hx_consumed rot_previous].
    assert (existsb (fun s0 => bool_decide (as_id_hash s0 = as_id_hash s)
      && bool_decide (ho_handle_hash <$> as_handoff s0 = Some (ho_handle_hash h'))) mem' = false)
      as ->; [|done].
    apply not_true_iff_false. rewrite existsb_exists. intros (y & Hy & Ey).
    apply andb_true_iff in Ey. destruct Ey as [Ey _]. apply bool_decide_eq_true in Ey.
    apply list_elem_of_In in Hy. revert Ey. apply Hgone; [|done].
    intros z. cbn. intros E. symmetry in E. by apply (Hfresh s Hin).
Qed.
End store.

(** ** Witnesses *)
#[local] Existing Instance toy_hashing.
Definition toy_rq : AuthorizationRequest := {|
  rq_client_id := "app"; rq_redirect_uri := "https://app/cb"; rq_scope := ["openid"];
  rq_state := "st"; rq_nonce := "n"; rq_pkce := {| pk_challenge := "ch"; pk_method := S256 |};
  rq_prompt := [PromptLogin]; rq_response_mode := FormPost; rq_max_age := Some 60%Z;
  rq_acr_values := None; rq_login_hint := None; rq_ui_locales := None |}.
Definition toy_session : AuthSession := {|
  as_id_hash := {| session_id_hash := "old" |}; as_tenant_id := 1%N; as_request := toy_rq;
  as_handoff := Some {| ho_handle_hash := {| handle_hash_value := "handle" |};
                        ho_expires_at := seconds 100 |};
  as_progress := Anonymous; as_expires_at := seconds 600; as_created_at := 0; as_updated_at := 0 |}.
Definition toy_change : AuthSession * PasswordVerification :=
  record_password_verification toy_session 7%N 12345%Z {| session_id_plain := "new" |}.
Definition toy_completion : AuthSession * AuthenticationCompletion :=
  complete_authentication toy_session
    {| au_user_id := 7%N; au_auth_time := 12345%Z; au_sso_sid := Some "sid";
       au_methods := Some [Password] |} {| session_id_plain := "new" |}.
(** The browser's whole way through a sign-in, and what the old identifier finds. *)
Definition toy_ops : list (DateTime * StoreOp) := [
  (1%Z, OpCreate toy_session);
  (2%Z, OpFind 1%N {| session_id_hash := "old" |});
  (3%Z, OpSavePasswordVerification toy_change.2);
  (4%Z, OpFind 1%N {| session_id_hash := "old" |});
  (5%Z, OpFind 1%N {| session_id_hash := "new" |});
  (6%Z, OpDeleteExpired (seconds 601))].
Definition toy_store_run := sql_run toy_ops [].
Lemma toy_mem_ids : NoDup (as_id_hash <$> [toy_session]).
Proof. apply NoDup_singleton. Qed.
Lemma toy_fresh_id : fresh_session_id [toy_session] {| session_id_plain := "new" |}.
Proof. intros s Hs. apply list_elem_of_singleton in Hs. subst s. discriminate. Qed.

Lemma toy_storable : storable_request toy_rq.
Proof. split; [apply NoDup_singleton|]. intros v [= <-]. unfold i64_max. lia. Qed.
Lemma toy_ops_ok : Forall (fun o => op_ok o.2) toy_ops.
Proof.
  apply Forall_cons. split; [split; [reflexivity | exact toy_storable]|]. by repeat constructor.
Qed.
Lemma session_store_refinement_witness :
  exists rows answers, toy_store_run = Ok (rows, answers) /\ length answers = 6%nat
    /\ Forall2 answers_alike answers (mem_run (map (fun o => truncate_op o.2) toy_ops) []).2.
Proof.
  unfold toy_store_run. destruct (sql_run toy_ops []) as [[rows answers]|] eqn:E;
    [|vm_compute in E; discriminate].
  exists rows, answers. split; [reflexivity|]. split.
  - vm_compute in E. injection E as _ <-. reflexivity.
  - apply (session_store_refinement toy_ops rows answers); [|exact E].
    exact toy_ops_ok.
Defined.
Lemma password_verification_saved_witness :
  saved (mem_save_password_verification [toy_session] toy_change.2) 1%N toy_session toy_change.1
  /\ as_progress toy_change.1 = PasswordVerified 7%N 12345%Z
  /\ completed_authentication toy_change.1 = None.
Proof.
  apply (password_verification_saved [toy_session] 1%N {| session_id_hash := "old" |} toy_session
           7%N 12345%Z {| session_id_plain := "new" |} toy_change.1 toy_change.2).
  - exact toy_mem_ids.
  - reflexivity.
  - exact toy_fresh_id.
  - apply surjective_pairing.
Defined.
Lemma authentication_saved_witness :
  saved (mem_save_authentication [toy_session] toy_completion.2) 1%N toy_session toy_completion.1
  /\ as_progress toy_completion.1
     = Authenticated (ac_authentication toy_completion.2) (password_verified_before Anonymous)
  /\ completed_authentication toy_completion.1 = Some (ac_authentication toy_completion.2).
Proof.
  apply (authentication_saved [toy_session] 1%N {| session_id_hash := "old" |} toy_session
           (ac_authentication toy_completion.2) {| session_id_plain := "new" |}
           toy_completion.1 toy_completion.2).
  - exact toy_mem_ids.
  - reflexivity.
  - exact toy_fresh_id.
  - reflexivity.
Defined.
Definition toy_exchanged (fresh : string) : AuthSession * HandoffExchange :=
  match exchange_handoff toy_session (seconds 50) {| session_id_plain := fresh |} with
  | Ok r => r
  | Err _ => (toy_session, {| hx_consumed := {| handle_hash_value := "" |};
                              hx_rotation := pv_rotation toy_change.2 |})
  end.
Lemma handoff_exchanged_once_witness :
  exists mem', mem_save_handoff_exchange [toy_session] (toy_exchanged "new").2 = (mem', true)
    /\ saved mem' 1%N toy_session (toy_exchanged "new").1
    /\ as_handoff (toy_exchanged "new").1 = None
    /\ mem_save_handoff_exchange mem' (toy_exchanged "other").2 = (mem', false).
Proof.
  apply (handoff_exchanged_once [toy_session] 1%N {| session_id_hash := "old" |} toy_session
           (seconds 50) {| session_id_plain := "new" |} (toy_exchanged "new").1
           (toy_exchanged "new").2 (seconds 50) {| session_id_plain := "other" |}
           (toy_exchanged "other").1 (toy_exchanged "other").2).
  - exact toy_mem_ids.
  - reflexivity.
  - exact toy_fresh_id.
  - reflexivity.
  - reflexivity.
Defined.
