(* ===== verification/LoginIdentifier.v ===== *)
(** * Login identifiers ([domain/login_identifier.rs]) and tenant domains
      ([domain/tenant_domain.rs])

    What a user may type into the login form: a user name, an e-mail address, a
    telephone or an employee number, each with its own normal form.  The form does
    not say which it is, so a login looks for all the readings the input admits.
    [UnicodeCase] is the standard library's case mapping, whose tables are data. *)

From S2P Require Import Prelude Values Directory.

Class UnicodeCase := { to_lowercase : string -> string; to_uppercase : string -> string }.

Inductive LoginIdentifierType : Type := Username | Email | PhoneNumber | EmployeeNumber.
#[export] Instance LoginIdentifierType_eq_dec : EqDecision LoginIdentifierType.
Proof. solve_decision. Defined.
#[export] Program Instance LoginIdentifierType_enum : StringEnum LoginIdentifierType := {
  enum_name := "LoginIdentifierType";
  enum_table := [(Username, "username");
                 (Email, "email");
                 (PhoneNumber, "phone_number");
                 (EmployeeNumber, "employee_number")]
}.
Solve All Obligations with solve_enum.
Definition NORMALIZED_VALUE_MAX_LEN : Z := 255.
Definition DISPLAY_VALUE_MAX_LEN : Z := 320.
Definition PHONE_MIN_DIGITS : Z := 6.
Definition PHONE_MAX_DIGITS : Z := 20.

(** [chars().filter(char::is_ascii_digit)]. *)
Fixpoint ascii_digits (s : string) : string :=
  match s with
  | "" => ""
  | String c s' => if is_digit c then String c (ascii_digits s') else ascii_digits s'
  end.
(** [chars().filter(|c| !c.is_whitespace())] and [chars().any(char::is_whitespace)]. *)
Fixpoint remove_ws (s : string) (skip : nat) : string :=
  match s with
  | "" => ""
  | String c s' =>
      match skip with
      | S k => remove_ws s' k
      | O => match ws_len s with S k => remove_ws s' k | O => String c (remove_ws s' 0) end
      end
  end.
Fixpoint any_ws (s : string) : bool :=
  match s with "" => false | String _ s' => (0 <? ws_len s)%nat || any_ws s' end.

Section identifiers.
Context {UN : UnicodeCase}.

Definition identifier_normalize (k : LoginIdentifierType) (raw : string) : string :=
  let trimmed := trim raw in
  match k with
  | Username | Email => to_lowercase trimmed
  | PhoneNumber =>
      let digits := ascii_digits trimmed in
      if starts_with "+" trimmed then "+" ++ digits else digits
  | EmployeeNumber => to_uppercase (remove_ws trimmed 0)
  end.
Definition phone_char (c : ascii) : bool :=
  is_digit c || existsb (Ascii.eqb c) ["+"; "-"; " "; "("; ")"; "."]%char.
Definition identifier_accepts (k : LoginIdentifierType) (raw : string) : bool :=
  let trimmed := trim raw in
  if str_is_empty trimmed then false
  else match k with
  | Username => true
  | Email =>
      match split_on "@" trimmed with
      | [a; b] => negb (str_is_empty a) && negb (str_is_empty b)
      | _ => false
      end
  | PhoneNumber =>
      let digits := str_len (ascii_digits trimmed) in
      str_forallb phone_char trimmed && ((PHONE_MIN_DIGITS <=? digits) && (digits <=? PHONE_MAX_DIGITS))%Z
  | EmployeeNumber => negb (any_ws trimmed)
  end.
Definition identifier_normalize_checked (k : LoginIdentifierType) (raw : string)
  : Result MessageKey string :=
  let trimmed := trim raw in
  if str_is_empty trimmed then Err (message "api-login-identifier-required")
  else if (DISPLAY_VALUE_MAX_LEN <? char_count trimmed)%Z
  then Err (message_with_value "api-login-identifier-too-long" (pretty DISPLAY_VALUE_MAX_LEN))
  else if negb (identifier_accepts k trimmed) then Err (message match k with
    | Email => "api-email-invalid"
    | PhoneNumber => "api-login-identifier-phone-invalid"
    | EmployeeNumber => "api-login-identifier-employee-invalid"
    | Username => "api-login-identifier-required"
    end)
  else
    let normalized := identifier_normalize k trimmed in
    if str_is_empty normalized then Err (message "api-login-identifier-required")
    else if (NORMALIZED_VALUE_MAX_LEN <? char_count normalized)%Z
    then Err (message_with_value "api-login-identifier-too-long" (pretty NORMALIZED_VALUE_MAX_LEN))
    else Ok normalized.

(** [lookup_candidates]: each kind at most once, since the loop visits it once. *)
Definition add_candidate (input : string) (out : list (LoginIdentifierType * string))
  (k : LoginIdentifierType) : list (LoginIdentifierType * string) :=
  if negb (identifier_accepts k input) then out
  else
    let normalized := identifier_normalize k input in
    if str_is_empty normalized || (NORMALIZED_VALUE_MAX_LEN <? char_count normalized)%Z then out
    else if existsb (fun c => bool_decide (c.1 = k) && String.eqb c.2 normalized) out then out
    else (out ++ [(k, normalized)])%list.
Definition lookup_candidates (input : string) : list (LoginIdentifierType * string) :=
  fold_left (add_candidate input) [Username; Email; PhoneNumber; EmployeeNumber] [].

(** ** Registration and look-up agree *)
Lemma accepts_trim k raw : identifier_accepts k (trim raw) = identifier_accepts k raw.
Proof. unfold identifier_accepts. by rewrite trim_idempotent. Qed.
Lemma normalize_trim k raw : identifier_normalize k (trim raw) = identifier_normalize k raw.
Proof. unfold identifier_normalize. by rewrite trim_idempotent. Qed.
Lemma accepts_non_empty k raw : identifier_accepts k raw = true -> str_is_empty (trim raw) = false.
Proof. unfold identifier_accepts. by destruct (str_is_empty (trim raw)). Qed.

(** A key a login may look up under a kind. *)
Definition key_of (k : LoginIdentifierType) (input v : string) : Prop :=
  identifier_accepts k input = true /\ v = identifier_normalize k input
  /\ str_is_empty v = false /\ (char_count v <= NORMALIZED_VALUE_MAX_LEN)%Z.

Lemma normalize_checked_Ok k raw v :
  identifier_normalize_checked k raw = Ok v <->
  key_of k raw v /\ (char_count (trim raw) <= DISPLAY_VALUE_MAX_LEN)%Z.
Proof.
  unfold identifier_normalize_checked, key_of. rewrite accepts_trim, normalize_trim. split.
  - destruct (str_is_empty (trim raw)); [done|]. destruct (Z.ltb_spec DISPLAY_VALUE_MAX_LEN (char_count (trim raw))); [done|].
    destruct (identifier_accepts k raw); [|done]. cbn [negb].
    destruct (str_is_empty (identifier_normalize k raw)) eqn:E; [done|].
    destruct (Z.ltb_spec NORMALIZED_VALUE_MAX_LEN (char_count (identifier_normalize k raw))); [done|].
    intros [= <-]. repeat split; done || lia.
  - intros [(Ha & -> & He & Hl) Hd]. rewrite (accepts_non_empty _ _ Ha), Ha, He. cbn [negb].
    rewrite !(proj2 (Z.ltb_ge _ _)) by done. done.
Qed.

Lemma add_candidate_spec input out k c :
  c ∈ add_candidate input out k <-> c ∈ out \/ (c.1 = k /\ key_of k input c.2).
Proof.
  unfold add_candidate, key_of. destruct (identifier_accepts k input); cbn [negb]; [|naive_solver].
  destruct (str_is_empty (identifier_normalize k input)) eqn:Ee; cbn [orb].
  { split; [naive_solver|]. intros [?|(?&_&Hv&He&_)]; [done|]. congruence. }
  destruct (Z.ltb_spec NORMALIZED_VALUE_MAX_LEN (char_count (identifier_normalize k input))).
  { split; [naive_solver|]. intros [?|(?&_&Hv&_&Hl)]; [done|]. rewrite Hv in Hl. lia. }
  set (v := identifier_normalize k input) in *.
  assert (Hc : (c.1 = k /\ true = true /\ c.2 = v /\ str_is_empty c.2 = false /\ (char_count c.2 <= NORMALIZED_VALUE_MAX_LEN)%Z)
    <-> c = (k, v)).
  { destruct c as [k' v']. cbn. split; [intros (-> & _ & -> & _); done|]. intros [= -> ->]. done. }
  rewrite Hc. destruct (existsb _ out) eqn:Ex.
  - split; [naive_solver|]. intros [?| ->]; [done|]. apply existsb_exists in Ex as ([k' v'] & Hin & Hm).
    apply andb_true_iff in Hm as [Hk Hv]. apply bool_decide_eq_true in Hk. apply String.eqb_eq in Hv. cbn in *. subst.
    by apply list_elem_of_In.
  - rewrite elem_of_app, list_elem_of_singleton. done.
Qed.
Lemma lookup_candidates_spec input k v : (k, v) ∈ lookup_candidates input <-> key_of k input v.
Proof.
  unfold lookup_candidates. cbn [fold_left]. rewrite !add_candidate_spec. cbn [fst snd].
  split; [|destruct k; naive_solver]. intros H. destruct_or?; [by apply elem_of_nil in H|..]; destruct H as [-> H]; exact H.
Qed.

(** C38: What registers also logs in, and nothing else does.  The keys a login looks up for an
    input are, for every kind, exactly the value registering that input under that
    kind would store, apart from the limit on the length of what is displayed: an
    identifier that can be registered is among the candidates of the very text it
    was registered with, and no candidate is a value that kind would refuse. *)
Theorem registration_and_lookup_agree input k v :
  (identifier_normalize_checked k input = Ok v -> (k, v) ∈ lookup_candidates input)
  /\ ((k, v) ∈ lookup_candidates input -> (char_count (trim input) <= DISPLAY_VALUE_MAX_LEN)%Z ->
      identifier_normalize_checked k input = Ok v)
  /\ ((k, v) ∈ lookup_candidates input ->
      identifier_accepts k input = true /\ str_is_empty v = false /\ (char_count v <= NORMALIZED_VALUE_MAX_LEN)%Z).
Proof.
  rewrite lookup_candidates_spec, normalize_checked_Ok. unfold key_of. naive_solver.
Qed.
End identifiers.

(** ** What a lookup finds *)
Inductive UnresolvedReason : Type := ReasonNotFound | Ambiguous.
Definition reason_audit_code (r : UnresolvedReason) : string :=
  match r with ReasonNotFound => "unknown_user" | Ambiguous => "ambiguous_identifier" end.
Inductive LoginIdentifierMatch : Type :=
  | Resolved (user : User) | Unresolved (reason : UnresolvedReason).
Definition is_taken (m : LoginIdentifierMatch) : bool :=
  match m with Unresolved ReasonNotFound => false | _ => true end.

Record UserLoginIdentifier : Type := {
  li_id : Uuid;
  li_tenant_id : TenantId;
  li_user_id : Uuid;
  li_identifier_type : LoginIdentifierType;
  li_display_value : string;
  li_normalized_value : string;
  li_is_active : bool;
  li_is_primary : bool;
  li_is_primary_email : bool;
  li_created_at : DateTime;
  li_updated_at : DateTime
}.

(** ** Tenant domains *)
Definition DOMAIN_MAX_LEN : Z := 253.
Definition LABEL_MAX_LEN : Z := 63.
Record TenantDomain : Type := {
  td_id : Uuid; td_tenant_id : TenantId; td_domain : string;
  td_created_at : DateTime; td_updated_at : DateTime
}.
(** [trim_end_matches] of one ASCII character. *)
Fixpoint trim_end_matches (c : ascii) (s : string) : string :=
  match s with
  | "" => ""
  | String x s' => if str_forallb (Ascii.eqb c) s then "" else String x (trim_end_matches c s')
  end.
Definition normalize_domain (raw : string) : string :=
  to_ascii_lowercase (trim_end_matches "." (trim raw)).
Definition ends_with_char (c : ascii) (s : string) : bool :=
  match String.length s with O => false | S n => bool_decide (String.get n s = Some c) end.
Definition label_valid (label : string) : bool :=
  negb (str_is_empty label) && (str_len label <=? LABEL_MAX_LEN)%Z
  && negb (starts_with "-" label) && negb (ends_with_char "-" label)
  && str_forallb (fun c => is_ascii_alphanumeric c || Ascii.eqb c "-") label.
Definition validate_domain (raw : string) : Result MessageKey string :=
  let normalized := normalize_domain raw in
  if str_is_empty normalized then Err (message "api-tenant-domain-required")
  else if (DOMAIN_MAX_LEN <? str_len normalized)%Z
  then Err (message_with_value "api-tenant-domain-too-long" (pretty DOMAIN_MAX_LEN))
  else if negb (forallb label_valid (split_on "." normalized))
  then Err (message "api-tenant-domain-invalid")
  else Ok normalized.
Definition split_qualified_identifier (input : string) : option (string * string) :=
  '(local, domain) ← split_once "@" (trim input);
  if str_is_empty local || contains_char "@" domain then None
  else domain ← ok (validate_domain domain); Some (local, domain).
