(* ===== verification/RateLimit.v ===== *)
(** * The login rate limit ([domain/rate_limit.rs], [infrastructure/rate_limit.rs])

    A sliding window per key, held in memory: at most [rl_max_attempts] attempts in
    any [rl_window].  The map forgets what has left the window.  The callers read the
    clock before they take the lock, so the times of the calls may come out of order;
    the theorems say what is lost by that and what is not. *)

From S2P Require Import Prelude.

Record RateLimiter : Type := {
  rl_max_attempts : nat;
  rl_window : Duration;
  rl_attempts : gmap string (list DateTime)
}.
Definition with_attempts (l : RateLimiter) (m : gmap string (list DateTime)) : RateLimiter := {|
  rl_max_attempts := rl_max_attempts l; rl_window := rl_window l; rl_attempts := m |}.
(** The two [retain]s: old times go, and with them the keys that have none left. *)
Definition retain_recent (cutoff : DateTime) (times : list DateTime) : option (list DateTime) :=
  match List.filter (fun t => (cutoff <? t)%Z) times with [] => None | ts => Some ts end.
(** [check_and_record]. *)
Definition check_and_record (key : string) (now : DateTime) (l : RateLimiter) : bool * RateLimiter :=
  let cutoff := (now - rl_window l)%Z in
  let m : gmap string (list DateTime) := omap (retain_recent cutoff) (rl_attempts l) in
  let times := default [] (m !! key) in
  if (rl_max_attempts l <=? length times)%nat then (false, with_attempts l (<[key := times]> m))
  else (true, with_attempts l (<[key := (times ++ [now])%list]> m)).

(** A sequence of calls, and their answers. *)
Fixpoint run_limiter (calls : list (string * DateTime)) (l : RateLimiter) : list bool * RateLimiter :=
  match calls with
  | [] => ([], l)
  | (key, now) :: rest =>
      let '(b, l1) := check_and_record key now l in
      let '(bs, l2) := run_limiter rest l1 in (b :: bs, l2)
  end.

(** ** The reference: a history that is never cut *)
Definition History : Type := list (string * DateTime).
Definition times_of (key : string) (h : History) : list DateTime :=
  map snd (List.filter (fun e => String.eqb e.1 key) h).
Definition since (cutoff : DateTime) (ts : list DateTime) : list DateTime :=
  List.filter (fun t => (cutoff <? t)%Z) ts.
Definition ref_check (max : nat) (window : Duration) (key : string) (now : DateTime) (h : History) : bool :=
  (length (since (now - window) (times_of key h)) <? max)%nat.
Fixpoint run_ref (max : nat) (window : Duration) (calls : list (string * DateTime)) (h : History)
  : list bool * History :=
  match calls with
  | [] => ([], h)
  | (key, now) :: rest =>
      let b := ref_check max window key now h in
      let '(bs, h2) := run_ref max window rest (if b then h ++ [(key, now)] else h)%list in
      (b :: bs, h2)
  end.

(** The reference for calls whose times come in any order: every call is kept with
    its answer, the newest first, and an admitted attempt of the key counts unless a
    call since, of any key, came a window or more after it. *)
Definition Log : Type := list (string * DateTime * bool).
Fixpoint counted_attempts (window : Duration) (key : string) (cutoff : DateTime) (log : Log) : list DateTime :=
  match log with
  | [] => []
  | (k, t, answer) :: rest =>
      counted_attempts window key (Z.max cutoff (t - window)) rest
      ++ (if answer && String.eqb k key && (cutoff <? t)%Z then [t] else [])
  end%list.
Definition log_check (max : nat) (window : Duration) (key : string) (now : DateTime) (log : Log) : bool :=
  (length (counted_attempts window key (now - window) log) <? max)%nat.
Fixpoint run_log (max : nat) (window : Duration) (calls : list (string * DateTime)) (log : Log) : list bool :=
  match calls with
  | [] => []
  | (key, now) :: rest =>
      let b := log_check max window key now log in b :: run_log max window rest ((key, now, b) :: log)
  end.

(** The clock of the calls does not run backwards. *)
Fixpoint clock_forward (last : DateTime) (calls : list (string * DateTime)) : Prop :=
  match calls with
  | [] => True
  | (_, now) :: rest => (last <= now)%Z /\ clock_forward now rest
  end.

(** It runs backwards by no more than [skew]: no call is older by more than that than
    the latest one before it. *)
Fixpoint nearly_forward (skew : Duration) (latest : DateTime) (calls : list (string * DateTime)) : Prop :=
  match calls with
  | [] => True
  | (_, now) :: rest => (latest <= now + skew)%Z /\ nearly_forward skew (Z.max latest now) rest
  end.

(** ** Lemmas *)
Lemma times_of_app key (h1 h2 : History) : times_of key (h1 ++ h2)%list = (times_of key h1 ++ times_of key h2)%list.
Proof. unfold times_of. by rewrite List.filter_app, map_app. Qed.
Lemma since_app c (a b : list DateTime) : since c (a ++ b)%list = (since c a ++ since c b)%list.
Proof. apply List.filter_app. Qed.
Lemma since_since c c' ts : (c <= c')%Z -> since c' (since c ts) = since c' ts.
Proof.
  intros Hc. induction ts as [|t ts IH]; [done|]. cbn. destruct (Z.ltb_spec c t) as [|]; cbn.
  - unfold since in IH. by rewrite IH.
  - rewrite (proj2 (Z.ltb_ge c' t)) by lia. exact IH.
Qed.
Lemma since_max c c' ts : since c (since c' ts) = since (Z.max c c') ts.
Proof.
  induction ts as [|t ts IH]; [done|]. cbn. unfold since in IH.
  destruct (Z.ltb_spec c' t), (Z.ltb_spec (Z.max c c') t); cbn; try lia; rewrite ?IH; try done;
    destruct (Z.ltb_spec c t); try lia; done.
Qed.
Lemma default_retain c o : default [] (o ≫= retain_recent c) = since c (default [] o).
Proof.
  destruct o as [ts|]; [|done]. cbn. unfold retain_recent, since. by destruct (List.filter _ ts).
Qed.
(** What the map still knows is what the history says of the window. *)
Definition agrees (l : RateLimiter) (h : History) (last : DateTime) : Prop :=
  forall key, default [] (rl_attempts l !! key) = since (last - rl_window l) (times_of key h).
Lemma check_and_record_step key now l h last :
  (0 < rl_window l)%Z -> (last <= now)%Z -> agrees l h last ->
  let b := ref_check (rl_max_attempts l) (rl_window l) key now h in
  (check_and_record key now l).1 = b
  /\ agrees (check_and_record key now l).2 (if b then h ++ [(key, now)] else h)%list now.
Proof.
  intros Hw Hle Ha b.
  assert (forall k, default [] (omap (retain_recent (now - rl_window l)) (rl_attempts l) !! k)
            = since (now - rl_window l) (times_of k h)) as Hm.
  { intros k. rewrite lookup_omap, default_retain, Ha, since_since; [done|lia]. }
  unfold check_and_record, b, ref_check. rewrite Hm.
  set (ts := since (now - rl_window l) (times_of key h)).
  destruct (Nat.leb_spec (rl_max_attempts l) (length ts)) as [Hfull|Hroom].
  - rewrite (proj2 (Nat.ltb_ge _ _)) by done. split; [done|]. intros k. cbn.
    destruct (decide (key = k)) as [<-|Hne].
    + by rewrite lookup_insert_eq.
    + rewrite lookup_insert_ne by done. apply Hm.
  - rewrite (proj2 (Nat.ltb_lt _ _)) by done. split; [done|]. intros k. cbn.
    rewrite times_of_app, since_app. unfold times_of at 2. cbn.
    destruct (decide (key = k)) as [<-|Hne].
    + rewrite lookup_insert_eq, String.eqb_refl. cbn.
      by rewrite (proj2 (Z.ltb_lt _ _)) by lia.
    + rewrite lookup_insert_ne by done. destruct (String.eqb_spec key k); [done|]. cbn.
      by rewrite app_nil_r.
Qed.
Lemma check_and_record_config key now l :
  rl_max_attempts (check_and_record key now l).2 = rl_max_attempts l
  /\ rl_window (check_and_record key now l).2 = rl_window l.
Proof. unfold check_and_record. by case_match. Qed.
Lemma run_limiter_agrees calls l h last :
  (0 < rl_window l)%Z -> clock_forward last calls -> agrees l h last ->
  (run_limiter calls l).1 = (run_ref (rl_max_attempts l) (rl_window l) calls h).1.
Proof.
  revert l h last. induction calls as [|[key now] calls IH]; [done|]. intros l h last Hw [Hle Hf] Ha.
  destruct (check_and_record_step key now l h last Hw Hle Ha) as [Hb Ha'].
  pose proof (check_and_record_config key now l) as [Em Ew]. cbn.
  destruct (check_and_record key now l) as [b l1]. cbn in *. subst b.
  specialize (IH l1 _ now ltac:(lia) Hf Ha'). rewrite Em, Ew in IH.
  destruct (run_limiter calls l1) as [bs l2]. cbn in *.
  destruct (run_ref _ _ calls _) as [bs' h2]. cbn in *. by subst.
Qed.

(** The same for the log: the map answers for every cutoff the log's calls allow. *)
Definition agrees_with_log (l : RateLimiter) (log : Log) : Prop :=
  forall key cutoff, since cutoff (default [] (rl_attempts l !! key)) = counted_attempts (rl_window l) key cutoff log.
Lemma check_and_record_log key now l log :
  agrees_with_log l log ->
  let b := log_check (rl_max_attempts l) (rl_window l) key now log in
  (check_and_record key now l).1 = b /\ agrees_with_log (check_and_record key now l).2 ((key, now, b) :: log).
Proof.
  intros Ha b.
  assert (forall k, default [] (omap (retain_recent (now - rl_window l)) (rl_attempts l) !! k)
            = counted_attempts (rl_window l) k (now - rl_window l) log) as Hm.
  { intros k. by rewrite lookup_omap, default_retain, Ha. }
  assert (forall k c, since c (counted_attempts (rl_window l) k (now - rl_window l) log)
            = counted_attempts (rl_window l) k (Z.max c (now - rl_window l)) log) as Hs.
  { intros k c. by rewrite <- !Ha, since_max. }
  unfold check_and_record, b, log_check. rewrite Hm.
  set (ts := counted_attempts (rl_window l) key (now - rl_window l) log).
  destruct (Nat.leb_spec (rl_max_attempts l) (length ts)) as [Hfull|Hroom].
  - rewrite (proj2 (Nat.ltb_ge _ _)) by done. split; [done|]. intros k c. cbn. rewrite app_nil_r.
    destruct (decide (key = k)) as [<-|Hne].
    + rewrite lookup_insert_eq. apply Hs.
    + rewrite lookup_insert_ne, Hm by done. apply Hs.
  - rewrite (proj2 (Nat.ltb_lt _ _)) by done. split; [done|]. intros k c. cbn.
    destruct (decide (key = k)) as [<-|Hne].
    + rewrite lookup_insert_eq, String.eqb_refl. cbn [default andb from_option id]. unfold ts. by rewrite since_app, Hs.
    + rewrite lookup_insert_ne, Hm by done. destruct (String.eqb_spec key k); [done|]. cbn.
      rewrite app_nil_r. apply Hs.
Qed.
Lemma run_limiter_log calls l log :
  agrees_with_log l log -> (run_limiter calls l).1 = run_log (rl_max_attempts l) (rl_window l) calls log.
Proof.
  revert l log. induction calls as [|[key now] calls IH]; [done|]. intros l log Ha.
  destruct (check_and_record_log key now l log Ha) as [Hb Ha'].
  pose proof (check_and_record_config key now l) as [Em Ew]. cbn.
  destruct (check_and_record key now l) as [b l1]. cbn in *. subst b.
  specialize (IH l1 _ Ha'). rewrite Em, Ew in IH. destruct (run_limiter calls l1) as [bs l2]. cbn in *. by rewrite IH.
Qed.

(** C28: What forgetting loses.  The limiter, which drops what has left the window at
    every call, answers any sequence of calls as one that keeps every call for ever and
    counts the key's admitted attempts that no call since, this one included, came a
    window or more after.  When the times of the calls never decrease, those are the
    key's admitted attempts of the last window, and nothing is lost: the answers are
    those of the full history. *)
Theorem limiter_refines_history l calls :
  rl_attempts l = ∅ ->
  (run_limiter calls l).1 = run_log (rl_max_attempts l) (rl_window l) calls []
  /\ forall last, (0 < rl_window l)%Z -> clock_forward last calls ->
     (run_limiter calls l).1 = (run_ref (rl_max_attempts l) (rl_window l) calls []).1.
Proof.
  intros He. split.
  - apply run_limiter_log. intros key c. by rewrite He, lookup_empty.
  - intros last Hw Hf. apply (run_limiter_agrees calls l [] last Hw Hf). intros key. by rewrite He, lookup_empty.
Qed.

(** ** The bound *)
(** The attempts of [key] that were admitted, by the answers given. *)
Fixpoint admitted (calls : list (string * DateTime)) (answers : list bool) : History :=
  match calls, answers with
  | c :: calls, b :: answers => if b then c :: admitted calls answers else admitted calls answers
  | _, _ => []
  end.
Definition within (lo hi : DateTime) (ts : list DateTime) : nat :=
  length (List.filter (fun t => (lo <? t)%Z && (t <=? hi)%Z) ts).
Lemma within_app lo hi (a b : list DateTime) : within lo hi (a ++ b)%list = (within lo hi a + within lo hi b)%nat.
Proof. unfold within. by rewrite List.filter_app, length_app. Qed.
Definition admitted_of (log : Log) : History :=
  omap (fun e => if (e.2 : bool) then Some e.1 else None) log.
Lemma admitted_of_cons k t (b : bool) log :
  admitted_of ((k, t, b) :: log) = if b then (k, t) :: admitted_of log else admitted_of log.
Proof. by destruct b. Qed.
Lemma times_of_cons key k t h :
  times_of key ((k, t) :: h) = if String.eqb k key then t :: times_of key h else times_of key h.
Proof. unfold times_of. cbn. by destruct (String.eqb k key). Qed.
Lemma within_cons lo hi t ts :
  within lo hi (t :: ts) = ((if (lo <? t)%Z && (t <=? hi)%Z then 1 else 0) + within lo hi ts)%nat.
Proof. unfold within. cbn. by destruct (_ && _). Qed.
(** What a window holds is still counted, as long as no call came a window after its
    beginning. *)
Lemma within_counted window key lo hi cutoff log :
  (cutoff <= lo)%Z -> (forall e, e ∈ log -> (e.1.2 <= lo + window)%Z) ->
  (within lo hi (times_of key (admitted_of log)) <= length (counted_attempts window key cutoff log))%nat.
Proof.
  revert cutoff. induction log as [|[[k t] b] log IH]; intros cutoff Hc Hl; [done|].
  rewrite admitted_of_cons. cbn [counted_attempts]. rewrite length_app.
  pose proof (Hl (k, t, b) ltac:(left)) as Ht. cbn in Ht.
  specialize (IH (Z.max cutoff (t - window)) ltac:(lia) ltac:(intros; apply Hl; by right)).
  destruct b; cbn [andb]; [|lia]. rewrite times_of_cons. destruct (String.eqb k key); cbn [andb]; [|lia].
  rewrite within_cons. destruct (Z.ltb_spec lo t); cbn [andb]; [|lia].
  rewrite (proj2 (Z.ltb_lt cutoff t)) by lia. cbn. destruct (t <=? hi)%Z; lia.
Qed.
(** No window, shortened by the skew, holds more than the maximum. *)
Definition bounded (max : nat) (window : Duration) (h : History) : Prop :=
  forall key lo, (within lo (lo + window) (times_of key h) <= max)%nat.
Lemma log_step_bounded max window skew key now log :
  (0 <= skew)%Z -> (forall e, e ∈ log -> (e.1.2 <= now + skew)%Z) ->
  bounded max (window - skew) (admitted_of log) ->
  bounded max (window - skew) (admitted_of ((key, now, log_check max window key now log) :: log)).
Proof.
  intros Hs Hl Hb k lo. rewrite admitted_of_cons.
  destruct (log_check max window key now log) eqn:Hc; [|apply Hb].
  rewrite times_of_cons. destruct (String.eqb_spec key k) as [<-|]; [|apply Hb].
  rewrite within_cons. unfold log_check in Hc. apply Nat.ltb_lt in Hc. specialize (Hb key lo).
  destruct (Z.ltb_spec lo now); cbn; [|lia].
  destruct (Z.leb_spec now (lo + (window - skew))); cbn; [|lia].
  assert (forall e, e ∈ log -> (e.1.2 <= lo + window)%Z) as Hw by (intros e He; specialize (Hl e He); lia).
  pose proof (within_counted window key lo (lo + (window - skew)) (now - window) log ltac:(lia) Hw). lia.
Qed.
Lemma run_log_bounded max window skew calls latest log :
  (0 <= skew)%Z -> nearly_forward skew latest calls -> (forall e, e ∈ log -> (e.1.2 <= latest)%Z) ->
  bounded max (window - skew) (admitted_of log) ->
  forall key lo, (within lo (lo + (window - skew)) (times_of key (admitted calls (run_log max window calls log)))
                  + within lo (lo + (window - skew)) (times_of key (admitted_of log)) <= max)%nat.
Proof.
  intros Hs. revert latest log. induction calls as [|[k now] calls IH]; intros latest log Hf Hl Hb key lo;
    [apply Hb|]. destruct Hf as [Hle Hf]. cbn [run_log admitted].
  assert (forall e, e ∈ log -> (e.1.2 <= now + skew)%Z) as Hl' by (intros e He; specialize (Hl e He); lia).
  pose proof (log_step_bounded max window skew k now log Hs Hl' Hb) as Hb'.
  set (b := log_check max window k now log) in *.
  assert (forall e, e ∈ (k, now, b) :: log -> (e.1.2 <= Z.max latest now)%Z) as Hl2.
  { intros e He. apply elem_of_cons in He. destruct He as [->|He]; cbn; [lia|]. specialize (Hl e He). lia. }
  specialize (IH (Z.max latest now) ((k, now, b) :: log) Hf Hl2 Hb' key lo).
  rewrite admitted_of_cons in IH. destruct b; [|exact IH]. rewrite !times_of_cons in *.
  destruct (String.eqb k key); [|exact IH]. rewrite !within_cons in *. lia.
Qed.

(** C29: No more than the maximum in any window.  Over any sequence of calls of any keys
    whose times run backwards by at most [skew], the attempts of one key that the
    limiter admitted within any span of time, open at its beginning, of the window's
    length less [skew] are at most [max_attempts]; when the times never decrease, that
    is the whole window. *)
Theorem limiter_bounds_every_window l calls skew latest key lo :
  rl_attempts l = ∅ -> (0 <= skew)%Z -> nearly_forward skew latest calls ->
  (within lo (lo + (rl_window l - skew)) (times_of key (admitted calls (run_limiter calls l).1))
   <= rl_max_attempts l)%nat.
Proof.
  intros He Hs Hf. rewrite (run_limiter_log calls l []) by (intros k c; by rewrite He, lookup_empty).
  pose proof (run_log_bounded (rl_max_attempts l) (rl_window l) skew calls latest [] Hs Hf
    ltac:(by intros e ?%not_elem_of_nil) ltac:(intros k lo'; cbn; lia) key lo). lia.
Qed.
Lemma clock_forward_nearly calls last : clock_forward last calls -> nearly_forward 0 last calls.
Proof.
  revert last. induction calls as [|[k now] calls IH]; [done|]. intros last [H1 H2]. split; [lia|].
  rewrite Z.max_r by lia. by apply IH.
Qed.

(** ** Calls out of order *)
(** The whole window does not hold when the times run backwards, and such calls occur:
    a request reads the clock, looks its session up in the database, and only then
    asks the limiter.  With one attempt per ten seconds, an attempt at second 100 is
    dropped by another address at 110.001, and a request of the first address whose
    clock said 109.999 is let through: two attempts within ten seconds. *)
Definition ten_second_limiter : RateLimiter := {|
  rl_max_attempts := 1; rl_window := seconds 10; rl_attempts := ∅ |}.
Definition reordered_calls : list (string * DateTime) :=
  [("a", seconds 100); ("b", 110001000000%Z); ("a", 109999000000%Z)].
Theorem limiter_forgets_too_early :
  let answers := (run_limiter reordered_calls ten_second_limiter).1 in
  answers = [true; true; true]
  /\ (run_ref 1 (seconds 10) reordered_calls []).1 = [true; true; false]
  /\ within 99999500000 (99999500000 + seconds 10) (times_of "a" (admitted reordered_calls answers)) = 2.
Proof. split_and!; by vm_compute. Qed.

(** ** Witnesses *)
Definition toy_limiter : RateLimiter := {|
  rl_max_attempts := 2; rl_window := seconds 300; rl_attempts := ∅ |}.
Definition toy_calls : list (string * DateTime) :=
  [("a", seconds 10); ("a", seconds 20); ("b", seconds 30); ("a", seconds 40); ("a", seconds 310);
   ("a", seconds 311)].
Lemma toy_calls_forward : clock_forward 0 toy_calls.
Proof. cbn. unfold seconds, NANOS. lia. Qed.
Lemma limiter_refines_history_witness :
  (run_limiter toy_calls toy_limiter).1 = [true; true; true; false; true; false]
  /\ (run_limiter toy_calls toy_limiter).1 = (run_ref 2 (seconds 300) toy_calls []).1
  /\ (run_limiter reordered_calls ten_second_limiter).1 = run_log 1 (seconds 10) reordered_calls [].
Proof.
  split; [by vm_compute|]. split.
  - apply (proj2 (limiter_refines_history toy_limiter toy_calls eq_refl) 0%Z); [done|apply toy_calls_forward].
  - exact (proj1 (limiter_refines_history ten_second_limiter reordered_calls eq_refl)).
Defined.
Lemma limiter_bounds_every_window_witness :
  (run_limiter toy_calls toy_limiter).1 = [true; true; true; false; true; false]
  /\ (within (seconds 10) (seconds 10 + (seconds 300 - 0))
        (times_of "a" (admitted toy_calls (run_limiter toy_calls toy_limiter).1)) <= 2)%nat
  /\ (within (seconds 100 - 1) (seconds 100 - 1 + (seconds 10 - 2000000))
        (times_of "a" (admitted reordered_calls (run_limiter reordered_calls ten_second_limiter).1)) <= 1)%nat.
Proof.
  split; [by vm_compute|]. split.
  - apply (limiter_bounds_every_window toy_limiter toy_calls 0 0 "a" (seconds 10));
      [done|done|apply clock_forward_nearly, toy_calls_forward].
  - apply (limiter_bounds_every_window ten_second_limiter reordered_calls 2000000 0 "a" (seconds 100 - 1)%Z);
      [done|done|cbn; unfold seconds, NANOS; lia].
Defined.
