(* ===== verification/Csrf.v ===== *)
(** * CSRF tokens ([crates/contracts/src/csrf.rs])

    The token in a login or consent form is a MAC of the session's identifier; the
    comparison takes the same time wherever the first difference is. *)

From S2P Require Import Prelude External.

(** [fold(0u8, |acc, (a, b)| acc | (a ^ b))] over the zipped bytes. *)
Fixpoint difference (acc : N) (a b : string) : N :=
  match a, b with
  | String x a', String y b' => difference (N.lor acc (N.lxor (byte x) (byte y))) a' b'
  | _, _ => acc
  end.
(** [verify]. *)
Definition csrf_verify (expected provided : string) : bool :=
  if negb (Nat.eqb (String.length expected) (String.length provided)) then false
  else N.eqb (difference 0 expected provided) 0.

Section tokens.
Context {TC : TicketCrypto}.
Definition hmac_sha256_hex (key message : string) : string := hex_encode (hmac_sha256 key message).
Definition login_csrf_token (auth_session_id key : string) : string :=
  hmac_sha256_hex key ("csrf:" ++ auth_session_id).
Definition consent_csrf_token (auth_session_id key : string) : string :=
  hmac_sha256_hex key ("consent-csrf:" ++ auth_session_id).
End tokens.

Lemma byte_inj a b : byte a = byte b -> a = b.
Proof. unfold byte. intros H. by rewrite <- (ascii_N_embedding a), H, ascii_N_embedding. Qed.
Lemma difference_zero a : forall b acc, String.length a = String.length b ->
  difference acc a b = 0%N <-> acc = 0%N /\ a = b.
Proof.
  induction a as [|x a IH]; intros [|y b] acc; cbn; try done.
  - intros _. naive_solver.
  - intros [= Hl]. rewrite (IH b _ Hl), N.lor_eq_0_iff, N.lxor_eq_0_iff. split.
    + intros ([-> E%byte_inj] & ->). by subst.
    + by intros (-> & [= -> ->]).
Qed.
Lemma csrf_verify_eq expected provided : csrf_verify expected provided = true <-> provided = expected.
Proof.
  unfold csrf_verify. destruct (Nat.eqb_spec (String.length expected) (String.length provided)) as [El|El]; cbn.
  - rewrite N.eqb_eq, difference_zero by done. naive_solver.
  - split; [done|]. by intros ->.
Qed.
(** The constant-time comparison is equality.  [verify] accepts exactly the
    expected token: no prefix, extension or other text. *)
Theorem csrf_verify_is_equality expected provided :
  csrf_verify expected provided = bool_decide (provided = expected).
Proof.
  destruct (csrf_verify expected provided) eqn:E.
  - apply csrf_verify_eq in E. by rewrite bool_decide_eq_true_2.
  - symmetry. apply bool_decide_eq_false_2. intros H%csrf_verify_eq. congruence.
Qed.
(** A login token never serves as a consent token, unless the MAC collides. *)
Lemma csrf_purposes_apart `{TicketCrypto} s s' key :
  (forall k m m', hmac_sha256_hex k m = hmac_sha256_hex k m' -> m = m') ->
  csrf_verify (consent_csrf_token s key) (login_csrf_token s' key) = false.
Proof.
  intros Hinj. apply not_true_iff_false. rewrite csrf_verify_eq. intros E. by apply Hinj in E.
Qed.
