(* ===== verification/Lockout.v ===== *)
(** * Account lockout ([LockoutPolicy] of [domain/authentication_policy.rs],
      [record_login_failure] of [infrastructure/repositories/user.rs])

    How long a failed login locks an account, and the one UPDATE that counts the
    failure and sets the lock.  The domain computes the duration from the count;
    the statement, which alone knows the count, picks it from a ladder the domain
    hands over. *)

From S2P Require Import Prelude Values Directory AuthSessionStore.

Definition i32_max : Z := 2147483647.
Definition i32_min : Z := -2147483648.
Definition u32_max : Z := 4294967295.
(** [i32::saturating_add] and [saturating_sub]; [u64::saturating_mul]. *)
Definition saturate_i32 (z : Z) : Z := Z.max i32_min (Z.min i32_max z).
Definition saturate_u64 (z : Z) : Z := Z.min u64_max z.

Record LockoutPolicy : Type := {
  lk_max_failed_attempts : Z;
  lk_lock_duration_secs : Z;
  lk_max_lock_duration_secs : Z
}.
Definition ESCALATION_STEPS : Z := 16.
(** [1u64.checked_shl(step).unwrap_or(u64::MAX)]. *)
Definition shl_or_max (step : Z) : Z := if (step <? 64)%Z then Z.shiftl 1 step else u64_max.
Definition lock_duration_secs_for (p : LockoutPolicy) (failed_count : Z) : Z :=
  let over := Z.max (saturate_i32 (failed_count - lk_max_failed_attempts p)) 0 in
  let step := Z.min over ESCALATION_STEPS in
  let scaled := saturate_u64 (lk_lock_duration_secs p * shl_or_max step) in
  Z.max (Z.min scaled (lk_max_lock_duration_secs p)) (lk_lock_duration_secs p).

(** [now + chrono::Duration::seconds(secs as i64)]; [None] where either panics. *)
Definition add_seconds_u64 (now : DateTime) (secs : Z) : option DateTime :=
  let s := u64_as_i64 secs in
  if (Z.abs s <=? 9223372036854775)%Z
     && (seconds CHRONO_MIN_SECS <=? now + seconds s)%Z
     && (now + seconds s <? seconds (CHRONO_MAX_SECS + 1))%Z
  then Some (now + seconds s)%Z else None.
(** [locked_until_after_failure]; [None] is a panic. *)
Definition locked_until_after_failure (p : LockoutPolicy) (failed_count : Z) (now : DateTime)
  : option (option DateTime) :=
  if (lk_max_failed_attempts p <=? failed_count)%Z
  then until ← add_seconds_u64 now (lock_duration_secs_for p failed_count); Some (Some until)
  else Some None.

(** [escalation_ladder]: the loop over the steps that [left] counts, [step] next. *)
Fixpoint ladder_from (p : LockoutPolicy) (step : Z) (left : nat) : list (Z * Z) :=
  match left with
  | O => []
  | S left' =>
      let threshold := saturate_i32 (lk_max_failed_attempts p + step) in
      let duration := lock_duration_secs_for p threshold in
      let capped := (lk_max_lock_duration_secs p <=? duration)%Z in
      (threshold, duration) :: (if capped then [] else ladder_from p (step + 1) left')
  end.
Definition escalation_ladder (p : LockoutPolicy) : list (Z * Z) :=
  rev (ladder_from p 0 (Z.to_nat (ESCALATION_STEPS + 1))).

(** ** The statements of [record_login_failure] *)
(** CASE WHEN count + 1 >= threshold THEN until .. ELSE otherwise END. *)
Fixpoint case_when (count : Z) (arms : list (Z * DateTime)) (otherwise : option DateTime)
  : option DateTime :=
  match arms with
  | [] => otherwise
  | (threshold, until) :: arms' =>
      if (threshold <=? count + 1)%Z then Some until else case_when count arms' otherwise
  end.
Fixpoint bind_arms (now : DateTime) (ladder : list (Z * Z)) : option (list (Z * DateTime)) :=
  match ladder with
  | [] => Some []
  | (threshold, secs) :: ladder' =>
      until ← add_seconds_u64 now secs;
      arms ← bind_arms now ladder';
      Some ((threshold, to_micros until) :: arms)
  end.
Definition with_failure (db_now : DateTime) (arms : list (Z * DateTime)) (u : User) : User := {|
  u_id := u_id u; u_tenant_id := u_tenant_id u; u_sub := u_sub u; u_email := u_email u;
  u_email_verified := u_email_verified u; u_preferred_username := u_preferred_username u;
  u_name := u_name u; u_language := u_language u; u_theme := u_theme u;
  u_password_hash := u_password_hash u; u_must_change_password := u_must_change_password u;
  u_password_changed_at := u_password_changed_at u; u_status := u_status u;
  u_pending_setup := u_pending_setup u; u_failed_login_count := u_failed_login_count u + 1;
  u_locked_until := case_when (u_failed_login_count u) arms (u_locked_until u);
  u_created_at := u_created_at u; u_updated_at := to_micros db_now |}.
Definition out_of_range : DomainError := Repository "Out of range value for column 'failed_login_count'".
(** The UPDATE; [None] where building it panics.  The column is an INT. *)
Definition users_count_failure (rows : list User) (id : Uuid) (arms : list (Z * DateTime))
  (db_now : DateTime) : Result DomainError (list User) :=
  if existsb (fun u => N.eqb (u_id u) id && (i32_max <? u_failed_login_count u + 1)%Z) rows
  then Err out_of_range
  else Ok (map (fun u => if N.eqb (u_id u) id then with_failure db_now arms u else u) rows).
Definition users_record_failure (rows : list User) (id : Uuid) (p : LockoutPolicy)
  (now db_now : DateTime) : option (Result DomainError (list User)) :=
  arms ← bind_arms now (escalation_ladder p);
  Some (users_count_failure rows id arms db_now).
(** The SELECT after it, and what the caller is told. *)
Definition users_login_state (rows : list User) (id : Uuid) : option (Z * option DateTime) :=
  (fun u => (u_failed_login_count u, u_locked_until u)) <$> find (fun u => N.eqb (u_id u) id) rows.
Definition failure_record_of (row : option (Z * option DateTime)) (now : DateTime)
  : LoginFailureRecord :=
  match row with
  | None => {| lf_failed_login_count := 0; lf_locked_until := None |}
  | Some (count, locked_until) => {|
      lf_failed_login_count := count;
      lf_locked_until := opt_filter (fun until => (now <? until)%Z) locked_until |}
  end.
Definition users_failure_record (rows : list User) (id : Uuid) (now : DateTime) : LoginFailureRecord :=
  failure_record_of (users_login_state rows id) now.
(** [update_login_state]: the reset on success, the unlock by an administrator.  A
    row that already holds the values keeps its [updated_at]. *)
Definition users_update_login_state (rows : list User) (id : Uuid) (count : Z)
  (locked_until : option DateTime) (db_now : DateTime) : list User :=
  map (fun u => if N.eqb (u_id u) id
                   && negb (bool_decide (u_failed_login_count u = count
                                         /\ u_locked_until u = to_micros <$> locked_until)) then {|
    u_id := u_id u; u_tenant_id := u_tenant_id u; u_sub := u_sub u; u_email := u_email u;
    u_email_verified := u_email_verified u; u_preferred_username := u_preferred_username u;
    u_name := u_name u; u_language := u_language u; u_theme := u_theme u;
    u_password_hash := u_password_hash u; u_must_change_password := u_must_change_password u;
    u_password_changed_at := u_password_changed_at u; u_status := u_status u;
    u_pending_setup := u_pending_setup u; u_failed_login_count := count;
    u_locked_until := to_micros <$> locked_until;
    u_created_at := u_created_at u; u_updated_at := to_micros db_now |} else u) rows.

(** ** How long a lock lasts *)
(** The settings a policy is read from are validated as [u32]; the threshold
    saturates at [i32::MAX]. *)
Record policy_wf (p : LockoutPolicy) : Prop := {
  wf_attempts : (0 <= lk_max_failed_attempts p <= i32_max)%Z;
  wf_lock : (0 <= lk_lock_duration_secs p <= u32_max)%Z;
  wf_max_lock : (0 <= lk_max_lock_duration_secs p <= u32_max)%Z
}.

Section duration.
Context (p : LockoutPolicy) (Hp : policy_wf p).
Let m := lk_max_failed_attempts p.
Let base := lk_lock_duration_secs p.
Let cap := lk_max_lock_duration_secs p.
Let step (c : Z) : Z := Z.min (Z.max (c - m) 0) ESCALATION_STEPS.

Lemma lock_duration_eq c :
  (i32_min <= c <= i32_max)%Z ->
  lock_duration_secs_for p c = Z.max (Z.min (base * 2 ^ step c) cap) base.
Proof.
  intros Hc. destruct Hp as [Ha Hb Hm]. subst m base cap step. cbn beta.
  unfold lock_duration_secs_for. set (s := Z.min (Z.max (saturate_i32 _) 0) _).
  assert (s = Z.min (Z.max (c - lk_max_failed_attempts p) 0) ESCALATION_STEPS)%Z as <-.
  { subst s. unfold saturate_i32, i32_min, i32_max, ESCALATION_STEPS in *. lia. }
  assert (0 <= s <= 16)%Z as Hs by (subst s; unfold ESCALATION_STEPS; lia).
  unfold shl_or_max. destruct (Z.ltb_spec s 64); [|lia]. rewrite Z.shiftl_mul_pow2, Z.mul_1_l by lia.
  unfold saturate_u64. rewrite (Z.min_r u64_max); [done|].
  assert (2 ^ s <= 2 ^ 16)%Z by (apply Z.pow_le_mono_r; lia).
  assert (0 < 2 ^ s)%Z by (apply Z.pow_pos_nonneg; lia).
  unfold u64_max, u32_max in *. nia.
Qed.
Lemma step_bounds c : (0 <= step c <= 16)%Z.
Proof. subst step. cbn beta. unfold ESCALATION_STEPS. lia. Qed.
Lemma lock_duration_bounds c :
  (i32_min <= c <= i32_max)%Z -> (base <= lock_duration_secs_for p c <= Z.max base cap)%Z.
Proof. intros Hc. rewrite lock_duration_eq by done. lia. Qed.
Lemma lock_duration_mono c c' :
  (i32_min <= c)%Z -> (c <= c')%Z -> (c' <= i32_max)%Z ->
  (lock_duration_secs_for p c <= lock_duration_secs_for p c')%Z.
Proof.
  intros H1 H2 H3. rewrite !lock_duration_eq by lia. destruct Hp as [_ Hb _]. fold base in Hb.
  assert (2 ^ step c <= 2 ^ step c')%Z.
  { apply Z.pow_le_mono_r; [lia|]. subst step. cbn beta. lia. }
  assert (base * 2 ^ step c <= base * 2 ^ step c')%Z by nia. lia.
Qed.
Lemma lock_duration_double c :
  (m <= c < m + ESCALATION_STEPS)%Z -> (c < i32_max)%Z -> (base <= cap)%Z ->
  lock_duration_secs_for p (c + 1) = Z.min cap (2 * lock_duration_secs_for p c).
Proof.
  intros H1 H2 H3. destruct Hp as [Ha Hb _]. fold m in Ha. fold base in Hb.
  rewrite !lock_duration_eq by (unfold i32_min; lia).
  assert (step (c + 1) = step c + 1)%Z as -> by (subst step; cbn beta; unfold ESCALATION_STEPS in *; lia).
  rewrite Z.pow_add_r by (pose proof (step_bounds c); lia). change (2 ^ 1)%Z with 2%Z.
  assert (1 <= 2 ^ step c)%Z.
  { pose proof (Z.pow_pos_nonneg 2 (step c) ltac:(lia)). pose proof (step_bounds c). lia. }
  assert (base <= base * 2 ^ step c)%Z by nia. lia.
Qed.

(** The first rung, from the top, that a count reaches. *)
Fixpoint pick (c : Z) (ladder : list (Z * Z)) : option Z :=
  match ladder with
  | [] => None
  | (t, d) :: l => if (t <=? c)%Z then Some d else pick c l
  end.
Lemma pick_app c l l' : pick c (l ++ l')%list = match pick c l with Some d => Some d | None => pick c l' end.
Proof. induction l as [|[t d] l IH]; cbn; [done|]. by destruct (t <=? c)%Z. Qed.
Lemma lock_duration_top c c' :
  (i32_min <= c <= c')%Z -> (c' <= i32_max)%Z ->
  (cap <= lock_duration_secs_for p c)%Z -> lock_duration_secs_for p c' = lock_duration_secs_for p c.
Proof.
  intros H1 H2 Hcap. pose proof (lock_duration_mono c c' ltac:(lia) ltac:(lia) H2).
  pose proof (lock_duration_bounds c ltac:(lia)). pose proof (lock_duration_bounds c' ltac:(lia)). lia.
Qed.
Lemma pick_ladder_from c left s :
  (i32_min <= c <= i32_max)%Z -> (0 <= s)%Z -> (s + Z.of_nat left = ESCALATION_STEPS + 1)%Z ->
  pick c (rev (ladder_from p s left))
  = if (0 <? left)%nat && (saturate_i32 (m + s) <=? c)%Z then Some (lock_duration_secs_for p c) else None.
Proof.
  intros Hc. revert s. induction left as [|left IH]; intros s Hs Hl; cbn [ladder_from rev]; [done|].
  destruct Hp as [Ha _ _]. fold m in Ha. fold m cap.
  assert (saturate_i32 (m + s) = Z.min i32_max (m + s))%Z as Et
    by (unfold saturate_i32, i32_min, i32_max, ESCALATION_STEPS in *; lia).
  rewrite pick_app. cbn [pick].
  destruct (Z.leb_spec cap (lock_duration_secs_for p (saturate_i32 (m + s)))) as [Hcap|Hcap].
  - cbn. destruct (Z.leb_spec (saturate_i32 (m + s)) c) as [Hle|]; [|done].
    f_equal. symmetry. apply lock_duration_top; [|lia|done].
    rewrite Et in *. unfold i32_min, i32_max in *. lia.
  - rewrite IH by lia. change (0 <? S left)%nat with true. rewrite andb_true_l.
    assert (saturate_i32 (m + (s + 1)) = Z.min i32_max (m + s + 1))%Z as Et'
      by (unfold saturate_i32, i32_min, i32_max, ESCALATION_STEPS in *; lia).
    destruct left as [|left].
    2: change (0 <? S left)%nat with true; rewrite andb_true_l.
    2: { destruct (Z.leb_spec (saturate_i32 (m + (s + 1))) c) as [Hle|Hgt].
      * destruct (Z.leb_spec (saturate_i32 (m + s)) c); [done|]. rewrite Et, Et' in *. lia.
      * destruct (Z.leb_spec (saturate_i32 (m + s)) c) as [Hle|]; [|done].
        f_equal. f_equal. rewrite Et, Et' in *. lia. }
    + change (0 <? 0)%nat with false. rewrite andb_false_l.
      destruct (Z.leb_spec (saturate_i32 (m + s)) c) as [Hle|]; [|done]. f_equal.
      rewrite !lock_duration_eq by (rewrite ?Et in *; unfold i32_min, i32_max in *; lia).
      do 4 f_equal. rewrite Et in *. subst step. cbn beta.
      unfold i32_min, i32_max, ESCALATION_STEPS in *. lia.
Qed.
Lemma pick_ladder c :
  (i32_min <= c <= i32_max)%Z ->
  pick c (escalation_ladder p) = if (m <=? c)%Z then Some (lock_duration_secs_for p c) else None.
Proof.
  intros Hc. unfold escalation_ladder. rewrite pick_ladder_from by (done || lia || (cbn; lia)).
  destruct Hp as [Ha _ _]. fold m in Ha.
  replace (saturate_i32 (m + 0)) with m by (unfold saturate_i32, i32_min in *; lia). done.
Qed.
End duration.

(** ** One failed login *)
Definition clock_ok (now : DateTime) : Prop :=
  (seconds CHRONO_MIN_SECS <= now /\ now + seconds u32_max < seconds (CHRONO_MAX_SECS + 1))%Z.
Definition same_user (u u' : User) : Prop :=
  u_id u' = u_id u /\ u_tenant_id u' = u_tenant_id u /\ u_sub u' = u_sub u
  /\ u_password_hash u' = u_password_hash u /\ u_status u' = u_status u
  /\ u_pending_setup u' = u_pending_setup u.

Lemma add_seconds_ok now d :
  clock_ok now -> (0 <= d <= u32_max)%Z -> add_seconds_u64 now d = Some (now + seconds d)%Z.
Proof.
  intros [H1 H2] Hd. unfold add_seconds_u64, u64_as_i64, i64_max, seconds, NANOS, u32_max in *.
  destruct (Z.leb_spec d 9223372036854775807); [|lia]. cbn zeta.
  destruct (Z.leb_spec (Z.abs d) 9223372036854775); [|lia].
  destruct (Z.leb_spec (CHRONO_MIN_SECS * 1000000000) (now + d * 1000000000)); [|lia].
  destruct (Z.ltb_spec (now + d * 1000000000) ((CHRONO_MAX_SECS + 1) * 1000000000)); [done|lia].
Qed.
Lemma ladder_from_bounds p s left :
  policy_wf p -> Forall (fun r => 0 <= r.2 <= u32_max)%Z (ladder_from p s left).
Proof.
  intros Hp. revert s. induction left as [|left IH]; intros s; cbn; [done|]. constructor.
  - cbn. pose proof (lock_duration_bounds p Hp (saturate_i32 (lk_max_failed_attempts p + s))) as H.
    specialize (H ltac:(unfold saturate_i32, i32_min, i32_max; lia)). destruct Hp. lia.
  - by destruct (_ <=? _)%Z.
Qed.
Lemma ladder_bounds p : policy_wf p -> Forall (fun r => 0 <= r.2 <= u32_max)%Z (escalation_ladder p).
Proof.
  intros Hp. unfold escalation_ladder. rewrite !Forall_forall. intros r Hr%list_elem_of_In%in_rev.
  pose proof (ladder_from_bounds p 0 (Z.to_nat (ESCALATION_STEPS + 1)) Hp) as H.
  rewrite Forall_forall in H. by apply H, list_elem_of_In.
Qed.
Lemma bind_arms_pick now ladder :
  clock_ok now -> Forall (fun r => 0 <= r.2 <= u32_max)%Z ladder ->
  exists arms, bind_arms now ladder = Some arms
    /\ forall count otherwise, case_when count arms otherwise
         = match pick (count + 1) ladder with
           | Some d => Some (to_micros (now + seconds d))
           | None => otherwise
           end.
Proof.
  intros Hc. induction 1 as [|[t d] l Hd Hl IH]; cbn; [by eexists|].
  destruct IH as (arms & -> & Harms). rewrite add_seconds_ok by done. cbn.
  eexists. split; [done|]. intros count o. cbn. destruct (t <=? count + 1)%Z; [done|]. apply Harms.
Qed.
(** The lock a count earns. *)
Lemma locked_until_eq p c now :
  policy_wf p -> clock_ok now -> (0 <= c <= i32_max)%Z ->
  locked_until_after_failure p c now
  = Some (if (lk_max_failed_attempts p <=? c)%Z
          then Some (now + seconds (lock_duration_secs_for p c))%Z else None).
Proof.
  intros Hp Hc Hr. unfold locked_until_after_failure.
  destruct (lk_max_failed_attempts p <=? c)%Z; [|done].
  pose proof (lock_duration_bounds p Hp c ltac:(unfold i32_min; lia)). destruct Hp.
  by rewrite add_seconds_ok by (done || lia).
Qed.

Lemma find_map_user (f : User -> User) id rows :
  (forall u, u_id (f u) = u_id u) ->
  find (fun u => N.eqb (u_id u) id) (map f rows) = f <$> find (fun u => N.eqb (u_id u) id) rows.
Proof.
  intros Hf. induction rows as [|u rows IH]; cbn; [done|]. rewrite Hf. by destruct (N.eqb (u_id u) id).
Qed.
Lemma record_failure_spec rows id p now db_now u :
  policy_wf p -> clock_ok now -> NoDup (u_id <$> rows) ->
  find (fun u => N.eqb (u_id u) id) rows = Some u -> (0 <= u_failed_login_count u < i32_max)%Z ->
  exists rows' u', users_record_failure rows id p now db_now = Some (Ok rows')
    /\ u_id <$> rows' = u_id <$> rows
    /\ (forall v, In v rows -> u_id v <> id -> In v rows')
    /\ find (fun u => N.eqb (u_id u) id) rows' = Some u' /\ same_user u u'
    /\ u_failed_login_count u' = (u_failed_login_count u + 1)%Z
    /\ locked_until_after_failure p (u_failed_login_count u + 1) now
       = Some (if (lk_max_failed_attempts p <=? u_failed_login_count u + 1)%Z
               then Some (now + seconds (lock_duration_secs_for p (u_failed_login_count u + 1)))%Z else None)
    /\ u_locked_until u' = (if (lk_max_failed_attempts p <=? u_failed_login_count u + 1)%Z
         then Some (to_micros (now + seconds (lock_duration_secs_for p (u_failed_login_count u + 1))))
         else u_locked_until u).
Proof.
  intros Hp Hc Hnd Hu Hr. pose proof (find_some _ _ Hu) as [Hin Hid%N.eqb_eq].
  destruct (bind_arms_pick now _ Hc (ladder_bounds p Hp)) as (arms & Ea & Harms).
  unfold users_record_failure, users_count_failure. rewrite Ea. cbn [mbind option_bind].
  destruct (existsb _ rows) eqn:Ex.
  { exfalso. apply existsb_exists in Ex as (v & Hv & [Hi%N.eqb_eq Ho%Z.ltb_lt]%andb_true_iff).
    assert (v = u) as ->; [|lia]. apply list_elem_of_In in Hin, Hv.
    apply list_elem_of_lookup in Hin as [i Hi'], Hv as [j Hj'].
    assert (j = i) as ->; [|congruence].
    eapply NoDup_lookup; [exact Hnd|..]; rewrite list_lookup_fmap.
    - rewrite Hj'. cbn. by rewrite Hi.
    - rewrite Hi'. cbn. by rewrite Hid. }
  eexists. eexists. split; [done|]. split.
  { rewrite <- list_fmap_compose. apply list_fmap_ext. intros i v _. cbn. by destruct (N.eqb (u_id v) id). }
  split.
  { intros v Hv Hne%N.eqb_neq. apply in_map_iff. exists v. by rewrite Hne. }
  rewrite find_map_user by (intros v; by destruct (N.eqb (u_id v) id)). rewrite Hu. cbn [fmap option_fmap option_map].
  rewrite Hid, N.eqb_refl. split; [done|]. split; [done|]. split; [done|].
  rewrite locked_until_eq by (done || lia). split; [done|].
  cbn [u_locked_until with_failure]. rewrite Harms, pick_ladder by (done || (unfold i32_min; lia)).
  by destruct (lk_max_failed_attempts p <=? u_failed_login_count u + 1)%Z.
Qed.
(** The statement does what the domain computes.  The UPDATE that counts a
    failed login never panics and never overflows below [i32::MAX]; it adds one to
    the count and locks the account until the time [locked_until_after_failure]
    computes from the new count, or leaves the lock as it was below the
    threshold; every other row stays as it is, and the caller is told the new
    count and whether a lock is in force. *)
Theorem record_failure_correct rows id p now db_now u :
  policy_wf p -> clock_ok now -> NoDup (u_id <$> rows) ->
  find (fun u => N.eqb (u_id u) id) rows = Some u -> (0 <= u_failed_login_count u < i32_max)%Z ->
  exists rows' u' until, users_record_failure rows id p now db_now = Some (Ok rows')
    /\ (forall v, In v rows -> u_id v <> id -> In v rows')
    /\ find (fun u => N.eqb (u_id u) id) rows' = Some u' /\ same_user u u'
    /\ u_failed_login_count u' = (u_failed_login_count u + 1)%Z
    /\ locked_until_after_failure p (u_failed_login_count u + 1) now = Some until
    /\ u_locked_until u' = (match until with Some t => Some (to_micros t) | None => u_locked_until u end)
    /\ users_failure_record rows' id now = {|
         lf_failed_login_count := u_failed_login_count u + 1;
         lf_locked_until := opt_filter (fun t => (now <? t)%Z) (u_locked_until u') |}.
Proof.
  intros Hp Hc Hnd Hu Hr.
  destruct (record_failure_spec rows id p now db_now u Hp Hc Hnd Hu Hr)
    as (rows' & u' & E & _ & Hothers & Hf & Hs & Hn & Hl & Hlock).
  exists rows', u'. eexists. split; [done|]. split; [done|]. split; [done|]. split; [done|]. split; [done|].
  split; [exact Hl|]. split.
  - rewrite Hlock. by destruct (lk_max_failed_attempts p <=? u_failed_login_count u + 1)%Z.
  - unfold users_failure_record, users_login_state. rewrite Hf. cbn. by rewrite Hn.
Qed.

(** Many failed logins, in the order in which their statements run: the
    application's time and the database's of each. *)
Fixpoint record_failures (rows : list User) (id : Uuid) (p : LockoutPolicy)
  (times : list (DateTime * DateTime)) : option (Result DomainError (list User)) :=
  match times with
  | [] => Some (Ok rows)
  | (now, db_now) :: times' =>
      match users_record_failure rows id p now db_now with
      | Some (Ok rows') => record_failures rows' id p times'
      | r => r
      end
  end.
(** C36: No failed login is lost.  Whatever the order in which the statements of
    concurrent attempts run, [n] of them add [n] to the count; and once the count
    has reached the threshold, the account is locked for the duration of that
    count, from the time of the attempt that ran last. *)
Theorem login_failures_counted rows id p times u :
  policy_wf p -> Forall (fun t => clock_ok t.1) times -> NoDup (u_id <$> rows) ->
  find (fun u => N.eqb (u_id u) id) rows = Some u -> (0 <= u_failed_login_count u)%Z ->
  (u_failed_login_count u + Z.of_nat (length times) <= i32_max)%Z ->
  let count := (u_failed_login_count u + Z.of_nat (length times))%Z in
  exists rows' u', record_failures rows id p times = Some (Ok rows')
    /\ find (fun u => N.eqb (u_id u) id) rows' = Some u'
    /\ u_failed_login_count u' = count
    /\ forall now db_now, last times = Some (now, db_now) -> (lk_max_failed_attempts p <= count)%Z ->
         u_locked_until u' = Some (to_micros (now + seconds (lock_duration_secs_for p count))).
Proof.
  intros Hp Ht. revert rows u. induction Ht as [|[now db_now] times Hc Ht IH]; intros rows u Hnd Hu H0 Hn; cbn zeta.
  { exists rows, u. cbn. split; [done|]. split; [done|]. split; [lia|]. done. }
  cbn [length] in *. rewrite Nat2Z.inj_succ in *.
  destruct (record_failure_spec rows id p now db_now u Hp Hc Hnd Hu ltac:(lia))
    as (rows1 & u1 & E & Hids & _ & Hf & _ & Hn1 & _ & Hlock).
  destruct (IH rows1 u1 ltac:(by rewrite Hids) Hf ltac:(lia) ltac:(lia)) as (rows' & u' & E' & Hf' & Hn' & Hlast).
  exists rows', u'. cbn [record_failures]. rewrite E. split; [done|]. split; [done|]. split; [lia|].
  intros now' db' Hl Hm. destruct times as [|t times].
  - cbn in Hl, E'. injection Hl as -> ->. injection E' as <-. rewrite Hf in Hf'. injection Hf' as <-.
    rewrite Hlock. cbn [length] in *.
    replace (u_failed_login_count u + Z.succ (Z.of_nat 0))%Z with (u_failed_login_count u + 1)%Z in * by lia.
    destruct (Z.leb_spec (lk_max_failed_attempts p) (u_failed_login_count u + 1)); [done|lia].
  - replace (u_failed_login_count u + Z.succ (Z.of_nat (length (t :: times))))%Z
      with (u_failed_login_count u1 + Z.of_nat (length (t :: times)))%Z in * by lia.
    eapply Hlast; [exact Hl|lia].
Qed.

(** Locks grow with the failures, within bounds.  At the threshold an account is
    locked for the base duration; no lock is shorter than that, and none longer
    than the cap, or than the base where the cap is set below it; another failure
    never shortens the lock, and doubles it until it meets the cap. *)
Theorem lock_duration_escalates p c :
  policy_wf p -> (lk_max_failed_attempts p <= c <= i32_max)%Z ->
  let base := lk_lock_duration_secs p in
  let cap := lk_max_lock_duration_secs p in
  lock_duration_secs_for p (lk_max_failed_attempts p) = base
  /\ (base <= lock_duration_secs_for p c <= Z.max base cap)%Z
  /\ (c < i32_max -> lock_duration_secs_for p c <= lock_duration_secs_for p (c + 1))%Z
  /\ (c < i32_max -> c < lk_max_failed_attempts p + ESCALATION_STEPS -> base <= cap ->
       lock_duration_secs_for p (c + 1) = Z.min cap (2 * lock_duration_secs_for p c))%Z.
Proof.
  intros Hp Hc. pose proof Hp as [Ha _ _]. cbn zeta. split; [|split; [|split]].
  - rewrite lock_duration_eq by (done || unfold i32_min; lia).
    rewrite Z.sub_diag. change (Z.min (Z.max 0 0) ESCALATION_STEPS) with 0%Z. lia.
  - apply lock_duration_bounds; [done|unfold i32_min; lia].
  - intros ?. apply lock_duration_mono; [done|unfold i32_min; lia|lia..].
  - intros ? ? ?. apply lock_duration_double; [done|lia..].
Qed.

(** ** Witnesses *)
Definition toy_lockout : LockoutPolicy := {|
  lk_max_failed_attempts := 5; lk_lock_duration_secs := 900; lk_max_lock_duration_secs := 3600 |}.
Example toy_ladder : escalation_ladder toy_lockout = [(7, 3600); (6, 1800); (5, 900)]%Z.
Proof. vm_compute. reflexivity. Qed.
Definition toy_locked_user (count : Z) : User := {|
  u_id := 7%N; u_tenant_id := 1%N; u_sub := 8%N; u_email := "ann@example.com"; u_email_verified := true;
  u_preferred_username := Some "ann"; u_name := None; u_language := None; u_theme := None;
  u_password_hash := "hash"; u_must_change_password := false; u_password_changed_at := None;
  u_status := UserActive; u_pending_setup := false; u_failed_login_count := count;
  u_locked_until := None; u_created_at := 0%Z; u_updated_at := 0%Z |}.
Lemma toy_lockout_wf : policy_wf toy_lockout.
Proof. split; vm_compute; split; congruence. Qed.
Lemma toy_clock_ok t : (0 <= t <= seconds 2000000000)%Z -> clock_ok t.
Proof. unfold clock_ok, seconds, CHRONO_MIN_SECS, CHRONO_MAX_SECS, u32_max, NANOS. lia. Qed.

Lemma record_failure_correct_witness :
  exists rows' u' until,
    users_record_failure [toy_locked_user 5] 7%N toy_lockout (seconds 1000) (seconds 1000) = Some (Ok rows')
    /\ (forall v, In v [toy_locked_user 5] -> u_id v <> 7%N -> In v rows')
    /\ find (fun u => N.eqb (u_id u) 7%N) rows' = Some u' /\ same_user (toy_locked_user 5) u'
    /\ u_failed_login_count u' = (u_failed_login_count (toy_locked_user 5) + 1)%Z
    /\ locked_until_after_failure toy_lockout (u_failed_login_count (toy_locked_user 5) + 1) (seconds 1000)
       = Some until
    /\ u_locked_until u'
       = (match until with Some t => Some (to_micros t) | None => u_locked_until (toy_locked_user 5) end)
    /\ users_failure_record rows' 7%N (seconds 1000) = {|
         lf_failed_login_count := u_failed_login_count (toy_locked_user 5) + 1;
         lf_locked_until := opt_filter (fun t => (seconds 1000 <? t)%Z) (u_locked_until u') |}.
Proof.
  apply (record_failure_correct [toy_locked_user 5] 7%N toy_lockout (seconds 1000) (seconds 1000)).
  - apply toy_lockout_wf.
  - apply toy_clock_ok. vm_compute. split; congruence.
  - apply (bool_decide_unpack _). vm_compute. exact I.
  - reflexivity.
  - vm_compute. split; congruence.
Defined.
Lemma login_failures_counted_witness :
  let times := [(seconds 1000, seconds 1000); (seconds 1002, seconds 1003); (seconds 1001, seconds 1004)] in
  let count := (u_failed_login_count (toy_locked_user 3) + Z.of_nat (length times))%Z in
  exists rows' u', record_failures [toy_locked_user 3] 7%N toy_lockout times = Some (Ok rows')
    /\ find (fun u => N.eqb (u_id u) 7%N) rows' = Some u'
    /\ u_failed_login_count u' = count
    /\ forall now db_now, last times = Some (now, db_now) ->
         (lk_max_failed_attempts toy_lockout <= count)%Z ->
         u_locked_until u' = Some (to_micros (now + seconds (lock_duration_secs_for toy_lockout count))).
Proof.
  apply (login_failures_counted [toy_locked_user 3] 7%N toy_lockout).
  - apply toy_lockout_wf.
  - repeat constructor; apply toy_clock_ok; vm_compute; split; congruence.
  - apply (bool_decide_unpack _). vm_compute. exact I.
  - reflexivity.
  - vm_compute. congruence.
  - vm_compute. congruence.
Defined.
Lemma lock_duration_escalates_witness :
  let base := lk_lock_duration_secs toy_lockout in
  let cap := lk_max_lock_duration_secs toy_lockout in
  lock_duration_secs_for toy_lockout (lk_max_failed_attempts toy_lockout) = base
  /\ (base <= lock_duration_secs_for toy_lockout 6 <= Z.max base cap)%Z
  /\ (6 < i32_max -> lock_duration_secs_for toy_lockout 6 <= lock_duration_secs_for toy_lockout (6 + 1))%Z
  /\ (6 < i32_max -> 6 < lk_max_failed_attempts toy_lockout + ESCALATION_STEPS -> base <= cap ->
       lock_duration_secs_for toy_lockout (6 + 1) = Z.min cap (2 * lock_duration_secs_for toy_lockout 6))%Z.
Proof.
  apply (lock_duration_escalates toy_lockout 6); [apply toy_lockout_wf|vm_compute; split; congruence].
Defined.
