(* ===== verification/SsoSession.v ===== *)
(** * SSO sessions and step-up ([domain/sso_session.rs], [domain/step_up.rs],
      [infrastructure/repositories/sso_session.rs])

    The browser's signed-in session: how, how strongly and when its user proved
    themselves, the table it lives in, and the decision whether a sensitive
    operation needs a fresh proof. *)

From S2P Require Import Prelude Values External AuthSessionStore.

Record SsoSession : Type := {
  so_session_hash : string;
  so_user_id : Uuid;
  so_auth_time : DateTime;
  so_idle_expires_at : DateTime;
  so_absolute_expires_at : DateTime;
  so_authentication_methods : list AuthenticationMethod;
  so_authentication_strength : AuthenticationStrength;
  so_mfa_completed_at : option DateTime;
  so_step_up_at : option DateTime;
  so_user_agent : option string;
  so_ip_address : option string;
  so_created_at : DateTime;
  so_updated_at : DateTime
}.
(** [DateTime + Duration]; [None] where it panics. *)
Definition add_duration (t : DateTime) (d : Duration) : option DateTime :=
  if (seconds CHRONO_MIN_SECS <=? t + d)%Z && (t + d <? seconds (CHRONO_MAX_SECS + 1))%Z
  then Some (t + d)%Z else None.
Lemma add_duration_Some t d x : add_duration t d = Some x -> x = (t + d)%Z.
Proof. unfold add_duration. destruct (_ && _); [by intros [= <-]|done]. Qed.
(** [Duration::seconds(secs as i64)]; [None] where it panics. *)
Definition duration_of_u64 (secs : Z) : option Duration :=
  let s := u64_as_i64 secs in
  if (Z.abs s <=? 9223372036854775)%Z then Some (seconds s) else None.

(** [SsoSession::establish]. *)
Definition establish (session_hash : string) (user_id : Uuid) (now : DateTime)
  (idle_ttl absolute_ttl : Duration) (methods : list AuthenticationMethod)
  (user_agent ip_address : option string) : option SsoSession :=
  let strength := from_methods methods in
  idle ← add_duration now idle_ttl;
  absolute ← add_duration now absolute_ttl;
  Some {|
    so_session_hash := session_hash; so_user_id := user_id; so_auth_time := now;
    so_idle_expires_at := idle; so_absolute_expires_at := absolute;
    so_authentication_methods := methods; so_authentication_strength := strength;
    so_mfa_completed_at := then_some (bool_decide (strength = MultiFactor)) now;
    so_step_up_at := Some now; so_user_agent := user_agent; so_ip_address := ip_address;
    so_created_at := now; so_updated_at := now |}.
(** [u64::try_from(..).unwrap_or(0)]. *)
Definition absolute_ttl_secs (s : SsoSession) : Z :=
  let d := num_seconds (so_absolute_expires_at s - so_created_at s) in
  if (0 <=? d)%Z then d else 0.
Definition sso_is_valid_at (s : SsoSession) (now : DateTime) : bool :=
  (now <? so_idle_expires_at s)%Z && (now <? so_absolute_expires_at s)%Z.
Definition is_multi_factor (s : SsoSession) : bool :=
  bool_decide (so_authentication_strength s = MultiFactor).
Definition used_method (s : SsoSession) (m : AuthenticationMethod) : bool :=
  bool_decide (m ∈ so_authentication_methods s).
Definition satisfies_max_age (s : SsoSession) (max_age_secs : Z) (now : DateTime) : option bool :=
  max_age ← duration_of_u64 max_age_secs;
  Some (now - so_auth_time s <=? max_age)%Z.
(** The duration is built only when there is a time to compare. *)
Definition satisfies_mfa_age (s : SsoSession) (max_age_secs : Z) (now : DateTime) : option bool :=
  match so_mfa_completed_at s with
  | None => Some false
  | Some t => max_age ← duration_of_u64 max_age_secs; Some (now - t <=? max_age)%Z
  end.
Section identifiers.
Context {HS : Hashing}.
(** The first 32 bytes of the hexadecimal digest. *)
Definition display_id_of (session_hash : string) : string :=
  String.substring 0 32 (sha256_hex ("sso-session-display:" ++ session_hash)).
Definition sid_of (session_hash : string) : string :=
  String.substring 0 32 (sha256_hex ("sso-session-sid:" ++ session_hash)).
Definition display_id (s : SsoSession) : string := display_id_of (so_session_hash s).
Definition sid (s : SsoSession) : string := sid_of (so_session_hash s).
End identifiers.

(** ** Step-up ([domain/step_up.rs]) *)
Inductive SensitiveOperation : Type :=
  | ChangePassword | ManageAuthenticators | ManageExternalIdentities | RevokeSession
  | RegisterDevice | ManageSshKeys.
#[export] Instance SensitiveOperation_eq_dec : EqDecision SensitiveOperation.
Proof. solve_decision. Defined.
Definition operation_as_str (o : SensitiveOperation) : string :=
  match o with
  | ChangePassword => "change_password"
  | ManageAuthenticators => "manage_authenticators"
  | ManageExternalIdentities => "manage_external_identities"
  | RevokeSession => "revoke_session"
  | RegisterDevice => "register_device"
  | ManageSshKeys => "manage_ssh_keys"
  end.
Definition operation_parse (s : string) : option SensitiveOperation :=
  if String.eqb s "change_password" then Some ChangePassword
  else if String.eqb s "manage_authenticators" then Some ManageAuthenticators
  else if String.eqb s "manage_external_identities" then Some ManageExternalIdentities
  else if String.eqb s "revoke_session" then Some RevokeSession
  else if String.eqb s "register_device" then Some RegisterDevice
  else if String.eqb s "manage_ssh_keys" then Some ManageSshKeys
  else None.
Definition passkey_only (o : SensitiveOperation) : bool :=
  match o with RegisterDevice | ManageSshKeys => true | _ => false end.
Definition requires_second_factor (o : SensitiveOperation) : bool :=
  match o with ManageAuthenticators | ManageExternalIdentities => true | _ => false end.

Record StepUpRequirement : Type := {
  sr_max_age_secs : Z;
  sr_required_strength : AuthenticationStrength
}.
Definition for_operation (operation : SensitiveOperation) (max_age_secs : Z)
  (user_has_second_factor : bool) : StepUpRequirement := {|
  sr_max_age_secs := max_age_secs;
  sr_required_strength :=
    if requires_second_factor operation && user_has_second_factor then MultiFactor else SingleFactor |}.
Inductive StepUpDecision : Type := Satisfied | ReauthenticationRequired | SecondFactorRequired.
#[export] Instance StepUpDecision_eq_dec : EqDecision StepUpDecision.
Proof. solve_decision. Defined.
Definition last_verified_at (s : SsoSession) (step_up_at : option DateTime) : DateTime :=
  match step_up_at with
  | Some t => if (so_auth_time s <? t)%Z then t else so_auth_time s
  | None => so_auth_time s
  end.
(** [evaluate_step_up]; [None] where building the duration panics. *)
Definition evaluate_step_up (s : SsoSession) (step_up_at : option DateTime) (r : StepUpRequirement)
  (now : DateTime) : option StepUpDecision :=
  if negb (satisfies (so_authentication_strength s) (sr_required_strength r))
  then Some SecondFactorRequired
  else
    max_age ← duration_of_u64 (sr_max_age_secs r);
    let fresh :=
      if bool_decide (sr_required_strength r = MultiFactor)
      then is_some_and (fun t => (now - t <=? max_age)%Z) (so_mfa_completed_at s)
      else (now - last_verified_at s step_up_at <=? max_age)%Z in
    Some (if fresh then Satisfied else ReauthenticationRequired).

(** [domain/user_device.rs]: when a passkey proof is fresh enough to register a
    device or a key. *)
Definition REGISTRATION_PASSKEY_MAX_AGE_SECS : Z := 300.
Definition passkey_verified_recently (s : SsoSession) (passkey_verified_at : option DateTime)
  (now : DateTime) : bool :=
  let max_age := seconds REGISTRATION_PASSKEY_MAX_AGE_SECS in
  (used_method s WebAuthn && (now - so_auth_time s <=? max_age)%Z)
  || is_some_and (fun t => (now - t <=? max_age)%Z) passkey_verified_at.

(** ** The tables [sso_sessions] and [sso_session_contexts]

    Of a context row only [passkey_verified_at] is modelled.  A session's row is
    deleted with its contexts (ON DELETE CASCADE). *)
Record SsoTables : Type := {
  st_rows : list SsoSession;
  st_contexts : list (string * option DateTime)
}.
Definition by_hash (h : string) (s : SsoSession) : bool := String.eqb (so_session_hash s) h.
(** The row INSERT writes: both timestamps are the database's. *)
Definition sso_row (s : SsoSession) (db_now : DateTime) : SsoSession := {|
  so_session_hash := so_session_hash s; so_user_id := so_user_id s;
  so_auth_time := to_micros (so_auth_time s);
  so_idle_expires_at := to_micros (so_idle_expires_at s);
  so_absolute_expires_at := to_micros (so_absolute_expires_at s);
  so_authentication_methods := so_authentication_methods s;
  so_authentication_strength := so_authentication_strength s;
  so_mfa_completed_at := to_micros <$> so_mfa_completed_at s;
  so_step_up_at := to_micros <$> so_step_up_at s;
  so_user_agent := so_user_agent s; so_ip_address := so_ip_address s;
  so_created_at := to_micros db_now; so_updated_at := to_micros db_now |}.
Definition sso_create (t : SsoTables) (s : SsoSession) (db_now : DateTime) : option SsoTables :=
  if existsb (by_hash (so_session_hash s)) (st_rows t) then None
  else Some {| st_rows := sso_row s db_now :: st_rows t; st_contexts := st_contexts t |}.
Definition sso_find_by_hash (t : SsoTables) (h : string) : option SsoSession :=
  find (by_hash h) (st_rows t).
Definition sso_update (h : string) (f : SsoSession -> SsoSession) (t : SsoTables) : SsoTables := {|
  st_rows := map (fun s => if by_hash h s then f s else s) (st_rows t);
  st_contexts := st_contexts t |}.
(** What an UPDATE may set; [updated_at] moves with it. *)
Definition set_times (idle absolute : DateTime) (db_now : DateTime) (s : SsoSession) : SsoSession := {|
  so_session_hash := so_session_hash s; so_user_id := so_user_id s; so_auth_time := so_auth_time s;
  so_idle_expires_at := idle; so_absolute_expires_at := absolute;
  so_authentication_methods := so_authentication_methods s;
  so_authentication_strength := so_authentication_strength s;
  so_mfa_completed_at := so_mfa_completed_at s; so_step_up_at := so_step_up_at s;
  so_user_agent := so_user_agent s; so_ip_address := so_ip_address s;
  so_created_at := so_created_at s;
  so_updated_at := if bool_decide (so_idle_expires_at s = idle /\ so_absolute_expires_at s = absolute)
                   then so_updated_at s else to_micros db_now |}.
Definition set_authentication (methods : list AuthenticationMethod) (strength : AuthenticationStrength)
  (mfa step_up : option DateTime) (db_now : DateTime) (s : SsoSession) : SsoSession := {|
  so_session_hash := so_session_hash s; so_user_id := so_user_id s; so_auth_time := so_auth_time s;
  so_idle_expires_at := so_idle_expires_at s; so_absolute_expires_at := so_absolute_expires_at s;
  so_authentication_methods := methods; so_authentication_strength := strength;
  so_mfa_completed_at := mfa; so_step_up_at := step_up;
  so_user_agent := so_user_agent s; so_ip_address := so_ip_address s;
  so_created_at := so_created_at s;
  so_updated_at := if bool_decide (so_authentication_methods s = methods
                                   /\ so_authentication_strength s = strength
                                   /\ so_mfa_completed_at s = mfa /\ so_step_up_at s = step_up)
                   then so_updated_at s else to_micros db_now |}.
(** SET idle_expires_at = GREATEST(idle_expires_at, ?). *)
Definition sso_extend_idle (h : string) (idle db_now : DateTime) : SsoTables -> SsoTables :=
  sso_update h (fun s => set_times (Z.max (so_idle_expires_at s) (to_micros idle))
                           (so_absolute_expires_at s) db_now s).
Definition sso_set_lifetime (h : string) (idle absolute db_now : DateTime) : SsoTables -> SsoTables :=
  sso_update h (set_times (to_micros idle) (to_micros absolute) db_now).
Definition sso_record_second_factor (h : string) (methods : list AuthenticationMethod)
  (completed_at db_now : DateTime) : SsoTables -> SsoTables :=
  sso_update h (fun s => set_authentication methods (from_methods methods)
                           (Some (to_micros completed_at)) (so_step_up_at s) db_now s).
(** INSERT .. ON DUPLICATE KEY UPDATE; [None] is the foreign key's refusal. *)
Definition context_put (h : string) (at_ : DateTime) (t : SsoTables) : option SsoTables :=
  if existsb (by_hash h) (st_rows t)
  then Some {| st_rows := st_rows t;
               st_contexts := (h, Some (to_micros at_))
                 :: List.filter (fun c => negb (String.eqb c.1 h)) (st_contexts t) |}
  else None.
(** [record_step_up]: the UPDATE of the session, and for a passkey the INSERT into
    its context; the flag is false when the second statement failed. *)
Definition sso_step_up_row (h : string) (methods : list AuthenticationMethod)
  (verified_at db_now : DateTime) (t : SsoTables) : SsoTables :=
  let strength := from_methods methods in
  let at_ := Some (to_micros verified_at) in
  if bool_decide (strength = MultiFactor)
  then sso_update h (set_authentication methods strength at_ at_ db_now) t
  else sso_update h (fun s => set_authentication (so_authentication_methods s)
                                (so_authentication_strength s) (so_mfa_completed_at s) at_ db_now s) t.
Definition sso_record_step_up (h : string) (methods : list AuthenticationMethod)
  (verified_at db_now : DateTime) (t : SsoTables) : SsoTables * bool :=
  let t1 := sso_step_up_row h methods verified_at db_now t in
  if bool_decide (WebAuthn ∈ methods)
  then match context_put h verified_at t1 with Some t2 => (t2, true) | None => (t1, false) end
  else (t1, true).
Definition sso_passkey_verified_at (t : SsoTables) (h : string) : option DateTime :=
  find (fun c => String.eqb c.1 h) (st_contexts t) ≫= snd.
Definition sso_delete_where (f : SsoSession -> bool) (t : SsoTables) : SsoTables := {|
  st_rows := List.filter (fun s => negb (f s)) (st_rows t);
  st_contexts := List.filter (fun c => negb (existsb (fun s => f s && by_hash c.1 s) (st_rows t)))
                   (st_contexts t) |}.
Definition sso_delete (h : string) : SsoTables -> SsoTables := sso_delete_where (by_hash h).
Definition sso_delete_all_for_user (u : Uuid) : SsoTables -> SsoTables :=
  sso_delete_where (fun s => N.eqb (so_user_id s) u).
Definition sso_delete_all_for_user_except (u : Uuid) (keep : string) : SsoTables -> SsoTables :=
  sso_delete_where (fun s => N.eqb (so_user_id s) u && negb (by_hash keep s)).
Definition sso_delete_expired (now : DateTime) : SsoTables -> SsoTables :=
  sso_delete_where (fun s => (so_idle_expires_at s <=? to_micros now)%Z
                             || (so_absolute_expires_at s <=? to_micros now)%Z).

(** ** Any sequence of operations on the tables *)
Inductive SsoOp : Type :=
  | SsoCreate (s : SsoSession)
  | SsoExtendIdle (h : string) (idle : DateTime)
  | SsoSetLifetime (h : string) (idle absolute : DateTime)
  | SsoRecordSecondFactor (h : string) (methods : list AuthenticationMethod) (completed_at : DateTime)
  | SsoRecordStepUp (h : string) (methods : list AuthenticationMethod) (verified_at : DateTime)
  | SsoDelete (h : string)
  | SsoDeleteAllForUser (u : Uuid)
  | SsoDeleteAllForUserExcept (u : Uuid) (keep : string)
  | SsoDeleteExpired (now : DateTime).
Definition sso_step (t : SsoTables) (o : SsoOp * DateTime) : SsoTables :=
  let '(op, db_now) := o in
  match op with
  | SsoCreate s => unwrap_or t (sso_create t s db_now)
  | SsoExtendIdle h idle => sso_extend_idle h idle db_now t
  | SsoSetLifetime h idle absolute => sso_set_lifetime h idle absolute db_now t
  | SsoRecordSecondFactor h methods at_ => sso_record_second_factor h methods at_ db_now t
  | SsoRecordStepUp h methods at_ => (sso_record_step_up h methods at_ db_now t).1
  | SsoDelete h => sso_delete h t
  | SsoDeleteAllForUser u => sso_delete_all_for_user u t
  | SsoDeleteAllForUserExcept u keep => sso_delete_all_for_user_except u keep t
  | SsoDeleteExpired now => sso_delete_expired now t
  end.
Definition sso_run (ops : list (SsoOp * DateTime)) (t : SsoTables) : SsoTables := fold_left sso_step ops t.

(** A session says no more than what was verified. *)
Definition sso_wf (s : SsoSession) : Prop :=
  so_authentication_strength s = from_methods (so_authentication_methods s)
  /\ (so_authentication_strength s = MultiFactor -> is_Some (so_mfa_completed_at s)).
(** Whose it is and since when. *)
Definition sso_identity (s : SsoSession) := (so_session_hash s, so_user_id s, so_auth_time s).

Lemma establish_wf h u now i a ms ua ip s : establish h u now i a ms ua ip = Some s -> sso_wf s.
Proof.
  unfold establish. destruct (add_duration now i), (add_duration now a); cbn; try done.
  intros [= <-]. split; cbn; [done|]. intros ->. cbn. by eexists.
Qed.
Lemma sso_row_wf s db_now : sso_wf s -> sso_wf (sso_row s db_now).
Proof. intros [H1 H2]. split; cbn; [done|]. intros Hm. by destruct (H2 Hm) as [x ->]. Qed.

(** An UPDATE keeps a property of rows that the change it makes keeps. *)
Lemma sso_update_Forall (P : SsoSession -> Prop) h f t :
  (forall s, P s -> P (f s)) -> Forall P (st_rows t) -> Forall P (st_rows (sso_update h f t)).
Proof. intros Hf H. apply Forall_map. eapply Forall_impl; [exact H|]. intros s. cbn. destruct (by_hash h s); auto. Qed.
Lemma sso_delete_Forall (P : SsoSession -> Prop) f t :
  Forall P (st_rows t) -> Forall P (st_rows (sso_delete_where f t)).
Proof.
  cbn. rewrite !Forall_forall. intros H s [Hs _]%list_elem_of_In%filter_In. by apply H, list_elem_of_In.
Qed.
Lemma context_put_rows h at_ t t' : context_put h at_ t = Some t' -> st_rows t' = st_rows t.
Proof. unfold context_put. destruct (existsb _ _); [|done]. by intros [= <-]. Qed.
(** The rows after [record_step_up]. *)
Definition stepped_up (methods : list AuthenticationMethod) (verified_at db_now : DateTime)
  (s : SsoSession) : SsoSession :=
  let at_ := Some (to_micros verified_at) in
  if bool_decide (from_methods methods = MultiFactor)
  then set_authentication methods (from_methods methods) at_ at_ db_now s
  else set_authentication (so_authentication_methods s) (so_authentication_strength s)
         (so_mfa_completed_at s) at_ db_now s.
Lemma sso_record_step_up_rows h methods at_ db_now t :
  st_rows (sso_record_step_up h methods at_ db_now t).1
  = st_rows (sso_update h (stepped_up methods at_ db_now) t).
Proof.
  unfold sso_record_step_up, sso_step_up_row, stepped_up.
  destruct (bool_decide (from_methods methods = MultiFactor)), (bool_decide (WebAuthn ∈ methods)); try done.
  all: destruct (context_put _ _ _) eqn:E; [by apply context_put_rows in E|done].
Qed.

(** What every operation keeps of every row, if every new row and every change has it. *)
Lemma sso_run_Forall (P : SsoSession -> Prop) ops t :
  (forall o db_now, In (o, db_now) ops ->
     match o with
     | SsoCreate s => P (sso_row s db_now)
     | SsoExtendIdle h idle => forall s, by_hash h s = true -> P s ->
         P (set_times (Z.max (so_idle_expires_at s) (to_micros idle)) (so_absolute_expires_at s) db_now s)
     | SsoSetLifetime h idle absolute => forall s, by_hash h s = true -> P s ->
         P (set_times (to_micros idle) (to_micros absolute) db_now s)
     | SsoRecordSecondFactor h methods at_ => forall s, by_hash h s = true -> P s ->
         P (set_authentication methods (from_methods methods) (Some (to_micros at_)) (so_step_up_at s) db_now s)
     | SsoRecordStepUp h methods at_ => forall s, by_hash h s = true -> P s -> P (stepped_up methods at_ db_now s)
     | _ => True
     end) ->
  Forall P (st_rows t) -> Forall P (st_rows (sso_run ops t)).
Proof.
  assert (forall h f t, (forall s, by_hash h s = true -> P s -> P (f s)) -> Forall P (st_rows t) ->
            Forall P (st_rows (sso_update h f t))) as Hupd.
  { intros h f t' Hf H. apply Forall_map. eapply Forall_impl; [exact H|].
    intros s Hs. cbn. destruct (by_hash h s) eqn:E; auto. }
  revert t. induction ops as [|[o db_now] ops IH]; intros t Hops Ht; [done|].
  change (sso_run ((o, db_now) :: ops) t) with (sso_run ops (sso_step t (o, db_now))). apply IH.
  { intros o' d' Hin. apply Hops. by right. }
  specialize (Hops o db_now (or_introl eq_refl)).
  destruct o; cbn [sso_step]; try (by apply sso_delete_Forall); try (by apply Hupd).
  - unfold sso_create. destruct (existsb _ _); cbn; [done|]. by constructor.
  - rewrite sso_record_step_up_rows. by apply Hupd.
Qed.

Definition op_established (o : SsoOp * DateTime) : Prop :=
  match o.1 with
  | SsoCreate s => exists h u now i a ms ua ip, establish h u now i a ms ua ip = Some s
  | _ => True
  end.
(** The row of [h] is not created anew; and its lifetime is not set. *)
Definition op_spares (h : string) (o : SsoOp * DateTime) : Prop :=
  match o.1 with SsoCreate s => so_session_hash s <> h | _ => True end.
Definition op_keeps_lifetime (h : string) (o : SsoOp * DateTime) : Prop :=
  match o.1 with SsoSetLifetime h' _ _ => h' <> h | _ => True end.
(** A column that neither an extension nor an authentication writes. *)
Lemma sso_run_keeps {T} (proj : SsoSession -> T) h ops t s s' :
  (forall idle db_now x, proj (set_times idle (so_absolute_expires_at x) db_now x) = proj x) ->
  (forall ms st m su db_now x, proj (set_authentication ms st m su db_now x) = proj x) ->
  Forall (op_spares h) ops ->
  Forall (op_keeps_lifetime h) ops \/ (forall idle absolute db_now x, proj (set_times idle absolute db_now x) = proj x) ->
  sso_find_by_hash t h = Some s -> NoDup (so_session_hash <$> st_rows t) ->
  sso_find_by_hash (sso_run ops t) h = Some s' -> proj s' = proj s.
Proof.
  intros Hx Ha Hsp Hlt Hs Hnd Hs'.
  assert (Forall (fun r => so_session_hash r = h -> proj r = proj s) (st_rows (sso_run ops t))) as H.
  { apply sso_run_Forall.
    - intros o db_now Hin. rewrite Forall_forall in Hsp. apply list_elem_of_In in Hin.
      specialize (Hsp _ Hin). destruct o; cbn in Hsp; try done.
      + intros r _ Hr E. rewrite Hx. by apply Hr.
      + intros r Hr%String.eqb_eq Hp E. destruct Hlt as [Hlt|Hlt]; [|rewrite Hlt; by apply Hp].
        rewrite Forall_forall in Hlt. specialize (Hlt _ Hin). cbn in Hlt, E. congruence.
      + intros r _ Hr E. rewrite Ha. by apply Hr.
      + intros r _ Hr. unfold stepped_up. case_bool_decide; rewrite Ha; exact Hr.
    - unfold sso_find_by_hash in Hs. apply find_some in Hs as [Hin Hh%String.eqb_eq].
      apply Forall_forall. intros r Hr E. apply list_elem_of_In in Hin.
      apply list_elem_of_lookup in Hin as [i Hi], Hr as [j Hj].
      assert (i = j) as ->; [|congruence]. eapply NoDup_lookup; [exact Hnd|..];
        rewrite list_lookup_fmap, ?Hi, ?Hj; cbn; [by rewrite Hh|by rewrite E]. }
  unfold sso_find_by_hash in Hs'. apply find_some in Hs' as [Hin Hh%String.eqb_eq].
  rewrite Forall_forall in H. apply H; [by apply list_elem_of_In|done].
Qed.

(** C35: What the rows of the SSO sessions keep.  From rows that have it, whatever
    sequence of operations runs, the sessions it creates being those [establish] makes:
    every row's strength is the one its recorded methods earn, and a row of multi-factor
    strength has the time its second factor was completed (not the other way round:
    [record_second_factor] writes the time whatever the methods are).  A session whose
    hash is not created again keeps its user and its authentication time; and unless
    [set_lifetime] sets it, its absolute end, so that however often it is extended,
    strengthened or stepped up it is never valid at that end or after it. *)
Theorem sso_sessions_invariant ops t :
  Forall op_established ops -> Forall sso_wf (st_rows t) ->
  Forall sso_wf (st_rows (sso_run ops t))
  /\ forall h s s', Forall (op_spares h) ops ->
       sso_find_by_hash t h = Some s -> NoDup (so_session_hash <$> st_rows t) ->
       sso_find_by_hash (sso_run ops t) h = Some s' ->
       sso_identity s' = sso_identity s
       /\ (Forall (op_keeps_lifetime h) ops ->
           so_absolute_expires_at s' = so_absolute_expires_at s
           /\ forall now, sso_is_valid_at s' now = true -> (now < so_absolute_expires_at s)%Z).
Proof.
  intros Hops Ht. split.
  - apply sso_run_Forall; [|done]. intros o db_now Hin. rewrite Forall_forall in Hops.
    apply list_elem_of_In in Hin. specialize (Hops _ Hin). destruct o; cbn in Hops; try done.
    + destruct Hops as (? & ? & ? & ? & ? & ? & ? & ? & E). by eapply sso_row_wf, establish_wf.
    + intros s _ [H1 H2]. unfold stepped_up. case_bool_decide; split; cbn; done.
  - intros h s s' Hsp Hs Hnd Hs'. split.
    + eapply (sso_run_keeps sso_identity); eauto.
    + intros Hlt. assert (so_absolute_expires_at s' = so_absolute_expires_at s) as E
        by (eapply (sso_run_keeps so_absolute_expires_at); eauto).
      split; [done|]. intros now [_ Hv%Z.ltb_lt]%andb_true_iff. lia.
Qed.

(** ** What a step-up is worth *)
Lemma sso_find_update t h f s :
  sso_find_by_hash t h = Some s -> so_session_hash (f s) = so_session_hash s ->
  sso_find_by_hash (sso_update h f t) h = Some (f s).
Proof.
  unfold sso_find_by_hash. cbn. induction (st_rows t) as [|r rows IH]; cbn; [done|].
  destruct (by_hash h r) eqn:E; cbn.
  - intros [= ->] Hf. unfold by_hash in *. by rewrite Hf, E.
  - intros Hs Hf. rewrite E. by apply IH.
Qed.
Lemma sso_find_stepped_up t h methods at_ db_now s :
  sso_find_by_hash t h = Some s ->
  sso_find_by_hash (sso_record_step_up h methods at_ db_now t).1 h = Some (stepped_up methods at_ db_now s).
Proof.
  intros Hs. unfold sso_find_by_hash. rewrite sso_record_step_up_rows.
  apply (sso_find_update t h _ s Hs). unfold stepped_up. by case_bool_decide.
Qed.
Lemma no_passkey_single methods : from_methods methods = SingleFactor -> WebAuthn ∉ methods.
Proof.
  intros H Hin. assert (from_methods methods = MultiFactor); [|congruence].
  apply from_methods_multi. by exists WebAuthn.
Qed.
(** A requirement's age, where it can be built. *)
Definition age_ok (r : StepUpRequirement) : Prop := (0 <= sr_max_age_secs r <= 9223372036854775)%Z.
Lemma duration_of_u64_ok secs :
  (0 <= secs <= 9223372036854775)%Z -> duration_of_u64 secs = Some (seconds secs).
Proof.
  intros H. unfold duration_of_u64, u64_as_i64, i64_max.
  destruct (Z.leb_spec secs 9223372036854775807); [|lia].
  destruct (Z.leb_spec (Z.abs secs) 9223372036854775); [done|lia].
Qed.

(** A step-up counts for what it proved.  After a proof with a second factor,
    every sensitive operation of the session is allowed until the requirement's age
    has passed.  After a password alone, operations that need no second factor
    are; but an operation that needs one is decided as it was before, and so is
    one that needs a passkey: re-entering a password neither renews the second
    factor nor stands in for it. *)
Theorem step_up_counts t h s methods at_ db_now r :
  sso_find_by_hash t h = Some s -> age_ok r ->
  let t' := (sso_record_step_up h methods at_ db_now t).1 in
  exists s', sso_find_by_hash t' h = Some s'
    /\ ((from_methods methods = MultiFactor \/ sr_required_strength r = SingleFactor) ->
        forall now, (now <= to_micros at_ + seconds (sr_max_age_secs r))%Z ->
        evaluate_step_up s' (so_step_up_at s') r now = Some Satisfied)
    /\ (from_methods methods = SingleFactor ->
        (sr_required_strength r = MultiFactor -> forall now,
           evaluate_step_up s' (so_step_up_at s') r now = evaluate_step_up s (so_step_up_at s) r now)
        /\ forall now, passkey_verified_recently s' (sso_passkey_verified_at t' h) now
                      = passkey_verified_recently s (sso_passkey_verified_at t h) now).
Proof.
  intros Hs Hr. cbn zeta. exists (stepped_up methods at_ db_now s). split; [by apply sso_find_stepped_up|].
  split.
  - intros Hm now Hn. unfold evaluate_step_up, stepped_up. rewrite (duration_of_u64_ok _ Hr).
    destruct (sr_required_strength r) eqn:Er.
    + cbn [satisfies negb mbind option_bind]. rewrite (bool_decide_false (SingleFactor = MultiFactor)) by done.
      assert (forall x, so_step_up_at x = Some (to_micros at_) ->
                (now - last_verified_at x (so_step_up_at x) <=? seconds (sr_max_age_secs r))%Z = true) as Hf.
      { intros x ->. cbn. apply Z.leb_le. destruct (Z.ltb_spec (so_auth_time x) (to_micros at_)); lia. }
      case_bool_decide; by rewrite Hf.
    + destruct Hm as [Hm|]; [|done]. rewrite Hm, bool_decide_true by done.
      cbn. destruct (Z.leb_spec (now - to_micros at_) (seconds (sr_max_age_secs r))); [done|lia].
  - intros Hm. unfold stepped_up. rewrite Hm, bool_decide_false by done. split.
    + intros Er now. unfold evaluate_step_up. rewrite Er. done.
    + intros now. unfold sso_record_step_up, sso_step_up_row, passkey_verified_recently.
      rewrite (bool_decide_false (WebAuthn ∈ methods)) by by apply no_passkey_single.
      by rewrite Hm.
Qed.

(** ** Witnesses *)
Definition toy_sso : SsoSession := {|
  so_session_hash := "s"; so_user_id := 7%N; so_auth_time := seconds 1000;
  so_idle_expires_at := seconds 2000; so_absolute_expires_at := seconds 9000;
  so_authentication_methods := [Password; Totp]; so_authentication_strength := MultiFactor;
  so_mfa_completed_at := Some (seconds 1000); so_step_up_at := Some (seconds 1000);
  so_user_agent := None; so_ip_address := None;
  so_created_at := seconds 1000; so_updated_at := seconds 1000 |}.
Definition toy_sso_tables : SsoTables := {| st_rows := [toy_sso]; st_contexts := [] |}.
Definition toy_sso_ops : list (SsoOp * DateTime) :=
  [(SsoRecordStepUp "s" [WebAuthn] (seconds 1500), seconds 1500);
   (SsoExtendIdle "s" (seconds 99000), seconds 1600);
   (SsoRecordStepUp "s" [Password] (seconds 1700), seconds 1700)].
Definition toy_sso_after : SsoSession := unwrap_or toy_sso (sso_find_by_hash (sso_run toy_sso_ops toy_sso_tables) "s").
Lemma sso_sessions_invariant_witness :
  Forall sso_wf (st_rows (sso_run toy_sso_ops toy_sso_tables))
  /\ sso_find_by_hash (sso_run toy_sso_ops toy_sso_tables) "s" = Some toy_sso_after
  /\ so_idle_expires_at toy_sso_after = seconds 99000
  /\ sso_identity toy_sso_after = sso_identity toy_sso
  /\ forall now, sso_is_valid_at toy_sso_after now = true -> (now < seconds 9000)%Z.
Proof.
  destruct (sso_sessions_invariant toy_sso_ops toy_sso_tables) as [Hwf H].
  - repeat constructor.
  - repeat constructor. intros _. by eexists.
  - destruct (H "s" toy_sso toy_sso_after) as [Hid Hend];
      [repeat constructor|reflexivity|repeat constructor; set_solver|by vm_compute|].
    destruct Hend as [_ Hend]; [repeat constructor|]. split; [exact Hwf|].
    split; [by vm_compute|]. split; [by vm_compute|]. split; [exact Hid|exact Hend].
Defined.
Lemma step_up_counts_witness :
  let r := for_operation ManageAuthenticators 300 true in
  let t' := (sso_record_step_up "s" [Password] (seconds 1700) (seconds 1700) toy_sso_tables).1 in
  exists s', sso_find_by_hash t' "s" = Some s'
    /\ ((from_methods [Password] = MultiFactor \/ sr_required_strength r = SingleFactor) ->
        forall now, (now <= to_micros (seconds 1700) + seconds (sr_max_age_secs r))%Z ->
        evaluate_step_up s' (so_step_up_at s') r now = Some Satisfied)
    /\ (from_methods [Password] = SingleFactor ->
        (sr_required_strength r = MultiFactor -> forall now,
           evaluate_step_up s' (so_step_up_at s') r now
           = evaluate_step_up toy_sso (so_step_up_at toy_sso) r now)
        /\ forall now, passkey_verified_recently s' (sso_passkey_verified_at t' "s") now
              = passkey_verified_recently toy_sso (sso_passkey_verified_at toy_sso_tables "s") now).
Proof.
  apply (step_up_counts toy_sso_tables "s" toy_sso [Password] (seconds 1700) (seconds 1700)
           (for_operation ManageAuthenticators 300 true)); [reflexivity|].
  vm_compute. split; congruence.
Defined.
