(* ===== verification/SessionKey.v ===== *)
(** * How long a session lives ([domain/session_key.rs], [SsoSessionLifetime] of
      [domain/effective_tenant_settings.rs])

    A session bound to a registered device, or approved in the registered app,
    may live longer.  The proofs of possession that bind it are not modelled. *)

From S2P Require Import Prelude.

Inductive SessionBinding : Type := Unbound | DeviceKey | AppApproval.
#[export] Instance SessionBinding_eq_dec : EqDecision SessionBinding.
Proof. solve_decision. Defined.
Inductive LifetimeBasis : Type :=
  | BoundOnRegisteredDevice | BasisAppApproval | BoundOnUnregisteredDevice | BasisUnbound
  | NotExtendedBySetting.
#[export] Instance LifetimeBasis_eq_dec : EqDecision LifetimeBasis.
Proof. solve_decision. Defined.
Definition is_long (b : LifetimeBasis) : bool :=
  match b with BoundOnRegisteredDevice | BasisAppApproval => true | _ => false end.
Definition lifetime_basis_as_str (b : LifetimeBasis) : string :=
  match b with
  | BoundOnRegisteredDevice => "bound_on_registered_device"
  | BasisAppApproval => "app_approval"
  | BoundOnUnregisteredDevice => "bound_on_unregistered_device"
  | BasisUnbound => "unbound"
  | NotExtendedBySetting => "not_extended_by_setting"
  end.
Definition lifetime_basis (binding : SessionBinding) (device_registered : bool)
  (absolute_ttl bound_ttl : Duration) : LifetimeBasis :=
  let long q := if (absolute_ttl <? bound_ttl)%Z then q else NotExtendedBySetting in
  match binding with
  | Unbound => BasisUnbound
  | DeviceKey => if negb device_registered then BoundOnUnregisteredDevice
                 else long BoundOnRegisteredDevice
  | AppApproval => long BasisAppApproval
  end.
(** (idle, absolute). *)
Definition lifetime_for (created_at current_idle : DateTime) (binding : SessionBinding)
  (device_registered : bool) (absolute_ttl bound_ttl : Duration) : DateTime * DateTime :=
  if is_long (lifetime_basis binding device_registered absolute_ttl bound_ttl) then
    let absolute := (created_at + bound_ttl)%Z in (absolute, absolute)
  else
    let absolute := (created_at + absolute_ttl)%Z in (Z.min current_idle absolute, absolute).
Record SsoSessionLifetime : Type := { sl_idle : Duration; sl_absolute : Duration; sl_bound : Duration }.

(** An unbound session never outlives the tenant's absolute limit, nor an idle
    one its idle limit. *)
Lemma lifetime_unbound created idle registered absolute bound :
  lifetime_for created idle Unbound registered absolute bound
  = (Z.min idle (created + absolute), created + absolute)%Z.
Proof. done. Qed.
Lemma lifetime_ordered created idle binding registered absolute bound :
  let '(i, a) := lifetime_for created idle binding registered absolute bound in (i <= a)%Z.
Proof. unfold lifetime_for. destruct (is_long _); lia. Qed.
