(* ===== verification/PasswordPolicy.v ===== *)
(** * The password policy ([domain/password_policy.rs]) and the secret box of
      [domain/crypto.rs]

    What a new password must satisfy before its history and the leak list are asked,
    and when an old one has to be replaced.  [encrypt] and [decrypt] wrap AES-256-GCM. *)

From S2P Require Import Prelude Values External Directory SsoSession.

(** ** The policy *)
Definition MIN_PASSWORD_LEN : Z := 8.
Definition MAX_PASSWORD_LEN : Z := 256.

Inductive PasswordRejection : Type :=
  | Strength (key : MessageKey) | Breached | Reused.
Definition rejection_message_key (r : PasswordRejection) : MessageKey :=
  match r with
  | Strength key => key
  | Breached => message "api-password-breached"
  | Reused => message "api-password-reused"
  end.

Record PasswordPolicy : Type := {
  pp_min_length : Z;
  pp_max_length : Z;
  pp_history_count : Z;
  pp_max_age_days : Z;
  pp_reject_breached : bool
}.
Definition password_policy_default : PasswordPolicy := {|
  pp_min_length := MIN_PASSWORD_LEN; pp_max_length := MAX_PASSWORD_LEN; pp_history_count := 0;
  pp_max_age_days := 0; pp_reject_breached := false |}.
(** Lengths are counted in bytes. *)
Definition validate_length (p : PasswordPolicy) (password : string) : Result PasswordRejection unit :=
  if (str_len password <? pp_min_length p)%Z
  then Err (Strength (message_with_value "api-password-too-short" (pretty (pp_min_length p))))
  else if (pp_max_length p <? str_len password)%Z
  then Err (Strength (message_with_value "api-password-too-long" (pretty (pp_max_length p))))
  else Ok tt.
Definition checks_history (p : PasswordPolicy) : bool := (1 <=? pp_history_count p)%Z.
(** [saturating_sub(1)] on a u32. *)
Definition retired_hashes_to_check (p : PasswordPolicy) : Z := Z.max 0 (pp_history_count p - 1).
Definition retained_history_len (p : PasswordPolicy) : Z := retired_hashes_to_check p.
(** [Duration::try_days] of a u32 always fits; the sum may leave chrono's range, which
    panics. *)
Definition DAY_SECS : Z := 86400.
Definition is_expired (p : PasswordPolicy) (changed_at now : DateTime) : option bool :=
  if (pp_max_age_days p =? 0)%Z then Some false
  else limit ← add_duration changed_at (seconds (pp_max_age_days p * DAY_SECS));
       Some (limit <=? now)%Z.
(** The flag is looked at first, so a panic needs a user without it. *)
Definition password_change_required (u : User) (p : PasswordPolicy) (now : DateTime) : option bool :=
  if u_must_change_password u then Some true else is_expired p (password_set_at u) now.

(** The length is right exactly when nothing is reported. *)
Lemma validate_length_Ok p password :
  validate_length p password = Ok tt <->
  (pp_min_length p <= str_len password <= pp_max_length p)%Z.
Proof.
  unfold validate_length. destruct (Z.ltb_spec (str_len password) (pp_min_length p)); [split; [done|lia]|].
  destruct (Z.ltb_spec (pp_max_length p) (str_len password)); split; done || lia.
Qed.
Lemma password_change_required_false u p now :
  password_change_required u p now = Some false ->
  u_must_change_password u = false
  /\ (pp_max_age_days p = 0 \/ now < password_set_at u + seconds (pp_max_age_days p * DAY_SECS))%Z.
Proof.
  unfold password_change_required, is_expired. destruct (u_must_change_password u); [done|].
  intros H. split; [done|]. destruct (Z.eqb_spec (pp_max_age_days p) 0) as [|Hn]; [by left|right].
  destruct (add_duration _ _) as [limit|] eqn:E; [|done]. apply add_duration_Some in E as ->.
  cbn in H. injection H as H. apply Z.leb_gt in H. done.
Qed.

(** ** The secret box *)
Definition GCM_NONCE_LEN : nat := 12.
Definition str_drop (n : nat) (s : string) : string := String.substring n (String.length s - n) s.
Section box.
Context {AG : AesGcm}.
(** [nonce] is what the generator draws. *)
Definition encrypt (nonce plaintext key : string) : Result string string :=
  match aes_gcm_seal key nonce plaintext with
  | None => Err "AES-GCM encryption failed"
  | Some ciphertext => Ok (base64_encode (nonce ++ ciphertext))
  end.
Definition decrypt (encoded key : string) : Result string string :=
  match base64_decode encoded with
  | Err e => Err ("invalid base64 ciphertext: " ++ e)
  | Ok combined =>
      if (String.length combined <? GCM_NONCE_LEN)%nat then Err "ciphertext too short"
      else match aes_gcm_open key (String.substring 0 GCM_NONCE_LEN combined) (str_drop GCM_NONCE_LEN combined) with
           | None => Err "AES-GCM decryption failed"
           | Some plaintext => Ok plaintext
           end
  end.

(** What the crates document: decoding undoes encoding, opening undoes sealing. *)
Record box_laws : Prop := {
  bl_base64 : forall s, base64_decode (base64_encode s) = Ok s;
  bl_gcm : forall key nonce plaintext ciphertext,
    aes_gcm_seal key nonce plaintext = Some ciphertext ->
    aes_gcm_open key nonce ciphertext = Some plaintext
}.
Lemma str_length_app a b : String.length (a ++ b) = (String.length a + String.length b)%nat.
Proof. induction a as [|c a IH]; [done|]. cbn. by rewrite IH. Qed.
Lemma substring_app a b : String.substring 0 (String.length a) (a ++ b) = a.
Proof. induction a as [|c a IH]; [by destruct b|]. cbn. by rewrite IH. Qed.
Lemma substring_all s : String.substring 0 (String.length s) s = s.
Proof. induction s as [|c s IH]; [done|]. cbn. by rewrite IH. Qed.
Lemma str_drop_app a b : str_drop (String.length a) (a ++ b) = b.
Proof.
  unfold str_drop. rewrite str_length_app.
  replace (String.length a + String.length b - String.length a) with (String.length b)%nat by lia.
  induction a as [|c a IH]; [apply substring_all|exact IH].
Qed.
(** A stored secret can be read back.  Whatever [encrypt] makes of a secret under a
    12-byte nonce, [decrypt] under the same key gives the secret back. *)
Theorem secret_box_roundtrip nonce plaintext key stored :
  box_laws -> String.length nonce = GCM_NONCE_LEN ->
  encrypt nonce plaintext key = Ok stored -> decrypt stored key = Ok plaintext.
Proof.
  intros L Hn. unfold encrypt, decrypt. destruct (aes_gcm_seal _ _ _) as [c|] eqn:E; [|done].
  intros [= <-]. rewrite (bl_base64 L), str_length_app, Hn.
  destruct (Nat.ltb_spec (GCM_NONCE_LEN + String.length c) GCM_NONCE_LEN); [lia|].
  rewrite <- Hn at 1 2. rewrite substring_app, str_drop_app. by rewrite (bl_gcm L _ _ _ _ E).
Qed.
End box.
