(* ===== verification/Authenticator.v ===== *)
(** * The registry of authenticators ([domain/user_authenticator.rs],
      [infrastructure/repositories/user_authenticator.rs],
      [domain/totp_secret.rs], [infrastructure/repositories/totp_secret.rs])

    One table holds every way a user can prove who they are: TOTP secrets, passkeys,
    recovery codes and one-time codes, each with a status.  A shared TOTP secret and
    the last accepted time step live in the TOTP row. *)

From S2P Require Import Prelude Values External AuthSessionStore SsoSession.

Inductive AuthenticatorType : Type := TypeTotp | TypeWebAuthn | TypeRecoveryCode | TypeEmailOtp | TypeSmsOtp.
#[export] Instance AuthenticatorType_eq_dec : EqDecision AuthenticatorType.
Proof. solve_decision. Defined.
#[export] Program Instance AuthenticatorType_enum : StringEnum AuthenticatorType := {
  enum_name := "AuthenticatorType";
  enum_table := [(TypeTotp, "totp"); (TypeWebAuthn, "webauthn"); (TypeRecoveryCode, "recovery_code");
                 (TypeEmailOtp, "email_otp"); (TypeSmsOtp, "sms_otp")]
}.
Solve All Obligations with solve_enum.
Definition authentication_method (t : AuthenticatorType) : AuthenticationMethod :=
  match t with
  | TypeTotp => Totp | TypeWebAuthn => WebAuthn | TypeRecoveryCode => RecoveryCode
  | TypeEmailOtp => EmailOtp | TypeSmsOtp => SmsOtp
  end.
Definition allows_multiple (t : AuthenticatorType) : bool := negb (bool_decide (t = TypeTotp)).
Definition is_single_use (t : AuthenticatorType) : bool :=
  match t with TypeRecoveryCode | TypeEmailOtp | TypeSmsOtp => true | _ => false end.

Inductive AuthenticatorStatus : Type := StatusPending | StatusActive | StatusSuspended | StatusRevoked.
#[export] Instance AuthenticatorStatus_eq_dec : EqDecision AuthenticatorStatus.
Proof. solve_decision. Defined.
#[export] Program Instance AuthenticatorStatus_enum : StringEnum AuthenticatorStatus := {
  enum_name := "AuthenticatorStatus";
  enum_table := [(StatusPending, "pending"); (StatusActive, "active"); (StatusSuspended, "suspended");
                 (StatusRevoked, "revoked")]
}.
Solve All Obligations with solve_enum.
Definition status_is_usable (s : AuthenticatorStatus) : bool := bool_decide (s = StatusActive).
Definition is_terminal (s : AuthenticatorStatus) : bool := bool_decide (s = StatusRevoked).
Definition can_transition_to (s next : AuthenticatorStatus) : bool :=
  if bool_decide (s = next) then true
  else match s, next with
  | StatusRevoked, _ => false
  | _, StatusRevoked => true
  | StatusPending, StatusActive => true
  | StatusActive, StatusSuspended => true
  | StatusSuspended, StatusActive => true
  | _, _ => false
  end.

Definition OTP_SEND_WINDOW_SECS : Z := 3600.

(** The entity; [ua_totp_last_used_step] is the column only the TOTP statements see. *)
Record UserAuthenticator : Type := {
  ua_id : Uuid;
  ua_user_id : Uuid;
  ua_authenticator_type : AuthenticatorType;
  ua_status : AuthenticatorStatus;
  ua_label : string;
  ua_secret_encrypted : option string;
  ua_target : option string;
  ua_confirmed_at : option DateTime;
  ua_last_used_at : option DateTime;
  ua_expires_at : option DateTime;
  ua_revoked_at : option DateTime;
  ua_created_at : DateTime;
  ua_updated_at : DateTime;
  ua_totp_last_used_step : option Z
}.
Definition is_blocked (a : UserAuthenticator) : bool :=
  match ua_status a with StatusSuspended | StatusRevoked => true | _ => false end.
Definition is_usable_at (a : UserAuthenticator) (now : DateTime) : bool :=
  status_is_usable (ua_status a)
  && match ua_expires_at a with None => true | Some exp => (now <? exp)%Z end.
Definition counts_as_second_factor (a : UserAuthenticator) : bool :=
  is_second_factor (authentication_method (ua_authenticator_type a)).

Record TotpSecret : Type := {
  ts_user_id : Uuid;
  ts_secret_encrypted : string;
  ts_confirmed_at : option DateTime;
  ts_created_at : DateTime;
  ts_updated_at : DateTime
}.
Definition totp_is_confirmed (s : TotpSecret) : bool := is_some (ts_confirmed_at s).

(** ** The table

    The key is [id].  [updated_at] moves with every change; nothing here reads it. *)
Definition AuthenticatorTable : Type := list UserAuthenticator.
Definition has_user_type (u : Uuid) (t : AuthenticatorType) (a : UserAuthenticator) : bool :=
  N.eqb (ua_user_id a) u && bool_decide (ua_authenticator_type a = t).
Definition is_revoked (a : UserAuthenticator) : bool := bool_decide (ua_status a = StatusRevoked).

(** A row with the columns an UPDATE sets. *)
Record RowChange : Type := {
  ch_status : AuthenticatorStatus;
  ch_secret : option string;
  ch_confirmed_at : option DateTime;
  ch_last_used_at : option DateTime;
  ch_expires_at : option DateTime;
  ch_revoked_at : option DateTime;
  ch_step : option Z
}.
Definition row_of (a : UserAuthenticator) : RowChange := {|
  ch_status := ua_status a; ch_secret := ua_secret_encrypted a; ch_confirmed_at := ua_confirmed_at a;
  ch_last_used_at := ua_last_used_at a; ch_expires_at := ua_expires_at a;
  ch_revoked_at := ua_revoked_at a; ch_step := ua_totp_last_used_step a |}.
Definition change_row (db_now : DateTime) (a : UserAuthenticator) (c : RowChange) : UserAuthenticator := {|
  ua_id := ua_id a; ua_user_id := ua_user_id a; ua_authenticator_type := ua_authenticator_type a;
  ua_status := ch_status c; ua_label := ua_label a; ua_secret_encrypted := ch_secret c;
  ua_target := ua_target a; ua_confirmed_at := ch_confirmed_at c; ua_last_used_at := ch_last_used_at c;
  ua_expires_at := ch_expires_at c; ua_revoked_at := ch_revoked_at c; ua_created_at := ua_created_at a;
  ua_updated_at := to_micros db_now; ua_totp_last_used_step := ch_step c |}.
(** UPDATE .. WHERE: the rows, and how many matched (sqlx counts found rows). *)
Definition update_where (p : UserAuthenticator -> bool) (f : UserAuthenticator -> RowChange)
  (db_now : DateTime) (rows : AuthenticatorTable) : AuthenticatorTable * nat :=
  (map (fun a => if p a then change_row db_now a (f a) else a) rows, length (List.filter p rows)).

(** ORDER BY .. DESC LIMIT 1: the first of the largest; NULL sorts below every time. *)
Definition later (x y : option DateTime) : bool :=
  match x, y with
  | None, _ => false
  | Some _, None => true
  | Some a, Some b => (b <? a)%Z
  end.
Fixpoint latest_by (key : UserAuthenticator -> option DateTime) (rows : AuthenticatorTable)
  : option UserAuthenticator :=
  match rows with
  | [] => None
  | a :: rest =>
      match latest_by key rest with
      | None => Some a
      | Some b => Some (if later (key b) (key a) then b else a)
      end
  end.
(** ORDER BY created_at DESC. *)
Fixpoint insert_newest (a : UserAuthenticator) (rows : AuthenticatorTable) : AuthenticatorTable :=
  match rows with
  | [] => [a]
  | b :: rest => if (ua_created_at b <? ua_created_at a)%Z then a :: b :: rest else b :: insert_newest a rest
  end.
Definition newest_first (rows : AuthenticatorTable) : AuthenticatorTable := foldr insert_newest [] rows.

(** *** [SqlxUserAuthenticatorRepository] *)
Definition authenticator_row (a : UserAuthenticator) (db_now : DateTime) : UserAuthenticator := {|
  ua_id := ua_id a; ua_user_id := ua_user_id a; ua_authenticator_type := ua_authenticator_type a;
  ua_status := ua_status a; ua_label := ua_label a; ua_secret_encrypted := ua_secret_encrypted a;
  ua_target := ua_target a; ua_confirmed_at := to_micros <$> ua_confirmed_at a;
  ua_last_used_at := to_micros <$> ua_last_used_at a; ua_expires_at := to_micros <$> ua_expires_at a;
  ua_revoked_at := to_micros <$> ua_revoked_at a; ua_created_at := to_micros db_now;
  ua_updated_at := to_micros db_now; ua_totp_last_used_step := None |}.
Definition auths_create (rows : AuthenticatorTable) (a : UserAuthenticator) (db_now : DateTime)
  : Result DomainError AuthenticatorTable :=
  if existsb (fun r => N.eqb (ua_id r) (ua_id a)) rows
  then Err (Conflict "authenticator already registered")
  else Ok (rows ++ [authenticator_row a db_now])%list.
Definition auths_find_by_id (rows : AuthenticatorTable) (i : Uuid) : option UserAuthenticator :=
  find (fun a => N.eqb (ua_id a) i) rows.
Definition auths_list_for_user (rows : AuthenticatorTable) (u : Uuid) : AuthenticatorTable :=
  newest_first (List.filter (fun a => N.eqb (ua_user_id a) u) rows).
Definition unexpired (now : DateTime) (a : UserAuthenticator) : bool :=
  match ua_expires_at a with None => true | Some exp => (to_micros now <? exp)%Z end.
Definition auths_list_usable (rows : AuthenticatorTable) (u : Uuid) (t : option AuthenticatorType)
  (now : DateTime) : AuthenticatorTable :=
  newest_first (List.filter (fun a =>
    N.eqb (ua_user_id a) u && bool_decide (ua_status a = StatusActive) && unexpired now a
    && match t with None => true | Some t => bool_decide (ua_authenticator_type a = t) end) rows).
Definition with_new_status (status : AuthenticatorStatus) (at_ : DateTime) (a : UserAuthenticator) : RowChange := {|
  ch_status := status; ch_secret := ua_secret_encrypted a;
  ch_confirmed_at := if bool_decide (status = StatusActive)
    then match ua_confirmed_at a with Some t => Some t | None => Some (to_micros at_) end
    else ua_confirmed_at a;
  ch_last_used_at := ua_last_used_at a; ch_expires_at := ua_expires_at a;
  ch_revoked_at := then_some (bool_decide (status = StatusRevoked)) (to_micros at_);
  ch_step := ua_totp_last_used_step a |}.
Definition auths_update_status (rows : AuthenticatorTable) (i u : Uuid) (status : AuthenticatorStatus)
  (at_ db_now : DateTime) : AuthenticatorTable * bool :=
  let '(rows, n) := update_where (fun a => N.eqb (ua_id a) i && N.eqb (ua_user_id a) u)
                      (with_new_status status at_) db_now rows in
  (rows, Nat.eqb n 1).
Definition revoked_row (now : DateTime) (used : bool) (a : UserAuthenticator) : RowChange := {|
  ch_status := StatusRevoked; ch_secret := ua_secret_encrypted a; ch_confirmed_at := ua_confirmed_at a;
  ch_last_used_at := if used then Some (to_micros now) else ua_last_used_at a;
  ch_expires_at := ua_expires_at a; ch_revoked_at := Some (to_micros now);
  ch_step := ua_totp_last_used_step a |}.
(** [secret_encrypted = ?]: digests in lower-case hexadecimal, compared exactly. *)
Definition has_secret (h : string) (a : UserAuthenticator) : bool :=
  bool_decide (ua_secret_encrypted a = Some h).
Definition consumable_code (u : Uuid) (t : AuthenticatorType) (h : string) (now : DateTime)
  (a : UserAuthenticator) : bool :=
  has_user_type u t a && has_secret h a && bool_decide (ua_status a = StatusActive) && unexpired now a.
(** The UPDATE of [consume_single_use], then its SELECT. *)
Definition auths_claim_code (rows : AuthenticatorTable) (u : Uuid) (t : AuthenticatorType) (h : string)
  (now db_now : DateTime) : AuthenticatorTable * nat :=
  update_where (consumable_code u t h now) (revoked_row now true) db_now rows.
Definition auths_claimed_code (rows : AuthenticatorTable) (u : Uuid) (t : AuthenticatorType) (h : string)
  : option UserAuthenticator :=
  latest_by ua_revoked_at (List.filter (fun a => has_user_type u t a && has_secret h a) rows).
Definition auths_revoke_all_of_type (rows : AuthenticatorTable) (u : Uuid) (t : AuthenticatorType)
  (at_ db_now : DateTime) : AuthenticatorTable * nat :=
  update_where (fun a => has_user_type u t a && negb (is_revoked a)) (revoked_row at_ false) db_now rows.
Definition auths_revoke_issued_codes (rows : AuthenticatorTable) (u : Uuid) (t : AuthenticatorType)
  (at_ db_now : DateTime) : AuthenticatorTable * nat :=
  update_where (fun a => has_user_type u t a && negb (is_revoked a) && is_some (ua_expires_at a))
    (revoked_row at_ false) db_now rows.
(** [confirm_pending]: the UPDATE, then the SELECT. *)
Definition auths_confirm_pending (rows : AuthenticatorTable) (u : Uuid) (t : AuthenticatorType) (h : string)
  (now db_now : DateTime) : AuthenticatorTable * nat :=
  update_where (fun a => has_user_type u t a && has_secret h a
                         && bool_decide (ua_status a = StatusPending) && unexpired now a)
    (fun a => {| ch_status := StatusActive; ch_secret := None; ch_confirmed_at := Some (to_micros now);
                 ch_last_used_at := ua_last_used_at a; ch_expires_at := None;
                 ch_revoked_at := ua_revoked_at a; ch_step := ua_totp_last_used_step a |}) db_now rows.
Definition auths_confirmed (rows : AuthenticatorTable) (u : Uuid) (t : AuthenticatorType)
  : option UserAuthenticator :=
  latest_by ua_confirmed_at
    (List.filter (fun a => has_user_type u t a && bool_decide (ua_status a = StatusActive)) rows).
(** [delete_expired]: codes stay for the window in which sends are counted. *)
Definition auths_delete_expired (rows : AuthenticatorTable) (now : DateTime) : AuthenticatorTable :=
  List.filter (fun a => match ua_expires_at a with
    | None => true
    | Some exp => (to_micros (now - seconds OTP_SEND_WINDOW_SECS) <? exp)%Z
    end) rows.

(** *** [SqlxTotpSecretRepository] *)
Definition live_totp (u : Uuid) (a : UserAuthenticator) : bool :=
  has_user_type u TypeTotp a && negb (is_revoked a).
Definition totp_upsert (rows : AuthenticatorTable) (s : TotpSecret) (db_now : DateTime)
  : Result DomainError AuthenticatorTable :=
  let '(rows, n) := update_where (live_totp (ts_user_id s)) (fun a => {|
      ch_status := ua_status a; ch_secret := Some (ts_secret_encrypted s);
      ch_confirmed_at := match ua_confirmed_at a with
        | Some t => Some t | None => to_micros <$> ts_confirmed_at s end;
      ch_last_used_at := ua_last_used_at a; ch_expires_at := ua_expires_at a;
      ch_revoked_at := ua_revoked_at a; ch_step := ua_totp_last_used_step a |}) db_now rows in
  if Nat.eqb n 0
  then Err (Repository "no active totp authenticator row to store the shared secret on")
  else Ok rows.
Definition totp_secret_of (a : UserAuthenticator) : option TotpSecret :=
  secret ← ua_secret_encrypted a;
  Some {| ts_user_id := ua_user_id a; ts_secret_encrypted := secret; ts_confirmed_at := ua_confirmed_at a;
          ts_created_at := ua_created_at a; ts_updated_at := ua_updated_at a |}.
Definition totp_find_by_user_id (rows : AuthenticatorTable) (u : Uuid) : option TotpSecret :=
  latest_by (fun a => Some (ua_created_at a))
    (List.filter (fun a => live_totp u a && is_some (ua_secret_encrypted a)) rows)
  ≫= totp_secret_of.
Definition totp_confirm (rows : AuthenticatorTable) (u : Uuid) (confirmed_at db_now : DateTime)
  : AuthenticatorTable :=
  (update_where (fun a => live_totp u a && negb (is_some (ua_confirmed_at a))) (fun a => {|
     ch_status := ua_status a; ch_secret := ua_secret_encrypted a;
     ch_confirmed_at := Some (to_micros confirmed_at); ch_last_used_at := ua_last_used_at a;
     ch_expires_at := ua_expires_at a; ch_revoked_at := ua_revoked_at a;
     ch_step := ua_totp_last_used_step a |}) db_now rows).1.
Definition totp_delete (rows : AuthenticatorTable) (u : Uuid) (db_now : DateTime) : AuthenticatorTable :=
  (update_where (has_user_type u TypeTotp) (fun a => {|
     ch_status := ua_status a; ch_secret := None; ch_confirmed_at := ua_confirmed_at a;
     ch_last_used_at := ua_last_used_at a; ch_expires_at := ua_expires_at a;
     ch_revoked_at := ua_revoked_at a; ch_step := ua_totp_last_used_step a |}) db_now rows).1.
(** [COALESCE(totp_last_used_step, -1) < ?]. *)
Definition older_step (step : Z) (a : UserAuthenticator) : bool :=
  (unwrap_or (-1) (ua_totp_last_used_step a) <? step)%Z.
Definition totp_record_step (rows : AuthenticatorTable) (u : Uuid) (step : Z) (at_ db_now : DateTime)
  : AuthenticatorTable * bool :=
  let '(rows, n) := update_where (fun a => live_totp u a && older_step step a) (fun a => {|
      ch_status := ua_status a; ch_secret := ua_secret_encrypted a; ch_confirmed_at := ua_confirmed_at a;
      ch_last_used_at := Some (to_micros at_); ch_expires_at := ua_expires_at a;
      ch_revoked_at := ua_revoked_at a; ch_step := Some step |}) db_now rows in
  (rows, (0 <? n)%nat).
