(* ===== verification/UserDevice.v ===== *)
(** * Registered devices ([domain/user_device.rs], [domain/security_alert.rs],
      [infrastructure/repositories/user_device.rs])

    A browser is known by the hash of a long-lived cookie; a user registers the
    browsers that are theirs.  An alert tells the operators what happened to
    one. *)

From S2P Require Import Prelude Values External AuthSessionStore SsoSession.

Definition UNUSED_DEVICE_EXPIRY_DAYS : Z := 180.
Definition OBSERVATION_WINDOW_SECS : Z := 120.
Definition MAX_DEVICE_NAME_CHARS : Z := 100.
Definition DEVICE_TOKEN_HEX_LEN : Z := 64.

Record DeviceRef : Type := { device_ref_hash : string }.
#[export] Instance DeviceRef_eq_dec : EqDecision DeviceRef.
Proof. solve_decision. Defined.
Record CountryCode : Type := { country_code : string }.
#[export] Instance CountryCode_eq_dec : EqDecision CountryCode.
Proof. solve_decision. Defined.

Definition is_ascii_hexdigit (c : ascii) : bool :=
  is_digit c || in_range 65 70 c || in_range 97 102 c.
Definition to_upper (c : ascii) : ascii :=
  if is_lower c then ascii_of_N (byte c - 32)%N else c.
Fixpoint to_ascii_uppercase (s : string) : string :=
  match s with "" => "" | String c s' => String (to_upper c) (to_ascii_uppercase s') end.
(** [char::is_control] of the characters of a UTF-8 string: U+0000-001F and
    U+007F-009F. *)
Fixpoint has_control (s : string) : bool :=
  match s with
  | "" => false
  | String c s' =>
      in_range 0 31 c || in_range 127 127 c
      || (in_range 194 194 c && match s' with String d _ => in_range 128 159 d | "" => false end)
      || has_control s'
  end.

Section device_ref.
Context {HS : Hashing}.
(** [DeviceRef::from_token]. *)
Definition device_from_token (token : string) : option DeviceRef :=
  let token := trim token in
  if negb (str_len token =? DEVICE_TOKEN_HEX_LEN)%Z || negb (str_forallb is_ascii_hexdigit token) then None
  else Some {| device_ref_hash := sha256_hex (to_ascii_lowercase token) |}.
End device_ref.
Definition country_parse (raw : string) : option CountryCode :=
  let raw := trim raw in
  if negb (str_len raw =? 2)%Z || negb (str_forallb is_ascii_alphanumeric raw) then None
  else let upper := to_ascii_uppercase raw in
       if String.eqb upper "XX" then None else Some {| country_code := upper |}.
Definition normalize_device_name (raw : string) : option string :=
  let name := trim raw in
  if str_is_empty name || (MAX_DEVICE_NAME_CHARS <? char_count name)%Z || has_control name then None
  else Some name.

Record UserDevice : Type := {
  ud_id : Uuid;
  ud_user_id : Uuid;
  ud_device : DeviceRef;
  ud_name : string;
  ud_user_agent : option string;
  ud_registered_at : DateTime;
  ud_last_used_at : DateTime;
  ud_last_country : option CountryCode;
  ud_last_ip : option string
}.
Definition device_register (id user_id : Uuid) (device : DeviceRef) (name : string)
  (user_agent : option string) (country : option CountryCode) (ip : option string) (now : DateTime)
  : UserDevice := {|
  ud_id := id; ud_user_id := user_id; ud_device := device; ud_name := name;
  ud_user_agent := user_agent; ud_registered_at := now; ud_last_used_at := now;
  ud_last_country := country; ud_last_ip := ip |}.
(** [None] where the addition panics. *)
Definition device_expires_at (d : UserDevice) : option DateTime :=
  add_duration (ud_last_used_at d) (seconds (UNUSED_DEVICE_EXPIRY_DAYS * 86400)).
Definition unused_device_cutoff (now : DateTime) : option DateTime :=
  add_duration now (- seconds (UNUSED_DEVICE_EXPIRY_DAYS * 86400))%Z.

(** ** The table

    The key is [id]; (user, device) is unique.  Rows that the schema lets in
    decode, so [map_row] cannot fail on them. *)
Definition DeviceTable : Type := list UserDevice.
Definition device_of (u : Uuid) (device : DeviceRef) (d : UserDevice) : bool :=
  N.eqb (ud_user_id d) u && bool_decide (ud_device d = device).
Definition devices_find (rows : DeviceTable) (u : Uuid) (device : DeviceRef) : option UserDevice :=
  find (device_of u device) rows.
Definition device_row (d : UserDevice) : UserDevice := {|
  ud_id := ud_id d; ud_user_id := ud_user_id d; ud_device := ud_device d; ud_name := ud_name d;
  ud_user_agent := clip (ud_user_agent d) 512;
  ud_registered_at := to_micros (ud_registered_at d); ud_last_used_at := to_micros (ud_last_used_at d);
  ud_last_country := ud_last_country d; ud_last_ip := clip (ud_last_ip d) 45 |}.
Definition devices_insert (rows : DeviceTable) (d : UserDevice) : Result DomainError DeviceTable :=
  if existsb (fun r => N.eqb (ud_id r) (ud_id d) || device_of (ud_user_id d) (ud_device d) r) rows
  then Err (Conflict "device is already registered")
  else Ok (rows ++ [device_row d])%list.
Definition devices_delete (rows : DeviceTable) (u device_id : Uuid) : DeviceTable * option UserDevice :=
  match find (fun r => N.eqb (ud_id r) device_id && N.eqb (ud_user_id r) u) rows with
  | None => (rows, None)
  | Some d => (List.filter (fun r => negb (N.eqb (ud_id r) device_id)) rows, Some d)
  end.
Definition devices_touch (rows : DeviceTable) (device_id : Uuid) (used_at : DateTime)
  (country : option CountryCode) (ip : option string) : DeviceTable :=
  map (fun r => if N.eqb (ud_id r) device_id then {|
    ud_id := ud_id r; ud_user_id := ud_user_id r; ud_device := ud_device r; ud_name := ud_name r;
    ud_user_agent := ud_user_agent r; ud_registered_at := ud_registered_at r;
    ud_last_used_at := to_micros used_at; ud_last_country := country;
    ud_last_ip := clip ip 45 |} else r) rows.
Definition devices_delete_unused_before (rows : DeviceTable) (cutoff : DateTime)
  : DeviceTable * list UserDevice :=
  (List.filter (fun r => negb (ud_last_used_at r <? to_micros cutoff)%Z) rows,
   List.filter (fun r => (ud_last_used_at r <? to_micros cutoff)%Z) rows).

(** ** Alerts *)
Inductive SecurityAlertKind : Type :=
  | AlertUnregisteredDeviceSignIn (first_seen : bool) (methods : list AuthenticationMethod)
  | AlertUnregisteredDeviceRefused (methods : list AuthenticationMethod)
  | AlertDeviceRegistered (device_name : string)
  | AlertDeviceRevoked (device_name : string)
  | AlertDeviceExpired (device_name : string)
  | AlertSshKeyRegistered (key_name fingerprint : string)
  | AlertSshKeyRevoked (key_name fingerprint : string)
  | AlertSessionKeyMismatch
  | AlertApproverKeyRegistered (device_name : string)
  | AlertApproverKeyRevoked (device_name : string)
  | AppApprovalFromAnotherBrowser (device_name : string).
Inductive SecurityAlertSeverity : Type := AlertInfo | AlertWarning.
Definition alert_severity (k : SecurityAlertKind) : SecurityAlertSeverity :=
  match k with AlertDeviceExpired _ => AlertInfo | _ => AlertWarning end.
Record SecurityAlert : Type := {
  sa_kind : SecurityAlertKind;
  sa_tenant_id : TenantId;
  sa_user_id : Uuid;
  sa_username : string;
  sa_occurred_at : DateTime;
  sa_country : option CountryCode;
  sa_ip_address : option string;
  sa_user_agent : option string;
  sa_group_key : string
}.

(** ** Lemmas *)
Lemma devices_find_Some rows u device d :
  devices_find rows u device = Some d -> In d rows /\ ud_user_id d = u /\ ud_device d = device.
Proof.
  intros [Hin [Hu%N.eqb_eq Hd%bool_decide_eq_true]%andb_true_iff]%find_some. done.
Qed.
(** A registration is found under its user and its device. *)
Lemma devices_insert_find rows d rows' :
  devices_insert rows d = Ok rows' -> devices_find rows' (ud_user_id d) (ud_device d) = Some (device_row d).
Proof.
  unfold devices_insert, devices_find. destruct (existsb _ rows) eqn:E; [done|]. intros [= <-].
  induction rows as [|r rows IH]; cbn in *.
  - unfold device_of. cbn. by rewrite N.eqb_refl, bool_decide_eq_true_2.
  - apply orb_false_iff in E as [[_ ->]%orb_false_iff E]. by apply IH.
Qed.
