(* ===== verification/EnrollmentTicket.v ===== *)
(** * The enrollment ticket ([EnrollmentTicket] in [application/device_enrollment.rs])

    What a browser that is not registered gets instead of a session: a signed
    text that says who signed in, from which browser and how, good for ten
    minutes.  Nothing is stored; [ticket_verify] takes back what [ticket_sign]
    gave out and nothing else. *)

From S2P Require Import Prelude Values External Decimal.

Definition ENROLLMENT_TICKET_TTL_SECS : Z := 600.
Definition TICKET_PURPOSE : string := "assay-device-enrollment-v1".

Record EnrollmentTicket : Type := {
  et_tenant_id : TenantId;
  et_user_id : Uuid;
  et_device : string;
  et_methods : list AuthenticationMethod;
  et_expires_at : Z
}.
Definition method_codes (methods : list AuthenticationMethod) : string :=
  match methods with [] => "-" | _ => join "+" (map as_str methods) end.

(** [str::rsplit_once] on one ASCII character. *)
Fixpoint rsplit_once (sep : ascii) (s : string) : option (string * string) :=
  match s with
  | "" => None
  | String c s' =>
      match rsplit_once sep s' with
      | Some (a, b) => Some (String c a, b)
      | None => if Ascii.eqb c sep then Some ("", s') else None
      end
  end.
(** [collect::<Result<Vec<_>, _>>().ok()]. *)
Fixpoint parse_methods (codes : list string) : option (list AuthenticationMethod) :=
  match codes with
  | [] => Some []
  | code :: rest => m ← ok (parse code); ms ← parse_methods rest; Some (m :: ms)
  end.

Section ticket.
Context {HS : Hashing} {TC : TicketCrypto}.

Definition derive_ticket_key (csrf_secret : string) : string := hmac_sha256 csrf_secret TICKET_PURPOSE.
Definition ticket_fields (t : EnrollmentTicket) : list string :=
  [uuid_to_string (et_tenant_id t); uuid_to_string (et_user_id t);
   if str_is_empty (et_device t) then "-" else et_device t;
   method_codes (et_methods t); i64_to_string (et_expires_at t)].
Definition ticket_payload (t : EnrollmentTicket) : string := join "." (ticket_fields t).
Definition ticket_sign (key : string) (t : EnrollmentTicket) : string :=
  let payload := ticket_payload t in
  payload ++ "." ++ hex_encode (hmac_sha256 key payload).

(** What a payload says; [now_ts] in seconds. *)
Definition ticket_read (payload : string) (now_ts : Z) : option EnrollmentTicket :=
  match split_on "." payload with
  | [tenant; user_id; device; methods; expires_at] =>
      tenant ← uuid_parse_str tenant;
      user_id ← uuid_parse_str user_id;
      expires_at ← parse_i64 expires_at;
      if (expires_at <? now_ts)%Z then None
      else
        methods ← (if String.eqb methods "-" then Some [] else parse_methods (split_on "+" methods));
        Some {| et_tenant_id := tenant; et_user_id := user_id;
                et_device := if String.eqb device "-" then "" else device;
                et_methods := methods; et_expires_at := expires_at |}
  | _ => None
  end.
Definition ticket_verify (key raw : string) (now_ts : Z) : option EnrollmentTicket :=
  if (512 <? str_len raw)%Z then None
  else
    '(payload, sig) ← rsplit_once "." raw;
    sig ← hex_decode sig;
    if String.eqb (hmac_sha256 key payload) sig then ticket_read payload now_ts else None.

(** ** Lemmas *)
Definition no_dot (s : string) : Prop := str_forallb (fun c => negb (Ascii.eqb c ".")) s = true.
Lemma rsplit_once_free sep w : str_forallb (fun c => negb (Ascii.eqb c sep)) w = true -> rsplit_once sep w = None.
Proof.
  induction w as [|c w IH]; [done|]. cbn. rewrite andb_true_iff, negb_true_iff. intros [-> Hw].
  by rewrite IH.
Qed.
Lemma rsplit_once_app sep a b :
  str_forallb (fun c => negb (Ascii.eqb c sep)) b = true ->
  rsplit_once sep (a ++ String sep b) = Some (a, b).
Proof.
  intros Hb. induction a as [|c a IH]; cbn.
  - by rewrite rsplit_once_free, Ascii.eqb_refl by done.
  - by rewrite IH.
Qed.
Lemma rsplit_once_Some sep s a b : rsplit_once sep s = Some (a, b) -> s = a ++ String sep b.
Proof.
  revert a. induction s as [|c s IH]; [done|]. intros a. cbn.
  destruct (rsplit_once sep s) as [[a' b']|].
  - intros [= <- <-]. cbn. by rewrite (IH a').
  - destruct (Ascii.eqb_spec c sep) as [->|]; [|done]. by intros [= <- <-].
Qed.
Lemma parse_methods_codes (ms : list AuthenticationMethod) : parse_methods (map as_str ms) = Some ms.
Proof. induction ms as [|m ms IH]; [done|]. cbn. by rewrite parse_as_str, IH. Qed.
Lemma method_code_free (m : AuthenticationMethod) :
  str_forallb (fun c => negb (Ascii.eqb c "+")) (as_str m) = true /\ no_dot (as_str m)
  /\ exists c s, as_str m = String c s /\ c <> "-"%char.
Proof. by destruct m; repeat split; eexists _, _. Qed.
Lemma no_dot_app a b : no_dot a -> no_dot b -> no_dot (a ++ b).
Proof. unfold no_dot. rewrite str_forallb_app. intros -> ->. done. Qed.
Lemma method_codes_no_dot ms : no_dot (method_codes ms).
Proof.
  destruct ms as [|m ms]; [done|]. unfold method_codes. remember (m :: ms) as l eqn:El. clear El.
  induction l as [|x l IH]; [done|]. cbn [map join]. pose proof (proj1 (proj2 (method_code_free x))).
  destruct (map as_str l) eqn:E; [done|]. rewrite <- E in *.
  apply no_dot_app; [done|]. by apply no_dot_app.
Qed.
(** The list of methods is read back. *)
Lemma method_codes_read ms :
  (if String.eqb (method_codes ms) "-" then Some [] else parse_methods (split_on "+" (method_codes ms)))
  = Some ms.
Proof.
  destruct ms as [|m ms]; [done|]. unfold method_codes.
  assert (String.eqb (join "+" (map as_str (m :: ms))) "-" = false) as ->.
  { apply String.eqb_neq. destruct (proj2 (proj2 (method_code_free m))) as (c & s & E & Hc).
    cbn [map join]. destruct (map as_str ms); rewrite E; cbn; congruence. }
  rewrite split_on_join; [apply parse_methods_codes|done|].
  apply Forall_map, Forall_forall. intros x _. apply method_code_free.
Qed.

(** What the crates promise. *)
Record crypto_laws : Prop := {
  tl_hex : forall k m, hex_decode (hex_encode (hmac_sha256 k m)) = Some (hmac_sha256 k m);
  tl_hex_dot : forall k m, no_dot (hex_encode (hmac_sha256 k m));
  tl_uuid : forall u, uuid_parse_str (uuid_to_string u) = Some u;
  tl_uuid_dot : forall u, no_dot (uuid_to_string u)
}.
(** The tickets the gate makes: the device is a hash or absent. *)
Definition ticket_wf (t : EnrollmentTicket) : Prop :=
  no_dot (et_device t) /\ et_device t <> "-" /\ in_i64 (et_expires_at t) = true.
Lemma ticket_fields_no_dot t : crypto_laws -> ticket_wf t -> Forall no_dot (ticket_fields t).
Proof.
  intros L (Hd & _ & _). unfold ticket_fields. rewrite !Forall_cons. repeat split; [| | | | |done].
  - apply L.
  - apply L.
  - by destruct (str_is_empty (et_device t)).
  - apply method_codes_no_dot.
  - by apply i64_to_string_free.
Qed.
(** A payload says what it was made of. *)
Lemma ticket_read_payload t now_ts :
  crypto_laws -> ticket_wf t ->
  ticket_read (ticket_payload t) now_ts = if (et_expires_at t <? now_ts)%Z then None else Some t.
Proof.
  intros L Hwf. unfold ticket_read, ticket_payload.
  rewrite split_on_join; [|done|by apply ticket_fields_no_dot]. destruct Hwf as (_ & Hd & Hz).
  unfold ticket_fields. rewrite !(tl_uuid L), parse_i64_to_string by done. cbn [mbind option_bind].
  destruct (et_expires_at t <? now_ts)%Z; [done|]. rewrite method_codes_read. cbn [mbind option_bind].
  f_equal. destruct t as [tn u d ms e]. cbn in *. f_equal.
  destruct d as [|c d]; [done|]. cbn [str_is_empty].
  destruct (String.eqb_spec (String c d) "-"); [done|reflexivity].
Qed.

(** [reads_as]: the five fields of a payload and the ticket they name.  A number or a
    UUID may be written in more than one way ([+1600], upper-case digits), so the
    payload need not be the one [sign] would write for the ticket. *)
Definition methods_read (codes : string) (ms : list AuthenticationMethod) : Prop :=
  codes = "-" /\ ms = []
  \/ codes <> "-" /\ map parse (split_on "+" codes) = map (@Ok DomainError AuthenticationMethod) ms.
Definition reads_as (payload : string) (t : EnrollmentTicket) : Prop :=
  exists tenant user device codes expires_at,
    payload = join "." [tenant; user; device; codes; expires_at]
    /\ uuid_parse_str tenant = Some (et_tenant_id t)
    /\ uuid_parse_str user = Some (et_user_id t)
    /\ et_device t = (if String.eqb device "-" then "" else device)
    /\ methods_read codes (et_methods t)
    /\ parse_i64 expires_at = Some (et_expires_at t).
Lemma parse_methods_Some codes ms :
  parse_methods codes = Some ms -> map parse codes = map (@Ok DomainError AuthenticationMethod) ms.
Proof.
  revert ms. induction codes as [|c codes IH]; intros ms; cbn; [by intros [= <-]|].
  destruct (parse c) as [m|e]; [|done]. cbn [ok mbind option_bind].
  destruct (parse_methods codes) as [ms'|]; [|done]. intros [= <-]. cbn. by rewrite (IH ms').
Qed.
Lemma ticket_read_Some payload now_ts t :
  ticket_read payload now_ts = Some t -> reads_as payload t /\ (now_ts <= et_expires_at t)%Z.
Proof.
  unfold ticket_read, reads_as. intros H. pose proof (join_split_on "." payload) as Hj.
  destruct (split_on "." payload) as [|tn [|u [|d [|ms [|e [|]]]]]]; try done.
  destruct (uuid_parse_str tn) as [tn'|] eqn:Et; [|done].
  destruct (uuid_parse_str u) as [u'|] eqn:Eu; [|done].
  destruct (parse_i64 e) as [z|] eqn:Ez; [|done]. cbn [mbind option_bind] in H.
  destruct (Z.ltb_spec z now_ts); [done|].
  destruct (if String.eqb ms "-" then _ else _) as [l|] eqn:El; [|done]. injection H as <-.
  split; [|done]. exists tn, u, d, ms, e. split_and!; try done.
  cbn. unfold methods_read. destruct (String.eqb_spec ms "-") as [->|]; [left; by injection El as <-|right].
  split; [done|]. by apply parse_methods_Some.
Qed.

Lemma ticket_verify_signed key t now_ts :
  crypto_laws -> ticket_wf t -> (str_len (ticket_sign key t) <= 512)%Z ->
  ticket_verify key (ticket_sign key t) now_ts
  = if (et_expires_at t <? now_ts)%Z then None else Some t.
Proof.
  intros L Hwf Hlen. unfold ticket_verify. apply Z.ltb_ge in Hlen as ->. unfold ticket_sign.
  change ("." ++ hex_encode (hmac_sha256 key (ticket_payload t)))%string
    with (String "." (hex_encode (hmac_sha256 key (ticket_payload t)))).
  rewrite rsplit_once_app by apply L. cbn [mbind option_bind]. rewrite (tl_hex L). cbn [mbind option_bind].
  rewrite String.eqb_refl. by apply ticket_read_payload.
Qed.
(** A ticket opens as it was closed.  [verify] under the key a ticket was signed
    with returns the ticket itself up to its last second, and nothing after it,
    provided the text fits in the 512 bytes [verify] reads. *)
Theorem ticket_roundtrip key t now_ts :
  crypto_laws -> ticket_wf t -> (str_len (ticket_sign key t) <= 512)%Z ->
  ticket_verify key (ticket_sign key t) now_ts
  = if (et_expires_at t <? now_ts)%Z then None else Some t.
Proof. apply ticket_verify_signed. Qed.

(** C27: Only what was signed opens.  If [verify] accepts a text, then the text is some
    payload followed by the MAC of that payload under the key, in hexadecimal; the
    payload's five fields, read as UUIDs, a device, methods and a number, are those of
    the ticket it returns, which has not expired; and if the payload is one that [sign]
    writes for a well-formed ticket, that ticket is the one returned. *)
Theorem ticket_authentic key raw now_ts t :
  crypto_laws -> ticket_verify key raw now_ts = Some t ->
  exists payload sig, raw = (payload ++ String "." sig)%string
    /\ hex_decode sig = Some (hmac_sha256 key payload)
    /\ reads_as payload t
    /\ (now_ts <= et_expires_at t)%Z
    /\ forall t', ticket_wf t' -> payload = ticket_payload t' -> t = t'.
Proof.
  intros L. unfold ticket_verify. destruct (512 <? str_len raw)%Z; [done|].
  destruct (rsplit_once "." raw) as [[payload sig]|] eqn:Er; [|done]. cbn [mbind option_bind].
  destruct (hex_decode sig) as [mac|] eqn:Eh; [|done]. cbn [mbind option_bind].
  destruct (String.eqb_spec (hmac_sha256 key payload) mac) as [<-|]; [|done]. intros H.
  exists payload, sig. pose proof (ticket_read_Some _ _ _ H) as [Hr Hl].
  split; [by apply rsplit_once_Some|]. split; [done|]. split; [done|]. split; [done|].
  intros t' Hwf ->. rewrite ticket_read_payload in H by done. destruct (_ <? _)%Z; [done|]. by injection H as <-.
Qed.
End ticket.

(** ** Witnesses *)
#[local] Existing Instance toy_hashing.
Lemma pretty_N_no_dot (n : N) : no_dot (pretty n).
Proof.
  assert (pretty n = i64_to_string (Z.of_N n)) as -> by by destruct n.
  by apply i64_to_string_free.
Qed.
(** A MAC that counts bytes, in decimal. *)
Definition toy_tickets : TicketCrypto := {|
  hmac_sha256 k m := pretty (N.of_nat (String.length (k ++ m)));
  hex_encode s := s; hex_decode s := Some s;
  uuid_parse_str s := Z.to_N <$> digits_from 0 s;
  uuid_simple u := pretty u
|}.
#[local] Existing Instance toy_tickets.
Lemma toy_crypto_laws : crypto_laws.
Proof.
  split; [done|intros; apply pretty_N_no_dot| |intros; apply pretty_N_no_dot].
  intros u. cbn -[pretty]. rewrite digits_from_pretty. cbn. by rewrite N2Z.id.
Qed.
Definition toy_ticket : EnrollmentTicket := {|
  et_tenant_id := 1%N; et_user_id := 7%N; et_device := "d"; et_methods := [Password; Totp];
  et_expires_at := 1600 |}.
Lemma toy_ticket_wf : ticket_wf toy_ticket.
Proof. by repeat split. Qed.
Lemma ticket_roundtrip_witness :
  ticket_sign "key" toy_ticket = "1.7.d.password+totp.1600.27"
  /\ ticket_verify "key" (ticket_sign "key" toy_ticket) 1600 = Some toy_ticket
  /\ ticket_verify "key" (ticket_sign "key" toy_ticket) 1601 = None.
Proof.
  split; [by vm_compute|].
  pose proof (fun now => ticket_roundtrip "key" toy_ticket now toy_crypto_laws toy_ticket_wf ltac:(by vm_compute)) as H.
  split; [exact (H 1600%Z) | exact (H 1601%Z)].
Defined.
Lemma ticket_authentic_witness :
  ticket_verify "key" "1.7.d.password+totp.1600.28" 1000 = None
  /\ exists payload sig, "1.7.d.password+totp.1600.27" = (payload ++ String "." sig)%string
    /\ hex_decode sig = Some (hmac_sha256 "key" payload)
    /\ reads_as payload toy_ticket /\ (1000 <= et_expires_at toy_ticket)%Z
    /\ forall t', ticket_wf t' -> payload = ticket_payload t' -> toy_ticket = t'.
Proof.
  split; [by vm_compute|].
  apply (ticket_authentic "key" "1.7.d.password+totp.1600.27" 1000 toy_ticket toy_crypto_laws).
  by vm_compute.
Defined.
