(* ===== verification/Membership.v ===== *)
(** * Tenant memberships ([domain/tenant_membership.rs],
      [infrastructure/repositories/tenant_membership.rs])

    Who belongs to which tenant: a HOME row is made with the user, a GUEST row by
    an invitation.  The table's primary key is (tenant, user); a row cites a user
    and a tenant, and the join with the user's own tenant decides whether the
    membership counts. *)

From S2P Require Import Prelude Values External Directory AuthSessionStore.

Record TenantMembership : Type := {
  m_tenant_id : TenantId;
  m_user_id : Uuid;
  m_membership_type : MembershipType;
  m_status : MembershipStatus;
  m_invited_by : option Uuid;
  m_invitation_token_hash : option string;
  m_invitation_expires_at : option DateTime;
  m_created_at : DateTime;
  m_updated_at : DateTime
}.
Definition new_home (tenant_id : TenantId) (user_id : Uuid) (now : DateTime) : TenantMembership := {|
  m_tenant_id := tenant_id; m_user_id := user_id; m_membership_type := MemberHome;
  m_status := MembershipActive; m_invited_by := None; m_invitation_token_hash := None;
  m_invitation_expires_at := None; m_created_at := now; m_updated_at := now |}.
Definition new_active_guest (tenant_id : TenantId) (user_id : Uuid) (now : DateTime)
  : TenantMembership := {|
  m_tenant_id := tenant_id; m_user_id := user_id; m_membership_type := MemberGuest;
  m_status := MembershipActive; m_invited_by := None; m_invitation_token_hash := None;
  m_invitation_expires_at := None; m_created_at := now; m_updated_at := now |}.
Definition is_home (m : TenantMembership) : bool := bool_decide (m_membership_type m = MemberHome).
Definition membership_is_active (m : TenantMembership) : bool :=
  bool_decide (m_status m = MembershipActive).
Definition is_suspended (m : TenantMembership) : bool :=
  bool_decide (m_status m = MembershipSuspended).
Definition can_be_suspended (m : TenantMembership) : bool :=
  negb (is_home m) && bool_decide (m_status m = MembershipActive).
Definition can_be_resumed (m : TenantMembership) : bool :=
  negb (is_home m) && bool_decide (m_status m = MembershipSuspended).

(** ** The table *)
Definition MembershipTable : Type := list TenantMembership.
Definition at_key (t : TenantId) (u : Uuid) (m : TenantMembership) : bool :=
  N.eqb (m_tenant_id m) t && N.eqb (m_user_id m) u.

(** INSERT; both timestamps are the database's. *)
Definition membership_row (m : TenantMembership) (db_now : DateTime) : TenantMembership := {|
  m_tenant_id := m_tenant_id m; m_user_id := m_user_id m;
  m_membership_type := m_membership_type m; m_status := m_status m;
  m_invited_by := m_invited_by m; m_invitation_token_hash := m_invitation_token_hash m;
  m_invitation_expires_at := to_micros <$> m_invitation_expires_at m;
  m_created_at := to_micros db_now; m_updated_at := to_micros db_now |}.
Definition insert_membership (rows : MembershipTable) (m : TenantMembership) (db_now : DateTime)
  : Result DomainError MembershipTable :=
  if existsb (at_key (m_tenant_id m) (m_user_id m)) rows
  then Err (Conflict "membership already exists")
  else Ok (rows ++ [membership_row m db_now])%list.
Definition memberships_find (rows : MembershipTable) (t : TenantId) (u : Uuid)
  : option TenantMembership := find (at_key t u) rows.
(** The join [m -> users -> home tenant], each by primary key. *)
Definition home_is_active (users : list User) (tenants : list Tenant) (u : Uuid) : bool :=
  existsb (fun x => N.eqb (u_id x) u
                    && existsb (fun h => N.eqb (t_id h) (u_tenant_id x) && tenant_is_active h) tenants) users.
Definition memberships_is_active_member (rows : MembershipTable) (users : list User)
  (tenants : list Tenant) (t : TenantId) (u : Uuid) : bool :=
  existsb (fun m => at_key t u m && membership_is_active m) rows && home_is_active users tenants u.
Definition memberships_find_by_invitation (rows : MembershipTable) (token_hash : string)
  : option TenantMembership :=
  find (fun m => bool_decide (m_invitation_token_hash m = Some token_hash)
                 && bool_decide (m_status m = MembershipInvited)) rows.
(** UPDATE .. SET; [updated_at] moves when a column changes. *)
Definition with_status (status : MembershipStatus) (token : option string) (expires : option DateTime)
  (db_now : DateTime) (m : TenantMembership) : TenantMembership := {|
  m_tenant_id := m_tenant_id m; m_user_id := m_user_id m;
  m_membership_type := m_membership_type m; m_status := status;
  m_invited_by := m_invited_by m; m_invitation_token_hash := token;
  m_invitation_expires_at := expires; m_created_at := m_created_at m;
  m_updated_at := if bool_decide (m_status m = status /\ m_invitation_token_hash m = token
                                  /\ m_invitation_expires_at m = expires)
                  then m_updated_at m else to_micros db_now |}.
Definition memberships_update_status (rows : MembershipTable) (t : TenantId) (u : Uuid)
  (status : MembershipStatus) (db_now : DateTime) : MembershipTable :=
  map (fun m => if at_key t u m
                then with_status status (m_invitation_token_hash m) (m_invitation_expires_at m) db_now m
                else m) rows.
Definition memberships_activate (rows : MembershipTable) (t : TenantId) (u : Uuid) (db_now : DateTime)
  : MembershipTable :=
  map (fun m => if at_key t u m then with_status MembershipActive None None db_now m else m) rows.
Definition memberships_delete (rows : MembershipTable) (t : TenantId) (u : Uuid) : MembershipTable :=
  List.filter (fun m => negb (at_key t u m)) rows.

(** ** Lemmas *)
(** The user [u] may act in the tenant [t]: an active membership there, and an
    active home tenant. *)
Definition active_member (rows : MembershipTable) (users : list User) (tenants : list Tenant)
  (t : TenantId) (u : Uuid) : Prop :=
  (exists m, In m rows /\ m_tenant_id m = t /\ m_user_id m = u /\ m_status m = MembershipActive)
  /\ exists x h, In x users /\ u_id x = u /\ In h tenants /\ t_id h = u_tenant_id x
                 /\ t_status h = TenantActive.
Lemma is_active_member_true rows users tenants t u :
  memberships_is_active_member rows users tenants t u = true <->
  active_member rows users tenants t u.
Proof.
  unfold memberships_is_active_member, active_member, home_is_active, at_key, membership_is_active,
    tenant_is_active.
  rewrite andb_true_iff, !existsb_exists. split.
  - intros [(m & Hm & [[Ht%N.eqb_eq Hu%N.eqb_eq]%andb_true_iff Hs%bool_decide_eq_true]%andb_true_iff)
            (x & Hx & [Hi%N.eqb_eq (h & Hh & [Hti%N.eqb_eq Hts%bool_decide_eq_true]%andb_true_iff)%existsb_exists]%andb_true_iff)].
    split; [by exists m | by exists x, h].
  - intros [(m & Hm & <- & <- & Hs) (x & h & Hx & Hxi & Hh & Hti & Hts)]. split.
    + exists m. by rewrite !N.eqb_refl, bool_decide_eq_true_2.
    + exists x. split; [done|]. rewrite Hxi, N.eqb_refl. cbn. apply existsb_exists. exists h.
      by rewrite Hti, N.eqb_refl, bool_decide_eq_true_2.
Qed.
