(* ===== verification/IdentifierLookup.v ===== *)
(** * Looking a login identifier up ([resolve_login_identifier] of
      [infrastructure/repositories/user.rs],
      [infrastructure/repositories/tenant_domain.rs])

    The registry of identifiers joined with users, and in two of the three scopes with
    memberships and home tenants.  The query answers at most two users: one is the
    answer, two are an ambiguity. *)

From S2P Require Import Prelude Values External Directory Membership LoginIdentifier.

Inductive IdentifierScope : Type :=
  | ScopeHome | ScopeActiveGuest | ScopeMemberWithHomeTenant (home : TenantId).

Section lookup.
Context {CO : Collation}.

(** [i.is_active = 1], the switch for e-mail identifiers, and the IN list. *)
Definition identifier_admits (tenants : list Tenant) (candidates : list (LoginIdentifierType * string))
  (i : UserLoginIdentifier) : bool :=
  li_is_active i
  && (negb (bool_decide (li_identifier_type i = Email))
      || existsb (fun t => N.eqb (t_id t) (li_tenant_id i) && t_email_login_enabled t) tenants)
  && existsb (fun c => bool_decide (c.1 = li_identifier_type i) && collates (li_normalized_value i) c.2)
       candidates.
(** [JOIN tenant_memberships m ON m.user_id = u.id JOIN tenants home ..]. *)
Definition joined (members : MembershipTable) (tenants : list Tenant) (t : TenantId) (u : User)
  (membership_ok : TenantMembership -> bool) : bool :=
  existsb (fun m => at_key t (u_id u) m && membership_ok m) members
  && existsb (fun h => N.eqb (t_id h) (u_tenant_id u) && tenant_is_active h) tenants.
Definition in_scope (members : MembershipTable) (tenants : list Tenant) (scope : IdentifierScope)
  (t : TenantId) (i : UserLoginIdentifier) (u : User) : bool :=
  match scope with
  | ScopeHome => N.eqb (li_tenant_id i) t
  | ScopeActiveGuest =>
      joined members tenants t u
        (fun m => bool_decide (m_membership_type m = MemberGuest) && membership_is_active m)
      && N.eqb (li_tenant_id i) (u_tenant_id u)
  | ScopeMemberWithHomeTenant home =>
      joined members tenants t u membership_is_active
      && N.eqb (u_tenant_id u) home && N.eqb (li_tenant_id i) (u_tenant_id u)
  end.
(** Whether the user is in the answer: SELECT DISTINCT over the joins. *)
Definition identified (identifiers : list UserLoginIdentifier) (members : MembershipTable)
  (tenants : list Tenant) (scope : IdentifierScope) (t : TenantId)
  (candidates : list (LoginIdentifierType * string)) (u : User) : bool :=
  existsb (fun i => N.eqb (li_user_id i) (u_id u) && in_scope members tenants scope t i u
                    && identifier_admits tenants candidates i) identifiers.
Definition identifiers_select (identifiers : list UserLoginIdentifier) (members : MembershipTable)
  (users : list User) (tenants : list Tenant) (scope : IdentifierScope) (t : TenantId)
  (candidates : list (LoginIdentifierType * string)) : list User :=
  take 2 (List.filter (identified identifiers members tenants scope t candidates) users).
(** [rows.len()]. *)
Definition match_of_rows (rows : list User) : LoginIdentifierMatch :=
  match rows with
  | [] => Unresolved ReasonNotFound
  | [u] => Resolved u
  | _ => Unresolved Ambiguous
  end.

(** Exactly one user answers. *)
Lemma match_of_rows_Resolved identifiers members users tenants scope t candidates u :
  match_of_rows (identifiers_select identifiers members users tenants scope t candidates) = Resolved u ->
  In u users /\ identified identifiers members tenants scope t candidates u = true
  /\ forall v, In v users -> identified identifiers members tenants scope t candidates v = true -> v = u.
Proof.
  unfold identifiers_select. set (p := identified _ _ _ _ _ _).
  assert (forall v, In v users /\ p v = true <-> In v (List.filter p users)) as Hf
    by (intros v; by rewrite filter_In).
  destruct (List.filter p users) as [|a [|b rest]] eqn:E; cbn; [done| |done].
  intros [= ->]. destruct (proj2 (Hf u) (or_introl eq_refl)) as [Hu Hp].
  repeat split; [done..|]. intros v Hv Hpv. destruct (proj1 (Hf v) (conj Hv Hpv)) as [|[]]; done.
Qed.
Lemma match_of_rows_Ambiguous rows :
  match_of_rows rows = Unresolved Ambiguous -> exists a b rest, rows = a :: b :: rest.
Proof. destruct rows as [|a [|b rest]]; try done. eauto. Qed.

(** [find_tenant_by_domain]: the domain is a unique key. *)
Definition domains_find_tenant (rows : list TenantDomain) (domain : string) : option TenantId :=
  td_tenant_id <$> find (fun d => collates (td_domain d) domain) rows.
End lookup.
