(* ===== verification/Consent.v ===== *)
(** * Consent ([domain/consent.rs], [infrastructure/repositories/consent.rs])

    What a user has granted a client, one row per (user, tenant, client).  The
    client is compared by the database's collation. *)

From S2P Require Import Prelude Values External AuthSessionStore.

Record ClientConsent : Type := {
  cn_user_id : Uuid;
  cn_tenant_id : TenantId;
  cn_client_id : string;
  cn_scopes : list string;
  cn_granted_at : DateTime;
  cn_updated_at : DateTime
}.
Definition covers (c : ClientConsent) (required_scopes : list string) : bool :=
  forallb (fun s => bool_decide (s ∈ cn_scopes c)) required_scopes.

Definition ConsentTable : Type := list ClientConsent.
Section table.
Context {CO : Collation}.

Definition consent_key (t : TenantId) (u : Uuid) (client_id : string) (c : ClientConsent) : bool :=
  N.eqb (cn_user_id c) u && N.eqb (cn_tenant_id c) t && collates (cn_client_id c) client_id.
Definition consents_find (rows : ConsentTable) (t : TenantId) (u : Uuid) (client_id : string)
  : option ClientConsent := find (consent_key t u client_id) rows.
(** INSERT .. ON DUPLICATE KEY UPDATE scopes, updated_at. *)
Definition consents_upsert (rows : ConsentTable) (c : ClientConsent) : ConsentTable :=
  let same := consent_key (cn_tenant_id c) (cn_user_id c) (cn_client_id c) in
  if existsb same rows
  then map (fun r => if same r then {|
         cn_user_id := cn_user_id r; cn_tenant_id := cn_tenant_id r; cn_client_id := cn_client_id r;
         cn_scopes := cn_scopes c; cn_granted_at := cn_granted_at r;
         cn_updated_at := to_micros (cn_updated_at c) |} else r) rows
  else (rows ++ [{|
    cn_user_id := cn_user_id c; cn_tenant_id := cn_tenant_id c; cn_client_id := cn_client_id c;
    cn_scopes := cn_scopes c; cn_granted_at := to_micros (cn_granted_at c);
    cn_updated_at := to_micros (cn_updated_at c) |}])%list.
Definition consents_revoke (rows : ConsentTable) (t : TenantId) (u : Uuid) (client_id : string)
  : ConsentTable := List.filter (fun c => negb (consent_key t u client_id c)) rows.

(** ** Lemmas *)
Lemma covers_true c scopes : covers c scopes = true <-> forall s, In s scopes -> In s (cn_scopes c).
Proof.
  unfold covers. rewrite forallb_forall. setoid_rewrite bool_decide_eq_true.
  by setoid_rewrite list_elem_of_In.
Qed.
Lemma find_map_same {A} (p : A -> bool) f l :
  (forall x, p x = true -> p (f x) = true) ->
  find p (map (fun x => if p x then f x else x) l) = f <$> find p l.
Proof.
  intros Hf. induction l as [|x l IH]; [done|]. cbn. destruct (p x) eqn:E.
  - by rewrite (Hf x E).
  - by rewrite E.
Qed.
(** What is granted is found, for every spelling of the client the collation
    takes for the same. *)
Lemma upsert_find rows c client_id :
  collates (cn_client_id c) client_id = true ->
  exists c', consents_find (consents_upsert rows c) (cn_tenant_id c) (cn_user_id c) client_id = Some c'
    /\ cn_scopes c' = cn_scopes c.
Proof.
  intros Hc%String.eqb_eq. unfold consents_find, consents_upsert.
  set (same := consent_key (cn_tenant_id c) (cn_user_id c) (cn_client_id c)).
  assert (forall r, consent_key (cn_tenant_id c) (cn_user_id c) client_id r = same r) as Hs.
  { intros r. unfold same, consent_key, collates. by rewrite Hc. }
  assert (forall l, find (consent_key (cn_tenant_id c) (cn_user_id c) client_id) l = find same l) as ->.
  { induction l as [|r l IH]; [done|]. cbn. by rewrite Hs, IH. }
  destruct (existsb same rows) eqn:E.
  - rewrite find_map_same by (intros r Hr; exact Hr).
    destruct (find same rows) as [r|] eqn:F; [by eexists|]. exfalso.
    apply existsb_exists in E as (r & Hr & Hsr). by rewrite (find_none _ _ F r Hr) in Hsr.
  - clear Hs Hc. induction rows as [|r rows IH]; cbn in *.
    + unfold same, consent_key, collates. cbn. rewrite !N.eqb_refl, String.eqb_refl. by eexists.
    + apply orb_false_iff in E as [-> E]. by apply IH.
Qed.
End table.
