(* ===== verification/SignInStore.v ===== *)
(** * The tables of a sign-in, and their statements

    What the authorization endpoint and the sign-in write besides codes and
    users: authentication sessions, SSO sessions, consents, devices and authenticators.  [SignInStmt] has
    one constructor per SQL statement of their repositories; the function of the
    same name in [AuthSessionStore], [SsoSession], [Consent], [UserDevice] or
    [Authenticator] says what it does. *)

From S2P Require Import Prelude Values External AuthSession AuthSessionStore SsoSession Consent UserDevice.
From S2P Require Import Authenticator.

Record SignInTables : Type := {
  si_sessions : list AuthSessionRow;
  si_sso : SsoTables;
  si_consents : ConsentTable;
  si_devices : DeviceTable;
  si_auths : AuthenticatorTable
}.
Definition set_sessions (d : SignInTables) (x : list AuthSessionRow) : SignInTables := {|
  si_sessions := x; si_sso := si_sso d; si_consents := si_consents d;
  si_devices := si_devices d; si_auths := si_auths d |}.
Definition set_sso (d : SignInTables) (x : SsoTables) : SignInTables := {|
  si_sessions := si_sessions d; si_sso := x; si_consents := si_consents d;
  si_devices := si_devices d; si_auths := si_auths d |}.
Definition set_consents (d : SignInTables) (x : ConsentTable) : SignInTables := {|
  si_sessions := si_sessions d; si_sso := si_sso d; si_consents := x;
  si_devices := si_devices d; si_auths := si_auths d |}.
Definition set_devices (d : SignInTables) (x : DeviceTable) : SignInTables := {|
  si_sessions := si_sessions d; si_sso := si_sso d; si_consents := si_consents d;
  si_devices := x; si_auths := si_auths d |}.
Definition set_auths (d : SignInTables) (x : AuthenticatorTable) : SignInTables := {|
  si_sessions := si_sessions d; si_sso := si_sso d; si_consents := si_consents d;
  si_devices := si_devices d; si_auths := x |}.

Inductive SignInStmt : Type -> Type :=
  | SessionsCreate (s : AuthSession) : SignInStmt unit
  | SessionsFind (t : TenantId) (i : AuthSessionIdHash) : SignInStmt (option AuthSession)
  | SessionsFindByHandoff (t : TenantId) (h : HandoffHandleHash) : SignInStmt (option AuthSession)
  | SessionsSaveHandoffExchange (x : HandoffExchange) : SignInStmt bool
  | SessionsSavePasswordVerification (v : PasswordVerification) : SignInStmt unit
  | SessionsSaveAuthentication (c : AuthenticationCompletion) : SignInStmt unit
  | SessionsDelete (i : AuthSessionIdHash) : SignInStmt unit
  | SessionsDeleteExpired (now : DateTime) : SignInStmt nat
  | SsoCreateStmt (s : SsoSession) : SignInStmt unit
  | SsoFindByHash (h : string) : SignInStmt (option SsoSession)
  | SsoExtendIdleStmt (h : string) (idle : DateTime) : SignInStmt unit
  | SsoSetLifetimeStmt (h : string) (idle absolute : DateTime) : SignInStmt unit
  | SsoSecondFactor (h : string) (methods : list AuthenticationMethod) (at_ : DateTime) : SignInStmt unit
  | SsoStepUp (h : string) (methods : list AuthenticationMethod) (at_ : DateTime) : SignInStmt unit
  | SsoContextPut (h : string) (at_ : DateTime) : SignInStmt unit
  | SsoPasskeyVerifiedAt (h : string) : SignInStmt (option DateTime)
  | SsoDeleteStmt (h : string) : SignInStmt unit
  | SsoDeleteAllForUserStmt (u : Uuid) : SignInStmt unit
  | SsoDeleteAllExcept (u : Uuid) (keep : string) : SignInStmt unit
  | SsoDeleteExpiredStmt (now : DateTime) : SignInStmt unit
  | ConsentsFind (t : TenantId) (u : Uuid) (client_id : string) : SignInStmt (option ClientConsent)
  | ConsentsUpsert (c : ClientConsent) : SignInStmt unit
  | ConsentsRevoke (t : TenantId) (u : Uuid) (client_id : string) : SignInStmt unit
  | DevicesFind (u : Uuid) (device : DeviceRef) : SignInStmt (option UserDevice)
  | DevicesInsert (x : UserDevice) : SignInStmt unit
  | DevicesDelete (u device_id : Uuid) : SignInStmt (option UserDevice)
  | DevicesTouch (device_id : Uuid) (used_at : DateTime) (country : option CountryCode)
      (ip : option string) : SignInStmt unit
  | DevicesDeleteUnusedBefore (cutoff : DateTime) : SignInStmt (list UserDevice)
  | AuthsCreate (a : UserAuthenticator) : SignInStmt unit
  | AuthsFindById (i : Uuid) : SignInStmt (option UserAuthenticator)
  | AuthsListForUser (u : Uuid) : SignInStmt (list UserAuthenticator)
  | AuthsListUsable (u : Uuid) (t : option AuthenticatorType) (now : DateTime)
      : SignInStmt (list UserAuthenticator)
  | AuthsUpdateStatus (i u : Uuid) (status : AuthenticatorStatus) (at_ : DateTime) : SignInStmt bool
  | AuthsClaimCode (u : Uuid) (t : AuthenticatorType) (h : string) (now : DateTime) : SignInStmt nat
  | AuthsClaimedCode (u : Uuid) (t : AuthenticatorType) (h : string)
      : SignInStmt (option UserAuthenticator)
  | AuthsRevokeAllOfType (u : Uuid) (t : AuthenticatorType) (at_ : DateTime) : SignInStmt nat
  | AuthsRevokeIssuedCodes (u : Uuid) (t : AuthenticatorType) (at_ : DateTime) : SignInStmt nat
  | AuthsConfirmPending (u : Uuid) (t : AuthenticatorType) (h : string) (now : DateTime) : SignInStmt nat
  | AuthsConfirmed (u : Uuid) (t : AuthenticatorType) : SignInStmt (option UserAuthenticator)
  | AuthsDeleteExpired (now : DateTime) : SignInStmt unit
  | TotpUpsert (s : TotpSecret) : SignInStmt unit
  | TotpFindByUserId (u : Uuid) : SignInStmt (option TotpSecret)
  | TotpConfirm (u : Uuid) (confirmed_at : DateTime) : SignInStmt unit
  | TotpDelete (u : Uuid) : SignInStmt unit
  | TotpRecordStep (u : Uuid) (step : Z) (at_ : DateTime) : SignInStmt bool.

Section statements.
Context {CO : Collation} {HS : Hashing}.

(** A write whose refusal leaves the table alone. *)
Definition written {T A} (r : Result DomainError T) (a : A) (d : SignInTables)
  (set : T -> SignInTables) : Result DomainError A * SignInTables :=
  match r with Ok x => (Ok a, set x) | Err e => (Err e, d) end.

Definition exec_sign_in {A} (s : SignInStmt A) (db_now : DateTime) (d : SignInTables)
  : Result DomainError A * SignInTables :=
  match s with
  | SessionsCreate x => written (sql_create (si_sessions d) x db_now) tt d (set_sessions d)
  | SessionsFind t i => (sql_find (si_sessions d) t i, d)
  | SessionsFindByHandoff t h => (sql_find_by_handoff (si_sessions d) t h, d)
  | SessionsSaveHandoffExchange x =>
      match sql_save_handoff_exchange (si_sessions d) x db_now with
      | Ok (rows, b) => (Ok b, set_sessions d rows)
      | Err e => (Err e, d)
      end
  | SessionsSavePasswordVerification v =>
      written (sql_save_password_verification (si_sessions d) v db_now) tt d (set_sessions d)
  | SessionsSaveAuthentication c =>
      written (sql_save_authentication (si_sessions d) c db_now) tt d (set_sessions d)
  | SessionsDelete i => (Ok tt, set_sessions d (sql_delete (si_sessions d) i))
  | SessionsDeleteExpired now =>
      let '(rows, n) := sql_delete_expired (si_sessions d) now in (Ok n, set_sessions d rows)
  | SsoCreateStmt x =>
      match sso_create (si_sso d) x db_now with
      | Some t => (Ok tt, set_sso d t)
      | None => (duplicate_key, d)
      end
  | SsoFindByHash h => (Ok (sso_find_by_hash (si_sso d) h), d)
  | SsoExtendIdleStmt h idle => (Ok tt, set_sso d (sso_extend_idle h idle db_now (si_sso d)))
  | SsoSetLifetimeStmt h idle absolute =>
      (Ok tt, set_sso d (sso_set_lifetime h idle absolute db_now (si_sso d)))
  | SsoSecondFactor h methods at_ =>
      (Ok tt, set_sso d (sso_record_second_factor h methods at_ db_now (si_sso d)))
  | SsoStepUp h methods at_ =>
      (Ok tt, set_sso d (sso_step_up_row h methods at_ db_now (si_sso d)))
  | SsoContextPut h at_ =>
      match context_put h at_ (si_sso d) with
      | Some t => (Ok tt, set_sso d t)
      | None => (Err (Repository "Cannot add or update a child row"), d)
      end
  | SsoPasskeyVerifiedAt h => (Ok (sso_passkey_verified_at (si_sso d) h), d)
  | SsoDeleteStmt h => (Ok tt, set_sso d (sso_delete h (si_sso d)))
  | SsoDeleteAllForUserStmt u => (Ok tt, set_sso d (sso_delete_all_for_user u (si_sso d)))
  | SsoDeleteAllExcept u keep =>
      (Ok tt, set_sso d (sso_delete_all_for_user_except u keep (si_sso d)))
  | SsoDeleteExpiredStmt now => (Ok tt, set_sso d (sso_delete_expired now (si_sso d)))
  | ConsentsFind t u client_id => (Ok (consents_find (si_consents d) t u client_id), d)
  | ConsentsUpsert c => (Ok tt, set_consents d (consents_upsert (si_consents d) c))
  | ConsentsRevoke t u client_id =>
      (Ok tt, set_consents d (consents_revoke (si_consents d) t u client_id))
  | DevicesFind u device => (Ok (devices_find (si_devices d) u device), d)
  | DevicesInsert x => written (devices_insert (si_devices d) x) tt d (set_devices d)
  | DevicesDelete u device_id =>
      let '(rows, x) := devices_delete (si_devices d) u device_id in (Ok x, set_devices d rows)
  | DevicesTouch device_id used_at country ip =>
      (Ok tt, set_devices d (devices_touch (si_devices d) device_id used_at country ip))
  | DevicesDeleteUnusedBefore cutoff =>
      let '(rows, x) := devices_delete_unused_before (si_devices d) cutoff in (Ok x, set_devices d rows)
  | AuthsCreate a => written (auths_create (si_auths d) a db_now) tt d (set_auths d)
  | AuthsFindById i => (Ok (auths_find_by_id (si_auths d) i), d)
  | AuthsListForUser u => (Ok (auths_list_for_user (si_auths d) u), d)
  | AuthsListUsable u t now => (Ok (auths_list_usable (si_auths d) u t now), d)
  | AuthsUpdateStatus i u status at_ =>
      let '(rows, b) := auths_update_status (si_auths d) i u status at_ db_now in (Ok b, set_auths d rows)
  | AuthsClaimCode u t h now =>
      let '(rows, n) := auths_claim_code (si_auths d) u t h now db_now in (Ok n, set_auths d rows)
  | AuthsClaimedCode u t h => (Ok (auths_claimed_code (si_auths d) u t h), d)
  | AuthsRevokeAllOfType u t at_ =>
      let '(rows, n) := auths_revoke_all_of_type (si_auths d) u t at_ db_now in (Ok n, set_auths d rows)
  | AuthsRevokeIssuedCodes u t at_ =>
      let '(rows, n) := auths_revoke_issued_codes (si_auths d) u t at_ db_now in (Ok n, set_auths d rows)
  | AuthsConfirmPending u t h now =>
      let '(rows, n) := auths_confirm_pending (si_auths d) u t h now db_now in (Ok n, set_auths d rows)
  | AuthsConfirmed u t => (Ok (auths_confirmed (si_auths d) u t), d)
  | AuthsDeleteExpired now => (Ok tt, set_auths d (auths_delete_expired (si_auths d) now))
  | TotpUpsert s => written (totp_upsert (si_auths d) s db_now) tt d (set_auths d)
  | TotpFindByUserId u => (Ok (totp_find_by_user_id (si_auths d) u), d)
  | TotpConfirm u confirmed_at => (Ok tt, set_auths d (totp_confirm (si_auths d) u confirmed_at db_now))
  | TotpDelete u => (Ok tt, set_auths d (totp_delete (si_auths d) u db_now))
  | TotpRecordStep u step at_ =>
      let '(rows, b) := totp_record_step (si_auths d) u step at_ db_now in (Ok b, set_auths d rows)
  end.
End statements.

(** ** What a statement leaves alone *)
Definition SignInProp : Type := forall A, SignInStmt A -> Prop.
Definition keeps_sessions : SignInProp := fun A s =>
  match s with
  | SessionsCreate _ | SessionsSaveHandoffExchange _ | SessionsSavePasswordVerification _
  | SessionsSaveAuthentication _ | SessionsDelete _ | SessionsDeleteExpired _ => False
  | _ => True
  end.
Definition keeps_sso : SignInProp := fun A s =>
  match s with
  | SsoCreateStmt _ | SsoExtendIdleStmt _ _ | SsoSetLifetimeStmt _ _ _ | SsoSecondFactor _ _ _
  | SsoStepUp _ _ _ | SsoContextPut _ _ | SsoDeleteStmt _ | SsoDeleteAllForUserStmt _
  | SsoDeleteAllExcept _ _ | SsoDeleteExpiredStmt _ => False
  | _ => True
  end.
Definition keeps_consents : SignInProp := fun A s =>
  match s with ConsentsUpsert _ | ConsentsRevoke _ _ _ => False | _ => True end.

Definition keeps_devices : SignInProp := fun A s =>
  match s with
  | DevicesInsert _ | DevicesDelete _ _ | DevicesTouch _ _ _ _ | DevicesDeleteUnusedBefore _ => False
  | _ => True
  end.

Definition keeps_auths : SignInProp := fun A s =>
  match s with
  | AuthsCreate _ | AuthsUpdateStatus _ _ _ _ | AuthsClaimCode _ _ _ _ | AuthsRevokeAllOfType _ _ _
  | AuthsRevokeIssuedCodes _ _ _ | AuthsConfirmPending _ _ _ _ | AuthsDeleteExpired _ | TotpUpsert _
  | TotpConfirm _ _ | TotpDelete _ | TotpRecordStep _ _ _ => False
  | _ => True
  end.

Section frames.
Context {CO : Collation} {HS : Hashing}.
Ltac by_stmt :=
  intros A s now d; destruct s; cbn; try done; intros _; unfold written;
  by repeat case_match.
Lemma exec_keeps_sessions A (s : SignInStmt A) now d :
  keeps_sessions A s -> si_sessions (exec_sign_in s now d).2 = si_sessions d.
Proof. revert A s now d. by_stmt. Qed.
Lemma exec_keeps_sso A (s : SignInStmt A) now d :
  keeps_sso A s -> si_sso (exec_sign_in s now d).2 = si_sso d.
Proof. revert A s now d. by_stmt. Qed.
Lemma exec_keeps_consents A (s : SignInStmt A) now d :
  keeps_consents A s -> si_consents (exec_sign_in s now d).2 = si_consents d.
Proof. revert A s now d. by_stmt. Qed.
Lemma exec_keeps_devices A (s : SignInStmt A) now d :
  keeps_devices A s -> si_devices (exec_sign_in s now d).2 = si_devices d.
Proof. revert A s now d. by_stmt. Qed.
Lemma exec_keeps_auths A (s : SignInStmt A) now d :
  keeps_auths A s -> si_auths (exec_sign_in s now d).2 = si_auths d.
Proof. revert A s now d. by_stmt. Qed.
End frames.
