(* ===== verification/AuthorizationCode.v ===== *)
(** * Authorization codes ([domain/authorization_code.rs], [domain/pkce.rs],
      [infrastructure/repositories/authorization_code.rs])

    The single-use code: how it is issued from an authorization request, how
    [/token] checks it against what the client presents, and the table it is
    consumed from.  One SQL statement is one function on the table. *)

From S2P Require Import Prelude Values External AuthorizationRequest AuthSession.
From S2P Require Import AuthSessionStore.

(** ** PKCE ([domain/pkce.rs]) *)
Definition MIN_VERIFIER_LEN : Z := 43.
Definition MAX_VERIFIER_LEN : Z := 128.
Definition is_verifier_char (c : ascii) : bool :=
  is_ascii_alphanumeric c
  || (Ascii.eqb c "-" || Ascii.eqb c "." || Ascii.eqb c "_" || Ascii.eqb c "~")%char.
Definition is_valid_code_verifier (verifier : string) : bool :=
  (MIN_VERIFIER_LEN <=? str_len verifier)%Z && (str_len verifier <=? MAX_VERIFIER_LEN)%Z
  && str_forallb is_verifier_char verifier.

Section pkce.
Context {HS : Hashing}.
Definition s256_challenge (code_verifier : string) : string := sha256_base64url code_verifier.
Definition verify_s256 (code_verifier code_challenge : string) : bool :=
  String.eqb (s256_challenge code_verifier) code_challenge.
End pkce.

(** ** The aggregate *)
Record AuthorizationCodeValue : Type := { code_plain : string }.
Record AuthorizationCodeHash : Type := { code_hash_value : string }.
#[export] Instance AuthorizationCodeHash_eq_dec : EqDecision AuthorizationCodeHash.
Proof. solve_decision. Defined.

Definition code_from_presented (raw : string) : option AuthorizationCodeValue :=
  if str_is_empty raw then None else Some {| code_plain := raw |}.

Record CodeGrant : Type := {
  cg_client_id : string;
  cg_redirect_uri : string;
  cg_scope : list string;
  cg_nonce : string;
  cg_pkce : PkceChallenge
}.
Definition code_grant_of (rq : AuthorizationRequest) : CodeGrant := {|
  cg_client_id := rq_client_id rq; cg_redirect_uri := rq_redirect_uri rq;
  cg_scope := rq_scope rq; cg_nonce := rq_nonce rq; cg_pkce := rq_pkce rq |}.
Definition grant_includes (g : CodeGrant) (s : Scope) : bool :=
  existsb (fun v => String.eqb v (as_str s)) (cg_scope g).
Definition grant_scope_string (g : CodeGrant) : string := join " " (cg_scope g).

Inductive CodeRedemptionRejection : Type :=
  | IssuedToAnotherClient | RedirectUriMismatch | PkceMismatch.

Record AuthorizationCode : Type := {
  ac_hash : AuthorizationCodeHash;
  ac_tenant_id : TenantId;
  ac_grant : CodeGrant;
  ac_auth : Authentication;
  ac_expires_at : DateTime;
  ac_used_at : option DateTime;
  ac_created_at : DateTime;
  ac_updated_at : DateTime
}.
Definition code_is_used (c : AuthorizationCode) : bool := is_some (ac_used_at c).
Definition code_is_expired_at (c : AuthorizationCode) (now : DateTime) : bool :=
  (ac_expires_at c <=? now)%Z.

Section aggregate.
Context {HS : Hashing}.

Definition hash_code (v : AuthorizationCodeValue) : AuthorizationCodeHash :=
  {| code_hash_value := sha256_hex (code_plain v) |}.

(** [AuthorizationCode::issue]; [fresh] is the value the generator draws. *)
Definition issue (tenant_id : TenantId) (rq : AuthorizationRequest) (a : Authentication)
  (now : DateTime) (lifetime : Duration) (fresh : AuthorizationCodeValue)
  : AuthorizationCode * AuthorizationCodeValue :=
  ({| ac_hash := hash_code fresh; ac_tenant_id := tenant_id; ac_grant := code_grant_of rq;
      ac_auth := a; ac_expires_at := (now + lifetime)%Z; ac_used_at := None;
      ac_created_at := now; ac_updated_at := now |}, fresh).

(** [AuthorizationCode::redeem]: client, then redirect_uri, then PKCE. *)
Definition redeem (c : AuthorizationCode) (client_id : string) (redirect_uri : option string)
  (code_verifier : string) : Result CodeRedemptionRejection unit :=
  if negb (String.eqb (cg_client_id (ac_grant c)) client_id) then Err IssuedToAnotherClient
  else if negb (bool_decide (redirect_uri = Some (cg_redirect_uri (ac_grant c))))
  then Err RedirectUriMismatch
  else if negb (verify_s256 code_verifier (pk_challenge (cg_pkce (ac_grant c))))
  then Err PkceMismatch
  else Ok tt.

Lemma redeem_Ok c client_id redirect_uri v :
  redeem c client_id redirect_uri v = Ok tt <->
  cg_client_id (ac_grant c) = client_id
  /\ redirect_uri = Some (cg_redirect_uri (ac_grant c))
  /\ s256_challenge v = pk_challenge (cg_pkce (ac_grant c)).
Proof.
  unfold redeem, verify_s256.
  destruct (String.eqb_spec (cg_client_id (ac_grant c)) client_id); cbn; [|naive_solver].
  case_bool_decide; cbn; [|naive_solver].
  destruct (String.eqb_spec (s256_challenge v) (pk_challenge (cg_pkce (ac_grant c))));
    cbn; naive_solver.
Qed.
End aggregate.

(** ** The [authorization_codes] table

    A row keeps the aggregate with its timestamps at microseconds; the primary
    key is [code_hash].  [client_id]'s collation plays no part: no statement
    compares it. *)
Definition truncate_code (c : AuthorizationCode) (db_now : DateTime) : AuthorizationCode := {|
  ac_hash := ac_hash c; ac_tenant_id := ac_tenant_id c; ac_grant := ac_grant c;
  ac_auth := {| au_user_id := au_user_id (ac_auth c);
                au_auth_time := to_micros (au_auth_time (ac_auth c));
                au_sso_sid := au_sso_sid (ac_auth c); au_methods := au_methods (ac_auth c) |};
  ac_expires_at := to_micros (ac_expires_at c); ac_used_at := to_micros <$> ac_used_at c;
  ac_created_at := to_micros db_now; ac_updated_at := to_micros db_now |}.
Definition with_used_at (db_now : DateTime) (t : DateTime) (c : AuthorizationCode)
  : AuthorizationCode := {|
  ac_hash := ac_hash c; ac_tenant_id := ac_tenant_id c; ac_grant := ac_grant c;
  ac_auth := ac_auth c; ac_expires_at := ac_expires_at c; ac_used_at := Some (to_micros t);
  ac_created_at := ac_created_at c; ac_updated_at := to_micros db_now |}.

Definition CodeTable : Type := list AuthorizationCode.
Definition code_has_hash (h : AuthorizationCodeHash) (c : AuthorizationCode) : bool :=
  bool_decide (ac_hash c = h).

(** INSERT; [None] is the primary key's violation. *)
Definition codes_create (rows : CodeTable) (c : AuthorizationCode) (db_now : DateTime)
  : option CodeTable :=
  if existsb (code_has_hash (ac_hash c)) rows then None
  else Some (rows ++ [truncate_code c db_now])%list.

(** UPDATE .. SET used_at = now WHERE code_hash = h AND tenant_id = t
    AND used_at IS NULL AND expires_at > now. *)
Definition consumable (t : TenantId) (h : AuthorizationCodeHash) (now : DateTime)
  (c : AuthorizationCode) : bool :=
  code_has_hash h c && N.eqb (ac_tenant_id c) t
  && negb (code_is_used c) && (to_micros now <? ac_expires_at c)%Z.
Definition codes_mark_used (rows : CodeTable) (t : TenantId) (h : AuthorizationCodeHash)
  (now db_now : DateTime) : CodeTable * nat :=
  (map (fun c => if consumable t h now c then with_used_at db_now now c else c) rows,
   length (List.filter (consumable t h now) rows)).
(** SELECT .. WHERE code_hash = h. *)
Definition codes_select (rows : CodeTable) (h : AuthorizationCodeHash) : option AuthorizationCode :=
  find (code_has_hash h) rows.
(** SELECT .. WHERE code_hash = h AND tenant_id = t AND used_at IS NOT NULL. *)
Definition codes_find_used (rows : CodeTable) (t : TenantId) (h : AuthorizationCodeHash)
  : option AuthorizationCode :=
  find (fun c => code_has_hash h c && N.eqb (ac_tenant_id c) t && code_is_used c) rows.
(** [revoke_all_active_for_user]. *)
Definition codes_revoke_all_active (rows : CodeTable) (user_id : Uuid) (now db_now : DateTime)
  : CodeTable :=
  map (fun c => if N.eqb (au_user_id (ac_auth c)) user_id && negb (code_is_used c)
                   && (to_micros now <? ac_expires_at c)%Z
                then with_used_at db_now now c else c) rows.
(** DELETE FROM authorization_codes WHERE expires_at <= now. *)
Definition codes_purge (rows : CodeTable) (now : DateTime) : CodeTable :=
  List.filter (fun c => negb (ac_expires_at c <=? to_micros now)%Z) rows.

(** ** Lemmas *)

(** The hash [h] can be consumed again only if some row with it is unused. *)
Definition fresh_in (h : AuthorizationCodeHash) (rows : CodeTable) : Prop :=
  exists c, In c rows /\ ac_hash c = h /\ ac_used_at c = None.

Lemma code_has_hash_true h c : code_has_hash h c = true <-> ac_hash c = h.
Proof. apply bool_decide_eq_true. Qed.
Lemma consumable_true t h now c :
  consumable t h now c = true <->
  ac_hash c = h /\ ac_tenant_id c = t /\ ac_used_at c = None /\ (to_micros now < ac_expires_at c)%Z.
Proof.
  unfold consumable, code_is_used.
  rewrite !andb_true_iff, code_has_hash_true, N.eqb_eq, negb_true_iff, Z.ltb_lt.
  destruct (ac_used_at c); cbn; naive_solver.
Qed.
Lemma filter_length_pos {A} (p : A -> bool) l :
  (0 < length (List.filter p l))%nat <-> exists x, In x l /\ p x = true.
Proof.
  induction l as [|x l IH]; cbn; [split; [lia | naive_solver]|].
  destruct (p x) eqn:E; cbn; [|rewrite IH].
  - split; [|lia]. intros _. exists x. auto.
  - split; [naive_solver|]. intros (y & [->|Hy] & Hp); [congruence | eauto].
Qed.

(** The primary key. *)
Lemma codes_key_unique (rows : CodeTable) c c' :
  NoDup (ac_hash <$> rows) -> In c rows -> In c' rows -> ac_hash c = ac_hash c' -> c = c'.
Proof.
  intros Hnd Hc Hc' Hh.
  apply list_elem_of_In, list_elem_of_lookup in Hc as [i Hi].
  apply list_elem_of_In, list_elem_of_lookup in Hc' as [j Hj].
  assert (i = j) as ->; [|congruence].
  eapply NoDup_lookup; [exact Hnd | by rewrite list_lookup_fmap, Hi |].
  rewrite list_lookup_fmap, Hj; cbn. congruence.
Qed.
(** What one UPDATE reports, it has taken away. *)
Lemma codes_mark_used_once rows t h now db_now rows' n :
  NoDup (ac_hash <$> rows) ->
  codes_mark_used rows t h now db_now = (rows', n) -> (0 < n)%nat -> ~ fresh_in h rows'.
Proof.
  intros Hnd [= <- <-] Hn (c & Hc & Hh & Hu).
  apply filter_length_pos in Hn. destruct Hn as (c0 & Hc0 & Hcons).
  apply in_map_iff in Hc. destruct Hc as (c1 & <- & Hc1).
  pose proof (proj1 (consumable_true _ _ _ _) Hcons) as (Hh0 & _ & _ & _).
  assert (ac_hash c1 = h) as Hh1 by (by destruct (consumable t h now c1)).
  assert (c1 = c0) as -> by (eapply codes_key_unique; eauto; congruence).
  by rewrite Hcons in Hu.
Qed.
(** And it reports something only where the row was unused. *)
Lemma codes_mark_used_fresh rows t h now db_now rows' n :
  codes_mark_used rows t h now db_now = (rows', n) -> (0 < n)%nat -> fresh_in h rows.
Proof.
  intros [= <- <-] Hn. apply filter_length_pos in Hn. destruct Hn as (c & Hc & Hp).
  apply consumable_true in Hp. exists c. naive_solver.
Qed.
(** A used code is not consumed again: the UPDATE finds nothing. *)
Lemma codes_mark_used_used rows t h now db_now c :
  NoDup (ac_hash <$> rows) -> codes_find_used rows t h = Some c ->
  codes_mark_used rows t h now db_now = (rows, 0%nat).
Proof.
  intros Hnd Hf. apply find_some in Hf. destruct Hf as [Hin Hf].
  apply andb_true_iff in Hf. destruct Hf as [Hf Hu]. apply andb_true_iff in Hf.
  destruct Hf as [Hh _]. apply code_has_hash_true in Hh.
  assert (forall x, In x rows -> consumable t h now x = false) as Hn.
  { intros x Hx. apply not_true_iff_false. rewrite consumable_true. intros (Hxh & _ & Hxu & _).
    assert (x = c) as -> by (eapply codes_key_unique; eauto; congruence).
    unfold code_is_used in Hu. by rewrite Hxu in Hu. }
  unfold codes_mark_used. clear - Hn. induction rows as [|x rows IH]; [done|].
  assert (forall y, In y rows -> consumable t h now y = false) as Hr by (intros y Hy; apply Hn; by right).
  specialize (IH Hr). injection IH as Hm Hl. cbn. by rewrite (Hn x (or_introl eq_refl)), Hm, Hl.
Qed.
