(* ===== verification/RefreshToken.v ===== *)
(** * Refresh tokens ([domain/refresh_token.rs],
      [infrastructure/repositories/refresh_token.rs])

    The rotating token and its table.  A family is the set of tokens that
    descend from one authorization code; [family_hash] names it.  One SQL
    statement is one function on the table; columns that hold hashes, UUIDs and
    session identifiers are lower-case hexadecimal, so the collation compares
    them exactly, and only [client_id] goes through [collates]. *)

From S2P Require Import Prelude Values External AuthSession AuthSessionStore AuthorizationCode.

Record RefreshToken : Type := {
  rt_token_hash : string;
  rt_parent_hash : option string;
  rt_grant_hash : option string;
  rt_tenant_id : TenantId;
  rt_user_id : Uuid;
  rt_client_id : string;
  rt_scope : list string;
  rt_sid : option string;
  rt_methods : option (list AuthenticationMethod);
  rt_auth_time : option DateTime;
  rt_dpop_jkt : option string;
  rt_expires_at : DateTime;
  rt_revoked_at : option DateTime;
  rt_created_at : DateTime
}.

Definition rt_is_revoked (r : RefreshToken) : bool := is_some (rt_revoked_at r).
Definition rt_is_expired_at (r : RefreshToken) (now : DateTime) : bool :=
  (rt_expires_at r <=? now)%Z.
Definition rt_is_valid_at (r : RefreshToken) (now : DateTime) : bool :=
  negb (rt_is_revoked r) && negb (rt_is_expired_at r now).
Definition auth_time_or_issued (r : RefreshToken) : DateTime :=
  unwrap_or (rt_created_at r) (rt_auth_time r).
Definition family_hash (r : RefreshToken) : string :=
  unwrap_or (rt_token_hash r) (rt_grant_hash r).

(** ** The [refresh_tokens] table; the primary key is [token_hash]. *)
Definition RefreshTable : Type := list RefreshToken.

(** The row INSERT writes: [created_at] is the database's clock. *)
Definition truncate_refresh (r : RefreshToken) (db_now : DateTime) : RefreshToken := {|
  rt_token_hash := rt_token_hash r; rt_parent_hash := rt_parent_hash r;
  rt_grant_hash := rt_grant_hash r; rt_tenant_id := rt_tenant_id r;
  rt_user_id := rt_user_id r; rt_client_id := rt_client_id r; rt_scope := rt_scope r;
  rt_sid := rt_sid r; rt_methods := rt_methods r;
  rt_auth_time := to_micros <$> rt_auth_time r; rt_dpop_jkt := rt_dpop_jkt r;
  rt_expires_at := to_micros (rt_expires_at r);
  rt_revoked_at := to_micros <$> rt_revoked_at r; rt_created_at := to_micros db_now |}.
Definition with_revoked_at (t : DateTime) (r : RefreshToken) : RefreshToken := {|
  rt_token_hash := rt_token_hash r; rt_parent_hash := rt_parent_hash r;
  rt_grant_hash := rt_grant_hash r; rt_tenant_id := rt_tenant_id r;
  rt_user_id := rt_user_id r; rt_client_id := rt_client_id r; rt_scope := rt_scope r;
  rt_sid := rt_sid r; rt_methods := rt_methods r; rt_auth_time := rt_auth_time r;
  rt_dpop_jkt := rt_dpop_jkt r; rt_expires_at := rt_expires_at r;
  rt_revoked_at := Some (to_micros t); rt_created_at := rt_created_at r |}.

Definition rt_has_hash (h : string) (r : RefreshToken) : bool := String.eqb (rt_token_hash r) h.
Definition refresh_create (rows : RefreshTable) (r : RefreshToken) (db_now : DateTime)
  : option RefreshTable :=
  if existsb (rt_has_hash (rt_token_hash r)) rows then None
  else Some (rows ++ [truncate_refresh r db_now])%list.
Definition refresh_find_by_hash (rows : RefreshTable) (t : TenantId) (h : string)
  : option RefreshToken :=
  find (fun r => rt_has_hash h r && N.eqb (rt_tenant_id r) t) rows.

(** Every revocation is UPDATE .. SET revoked_at = now WHERE p AND revoked_at
    IS NULL; the count is [rows_affected]. *)
Definition refresh_revoke_where (p : RefreshToken -> bool) (rows : RefreshTable) (now : DateTime)
  : RefreshTable * nat :=
  (map (fun r => if p r && negb (rt_is_revoked r) then with_revoked_at now r else r) rows,
   length (List.filter (fun r => p r && negb (rt_is_revoked r)) rows)).
Definition refresh_revoke (rows : RefreshTable) (h : string) (now : DateTime) :=
  refresh_revoke_where (rt_has_hash h) rows now.
Definition in_family (t : TenantId) (family : string) (r : RefreshToken) : bool :=
  N.eqb (rt_tenant_id r) t
  && (bool_decide (rt_grant_hash r = Some family) || rt_has_hash family r).
Definition refresh_revoke_family (rows : RefreshTable) (t : TenantId) (family : string)
  (now : DateTime) :=
  refresh_revoke_where (in_family t family) rows now.
Definition refresh_exists_by_parent_hash (rows : RefreshTable) (parent : string) : bool :=
  existsb (fun r => bool_decide (rt_parent_hash r = Some parent)) rows.
Definition refresh_revoke_all_for_session (rows : RefreshTable) (u : Uuid) (sid : string)
  (now : DateTime) :=
  refresh_revoke_where (fun r => N.eqb (rt_user_id r) u && bool_decide (rt_sid r = Some sid)) rows now.
Definition refresh_revoke_all_for_user_in_tenant (rows : RefreshTable) (t : TenantId) (u : Uuid)
  (now : DateTime) : RefreshTable :=
  (refresh_revoke_where (fun r => N.eqb (rt_tenant_id r) t && N.eqb (rt_user_id r) u) rows now).1.
Definition refresh_revoke_all_for_user_and_client `{Collation} (rows : RefreshTable) (t : TenantId)
  (u : Uuid) (client_id : string) (now : DateTime) : RefreshTable :=
  (refresh_revoke_where (fun r => N.eqb (rt_tenant_id r) t && N.eqb (rt_user_id r) u
                                  && collates (rt_client_id r) client_id) rows now).1.
(** [ACTIVE_FOR_USER]. *)
Definition active_for_user (u : Uuid) (now : DateTime) (r : RefreshToken) : bool :=
  N.eqb (rt_user_id r) u && negb (rt_is_revoked r) && (to_micros now <? rt_expires_at r)%Z.
Definition refresh_revoke_all_for_user (rows : RefreshTable) (u : Uuid) (now : DateTime) :=
  (map (fun r => if active_for_user u now r then with_revoked_at now r else r) rows,
   length (List.filter (active_for_user u now) rows)).
Definition refresh_count_active_for_user (rows : RefreshTable) (u : Uuid) (now : DateTime) : nat :=
  length (List.filter (active_for_user u now) rows).
(** DELETE FROM refresh_tokens WHERE expires_at <= now. *)
Definition refresh_purge (rows : RefreshTable) (now : DateTime) : RefreshTable :=
  List.filter (fun r => negb (rt_expires_at r <=? to_micros now)%Z) rows.

(** ** Lemmas *)
Lemma rt_has_hash_true h r : rt_has_hash h r = true <-> rt_token_hash r = h.
Proof. apply String.eqb_eq. Qed.
Lemma in_family_true t f r :
  in_family t f r = true <->
  rt_tenant_id r = t /\ (rt_grant_hash r = Some f \/ rt_token_hash r = f).
Proof.
  unfold in_family.
  by rewrite andb_true_iff, orb_true_iff, N.eqb_eq, bool_decide_eq_true, rt_has_hash_true.
Qed.
(** A token found for a tenant belongs to the family its own hash names. *)
Lemma in_own_family r : in_family (rt_tenant_id r) (family_hash r) r = true.
Proof.
  apply in_family_true. split; [done|]. unfold family_hash, unwrap_or.
  destruct (rt_grant_hash r); auto.
Qed.
Lemma refresh_find_Some rows t h r :
  refresh_find_by_hash rows t h = Some r ->
  In r rows /\ rt_token_hash r = h /\ rt_tenant_id r = t.
Proof.
  intros E. apply find_some in E. destruct E as [Hin E]. split; [done|].
  by rewrite andb_true_iff, rt_has_hash_true, N.eqb_eq in E.
Qed.

(** Nothing the predicate selects is left unrevoked, and nothing else changes. *)
Lemma refresh_revoke_where_spec p rows now rows' n r :
  (forall t r, p (with_revoked_at t r) = p r) ->
  refresh_revoke_where p rows now = (rows', n) -> In r rows' -> p r = true ->
  rt_is_revoked r = true.
Proof.
  intros Hp [= <- _] Hin Hr. apply in_map_iff in Hin. destruct Hin as (r0 & <- & Hin).
  destruct (p r0 && negb (rt_is_revoked r0)) eqn:E; [done|].
  rewrite Hr in E. cbn in E. by apply negb_false_iff in E.
Qed.
Lemma refresh_revoke_where_other p rows now rows' n r :
  refresh_revoke_where p rows now = (rows', n) -> In r rows -> p r = false -> In r rows'.
Proof.
  intros [= <- _] Hin Hr. apply in_map_iff. exists r. by rewrite Hr.
Qed.
(** Revocation is for good: no UPDATE clears [revoked_at]. *)
Lemma refresh_revoke_where_mono p rows now rows' n r :
  refresh_revoke_where p rows now = (rows', n) -> In r rows' ->
  exists r0, In r0 rows /\ rt_token_hash r0 = rt_token_hash r
             /\ (rt_is_revoked r0 = true -> rt_is_revoked r = true).
Proof.
  intros [= <- _] Hin. apply in_map_iff in Hin. destruct Hin as (r0 & <- & Hin).
  exists r0. split; [done|]. by destruct (p r0 && negb (rt_is_revoked r0)).
Qed.
Lemma refresh_revoke_where_hashes p rows now :
  rt_token_hash <$> (refresh_revoke_where p rows now).1 = rt_token_hash <$> rows.
Proof.
  cbn. induction rows as [|r rows IH]; [done|]. cbn.
  f_equal; [by destruct (p r && negb (rt_is_revoked r)) | exact IH].
Qed.

Lemma refresh_revoke_where_existsb p rows now h :
  existsb (rt_has_hash h) (refresh_revoke_where p rows now).1 = existsb (rt_has_hash h) rows.
Proof.
  cbn. induction rows as [|r rows IH]; [done|]. cbn. rewrite IH.
  by destruct (p r && negb (rt_is_revoked r)).
Qed.
(** A live row is counted. *)
Lemma refresh_revoke_counts rows h now r :
  In r rows -> rt_token_hash r = h -> rt_is_revoked r = false ->
  (0 < (refresh_revoke rows h now).2)%nat.
Proof.
  intros Hin Hh Hr. cbn. apply filter_length_pos. exists r. split; [done|].
  by rewrite Hr, (proj2 (rt_has_hash_true h r) Hh).
Qed.
(** The screen's count and the button's effect agree. *)
Lemma revoke_all_for_user_count rows u now :
  (refresh_revoke_all_for_user rows u now).2 = refresh_count_active_for_user rows u now
  /\ refresh_count_active_for_user (refresh_revoke_all_for_user rows u now).1 u now = 0%nat.
Proof.
  split; [done|]. unfold refresh_count_active_for_user. cbn.
  induction rows as [|r rows IH]; [done|]. cbn.
  destruct (active_for_user u now r) eqn:E; [|by rewrite E].
  unfold active_for_user at 1. cbn. by rewrite andb_false_r.
Qed.

(** Unrevoked row with hash [h]. *)
Definition live_hash (h : string) (rows : RefreshTable) : Prop :=
  exists r, In r rows /\ rt_token_hash r = h /\ rt_is_revoked r = false.
Lemma refresh_revoke_once rows h now rows' n :
  refresh_revoke rows h now = (rows', n) -> ~ live_hash h rows'.
Proof.
  intros E (r & Hr & Hh & Hl).
  pose proof (refresh_revoke_where_spec (rt_has_hash h) _ _ _ _ r (fun _ _ => eq_refl) E Hr) as H.
  rewrite H in Hl; [done|]. by apply rt_has_hash_true.
Qed.
Lemma refresh_revoke_live rows h now rows' n :
  refresh_revoke rows h now = (rows', n) -> (0 < n)%nat -> live_hash h rows.
Proof.
  intros [= <- <-] Hn. apply filter_length_pos in Hn. destruct Hn as (r & Hr & E).
  apply andb_true_iff in E. rewrite rt_has_hash_true, negb_true_iff in E. exists r. naive_solver.
Qed.
