(* ===== verification/Dpop.v ===== *)
(** * DPoP proofs ([domain/dpop.rs], [infrastructure/repositories/dpop_proof.rs])

    What the proof of possession must satisfy, the key's thumbprint, and the
    record that keeps a proof from being accepted twice.  Base64, JSON, URL and
    JWS decoding are third-party code: parameters. *)

From S2P Require Import Prelude Values External AuthSessionStore.

Definition MAX_PROOF_AGE_SECS : Z := 120.
Definition MAX_CLOCK_AHEAD_SECS : Z := 60.
Definition PROOF_TYPE : string := "dpop+jwt".
Definition MAX_JTI_LEN : Z := 256.

Record DpopProofRequirements : Type := {
  dr_method : string;
  dr_uri : string;
  dr_access_token : option string;
  dr_now : DateTime
}.
Record VerifiedDpopProof : Type := {
  vp_jkt : string;
  vp_jti : string;
  vp_issued_at : DateTime
}.
#[export] Instance VerifiedDpopProof_eq_dec : EqDecision VerifiedDpopProof.
Proof. solve_decision. Defined.

Inductive DpopProofRejection : Type :=
  | DpopMalformed | WrongType | UnsupportedAlgorithm | InvalidKey | DpopInvalidSignature
  | MissingClaim | MethodMismatch | UriMismatch | TooOld | FromTheFuture
  | AccessTokenHashMismatch | Replayed.
#[export] Instance DpopProofRejection_eq_dec : EqDecision DpopProofRejection.
Proof. solve_decision. Defined.
Definition rejection_reason (r : DpopProofRejection) : string :=
  match r with
  | DpopMalformed => "DPoP proof is not a well-formed JWT"
  | WrongType => "DPoP proof typ must be dpop+jwt"
  | UnsupportedAlgorithm => "DPoP proof alg must be ES256"
  | InvalidKey => "DPoP proof jwk must be a public P-256 key"
  | DpopInvalidSignature => "DPoP proof signature does not verify"
  | MissingClaim => "DPoP proof lacks jti, htm, htu or iat"
  | MethodMismatch => "DPoP proof htm does not match the request"
  | UriMismatch => "DPoP proof htu does not match the endpoint"
  | TooOld => "DPoP proof iat is too old"
  | FromTheFuture => "DPoP proof iat is in the future"
  | AccessTokenHashMismatch => "DPoP proof ath does not match the access token"
  | Replayed => "DPoP proof has already been used"
  end.

(** A member of the [jwk] object: a JSON string, or another JSON value. *)
Inductive JsonMember : Type := JsonString (s : string) | JsonOther.
Definition JwkObject : Type := gmap string JsonMember.
Record ProofHeader : Type := {
  ph_typ : option string; ph_alg : option string; ph_jwk : option JwkObject
}.
Record ProofClaims : Type := {
  pc_jti : option string; pc_htm : option string; pc_htu : option string;
  pc_iat : option Z; pc_ath : option string
}.

Class DpopJose `{Jose} := {
  (** [serde_json::from_slice::<ProofHeader>]. *)
  proof_header_from_json : string -> option ProofHeader;
  (** [jsonwebtoken::decode::<ProofClaims>] with ES256 and no claim checks. *)
  decode_proof : string -> DecodingKey -> option ProofClaims
}.

(** [Utc.timestamp_opt(secs, 0).single()]: [None] outside chrono's calendar. *)
Definition from_timestamp (secs : Z) : option DateTime :=
  if (CHRONO_MIN_SECS <=? secs)%Z && (secs <=? CHRONO_MAX_SECS)%Z
  then Some (seconds secs) else None.

Record PublicP256 : Type := { p256_x : string; p256_y : string }.

Section dpop.
Context {HS : Hashing} {JO : Jose} {DJ : DpopJose} {UC : UrlCrate}.

Definition jwk_text (jwk : JwkObject) (name : string) : option string :=
  match jwk !! name with Some (JsonString s) => Some s | _ => None end.
Definition p256_coordinate (jwk : JwkObject) (name : string) : option string :=
  value ← jwk_text jwk name;
  bytes ← base64url_decode value;
  if (str_len bytes =? 32)%Z then Some value else None.
(** [PublicP256::from_jwk]. *)
Definition p256_from_jwk (jwk : JwkObject) : option PublicP256 :=
  if is_some (jwk !! "d") then None
  else if negb (bool_decide (jwk_text jwk "kty" = Some "EC"))
          || negb (bool_decide (jwk_text jwk "crv" = Some "P-256")) then None
  else
    x ← p256_coordinate jwk "x";
    y ← p256_coordinate jwk "y";
    Some {| p256_x := x; p256_y := y |}.

Definition quote : string := String (ascii_of_N 34) "".
(** [{"crv":"P-256","kty":"EC","x":"..","y":".."}]. *)
Definition jwk_canonical (x y : string) : string :=
  "{" ++ quote ++ "crv" ++ quote ++ ":" ++ quote ++ "P-256" ++ quote ++ ","
  ++ quote ++ "kty" ++ quote ++ ":" ++ quote ++ "EC" ++ quote ++ ","
  ++ quote ++ "x" ++ quote ++ ":" ++ quote ++ x ++ quote ++ ","
  ++ quote ++ "y" ++ quote ++ ":" ++ quote ++ y ++ quote ++ "}".
Definition jwk_thumbprint_p256 (x y : string) : string :=
  sha256_base64url (jwk_canonical x y).
Definition access_token_hash (access_token : string) : string := sha256_base64url access_token.

Definition comparable_uri (uri : string) : option string :=
  parsed ← url_parse uri;
  if String.eqb (url_scheme parsed) "https" || String.eqb (url_scheme parsed) "http"
  then Some (url_to_string (url_set_fragment_none (url_set_query_none parsed)))
  else None.

Definition replay_key (p : VerifiedDpopProof) : string :=
  sha256_hex (vp_jkt p ++ ":" ++ vp_jti p).
Definition retain_until (p : VerifiedDpopProof) : DateTime :=
  (vp_issued_at p + seconds MAX_PROOF_AGE_SECS)%Z.

(** The checks on the decoded claims: from [let (Some(jti), ..)] on. *)
Definition check_claims (key : PublicP256) (claims : ProofClaims)
  (expected : DpopProofRequirements) : Result DpopProofRejection VerifiedDpopProof :=
  match pc_jti claims, pc_htm claims, pc_htu claims, pc_iat claims with
  | Some jti, Some htm, Some htu, Some iat =>
      if str_is_empty jti || (MAX_JTI_LEN <? str_len jti)%Z then Err MissingClaim
      else if negb (String.eqb htm (dr_method expected)) then Err MethodMismatch
      else
        let same_uri :=
          match comparable_uri htu, comparable_uri (dr_uri expected) with
          | Some presented, Some endpoint => String.eqb presented endpoint
          | _, _ => false
          end in
        if negb same_uri then Err UriMismatch
        else match from_timestamp iat with
        | None => Err MissingClaim
        | Some issued_at =>
            if (issued_at <? dr_now expected - seconds MAX_PROOF_AGE_SECS)%Z then Err TooOld
            else if (dr_now expected + seconds MAX_CLOCK_AHEAD_SECS <? issued_at)%Z
            then Err FromTheFuture
            else
              let ath_ok :=
                match dr_access_token expected with
                | Some access_token =>
                    bool_decide (pc_ath claims = Some (access_token_hash access_token))
                | None => true
                end in
              if negb ath_ok then Err AccessTokenHashMismatch
              else Ok {| vp_jkt := jwk_thumbprint_p256 (p256_x key) (p256_y key);
                         vp_jti := jti; vp_issued_at := issued_at |}
        end
  | _, _, _, _ => Err MissingClaim
  end.

(** [verify_proof]. *)
Definition verify_proof (proof : string) (expected : DpopProofRequirements)
  : Result DpopProofRejection VerifiedDpopProof :=
  match split_on "." proof with
  | [header_segment; _; _] =>
      match base64url_decode header_segment ≫= proof_header_from_json with
      | None => Err DpopMalformed
      | Some header =>
          if negb (is_some_and (fun t => eq_ignore_ascii_case t PROOF_TYPE) (ph_typ header))
          then Err WrongType
          else if negb (bool_decide (ph_alg header = Some "ES256")) then Err UnsupportedAlgorithm
          else match ph_jwk header ≫= p256_from_jwk with
          | None => Err InvalidKey
          | Some key =>
              match from_ec_components (p256_x key) (p256_y key) with
              | None => Err InvalidKey
              | Some decoding_key =>
                  match decode_proof proof decoding_key with
                  | None => Err DpopInvalidSignature
                  | Some claims => check_claims key claims expected
                  end
              end
          end
      end
  | _ => Err DpopMalformed
  end.

(** ** Lemmas *)
(** [claims_accepted]: the claims answer what is expected, and [p] is what they say. *)
Record claims_accepted (key : PublicP256) (claims : ProofClaims) (expected : DpopProofRequirements)
  (p : VerifiedDpopProof) : Prop := {
  ca_jti : pc_jti claims = Some (vp_jti p);
  ca_jti_length : vp_jti p <> "" /\ (str_len (vp_jti p) <= MAX_JTI_LEN)%Z;
  ca_method : pc_htm claims = Some (dr_method expected);
  ca_uri : exists htu u, pc_htu claims = Some htu /\ comparable_uri htu = Some u
                         /\ comparable_uri (dr_uri expected) = Some u;
  ca_issued_at : exists iat, pc_iat claims = Some iat /\ from_timestamp iat = Some (vp_issued_at p);
  ca_window : (dr_now expected - seconds MAX_PROOF_AGE_SECS <= vp_issued_at p
               <= dr_now expected + seconds MAX_CLOCK_AHEAD_SECS)%Z;
  ca_token : forall t, dr_access_token expected = Some t -> pc_ath claims = Some (access_token_hash t);
  ca_thumbprint : vp_jkt p = jwk_thumbprint_p256 (p256_x key) (p256_y key)
}.
Lemma ath_ok_iff claims expected :
  match dr_access_token expected with
  | Some access_token => bool_decide (pc_ath claims = Some (access_token_hash access_token))
  | None => true
  end = true
  <-> forall t, dr_access_token expected = Some t -> pc_ath claims = Some (access_token_hash t).
Proof.
  destruct (dr_access_token expected) as [t|]; [|done]. rewrite bool_decide_eq_true.
  split; [by intros H t' [= <-]|]. intros H. by apply H.
Qed.
Lemma same_uri_iff htu uri :
  match comparable_uri htu, comparable_uri uri with
  | Some presented, Some endpoint => String.eqb presented endpoint
  | _, _ => false
  end = true <-> exists u, comparable_uri htu = Some u /\ comparable_uri uri = Some u.
Proof.
  destruct (comparable_uri htu) as [u|], (comparable_uri uri) as [u'|]; rewrite ?String.eqb_eq; naive_solver.
Qed.
Lemma check_claims_iff key claims expected p :
  check_claims key claims expected = Ok p <-> claims_accepted key claims expected p.
Proof.
  unfold check_claims. split.
  - destruct (pc_jti claims) as [jti|] eqn:Hj, (pc_htm claims) as [htm|] eqn:Hm,
      (pc_htu claims) as [htu|] eqn:Hu, (pc_iat claims) as [iat|] eqn:Hi; try done.
    destruct (str_is_empty jti) eqn:Ej; [done|]. cbn [orb]. apply str_is_empty_false in Ej.
    destruct (Z.ltb_spec MAX_JTI_LEN (str_len jti)); [done|].
    destruct (String.eqb_spec htm (dr_method expected)) as [->|]; [|done]. cbn [negb].
    destruct (match comparable_uri htu with Some _ => _ | None => _ end) eqn:Eu; [|done]. cbn [negb].
    apply same_uri_iff in Eu. destruct (from_timestamp iat) as [t|] eqn:Et; [|done].
    destruct (Z.ltb_spec t (dr_now expected - seconds MAX_PROOF_AGE_SECS)); [done|].
    destruct (Z.ltb_spec (dr_now expected + seconds MAX_CLOCK_AHEAD_SECS) t); [done|].
    destruct (match dr_access_token expected with Some _ => _ | None => _ end) eqn:Ea; [|done].
    pose proof (proj1 (ath_ok_iff claims expected) Ea). intros [= <-]. split; cbn; try done; [|by exists iat].
    destruct Eu as (u & ? & ?). by exists htu, u.
  - intros [Hj [Hne Hlen] Hm (htu & u & Hu & Eu & Eu') (iat & Hi & Et) Hw Ha Hk].
    rewrite Hj, Hm, Hu, Hi, Et, Eu, Eu', !String.eqb_refl. apply str_is_empty_false in Hne as ->.
    apply ath_ok_iff in Ha as ->. cbn [orb negb].
    destruct (Z.ltb_spec MAX_JTI_LEN (str_len (vp_jti p))); [lia|].
    destruct (Z.ltb_spec (vp_issued_at p) (dr_now expected - seconds MAX_PROOF_AGE_SECS)); [lia|].
    destruct (Z.ltb_spec (dr_now expected + seconds MAX_CLOCK_AHEAD_SECS) (vp_issued_at p)); [lia|].
    rewrite <- Hk. by destruct p.
Qed.

(** A proof is issued at a whole second. *)
Lemma claims_accepted_issued_at key claims expected p :
  claims_accepted key claims expected p -> exists iat, vp_issued_at p = seconds iat.
Proof.
  intros [_ _ _ _ (iat & _ & H) _ _ _]. exists iat. unfold from_timestamp in H.
  destruct (_ && _); [|done]. by injection H.
Qed.
(** [is_public_p256]: the [jwk] is the public P-256 key [key], and has no private part. *)
Definition is_coordinate (jwk : JwkObject) (name value : string) : Prop :=
  jwk_text jwk name = Some value /\ exists bytes, base64url_decode value = Some bytes /\ str_len bytes = 32%Z.
Record is_public_p256 (jwk : JwkObject) (key : PublicP256) : Prop := {
  ec_public : jwk !! "d" = None;
  ec_kty : jwk_text jwk "kty" = Some "EC";
  ec_crv : jwk_text jwk "crv" = Some "P-256";
  ec_x : is_coordinate jwk "x" (p256_x key);
  ec_y : is_coordinate jwk "y" (p256_y key)
}.
Lemma p256_coordinate_iff jwk name value :
  p256_coordinate jwk name = Some value <-> is_coordinate jwk name value.
Proof.
  unfold p256_coordinate, is_coordinate. destruct (jwk_text jwk name) as [v|]; cbn [mbind option_bind]; [|naive_solver].
  destruct (base64url_decode v) as [bytes|] eqn:E; cbn [mbind option_bind]; [|naive_solver].
  destruct (Z.eqb_spec (str_len bytes) 32); naive_solver.
Qed.
Lemma p256_from_jwk_iff jwk key : p256_from_jwk jwk = Some key <-> is_public_p256 jwk key.
Proof.
  unfold p256_from_jwk. split.
  - destruct (jwk !! "d") eqn:Ed; [done|]. cbn [is_some].
    do 2 (case_bool_decide; cbn [negb orb]; [|done]).
    destruct (p256_coordinate jwk "x") as [x|] eqn:Ex; [|done].
    destruct (p256_coordinate jwk "y") as [y|] eqn:Ey; [|done]. cbn [mbind option_bind].
    apply p256_coordinate_iff in Ex, Ey. by intros [= <-].
  - intros [-> -> -> Hx%p256_coordinate_iff Hy%p256_coordinate_iff]. cbn [is_some].
    rewrite !bool_decide_true by done. cbn [negb orb]. rewrite Hx, Hy. cbn. by destruct key.
Qed.

(** [header_accepted]: the proof's first segment is a header that names the type, the
    algorithm and the key. *)
Record header_accepted (proof : string) (header : ProofHeader) (jwk : JwkObject) (key : PublicP256) : Prop := {
  ha_segments : exists header_segment claims_segment signature,
    split_on "." proof = [header_segment; claims_segment; signature]
    /\ base64url_decode header_segment ≫= proof_header_from_json = Some header;
  ha_type : exists typ, ph_typ header = Some typ /\ eq_ignore_ascii_case typ PROOF_TYPE = true;
  ha_algorithm : ph_alg header = Some "ES256";
  ha_jwk : ph_jwk header = Some jwk;
  ha_key : is_public_p256 jwk key
}.
(** The last check of all. *)
Lemma verify_proof_Ok proof expected p :
  verify_proof proof expected = Ok p -> exists key claims, claims_accepted key claims expected p.
Proof.
  unfold verify_proof. intros H. repeat case_match; try done.
  apply check_claims_iff in H. eauto.
Qed.
End dpop.

(** ** The [dpop_proof_jtis] table: primary key, expiry *)
Definition DpopTable : Type := list (string * DateTime).
Definition dpop_recorded (rows : DpopTable) (h : string) : bool :=
  existsb (fun r => String.eqb r.1 h) rows.
(** INSERT; a unique violation is [false], not an error. *)
Definition dpop_record_if_unused (rows : DpopTable) (h : string) (until : DateTime)
  : DpopTable * bool :=
  if dpop_recorded rows h then (rows, false) else ((h, to_micros until) :: rows, true).
(** DELETE FROM dpop_proof_jtis WHERE expires_at <= now. *)
Definition dpop_purge (rows : DpopTable) (now : DateTime) : DpopTable :=
  List.filter (fun r => negb (r.2 <=? to_micros now)%Z) rows.

Lemma dpop_record_once rows h until rows' b :
  dpop_record_if_unused rows h until = (rows', b) ->
  dpop_recorded rows' h = true /\ (b = true -> dpop_recorded rows h = false).
Proof.
  unfold dpop_record_if_unused. destruct (dpop_recorded rows h) eqn:E; intros [= <- <-]; [done|].
  cbn. by rewrite String.eqb_refl.
Qed.
