(* ===== verification/ClientAssertion.v ===== *)
(** * Client assertions ([domain/client_assertion.rs],
      [infrastructure/repositories/client_assertion.rs])

    Verification of the JWT a [private_key_jwt] client signs, and the record
    that keeps its [jti] from being used twice. *)

From S2P Require Import Prelude Values External ClientJwks AuthSessionStore Dpop.

Definition JWT_BEARER_ASSERTION_TYPE : string :=
  "urn:ietf:params:oauth:client-assertion-type:jwt-bearer".
Definition MAX_ASSERTION_LIFETIME : Duration := seconds (5 * 60).
Definition CLOCK_SKEW_LEEWAY : Duration := seconds 60.
Definition MAX_JTI_LENGTH : Z := 255.

Record VerifiedClientAssertion : Type := {
  va_jti : string;
  va_expires_at : DateTime;
  va_replay_guard_until : DateTime
}.
#[export] Instance VerifiedClientAssertion_eq_dec : EqDecision VerifiedClientAssertion.
Proof. solve_decision. Defined.

Inductive ClientAssertionFailure : Type :=
  | UnsupportedAssertionType | AssertionMalformed | UnknownKey | AssertionInvalidSignature
  | AssertionExpired | LifetimeTooLong | AudienceMismatch | SubjectMismatch
  | MissingJti | JtiTooLong.
#[export] Instance ClientAssertionFailure_eq_dec : EqDecision ClientAssertionFailure.
Proof. solve_decision. Defined.
Definition assertion_failure_as_str (f : ClientAssertionFailure) : string :=
  match f with
  | UnsupportedAssertionType => "unsupported_assertion_type"
  | AssertionMalformed => "malformed_client_assertion"
  | UnknownKey => "unknown_assertion_key"
  | AssertionInvalidSignature => "invalid_assertion_signature"
  | AssertionExpired => "expired_client_assertion"
  | LifetimeTooLong => "assertion_lifetime_too_long"
  | AudienceMismatch => "assertion_audience_mismatch"
  | SubjectMismatch => "assertion_subject_mismatch"
  | MissingJti => "missing_assertion_jti"
  | JtiTooLong => "assertion_jti_too_long"
  end.

Inductive Audience : Type := One (a : string) | Many (l : list string).
Definition audience_contains (a : Audience) (value : string) : bool :=
  match a with
  | One one => String.eqb one value
  | Many many => existsb (fun x => String.eqb x value) many
  end.
Record AssertionClaims : Type := {
  cl_iss : string; cl_sub : string; cl_aud : Audience; cl_exp : Z; cl_jti : option string
}.

(** How [jsonwebtoken::decode] fails, as far as the source tells it apart. *)
Inductive DecodeError : Type := DecodeInvalidSignature | DecodeMissingOrJson | DecodeOther.

Class AssertionJose `{Jose} := {
  (** [jsonwebtoken::decode_header]: the [kid] of the header. *)
  assertion_header_kid : string -> option (option string);
  (** [jsonwebtoken::decode::<AssertionClaims>], signature and presence of
      exp, iss, sub and aud only. *)
  decode_assertion : string -> DecodingKey -> SigningAlgorithm -> Result DecodeError AssertionClaims;
  (** The string member of a JSON object, in bytes that parse as one. *)
  json_string_member : string -> string -> option string
}.

Section assertion.
Context {HS : Hashing} {JO : Jose} {AJ : AssertionJose}.

(** [unverified_subject]. *)
Definition unverified_subject (assertion : string) : option string :=
  match split_on "." assertion with
  | _ :: payload :: _ :: _ =>
      decoded ← base64url_decode payload;
      sub ← json_string_member decoded "sub";
      if str_is_empty sub then None else Some sub
  | _ => None
  end.

(** The checks on the verified claims.  The outer [None] is a panic:
    [expires_at + CLOCK_SKEW_LEEWAY] leaves chrono's calendar. *)
Definition check_assertion_claims (claims : AssertionClaims) (client_id : string)
  (accepted_audiences : list string) (now : DateTime)
  : option (Result ClientAssertionFailure VerifiedClientAssertion) :=
  if negb (String.eqb (cl_iss claims) client_id) || negb (String.eqb (cl_sub claims) client_id)
  then Some (Err SubjectMismatch)
  else if negb (existsb (audience_contains (cl_aud claims)) accepted_audiences)
  then Some (Err AudienceMismatch)
  else match from_timestamp (cl_exp claims) with
  | None => Some (Err AssertionMalformed)
  | Some expires_at =>
      let guard := (expires_at + CLOCK_SKEW_LEEWAY)%Z in
      if (seconds CHRONO_MAX_SECS <? guard)%Z then None
      else if (guard <? now)%Z then Some (Err AssertionExpired)
      else if (MAX_ASSERTION_LIFETIME + CLOCK_SKEW_LEEWAY <? expires_at - now)%Z
      then Some (Err LifetimeTooLong)
      else match non_empty (cl_jti claims) with
      | None => Some (Err MissingJti)
      | Some jti =>
          if (MAX_JTI_LENGTH <? str_len jti)%Z then Some (Err JtiTooLong)
          else Some (Ok {| va_jti := jti; va_expires_at := expires_at;
                           va_replay_guard_until := guard |})
      end
  end.

(** [verify_client_assertion]. *)
Definition verify_client_assertion (assertion_type : option string) (assertion client_id : string)
  (jwks : ClientJwks) (accepted_audiences : list string) (now : DateTime)
  : option (Result ClientAssertionFailure VerifiedClientAssertion) :=
  if negb (bool_decide (assertion_type = Some JWT_BEARER_ASSERTION_TYPE))
  then Some (Err UnsupportedAssertionType)
  else match assertion_header_kid assertion with
  | None => Some (Err AssertionMalformed)
  | Some kid =>
      match select_key jwks kid with
      | None => Some (Err UnknownKey)
      | Some jwk =>
          match decoding_key_from_jwk jwk with
          | None => Some (Err UnknownKey)
          | Some key =>
              let algorithm :=
                if String.eqb (jwk_alg jwk) "RS256" then Some Rs256
                else if String.eqb (jwk_alg jwk) "ES256" then Some Es256 else None in
              match algorithm with
              | None => Some (Err UnknownKey)
              | Some algorithm =>
                  match decode_assertion assertion key algorithm with
                  | Err DecodeInvalidSignature => Some (Err AssertionInvalidSignature)
                  | Err DecodeMissingOrJson => Some (Err AssertionMalformed)
                  | Err DecodeOther => Some (Err AssertionInvalidSignature)
                  | Ok claims => check_assertion_claims claims client_id accepted_audiences now
                  end
              end
          end
      end
  end.

(** ** Lemmas *)
Lemma check_assertion_claims_Ok claims client_id auds now v :
  check_assertion_claims claims client_id auds now = Some (Ok v) ->
  cl_iss claims = client_id /\ cl_sub claims = client_id
  /\ (exists a, a ∈ auds /\ audience_contains (cl_aud claims) a = true)
  /\ cl_jti claims = Some (va_jti v) /\ va_jti v <> "" /\ (str_len (va_jti v) <= MAX_JTI_LENGTH)%Z
  /\ va_expires_at v = seconds (cl_exp claims)
  /\ va_replay_guard_until v = (va_expires_at v + CLOCK_SKEW_LEEWAY)%Z
  /\ (now - CLOCK_SKEW_LEEWAY <= va_expires_at v
      <= now + MAX_ASSERTION_LIFETIME + CLOCK_SKEW_LEEWAY)%Z.
Proof.
  unfold check_assertion_claims.
  destruct (String.eqb_spec (cl_iss claims) client_id); [|done].
  destruct (String.eqb_spec (cl_sub claims) client_id); [|done]. cbn [negb orb].
  destruct (existsb _ auds) eqn:Ea; [|done]. cbn [negb].
  apply existsb_exists in Ea. destruct Ea as (a & Ha & Hc).
  unfold from_timestamp. destruct (_ && _)%bool; [|done].
  destruct (_ <? _)%Z; [done|].
  destruct (Z.ltb_spec (seconds (cl_exp claims) + CLOCK_SKEW_LEEWAY) now); [done|].
  destruct (Z.ltb_spec (MAX_ASSERTION_LIFETIME + CLOCK_SKEW_LEEWAY)
              (seconds (cl_exp claims) - now)); [done|].
  destruct (non_empty (cl_jti claims)) as [jti|] eqn:Ej; [|done].
  apply non_empty_Some in Ej. destruct Ej as [Ej Hj].
  destruct (Z.ltb_spec MAX_JTI_LENGTH (str_len jti)); [done|].
  intros [= <-]; cbn. repeat split; try done; try lia.
  exists a. by rewrite list_elem_of_In.
Qed.

Lemma verify_client_assertion_Ok ty assertion client_id jwks auds now v :
  verify_client_assertion ty assertion client_id jwks auds now = Some (Ok v) ->
  exists kid jwk key alg claims,
    ty = Some JWT_BEARER_ASSERTION_TYPE /\ assertion_header_kid assertion = Some kid
    /\ select_key jwks kid = Some jwk /\ decoding_key_from_jwk jwk = Some key
    /\ as_str alg = jwk_alg jwk /\ decode_assertion assertion key alg = Ok claims
    /\ check_assertion_claims claims client_id auds now = Some (Ok v).
Proof.
  unfold verify_client_assertion.
  case_bool_decide as Ht; [|done]. cbn [negb].
  destruct (assertion_header_kid assertion) as [kid|] eqn:Ek; [|done].
  destruct (select_key jwks kid) as [jwk|] eqn:Es; [|done].
  destruct (decoding_key_from_jwk jwk) as [key|] eqn:Ed; [|done].
  destruct (String.eqb_spec (jwk_alg jwk) "RS256") as [Hr|Hr];
    [|destruct (String.eqb_spec (jwk_alg jwk) "ES256") as [He|He]; [|done]].
  - destruct (decode_assertion assertion key Rs256) as [claims|[]] eqn:Ec; try done.
    intros Hv. by exists kid, jwk, key, Rs256, claims.
  - destruct (decode_assertion assertion key Es256) as [claims|[]] eqn:Ec; try done.
    intros Hv. by exists kid, jwk, key, Es256, claims.
Qed.
End assertion.

(** ** The [client_assertion_jtis] table: primary key (tenant, client, jti) *)
Record JtiRow : Type := {
  jr_tenant_id : TenantId; jr_client_id : string; jr_jti : string; jr_expires_at : DateTime
}.
Definition JtiTable : Type := list JtiRow.
Section jtis.
Context {CO : Collation}.
Definition jti_key (t : TenantId) (client_id jti : string) (r : JtiRow) : bool :=
  N.eqb (jr_tenant_id r) t && collates (jr_client_id r) client_id && collates (jr_jti r) jti.
Definition jti_recorded (rows : JtiTable) (t : TenantId) (client_id jti : string) : bool :=
  existsb (jti_key t client_id jti) rows.
Definition jti_record_if_unused (rows : JtiTable) (t : TenantId) (client_id jti : string)
  (until : DateTime) : JtiTable * bool :=
  if jti_recorded rows t client_id jti then (rows, false)
  else ({| jr_tenant_id := t; jr_client_id := client_id; jr_jti := jti;
           jr_expires_at := to_micros until |} :: rows, true).
Definition jti_purge (rows : JtiTable) (now : DateTime) : JtiTable :=
  List.filter (fun r => negb (jr_expires_at r <=? to_micros now)%Z) rows.

Lemma jti_record_once rows t c j until rows' b :
  jti_record_if_unused rows t c j until = (rows', b) ->
  jti_recorded rows' t c j = true /\ (b = true -> jti_recorded rows t c j = false).
Proof.
  unfold jti_record_if_unused. destruct (jti_recorded rows t c j) eqn:E; intros [= <- <-]; [done|].
  cbn. unfold jti_key, collates; cbn. by rewrite N.eqb_refl, !String.eqb_refl.
Qed.
End jtis.
