(* ===== verification/ClientAuth.v ===== *)
(** * Choosing and checking client credentials
      ([application/client_authentication.rs])

    The part without effects: what a request presented, the one method it may
    use, the client it names, and the credential its registration selects.
    [ClientAuthenticator::authenticate] itself is in [AccessGate]. *)

From S2P Require Import Prelude Values External ClientJwks Client Dpop ClientAssertion.

Record PresentedClientCredentials : Type := {
  pr_basic : option (string * string);
  pr_body_client_id : option string;
  pr_body_client_secret : option string;
  pr_client_assertion : option string;
  pr_client_assertion_type : option string
}.

Inductive ClientAuthFailure : Type :=
  | MultipleAuthMethods | ClientIdMismatch | MissingClientId | MissingCredentials
  | UnsupportedAuthMethod | ClientHasNoSecret | ClientHasNoJwks | InvalidClientSecret
  | InvalidAssertion (failure : ClientAssertionFailure) | ReplayedAssertion.
#[export] Instance ClientAuthFailure_eq_dec : EqDecision ClientAuthFailure.
Proof. solve_decision. Defined.
Definition client_auth_failure_as_str (f : ClientAuthFailure) : string :=
  match f with
  | MultipleAuthMethods => "multiple_auth_methods"
  | ClientIdMismatch => "client_id_mismatch"
  | MissingClientId => "missing_client_id"
  | MissingCredentials => "missing_credentials"
  | UnsupportedAuthMethod => "unsupported_auth_method"
  | ClientHasNoSecret => "client_has_no_secret"
  | ClientHasNoJwks => "client_has_no_jwks"
  | InvalidClientSecret => "invalid_client_secret"
  | InvalidAssertion failure => assertion_failure_as_str failure
  | ReplayedAssertion => "replayed_client_assertion"
  end.

Inductive SelectedCredential : Type :=
  | CredentialNotRequired
  | CredentialSecret (secret : string)
  | CredentialAssertion (assertion : string) (assertion_type : option string).
#[export] Instance SelectedCredential_eq_dec : EqDecision SelectedCredential.
Proof. solve_decision. Defined.
Inductive ClientAuthOutcome : Type := Authenticated_ok | NotRequired.
Inductive ClientAuthError : Type :=
  | AuthFailed (failure : ClientAuthFailure) | AuthInternal (message : string).

Definition presented_methods (p : PresentedClientCredentials) : nat :=
  length (List.filter (fun b => b)
    [is_some (pr_basic p); is_some (non_empty (pr_body_client_secret p));
     is_some (non_empty (pr_client_assertion p))]).
(** [ensure_single_method]. *)
Definition ensure_single_method (p : PresentedClientCredentials) : Result ClientAuthFailure unit :=
  if (1 <? presented_methods p)%nat then Err MultipleAuthMethods else Ok tt.
Definition presented_assertion (p : PresentedClientCredentials) : option string :=
  non_empty (pr_client_assertion p).

Definition require_secret (c : Client) : Result ClientAuthFailure unit :=
  match c_client_secret_hash c with Some _ => Ok tt | None => Err ClientHasNoSecret end.

(** [select]: the registered method decides, not what was sent. *)
Definition select (p : PresentedClientCredentials) (c : Client)
  : Result ClientAuthFailure SelectedCredential :=
  if bool_decide (c_client_type c = ClientPublic) then Ok CredentialNotRequired
  else
    let post := non_empty (pr_body_client_secret p) in
    match c_token_endpoint_auth_method c with
    | AuthClientSecretBasic =>
        let? _ := require_secret c in
        match pr_basic p, post, presented_assertion p with
        | Some (_, secret), _, _ => Ok (CredentialSecret secret)
        | None, None, None => Err MissingCredentials
        | None, _, _ => Err UnsupportedAuthMethod
        end
    | AuthClientSecretPost =>
        let? _ := require_secret c in
        match post, pr_basic p, presented_assertion p with
        | Some secret, _, _ => Ok (CredentialSecret secret)
        | None, None, None => Err MissingCredentials
        | None, _, _ => Err UnsupportedAuthMethod
        end
    | AuthPrivateKeyJwt =>
        if negb (is_some (c_jwks c)) then Err ClientHasNoJwks
        else match presented_assertion p, pr_basic p, post with
        | Some assertion, _, _ => Ok (CredentialAssertion assertion (pr_client_assertion_type p))
        | None, None, None => Err MissingCredentials
        | None, _, _ => Err UnsupportedAuthMethod
        end
    | AuthNone => Err UnsupportedAuthMethod
    end.

Section with_jose.
Context {HS : Hashing} {JO : Jose} {AJ : AssertionJose}.

(** [PresentedClientCredentials::resolve_client_id]. *)
Definition presented_client_id (p : PresentedClientCredentials)
  : Result ClientAuthFailure string :=
  match pr_basic p, non_empty (pr_body_client_id p) with
  | Some (basic_id, _), Some body_id =>
      if negb (String.eqb basic_id body_id) then Err ClientIdMismatch else Ok basic_id
  | Some (basic_id, _), None => Ok basic_id
  | None, Some body_id => Ok body_id
  | None, None => ok_or MissingClientId (presented_assertion p ≫= unverified_subject)
  end.

(** [ClientAuthenticator::accepted_audiences]. *)
Definition accepted_audiences (base_issuer : string) (tenant_id : TenantId) : list string :=
  let issuer := tenant_issuer base_issuer tenant_id in [issuer ++ "/token"; issuer].
End with_jose.

(** ** Lemmas *)

(** Only a public client is let through without a credential. *)
Lemma select_NotRequired p c :
  select p c = Ok CredentialNotRequired <-> c_client_type c = ClientPublic.
Proof.
  unfold select. case_bool_decide as Hp; [done|]. split; [|done].
  destruct (c_token_endpoint_auth_method c); unfold require_secret;
    [destruct (c_client_secret_hash c) | destruct (c_client_secret_hash c)
     | destruct (c_jwks c); cbn [is_some negb] |]; try done.
  - destruct (pr_basic p) as [[? ?]|], (non_empty (pr_body_client_secret p)), (presented_assertion p); done.
  - destruct (pr_basic p) as [[? ?]|], (non_empty (pr_body_client_secret p)), (presented_assertion p); done.
  - destruct (pr_basic p) as [[? ?]|], (non_empty (pr_body_client_secret p)), (presented_assertion p); done.
Qed.

(** The secret that is checked is the one of the registered method. *)
Lemma select_Secret p c s :
  select p c = Ok (CredentialSecret s) ->
  c_client_type c = ClientConfidential /\ is_Some (c_client_secret_hash c)
  /\ ((c_token_endpoint_auth_method c = AuthClientSecretBasic
       /\ exists i, pr_basic p = Some (i, s))
      \/ (c_token_endpoint_auth_method c = AuthClientSecretPost
          /\ pr_body_client_secret p = Some s /\ s <> "")).
Proof.
  unfold select. case_bool_decide as Hp; [done|].
  assert (c_client_type c = ClientConfidential) by (by destruct (c_client_type c)).
  destruct (c_token_endpoint_auth_method c); unfold require_secret.
  - destruct (c_client_secret_hash c); [|done].
    destruct (pr_basic p) as [[i x]|], (non_empty (pr_body_client_secret p)),
      (presented_assertion p); try done; intros [= ->]; split_and!; eauto.
  - destruct (c_client_secret_hash c); [|done].
    destruct (non_empty (pr_body_client_secret p)) as [x|] eqn:E,
      (pr_basic p) as [[i y]|], (presented_assertion p); try done; intros [= ->];
      apply non_empty_Some in E; split_and!; eauto.
  - destruct (c_jwks c); cbn [is_some negb]; [|done].
    destruct (presented_assertion p), (pr_basic p), (non_empty (pr_body_client_secret p)); done.
  - done.
Qed.
Lemma select_Assertion p c a ty :
  select p c = Ok (CredentialAssertion a ty) ->
  uses_private_key_jwt c = true /\ is_Some (c_jwks c)
  /\ pr_client_assertion p = Some a /\ ty = pr_client_assertion_type p.
Proof.
  unfold select, uses_private_key_jwt. case_bool_decide as Hp; [done|].
  assert (c_client_type c = ClientConfidential) as -> by (by destruct (c_client_type c)).
  destruct (c_token_endpoint_auth_method c); unfold require_secret.
  - destruct (c_client_secret_hash c); [|done].
    destruct (pr_basic p) as [[i x]|], (non_empty (pr_body_client_secret p)),
      (presented_assertion p); done.
  - destruct (c_client_secret_hash c); [|done].
    destruct (non_empty (pr_body_client_secret p)), (pr_basic p), (presented_assertion p); done.
  - destruct (c_jwks c); cbn [is_some negb]; [|done].
    unfold presented_assertion. destruct (non_empty (pr_client_assertion p)) as [x|] eqn:E,
      (pr_basic p), (non_empty (pr_body_client_secret p)); try done; intros [= -> <-];
      apply non_empty_Some in E; split_and!; try done; by apply E.
  - done.
Qed.
