(* ===== verification/Effects.v ===== *)
(** * Effects: programs, the database, and their execution

    A use case is a program over the operations below: reading a clock, drawing
    randomness, asking the key service, and SQL statements ([Stmt]), each of
    them atomic.  [step] executes one operation on a [World]; [run] executes a
    program alone, [run_pool] interleaves the operations of many programs in
    the order a schedule gives.  A statement may fail, with or without having
    taken effect: [w_faults] says which.  Everything here is executable.

    The tables are those [/token], the authorization endpoint and the sign-in
    touch; each mirrors the repository of the same name under
    [infrastructure/repositories/]. *)

From S2P Require Import Prelude Values External AuditLog Directory Application ClientJwks.
From S2P Require Import Client AuthSession AuthSessionStore AuthorizationCode RefreshToken.
From S2P Require Import Dpop ClientAssertion AuthenticationPolicy Lockout SsoSession SessionKey.
From S2P Require Import Membership Consent UserDevice SignInStore.
From S2P Require Import LoginIdentifier IdentifierLookup PasswordPolicy RateLimit.

(** ** The database *)
Record ApplicationBinding : Type := { ab_application_id : Uuid; ab_target : BindingTarget }.
(** [application_assignments]: kind USER or SERVICE_ACCOUNT. *)
Inductive AccountRef : Type := AccountUser (user_id : Uuid) | AccountService (client_row_id : Uuid).
#[export] Instance AccountRef_eq_dec : EqDecision AccountRef.
Proof. solve_decision. Defined.

(** [sign_in_app_usage], keyed by (sid, client_id). *)
Record AppUsage : Type := {
  us_sid : string; us_client_id : string; us_user_id : Uuid; us_tenant_id : TenantId;
  us_first_issued_at : DateTime; us_last_issued_at : DateTime; us_refresh_issued : bool;
  us_refresh_use_count : Z; us_refresh_last_used_at : option DateTime;
  us_refresh_last_ip : option string; us_refresh_last_user_agent : option string;
  us_refresh_reuse_detected_at : option DateTime
}.

(** Who belongs where and under which rules: memberships, policies, and what
    [EffectiveTenantSettings] resolves to for each tenant. *)
Record Tenancy : Type := {
  tn_memberships : MembershipTable;
  tn_policies : list AuthenticationPolicy;
  tn_default_effect : TenantId -> DefaultPolicyEffect;
  tn_sso_lifetime : TenantId -> SsoSessionLifetime;
  tn_lockout : TenantId -> LockoutPolicy;
  tn_registered_device_required : TenantId -> bool;
  tn_password_policy : TenantId -> PasswordPolicy;
  (** The registry of login identifiers and the domains of the tenants. *)
  tn_identifiers : list UserLoginIdentifier;
  tn_domains : list TenantDomain
}.

Record Database : Type := {
  db_codes : CodeTable;
  db_refresh : RefreshTable;
  db_dpop : DpopTable;
  db_jtis : JtiTable;
  db_clients : list Client;
  db_users : list User;
  db_tenants : list Tenant;
  db_resources : list ProtectedResource;
  db_applications : list Application;
  db_bindings : list ApplicationBinding;
  db_assignments : list (Uuid * AccountRef);
  db_permissions : list (Uuid * string);
  (** What [EffectiveTenantSettings::assignment_enforcement] resolves to. *)
  db_enforcement : TenantId -> AssignmentEnforcement;
  db_audit : list AuditEvent;
  db_usage : list AppUsage;
  db_signin : SignInTables;
  db_tenancy : Tenancy
}.
Definition set_codes (d : Database) (x : CodeTable) : Database := {|
  db_codes := x; db_refresh := db_refresh d; db_dpop := db_dpop d; db_jtis := db_jtis d;
  db_clients := db_clients d; db_users := db_users d; db_tenants := db_tenants d;
  db_resources := db_resources d; db_applications := db_applications d;
  db_bindings := db_bindings d; db_assignments := db_assignments d;
  db_permissions := db_permissions d; db_enforcement := db_enforcement d;
  db_audit := db_audit d; db_usage := db_usage d;
  db_signin := db_signin d; db_tenancy := db_tenancy d |}.
Definition set_refresh (d : Database) (x : RefreshTable) : Database := {|
  db_codes := db_codes d; db_refresh := x; db_dpop := db_dpop d; db_jtis := db_jtis d;
  db_clients := db_clients d; db_users := db_users d; db_tenants := db_tenants d;
  db_resources := db_resources d; db_applications := db_applications d;
  db_bindings := db_bindings d; db_assignments := db_assignments d;
  db_permissions := db_permissions d; db_enforcement := db_enforcement d;
  db_audit := db_audit d; db_usage := db_usage d;
  db_signin := db_signin d; db_tenancy := db_tenancy d |}.
Definition set_replays (d : Database) (x : DpopTable) (y : JtiTable) : Database := {|
  db_codes := db_codes d; db_refresh := db_refresh d; db_dpop := x; db_jtis := y;
  db_clients := db_clients d; db_users := db_users d; db_tenants := db_tenants d;
  db_resources := db_resources d; db_applications := db_applications d;
  db_bindings := db_bindings d; db_assignments := db_assignments d;
  db_permissions := db_permissions d; db_enforcement := db_enforcement d;
  db_audit := db_audit d; db_usage := db_usage d;
  db_signin := db_signin d; db_tenancy := db_tenancy d |}.
Definition set_logs (d : Database) (x : list AuditEvent) (y : list AppUsage) : Database := {|
  db_codes := db_codes d; db_refresh := db_refresh d; db_dpop := db_dpop d; db_jtis := db_jtis d;
  db_clients := db_clients d; db_users := db_users d; db_tenants := db_tenants d;
  db_resources := db_resources d; db_applications := db_applications d;
  db_bindings := db_bindings d; db_assignments := db_assignments d;
  db_permissions := db_permissions d; db_enforcement := db_enforcement d;
  db_audit := x; db_usage := y;
  db_signin := db_signin d; db_tenancy := db_tenancy d |}.
Definition set_users (d : Database) (x : list User) : Database := {|
  db_codes := db_codes d; db_refresh := db_refresh d; db_dpop := db_dpop d; db_jtis := db_jtis d;
  db_clients := db_clients d; db_users := x; db_tenants := db_tenants d;
  db_resources := db_resources d; db_applications := db_applications d;
  db_bindings := db_bindings d; db_assignments := db_assignments d;
  db_permissions := db_permissions d; db_enforcement := db_enforcement d;
  db_audit := db_audit d; db_usage := db_usage d;
  db_signin := db_signin d; db_tenancy := db_tenancy d |}.
Definition set_signin (d : Database) (x : SignInTables) : Database := {|
  db_codes := db_codes d; db_refresh := db_refresh d; db_dpop := db_dpop d; db_jtis := db_jtis d;
  db_clients := db_clients d; db_users := db_users d; db_tenants := db_tenants d;
  db_resources := db_resources d; db_applications := db_applications d;
  db_bindings := db_bindings d; db_assignments := db_assignments d;
  db_permissions := db_permissions d; db_enforcement := db_enforcement d;
  db_audit := db_audit d; db_usage := db_usage d;
  db_signin := x; db_tenancy := db_tenancy d |}.

(** ** Statements *)
Inductive Stmt : Type -> Type :=
  | CodesCreate (c : AuthorizationCode) : Stmt unit
  | CodesMarkUsed (t : TenantId) (h : AuthorizationCodeHash) (used_at : DateTime) : Stmt nat
  | CodesSelect (h : AuthorizationCodeHash) : Stmt (option AuthorizationCode)
  | CodesFindUsed (t : TenantId) (h : AuthorizationCodeHash) : Stmt (option AuthorizationCode)
  | CodesRevokeAllActive (u : Uuid) (now : DateTime) : Stmt unit
  | CodesPurge (now : DateTime) : Stmt unit
  | RefreshCreate (r : RefreshToken) : Stmt unit
  | RefreshFindByHash (t : TenantId) (h : string) : Stmt (option RefreshToken)
  | RefreshRevoke (h : string) (now : DateTime) : Stmt nat
  | RefreshRevokeFamily (t : TenantId) (family : string) (now : DateTime) : Stmt nat
  | RefreshExistsByParentHash (h : string) : Stmt bool
  | RefreshRevokeAllForSession (u : Uuid) (sid : string) (now : DateTime) : Stmt nat
  | RefreshRevokeAllForUser (u : Uuid) (now : DateTime) : Stmt nat
  | RefreshPurge (now : DateTime) : Stmt unit
  | DpopRecordIfUnused (h : string) (until : DateTime) : Stmt bool
  | DpopPurge (now : DateTime) : Stmt unit
  | JtiRecordIfUnused (t : TenantId) (client_id jti : string) (until : DateTime) : Stmt bool
  | JtiPurge (now : DateTime) : Stmt unit
  | ClientsFindByClientId (t : TenantId) (client_id : string) : Stmt (option Client)
  | UsersFindById (u : Uuid) : Stmt (option User)
  | TenantsFindById (t : TenantId) : Stmt (option Tenant)
  | ResourcesFindByUri (t : TenantId) (uri : string) : Stmt (option ProtectedResource)
  | PermissionsListForClient (client_row_id : Uuid) : Stmt (list string)
  | ApplicationsFindByOidcClientId (t : TenantId) (client_id : string) : Stmt (option Application)
  | ApplicationsFindByBinding (t : TenantId) (target : BindingTarget) : Stmt (option Application)
  | ApplicationsIsAssigned (application_id user_id : Uuid) : Stmt bool
  | ApplicationsIsServiceAccountAssigned (application_id client_row_id : Uuid) : Stmt bool
  | AssignmentEnforcementOf (t : TenantId) : Stmt AssignmentEnforcement
  | AuditRecord (e : AuditEvent) : Stmt unit
  | HistoryAppIssue (u : Uuid) (t : TenantId) (sid client_id : string) (at_ : DateTime)
      (refresh_issued : bool) : Stmt unit
  | HistoryRefreshUse (sid client_id : string) (at_ : DateTime) (ip ua : option string) : Stmt unit
  | HistoryRefreshReuse (sid client_id : string) (at_ : DateTime) : Stmt unit
  | SignIn {A} (s : SignInStmt A) : Stmt A
  | UsersCountFailure (u : Uuid) (arms : list (Z * DateTime)) : Stmt unit
  | UsersLoginState (u : Uuid) : Stmt (option (Z * option DateTime))
  | UsersUpdateLoginState (u : Uuid) (count : Z) (locked_until : option DateTime) : Stmt unit
  | MembershipsIsActiveMember (t : TenantId) (u : Uuid) : Stmt bool
  | PoliciesListEnabled (t : TenantId) : Stmt (list AuthenticationPolicy)
  | PolicyDefaultEffectOf (t : TenantId) : Stmt DefaultPolicyEffect
  | SsoLifetimeOf (t : TenantId) : Stmt SsoSessionLifetime
  | LockoutOf (t : TenantId) : Stmt LockoutPolicy
  | RegisteredDeviceRequiredOf (t : TenantId) : Stmt bool
  | PasswordPolicyOf (t : TenantId) : Stmt PasswordPolicy
  | IdentifiersSelect (scope : IdentifierScope) (t : TenantId)
      (candidates : list (LoginIdentifierType * string)) : Stmt (list User)
  | DomainsFindTenant (domain : string) : Stmt (option TenantId).

Definition duplicate_entry : DomainError := Repository "Duplicate entry".
(** A multi-row answer to [fetch_optional]: the first row. *)
Definition application_of (d : Database) (t : TenantId) (target_ok : BindingTarget -> bool)
  : option Application :=
  find (fun a => N.eqb (app_tenant_id a) t
                 && existsb (fun b => N.eqb (ab_application_id b) (app_id a) && target_ok (ab_target b))
                      (db_bindings d)) (db_applications d).

Section statements.
Context {CO : Collation} {HS : Hashing}.

Definition usage_key (sid client_id : string) (r : AppUsage) : bool :=
  String.eqb (us_sid r) sid && collates (us_client_id r) client_id.
Definition usage_issue (u : Uuid) (t : TenantId) (sid client_id : string) (at_ : DateTime)
  (refresh_issued : bool) (rows : list AppUsage) : list AppUsage :=
  if existsb (usage_key sid client_id) rows then
    map (fun r => if usage_key sid client_id r then {|
        us_sid := us_sid r; us_client_id := us_client_id r; us_user_id := us_user_id r;
        us_tenant_id := us_tenant_id r; us_first_issued_at := us_first_issued_at r;
        us_last_issued_at := to_micros at_;
        us_refresh_issued := us_refresh_issued r || refresh_issued;
        us_refresh_use_count := us_refresh_use_count r;
        us_refresh_last_used_at := us_refresh_last_used_at r;
        us_refresh_last_ip := us_refresh_last_ip r;
        us_refresh_last_user_agent := us_refresh_last_user_agent r;
        us_refresh_reuse_detected_at := us_refresh_reuse_detected_at r |} else r) rows
  else (rows ++ [{|
    us_sid := sid; us_client_id := client_id; us_user_id := u; us_tenant_id := t;
    us_first_issued_at := to_micros at_; us_last_issued_at := to_micros at_;
    us_refresh_issued := refresh_issued; us_refresh_use_count := 0;
    us_refresh_last_used_at := None; us_refresh_last_ip := None;
    us_refresh_last_user_agent := None; us_refresh_reuse_detected_at := None |}])%list.
Definition usage_refresh_use (sid client_id : string) (at_ : DateTime) (ip ua : option string)
  : list AppUsage -> list AppUsage :=
  map (fun r => if usage_key sid client_id r then {|
    us_sid := us_sid r; us_client_id := us_client_id r; us_user_id := us_user_id r;
    us_tenant_id := us_tenant_id r; us_first_issued_at := us_first_issued_at r;
    us_last_issued_at := us_last_issued_at r; us_refresh_issued := us_refresh_issued r;
    us_refresh_use_count := us_refresh_use_count r + 1;
    us_refresh_last_used_at := Some (to_micros at_);
    us_refresh_last_ip := clip ip 45; us_refresh_last_user_agent := clip ua 512;
    us_refresh_reuse_detected_at := us_refresh_reuse_detected_at r |} else r).
Definition usage_refresh_reuse (sid client_id : string) (at_ : DateTime)
  : list AppUsage -> list AppUsage :=
  map (fun r => if usage_key sid client_id r then {|
    us_sid := us_sid r; us_client_id := us_client_id r; us_user_id := us_user_id r;
    us_tenant_id := us_tenant_id r; us_first_issued_at := us_first_issued_at r;
    us_last_issued_at := us_last_issued_at r; us_refresh_issued := us_refresh_issued r;
    us_refresh_use_count := us_refresh_use_count r;
    us_refresh_last_used_at := us_refresh_last_used_at r;
    us_refresh_last_ip := us_refresh_last_ip r;
    us_refresh_last_user_agent := us_refresh_last_user_agent r;
    us_refresh_reuse_detected_at := Some (to_micros at_) |} else r).

(** The lookups. *)
Definition clients_find_by_client_id (d : Database) (t : TenantId) (client_id : string)
  : option Client :=
  find (fun c => N.eqb (c_tenant_id c) t && collates (c_client_id c) client_id) (db_clients d).
Definition users_find_by_id (d : Database) (u : Uuid) : option User :=
  find (fun x => N.eqb (u_id x) u) (db_users d).
Definition tenants_find_by_id (d : Database) (t : TenantId) : option Tenant :=
  find (fun x => N.eqb (t_id x) t) (db_tenants d).
Definition resources_find_by_uri (d : Database) (t : TenantId) (uri : string)
  : option ProtectedResource :=
  find (fun r => N.eqb (pr_tenant_id r) t && collates (pr_resource_uri r) uri) (db_resources d).
Definition permissions_list_codes_for_client (d : Database) (client_row_id : Uuid) : list string :=
  map snd (List.filter (fun p => N.eqb p.1 client_row_id) (db_permissions d)).
Definition applications_find_by_oidc_client_id (d : Database) (t : TenantId) (client_id : string)
  : option Application :=
  application_of d t (fun target =>
    match target with
    | BindOidc row => existsb (fun c => N.eqb (c_id c) row && N.eqb (c_tenant_id c) t
                                        && collates (c_client_id c) client_id) (db_clients d)
    | _ => false
    end).
Definition applications_find_by_binding_target (d : Database) (t : TenantId)
  (target : BindingTarget) : option Application :=
  application_of d t (fun x => bool_decide (x = target)).
Definition applications_is_assigned (d : Database) (application_id user_id : Uuid) : bool :=
  bool_decide ((application_id, AccountUser user_id) ∈ db_assignments d).
Definition applications_is_service_account_assigned (d : Database)
  (application_id client_row_id : Uuid) : bool :=
  bool_decide ((application_id, AccountService client_row_id) ∈ db_assignments d).

Definition memberships_is_active (d : Database) (t : TenantId) (u : Uuid) : bool :=
  memberships_is_active_member (tn_memberships (db_tenancy d)) (db_users d) (db_tenants d) t u.
(** The ORDER BY is left out: [policy_order_irrelevant] shows that the evaluation
    does not see it. *)
Definition policies_list_enabled (d : Database) (t : TenantId) : list AuthenticationPolicy :=
  List.filter (fun p => N.eqb (pl_tenant_id p) t && pl_enabled p) (tn_policies (db_tenancy d)).
Definition users_identified (d : Database) (scope : IdentifierScope) (t : TenantId)
  (candidates : list (LoginIdentifierType * string)) : list User :=
  identifiers_select (tn_identifiers (db_tenancy d)) (tn_memberships (db_tenancy d)) (db_users d)
    (db_tenants d) scope t candidates.

(** One statement; [db_now] is the server's CURRENT_TIMESTAMP. *)
Definition exec {A} (s : Stmt A) (db_now : DateTime) (d : Database)
  : Result DomainError A * Database :=
  match s with
  | CodesCreate c =>
      match codes_create (db_codes d) c db_now with
      | Some rows => (Ok tt, set_codes d rows)
      | None => (Err duplicate_entry, d)
      end
  | CodesMarkUsed t h used_at =>
      let '(rows, n) := codes_mark_used (db_codes d) t h used_at db_now in
      (Ok n, set_codes d rows)
  | CodesSelect h => (Ok (codes_select (db_codes d) h), d)
  | CodesFindUsed t h => (Ok (codes_find_used (db_codes d) t h), d)
  | CodesRevokeAllActive u now =>
      (Ok tt, set_codes d (codes_revoke_all_active (db_codes d) u now db_now))
  | CodesPurge now => (Ok tt, set_codes d (codes_purge (db_codes d) now))
  | RefreshCreate r =>
      match refresh_create (db_refresh d) r db_now with
      | Some rows => (Ok tt, set_refresh d rows)
      | None => (Err duplicate_entry, d)
      end
  | RefreshFindByHash t h => (Ok (refresh_find_by_hash (db_refresh d) t h), d)
  | RefreshRevoke h now =>
      let '(rows, n) := refresh_revoke (db_refresh d) h now in (Ok n, set_refresh d rows)
  | RefreshRevokeFamily t family now =>
      let '(rows, n) := refresh_revoke_family (db_refresh d) t family now in
      (Ok n, set_refresh d rows)
  | RefreshExistsByParentHash h => (Ok (refresh_exists_by_parent_hash (db_refresh d) h), d)
  | RefreshRevokeAllForSession u sid now =>
      let '(rows, n) := refresh_revoke_all_for_session (db_refresh d) u sid now in
      (Ok n, set_refresh d rows)
  | RefreshRevokeAllForUser u now =>
      let '(rows, n) := refresh_revoke_all_for_user (db_refresh d) u now in
      (Ok n, set_refresh d rows)
  | RefreshPurge now => (Ok tt, set_refresh d (refresh_purge (db_refresh d) now))
  | DpopRecordIfUnused h until =>
      let '(rows, b) := dpop_record_if_unused (db_dpop d) h until in
      (Ok b, set_replays d rows (db_jtis d))
  | DpopPurge now => (Ok tt, set_replays d (dpop_purge (db_dpop d) now) (db_jtis d))
  | JtiRecordIfUnused t client_id jti until =>
      let '(rows, b) := jti_record_if_unused (db_jtis d) t client_id jti until in
      (Ok b, set_replays d (db_dpop d) rows)
  | JtiPurge now => (Ok tt, set_replays d (db_dpop d) (jti_purge (db_jtis d) now))
  | ClientsFindByClientId t client_id => (Ok (clients_find_by_client_id d t client_id), d)
  | UsersFindById u => (Ok (users_find_by_id d u), d)
  | TenantsFindById t => (Ok (tenants_find_by_id d t), d)
  | ResourcesFindByUri t uri => (Ok (resources_find_by_uri d t uri), d)
  | PermissionsListForClient i => (Ok (permissions_list_codes_for_client d i), d)
  | ApplicationsFindByOidcClientId t client_id =>
      (Ok (applications_find_by_oidc_client_id d t client_id), d)
  | ApplicationsFindByBinding t target => (Ok (applications_find_by_binding_target d t target), d)
  | ApplicationsIsAssigned a u => (Ok (applications_is_assigned d a u), d)
  | ApplicationsIsServiceAccountAssigned a c =>
      (Ok (applications_is_service_account_assigned d a c), d)
  | AssignmentEnforcementOf t =>
      (Ok (db_enforcement d t), d)
  | AuditRecord e => (Ok tt, set_logs d (db_audit d ++ [e])%list (db_usage d))
  | HistoryAppIssue u t sid client_id at_ b =>
      (Ok tt, set_logs d (db_audit d) (usage_issue u t sid client_id at_ b (db_usage d)))
  | HistoryRefreshUse sid client_id at_ ip ua =>
      (Ok tt, set_logs d (db_audit d) (usage_refresh_use sid client_id at_ ip ua (db_usage d)))
  | HistoryRefreshReuse sid client_id at_ =>
      (Ok tt, set_logs d (db_audit d) (usage_refresh_reuse sid client_id at_ (db_usage d)))
  | SignIn s => let '(r, x) := exec_sign_in s db_now (db_signin d) in (r, set_signin d x)
  | UsersCountFailure u arms =>
      match users_count_failure (db_users d) u arms db_now with
      | Ok rows => (Ok tt, set_users d rows)
      | Err e => (Err e, d)
      end
  | UsersLoginState u => (Ok (users_login_state (db_users d) u), d)
  | UsersUpdateLoginState u count locked_until =>
      (Ok tt, set_users d (users_update_login_state (db_users d) u count locked_until db_now))
  | MembershipsIsActiveMember t u => (Ok (memberships_is_active d t u), d)
  | PoliciesListEnabled t => (Ok (policies_list_enabled d t), d)
  | PolicyDefaultEffectOf t => (Ok (tn_default_effect (db_tenancy d) t), d)
  | SsoLifetimeOf t => (Ok (tn_sso_lifetime (db_tenancy d) t), d)
  | LockoutOf t => (Ok (tn_lockout (db_tenancy d) t), d)
  | RegisteredDeviceRequiredOf t => (Ok (tn_registered_device_required (db_tenancy d) t), d)
  | PasswordPolicyOf t => (Ok (tn_password_policy (db_tenancy d) t), d)
  | IdentifiersSelect scope t candidates => (Ok (users_identified d scope t candidates), d)
  | DomainsFindTenant domain => (Ok (domains_find_tenant (tn_domains (db_tenancy d)) domain), d)
  end.
End statements.

(** ** Programs *)
Record ActiveSigningKey : Type := { sk_kid : string; sk_algorithm : string; sk_private_pem : string }.

Inductive Op : Type -> Type :=
  | Now : Op DateTime
  | RandomToken : Op string
  | NewUuid : Op Uuid
  | SigningKey : Op (Result string ActiveSigningKey)
  (** [SecurityAlertSink::send]: never fails, never waits. *)
  | SendAlert (alert : SecurityAlert) : Op unit
  (** [LoginRateLimiter::check_and_record], on the process's one limiter. *)
  | RateCheck (key : string) (now : DateTime) : Op bool
  (** One computation of the argon2 hasher. *)
  | HashWork : Op unit
  (** [DUMMY_HASH.get_or_init]: the process's one [OnceLock].  [init] makes the value,
      given how many computations the hasher has made; it is one more. *)
  | DummyHash (init : nat -> option string) : Op (option string)
  | Sql {A} (s : Stmt A) : Op (Result DomainError A).

Inductive Prog (A : Type) : Type :=
  | Ret (a : A)
  | Panic
  | Vis {X} (op : Op X) (k : X -> Prog A).
Arguments Ret {A} a.
Arguments Panic {A}.
Arguments Vis {A X} op k.

Fixpoint prog_bind {A B} (p : Prog A) (f : A -> Prog B) : Prog B :=
  match p with
  | Ret a => f a
  | Panic => Panic
  | Vis op k => Vis op (fun x => prog_bind (k x) f)
  end.
Definition perform {X} (op : Op X) : Prog X := Vis op Ret.
Definition sql {A} (s : Stmt A) : Prog (Result DomainError A) := perform (Sql s).

Notation "'do' x '<-' p ';;' k" := (prog_bind p (fun x => k))
  (at level 200, x pattern, p at level 99, k at level 200, right associativity) : assay_scope.
(** [?] inside an async function. *)
Notation "'try' x '<-' p ';;' k" :=
  (prog_bind p (fun r => match r with Ok x => k | Err er => Ret (Err er) end))
  (at level 200, x pattern, p at level 99, k at level 200, right associativity) : assay_scope.

(** ** Worlds *)
Inductive Fault : Type := NoFault | FailedBefore | FailedAfter.
Record World : Type := {
  w_db : Database;
  w_clock : DateTime;
  w_db_clock : DateTime;
  w_signing_key : Result string ActiveSigningKey;
  (** The fates of the statements to come; exhausted, they succeed. *)
  w_faults : list Fault;
  (** The random streams, and how far they have been drawn. *)
  w_tokens : nat -> string;
  w_tokens_drawn : nat;
  w_uuids : nat -> Uuid;
  w_uuids_drawn : nat;
  (** What the operators have been told. *)
  w_alerts : list SecurityAlert;
  w_limiter : RateLimiter;
  (** The computations the hasher has made so far ([hash] and [verify]). *)
  w_hash_work : nat;
  (** [DUMMY_HASH] ([password.rs]): [None] until its first use; [Some None] when the
      reference hash could not be made. *)
  w_dummy : option (option string)
}.
Definition with_db (w : World) (d : Database) : World := {|
  w_db := d; w_clock := w_clock w; w_db_clock := w_db_clock w; w_signing_key := w_signing_key w;
  w_faults := w_faults w; w_tokens := w_tokens w; w_tokens_drawn := w_tokens_drawn w;
  w_uuids := w_uuids w; w_uuids_drawn := w_uuids_drawn w;
  w_alerts := w_alerts w; w_limiter := w_limiter w; w_hash_work := w_hash_work w;
  w_dummy := w_dummy w |}.
Definition with_faults (w : World) (f : list Fault) : World := {|
  w_db := w_db w; w_clock := w_clock w; w_db_clock := w_db_clock w;
  w_signing_key := w_signing_key w;
  w_faults := f; w_tokens := w_tokens w; w_tokens_drawn := w_tokens_drawn w;
  w_uuids := w_uuids w; w_uuids_drawn := w_uuids_drawn w;
  w_alerts := w_alerts w; w_limiter := w_limiter w; w_hash_work := w_hash_work w;
  w_dummy := w_dummy w |}.
Definition with_drawn (w : World) (tokens uuids : nat) : World := {|
  w_db := w_db w; w_clock := w_clock w; w_db_clock := w_db_clock w;
  w_signing_key := w_signing_key w;
  w_faults := w_faults w; w_tokens := w_tokens w; w_tokens_drawn := tokens;
  w_uuids := w_uuids w; w_uuids_drawn := uuids;
  w_alerts := w_alerts w; w_limiter := w_limiter w; w_hash_work := w_hash_work w;
  w_dummy := w_dummy w |}.

Definition with_alert (w : World) (a : SecurityAlert) : World := {|
  w_db := w_db w; w_clock := w_clock w; w_db_clock := w_db_clock w;
  w_signing_key := w_signing_key w;
  w_faults := w_faults w; w_tokens := w_tokens w; w_tokens_drawn := w_tokens_drawn w;
  w_uuids := w_uuids w; w_uuids_drawn := w_uuids_drawn w;
  w_alerts := (w_alerts w ++ [a])%list; w_limiter := w_limiter w; w_hash_work := w_hash_work w;
  w_dummy := w_dummy w |}.
Definition with_login_guard (w : World) (l : RateLimiter) (n : nat) : World := {|
  w_db := w_db w; w_clock := w_clock w; w_db_clock := w_db_clock w; w_signing_key := w_signing_key w;
  w_faults := w_faults w; w_tokens := w_tokens w; w_tokens_drawn := w_tokens_drawn w;
  w_uuids := w_uuids w; w_uuids_drawn := w_uuids_drawn w;
  w_alerts := w_alerts w; w_limiter := l; w_hash_work := n;
  w_dummy := w_dummy w |}.
Definition with_dummy (w : World) (n : nat) (dummy : option string) : World := {|
  w_db := w_db w; w_clock := w_clock w; w_db_clock := w_db_clock w; w_signing_key := w_signing_key w;
  w_faults := w_faults w; w_tokens := w_tokens w; w_tokens_drawn := w_tokens_drawn w;
  w_uuids := w_uuids w; w_uuids_drawn := w_uuids_drawn w;
  w_alerts := w_alerts w; w_limiter := w_limiter w; w_hash_work := n;
  w_dummy := Some dummy |}.
(** What [get_or_init] answers, and the computations made when it has. *)
Definition dummy_hash (init : nat -> option string) (w : World) : option string :=
  match w_dummy w with Some made => made | None => init (w_hash_work w) end.
Definition dummy_work (w : World) : nat :=
  match w_dummy w with Some _ => w_hash_work w | None => S (w_hash_work w) end.

Definition connection_lost : DomainError := Repository "connection lost".

Section execution.
Context {CO : Collation} {HS : Hashing}.

Definition step_sql {A} (s : Stmt A) (w : World) : Result DomainError A * World :=
  let '(r, d) := exec s (w_db_clock w) (w_db w) in
  match w_faults w with
  | [] => (r, with_db w d)
  | NoFault :: fs => (r, with_db (with_faults w fs) d)
  | FailedBefore :: fs => (Err connection_lost, with_faults w fs)
  | FailedAfter :: fs => (Err connection_lost, with_db (with_faults w fs) d)
  end.
Definition step {X} (op : Op X) (w : World) : X * World :=
  match op with
  | Now => (w_clock w, w)
  | RandomToken => (w_tokens w (w_tokens_drawn w),
                    with_drawn w (S (w_tokens_drawn w)) (w_uuids_drawn w))
  | NewUuid => (w_uuids w (w_uuids_drawn w),
                with_drawn w (w_tokens_drawn w) (S (w_uuids_drawn w)))
  | SigningKey => (w_signing_key w, w)
  | SendAlert a => (tt, with_alert w a)
  | RateCheck key now =>
      ((check_and_record key now (w_limiter w)).1,
       with_login_guard w (check_and_record key now (w_limiter w)).2 (w_hash_work w))
  | HashWork => (tt, with_login_guard w (w_limiter w) (S (w_hash_work w)))
  | DummyHash init => (dummy_hash init w, with_dummy w (dummy_work w) (dummy_hash init w))
  | Sql s => step_sql s w
  end.

(** A program alone; [None] is a panic. *)
Fixpoint run {A} (p : Prog A) (w : World) : option A * World :=
  match p with
  | Ret a => (Some a, w)
  | Panic => (None, w)
  | Vis op k => let '(x, w') := step op w in run (k x) w'
  end.

(** Many programs.  A schedule names the thread that makes the next step, or
    changes the world from outside (another service, the clock). *)
Inductive Turn : Type := Thread (i : nat) | Env (f : World -> World).
Definition pool_step {A} (turn : Turn) (c : list (Prog A) * World) : list (Prog A) * World :=
  let '(ps, w) := c in
  match turn with
  | Env f => (ps, f w)
  | Thread i =>
      match ps !! i with
      | Some (Vis op k) => let '(x, w') := step op w in (<[i := k x]> ps, w')
      | _ => (ps, w)
      end
  end.
Fixpoint run_pool {A} (schedule : list Turn) (c : list (Prog A) * World)
  : list (Prog A) * World :=
  match schedule with
  | [] => c
  | t :: ts => run_pool ts (pool_step t c)
  end.
End execution.

(** ** Lemmas *)
Section lemmas.
Context {CO : Collation} {HS : Hashing}.

Lemma run_bind {A B} (p : Prog A) (f : A -> Prog B) w :
  run (prog_bind p f) w =
  match run p w with
  | (Some a, w') => run (f a) w'
  | (None, w') => (None, w')
  end.
Proof.
  revert w. induction p as [a| |X op k IH]; intros w; cbn; [done|done|].
  destruct (step op w) as [x w']. apply IH.
Qed.
Lemma run_perform {X} (op : Op X) w : run (perform op) w = (Some (step op w).1, (step op w).2).
Proof. cbn. by destruct (step op w). Qed.

(** Without a fault, a statement does what [exec] says. *)
Lemma step_sql_no_fault {A} (s : Stmt A) w :
  w_faults w = [] ->
  step_sql s w = ((exec s (w_db_clock w) (w_db w)).1,
                  with_db w (exec s (w_db_clock w) (w_db w)).2).
Proof. intros E. unfold step_sql. rewrite E. by destruct (exec s _ _). Qed.
(** Whatever the fault, the database is the old one or the statement's. *)
Lemma step_sql_db {A} (s : Stmt A) w :
  w_db (step_sql s w).2 = w_db w \/ w_db (step_sql s w).2 = (exec s (w_db_clock w) (w_db w)).2.
Proof.
  unfold step_sql. destruct (exec s _ _) as [r d]. destruct (w_faults w) as [|[] fs]; cbn; auto.
Qed.
(** A statement that answers [Ok] has taken effect with that answer. *)
Lemma step_sql_Ok {A} (s : Stmt A) w a w' :
  step_sql s w = (Ok a, w') -> exec s (w_db_clock w) (w_db w) = (Ok a, w_db w').
Proof.
  unfold step_sql. destruct (exec s _ _) as [r d].
  destruct (w_faults w) as [|[] fs]; intros [= <- <-] || intros [=]; try done; by subst.
Qed.
End lemmas.
