(* ===== verification/TokenClaims.v ===== *)
(** * Token claims and their signature ([application/token.rs], [domain/jwt.rs])

    The claim sets of the two tokens, how each is filled in, and [jwt::sign].
    Serialisation and the signature itself are third-party code. *)

From S2P Require Import Prelude Values External Directory AuthSession AuthorizationCode.
From S2P Require Import RefreshToken Dpop.

(** [i64] arithmetic as a release build does it. *)
Definition wrap_i64 (z : Z) : Z :=
  ((z + 9223372036854775808) mod 18446744073709551616 - 9223372036854775808)%Z.

Record IdTokenClaims : Type := {
  it_iss : string; it_sub : string; it_aud : string; it_exp : Z; it_iat : Z;
  it_auth_time : Z; it_nonce : string; it_jti : string; it_sid : option string;
  it_acr : option string; it_amr : option (list string); it_email : option string;
  it_email_verified : option bool; it_preferred_username : option string;
  it_name : option string
}.
Record KeyConfirmation : Type := { cnf_jkt : string }.
Record AccessTokenClaims : Type := {
  at_iss : string; at_sub : string; at_aud : string; at_client_id : string; at_scope : string;
  at_exp : Z; at_iat : Z; at_jti : string; at_sub_type : option string;
  at_perms : option string; at_cnf : option KeyConfirmation
}.
Definition SUBJECT_TYPE_CLIENT : string := "client".
Definition claims_dpop_jkt (c : AccessTokenClaims) : option string := cnf_jkt <$> at_cnf c.
Definition subject_is_client (c : AccessTokenClaims) : bool :=
  bool_decide (at_sub_type c = Some SUBJECT_TYPE_CLIENT).

(** [authentication_claims]: nothing recorded, nothing claimed. *)
Definition amr_push (amr : list string) (value : string) : list string :=
  if existsb (fun v => String.eqb v value) amr then amr else (amr ++ [value])%list.
Definition authentication_claims (methods : option (list AuthenticationMethod))
  : option string * option (list string) :=
  match opt_filter (fun m => negb (bool_decide (m = []))) methods with
  | None => (None, None)
  | Some methods =>
      (Some (acr (from_methods methods)), Some (fold_left amr_push (map amr methods) []))
  end.

Definition userinfo_audience (issuer : string) : string := issuer ++ "/userinfo".
Definition management_audience (issuer : string) : string := issuer ++ "/admin".

(** The profile claims the granted scopes open. *)
Section user_claims.
Context {HS : Hashing}.

(** The identity claims of the code exchange. *)
Definition code_id_claims (issuer client_id jti : string) (user : User) (g : CodeGrant)
  (a : Authentication) (iat id_token_ttl : Z) : IdTokenClaims :=
  let '(acr_, amr_) := authentication_claims (au_methods a) in
  {| it_iss := issuer;
     it_sub := uuid_to_string (u_sub user);
     it_aud := client_id;
     it_exp := wrap_i64 (iat + u64_as_i64 id_token_ttl);
     it_iat := iat;
     it_auth_time := timestamp (au_auth_time a);
     it_nonce := cg_nonce g;
     it_jti := jti;
     it_sid := au_sso_sid a;
     it_acr := acr_;
     it_amr := amr_;
     it_email := then_some (grant_includes g ScopeEmail) (u_email user);
     it_email_verified := then_some (grant_includes g ScopeEmail) (u_email_verified user);
     it_preferred_username :=
       if grant_includes g ScopeProfile then u_preferred_username user else None;
     it_name := if grant_includes g ScopeProfile then u_name user else None |}.

Definition token_includes (r : RefreshToken) (s : Scope) : bool :=
  existsb (fun v => String.eqb v (as_str s)) (rt_scope r).
(** The identity claims of a refresh: the authentication is the original one. *)
Definition refresh_id_claims (issuer client_id jti : string) (user : User) (r : RefreshToken)
  (iat id_token_ttl : Z) : IdTokenClaims :=
  let '(acr_, amr_) := authentication_claims (rt_methods r) in
  {| it_iss := issuer;
     it_sub := uuid_to_string (u_sub user);
     it_aud := client_id;
     it_exp := wrap_i64 (iat + u64_as_i64 id_token_ttl);
     it_iat := iat;
     it_auth_time := timestamp (auth_time_or_issued r);
     it_nonce := "";
     it_jti := jti;
     it_sid := rt_sid r;
     it_acr := acr_;
     it_amr := amr_;
     it_email := then_some (token_includes r ScopeEmail) (u_email user);
     it_email_verified := then_some (token_includes r ScopeEmail) (u_email_verified user);
     it_preferred_username :=
       if token_includes r ScopeProfile then u_preferred_username user else None;
     it_name := if token_includes r ScopeProfile then u_name user else None |}.

(** The access claims of the two user grants; [jkt] is the bound key. *)
Definition user_access_claims (issuer client_id jti scope_str : string) (user : User)
  (jkt : option string) (iat access_token_ttl : Z) : AccessTokenClaims :=
  {| at_iss := issuer;
     at_sub := uuid_to_string (u_sub user);
     at_aud := userinfo_audience issuer;
     at_client_id := client_id;
     at_scope := scope_str;
     at_exp := wrap_i64 (iat + u64_as_i64 access_token_ttl);
     at_iat := iat;
     at_jti := jti;
     at_sub_type := None;
     at_perms := None;
     at_cnf := Build_KeyConfirmation <$> jkt |}.
End user_claims.

(** The access claims of [client_credentials]. *)
Definition client_access_claims (issuer client_id jti scope_str audience : string)
  (perms : option string) (iat ttl : Z) : AccessTokenClaims :=
  {| at_iss := issuer; at_sub := client_id; at_aud := audience; at_client_id := client_id;
     at_scope := scope_str; at_exp := wrap_i64 (iat + u64_as_i64 ttl); at_iat := iat; at_jti := jti;
     at_sub_type := Some SUBJECT_TYPE_CLIENT; at_perms := perms; at_cnf := None |}.

(** ** Signing *)
Inductive Claims : Type := IdClaims (c : IdTokenClaims) | AccessClaims (c : AccessTokenClaims).
Class JwtEncoder := {
  (** [EncodingKey::from_rsa_pem] or [from_ec_pem], then [jsonwebtoken::encode]
      with the given [kid] and [typ]. *)
  jwt_encode : SigningAlgorithm -> string -> string -> string -> Claims -> Result string string
}.
(** [jwt::sign]. *)
Definition jwt_sign `{JwtEncoder} (private_pem kid typ algorithm : string) (claims : Claims)
  : Result string string :=
  if String.eqb algorithm "RS256" then jwt_encode Rs256 private_pem kid typ claims
  else if String.eqb algorithm "ES256" then jwt_encode Es256 private_pem kid typ claims
  else Err ("unsupported signing algorithm: " ++ algorithm).

(** ** Lemmas *)
Lemma wrap_i64_id z : (- 9223372036854775808 <= z <= i64_max)%Z -> wrap_i64 z = z.
Proof. unfold wrap_i64, i64_max. intros H. rewrite Z.mod_small; lia. Qed.

Lemma amr_push_NoDup l v : NoDup l -> NoDup (amr_push l v).
Proof.
  intros Hl. unfold amr_push. destruct (existsb _ l) eqn:E; [done|].
  apply NoDup_app. split; [done|]. split; [|apply NoDup_singleton].
  intros x Hx. rewrite list_elem_of_singleton. intros ->.
  apply not_true_iff_false in E. apply E, existsb_exists. exists v.
  rewrite <- list_elem_of_In, String.eqb_refl. done.
Qed.
Lemma amr_push_elem l v x : x ∈ amr_push l v <-> x ∈ l \/ x = v.
Proof.
  unfold amr_push. destruct (existsb _ l) eqn:E.
  - apply existsb_exists in E. destruct E as (y & Hy & E). apply String.eqb_eq in E as ->.
    apply list_elem_of_In in Hy. naive_solver.
  - by rewrite elem_of_app, list_elem_of_singleton.
Qed.
Lemma amr_fold_spec l acc :
  NoDup acc -> NoDup (fold_left amr_push l acc)
  /\ forall x, x ∈ fold_left amr_push l acc <-> x ∈ acc \/ x ∈ l.
Proof.
  revert acc. induction l as [|v l IH]; intros acc Hacc; cbn; [set_solver|].
  destruct (IH _ (amr_push_NoDup _ v Hacc)) as [IH1 IH2]. split; [done|].
  intros x. rewrite IH2, amr_push_elem. set_solver.
Qed.
(** What a token says of the authentication.  When no method is recorded,
    there is no [acr] and no [amr]; otherwise [acr] is the strength of the recorded
    methods, and [amr] lists the value of each of them, each value once. *)
Theorem authentication_claims_spec methods :
  match methods with
  | None | Some [] => authentication_claims methods = (None, None)
  | Some ms => exists amr_, authentication_claims methods = (Some (acr (from_methods ms)), Some amr_)
                 /\ NoDup amr_ /\ forall x, x ∈ amr_ <-> exists m, m ∈ ms /\ x = amr m
  end.
Proof.
  destruct methods as [[|m ms]|]; [done| |done].
  unfold authentication_claims. cbn [opt_filter]. rewrite bool_decide_false by done. cbn [negb].
  eexists. split; [reflexivity|]. destruct (amr_fold_spec (map amr (m :: ms)) []) as [Hn He];
    [constructor|]. split; [done|]. intros x. rewrite He.
  change (map amr (m :: ms)) with (amr <$> (m :: ms)). rewrite list_elem_of_fmap. set_solver.
Qed.
