(* ===== verification/AccessGate.v ===== *)
(** * Audit, DPoP, application and client checks, as programs
      ([application/audit.rs], [application/dpop_proof_verification.rs],
       [application/application_access.rs], [application/client_authentication.rs])

    The services [TokenService] calls: each is a program over [Effects]. *)

From S2P Require Import Prelude Values External AuditLog Directory Application ClientJwks.
From S2P Require Import Client AuthSession AuthorizationCode RefreshToken Dpop ClientAssertion.
From S2P Require Import ClientAuth Effects.

(** ** [AuditService::record]: a failure of the sink is logged and dropped *)
Definition record_audit (event_type : AuditEventType) (result : AuditResult)
  (tenant_id : option TenantId) (user_id : option Uuid) (client_id reason : option string)
  (ctx : RequestContext) : Prog unit :=
  do now <- perform Now;;
  do _ <- sql (AuditRecord (audit_event event_type result tenant_id user_id client_id reason ctx now));;
  Ret tt.

Definition domain_error_string (e : DomainError) : string :=
  match e with
  | NotFound => "resource not found"
  | Conflict s => "conflict: " ++ s
  | InvalidValue s => "invalid value: " ++ s
  | Repository s => "repository error: " ++ s
  end.

(** ** [DpopProofVerifier::verify] *)
Inductive DpopProofFailure : Type :=
  | ProofRejected (r : DpopProofRejection) | ProofUnavailable (message : string).

Section dpop_verifier.
Context {HS : Hashing} {JO : Jose} {DJ : DpopJose} {UC : UrlCrate}.
Definition dpop_verify (proof method uri : string) (access_token : option string)
  : Prog (Result DpopProofFailure VerifiedDpopProof) :=
  do now <- perform Now;;
  match verify_proof proof {| dr_method := method; dr_uri := uri;
                              dr_access_token := access_token; dr_now := now |} with
  | Err r => Ret (Err (ProofRejected r))
  | Ok verified =>
      do r <- sql (DpopRecordIfUnused (replay_key verified) (retain_until verified));;
      match r with
      | Ok true => Ret (Ok verified)
      | Ok false => Ret (Err (ProofRejected Replayed))
      | Err e => Ret (Err (ProofUnavailable (domain_error_string e)))
      end
  end.
End dpop_verifier.

(** ** [ApplicationAccessService] *)
Inductive ApplicationGate : Type :=
  | GateAllowed
  | GateDenied (application_name : string) (access : ApplicationAccess).
Definition gate_is_allowed (g : ApplicationGate) : bool :=
  match g with GateAllowed => true | GateDenied _ _ => false end.

Section application_access.
Context {HS : Hashing}.

(** [judge], from the enforcement lookup on: only reached to refuse. *)
Definition refuse_access (tenant_id : TenantId) (a : Application) (access : ApplicationAccess)
  (party : string) (user_id : Uuid) (ctx : RequestContext) : Prog ApplicationGate :=
  do r <- sql (AssignmentEnforcementOf tenant_id);;
  let enforcement := match r with Ok e => e | Err _ => AssignmentRecordOnly end in
  let enforced := bool_decide (enforcement = AssignmentEnforce) in
  do _ <- record_audit ApplicationAccessDenied
            (if enforced then AuditFailure else AuditSuccess)
            (Some tenant_id) (Some user_id) (Some party)
            (Some ("application=" ++ uuid_to_string (app_id a) ++ " reason=" ++ access_reason access
                   ++ " enforcement=" ++ as_str enforcement)) ctx;;
  if enforced then Ret (GateDenied (app_display_name a) access) else Ret GateAllowed.

Definition judge (tenant_id : TenantId) (application : Result DomainError (option Application))
  (party : string) (user_id : Uuid) (ctx : RequestContext) : Prog ApplicationGate :=
  match application with
  | Ok None => Ret GateAllowed
  | Err _ => Ret GateAllowed
  | Ok (Some a) =>
      do assigned <-
        (if needs_assignment_lookup a then sql (ApplicationsIsAssigned (app_id a) user_id)
         else Ret (Ok false));;
      match assigned with
      | Err _ => Ret GateAllowed
      | Ok assigned =>
          let access := admits a assigned in
          if access_is_allowed access then Ret GateAllowed
          else refuse_access tenant_id a access party user_id ctx
      end
  end.

Definition resolve_for_oidc_client (tenant_id : TenantId) (client_id : string)
  : Prog (Result DomainError (option Application)) :=
  sql (ApplicationsFindByOidcClientId tenant_id client_id).
Definition policy_target_for_oidc_client (tenant_id : TenantId) (client_id : string)
  : Prog (Result DomainError (option Uuid)) :=
  do r <- resolve_for_oidc_client tenant_id client_id;;
  match r with
  | Ok application => Ret (Ok (app_id <$> application))
  | Err e => Ret (Err e)
  end.
Definition resolve_for_saml_service_provider (tenant_id : TenantId) (sp_id : Uuid)
  : Prog (Result DomainError (option Application)) :=
  sql (ApplicationsFindByBinding tenant_id (BindSaml sp_id)).
Definition check (tenant_id : TenantId) (client_id : string) (user_id : Uuid)
  (ctx : RequestContext) : Prog ApplicationGate :=
  do application <- resolve_for_oidc_client tenant_id client_id;;
  judge tenant_id application client_id user_id ctx.
Definition check_saml (tenant_id : TenantId) (sp_id : Uuid) (sp_entity_id : string)
  (user_id : Uuid) (ctx : RequestContext) : Prog ApplicationGate :=
  do application <- resolve_for_saml_service_provider tenant_id sp_id;;
  judge tenant_id application sp_entity_id user_id ctx.
End application_access.

(** What the gate decides, as a function of the directory: an application that
    is not found, admits the user, or is not enforced lets the user through. *)
Definition may_use `{Collation} (d : Database) (t : TenantId) (application : option Application)
  (user_id : Uuid) : bool :=
  match application with
  | None => true
  | Some a =>
      access_is_allowed (admits a (applications_is_assigned d (app_id a) user_id))
      || negb (bool_decide (db_enforcement d t = AssignmentEnforce))
  end.

(** ** [ClientAuthenticator::authenticate] *)
Class PasswordHasher := {
  (** [PasswordHasher::verify(secret, hash)]: argon2. *)
  hasher_verify : string -> string -> Result string bool;
  (** [PasswordHasher::hash(secret)]; every call draws its own salt, so the answer also
      depends on which call of the process it is. *)
  hasher_hash : nat -> string -> Result string string
}.

Section client_authenticator.
Context {HS : Hashing} {JO : Jose} {AJ : AssertionJose} {PH : PasswordHasher}.

Definition authenticate_assertion (base_issuer : string) (tenant_id : TenantId) (c : Client)
  (assertion : string) (assertion_type : option string)
  : Prog (Result ClientAuthError ClientAuthOutcome) :=
  match c_jwks c with
  | None => Ret (Err (AuthFailed ClientHasNoJwks))
  | Some jwks =>
      do now <- perform Now;;
      match verify_client_assertion assertion_type assertion (c_client_id c) jwks
              (accepted_audiences base_issuer tenant_id) now with
      | None => Panic
      | Some (Err failure) => Ret (Err (AuthFailed (InvalidAssertion failure)))
      | Some (Ok verified) =>
          do r <- sql (JtiRecordIfUnused tenant_id (c_client_id c) (va_jti verified)
                         (va_replay_guard_until verified));;
          match r with
          | Err e => Ret (Err (AuthInternal (domain_error_string e)))
          | Ok false => Ret (Err (AuthFailed ReplayedAssertion))
          | Ok true => Ret (Ok Authenticated_ok)
          end
      end
  end.

Definition authenticate (base_issuer : string) (tenant_id : TenantId) (c : Client)
  (credentials : PresentedClientCredentials) : Prog (Result ClientAuthError ClientAuthOutcome) :=
  match select credentials c with
  | Err f => Ret (Err (AuthFailed f))
  | Ok CredentialNotRequired => Ret (Ok NotRequired)
  | Ok (CredentialSecret secret) =>
      match c_client_secret_hash c with
      | None => Ret (Err (AuthFailed ClientHasNoSecret))
      | Some hash =>
          match hasher_verify secret hash with
          | Err e => Ret (Err (AuthInternal e))
          | Ok true => Ret (Ok Authenticated_ok)
          | Ok false => Ret (Err (AuthFailed InvalidClientSecret))
          end
      end
  | Ok (CredentialAssertion assertion assertion_type) =>
      authenticate_assertion base_issuer tenant_id c assertion assertion_type
  end.
End client_authenticator.
