(* ===== verification/AuthenticatorManagement.v ===== *)
(** * Managing authenticators ([application/authenticator_management.rs],
      [application/totp_registration.rs])

    The programs that enrol, suspend and use up authenticators.  Sending one-time
    codes by mail or SMS is I/O; what bounds it, [may_send_otp], is here. *)

From S2P Require Import Prelude Values External AuditLog Directory SsoSession Authenticator.
From S2P Require Import SignInStore LoginIdentifier PasswordPolicy Effects AccessGate.

Definition RECOVERY_CODE_COUNT : nat := 10.
Definition OTP_RESEND_INTERVAL_SECS : Z := 30.
Definition OTP_SENDS_PER_HOUR : nat := 10.

Inductive AuthenticatorManagementError : Type :=
  | AmNotFound | InvalidTransition | MailUnavailable | SmsUnavailable | PhoneNotRegistered
  | InvalidPhoneNumber | OtpRateLimited | AmInternal (reason : string).
Record AuthenticatorSummary : Type := {
  sm_id : Uuid; sm_authenticator_type : AuthenticatorType; sm_status : AuthenticatorStatus;
  sm_label : string; sm_created_at : DateTime; sm_last_used_at : option DateTime
}.

(** Errors of the repository, turned into another type of error. *)
Definition or_error {E A} (f : DomainError -> E) (p : Prog (Result DomainError A)) : Prog (Result E A) :=
  do r <- p;; Ret (match r with Ok a => Ok a | Err e => Err (f e) end).
Definition am_internal (e : DomainError) : AuthenticatorManagementError :=
  AmInternal (domain_error_string e).

Definition sends_of (rows : list UserAuthenticator) (t : AuthenticatorType) (now : DateTime) : list DateTime :=
  List.filter (fun at_ => (now - at_ <? seconds OTP_SEND_WINDOW_SECS)%Z)
    (map ua_created_at (List.filter (fun r =>
       bool_decide (ua_authenticator_type r = t) && is_some (ua_expires_at r)) rows)).
Definition may_send_otp (rows : list UserAuthenticator) (t : AuthenticatorType) (now : DateTime) : bool :=
  (length (sends_of rows t now) <? OTP_SENDS_PER_HOUR)%nat
  && forallb (fun at_ => (seconds OTP_RESEND_INTERVAL_SECS <=? now - at_)%Z) (sends_of rows t now).

(** [code.replace([' ', '-'], "")]. *)
Fixpoint drop_separators (s : string) : string :=
  match s with
  | "" => ""
  | String c s' =>
      if Ascii.eqb c " " || Ascii.eqb c "-" then drop_separators s' else String c (drop_separators s')
  end.

Section registry.
Context {HS : Hashing} {UN : UnicodeCase}.

(** ** What is asked of the registry *)
Definition is_blocked_in_registry (user_id : Uuid) (t : AuthenticatorType) (credential_id : option Uuid)
  : Prog (Result DomainError bool) :=
  try rows <- sql (SignIn (AuthsListForUser user_id));;
  Ret (Ok (existsb is_blocked
    (List.filter (fun a => match credential_id with None => true | Some i => N.eqb (ua_id a) i end)
      (List.filter (fun a => bool_decide (ua_authenticator_type a = t)) rows)))).
Definition passkey_rows (user_id : Uuid) : Prog (Result DomainError (list UserAuthenticator)) :=
  try rows <- sql (SignIn (AuthsListForUser user_id));;
  Ret (Ok (List.filter (fun a => bool_decide (ua_authenticator_type a = TypeWebAuthn)
                                 && negb (is_revoked a)) rows)).
Definition suspended_passkey_ids (user_id : Uuid) : Prog (Result DomainError (list Uuid)) :=
  try rows <- passkey_rows user_id;;
  Ret (Ok (map ua_id (List.filter (fun a => bool_decide (ua_status a = StatusSuspended)) rows))).
Definition has_usable_passkey (user_id : Uuid) : Prog (Result DomainError bool) :=
  try rows <- passkey_rows user_id;;
  Ret (Ok (existsb (fun a => bool_decide (ua_status a = StatusActive)) rows)).

(** ** Single-use codes *)
Definition normalize_code (t : AuthenticatorType) (code : string) : string :=
  let stripped := drop_separators (trim code) in
  if bool_decide (t = TypeRecoveryCode) then to_lowercase stripped else stripped.
Definition consume_single_use (user_id : Uuid) (t : AuthenticatorType) (secret_hash : string)
  (now : DateTime) : Prog (Result DomainError (option UserAuthenticator)) :=
  try claimed <- sql (SignIn (AuthsClaimCode user_id t secret_hash now));;
  if Nat.eqb claimed 0 then Ret (Ok None)
  else sql (SignIn (AuthsClaimedCode user_id t secret_hash)).
Definition consume_single_use_code (user_id : Uuid) (t : AuthenticatorType) (code : string)
  (now : DateTime) : Prog (Result DomainError bool) :=
  let normalized := normalize_code t code in
  if str_is_empty normalized then Ret (Ok false)
  else
    try consumed <- consume_single_use user_id t (sha256_hex normalized) now;;
    Ret (Ok (is_some consumed)).

(** ** [AuthenticatorManagementService] *)
Definition auths_list (user_id : Uuid)
  : Prog (Result AuthenticatorManagementError (list AuthenticatorSummary)) :=
  try rows <- or_error am_internal (sql (SignIn (AuthsListForUser user_id)));;
  Ret (Ok (map (fun a => {|
      sm_id := ua_id a; sm_authenticator_type := ua_authenticator_type a; sm_status := ua_status a;
      sm_label := ua_label a; sm_created_at := ua_created_at a; sm_last_used_at := ua_last_used_at a |})
    (List.filter (fun a =>
       negb (is_revoked a) && negb (bool_decide (ua_authenticator_type a = TypeRecoveryCode))
       && negb (is_some (ua_secret_encrypted a) && is_some (ua_expires_at a))) rows))).
Definition usable_recovery_code_count (user_id : Uuid) : Prog (Result AuthenticatorManagementError nat) :=
  do now <- perform Now;;
  try rows <- or_error am_internal (sql (SignIn (AuthsListUsable user_id (Some TypeRecoveryCode) now)));;
  Ret (Ok (length rows)).
Definition set_status (tenant_id : TenantId) (user_id authenticator_id : Uuid)
  (next : AuthenticatorStatus) (ctx : RequestContext)
  : Prog (Result AuthenticatorManagementError unit) :=
  try found <- or_error am_internal (sql (SignIn (AuthsFindById authenticator_id)));;
  match found with
  | None => Ret (Err AmNotFound)
  | Some current =>
      if negb (N.eqb (ua_user_id current) user_id) then Ret (Err AmNotFound)
      else if negb (can_transition_to (ua_status current) next) then Ret (Err InvalidTransition)
      else
        do now <- perform Now;;
        try updated <- or_error am_internal
                         (sql (SignIn (AuthsUpdateStatus authenticator_id user_id next now)));;
        if negb updated then Ret (Err AmNotFound)
        else
          do _ <- record_audit AuthenticatorStatusChanged AuditSuccess (Some tenant_id) (Some user_id) None
                    (Some ("type=" ++ as_str (ua_authenticator_type current) ++ " status=" ++ as_str next))
                    ctx;;
          Ret (Ok tt)
  end.
(** A new row: every enrolment starts from one. *)
Definition new_row (id user_id : Uuid) (t : AuthenticatorType) (status : AuthenticatorStatus)
  (secret : option string) (confirmed_at : option DateTime) (now : DateTime) : UserAuthenticator := {|
  ua_id := id; ua_user_id := user_id; ua_authenticator_type := t; ua_status := status; ua_label := "";
  ua_secret_encrypted := secret; ua_target := None; ua_confirmed_at := confirmed_at;
  ua_last_used_at := None; ua_expires_at := None; ua_revoked_at := None; ua_created_at := now;
  ua_updated_at := now; ua_totp_last_used_step := None |}.
Fixpoint create_recovery_codes (user_id : Uuid) (now : DateTime) (count : nat) (codes : list string)
  : Prog (Result AuthenticatorManagementError (list string)) :=
  match count with
  | O => Ret (Ok codes)
  | S more =>
      do code <- perform RandomToken;;
      do id <- perform NewUuid;;
      try _ <- or_error am_internal (sql (SignIn (AuthsCreate
                 (new_row id user_id TypeRecoveryCode StatusActive (Some (sha256_hex code)) (Some now) now))));;
      create_recovery_codes user_id now more (codes ++ [code])%list
  end.
Definition issue_recovery_codes (tenant_id : TenantId) (user_id : Uuid) (ctx : RequestContext)
  : Prog (Result AuthenticatorManagementError (list string)) :=
  do now <- perform Now;;
  try _ <- or_error am_internal (sql (SignIn (AuthsRevokeAllOfType user_id TypeRecoveryCode now)));;
  try codes <- create_recovery_codes user_id now RECOVERY_CODE_COUNT [];;
  do _ <- record_audit RecoveryCodesIssued AuditSuccess (Some tenant_id) (Some user_id) None
            (Some ("count=" ++ pretty RECOVERY_CODE_COUNT)) ctx;;
  Ret (Ok codes).
Definition consume_recovery_code (tenant_id : TenantId) (user_id : Uuid) (code : string)
  (ctx : RequestContext) : Prog (Result AuthenticatorManagementError bool) :=
  do now <- perform Now;;
  try used <- or_error am_internal (consume_single_use_code user_id TypeRecoveryCode code now);;
  do remaining <- usable_recovery_code_count user_id;;
  do _ <- record_audit RecoveryCodeUsed (if used then AuditSuccess else AuditFailure) (Some tenant_id)
            (Some user_id) None
            (Some ("remaining=" ++ match remaining with Ok n => pretty n | Err _ => "-1" end)) ctx;;
  Ret (Ok used).
Definition ensure_may_send_otp (user_id : Uuid) (t : AuthenticatorType) (now : DateTime)
  : Prog (Result AuthenticatorManagementError unit) :=
  try rows <- or_error am_internal (sql (SignIn (AuthsListForUser user_id)));;
  Ret (if may_send_otp rows t now then Ok tt else Err OtpRateLimited).
Definition consume_email_otp (user_id : Uuid) (code : string)
  : Prog (Result AuthenticatorManagementError bool) :=
  do now <- perform Now;;
  or_error am_internal (consume_single_use_code user_id TypeEmailOtp code now).
Definition consume_sms_otp (user_id : Uuid) (code : string)
  : Prog (Result AuthenticatorManagementError bool) :=
  do now <- perform Now;;
  or_error am_internal (consume_single_use_code user_id TypeSmsOtp code now).
Definition confirm_pending (user_id : Uuid) (t : AuthenticatorType) (secret_hash : string) (now : DateTime)
  : Prog (Result DomainError (option UserAuthenticator)) :=
  try claimed <- sql (SignIn (AuthsConfirmPending user_id t secret_hash now));;
  if Nat.eqb claimed 0 then Ret (Ok None) else sql (SignIn (AuthsConfirmed user_id t)).
Definition confirm_phone_registration (tenant_id : TenantId) (user_id : Uuid) (code : string)
  (ctx : RequestContext) : Prog (Result AuthenticatorManagementError bool) :=
  let normalized := drop_separators (trim code) in
  if str_is_empty normalized then Ret (Ok false)
  else
    do now <- perform Now;;
    try found <- or_error am_internal (confirm_pending user_id TypeSmsOtp (sha256_hex normalized) now);;
    do _ <- (if is_some found
             then record_audit AuthenticatorStatusChanged AuditSuccess (Some tenant_id) (Some user_id) None
                    (Some "type=sms_otp status=active") ctx
             else Ret tt);;
    Ret (Ok (is_some found)).
(** The confirmed phone: the active row without an expiry. *)
Definition confirmed_phone (user_id : Uuid) : Prog (Result AuthenticatorManagementError (option string)) :=
  do now <- perform Now;;
  try rows <- or_error am_internal (sql (SignIn (AuthsListUsable user_id (Some TypeSmsOtp) now)));;
  Ret (Ok (find (fun r => negb (is_some (ua_expires_at r))) rows ≫= ua_target)).
Definition has_confirmed_phone (user_id : Uuid) : Prog (Result AuthenticatorManagementError bool) :=
  try phone <- confirmed_phone user_id;; Ret (Ok (is_some phone)).

(** ** The registry follows the TOTP and passkey registrations *)
Definition register_totp_pending (user_id : Uuid) : Prog (Result AuthenticatorManagementError unit) :=
  do now <- perform Now;;
  try _ <- or_error am_internal (sql (SignIn (AuthsRevokeAllOfType user_id TypeTotp now)));;
  do id <- perform NewUuid;;
  or_error am_internal (sql (SignIn (AuthsCreate (new_row id user_id TypeTotp StatusPending None None now)))).
Definition create_active_totp (user_id : Uuid) (now : DateTime)
  : Prog (Result AuthenticatorManagementError unit) :=
  do id <- perform NewUuid;;
  or_error am_internal (sql (SignIn (AuthsCreate (new_row id user_id TypeTotp StatusActive None (Some now) now)))).
Definition activate_totp (user_id : Uuid) : Prog (Result AuthenticatorManagementError unit) :=
  do now <- perform Now;;
  try rows <- or_error am_internal (sql (SignIn (AuthsListForUser user_id)));;
  match find (fun a => bool_decide (ua_authenticator_type a = TypeTotp)
                       && bool_decide (ua_status a = StatusPending)) rows with
  | None => create_active_totp user_id now
  | Some pending =>
      try _ <- or_error am_internal (sql (SignIn (AuthsUpdateStatus (ua_id pending) user_id StatusActive now)));;
      Ret (Ok tt)
  end.
Definition revoke_totp (user_id : Uuid) : Prog (Result AuthenticatorManagementError unit) :=
  do now <- perform Now;;
  try _ <- or_error am_internal (sql (SignIn (AuthsRevokeAllOfType user_id TypeTotp now)));;
  Ret (Ok tt).
Definition revoke_webauthn (user_id credential_id : Uuid) : Prog (Result AuthenticatorManagementError unit) :=
  do now <- perform Now;;
  try rows <- or_error am_internal (sql (SignIn (AuthsListForUser user_id)));;
  match find (fun a => N.eqb (ua_id a) credential_id) rows with
  | None => Ret (Ok tt)
  | Some target =>
      try _ <- or_error am_internal (sql (SignIn (AuthsUpdateStatus (ua_id target) user_id StatusRevoked now)));;
      Ret (Ok tt)
  end.
Fixpoint revoke_types (user_id : Uuid) (now : DateTime) (types : list AuthenticatorType)
  : Prog (Result AuthenticatorManagementError unit) :=
  match types with
  | [] => Ret (Ok tt)
  | t :: rest =>
      try _ <- or_error am_internal (sql (SignIn (AuthsRevokeAllOfType user_id t now)));;
      revoke_types user_id now rest
  end.
Definition revoke_all_for_user (user_id : Uuid) : Prog (Result AuthenticatorManagementError unit) :=
  do now <- perform Now;;
  revoke_types user_id now [TypeTotp; TypeWebAuthn; TypeRecoveryCode; TypeEmailOtp].
End registry.

(** ** TOTP ([application/totp_registration.rs]) *)
Definition TOTP_STEP : Z := 30.
Definition TOTP_SKEW : Z := 1.
Inductive TotpRegistrationError : Type :=
  | AlreadyConfigured | TotpInvalidCode | TotpNotFound | TotpSessionExpired | TotpInternal (reason : string).
Definition totp_error_string (e : TotpRegistrationError) : string :=
  match e with
  | AlreadyConfigured => "totp already configured and confirmed"
  | TotpInvalidCode => "invalid totp code"
  | TotpNotFound => "no pending totp setup found"
  | TotpSessionExpired => "sso session expired or not found"
  | TotpInternal reason => "internal error: " ++ reason
  end.
Definition am_error_string (e : AuthenticatorManagementError) : string :=
  match e with
  | AmNotFound => "authenticator not found"
  | InvalidTransition => "transition is not allowed"
  | MailUnavailable => "email delivery is not configured"
  | SmsUnavailable => "sms delivery is not configured"
  | PhoneNotRegistered => "no confirmed phone number is registered"
  | InvalidPhoneNumber => "invalid phone number"
  | OtpRateLimited => "otp was sent too recently or too often"
  | AmInternal reason => "internal error: " ++ reason
  end.
Definition totp_from_domain (e : DomainError) : TotpRegistrationError := TotpInternal (domain_error_string e).
Definition totp_from_registry {A} (p : Prog (Result AuthenticatorManagementError A))
  : Prog (Result TotpRegistrationError A) :=
  do r <- p;; Ret (match r with Ok a => Ok a | Err e => Err (TotpInternal (am_error_string e)) end).
Record TotpSetupData : Type := { sd_totp_uri : string; sd_secret_base32 : string }.

(** The host name of the issuer: no scheme, credentials, port or path. *)
Definition after_last (c : ascii) (s : string) : string := List.last (split_on c s) s.
Definition before_first (c : ascii) (s : string) : string :=
  match split_on c s with x :: _ => x | [] => s end.
Fixpoint after_scheme (s : string) : option string :=
  match s with
  | "" => None
  | String _ s' =>
      if starts_with "://" s then Some (String.substring 3 (String.length s - 3) s) else after_scheme s'
  end.
Definition totp_issuer_label (issuer : string) : option string :=
  let authority := before_first "#" (before_first "?" (before_first "/"
                     (unwrap_or issuer (after_scheme issuer)))) in
  let host := trim (before_first ":" (after_last "@" authority)) in
  if str_is_empty host then None else Some host.
Fixpoint drop_colons (s : string) : string :=
  match s with
  | "" => ""
  | String c s' => if Ascii.eqb c ":" then drop_colons s' else String c (drop_colons s')
  end.

Section totp.
Context {HS : Hashing} {AG : AesGcm} {TO : TotpCrate} (key_encryption_key issuer : string).

(** The steps that are tried, the newest first; none is negative. *)
Definition totp_steps (now_secs : Z) : list Z :=
  let base := (now_secs / TOTP_STEP)%Z in
  List.filter (fun step => (0 <=? step)%Z) [base + TOTP_SKEW; base; base - TOTP_SKEW]%Z.
(** [real] is the system clock. *)
Definition verify_totp_code (secret_bytes code : string) (real : DateTime)
  : Result TotpRegistrationError (option Z) :=
  match totp_build_error secret_bytes with
  | Some e => Err (TotpInternal ("failed to build TOTP: " ++ e))
  | None =>
      if (real <? 0)%Z
      then Err (TotpInternal ("system clock before epoch: " ++ "second time provided was later than self"))
      else Ok (find (fun step => totp_check secret_bytes code (step * TOTP_STEP)) (totp_steps (timestamp real)))
  end.
Definition totp_resolve_user (sso_session_id : string) : Prog (Result TotpRegistrationError Uuid) :=
  try found <- or_error totp_from_domain (sql (SignIn (SsoFindByHash (sha256_hex sso_session_id))));;
  match found with
  | None => Ret (Err TotpSessionExpired)
  | Some session =>
      do now <- perform Now;;
      if (so_idle_expires_at session <=? now)%Z || (so_absolute_expires_at session <=? now)%Z
      then Ret (Err TotpSessionExpired)
      else Ret (Ok (so_user_id session))
  end.
Definition account_name (user_id : Uuid) : Prog (Result TotpRegistrationError string) :=
  try found <- or_error totp_from_domain (sql (UsersFindById user_id));;
  match found with
  | None => Ret (Err TotpSessionExpired)
  | Some user =>
      let name := match u_preferred_username user with
        | Some v => if str_is_empty (trim v) then u_email user else v
        | None => u_email user end in
      Ret (Ok (drop_colons name))
  end.
Definition totp_setup (sso_session_id : string) : Prog (Result TotpRegistrationError TotpSetupData) :=
  try user_id <- totp_resolve_user sso_session_id;;
  try account <- account_name user_id;;
  try existing <- or_error totp_from_domain (sql (SignIn (TotpFindByUserId user_id)));;
  if match existing with Some s => totp_is_confirmed s | None => false end
  then Ret (Err AlreadyConfigured)
  else
    do secret <- perform RandomToken;;
    match totp_to_url secret (totp_issuer_label issuer) account with
    | Err e => Ret (Err (TotpInternal ("failed to build TOTP: " ++ e)))
    | Ok totp_uri =>
        do nonce <- perform RandomToken;;
        match encrypt nonce secret key_encryption_key with
        | Err e => Ret (Err (TotpInternal e))
        | Ok secret_encrypted =>
            do now <- perform Now;;
            try _ <- totp_from_registry (register_totp_pending user_id);;
            try _ <- or_error totp_from_domain (sql (SignIn (TotpUpsert {|
                       ts_user_id := user_id; ts_secret_encrypted := secret_encrypted;
                       ts_confirmed_at := None; ts_created_at := now; ts_updated_at := now |})));;
            Ret (Ok {| sd_totp_uri := totp_uri; sd_secret_base32 := totp_to_base32 secret |})
        end
    end.
Definition totp_confirm_code (sso_session_id code : string) : Prog (Result TotpRegistrationError unit) :=
  try user_id <- totp_resolve_user sso_session_id;;
  try found <- or_error totp_from_domain (sql (SignIn (TotpFindByUserId user_id)));;
  match found with
  | None => Ret (Err TotpNotFound)
  | Some record =>
      if totp_is_confirmed record then Ret (Err AlreadyConfigured)
      else match decrypt (ts_secret_encrypted record) key_encryption_key with
      | Err e => Ret (Err (TotpInternal e))
      | Ok secret =>
          do real <- perform Now;;
          match verify_totp_code secret code real with
          | Err e => Ret (Err e)
          | Ok None => Ret (Err TotpInvalidCode)
          | Ok (Some step) =>
              do now <- perform Now;;
              try _ <- or_error totp_from_domain (sql (SignIn (TotpRecordStep user_id step now)));;
              try _ <- or_error totp_from_domain (sql (SignIn (TotpConfirm user_id now)));;
              totp_from_registry (activate_totp user_id)
          end
      end
  end.
Definition totp_remove (sso_session_id : string) : Prog (Result TotpRegistrationError unit) :=
  try user_id <- totp_resolve_user sso_session_id;;
  try _ <- or_error totp_from_domain (sql (SignIn (TotpDelete user_id)));;
  totp_from_registry (revoke_totp user_id).
(** [user_has_confirmed_totp] of [application/mfa_login.rs]. *)
Definition user_has_confirmed_totp (user_id : Uuid) : Prog (Result DomainError bool) :=
  try found <- sql (SignIn (TotpFindByUserId user_id));;
  Ret (Ok (match found with Some s => totp_is_confirmed s | None => false end)).
End totp.
