(* ===== verification/SignInGates.v ===== *)
(** * The checks on the way to a code
      ([application/authentication_policy_gate.rs], [application/sso_restore.rs],
       [application/code_issuance.rs], [consent_is_granted] of
       [application/consent.rs], and the redirects of [application/authorize.rs])

    Which policy applies, whether an SSO session can be taken up again, whether the
    user has consented, and the one place a code is issued. *)

From S2P Require Import Prelude Values ResponseMode External AuditLog Directory Application.
From S2P Require Import AuthenticationPolicy AuthorizationRequest AuthSession AuthorizationCode.
From S2P Require Import SsoSession SessionKey Consent SignInStore Effects AccessGate.

(** ** [AuthenticationPolicyGate] *)
Inductive PolicyAudience : Type := OidcClient (client_id : string) | Unaddressed.
Record PolicyQuery : Type := {
  pq_tenant_id : TenantId;
  pq_audience : PolicyAudience;
  pq_user_id : Uuid;
  pq_ip_address : option string;
  pq_requested_acr : list string;
  pq_now : DateTime
}.
Definition policy_context (q : PolicyQuery) (application_id : option Uuid) : AuthenticationContext := {|
  cx_application_id := application_id; cx_user_id := pq_user_id q;
  cx_ip_address := pq_ip_address q; cx_now := pq_now q; cx_requested_acr := pq_requested_acr q |}.
Definition decide_policy (q : PolicyQuery) : Prog (Result DomainError PolicyDecision) :=
  try application_id <-
    (match pq_audience q with
     | OidcClient client_id => policy_target_for_oidc_client (pq_tenant_id q) client_id
     | Unaddressed => Ret (Ok None)
     end);;
  try default_effect <- sql (PolicyDefaultEffectOf (pq_tenant_id q));;
  try policies <- sql (PoliciesListEnabled (pq_tenant_id q));;
  Ret (Ok (evaluate_policies policies (policy_context q application_id) default_effect)).

(** ** [SsoRestorer::try_resume] *)
Record RestoredSso : Type := {
  rs_user_id : Uuid;
  rs_auth_time : DateTime;
  rs_session_hash : string;
  rs_authentication_methods : list AuthenticationMethod;
  rs_authentication_strength : AuthenticationStrength;
  rs_mfa_completed_at : option DateTime;
  rs_absolute_ttl_secs : Z
}.
Definition restored (s : SsoSession) (session_hash : string) : RestoredSso := {|
  rs_user_id := so_user_id s; rs_auth_time := so_auth_time s; rs_session_hash := session_hash;
  rs_authentication_methods := so_authentication_methods s;
  rs_authentication_strength := so_authentication_strength s;
  rs_mfa_completed_at := so_mfa_completed_at s;
  rs_absolute_ttl_secs := absolute_ttl_secs s |}.

Section programs.
Context {HS : Hashing}.

Definition try_resume (tenant : TenantContext) (session_id : string) (ctx : RequestContext)
  : Prog (Result DomainError (option RestoredSso)) :=
  let session_hash := sha256_hex session_id in
  try found <- sql (SignIn (SsoFindByHash session_hash));;
  match found with
  | None => Ret (Ok None)
  | Some session =>
      do now <- perform Now;;
      if negb (sso_is_valid_at session now) then
        try _ <- sql (SignIn (SsoDeleteStmt session_hash));;
        do _ <- record_audit SsoSessionExpired AuditFailure (Some (tc_tenant_id tenant))
                  (Some (so_user_id session)) None (Some "idle or absolute timeout") ctx;;
        Ret (Ok None)
      else
        try user <- sql (UsersFindById (so_user_id session));;
        match user with
        | None => Ret (Ok None)
        | Some user =>
            if user_is_active user && negb (user_is_locked_at user now) then
              try member <- sql (MembershipsIsActiveMember (tc_tenant_id tenant) (so_user_id session));;
              if negb member then Ret (Ok None)
              else
                try lifetime <- sql (SsoLifetimeOf (u_tenant_id user));;
                match add_duration now (sl_idle lifetime) with
                | None => Panic
                | Some idle =>
                    try _ <- sql (SignIn (SsoExtendIdleStmt session_hash idle));;
                    do _ <- record_audit SsoSessionResumed AuditSuccess (Some (tc_tenant_id tenant))
                              (Some (so_user_id session)) None None ctx;;
                    Ret (Ok (Some (restored session session_hash)))
                end
            else Ret (Ok None)
        end
  end.

(** ** [consent_is_granted] *)
Definition consent_is_granted (tenant_id : TenantId) (user_id : Uuid) (request : AuthorizationRequest)
  : Prog (Result DomainError bool) :=
  let needed := scopes_needing_consent request in
  match needed with
  | [] => Ret (Ok true)
  | _ =>
      try found <- sql (SignIn (ConsentsFind tenant_id user_id (rq_client_id request)));;
      Ret (Ok (is_some_and (fun consent => covers consent needed) found))
  end.

(** ** [CodeIssuanceService::issue] *)
Record IssueCodeCommand : Type := {
  ic_tenant : TenantContext;
  ic_request : AuthorizationRequest;
  ic_authentication : Authentication
}.
Inductive CodeIssuance : Type :=
  | Issued (code : string) | ApplicationDenied (application_name : string).
Definition issue_code (ttl : Duration) (cmd : IssueCodeCommand) (ctx : RequestContext)
  : Prog (Result DomainError CodeIssuance) :=
  let tenant_id := tc_tenant_id (ic_tenant cmd) in
  let request := ic_request cmd in
  let user_id := au_user_id (ic_authentication cmd) in
  do gate <- check tenant_id (rq_client_id request) user_id ctx;;
  match gate with
  | GateDenied application_name _ => Ret (Ok (ApplicationDenied application_name))
  | GateAllowed =>
      do now <- perform Now;;
      do fresh <- perform RandomToken;;
      let '(record, code) :=
        issue tenant_id request (ic_authentication cmd) now ttl {| code_plain := fresh |} in
      try _ <- sql (CodesCreate record);;
      do _ <- record_audit AuthorizationCodeIssued AuditSuccess (Some tenant_id) (Some user_id)
                (Some (rq_client_id request)) None ctx;;
      Ret (Ok (Issued (code_plain code)))
  end.
End programs.

(** ** Redirects *)
Record AuthorizationDispatch : Type := {
  ds_location : string;
  ds_form_post : option (list (string * string))
}.
(** [From<AuthorizationResponse>]. *)
Definition dispatch (r : AuthorizationResponse) : AuthorizationDispatch := {|
  ds_location := location r;
  ds_form_post := then_some (is_form_post r) (ar_parameters r) |}.

Section redirects.
Context {UC : UrlCrate}.
Definition append_query (redirect_uri : string) (pairs : list (string * string)) : string :=
  match url_parse redirect_uri with
  | Some url => url_to_string (url_append_pairs url pairs)
  | None =>
      let encoded := map (fun kv => kv.1 ++ "=" ++ percent_encode_all kv.2) pairs in
      let separator := if contains_char "?" redirect_uri then "&" else "?" in
      redirect_uri ++ separator ++ join "&" encoded
  end.
Definition error_redirect_with_state (redirect_uri : string) (error : OAuthErrorCode)
  (description : string) (state : option string) : string :=
  append_query redirect_uri
    ([("error", error_code_as_str error); ("error_description", description)]
     ++ match state with Some s => [("state", s)] | None => [] end)%list.
Definition redirect_with_error (request : AuthorizationRequest) (error : OAuthErrorCode)
  (description : string) : string :=
  error_redirect_with_state (rq_redirect_uri request) error description (Some (rq_state request)).
Definition code_redirect (redirect_uri code state : string) : string :=
  append_query redirect_uri [("code", code); ("state", state)].
End redirects.
