(* ===== verification/Authorize.v ===== *)
(** * The authorization endpoint ([application/authorize.rs])

    [authorize] accepts a request, stores an authentication session and hands its
    single-use handle to the login page.  [resume] exchanges the handle and, when
    the browser brings an SSO session that satisfies the request, ends the flow
    with a code; [continue_with_sso] does the same for a login page that is opened
    again.  Otherwise the user has to sign in. *)

From S2P Require Import Prelude Values ResponseMode External AuditLog Directory Client.
From S2P Require Import AuthenticationPolicy AuthorizationRequest AuthSession SsoSession.
From S2P Require Import SignInStore Effects AccessGate SignInGates.

Definition HANDLE_TTL_SECS : Z := 60.
Record AuthorizeConfig : Type := { az_auth_session_ttl : Duration; az_code_ttl : Duration }.

Inductive AuthorizeOutcome : Type :=
  | HandoffToWeb (handle : string)
  | ErrorRedirect (location : string)
  | FatalError (error : OAuthErrorCode) (description : string).
Record ResumeCommand : Type := { rc_handle : string; rc_sso_session_id : option string }.
Record ContinueCommand : Type := { cc_auth_session_id : string; cc_sso_session_id : option string }.
Inductive ResumeOutcome : Type :=
  | Redirect (location : string) (form_post : option (list (string * string)))
      (sso_absolute_ttl_secs : Z)
  | ResumeErrorRedirect (location : string) (form_post : option (list (string * string)))
  | ResumeConsentRequired (auth_session_id : string) (sso_absolute_ttl_secs : Z)
  | ResumeLoginRequired (auth_session_id : string)
  | ApplicationNotPermitted (application_name : string)
  | ExpiredHandle
  | ResumeInternal (message : string).
Inductive RestoredPolicy : Type :=
  | PolicyOk | Reauthenticate | Denied | PolicyInternal (message : string).

(** What a decision asks of a session that is taken up again. *)
Definition restored_policy (decision : PolicyDecision) (methods : list AuthenticationMethod)
  : RestoredPolicy :=
  let user_verified := bool_decide (WebAuthn ∈ methods) in
  match decision with
  | DecisionDeny _ => Denied
  | DecisionRequireMfa _ => if existsb is_second_factor methods then PolicyOk else Reauthenticate
  | DecisionRequireMethods _ =>
      if is_some (unmet_method_requirement decision methods user_verified) then Reauthenticate
      else PolicyOk
  | DecisionAllow _ => PolicyOk
  end.
Definition resume_error (request : AuthorizationRequest) (error : OAuthErrorCode)
  (description : string) : ResumeOutcome :=
  let d := dispatch (error_response request error description) in
  ResumeErrorRedirect (ds_location d) (ds_form_post d).

Section endpoint.
Context {HS : Hashing} {UC : UrlCrate} (cfg : AuthorizeConfig).

(** [let _ = self.auth_sessions.delete(..).await]: the answer is dropped. *)
Definition delete_session (s : AuthSession) : Prog unit :=
  do _ <- sql (SignIn (SessionsDelete (as_id_hash s)));; Ret tt.

Definition authorize (tenant : TenantContext) (params : AuthorizationParameters)
  : Prog AuthorizeOutcome :=
  match non_empty (p_client_id params) with
  | None => Ret (FatalError InvalidRequest "client_id is required")
  | Some client_id =>
      do found <- sql (ClientsFindByClientId (tc_tenant_id tenant) client_id);;
      match found with
      | Err _ => Ret (FatalError ServerError "internal error")
      | Ok None => Ret (FatalError InvalidClient "unknown client_id")
      | Ok (Some client) =>
          match accept params client with
          | None => Panic
          | Some (Err (NotRedirectable error description)) => Ret (FatalError error description)
          | Some (Err (Redirectable redirect_uri state error description)) =>
              Ret (ErrorRedirect (error_redirect_with_state redirect_uri error description state))
          | Some (Ok request) =>
              do now <- perform Now;;
              do handle <- perform RandomToken;;
              do id <- perform RandomToken;;
              let '(session, handle) :=
                start (tc_tenant_id tenant) request now (az_auth_session_ttl cfg)
                  (seconds HANDLE_TTL_SECS) {| handle_plain := handle |} {| session_id_plain := id |} in
              do r <- sql (SignIn (SessionsCreate session));;
              match r with
              | Err _ => Ret (ErrorRedirect (redirect_with_error (as_request session) ServerError
                                               "failed to start authorization"))
              | Ok _ => Ret (HandoffToWeb (handle_plain handle))
              end
          end
      end
  end.

(** [exchange_handoff]; the error is the outcome itself.  The new identifier is
    drawn before the guard, not behind it: nothing sees the difference. *)
Definition exchange_handle (tenant : TenantContext) (handle : string) (now : DateTime)
  : Prog (Result ResumeOutcome (AuthSession * AuthSessionId)) :=
  match handle_from_presented handle with
  | None => Ret (Err ExpiredHandle)
  | Some handle =>
      do found <- sql (SignIn (SessionsFindByHandoff (tc_tenant_id tenant) (hash_handle handle)));;
      match found with
      | Ok None => Ret (Err ExpiredHandle)
      | Err e => Ret (Err (ResumeInternal (domain_error_string e)))
      | Ok (Some session) =>
          do fresh <- perform RandomToken;;
          match exchange_handoff session now {| session_id_plain := fresh |} with
          | Err _ => Ret (Err ExpiredHandle)
          | Ok (session', exchange) =>
              do saved <- sql (SignIn (SessionsSaveHandoffExchange exchange));;
              match saved with
              | Ok true => Ret (Ok (session', rot_issued (hx_rotation exchange)))
              | Ok false => Ret (Err ExpiredHandle)
              | Err e => Ret (Err (ResumeInternal (domain_error_string e)))
              end
          end
      end
  end.

Definition evaluate_for_restored_session (tenant : TenantContext) (request : AuthorizationRequest)
  (user_id : Uuid) (methods : list AuthenticationMethod) (ctx : RequestContext) (now : DateTime)
  : Prog RestoredPolicy :=
  do decision <- decide_policy {|
    pq_tenant_id := tc_tenant_id tenant; pq_audience := OidcClient (rq_client_id request);
    pq_user_id := user_id; pq_ip_address := ctx_ip_address ctx;
    pq_requested_acr := requested_acr request; pq_now := now |};;
  match decision with
  | Err e => Ret (PolicyInternal (domain_error_string e))
  | Ok decision => Ret (restored_policy decision methods)
  end.
Definition check_consent (tenant : TenantContext) (user_id : Uuid) (request : AuthorizationRequest)
  : Prog bool :=
  do granted <- consent_is_granted (tc_tenant_id tenant) user_id request;;
  match granted with Ok b => Ret b | Err _ => Ret false end.

Definition issue_restored_code (tenant : TenantContext) (session : AuthSession)
  (authentication : Authentication) (ttl_secs : Z) (ctx : RequestContext) : Prog ResumeOutcome :=
  let request := as_request session in
  do r <- issue_code (az_code_ttl cfg) {| ic_tenant := tenant; ic_request := request;
                                          ic_authentication := authentication |} ctx;;
  match r with
  | Ok (ApplicationDenied application_name) =>
      if forbids_interaction request then
        do _ <- delete_session session;;
        Ret (resume_error request AccessDenied "application not permitted")
      else Ret (ApplicationNotPermitted application_name)
  | Ok (Issued code) =>
      do _ <- delete_session session;;
      let d := dispatch (success_response request code) in
      Ret (Redirect (ds_location d) (ds_form_post d) ttl_secs)
  | Err _ => Ret (resume_error request ServerError "failed to issue authorization code")
  end.
Definition authorize_restored (tenant : TenantContext) (session : AuthSession)
  (authentication : Authentication) (ttl_secs : Z) (ctx : RequestContext) : Prog ResumeOutcome :=
  let request := as_request session in
  do consented <-
    (if negb (forces_consent request) then check_consent tenant (au_user_id authentication) request
     else Ret false);;
  if (consented : bool) then issue_restored_code tenant session authentication ttl_secs ctx
  else if forbids_interaction request then
    do _ <- delete_session session;;
    Ret (resume_error request ConsentRequired "consent required")
  else
    do fresh <- perform RandomToken;;
    let '(session', completion) :=
      complete_authentication session authentication {| session_id_plain := fresh |} in
    do saved <- sql (SignIn (SessionsSaveAuthentication completion));;
    match saved with
    | Err _ => Ret (resume_error (as_request session') ServerError "failed to start consent")
    | Ok _ => Ret (ResumeConsentRequired (session_id_plain (rot_issued (ac_rotation completion))) ttl_secs)
    end.

(** [None]: the user has to sign in. *)
Definition complete_with_sso (tenant : TenantContext) (session : AuthSession)
  (sso_session_id : option string) (ctx : RequestContext) (now : DateTime)
  : Prog (option ResumeOutcome) :=
  let request := as_request session in
  if forces_reauthentication request then Ret None
  else match non_empty sso_session_id with
  | None => Ret None
  | Some sso_session_id =>
      do r <- try_resume tenant sso_session_id ctx;;
      match r with
      | Err _ | Ok None => Ret None
      | Ok (Some restored) =>
          do policy <- evaluate_for_restored_session tenant request (rs_user_id restored)
                         (rs_authentication_methods restored) ctx now;;
          match policy with
          | Reauthenticate => Ret None
          | Denied =>
              do _ <- delete_session session;;
              Ret (Some (resume_error request AccessDenied "denied by authentication policy"))
          | PolicyInternal e => Ret (Some (ResumeInternal e))
          | PolicyOk =>
              if authentication_is_too_old request (rs_auth_time restored) now then Ret None
              else
                let authentication := {|
                  au_user_id := rs_user_id restored; au_auth_time := rs_auth_time restored;
                  au_sso_sid := Some (sid_of (rs_session_hash restored));
                  au_methods := Some (rs_authentication_methods restored) |} in
                do outcome <- authorize_restored tenant session authentication
                                (rs_absolute_ttl_secs restored) ctx;;
                Ret (Some outcome)
          end
      end
  end.

Definition resume (tenant : TenantContext) (cmd : ResumeCommand) (ctx : RequestContext)
  : Prog ResumeOutcome :=
  do now <- perform Now;;
  do exchanged <- exchange_handle tenant (rc_handle cmd) now;;
  match exchanged with
  | Err outcome => Ret outcome
  | Ok (session, auth_session_id) =>
      do completed <- complete_with_sso tenant session (rc_sso_session_id cmd) ctx now;;
      match completed with
      | Some outcome => Ret outcome
      | None =>
          if forbids_interaction (as_request session) then
            do _ <- delete_session session;;
            Ret (resume_error (as_request session) LoginRequired "login required")
          else Ret (ResumeLoginRequired (session_id_plain auth_session_id))
      end
  end.

Definition continue_with_sso (tenant : TenantContext) (cmd : ContinueCommand) (ctx : RequestContext)
  : Prog ResumeOutcome :=
  do now <- perform Now;;
  match session_id_from_presented (cc_auth_session_id cmd) with
  | None => Ret ExpiredHandle
  | Some auth_session_id =>
      do found <- sql (SignIn (SessionsFind (tc_tenant_id tenant) (hash_session_id auth_session_id)));;
      match found with
      | Ok None => Ret ExpiredHandle
      | Err e => Ret (ResumeInternal (domain_error_string e))
      | Ok (Some session) =>
          if session_is_expired_at session now then Ret ExpiredHandle
          else match as_progress session with
          | Anonymous =>
              do completed <- complete_with_sso tenant session (cc_sso_session_id cmd) ctx now;;
              match completed with
              | Some outcome => Ret outcome
              | None => Ret (ResumeLoginRequired (session_id_plain auth_session_id))
              end
          | _ => Ret (ResumeLoginRequired (session_id_plain auth_session_id))
          end
      end
  end.
End endpoint.
