(* ===== verification/ConsentFlow.v ===== *)
(** * The consent page ([application/consent.rs])

    A completed authentication waits in the session; the user grants the scopes and
    a code is issued, or refuses them. *)

From S2P Require Import Prelude Values ResponseMode External AuditLog Directory Client.
From S2P Require Import AuthorizationRequest AuthSession Consent SignInStore Effects AccessGate.
From S2P Require Import SignInGates Authorize.

Record ConsentInfo : Type := {
  cf_auth_session_id : string;
  cf_client_name : string;
  cf_client_id : string;
  cf_requested_scopes : list string;
  cf_redirect_uri : string
}.
Inductive ConsentOutcome : Type :=
  | Approved (location : string) (form_post : option (list (string * string)))
  | ConsentRefused (location : string) (form_post : option (list (string * string)))
  | ConsentNotPermitted (application_name : string)
  | ConsentSessionExpired
  | ConsentInternal (message : string).

Section consent.
Context {HS : Hashing} (code_ttl : Duration).

Definition live_session (tenant : TenantContext) (auth_session_id : string)
  : Prog (Result DomainError (option AuthSession)) :=
  match session_id_from_presented auth_session_id with
  | None => Ret (Ok None)
  | Some id =>
      try found <- sql (SignIn (SessionsFind (tc_tenant_id tenant) (hash_session_id id)));;
      match found with
      | None => Ret (Ok None)
      | Some session =>
          do now <- perform Now;;
          if session_is_expired_at session now then
            do _ <- delete_session session;; Ret (Ok None)
          else Ret (Ok (Some session))
      end
  end.

Definition info (tenant : TenantContext) (auth_session_id : string)
  : Prog (Result DomainError (option ConsentInfo)) :=
  try live <- live_session tenant auth_session_id;;
  match live with
  | None => Ret (Ok None)
  | Some session =>
      match completed_authentication session with
      | None => Ret (Ok None)
      | Some _ =>
          let request := as_request session in
          try found <- sql (ClientsFindByClientId (tc_tenant_id tenant) (rq_client_id request));;
          Ret (Ok (Some {|
            cf_auth_session_id := auth_session_id;
            cf_client_name := match found with Some c => c_app_name c | None => rq_client_id request end;
            cf_client_id := rq_client_id request;
            cf_requested_scopes := scopes_needing_consent request;
            cf_redirect_uri := rq_redirect_uri request |}))
      end
  end.

Definition consent_of (tenant : TenantContext) (a : Authentication) (request : AuthorizationRequest)
  (now : DateTime) : ClientConsent := {|
  cn_user_id := au_user_id a; cn_tenant_id := tc_tenant_id tenant;
  cn_client_id := rq_client_id request; cn_scopes := rq_scope request;
  cn_granted_at := now; cn_updated_at := now |}.
Definition approve (tenant : TenantContext) (auth_session_id : string) (ctx : RequestContext)
  : Prog ConsentOutcome :=
  do live <- live_session tenant auth_session_id;;
  match live with
  | Ok None => Ret ConsentSessionExpired
  | Err e => Ret (ConsentInternal (domain_error_string e))
  | Ok (Some session) =>
      match completed_authentication session with
      | None => Ret ConsentSessionExpired
      | Some authentication =>
          let request := as_request session in
          do now <- perform Now;;
          do saved <- sql (SignIn (ConsentsUpsert (consent_of tenant authentication request now)));;
          match saved with
          | Err e => Ret (ConsentInternal (domain_error_string e))
          | Ok _ =>
              do _ <- record_audit ConsentGranted AuditSuccess (Some (tc_tenant_id tenant))
                        (Some (au_user_id authentication)) (Some (rq_client_id request)) None ctx;;
              do r <- issue_code code_ttl {| ic_tenant := tenant; ic_request := request;
                                             ic_authentication := authentication |} ctx;;
              match r with
              | Ok (ApplicationDenied application_name) => Ret (ConsentNotPermitted application_name)
              | Err e => Ret (ConsentInternal (domain_error_string e))
              | Ok (Issued code) =>
                  do _ <- delete_session session;;
                  let d := dispatch (success_response request code) in
                  Ret (Approved (ds_location d) (ds_form_post d))
              end
          end
      end
  end.

Definition deny (tenant : TenantContext) (auth_session_id : string) (ctx : RequestContext)
  : Prog ConsentOutcome :=
  do live <- live_session tenant auth_session_id;;
  match live with
  | Ok None => Ret ConsentSessionExpired
  | Err e => Ret (ConsentInternal (domain_error_string e))
  | Ok (Some session) =>
      do _ <- record_audit ConsentDenied AuditFailure (Some (tc_tenant_id tenant))
                (identified_user session) (Some (rq_client_id (as_request session)))
                (Some "user_denied") ctx;;
      do _ <- delete_session session;;
      let d := dispatch (error_response (as_request session) AccessDenied "user denied consent") in
      Ret (ConsentRefused (ds_location d) (ds_form_post d))
  end.
End consent.
