(* ===== verification/DeviceGate.v ===== *)
(** * Only from a registered device ([DeviceGate] in [application/device_enrollment.rs])

    A tenant may admit its members from their registered browsers only.  Every way
    of signing in passes [gate_admit] before it makes a session; whoever comes from
    elsewhere gets a ticket to register with. *)

From S2P Require Import Prelude Values External AuditLog Directory AuthorizationCode UserDevice.
From S2P Require Import EnrollmentTicket SignInStore Effects AccessGate.

(** What the request brings along besides [RequestContext]:
    [RequestDevice::current] and [RequestCountry::current]. *)
Record RequestOrigin : Type := { ro_device : option DeviceRef; ro_country : option CountryCode }.
Record AdmissionAttempt : Type := {
  aa_tenant_id : TenantId;
  aa_user_id : Uuid;
  aa_home_tenant_id : TenantId;
  aa_methods : list AuthenticationMethod;
  aa_client_id : option string;
  aa_app_approved : bool
}.
Inductive Admission : Type := DeviceAdmitted | EnrollmentRequired (ticket : string).
Inductive DescribeEnrollmentOutcome : Type :=
  | EnrollmentOk (username : string) | TicketInvalid | DescribeInternal (message : string).

Section gate.
Context {HS : Hashing} {TC : TicketCrypto}.

(** [&d.as_str()[..16]]; [None] where the slice panics. *)
Definition group_key (device : option DeviceRef) : option string :=
  match device with
  | None => Some "no-device-cookie"
  | Some d =>
      if (16 <=? str_len (device_ref_hash d))%Z then Some (String.substring 0 16 (device_ref_hash d))
      else None
  end.
Definition alert_username (user : User) : string :=
  unwrap_or ("利用者 " ++ String.substring 0 8 (uuid_simple (u_sub user)))
    (opt_filter (fun u => negb (str_is_empty u)) (u_preferred_username user)).
Definition send_alert (user : User) (kind : SecurityAlertKind) (now : DateTime)
  (origin : RequestOrigin) (ctx : RequestContext) (device : option DeviceRef) : Prog unit :=
  match group_key device with
  | None => Panic
  | Some key => perform (SendAlert {|
      sa_kind := kind; sa_tenant_id := u_tenant_id user; sa_user_id := u_id user;
      sa_username := alert_username user; sa_occurred_at := now; sa_country := ro_country origin;
      sa_ip_address := ctx_ip_address ctx; sa_user_agent := ctx_user_agent ctx;
      sa_group_key := key |})
  end.
Definition bool_to_string (b : bool) : string := if b then "true" else "false".
Definition ticket_for (a : AdmissionAttempt) (device : option DeviceRef) (now : DateTime)
  : EnrollmentTicket := {|
  et_tenant_id := aa_tenant_id a; et_user_id := aa_user_id a;
  et_device := unwrap_or "" (device_ref_hash <$> device);
  et_methods := aa_methods a;
  et_expires_at := timestamp now + ENROLLMENT_TICKET_TTL_SECS |}.

(** The refusal: an audit line, an alert to the operators, a ticket. *)
Definition refuse_device (ticket_key : string) (origin : RequestOrigin) (a : AdmissionAttempt)
  (ctx : RequestContext) (now : DateTime) : Prog (Result DomainError Admission) :=
  let device := ro_device origin in
  do _ <- record_audit UnregisteredDeviceRefused AuditFailure (Some (aa_tenant_id a))
            (Some (aa_user_id a)) (aa_client_id a)
            (Some ("methods=" ++ method_codes (aa_methods a) ++ " device_cookie="
                   ++ bool_to_string (is_some device))) ctx;;
  try user <- sql (UsersFindById (aa_user_id a));;
  do _ <- (match user with
           | Some user => send_alert user (AlertUnregisteredDeviceRefused (aa_methods a)) now origin ctx device
           | None => Ret tt
           end);;
  Ret (Ok (EnrollmentRequired (ticket_sign ticket_key (ticket_for a device now)))).
(** [DeviceGate::admit]. *)
Definition gate_admit (ticket_key : string) (origin : RequestOrigin) (a : AdmissionAttempt)
  (ctx : RequestContext) (now : DateTime) : Prog (Result DomainError Admission) :=
  if aa_app_approved a then Ret (Ok DeviceAdmitted)
  else
    try required <- sql (RegisteredDeviceRequiredOf (aa_home_tenant_id a));;
    if negb required then Ret (Ok DeviceAdmitted)
    else
      match ro_device origin with
      | Some device =>
          try known <- sql (SignIn (DevicesFind (aa_user_id a) device));;
          if is_some known then Ret (Ok DeviceAdmitted) else refuse_device ticket_key origin a ctx now
      | None => refuse_device ticket_key origin a ctx now
      end.

Definition open_ticket (ticket_key : string) (origin : RequestOrigin) (tenant_id : TenantId)
  (raw : string) (now : DateTime) : option EnrollmentTicket :=
  ticket ← ticket_verify ticket_key raw (timestamp now);
  if negb (N.eqb (et_tenant_id ticket) tenant_id) || str_is_empty (et_device ticket) then None
  else current ← ro_device origin; then_some (String.eqb (device_ref_hash current) (et_device ticket)) ticket.

(** ** [DeviceEnrollmentService::describe] *)
Definition active_user (user_id : Uuid) : Prog (Result DomainError (option User)) :=
  try user <- sql (UsersFindById user_id);;
  Ret (Ok (opt_filter user_is_active user)).
Definition describe (ticket_key : string) (origin : RequestOrigin) (tenant_id : TenantId)
  (ticket : string) : Prog DescribeEnrollmentOutcome :=
  do now <- perform Now;;
  match open_ticket ticket_key origin tenant_id ticket now with
  | None => Ret TicketInvalid
  | Some ticket =>
      do found <- active_user (et_user_id ticket);;
      match found with
      | Ok (Some user) => Ret (EnrollmentOk (unwrap_or "" (u_preferred_username user)))
      | Ok None => Ret TicketInvalid
      | Err e => Ret (DescribeInternal (domain_error_string e))
      end
  end.
End gate.
