(* ===== verification/SignInCompletion.v ===== *)
(** * After the user has proved who they are ([application/sign_in_completion.rs])

    Every way of signing in ends here: an SSO session is established and saved, then
    the authorization flow goes on with it.  [device_gate] is the gate's ticket
    key; without a gate everyone is admitted. *)

From S2P Require Import Prelude Values ResponseMode External AuditLog Directory.
From S2P Require Import AuthorizationRequest AuthSession SsoSession SessionKey SignInStore Effects.
From S2P Require Import AccessGate SignInGates Authorize EnrollmentTicket DeviceGate.

Record SignInFacts : Type := {
  sn_tenant_id : TenantId;
  sn_user_id : Uuid;
  sn_home_tenant_id : TenantId;
  sn_methods : list AuthenticationMethod;
  sn_client_id : option string;
  sn_success_event : AuditEventType;
  sn_success_detail : option string
}.
Record EstablishedSso : Type := { es_session : SsoSession; es_session_id : string }.
Definition established_absolute_ttl_secs (e : EstablishedSso) : Z := absolute_ttl_secs (es_session e).
Inductive Establishment : Type :=
  | Established (sso : EstablishedSso) | DeviceEnrollmentRequired (ticket : string).
Inductive AuthorizationContinuation : Type :=
  | ContinueConsentRequired (auth_session_id : string)
  | ContinueNotPermitted (application_name : string)
  | Authorized (d : AuthorizationDispatch).

Section completion.
Context {HS : Hashing} {TC : TicketCrypto} (code_ttl : Duration).
Context (device_gate : option string) (origin : RequestOrigin).

Definition admission_attempt (sign_in : SignInFacts) (binding : SessionBinding) : AdmissionAttempt := {|
  aa_tenant_id := sn_tenant_id sign_in; aa_user_id := sn_user_id sign_in;
  aa_home_tenant_id := sn_home_tenant_id sign_in; aa_methods := sn_methods sign_in;
  aa_client_id := sn_client_id sign_in;
  aa_app_approved := match binding with SessionKey.AppApproval => true | _ => false end |}.
Definition admit_device (sign_in : SignInFacts) (binding : SessionBinding) (ctx : RequestContext)
  (now : DateTime) : Prog (Result DomainError Admission) :=
  match device_gate with
  | None => Ret (Ok DeviceAdmitted)
  | Some ticket_key => gate_admit ticket_key origin (admission_attempt sign_in binding) ctx now
  end.

Definition establish_sso_with_binding (sign_in : SignInFacts) (binding : SessionBinding)
  (ctx : RequestContext) (now : DateTime) : Prog (Result DomainError Establishment) :=
  try admission <- admit_device sign_in binding ctx now;;
  match admission with
  | EnrollmentRequired ticket => Ret (Ok (DeviceEnrollmentRequired ticket))
  | DeviceAdmitted =>
      try lifetime <- sql (SsoLifetimeOf (sn_home_tenant_id sign_in));;
      match add_duration now (sl_idle lifetime) with
      | None => Panic
      | Some current_idle =>
          let '(idle_expires_at, absolute_expires_at) :=
            lifetime_for now current_idle binding false (sl_absolute lifetime) (sl_bound lifetime) in
          do session_id <- perform RandomToken;;
          match establish (sha256_hex session_id) (sn_user_id sign_in) now (idle_expires_at - now)%Z
                  (absolute_expires_at - now)%Z (sn_methods sign_in) (ctx_user_agent ctx)
                  (ctx_ip_address ctx) with
          | None => Panic
          | Some session =>
              try _ <- sql (SignIn (SsoCreateStmt session));;
              do _ <- record_audit SsoSessionCreated AuditSuccess (Some (sn_tenant_id sign_in))
                        (Some (sn_user_id sign_in)) (sn_client_id sign_in) None ctx;;
              do _ <- record_audit (sn_success_event sign_in) AuditSuccess
                        (Some (sn_tenant_id sign_in)) (Some (sn_user_id sign_in))
                        (sn_client_id sign_in) (sn_success_detail sign_in) ctx;;
              Ret (Ok (Established {| es_session := session; es_session_id := session_id |}))
          end
      end
  end.
Definition establish_sso (sign_in : SignInFacts) (ctx : RequestContext) (now : DateTime)
  : Prog (Result DomainError Establishment) := establish_sso_with_binding sign_in Unbound ctx now.

(** What the flow records of a sign-in. *)
Definition authentication_of (s : SsoSession) (now : DateTime) : Authentication := {|
  au_user_id := so_user_id s; au_auth_time := now; au_sso_sid := Some (sid s);
  au_methods := Some (so_authentication_methods s) |}.
Definition continue_authorization (tenant : TenantContext) (session : AuthSession)
  (sso : EstablishedSso) (now : DateTime) (ctx : RequestContext)
  : Prog (Result DomainError AuthorizationContinuation) :=
  let authentication := authentication_of (es_session sso) now in
  do fresh <- perform RandomToken;;
  let '(session, completion) :=
    complete_authentication session authentication {| session_id_plain := fresh |} in
  try _ <- sql (SignIn (SessionsSaveAuthentication completion));;
  try consented <- consent_is_granted (tc_tenant_id tenant) (au_user_id authentication)
                     (as_request session);;
  if negb consented then
    Ret (Ok (ContinueConsentRequired (session_id_plain (rot_issued (ac_rotation completion)))))
  else
    try issuance <- issue_code code_ttl {| ic_tenant := tenant; ic_request := as_request session;
                                           ic_authentication := authentication |} ctx;;
    match issuance with
    | ApplicationDenied application_name => Ret (Ok (ContinueNotPermitted application_name))
    | Issued code =>
        do _ <- delete_session session;;
        Ret (Ok (Authorized (dispatch (success_response (as_request session) code))))
    end.
End completion.
