(* ===== verification/Login.v ===== *)
(** * Signing in with a password ([application/login.rs],
      [application/login_user_resolution.rs])

    From the authentication session the browser presents to a code: CSRF token, rate
    limit, which user the input names, lock and state, password, e-mail, policy,
    forced change, second factor, and the common completion.  What the outcome calls
    [Internal] is the error of the programs here; [login] turns it back. *)

From S2P Require Import Prelude Values ResponseMode External AuditLog Directory AuthenticationPolicy.
From S2P Require Import AuthorizationRequest AuthSession SsoSession SessionKey Lockout Csrf LoginIdentifier.
From S2P Require Import IdentifierLookup PasswordPolicy Authenticator SignInStore Effects AccessGate.
From S2P Require Import AuthenticatorManagement SignInGates Authorize EnrollmentTicket DeviceGate SignInCompletion.

(** ** Which user is meant ([login_user_resolution.rs]) *)
Section resolution.
Context {UN : UnicodeCase}.

Definition resolve_login_identifier (scope : IdentifierScope) (tenant_id : TenantId) (input : string)
  : Prog (Result DomainError LoginIdentifierMatch) :=
  match lookup_candidates input with
  | [] => Ret (Ok (Unresolved ReasonNotFound))
  | candidates =>
      try rows <- sql (IdentifiersSelect scope tenant_id candidates);; Ret (Ok (match_of_rows rows))
  end.
Definition should_continue (m : LoginIdentifierMatch) : bool :=
  match m with Unresolved ReasonNotFound => true | _ => false end.
Fixpoint first_match (tenant_id home_tenant_id : TenantId) (candidates : list string)
  : Prog (Result DomainError (option LoginIdentifierMatch)) :=
  match candidates with
  | [] => Ret (Ok None)
  | candidate :: rest =>
      try found <- resolve_login_identifier (ScopeMemberWithHomeTenant home_tenant_id) tenant_id candidate;;
      if negb (should_continue found) then Ret (Ok (Some found))
      else first_match tenant_id home_tenant_id rest
  end.
Definition resolve_by_domain (tenant_id : TenantId) (input : string)
  : Prog (Result DomainError (option LoginIdentifierMatch)) :=
  match split_qualified_identifier input with
  | None => Ret (Ok None)
  | Some (local_part, domain) =>
      try home <- sql (DomainsFindTenant domain);;
      match home with
      | None => Ret (Ok None)
      | Some home_tenant_id =>
          first_match tenant_id home_tenant_id
            (if N.eqb home_tenant_id tenant_id then [local_part] else [input; local_part])
      end
  end.
Definition resolve_login_user (tenant_id : TenantId) (input : string)
  : Prog (Result DomainError LoginIdentifierMatch) :=
  try found <- resolve_login_identifier ScopeHome tenant_id input;;
  if negb (should_continue found) then Ret (Ok found)
  else
    try by_domain <- resolve_by_domain tenant_id input;;
    match by_domain with
    | Some found => Ret (Ok found)
    | None => resolve_login_identifier ScopeActiveGuest tenant_id input
    end.
End resolution.

(** ** What every sign-in form shares *)
Definition str_error {A} : Prog (Result DomainError A) -> Prog (Result string A) :=
  or_error domain_error_string.

(** The session of the flow: known to this tenant and not expired. *)
Definition flow_session {HS : Hashing} (tenant : TenantContext) (presented : option string) (now : DateTime)
  : Prog (Result string (option (string * AuthSession))) :=
  match opt_filter (fun s => negb (str_is_empty s)) presented with
  | None => Ret (Ok None)
  | Some session_id =>
      try found <- str_error (sql (SignIn (SessionsFind (tc_tenant_id tenant)
                                             (hash_session_id {| session_id_plain := session_id |}))));;
      match found with
      | None => Ret (Ok None)
      | Some session =>
          if session_is_expired_at session now then
            do _ <- delete_session session;; Ret (Ok None)
          else Ret (Ok (Some (session_id, session)))
      end
  end.
(** Without an address nothing is limited. *)
Definition rate_allows (ctx : RequestContext) (now : DateTime) : Prog bool :=
  match ctx_ip_address ctx with
  | None => Ret true
  | Some ip => perform (RateCheck ip now)
  end.
Definition note_failure (event : AuditEventType) (tenant_id : TenantId) (user_id : option Uuid)
  (client_id reason : string) (ctx : RequestContext) : Prog unit :=
  record_audit event AuditFailure (Some tenant_id) user_id (Some client_id) (Some reason) ctx.
(** [UserRepository::record_login_failure]. *)
Definition record_login_failure (id : Uuid) (lockout : LockoutPolicy) (now : DateTime)
  : Prog (Result DomainError LoginFailureRecord) :=
  match bind_arms now (escalation_ladder lockout) with
  | None => Panic
  | Some arms =>
      try _ <- sql (UsersCountFailure id arms);;
      try row <- sql (UsersLoginState id);;
      Ret (Ok (failure_record_of row now))
  end.
(** A wrong password or code is counted; [true] when the account is locked now. *)
Definition count_failure (tenant_id : TenantId) (user : User) (client_id reason : string)
  (ctx : RequestContext) (now : DateTime) : Prog (Result string bool) :=
  try lockout <- str_error (sql (LockoutOf (u_tenant_id user)));;
  try failure <- str_error (record_login_failure (u_id user) lockout now);;
  do _ <- note_failure LoginFailed tenant_id (Some (u_id user)) client_id reason ctx;;
  if failure_is_locked failure then
    do _ <- note_failure LoginLocked tenant_id (Some (u_id user)) client_id "too_many_failures" ctx;;
    Ret (Ok true)
  else Ret (Ok false).
(** The counter goes back only when there is something to reset. *)
Definition reset_failures (user : User) : Prog (Result string unit) :=
  if (0 <? u_failed_login_count user)%Z || is_some (u_locked_until user)
  then str_error (sql (UsersUpdateLoginState (u_id user) 0 None)) else Ret (Ok tt).

(** How a completed authentication ends. *)
Inductive SignInEnd : Type :=
  | EndSuccess (d : AuthorizationDispatch) (sso_session_id : string) (sso_absolute_ttl_secs : Z)
  | EndConsentRequired (auth_session_id sso_session_id : string) (sso_absolute_ttl_secs : Z)
  | EndNotPermitted (application_name sso_session_id : string) (sso_absolute_ttl_secs : Z)
  | EndDeviceEnrollment (ticket : string).

Section login.
Context {HS : Hashing} {TC : TicketCrypto} {UN : UnicodeCase} {PH : PasswordHasher} (code_ttl : Duration).
Context (device_gate : option string) (origin : RequestOrigin) (csrf_secret : string).

Definition finish_sign_in (facts : SignInFacts) (tenant : TenantContext) (session : AuthSession)
  (ctx : RequestContext) (now : DateTime) : Prog (Result string SignInEnd) :=
  try establishment <- str_error (establish_sso device_gate origin facts ctx now);;
  match establishment with
  | DeviceEnrollmentRequired ticket => Ret (Ok (EndDeviceEnrollment ticket))
  | Established sso =>
      let id := es_session_id sso in
      let ttl := established_absolute_ttl_secs sso in
      try continuation <- str_error (continue_authorization code_ttl tenant session sso now ctx);;
      Ret (Ok (match continuation with
        | ContinueConsentRequired auth_session_id => EndConsentRequired auth_session_id id ttl
        | ContinueNotPermitted application_name => EndNotPermitted application_name id ttl
        | Authorized d => EndSuccess d id ttl
        end))
  end.

(** ** [LoginService::login] *)
Record LoginCommand : Type := {
  lc_auth_session_id : option string; lc_username : string; lc_password : string; lc_csrf_token : string }.
Inductive LoginOutcome : Type :=
  | LoginEnded (e : SignInEnd) (user_language : option string)
  | MfaRequired (auth_session_id : string)
  | PasswordChangeRequired (auth_session_id : string)
  | EmailVerificationRequired | PolicyDenied | MfaEnrollmentRequired | SessionExpired | CsrfMismatch
  | RateLimited | InvalidCredentials | Locked | LoginInternal (reason : string).

(** [password.rs]: the reference hash, made when no user could be asked for the first
    time; the verification against it costs the time of a real one, and its answer is
    not looked at. *)
Definition make_dummy_hash (call : nat) : option string :=
  match hasher_hash call "timing-equalizer.not-a-credential" with Ok hash => Some hash | Err _ => None end.
Definition verify_against_dummy (presented_password : string) : Prog unit :=
  do dummy <- perform (DummyHash make_dummy_hash);;
  match dummy with
  | Some hash =>
      do _ <- perform HashWork;;
      let _ := hasher_verify presented_password hash in Ret tt
  | None => Ret tt
  end.
Definition login_facts (tenant_id : TenantId) (user : User) (client_id : string)
  (methods : list AuthenticationMethod) : SignInFacts := {|
  sn_tenant_id := tenant_id; sn_user_id := u_id user; sn_home_tenant_id := u_tenant_id user;
  sn_methods := methods; sn_client_id := Some client_id; sn_success_event := LoginSucceeded;
  sn_success_detail := None |}.
(** The password was right: record it under a fresh identifier and hand that out. *)
Definition password_verified (session : AuthSession) (user : User) (now : DateTime)
  (outcome : string -> LoginOutcome) : Prog (Result string LoginOutcome) :=
  do fresh <- perform RandomToken;;
  let '(session, verification) :=
    record_password_verification session (u_id user) now {| session_id_plain := fresh |} in
  try _ <- str_error (sql (SignIn (SessionsSavePasswordVerification verification)));;
  Ret (Ok (outcome (session_id_plain (rot_issued (pv_rotation verification))))).

(** Steps 8.1 to 10, after the password. *)
Definition login_query (tenant_id : TenantId) (session : AuthSession) (user_id : Uuid)
  (ctx : RequestContext) (now : DateTime) : PolicyQuery := {|
  pq_tenant_id := tenant_id; pq_audience := OidcClient (rq_client_id (as_request session));
  pq_user_id := user_id; pq_ip_address := ctx_ip_address ctx;
  pq_requested_acr := requested_acr (as_request session); pq_now := now |}.
(** Unless the policy denied it: a forced change, a second factor, or the end. *)
Definition after_policy (tenant : TenantContext) (session : AuthSession) (user : User)
  (ctx : RequestContext) (now : DateTime) (decision : PolicyDecision)
  : Prog (Result string LoginOutcome) :=
  let tenant_id := tc_tenant_id tenant in
  let client_id := rq_client_id (as_request session) in
  let refuse reason := note_failure LoginPolicyDenied tenant_id (Some (u_id user)) client_id reason ctx in
  try policy <- str_error (sql (PasswordPolicyOf (u_tenant_id user)));;
  match password_change_required user policy now with
  | None => Panic
  | Some true => password_verified session user now PasswordChangeRequired
  | Some false =>
      try has_totp <- str_error (user_has_confirmed_totp (u_id user));;
      if has_totp then password_verified session user now MfaRequired
      else
        match decision with
        | DecisionRequireMfa policy_code =>
            do _ <- refuse ("policy=" ++ policy_code ++ " reason=mfa_not_enrolled");;
            Ret (Ok MfaEnrollmentRequired)
        | _ =>
            match unmet_method_requirement decision [Password] false with
            | Some unmet =>
                do _ <- refuse ("policy=" ++ mr_policy_code unmet ++ " reason=method_required required="
                                ++ AuthenticationPolicy.describe (mr_requirement unmet));;
                Ret (Ok PolicyDenied)
            | None =>
                try _ <- reset_failures user;;
                try ended <- finish_sign_in (login_facts tenant_id user client_id [Password])
                               tenant session ctx now;;
                Ret (Ok (LoginEnded ended (u_language user)))
            end
        end
  end.
Definition after_password (tenant : TenantContext) (session : AuthSession) (user : User)
  (ctx : RequestContext) (now : DateTime) : Prog (Result string LoginOutcome) :=
  let tenant_id := tc_tenant_id tenant in
  let client_id := rq_client_id (as_request session) in
  let note event reason := note_failure event tenant_id (Some (u_id user)) client_id reason ctx in
  if negb (u_email_verified user) then
    do _ <- note LoginFailed "email_not_verified";; Ret (Ok EmailVerificationRequired)
  else
    try decision <- str_error (decide_policy (login_query tenant_id session (u_id user) ctx now));;
    match decision with
    | DecisionDeny policy_code =>
        do _ <- note LoginPolicyDenied ("policy=" ++ policy_code);; Ret (Ok PolicyDenied)
    | _ => after_policy tenant session user ctx now decision
    end.
(** Steps 5 to 7. *)
Definition check_password (tenant : TenantContext) (session : AuthSession) (user : User)
  (password : string) (ctx : RequestContext) (now : DateTime) : Prog (Result string LoginOutcome) :=
  let tenant_id := tc_tenant_id tenant in
  let client_id := rq_client_id (as_request session) in
  if user_is_locked_at user now then
    do _ <- verify_against_dummy password;;
    do _ <- note_failure LoginLocked tenant_id (Some (u_id user)) client_id "account_locked" ctx;;
    Ret (Ok Locked)
  else if negb (user_is_active user) then
    do _ <- verify_against_dummy password;;
    do _ <- note_failure LoginFailed tenant_id (Some (u_id user)) client_id "account_not_active" ctx;;
    Ret (Ok InvalidCredentials)
  else
    do _ <- perform HashWork;;
    match hasher_verify password (u_password_hash user) with
    | Err e => Ret (Err e)
    | Ok true => after_password tenant session user ctx now
    | Ok false =>
        do failed_at <- perform Now;;
        try locked <- count_failure tenant_id user client_id "invalid_password" ctx failed_at;;
        Ret (Ok (if locked then Locked else InvalidCredentials))
    end.
(** Steps 1 to 4. *)
Definition try_login (tenant : TenantContext) (cmd : LoginCommand) (ctx : RequestContext)
  : Prog (Result string LoginOutcome) :=
  do now <- perform Now;;
  let tenant_id := tc_tenant_id tenant in
  try found <- flow_session tenant (lc_auth_session_id cmd) now;;
  match found with
  | None => Ret (Ok SessionExpired)
  | Some (session_id, session) =>
      let client_id := rq_client_id (as_request session) in
      if negb (csrf_verify (login_csrf_token session_id csrf_secret) (lc_csrf_token cmd)) then
        do _ <- note_failure LoginFailed tenant_id None client_id "csrf_mismatch" ctx;;
        Ret (Ok CsrfMismatch)
      else
        do allowed <- rate_allows ctx now;;
        if negb allowed then
          do _ <- note_failure LoginFailed tenant_id None client_id "ip_rate_limited" ctx;;
          Ret (Ok RateLimited)
        else
          try found <- str_error (resolve_login_user tenant_id (lc_username cmd));;
          match found with
          | Unresolved reason =>
              do _ <- verify_against_dummy (lc_password cmd);;
              do _ <- note_failure LoginFailed tenant_id None client_id (reason_audit_code reason) ctx;;
              Ret (Ok InvalidCredentials)
          | Resolved user => check_password tenant session user (lc_password cmd) ctx now
          end
  end.
Definition outcome_of (r : Result string LoginOutcome) : LoginOutcome :=
  match r with Ok o => o | Err e => LoginInternal e end.
Definition login (tenant : TenantContext) (cmd : LoginCommand) (ctx : RequestContext) : Prog LoginOutcome :=
  do r <- try_login tenant cmd ctx;; Ret (outcome_of r).
End login.
