(* ===== verification/MfaLogin.v ===== *)
(** * The second factor of a sign-in ([application/mfa_login.rs])

    After the password, one field takes a TOTP code, a recovery code or a one-time
    code.  Failures are counted with those of passwords. *)

From S2P Require Import Prelude Values ResponseMode External AuditLog Directory AuthenticationPolicy.
From S2P Require Import AuthorizationRequest AuthSession SsoSession Csrf LoginIdentifier PasswordPolicy.
From S2P Require Import Authenticator SignInStore Effects AccessGate AuthenticatorManagement SignInGates.
From S2P Require Import EnrollmentTicket DeviceGate SignInCompletion Login.

Record MfaLoginCommand : Type := {
  mc_auth_session_id : option string; mc_totp_code : string; mc_csrf_token : string }.
Inductive MfaLoginOutcome : Type :=
  | MfaEnded (e : SignInEnd) (user_language : option string)
  | MfaSessionExpired | MfaCsrfMismatch | InvalidCode | MfaRateLimited | MfaLocked | MfaPolicyDenied
  | MfaInternal (reason : string).

Section mfa.
Context {HS : Hashing} {TC : TicketCrypto} {UN : UnicodeCase} {AG : AesGcm} {TO : TotpCrate}.
Context (code_ttl : Duration) (device_gate : option string) (origin : RequestOrigin).
Context (csrf_secret key_encryption_key : string).

(** ** [verify_second_factor] *)
(** The code of a secret, accepted if its step can be recorded as a new one. *)
Definition accept_totp (user_id : Uuid) (secret code : string) : Prog (Result string bool) :=
  do real <- perform Now;;
  match verify_totp_code secret code real with
  | Err e => Ret (Err (totp_error_string e))
  | Ok None => Ret (Ok false)
  | Ok (Some step) =>
      do now <- perform Now;;
      str_error (sql (SignIn (TotpRecordStep user_id step now)))
  end.
Definition check_totp (user_id : Uuid) (code : string) : Prog (Result string bool) :=
  try totp_blocked <- str_error (is_blocked_in_registry user_id TypeTotp None);;
  try found <- str_error (sql (SignIn (TotpFindByUserId user_id)));;
  match found with
  | None => Ret (Ok false)
  | Some record =>
      if totp_is_confirmed record && negb totp_blocked then
        match decrypt (ts_secret_encrypted record) key_encryption_key with
        | Err e => Ret (Err e)
        | Ok secret => accept_totp user_id secret code
        end
      else Ret (Ok false)
  end.
Definition single_use_kinds : list (AuthenticatorType * AuthenticationMethod) :=
  [(TypeRecoveryCode, RecoveryCode); (TypeEmailOtp, EmailOtp); (TypeSmsOtp, SmsOtp)].
Fixpoint check_single_use (tenant_id : TenantId) (user_id : Uuid) (code : string) (ctx : RequestContext)
  (now : DateTime) (kinds : list (AuthenticatorType * AuthenticationMethod))
  : Prog (Result string (option AuthenticationMethod)) :=
  match kinds with
  | [] => Ret (Ok None)
  | (t, method) :: rest =>
      try used <- str_error (consume_single_use_code user_id t code now);;
      if used then
        do _ <- record_audit RecoveryCodeUsed AuditSuccess (Some tenant_id) (Some user_id) None
                  (Some ("type=" ++ as_str t)) ctx;;
        Ret (Ok (Some method))
      else check_single_use tenant_id user_id code ctx now rest
  end.
Definition verify_second_factor (tenant_id : TenantId) (user_id : Uuid) (code : string)
  (ctx : RequestContext) : Prog (Result string (option AuthenticationMethod)) :=
  try by_totp <- check_totp user_id code;;
  if by_totp then Ret (Ok (Some Totp))
  else
    do now <- perform Now;;
    check_single_use tenant_id user_id code ctx now single_use_kinds.

(** ** [MfaLoginService::verify] *)
Definition after_second_factor (tenant : TenantContext) (session : AuthSession) (user : User)
  (second_factor : AuthenticationMethod) (ctx : RequestContext) (now : DateTime)
  : Prog (Result string MfaLoginOutcome) :=
  let tenant_id := tc_tenant_id tenant in
  let client_id := rq_client_id (as_request session) in
  try decision <- str_error (decide_policy (login_query tenant_id session (u_id user) ctx now));;
  match decision with
  | DecisionDeny _ =>
      do _ <- note_failure LoginFailed tenant_id (Some (u_id user)) client_id "policy_denied" ctx;;
      Ret (Ok MfaPolicyDenied)
  | _ =>
      match unmet_method_requirement decision [Password; second_factor] false with
      | Some _ =>
          do _ <- note_failure LoginFailed tenant_id (Some (u_id user)) client_id "method_required" ctx;;
          Ret (Ok MfaPolicyDenied)
      | None =>
          try _ <- reset_failures user;;
          try ended <- finish_sign_in code_ttl device_gate origin
                         (login_facts tenant_id user client_id [Password; second_factor])
                         tenant session ctx now;;
          Ret (Ok (MfaEnded ended (u_language user)))
      end
  end.
Definition check_second_factor (tenant : TenantContext) (session : AuthSession) (user : User)
  (code : string) (ctx : RequestContext) (now : DateTime) : Prog (Result string MfaLoginOutcome) :=
  let tenant_id := tc_tenant_id tenant in
  let client_id := rq_client_id (as_request session) in
  if user_is_locked_at user now then
    do _ <- note_failure LoginLocked tenant_id (Some (u_id user)) client_id "account_locked" ctx;;
    Ret (Ok MfaLocked)
  else if negb (user_is_active user) then Ret (Err "user not active")
  else
    try second_factor <- verify_second_factor tenant_id (u_id user) code ctx;;
    match second_factor with
    | None =>
        try locked <- count_failure tenant_id user client_id "invalid_totp" ctx now;;
        Ret (Ok (if locked then MfaLocked else InvalidCode))
    | Some method => after_second_factor tenant session user method ctx now
    end.
Definition try_verify (tenant : TenantContext) (cmd : MfaLoginCommand) (ctx : RequestContext)
  : Prog (Result string MfaLoginOutcome) :=
  do now <- perform Now;;
  let tenant_id := tc_tenant_id tenant in
  try found <- flow_session tenant (mc_auth_session_id cmd) now;;
  match found with
  | None => Ret (Ok MfaSessionExpired)
  | Some (session_id, session) =>
      match password_verified_user session with
      | None => Ret (Ok MfaSessionExpired)
      | Some user_id =>
          let client_id := rq_client_id (as_request session) in
          if negb (csrf_verify (login_csrf_token session_id csrf_secret) (mc_csrf_token cmd))
          then Ret (Ok MfaCsrfMismatch)
          else
            do allowed <- rate_allows ctx now;;
            if negb allowed then
              do _ <- note_failure LoginFailed tenant_id None client_id "ip_rate_limited" ctx;;
              Ret (Ok MfaRateLimited)
            else
              try found <- str_error (sql (UsersFindById user_id));;
              match found with
              | None => Ret (Ok MfaSessionExpired)
              | Some user => check_second_factor tenant session user (mc_totp_code cmd) ctx now
              end
      end
  end.
Definition verify_mfa (tenant : TenantContext) (cmd : MfaLoginCommand) (ctx : RequestContext)
  : Prog MfaLoginOutcome :=
  do r <- try_verify tenant cmd ctx;; Ret (match r with Ok o => o | Err e => MfaInternal e end).

(** ** Who waits for a second factor *)
Definition pending_mfa_user (tenant : TenantContext) (auth_session_id : string) : Prog (option Uuid) :=
  do now <- perform Now;;
  do found <- sql (SignIn (SessionsFind (tc_tenant_id tenant)
                             (hash_session_id {| session_id_plain := auth_session_id |})));;
  Ret (match found with
    | Ok (Some session) => if session_is_expired_at session now then None else password_verified_user session
    | _ => None
    end).
Definition has_mfa_pending (tenant : TenantContext) (auth_session_id : string) : Prog bool :=
  do found <- sql (SignIn (SessionsFind (tc_tenant_id tenant)
                             (hash_session_id {| session_id_plain := auth_session_id |})));;
  Ret (match found with Ok (Some session) => is_some (password_verified_user session) | _ => false end).
End mfa.
