(* ===== verification/ProgLogic.v ===== *)
(** * Reasoning about programs

    Inversion lemmas for [run]; two predicates on programs that hold of every
    path at once, whatever the operations answer:
    - [always ok p]: every operation [p] may perform satisfies [ok];
    - [guarded ev good p]: no path of [p] reaches a result that is [good]
      without the event [ev] having happened on it;
    and the theorem that joins them with an interleaving: an event that the
    world grants once lets one of any number of guarded programs succeed. *)

From S2P Require Import Prelude Values External Effects.

(** ** Inverting [run] *)
Section inversion.
Context {CO : Collation} {HS : Hashing}.

Lemma run_do {A B} (p : Prog A) (f : A -> Prog B) w b w' :
  run (prog_bind p f) w = (Some b, w') ->
  exists a w1, run p w = (Some a, w1) /\ run (f a) w1 = (Some b, w').
Proof.
  rewrite run_bind. destruct (run p w) as [[a|] w1]; [|done]. intros E. by exists a, w1.
Qed.
Lemma run_try {E A B} (p : Prog (Result E A)) (f : A -> Prog (Result E B)) w b w' :
  run (try x <- p;; f x) w = (Some (Ok b), w') ->
  exists a w1, run p w = (Some (Ok a), w1) /\ run (f a) w1 = (Some (Ok b), w').
Proof.
  intros H. apply run_do in H. destruct H as ([a|e] & w1 & Hp & Hf); [by exists a, w1 | done].
Qed.
Lemma run_op {X} (op : Op X) w x w' :
  run (perform op) w = (Some x, w') <-> step op w = (x, w').
Proof.
  cbn. destruct (step op w) as [y w1]. split; [by intros [= -> ->] | by intros [= -> ->]].
Qed.
End inversion.

(** ** Predicates over every path *)
Definition OpProp : Type := forall X, Op X -> Prop.
Definition OpEvent : Type := forall X, Op X -> X -> bool.

Fixpoint always (ok : OpProp) {B} (p : Prog B) : Prop :=
  match p with
  | Ret _ | Panic => True
  | Vis op k => ok _ op /\ forall x, always ok (k x)
  end.
Fixpoint guarded (ev : OpEvent) {B} (good : B -> Prop) (p : Prog B) : Prop :=
  match p with
  | Ret b => ~ good b
  | Panic => True
  | Vis op k => forall x, ev _ op x = false -> guarded ev good (k x)
  end.

Lemma always_bind ok {A B} (p : Prog A) (f : A -> Prog B) :
  always ok p -> (forall a, always ok (f a)) -> always ok (prog_bind p f).
Proof. intros Hp Hf. induction p as [a| |X op k IH]; cbn in *; [done | done | naive_solver]. Qed.
Lemma always_weaken (ok ok' : OpProp) {B} (p : Prog B) :
  (forall X (op : Op X), ok X op -> ok' X op) -> always ok p -> always ok' p.
Proof. intros Hw. induction p as [b| |X op k IH]; cbn; naive_solver. Qed.
Lemma always_op (ok : OpProp) {X} (op : Op X) : ok X op -> always ok (perform op).
Proof. by cbn. Qed.
(** A program whose continuations are guarded is, whatever comes before. *)
Lemma guarded_after ev {A B} (good : B -> Prop) (p : Prog A) (f : A -> Prog B) :
  (forall a, guarded ev good (f a)) -> guarded ev good (prog_bind p f).
Proof. intros Hf. induction p as [a| |X op k IH]; cbn; auto. Qed.
(** The head of a bind may do the guarding. *)
Lemma guarded_before ev {A B} (good : B -> Prop) (mid : A -> Prop) (p : Prog A) (f : A -> Prog B) :
  guarded ev mid p -> (forall a, ~ mid a -> guarded ev good (f a)) ->
  guarded ev good (prog_bind p f).
Proof. intros Hp Hf. induction p as [a| |X op k IH]; cbn in *; auto. Qed.
Lemma guarded_op ev {X} (op : Op X) (good : X -> Prop) :
  (forall x, good x -> ev X op x = true) -> guarded ev good (perform op).
Proof. intros H x Hx Hg. by rewrite (H x Hg) in Hx. Qed.
Lemma guarded_weaken ev {B} (good good' : B -> Prop) (p : Prog B) :
  (forall b, good' b -> good b) -> guarded ev good p -> guarded ev good' p.
Proof. intros Hg. induction p as [b| |X op k IH]; cbn; auto. Qed.

(** A program guarded by what never happens never reaches a good result. *)
Definition never : OpEvent := fun X op x => false.
Lemma guarded_never_run {CO : Collation} {HS : Hashing} {B} (good : B -> Prop) (p : Prog B) w b w' :
  guarded never good p -> run p w = (Some b, w') -> ~ good b.
Proof.
  revert w. induction p as [x| |X op k IH]; intros w; cbn; [by intros H [= <- _] | done |].
  intros H. destruct (step op w) as [x w1]. apply IH. by apply H.
Qed.

(** A program with no panic in it ends with a result, whatever it is answered. *)
Fixpoint total {B} (p : Prog B) : Prop :=
  match p with Ret _ => True | Panic => False | Vis op k => forall x, total (k x) end.
Lemma total_bind {A B} (p : Prog A) (f : A -> Prog B) :
  total p -> (forall a, total (f a)) -> total (prog_bind p f).
Proof. intros Hp Hf. induction p as [a| |X op k IH]; cbn in *; auto. Qed.
Lemma total_run {CO : Collation} {HS : Hashing} {B} (p : Prog B) w :
  total p -> exists b w', run p w = (Some b, w').
Proof.
  revert w. induction p as [x| |X op k IH]; intros w; cbn; [eauto | done |].
  intros H. destruct (step op w) as [x w1]. by apply IH.
Qed.

(** ** One-shot events *)

(** [ev] can happen once: an invariant [os_inv] of the world under which [ev]
    needs an unspent world and leaves a spent one, and a spent world stays spent
    under the operations [ok]. *)
Class OneShot {CO : Collation} {HS : Hashing} (ev : OpEvent) (ok : OpProp) := {
  os_inv : World -> Prop;
  os_spent : World -> Prop;
  os_inv_step : forall X (op : Op X) w x w',
    ok X op -> os_inv w -> step op w = (x, w') -> os_inv w';
  os_fires : forall X (op : Op X) w x w',
    ok X op -> os_inv w -> step op w = (x, w') -> ev X op x = true -> ~ os_spent w /\ os_spent w';
  os_stays : forall X (op : Op X) w x w',
    ok X op -> os_inv w -> step op w = (x, w') -> os_spent w -> os_spent w'
}.

Section interleaving.
Context {CO : Collation} {HS : Hashing} {ev : OpEvent} {ok : OpProp} {OS : OneShot ev ok}.
Context {A : Type} (good : A -> Prop) (contender : nat -> Prop).

(** What a change from outside must respect. *)
Definition env_respects (f : World -> World) : Prop :=
  forall w, os_inv w -> os_inv (f w) /\ (os_spent w -> os_spent (f w)).
Definition turn_ok (t : Turn) : Prop :=
  match t with Thread _ => True | Env f => env_respects f end.

(** Nobody has fired; or the event is spent and at most [j] has fired. *)
Definition unguarded_at_most (ps : list (Prog A)) (j : nat) : Prop :=
  forall i p, ps !! i = Some p -> contender i -> i <> j -> guarded ev good p.
Definition pool_inv (c : list (Prog A) * World) : Prop :=
  os_inv c.2 /\ (forall i p, c.1 !! i = Some p -> always ok p)
  /\ ((forall i p, c.1 !! i = Some p -> contender i -> guarded ev good p)
      \/ (os_spent c.2 /\ exists j, unguarded_at_most c.1 j)).

Lemma pool_inv_step t c : turn_ok t -> pool_inv c -> pool_inv (pool_step t c).
Proof.
  destruct c as [ps w]. destruct t as [i|f]; cbn [pool_step turn_ok].
  2: { intros Hf (Hi & Ha & Hs). destruct (Hf w Hi) as [Hi' Hs']. unfold pool_inv in *; cbn in *.
       naive_solver. }
  intros _ (Hi & Ha & Hs). cbn in *.
  destruct (ps !! i) as [[a| |X op k]|] eqn:Ep; try (by unfold pool_inv).
  destruct (step op w) as [x w'] eqn:Est.
  destruct (Ha _ _ Ep) as [Hop Hk].
  assert (forall j p, <[i:=k x]> ps !! j = Some p -> (j = i /\ p = k x) \/ (j <> i /\ ps !! j = Some p))
    as Hlk.
  { intros j p. destruct (decide (j = i)) as [->|Hne].
    - rewrite list_lookup_insert_eq by (by eapply lookup_lt_Some). intros [= <-]. auto.
    - rewrite list_lookup_insert_ne by done. auto. }
  unfold pool_inv; cbn. split; [by eapply os_inv_step|]. split.
  { intros j p Hj. destruct (Hlk _ _ Hj) as [[-> ->]|[_ Hj']]; [apply Hk | by eapply Ha]. }
  destruct (ev X op x) eqn:He.
  - destruct (os_fires X op w x w' Hop Hi Est He) as [Hns Hs'].
    right. split; [done|]. exists i. intros j p Hj Hc Hne.
    destruct (Hlk _ _ Hj) as [[-> _]|[_ Hj']]; [done|].
    destruct Hs as [Hg|[Hsp _]]; [by eapply Hg | done].
  - destruct Hs as [Hg|[Hsp (j0 & Hj0)]]; [left | right].
    + intros j p Hj Hc. destruct (Hlk _ _ Hj) as [[-> ->]|[_ Hj']]; [|by eapply Hg].
      by apply (Hg _ _ Ep Hc).
    + split; [by eapply os_stays|]. exists j0. intros j p Hj Hc Hne.
      destruct (Hlk _ _ Hj) as [[-> ->]|[_ Hj']]; [|by eapply Hj0].
      by apply (Hj0 _ _ Ep Hc Hne).
Qed.
Lemma pool_inv_run schedule c :
  Forall turn_ok schedule -> pool_inv c -> pool_inv (run_pool schedule c).
Proof.
  intros Hs. revert c. induction Hs as [|t ts Ht _ IH]; intros c Hc; [done|].
  cbn. apply IH. by apply pool_inv_step.
Qed.
(** However the contenders interleave, at most one of them succeeds. *)
Lemma at_most_one_succeeds schedule ps w ps' w' i j a b :
  Forall turn_ok schedule -> os_inv w ->
  (forall i p, ps !! i = Some p -> always ok p) ->
  (forall i p, ps !! i = Some p -> contender i -> guarded ev good p) ->
  run_pool schedule (ps, w) = (ps', w') ->
  ps' !! i = Some (Ret a) -> ps' !! j = Some (Ret b) ->
  contender i -> contender j -> good a -> good b -> i = j.
Proof.
  intros Hs Hi Ha Hg Hrun Hpi Hpj Hci Hcj Hga Hgb.
  assert (pool_inv (ps', w')) as (_ & _ & Hc).
  { rewrite <- Hrun. apply pool_inv_run; [done|]. split; [done|]. split; [done|]. by left. }
  cbn in Hc. destruct Hc as [Hc|[_ (j0 & Hc)]].
  - by destruct (Hc _ _ Hpi Hci).
  - destruct (decide (i = j0)) as [->|Hi0]; [|by destruct (Hc _ _ Hpi Hci Hi0)].
    destruct (decide (j = j0)) as [->|Hj0]; [done|]. by destruct (Hc _ _ Hpj Hcj Hj0).
Qed.
End interleaving.

(** An invariant of the world, whatever the programs and the environment do. *)
Lemma run_pool_invariant {CO : Collation} {HS : Hashing} {A} (ok : OpProp) (inv : World -> Prop)
  schedule (ps : list (Prog A)) w :
  (forall X (op : Op X) w x w', ok X op -> inv w -> step op w = (x, w') -> inv w') ->
  Forall (fun t => match t with Thread _ => True | Env f => forall w, inv w -> inv (f w) end) schedule ->
  Forall (always ok) ps -> inv w -> inv (run_pool schedule (ps, w)).2.
Proof.
  intros Hstep Hs. revert ps w. induction Hs as [|t ts Ht _ IH]; intros ps w Hps Hw; [done|].
  cbn [run_pool pool_step]. destruct t as [i|f]; [|by apply IH, Ht].
  destruct (ps !! i) as [[a| |X op k]|] eqn:Ep; try (by apply IH).
  destruct (step op w) as [x w1] eqn:Est.
  destruct (Forall_lookup_1 _ _ _ _ Hps Ep) as [Hop Hk].
  apply IH; [|by eapply Hstep]. apply Forall_insert; [done|apply Hk].
Qed.

(** ** Programs end *)
(** Whatever it is answered, [p] has ended after [n] operations. *)
Fixpoint takes_at_most {A} (n : nat) (p : Prog A) {struct p} : Prop :=
  match p with
  | Ret _ | Panic => True
  | Vis op k => match n with O => False | S n' => forall x, takes_at_most n' (k x) end
  end.
Lemma takes_weaken {A} n m (p : Prog A) : n <= m -> takes_at_most n p -> takes_at_most m p.
Proof.
  revert n m. induction p as [a| |X op k IH]; intros n m Hle; cbn; [done|done|].
  destruct n as [|n]; [done|]. destruct m as [|m]; [lia|]. intros H x. eapply IH; [|exact (H x)]. lia.
Qed.
Lemma takes_then {A B} n m (p : Prog A) (f : A -> Prog B) :
  takes_at_most n p -> n <= m -> (forall a, takes_at_most (m - n) (f a)) -> takes_at_most m (prog_bind p f).
Proof.
  revert n m. induction p as [a| |X op k IH]; intros n m Hp Hle Hf; cbn in *; [|done|].
  - eapply takes_weaken; [|exact (Hf a)]. lia.
  - destruct n as [|n]; [done|]. destruct m as [|m]; [lia|]. intros x. eapply IH; [exact (Hp x)|lia|].
    intros a. eapply takes_weaken; [|exact (Hf a)]. lia.
Qed.
Lemma takes_op {X} (op : Op X) : takes_at_most 1 (perform op).
Proof. done. Qed.
Definition ended {A} (p : Prog A) : bool := match p with Vis _ _ => false | _ => true end.
Definition turns_of (j : nat) (schedule : list Turn) : nat :=
  length (List.filter (fun t => match t with Thread i => Nat.eqb i j | Env _ => false end) schedule).
Section ending.
Context {CO : Collation} {HS : Hashing} {A : Type}.

Lemma pool_ends schedule j n : forall (ps : list (Prog A)) w p,
  ps !! j = Some p -> takes_at_most n p -> n <= turns_of j schedule ->
  exists p', (run_pool schedule (ps, w)).1 !! j = Some p' /\ ended p' = true.
Proof.
  revert n. induction schedule as [|t ts IH]; intros n ps w p Hj Hp Hn.
  { destruct p as [a| |X op k]; [by eexists; eauto..|]. destruct n; cbn in *; [done|lia]. }
  cbn [run_pool pool_step]. destruct t as [i|f]; [|by eapply IH].
  destruct (Nat.eqb i j) eqn:Eij.
  - apply Nat.eqb_eq in Eij as ->. rewrite Hj. unfold turns_of in Hn. cbn in Hn. rewrite Nat.eqb_refl in Hn. cbn in Hn.
    destruct p as [a| |X op k].
    + by apply (IH 0 ps w (Ret a)); [| |lia].
    + by apply (IH 0 ps w Panic); [| |lia].
    + destruct n as [|n]; [done|]. destruct (step op w) as [x w1].
      eapply (IH n _ _ (k x)); [|apply Hp|unfold turns_of; lia].
      apply list_lookup_insert_eq. by eapply lookup_lt_Some.
  - assert (n <= turns_of j ts) as Hn' by (unfold turns_of in *; cbn in Hn; by rewrite Eij in Hn).
    destruct (ps !! i) as [[a| |X op k]|]; try (by eapply IH).
    destruct (step op w) as [x w1]. eapply IH; [|exact Hp|done].
    rewrite list_lookup_insert_ne; [done|]. by apply Nat.eqb_neq.
Qed.
Lemma run_pool_app schedule schedule' (c : list (Prog A) * World) :
  run_pool (schedule ++ schedule') c = run_pool schedule' (run_pool schedule c).
Proof. revert c. induction schedule as [|t ts IH]; intros c; [done|]. apply IH. Qed.
(** A thread that is left alone for long enough does what [run] says. *)
Lemma pool_alone j n : forall (ps : list (Prog A)) w p a w',
  ps !! j = Some p -> takes_at_most n p -> run p w = (Some a, w') ->
  run_pool (repeat (Thread j) n) (ps, w) = (<[j := Ret a]> ps, w').
Proof.
  induction n as [|n IH]; intros ps w p a w' Hj Hp Hr.
  - destruct p as [b| |X op k]; [|done|done]. injection Hr as -> ->. cbn. by rewrite list_insert_id.
  - cbn [repeat run_pool pool_step]. rewrite Hj. destruct p as [b| |X op k]; [|done|].
    + by apply (IH ps w (Ret b)).
    + cbn in Hr. destruct (step op w) as [x w1] eqn:Es.
      rewrite (IH _ w1 (k x) a w'); [|by apply list_lookup_insert_eq; eapply lookup_lt_Some|apply Hp|done].
      by rewrite list_insert_insert_eq.
Qed.
End ending.
