(* ===== verification/OneShots.v ===== *)
(** * The database's one-shot events

    Four statements answer "yes" once: consuming an authorization code, revoking
    a refresh token, recording a DPoP proof, recording a client assertion.  Each
    is an instance of [OneShot], as long as nobody purges rows meanwhile. *)

From S2P Require Import Prelude Values External Directory Application ClientJwks Client.
From S2P Require Import AuthSession AuthSessionStore AuthorizationCode RefreshToken Dpop.
From S2P Require Import ClientAssertion Lockout SignInStore Effects ProgLogic.

Definition StmtProp : Type := forall A, Stmt A -> Prop.
Definition StmtEvent : Type := forall A, Stmt A -> A -> bool.
Definition sql_prop (ok : StmtProp) : OpProp := fun X op =>
  match op with Sql s => ok _ s | _ => True end.
Definition sql_event (ev : StmtEvent) : OpEvent := fun X op =>
  match op in Op X return X -> bool with
  | Sql s => fun r => match r with Ok a => ev _ s a | Err _ => false end
  | _ => fun _ => false
  end.

(** Rows are removed by the background purge alone. *)
Definition no_purge : StmtProp := fun A s =>
  match s with
  | CodesPurge _ | RefreshPurge _ | DpopPurge _ | JtiPurge _ => False
  | _ => True
  end.

Definition code_consumed (h : AuthorizationCodeHash) : StmtEvent := fun A s =>
  match s in Stmt A return A -> bool with
  | CodesMarkUsed _ h' _ => fun n => bool_decide (h' = h) && (0 <? n)%nat
  | _ => fun _ => false
  end.
Definition token_revoked (h : string) : StmtEvent := fun A s =>
  match s in Stmt A return A -> bool with
  | RefreshRevoke h' _ => fun n => String.eqb h' h && (0 <? n)%nat
  | _ => fun _ => false
  end.
Definition proof_recorded (h : string) : StmtEvent := fun A s =>
  match s in Stmt A return A -> bool with
  | DpopRecordIfUnused h' _ => fun b => String.eqb h' h && b
  | _ => fun _ => false
  end.
Definition assertion_recorded (t : TenantId) (client_id jti : string) : StmtEvent := fun A s =>
  match s in Stmt A return A -> bool with
  | JtiRecordIfUnused t' c j _ => fun b => N.eqb t' t && String.eqb c client_id && String.eqb j jti && b
  | _ => fun _ => false
  end.

(** The same interface at the level of one statement. *)
Class DbOneShot {CO : Collation} {HS : Hashing} (ev : StmtEvent) (ok : StmtProp) := {
  db_inv : Database -> Prop;
  db_spent : Database -> Prop;
  db_inv_exec : forall A (s : Stmt A) now d,
    ok A s -> db_inv d -> db_inv (exec s now d).2;
  db_fires : forall A (s : Stmt A) now d a d',
    ok A s -> db_inv d -> exec s now d = (Ok a, d') -> ev A s a = true -> ~ db_spent d /\ db_spent d';
  db_stays : forall A (s : Stmt A) now d,
    ok A s -> db_inv d -> db_spent d -> db_spent (exec s now d).2
}.

#[export] Program Instance oneshot_of_db {CO : Collation} {HS : Hashing} (ev : StmtEvent) (ok : StmtProp)
  `{D : !DbOneShot ev ok} : OneShot (sql_event ev) (sql_prop ok) := {
  os_inv w := db_inv (w_db w);
  os_spent w := db_spent (w_db w)
}.
Next Obligation.
  intros CO HS ev ok D X op w x w' Hok Hi E. destruct op; cbn in *; try (injection E as <- <-; done).
  pose proof (step_sql_db s w) as [Hd|Hd]; rewrite E in Hd; cbn in Hd; rewrite Hd; [done|].
  by apply db_inv_exec.
Qed.
Next Obligation.
  intros CO HS ev ok D X op w x w' Hok Hi E He. destruct op; cbn in *; try done.
  destruct x as [a|]; [|done]. apply step_sql_Ok in E. by eapply db_fires.
Qed.
Next Obligation.
  intros CO HS ev ok D X op w x w' Hok Hi E Hs. destruct op; cbn in *; try (injection E as <- <-; done).
  pose proof (step_sql_db s w) as [Hd|Hd]; rewrite E in Hd; cbn in Hd; rewrite Hd; [done|].
  by apply db_stays.
Qed.

(** ** Codes *)
Definition code_spent (h : AuthorizationCodeHash) (d : Database) : Prop :=
  (exists c, In c (db_codes d) /\ ac_hash c = h) /\ ~ fresh_in h (db_codes d).
Definition codes_keyed (d : Database) : Prop := NoDup (ac_hash <$> db_codes d).

(** What a statement other than a purge does to the code table: it appends a row
    under a new key, or marks rows used. *)
Inductive codes_change : CodeTable -> CodeTable -> Prop :=
  | codes_same rows : codes_change rows rows
  | codes_created rows c now :
      existsb (code_has_hash (ac_hash c)) rows = false ->
      codes_change rows (rows ++ [truncate_code c now])%list
  | codes_marked rows (p : AuthorizationCode -> bool) t now :
      codes_change rows (map (fun c => if p c then with_used_at now t c else c) rows).
Lemma exec_codes {CO : Collation} {HS : Hashing} A (s : Stmt A) now d :
  no_purge A s -> codes_change (db_codes d) (db_codes (exec s now d).2).
Proof.
  destruct s; cbn; intros Hok; try done; try (by constructor).
  - unfold codes_create. destruct (existsb _ _) eqn:E; cbn; by constructor.
  - unfold refresh_create. destruct (existsb _ _); constructor.
  - unfold dpop_record_if_unused. destruct (dpop_recorded _ _); constructor.
  - unfold jti_record_if_unused. destruct (jti_recorded _ _ _ _); constructor.
  - destruct (exec_sign_in _ _ _); constructor.
  - destruct (users_count_failure _ _ _ _); constructor.
Qed.
Lemma codes_change_keys rows rows' :
  codes_change rows rows' -> NoDup (ac_hash <$> rows) -> NoDup (ac_hash <$> rows').
Proof.
  intros [| rows0 c now E | rows0 p t now] Hnd; [done| |].
  - rewrite fmap_app, NoDup_app. split; [done|]. split; [|apply NoDup_singleton].
    intros h Hin. rewrite list_elem_of_fmap in Hin. destruct Hin as (c' & -> & Hin). cbn.
    rewrite list_elem_of_singleton. intros Heq. apply not_true_iff_false in E. apply E.
    apply existsb_exists. exists c'. rewrite <- list_elem_of_In, code_has_hash_true. done.
  - assert (ac_hash <$> map (fun c => if p c then with_used_at now t c else c) rows0
            = ac_hash <$> rows0) as ->; [|done].
    clear Hnd. induction rows0 as [|c rows0 IH]; [done|]. cbn. f_equal; [by destruct (p c) | done].
Qed.
Lemma codes_change_spent h rows rows' :
  codes_change rows rows' ->
  (exists c, In c rows /\ ac_hash c = h) /\ ~ fresh_in h rows ->
  (exists c, In c rows' /\ ac_hash c = h) /\ ~ fresh_in h rows'.
Proof.
  intros [| rows0 c now E | rows0 p t now] [(c0 & Hin & Hc0) Hf]; [by eauto| |].
  - split; [exists c0; rewrite in_app_iff; auto|].
    intros (c1 & Hin1 & Hh & Hu). apply in_app_iff in Hin1. destruct Hin1 as [Hin1|[<-|[]]].
    + apply Hf. by exists c1.
    + cbn in Hh. apply not_true_iff_false in E. apply E. apply existsb_exists. exists c0.
      rewrite code_has_hash_true. split; [done | congruence].
  - split.
    + exists (if p c0 then with_used_at now t c0 else c0). split; [|by destruct (p c0)].
      apply in_map_iff. eauto.
    + intros (c1 & Hin1 & Hh & Hu). apply in_map_iff in Hin1. destruct Hin1 as (c2 & <- & Hin2).
      apply Hf. exists c2. by destruct (p c2).
Qed.
#[export] Program Instance code_oneshot {CO : Collation} {HS : Hashing} h : DbOneShot (code_consumed h) no_purge := {
  db_inv := codes_keyed;
  db_spent := code_spent h
}.
Next Obligation.
  intros CO HS h A s now d Hok Hi. eapply codes_change_keys; [by apply exec_codes | done].
Qed.
Next Obligation.
  intros CO HS h A s now d a d' _ Hi E He. destruct s; try done.
  cbn [exec] in E. cbv beta iota delta [code_consumed] in He.
  apply andb_true_iff in He. destruct He as [Hh0 Hn]. apply bool_decide_eq_true in Hh0 as ->.
  apply Nat.ltb_lt in Hn.
  destruct (codes_mark_used (db_codes d) t h used_at now) as [rows n] eqn:Em.
  injection E as -> <-. split.
  - intros [_ Hf]. apply Hf. by eapply codes_mark_used_fresh.
  - split; [|by eapply codes_mark_used_once].
    destruct (codes_mark_used_fresh _ _ _ _ _ _ _ Em Hn) as (c & Hin & Hh & _).
    unfold codes_mark_used in Em. injection Em as <- _. cbn.
    exists (if consumable t h used_at c then with_used_at now used_at c else c).
    split; [apply in_map_iff; eauto | by destruct (consumable t h used_at c)].
Qed.
Next Obligation.
  intros CO HS h A s now d Hok Hi Hs. eapply codes_change_spent; [by apply exec_codes | done].
Qed.

(** ** Refresh tokens *)
Definition refresh_spent (h : string) (d : Database) : Prop :=
  (exists r, In r (db_refresh d) /\ rt_token_hash r = h) /\ ~ live_hash h (db_refresh d).

(** Other statements append a row under a new key, or revoke rows. *)
Inductive refresh_change : RefreshTable -> RefreshTable -> Prop :=
  | refresh_same rows : refresh_change rows rows
  | refresh_created rows r now :
      existsb (rt_has_hash (rt_token_hash r)) rows = false ->
      refresh_change rows (rows ++ [truncate_refresh r now])%list
  | refresh_revoked rows (p : RefreshToken -> bool) now :
      refresh_change rows (map (fun r => if p r then with_revoked_at now r else r) rows).
Lemma exec_refresh {CO : Collation} {HS : Hashing} A (s : Stmt A) now d :
  no_purge A s -> refresh_change (db_refresh d) (db_refresh (exec s now d).2).
Proof.
  destruct s; cbn; intros Hok; try done; try (by constructor).
  - unfold codes_create. destruct (existsb _ _); constructor.
  - unfold refresh_create. destruct (existsb _ _) eqn:E; cbn; by constructor.
  - unfold dpop_record_if_unused. destruct (dpop_recorded _ _); constructor.
  - unfold jti_record_if_unused. destruct (jti_recorded _ _ _ _); constructor.
  - destruct (exec_sign_in _ _ _); constructor.
  - destruct (users_count_failure _ _ _ _); constructor.
Qed.
Lemma refresh_change_spent h rows rows' :
  refresh_change rows rows' ->
  (exists r, In r rows /\ rt_token_hash r = h) /\ ~ live_hash h rows ->
  (exists r, In r rows' /\ rt_token_hash r = h) /\ ~ live_hash h rows'.
Proof.
  intros [| rows0 r now E | rows0 p now] [(r0 & Hin & Hr0) Hf]; [by eauto| |].
  - split; [exists r0; rewrite in_app_iff; auto|].
    intros (r1 & Hin1 & Hh & Hu). apply in_app_iff in Hin1. destruct Hin1 as [Hin1|[<-|[]]].
    + apply Hf. by exists r1.
    + cbn in Hh. apply not_true_iff_false in E. apply E. apply existsb_exists. exists r0.
      rewrite rt_has_hash_true. split; [done | congruence].
  - split.
    + exists (if p r0 then with_revoked_at now r0 else r0). split; [|by destruct (p r0)].
      apply in_map_iff. eauto.
    + intros (r1 & Hin1 & Hh & Hu). apply in_map_iff in Hin1. destruct Hin1 as (r2 & <- & Hin2).
      apply Hf. exists r2. by destruct (p r2).
Qed.
#[export] Program Instance refresh_oneshot {CO : Collation} {HS : Hashing} h : DbOneShot (token_revoked h) no_purge := {
  db_inv _ := True;
  db_spent := refresh_spent h
}.
Next Obligation. done. Qed.
Next Obligation.
  intros CO HS h A s now d a d' _ _ E He. destruct s; try done.
  cbn [exec] in E. cbv beta iota delta [token_revoked] in He.
  apply andb_true_iff in He. destruct He as [Hh0 Hn]. apply String.eqb_eq in Hh0 as ->.
  apply Nat.ltb_lt in Hn.
  destruct (refresh_revoke (db_refresh d) h now0) as [rows n] eqn:Em. injection E as -> <-.
  pose proof (refresh_revoke_live _ _ _ _ _ Em Hn) as Hl. split; [by intros [_ ?]|].
  split; [|by eapply refresh_revoke_once].
  destruct Hl as (r & Hin & Hh & _). injection Em as <- _. cbn.
  exists (if rt_has_hash h r && negb (rt_is_revoked r) then with_revoked_at now0 r else r).
  split; [apply in_map_iff; eauto | by destruct (_ && _)].
Qed.
Next Obligation.
  intros CO HS h A s now d Hok _ Hs. eapply refresh_change_spent; [by apply exec_refresh | done].
Qed.

(** ** DPoP proofs and client assertions *)
Lemma exec_dpop {CO : Collation} {HS : Hashing} A (s : Stmt A) now d h :
  no_purge A s -> dpop_recorded (db_dpop d) h = true ->
  dpop_recorded (db_dpop (exec s now d).2) h = true.
Proof.
  destruct s; cbn; intros Hok Hr; try done.
  - unfold codes_create. by destruct (existsb _ _).
  - unfold refresh_create. by destruct (existsb _ _).
  - unfold dpop_record_if_unused. destruct (dpop_recorded (db_dpop d) h0); [done|].
    unfold dpop_recorded in *. cbn. by rewrite Hr, orb_true_r.
  - unfold jti_record_if_unused. by destruct (jti_recorded _ _ _ _).
  - by destruct (exec_sign_in _ _ _).
  - by destruct (users_count_failure _ _ _ _).
Qed.
#[export] Program Instance dpop_oneshot {CO : Collation} {HS : Hashing} h : DbOneShot (proof_recorded h) no_purge := {
  db_inv _ := True;
  db_spent d := dpop_recorded (db_dpop d) h = true
}.
Next Obligation. done. Qed.
Next Obligation.
  intros CO HS h A s now d a d' _ _ E He. destruct s; try done.
  cbn [exec] in E. cbv beta iota delta [proof_recorded] in He.
  apply andb_true_iff in He. destruct He as [Hh0 ->]. apply String.eqb_eq in Hh0 as ->.
  destruct (dpop_record_if_unused (db_dpop d) h until) as [rows b] eqn:Em. injection E as -> <-.
  destruct (dpop_record_once _ _ _ _ _ Em) as [H1 H2]. split; [|done].
  by rewrite (H2 eq_refl).
Qed.
Next Obligation. intros CO HS h A s now d Hok _ Hs. by apply exec_dpop. Qed.

Lemma exec_jtis {CO : Collation} {HS : Hashing} A (s : Stmt A) now d t c j :
  no_purge A s -> jti_recorded (db_jtis d) t c j = true ->
  jti_recorded (db_jtis (exec s now d).2) t c j = true.
Proof.
  destruct s; cbn; intros Hok Hr; try done.
  - unfold codes_create. by destruct (existsb _ _).
  - unfold refresh_create. by destruct (existsb _ _).
  - unfold dpop_record_if_unused. by destruct (dpop_recorded _ _).
  - unfold jti_record_if_unused. destruct (jti_recorded (db_jtis d) t0 _ _); [done|].
    unfold jti_recorded in *. cbn. by rewrite Hr, orb_true_r.
  - by destruct (exec_sign_in _ _ _).
  - by destruct (users_count_failure _ _ _ _).
Qed.
#[export] Program Instance jti_oneshot {CO : Collation} {HS : Hashing} t c j :
  DbOneShot (assertion_recorded t c j) no_purge := {
  db_inv _ := True;
  db_spent d := jti_recorded (db_jtis d) t c j = true
}.
Next Obligation. done. Qed.
Next Obligation.
  intros CO HS t c j A s now d a d' _ _ E He. destruct s; try done.
  cbn [exec] in E. cbv beta iota delta [assertion_recorded] in He.
  rewrite !andb_true_iff, N.eqb_eq, !String.eqb_eq in He. destruct He as [[[-> ->] ->] ->].
  destruct (jti_record_if_unused (db_jtis d) t c j until) as [rows b] eqn:Em. injection E as -> <-.
  destruct (jti_record_once _ _ _ _ _ _ _ Em) as [H1 H2]. split; [|done].
  by rewrite (H2 eq_refl).
Qed.
Next Obligation. intros CO HS t c j A s now d Hok _ Hs. by apply exec_jtis. Qed.
