(* ===== verification/Frames.v ===== *)
(** * What a program leaves alone

    The frame rule of the model: a table that no statement of a program writes
    is the same after the program, whatever its statements answered and whatever
    failed.  No statement writes the directory (clients, tenants, resources,
    applications, memberships, policies), only those of a failed or finished login
    write users, and no operation moves the clock. *)

From S2P Require Import Prelude Values External Directory Application Client AuthSession.
From S2P Require Import AuthorizationCode RefreshToken Dpop ClientAssertion Effects ProgLogic.
From S2P Require Import Consent SsoSession SignInStore OneShots.

Section frames.
Context {CO : Collation} {HS : Hashing}.

Lemma run_frame {T A} (proj : Database -> T) (ok : StmtProp) (p : Prog A) w r w' :
  (forall B (s : Stmt B) now d, ok B s -> proj (exec s now d).2 = proj d) ->
  always (sql_prop ok) p -> run p w = (r, w') -> proj (w_db w') = proj (w_db w).
Proof.
  intros Hf. revert w. induction p as [a| |X op k IH]; cbn [always run];
    [by intros w _ [= _ <-] | by intros w _ [= _ <-] |].
  intros w [Hop Hk] E. destruct (step op w) as [x w1] eqn:Es. rewrite (IH x w1 (Hk x) E).
  destruct op; cbn in Es; try (by injection Es as _ <-).
  pose proof (step_sql_db s w) as [Hd|Hd]; rewrite Es in Hd; cbn in Hd; rewrite Hd; [done|].
  by apply Hf.
Qed.

(** A property of the database that every statement of a program keeps, the program
    keeps. *)
Lemma run_kept {A} (P : Database -> Prop) (ok : StmtProp) (p : Prog A) w r w' :
  (forall B (s : Stmt B) now d, ok B s -> P d -> P (exec s now d).2) ->
  always (sql_prop ok) p -> run p w = (r, w') -> P (w_db w) -> P (w_db w').
Proof.
  intros Hf. revert w. induction p as [a| |X op k IH]; cbn [always run];
    [by intros w _ [= _ <-] | by intros w _ [= _ <-] |].
  intros w [Hop Hk] E HP. destruct (step op w) as [x w1] eqn:Es. apply (IH x w1 (Hk x) E).
  destruct op; cbn in Es; try (by injection Es as _ <-).
  pose proof (step_sql_db s w) as [Hd|Hd]; rewrite Es in Hd; cbn in Hd; rewrite Hd; [done|].
  by apply Hf.
Qed.

Lemma always_true {A} (p : Prog A) : always (sql_prop (fun _ _ => True)) p.
Proof. induction p as [a| |X op k IH]; cbn; [done|done|]. split; [by destruct op | done]. Qed.

(** The tables nothing here writes, and the users. *)
Definition fixtures (d : Database) :=
  (db_clients d, db_tenants d, db_resources d, db_applications d, db_bindings d,
   db_assignments d, db_permissions d, db_enforcement d, db_tenancy d).
Definition directory (d : Database) := (fixtures d, db_users d).
Definition keeps_users : StmtProp := fun A s =>
  match s with UsersCountFailure _ _ | UsersUpdateLoginState _ _ _ => False | _ => True end.
Lemma exec_fixtures {B} (s : Stmt B) now d : fixtures (exec s now d).2 = fixtures d.
Proof.
  destruct s; cbn; try done; unfold codes_create, refresh_create, dpop_record_if_unused,
    jti_record_if_unused; by repeat case_match.
Qed.
Lemma run_fixtures {A} (p : Prog A) w r w' :
  run p w = (r, w') -> fixtures (w_db w') = fixtures (w_db w).
Proof. apply (run_frame fixtures (fun _ _ => True)); [intros; apply exec_fixtures | apply always_true]. Qed.
Lemma exec_keeps_users {B} (s : Stmt B) now d :
  keeps_users B s -> db_users (exec s now d).2 = db_users d.
Proof.
  destruct s; cbn; try done; unfold codes_create, refresh_create, dpop_record_if_unused,
    jti_record_if_unused; by repeat case_match.
Qed.
Lemma run_directory {A} (p : Prog A) w r w' :
  always (sql_prop keeps_users) p -> run p w = (r, w') ->
  directory (w_db w') = directory (w_db w).
Proof.
  intros Ha E. unfold directory. f_equal; [by eapply run_fixtures|].
  eapply (run_frame db_users keeps_users); [|exact Ha|exact E]. intros. by apply exec_keeps_users.
Qed.

(** Lookups read the directory alone. *)
Lemma clients_find_eq d d' t c :
  directory d' = directory d ->
  clients_find_by_client_id d' t c = clients_find_by_client_id d t c.
Proof. intros E. unfold clients_find_by_client_id. by injection E as -> _. Qed.
Lemma users_find_eq d d' u :
  directory d' = directory d -> users_find_by_id d' u = users_find_by_id d u.
Proof. intros E. unfold users_find_by_id. by injection E as _ _ _ _ _ _ _ _ _ ->. Qed.
Lemma tenants_find_eq d d' t :
  directory d' = directory d -> tenants_find_by_id d' t = tenants_find_by_id d t.
Proof. intros E. unfold tenants_find_by_id. by injection E as _ -> _. Qed.
Lemma resources_find_eq d d' t u :
  directory d' = directory d -> resources_find_by_uri d' t u = resources_find_by_uri d t u.
Proof. intros E. unfold resources_find_by_uri. by injection E as _ _ -> _. Qed.
Lemma applications_find_eq d d' t x :
  directory d' = directory d ->
  applications_find_by_binding_target d' t x = applications_find_by_binding_target d t x.
Proof.
  intros E. unfold applications_find_by_binding_target, application_of.
  injection E as _ _ _ -> -> _. reflexivity.
Qed.
Lemma applications_oidc_eq d d' t c :
  directory d' = directory d ->
  applications_find_by_oidc_client_id d' t c = applications_find_by_oidc_client_id d t c.
Proof.
  intros E. unfold applications_find_by_oidc_client_id, application_of.
  injection E as -> _ _ -> -> _. reflexivity.
Qed.
Lemma service_account_assigned_eq d d' a c :
  directory d' = directory d ->
  applications_is_service_account_assigned d' a c = applications_is_service_account_assigned d a c.
Proof.
  intros E. unfold applications_is_service_account_assigned. by injection E as _ _ _ _ _ -> _.
Qed.
Lemma permissions_list_eq d d' c :
  directory d' = directory d ->
  permissions_list_codes_for_client d' c = permissions_list_codes_for_client d c.
Proof.
  intros E. unfold permissions_list_codes_for_client. by injection E as _ _ _ _ _ _ -> _.
Qed.

(** Clocks and keys stand still while a program runs alone. *)
Definition fixed (w : World) := (w_clock w, w_db_clock w, w_signing_key w).
Lemma run_fixed {A} (p : Prog A) w r w' : run p w = (r, w') -> fixed w' = fixed w.
Proof.
  revert w. induction p as [a| |X op k IH]; cbn [run]; [by intros w [= _ <-] | by intros w [= _ <-] |].
  intros w E. destruct (step op w) as [x w1] eqn:Es. rewrite (IH x w1 E).
  destruct op; cbn in Es; try (by injection Es as _ <-).
  unfold step_sql in Es. destruct (exec _ _ _) as [? ?].
  destruct (w_faults w) as [|[] ?]; by injection Es as _ <-.
Qed.
(** The random stream is given once and for all. *)
Lemma run_tokens {A} (p : Prog A) w r w' : run p w = (r, w') -> w_tokens w' = w_tokens w.
Proof.
  revert w. induction p as [a| |X op k IH]; cbn [run]; [by intros w [= _ <-] | by intros w [= _ <-] |].
  intros w E. destruct (step op w) as [x w1] eqn:Es. rewrite (IH x w1 E).
  destruct op; cbn in Es; try (by injection Es as _ <-).
  unfold step_sql in Es. destruct (exec _ _ _) as [? ?].
  destruct (w_faults w) as [|[] ?]; by injection Es as _ <-.
Qed.
(** A world whose faults are used up stays that way. *)
Definition calm (w : World) : Prop := w_faults w = [].
Lemma run_calm {A} (p : Prog A) w r w' : calm w -> run p w = (r, w') -> calm w'.
Proof.
  unfold calm. revert w.
  induction p as [a| |X op k IH]; cbn [run]; [by intros w ? [= _ <-] | by intros w ? [= _ <-] |].
  intros w Hc E. destruct (step op w) as [x w1] eqn:Es. apply (IH x w1); [|done].
  destruct op; cbn in Es; try (by injection Es as _ <-).
  rewrite step_sql_no_fault in Es by done. by injection Es as _ <-.
Qed.
(** Then a statement does what [exec] says. *)
Lemma run_sql_calm {A} (s : Stmt A) w :
  calm w -> run (sql s) w = (Some (exec s (w_db_clock w) (w_db w)).1,
                             with_db w (exec s (w_db_clock w) (w_db w)).2).
Proof. intros Hc. unfold sql. rewrite run_perform. cbn [step]. by rewrite step_sql_no_fault. Qed.
End frames.

(** Statements that leave the code table, or the refresh token table, alone. *)
Definition keeps_codes : StmtProp := fun A s =>
  match s with
  | CodesCreate _ | CodesMarkUsed _ _ _ | CodesRevokeAllActive _ _ | CodesPurge _ => False
  | _ => True
  end.
Definition keeps_refresh : StmtProp := fun A s =>
  match s with
  | RefreshCreate _ | RefreshRevoke _ _ | RefreshRevokeFamily _ _ _ | RefreshRevokeAllForSession _ _ _
  | RefreshRevokeAllForUser _ _ | RefreshPurge _ => False
  | _ => True
  end.
Lemma exec_keeps_codes {CO : Collation} {HS : Hashing} B (s : Stmt B) now d :
  keeps_codes B s -> db_codes (exec s now d).2 = db_codes d.
Proof.
  destruct s; cbn; try done; unfold refresh_create, dpop_record_if_unused, jti_record_if_unused;
    by repeat case_match.
Qed.
Lemma exec_keeps_refresh {CO : Collation} {HS : Hashing} B (s : Stmt B) now d :
  keeps_refresh B s -> db_refresh (exec s now d).2 = db_refresh d.
Proof.
  destruct s; cbn; try done; unfold codes_create, dpop_record_if_unused, jti_record_if_unused;
    by repeat case_match.
Qed.
(** Likewise for the tables of a sign-in. *)
Definition sign_in_prop (ok : SignInProp) : StmtProp := fun A s =>
  match s with SignIn s => ok _ s | _ => True end.
Lemma exec_sign_in_frame {T} {CO : Collation} {HS : Hashing} (proj : SignInTables -> T) (ok : SignInProp)
  B (s : Stmt B) now d :
  (forall A (s : SignInStmt A) now x, ok A s -> proj (exec_sign_in s now x).2 = proj x) ->
  sign_in_prop ok B s -> proj (db_signin (exec s now d).2) = proj (db_signin d).
Proof.
  intros Hf. destruct s; cbn; try done; unfold codes_create, refresh_create, dpop_record_if_unused,
    jti_record_if_unused; try (by repeat case_match).
  intros Hs. specialize (Hf _ s now (db_signin d) Hs). by destruct (exec_sign_in s now (db_signin d)).
Qed.
(** Neither table: the helpers and the checks before a grant begins. *)
Definition keeps_both : StmtProp := fun A s => keeps_codes A s /\ keeps_refresh A s.
Section keeps.
Context {CO : Collation} {HS : Hashing}.
Lemma run_keeps_consents {A} (p : Prog A) w r w' :
  always (sql_prop (sign_in_prop keeps_consents)) p -> run p w = (r, w') ->
  si_consents (db_signin (w_db w')) = si_consents (db_signin (w_db w)).
Proof.
  apply (run_frame (fun d => si_consents (db_signin d))). intros B s now d.
  apply exec_sign_in_frame. intros. by apply exec_keeps_consents.
Qed.
Lemma run_keeps_sso {A} (p : Prog A) w r w' :
  always (sql_prop (sign_in_prop keeps_sso)) p -> run p w = (r, w') ->
  si_sso (db_signin (w_db w')) = si_sso (db_signin (w_db w)).
Proof.
  apply (run_frame (fun d => si_sso (db_signin d))). intros B s now d.
  apply exec_sign_in_frame. intros. by apply exec_keeps_sso.
Qed.
Lemma run_keeps_sessions {A} (p : Prog A) w r w' :
  always (sql_prop (sign_in_prop keeps_sessions)) p -> run p w = (r, w') ->
  si_sessions (db_signin (w_db w')) = si_sessions (db_signin (w_db w)).
Proof.
  apply (run_frame (fun d => si_sessions (db_signin d))). intros B s now d.
  apply exec_sign_in_frame. intros. by apply exec_keeps_sessions.
Qed.
Lemma run_keeps_devices {A} (p : Prog A) w r w' :
  always (sql_prop (sign_in_prop keeps_devices)) p -> run p w = (r, w') ->
  si_devices (db_signin (w_db w')) = si_devices (db_signin (w_db w)).
Proof.
  apply (run_frame (fun d => si_devices (db_signin d))). intros B s now d.
  apply exec_sign_in_frame. intros. by apply exec_keeps_devices.
Qed.
Lemma run_keeps_auths {A} (p : Prog A) w r w' :
  always (sql_prop (sign_in_prop keeps_auths)) p -> run p w = (r, w') ->
  si_auths (db_signin (w_db w')) = si_auths (db_signin (w_db w)).
Proof.
  apply (run_frame (fun d => si_auths (db_signin d))). intros B s now d.
  apply exec_sign_in_frame. intros. by apply exec_keeps_auths.
Qed.
Lemma run_keeps_both {A} (p : Prog A) w r w' :
  always (sql_prop keeps_both) p -> run p w = (r, w') ->
  db_codes (w_db w') = db_codes (w_db w) /\ db_refresh (w_db w') = db_refresh (w_db w).
Proof.
  intros Ha E. split.
  - eapply (run_frame db_codes keeps_both); [|exact Ha|exact E].
    intros B s now d [? _]. by apply exec_keeps_codes.
  - eapply (run_frame db_refresh keeps_both); [|exact Ha|exact E].
    intros B s now d [_ ?]. by apply exec_keeps_refresh.
Qed.
Lemma run_keeps_refresh {A} (p : Prog A) w r w' :
  always (sql_prop keeps_refresh) p -> run p w = (r, w') ->
  db_refresh (w_db w') = db_refresh (w_db w).
Proof. apply run_frame. intros. by apply exec_keeps_refresh. Qed.

(** A statement that answers [Ok] did what [exec] says, on the database the
    program had at that point. *)
Lemma run_sql_Ok {A} (s : Stmt A) w a w' :
  run (sql s) w = (Some (Ok a), w') -> exec s (w_db_clock w) (w_db w) = (Ok a, w_db w').
Proof. unfold sql. rewrite run_op. cbn. apply step_sql_Ok. Qed.
Lemma run_Now w x w' : run (perform Now) w = (Some x, w') -> x = w_clock w /\ w' = w.
Proof. cbn. by intros [= <- <-]. Qed.
End keeps.
