(* ===== verification/Handoff.v ===== *)
(** * The hand-off handles in the table of authentication sessions

    [handle_hash] is a unique key of [auth_sessions], and every program keeps it one.
    A handle that no row has any more stays unknown until a session is created: every
    other statement keeps or clears the column. *)

From S2P Require Import Prelude Values External AuthSession AuthSessionStore SignInStore.
From S2P Require Import Effects ProgLogic OneShots Frames.

(** The UNIQUE KEY [auth_sessions_handle_uq]. *)
Definition handles_keyed (rows : list AuthSessionRow) : Prop :=
  forall r r' h, r ∈ rows -> r' ∈ rows -> r_handle_hash r = Some h -> r_handle_hash r' = Some h -> r = r'.
(** No row can be taken up with the handle. *)
Definition handle_spent (h : string) (rows : list AuthSessionRow) : Prop :=
  forall r, r ∈ rows -> r_handle_hash r <> Some h.
(** A rewriting of rows that keeps or clears their handles. *)
Definition keeps_handles (f : AuthSessionRow -> AuthSessionRow) : Prop :=
  forall r, r_handle_hash (f r) = r_handle_hash r \/ r_handle_hash (f r) = None.

Lemma spent_map h f rows : keeps_handles f -> handle_spent h rows -> handle_spent h (map f rows).
Proof.
  intros Hf Hs r Hr. apply list_elem_of_fmap in Hr. destruct Hr as (r0 & -> & Hr).
  destruct (Hf r0) as [->| ->]; [by apply Hs|done].
Qed.
Lemma keyed_map f rows : keeps_handles f -> handles_keyed rows -> handles_keyed (map f rows).
Proof.
  intros Hf Hk r r' h Hr Hr' Eh Eh'. apply list_elem_of_fmap in Hr, Hr'.
  destruct Hr as (r0 & -> & Hr), Hr' as (r1 & -> & Hr'). f_equal.
  destruct (Hf r0) as [E0|E0], (Hf r1) as [E1|E1]; try congruence.
  apply (Hk r0 r1 h); [done|done|by rewrite <- E0|by rewrite <- E1].
Qed.
Lemma filter_rows (p : AuthSessionRow -> bool) r rows : r ∈ List.filter p rows -> r ∈ rows.
Proof. rewrite !list_elem_of_In, filter_In. by intros []. Qed.
Lemma spent_filter h p rows : handle_spent h rows -> handle_spent h (List.filter p rows).
Proof. intros Hs r Hr. eapply Hs, filter_rows, Hr. Qed.
Lemma keyed_filter p rows : handles_keyed rows -> handles_keyed (List.filter p rows).
Proof.
  intros Hk r r' h Hr Hr'. apply Hk; by eapply filter_rows.
Qed.
Lemma keyed_create rows s now rows' :
  sql_create rows s now = Ok rows' -> handles_keyed rows -> handles_keyed rows'.
Proof.
  unfold sql_create. destruct (existsb _ _) eqn:Ex; [done|]. intros [= <-] Hk.
  assert (forall r h, r ∈ rows -> r_handle_hash r = Some h -> r_handle_hash (insert_row s now) <> Some h) as Hnew.
  { intros r h Hr Eh En. cbn in En. destruct (as_handoff s) as [ho|] eqn:Eho; [|done]. injection En as En.
    apply not_true_iff_false in Ex. apply Ex, existsb_exists. exists r. split; [by apply list_elem_of_In|].
    apply orb_true_iff. right. apply bool_decide_eq_true. by rewrite Eh, En. }
  intros r r' h Hr Hr' Eh Eh'. rewrite elem_of_app, list_elem_of_singleton in Hr, Hr'.
  destruct Hr as [Hr| ->], Hr' as [Hr'| ->]; [by eapply Hk|..]; [by destruct (Hnew _ _ Hr Eh)|by destruct (Hnew _ _ Hr' Eh')|done].
Qed.
Lemma sql_update_rows p issued set rows rows' n :
  sql_update p issued set rows = Ok (rows', n) ->
  rows' = map (fun r => if p r then set r else r) rows /\ n = length (List.filter p rows).
Proof. unfold sql_update. destruct (_ && _); [done|]. by intros [= <- <-]. Qed.
Lemma update_keeps_handles (p : AuthSessionRow -> bool) set : keeps_handles set -> keeps_handles (fun r => if p r then set r else r).
Proof. intros Hs r. destruct (p r); [apply Hs|by left]. Qed.
Lemma exchange_keeps_handles now i : keeps_handles (set_handoff_exchange now i).
Proof. intros r. by right. Qed.
Lemma progress_keeps_handles now i u a pv sid ms : keeps_handles (set_progress now i u a pv sid ms).
Proof. intros r. by left. Qed.

(** Each of the two properties survives a statement that rewrites or drops rows. *)
Definition closed (P : list AuthSessionRow -> Prop) : Prop :=
  (forall f rows, keeps_handles f -> P rows -> P (map f rows)) /\ (forall p rows, P rows -> P (List.filter p rows)).
Lemma spent_closed h : closed (handle_spent h).
Proof. split; [intros f rows; apply spent_map|intros p rows; apply spent_filter]. Qed.
Lemma keyed_closed : closed handles_keyed.
Proof. split; [intros f rows; apply keyed_map|intros p rows; apply keyed_filter]. Qed.

Section store.
Context {CO : Collation} {HS : Hashing}.

Lemma exec_closed P (ok : SignInProp) {B} (s : SignInStmt B) now d :
  closed P ->
  (forall rows x rows', ok unit (SessionsCreate x) -> sql_create rows x now = Ok rows' -> P rows -> P rows') ->
  ok B s -> P (si_sessions d) -> P (si_sessions (exec_sign_in s now d).2).
Proof.
  intros [Hm Hf] Hc Hok HP.
  destruct s; cbn; unfold written, sql_save_handoff_exchange, sql_save_password_verification,
    sql_save_authentication, sql_delete_expired; cbn; try exact HP; try (by repeat case_match);
    try (by apply Hf).
  - destruct (sql_create _ _ _) as [rows|] eqn:E; [|exact HP]. by eapply Hc.
  - destruct (sql_update _ _ _ _) as [[rows n]|] eqn:E; [|exact HP]. apply sql_update_rows in E as [-> _].
    apply Hm; [|exact HP]. apply update_keeps_handles, exchange_keeps_handles.
  - destruct (sql_update _ _ _ _) as [[rows n]|] eqn:E; [|exact HP]. apply sql_update_rows in E as [-> _].
    apply Hm; [|exact HP]. apply update_keeps_handles, progress_keeps_handles.
  - destruct (sql_update _ _ _ _) as [[rows n]|] eqn:E; [|exact HP]. apply sql_update_rows in E as [-> _].
    apply Hm; [|exact HP]. apply update_keeps_handles. intros r. by left.
Qed.
Lemma run_closed P (ok : SignInProp) {A} (p : Prog A) w r w' :
  closed P ->
  (forall now rows x rows', ok unit (SessionsCreate x) -> sql_create rows x now = Ok rows' -> P rows -> P rows') ->
  always (sql_prop (sign_in_prop ok)) p -> run p w = (r, w') ->
  P (si_sessions (db_signin (w_db w))) -> P (si_sessions (db_signin (w_db w'))).
Proof.
  intros Hcl Hc. apply (run_kept (fun d => P (si_sessions (db_signin d)))). intros B s now d Hok HP.
  destruct s; cbn; try exact HP; try (by repeat case_match).
  pose proof (exec_closed P ok s now (db_signin d) Hcl (Hc now) Hok HP) as H. by destruct (exec_sign_in _ _ _).
Qed.

(** [handles_keyed] is kept by every program, and a spent handle by those that create
    no session. *)
Definition creates_no_session : SignInProp := fun A s =>
  match s with SessionsCreate _ => False | _ => True end.
Lemma run_handles_keyed {A} (p : Prog A) w r w' :
  run p w = (r, w') -> handles_keyed (si_sessions (db_signin (w_db w))) ->
  handles_keyed (si_sessions (db_signin (w_db w'))).
Proof.
  apply (run_closed _ (fun _ _ => True)); [apply keyed_closed|intros; by eapply keyed_create|].
  induction p as [a| |X op k IH]; cbn; [done|done|]. split; [|done]. destruct op; try done. by destruct s.
Qed.
Lemma run_handle_spent h {A} (p : Prog A) w r w' :
  always (sql_prop (sign_in_prop creates_no_session)) p -> run p w = (r, w') ->
  handle_spent h (si_sessions (db_signin (w_db w))) -> handle_spent h (si_sessions (db_signin (w_db w'))).
Proof. apply run_closed; [apply spent_closed|done]. Qed.

(** The exchange spends the handle it consumes: the row that had it is the one it
    rewrites. *)
Lemma exchange_spends x now d d' :
  exec_sign_in (SessionsSaveHandoffExchange x) now d = (Ok true, d') -> handles_keyed (si_sessions d) ->
  handle_spent (handle_hash_value (hx_consumed x)) (si_sessions d').
Proof.
  cbn. unfold sql_save_handoff_exchange. intros H Hk. destruct (sql_update _ _ _ _) as [[rows n]|] eqn:E; [|done].
  apply sql_update_rows in E as [-> ->]. cbn in H. injection H as Hn <-. apply Nat.eqb_eq in Hn. cbn [si_sessions set_sessions].
  set (p := fun r => _ && _) in *.
  destruct (List.filter p (si_sessions d)) as [|r0 [|]] eqn:Ef; try done.
  assert (In r0 (List.filter p (si_sessions d))) as H0 by (rewrite Ef; by left).
  apply filter_In in H0 as [H0 Hp0].
  intros r Hr Eh. apply list_elem_of_fmap in Hr. destruct Hr as (r1 & -> & Hr). fold (p r1) in Eh.
  destruct (p r1) eqn:Hp; [done|]. apply not_true_iff_false in Hp. apply Hp.
  assert (r1 = r0) as -> by (unfold p in Hp0; apply andb_true_iff in Hp0 as [_ Hh]; apply bool_decide_eq_true in Hh;
    eapply Hk; [exact Hr|by apply list_elem_of_In|exact Eh|exact Hh]).
  exact Hp0.
Qed.
End store.
