(* ===== verification/Paths.v ===== *)
(** * What holds on every path of the shared programs

    The tactics that walk a program ([prog_always], [prog_fails]), and the class of
    programs that only look: a [light] program purges nothing and writes no code,
    no refresh token and no user, so whatever it answers, the world is [untouched]
    but for its logs, replay records and sign-in tables. *)

From S2P Require Import Prelude Values External AuditLog Directory Application ClientJwks.
From S2P Require Import Client AuthSession AuthorizationCode RefreshToken Dpop ClientAssertion.
From S2P Require Import ClientAuth Effects AccessGate AuthenticatorManagement Login ProgLogic OneShots Frames.

(** A result that is not an error. *)
Definition succeeded {E A} (r : Result E A) : Prop := is_ok r = true.

Lemma succeeded_Err {E A} (e : E) : ~ @succeeded E A (Err e).
Proof. done. Qed.
Lemma guarded_Err ev {E A} (e : E) : guarded ev (@succeeded E A) (Ret (Err e)).
Proof. done. Qed.
Lemma guarded_try_after ev {E A B} (p : Prog (Result E A)) (f : A -> Prog (Result E B)) :
  (forall a, guarded ev succeeded (f a)) -> guarded ev succeeded (try x <- p;; f x).
Proof. intros Hf. apply guarded_after. intros [a|e]; [apply Hf | apply guarded_Err]. Qed.
(** The head of a [try] may guard: what follows a success is free. *)
Lemma guarded_try_before ev {E A B} (p : Prog (Result E A)) (f : A -> Prog (Result E B)) :
  guarded ev succeeded p -> guarded ev succeeded (try x <- p;; f x).
Proof.
  intros Hp. eapply guarded_before; [exact Hp|]. intros [a|e] Ha; [by destruct Ha | apply guarded_Err].
Qed.
Lemma always_try ok {E A B} (p : Prog (Result E A)) (f : A -> Prog (Result E B)) :
  always ok p -> (forall a, always ok (f a)) -> always ok (try x <- p;; f x).
Proof. intros Hp Hf. apply always_bind; [done|]. by intros [a|e]. Qed.

Create HintDb prog.
Ltac prog_always :=
  repeat first
    [ done | assumption | solve [auto with prog]
    | apply always_try | apply always_bind | apply always_op; done
    | progress intros | case_match | progress cbn [always] | split ].
(** Programs all of whose results are errors. *)
Ltac prog_fails :=
  repeat first
    [ done | apply guarded_Err | solve [auto with prog]
    | apply guarded_try_after | apply guarded_after | progress intros | case_match ].

(** ** Light programs *)
Definition light : StmtProp := fun A s => no_purge A s /\ keeps_both A s /\ keeps_users A s.
Notation is_light := (always (sql_prop light)) (only parsing).

Lemma sql_prop_weaken (ok ok' : StmtProp) {A} (p : Prog A) :
  (forall B (s : Stmt B), ok B s -> ok' B s) -> always (sql_prop ok) p -> always (sql_prop ok') p.
Proof. intros Hw. apply always_weaken. intros X op. destruct op; cbn; auto. Qed.
Lemma safe_of_light {A} (p : Prog A) : is_light p -> always (sql_prop no_purge) p.
Proof. apply sql_prop_weaken. by intros B s [? _]. Qed.
Lemma keeps_both_of_light {A} (p : Prog A) : is_light p -> always (sql_prop keeps_both) p.
Proof. apply sql_prop_weaken. by intros B s (_ & ? & _). Qed.
Lemma keeps_codes_of_light {A} (p : Prog A) : is_light p -> always (sql_prop keeps_codes) p.
Proof. apply sql_prop_weaken. by intros B s (_ & [? _] & _). Qed.
Lemma keeps_refresh_of_light {A} (p : Prog A) : is_light p -> always (sql_prop keeps_refresh) p.
Proof. apply sql_prop_weaken. by intros B s (_ & [_ ?] & _). Qed.
Lemma keeps_users_of_light {A} (p : Prog A) : is_light p -> always (sql_prop keeps_users) p.
Proof. apply sql_prop_weaken. by intros B s (_ & _ & ?). Qed.
Lemma always_sql ok {A} (s : Stmt A) : ok A s -> always (sql_prop ok) (sql s).
Proof. intros H. by apply always_op. Qed.

#[export] Hint Resolve always_sql : prog.
#[export] Hint Extern 0 (no_purge _ _) => exact I : prog.
#[export] Hint Extern 0 (keeps_refresh _ _) => exact I : prog.
#[export] Hint Extern 0 (keeps_codes _ _) => exact I : prog.
#[export] Hint Extern 0 (keeps_users _ _) => exact I : prog.
#[export] Hint Extern 0 (light _ _) => (repeat split) : prog.
#[export] Hint Extern 1 (always (sql_prop no_purge) _) =>
  (apply safe_of_light; solve [auto with prog]) : prog.
#[export] Hint Extern 1 (always (sql_prop keeps_refresh) _) =>
  (apply keeps_refresh_of_light; solve [auto with prog]) : prog.
#[export] Hint Extern 1 (always (sql_prop keeps_codes) _) =>
  (apply keeps_codes_of_light; solve [auto with prog]) : prog.
#[export] Hint Extern 1 (always (sql_prop keeps_users) _) =>
  (apply keeps_users_of_light; solve [auto with prog]) : prog.

Section light_programs.
Context {HS : Hashing} {JO : Jose} {DJ : DpopJose} {UC : UrlCrate} {AJ : AssertionJose}
        {PH : PasswordHasher}.
Lemma light_audit et r t u c m ctx : is_light (record_audit et r t u c m ctx).
Proof. unfold record_audit. prog_always. Qed.
Hint Resolve light_audit : prog.
Lemma light_dpop_verify p m u a : is_light (dpop_verify p m u a).
Proof. unfold dpop_verify. prog_always. Qed.
Lemma light_check t c u ctx : is_light (check t c u ctx).
Proof. unfold check, resolve_for_oidc_client, judge, refuse_access. prog_always. Qed.
Lemma light_authenticate b t c p : is_light (authenticate b t c p).
Proof. unfold authenticate, authenticate_assertion. prog_always. Qed.
End light_programs.
#[export] Hint Resolve light_audit light_dpop_verify light_check light_authenticate : prog.

(** ** What the checks of a request leave alone *)
Record untouched (w w' : World) : Prop := {
  un_directory : directory (w_db w') = directory (w_db w);
  un_codes : db_codes (w_db w') = db_codes (w_db w);
  un_refresh : db_refresh (w_db w') = db_refresh (w_db w);
  un_fixed : fixed w' = fixed w;
  un_tokens : w_tokens w' = w_tokens w;
  un_calm : calm w -> calm w'
}.
#[export] Instance untouched_preorder : PreOrder untouched.
Proof.
  split; [by intros w; split|].
  intros w1 w2 w3 [] []. split; try (by etransitivity). auto.
Qed.
Lemma untouched_clock w w' : untouched w w' -> w_clock w' = w_clock w.
Proof. intros H. by injection (un_fixed _ _ H). Qed.
Lemma untouched_key w w' : untouched w w' -> w_signing_key w' = w_signing_key w.
Proof. intros H. by injection (un_fixed _ _ H). Qed.

Section untouched.
Context {CO : Collation} {HS : Hashing}.

Lemma run_light {A} (p : Prog A) w r w' :
  always (sql_prop light) p -> run p w = (r, w') -> untouched w w'.
Proof.
  intros Hp E. destruct (run_keeps_both p w r w' (keeps_both_of_light p Hp) E) as [Hc Hr].
  split; [eapply run_directory; [by apply keeps_users_of_light | exact E] | done | done | by eapply run_fixed
    | by eapply run_tokens | intros; by eapply run_calm].
Qed.
End untouched.

(** ** Errors turned into strings *)
Lemma always_or_error ok {E A} (f : DomainError -> E) (p : Prog (Result DomainError A)) :
  always ok p -> always ok (or_error f p).
Proof. intros H. by apply always_bind. Qed.
#[export] Hint Extern 1 (always _ (or_error _ _)) => (apply always_or_error) : prog.
#[export] Hint Extern 1 (always _ (str_error _)) => (apply always_or_error) : prog.
Section errors.
Context {HS : Hashing} {CO : Collation}.
Lemma run_or_error {E A} (f : DomainError -> E) (p : Prog (Result DomainError A)) w a w' :
  run (or_error f p) w = (Some (Ok a), w') -> run p w = (Some (Ok a), w').
Proof.
  unfold or_error. intros H. apply run_do in H. destruct H as ([x|e] & w1 & Hp & H); [|done].
  by injection H as <- <-.
Qed.
Lemma run_str_error {A} (p : Prog (Result DomainError A)) w a w' :
  run (str_error p) w = (Some (Ok a), w') -> run p w = (Some (Ok a), w').
Proof. apply run_or_error. Qed.
End errors.
