(* ===== verification/TokenService.v ===== *)
(** * The token endpoint ([application/token.rs])

    [TokenService::exchange] and the three grants it dispatches to, as programs
    over [Effects].  A private function of the source is one definition; the
    long grant functions are cut at their numbered steps. *)

From S2P Require Import Prelude Values External AuditLog Directory Application ClientJwks.
From S2P Require Import Client AuthorizationRequest AuthSession AuthorizationCode RefreshToken.
From S2P Require Import Dpop ClientAssertion ClientAuth Effects TokenClaims AccessGate.

Record TokenCommand : Type := {
  cmd_grant_type : option string;
  cmd_code : option string;
  cmd_redirect_uri : option string;
  cmd_code_verifier : option string;
  cmd_credentials : PresentedClientCredentials;
  cmd_refresh_token : option string;
  cmd_scope : option string;
  cmd_resource : option string;
  cmd_dpop_proof : option string
}.
Record TokenError : Type := { te_code : OAuthErrorCode; te_description : string }.
#[export] Instance TokenError_eq_dec : EqDecision TokenError.
Proof. solve_decision. Defined.
Definition token_error (code : OAuthErrorCode) (description : string) : TokenError :=
  {| te_code := code; te_description := description |}.
Record IssuedTokens : Type := {
  tk_access_token : string;
  tk_id_token : option string;
  tk_expires_in : Z;
  tk_scope : string;
  tk_refresh_token : option string;
  tk_bound_to_key : bool
}.
(** The configuration the service holds; lifetimes are whole seconds, [u64]. *)
Record TokenConfig : Type := {
  cfg_base_issuer : string;
  cfg_access_token_ttl : Z;
  cfg_management_token_ttl : Z;
  cfg_id_token_ttl : Z;
  cfg_refresh_token_ttl : Z
}.

Definition internal : TokenError := token_error ServerError "internal server error".
(** [.await.map_err(|e| internal(&e))?] and the matches that spell it out. *)
Definition sql_or_internal {A} (s : Stmt A) : Prog (Result TokenError A) :=
  do r <- sql s;; Ret (map_err (fun _ => internal) r).

(** [now + chrono::Duration::from_std(ttl).unwrap()]; [None] is a panic. *)
Definition add_std_duration (now : DateTime) (secs : Z) : option DateTime :=
  if (secs <=? 9223372036854775)%Z && (now + seconds secs <? seconds (CHRONO_MAX_SECS + 1))%Z
  then Some (now + seconds secs)%Z else None.

Section token_service.
Context {HS : Hashing} {JO : Jose} {DJ : DpopJose} {UC : UrlCrate} {AJ : AssertionJose}
        {PH : PasswordHasher} {JE : JwtEncoder}.
Context (cfg : TokenConfig).

(** ** Private helpers *)
Definition client_auth_failed (tenant : TenantContext) (client_id reason : string)
  (ctx : RequestContext) : Prog TokenError :=
  do _ <- record_audit ClientAuthenticationFailed AuditFailure (Some (tc_tenant_id tenant)) None
            (Some client_id) (Some reason) ctx;;
  Ret (token_error InvalidClient "client authentication failed").

Definition load_active_client (tenant : TenantContext) (client_id : string) (ctx : RequestContext)
  : Prog (Result TokenError Client) :=
  do r <- sql (ClientsFindByClientId (tc_tenant_id tenant) client_id);;
  match r with
  | Ok (Some c) =>
      if client_is_active c then Ret (Ok c)
      else do e <- client_auth_failed tenant client_id "client_not_active" ctx;; Ret (Err e)
  | Ok None => do e <- client_auth_failed tenant client_id "unknown_client" ctx;; Ret (Err e)
  | Err _ => Ret (Err internal)
  end.

Definition load_active_user (user_id : Uuid) : Prog (Result TokenError User) :=
  do r <- sql (UsersFindById user_id);;
  match r with
  | Ok (Some u) =>
      if user_is_active u then
        do h <- sql (TenantsFindById (u_tenant_id u));;
        match h with
        | Ok (Some home) =>
            if tenant_is_active home then Ret (Ok u)
            else Ret (Err (token_error InvalidGrant "the user's home tenant is not active"))
        | Ok None => Ret (Err (token_error InvalidGrant "the user's home tenant is not active"))
        | Err _ => Ret (Err internal)
        end
      else Ret (Err (token_error InvalidGrant "user is not active"))
  | Ok None => Ret (Err (token_error InvalidGrant "user no longer exists"))
  | Err _ => Ret (Err internal)
  end.

Definition authenticate_client (tenant : TenantContext) (c : Client) (cmd : TokenCommand)
  (ctx : RequestContext) : Prog (Result TokenError unit) :=
  do r <- authenticate (cfg_base_issuer cfg) (tc_tenant_id tenant) c (cmd_credentials cmd);;
  match r with
  | Ok _ => Ret (Ok tt)
  | Err (AuthFailed failure) =>
      do e <- client_auth_failed tenant (c_client_id c) (client_auth_failure_as_str failure) ctx;;
      Ret (Err e)
  | Err (AuthInternal _) => Ret (Err internal)
  end.

Definition resolve_client_id (cmd : TokenCommand) : Result TokenError string :=
  match ensure_single_method (cmd_credentials cmd) with
  | Err _ => Err (token_error InvalidRequest
                    "client credentials must be presented with a single authentication method")
  | Ok _ =>
      match presented_client_id (cmd_credentials cmd) with
      | Ok client_id => Ok client_id
      | Err ClientIdMismatch =>
          Err (token_error InvalidRequest
                 "client_id mismatch between Authorization header and body")
      | Err _ => Err (token_error InvalidClient "client authentication is required")
      end
  end.

Definition sign_with (typ : string) (claims : Claims) : Prog (Result TokenError string) :=
  do key <- perform SigningKey;;
  match key with
  | Err _ => Ret (Err internal)
  | Ok k => Ret (map_err (fun _ => internal)
                   (jwt_sign (sk_private_pem k) (sk_kid k) typ (sk_algorithm k) claims))
  end.
Definition sign_id_token (c : IdTokenClaims) := sign_with "JWT" (IdClaims c).
Definition sign_access_token (c : AccessTokenClaims) := sign_with "at+jwt" (AccessClaims c).

Definition verify_dpop_proof (tenant : TenantContext) (cmd : TokenCommand)
  : Prog (Result TokenError (option VerifiedDpopProof)) :=
  match cmd_dpop_proof cmd with
  | None => Ret (Ok None)
  | Some proof =>
      let token_endpoint := tenant_issuer (cfg_base_issuer cfg) (tc_tenant_id tenant) ++ "/token" in
      do r <- dpop_verify proof "POST" token_endpoint None;;
      match r with
      | Ok verified => Ret (Ok (Some verified))
      | Err (ProofRejected rejection) =>
          Ret (Err (token_error InvalidDpopProof (rejection_reason rejection)))
      | Err (ProofUnavailable _) => Ret (Err internal)
      end
  end.

Definition note_refresh_reuse (stored : RefreshToken) (client_id : string) (now : DateTime)
  : Prog unit :=
  match rt_sid stored with
  | Some sid => do _ <- sql (HistoryRefreshReuse sid client_id now);; Ret tt
  | None => Ret tt
  end.

(** [client_id], the active client, its authentication: the head of all three
    grants. *)
Definition authenticated_client (tenant : TenantContext) (cmd : TokenCommand)
  (ctx : RequestContext) : Prog (Result TokenError (string * Client)) :=
  match resolve_client_id cmd with
  | Err e => Ret (Err e)
  | Ok client_id =>
      try client <- load_active_client tenant client_id ctx;;
      try _ <- authenticate_client tenant client cmd ctx;;
      Ret (Ok (client_id, client))
  end.

(** ** [authorization_code] *)

(** [AuthorizationCodeRepository::consume]: the UPDATE, then the SELECT. *)
Definition consume (t : TenantId) (h : AuthorizationCodeHash) (used_at : DateTime)
  : Prog (Result DomainError (option AuthorizationCode)) :=
  do r <- sql (CodesMarkUsed t h used_at);;
  match r with
  | Err e => Ret (Err e)
  | Ok n => if (n =? 0)%nat then Ret (Ok None) else sql (CodesSelect h)
  end.

(** Step 3: the form of [code_verifier]. *)
Definition presented_verifier (cmd : TokenCommand) : Result TokenError string :=
  match non_empty (cmd_code_verifier cmd) with
  | None => Err (token_error InvalidRequest "code_verifier is required")
  | Some v =>
      if is_valid_code_verifier v then Ok v
      else Err (token_error InvalidRequest
                  "code_verifier must be 43-128 characters of [A-Za-z0-9-._~]")
  end.

(** The code could not be consumed: a replay revokes what it had issued. *)
Definition code_not_consumed (tenant_id : TenantId) (h : AuthorizationCodeHash)
  (client_id : string) (now : DateTime) (ctx : RequestContext)
  : Prog (Result TokenError IssuedTokens) :=
  try used_code <- sql_or_internal (CodesFindUsed tenant_id h);;
  try reason <-
    match used_code with
    | Some _ =>
        try revoked <- sql_or_internal (RefreshRevokeFamily tenant_id (code_hash_value h) now);;
        Ret (Ok ("authorization code replayed; revoked " ++ pretty revoked ++ " refresh token(s)"))
    | None => Ret (Ok "authorization code not found or expired")
    end;;
  do _ <- record_audit AuthorizationCodeReuseDetected AuditFailure (Some tenant_id)
            ((fun c => au_user_id (ac_auth c)) <$> used_code) (Some client_id) (Some reason) ctx;;
  Ret (Err (token_error InvalidGrant "authorization code is invalid, expired, or already used")).

Definition redemption_description (r : CodeRedemptionRejection) : string :=
  match r with
  | IssuedToAnotherClient => "authorization code was issued to another client"
  | RedirectUriMismatch => "redirect_uri does not match the authorization request"
  | PkceMismatch => "PKCE verification failed"
  end.

(** Step 9: the root of a token family. *)
Definition root_refresh_token (plain : string) (tenant_id : TenantId) (h : AuthorizationCodeHash)
  (client_id : string) (c : AuthorizationCode) (jkt : option string) (now expires_at : DateTime)
  : RefreshToken := {|
  rt_token_hash := sha256_hex plain; rt_parent_hash := None;
  rt_grant_hash := Some (code_hash_value h); rt_tenant_id := tenant_id;
  rt_user_id := au_user_id (ac_auth c); rt_client_id := client_id;
  rt_scope := cg_scope (ac_grant c); rt_sid := au_sso_sid (ac_auth c);
  rt_methods := au_methods (ac_auth c); rt_auth_time := Some (au_auth_time (ac_auth c));
  rt_dpop_jkt := jkt; rt_expires_at := expires_at; rt_revoked_at := None;
  rt_created_at := now |}.
Definition issue_root_refresh_token (tenant_id : TenantId) (h : AuthorizationCodeHash)
  (client_id : string) (c : AuthorizationCode) (jkt : option string) (now : DateTime)
  (ctx : RequestContext) : Prog (Result TokenError string) :=
  do plain <- perform RandomToken;;
  match add_std_duration now (cfg_refresh_token_ttl cfg) with
  | None => Panic
  | Some expires_at =>
      try _ <- sql_or_internal (RefreshCreate
                 (root_refresh_token plain tenant_id h client_id c jkt now expires_at));;
      do _ <- record_audit RefreshTokenIssued AuditSuccess (Some tenant_id)
                (Some (au_user_id (ac_auth c))) (Some client_id) None ctx;;
      Ret (Ok plain)
  end.

(** Steps 8 and 9: claims, signatures, refresh token, history, audit. *)
Definition issue_from_code (tenant_id : TenantId) (h : AuthorizationCodeHash)
  (client_id : string) (c : AuthorizationCode) (user : User)
  (proof : option VerifiedDpopProof) (now : DateTime) (ctx : RequestContext)
  : Prog (Result TokenError IssuedTokens) :=
  let g := ac_grant c in
  let a := ac_auth c in
  let has_offline := grant_includes g ScopeOfflineAccess in
  let scope_str := grant_scope_string g in
  let iat := timestamp now in
  let issuer := tenant_issuer (cfg_base_issuer cfg) tenant_id in
  let jkt := vp_jkt <$> proof in
  do id_jti <- perform NewUuid;;
  let id_claims := code_id_claims issuer client_id (uuid_to_string id_jti) user g a iat
                     (cfg_id_token_ttl cfg) in
  do at_jti <- perform NewUuid;;
  let access_claims := user_access_claims issuer client_id (uuid_to_string at_jti) scope_str user
                         jkt iat (cfg_access_token_ttl cfg) in
  try id_token <- sign_id_token id_claims;;
  try access_token <- sign_access_token access_claims;;
  try refresh_token <-
    (if has_offline then
       try plain <- issue_root_refresh_token tenant_id h client_id c jkt now ctx;;
       Ret (Ok (Some plain))
     else Ret (Ok None));;
  do _ <- match au_sso_sid a with
          | Some sid => do _ <- sql (HistoryAppIssue (au_user_id a) tenant_id sid client_id now
                                       has_offline);; Ret tt
          | None => Ret tt
          end;;
  do _ <- record_audit TokenIssued AuditSuccess (Some tenant_id) (Some (au_user_id a))
            (Some client_id) None ctx;;
  Ret (Ok {| tk_access_token := access_token; tk_id_token := Some id_token;
             tk_expires_in := cfg_access_token_ttl cfg; tk_scope := scope_str;
             tk_refresh_token := refresh_token; tk_bound_to_key := is_some proof |}).

Definition exchange_code (tenant : TenantContext) (cmd : TokenCommand)
  (proof : option VerifiedDpopProof) (ctx : RequestContext)
  : Prog (Result TokenError IssuedTokens) :=
  let tenant_id := tc_tenant_id tenant in
  try (client_id, client) <- authenticated_client tenant cmd ctx;;
  match presented_verifier cmd with
  | Err e => Ret (Err e)
  | Ok code_verifier =>
      match cmd_code cmd ≫= code_from_presented with
      | None => Ret (Err (token_error InvalidRequest "code is required"))
      | Some code =>
          do now <- perform Now;;
          let h := hash_code code in
          do consumed <- consume tenant_id h now;;
          match consumed with
          | Err _ => Ret (Err internal)
          | Ok None => code_not_consumed tenant_id h client_id now ctx
          | Ok (Some auth_code) =>
              do _ <- record_audit AuthorizationCodeUsed AuditSuccess (Some tenant_id)
                        (Some (au_user_id (ac_auth auth_code))) (Some client_id) None ctx;;
              match redeem auth_code client_id (cmd_redirect_uri cmd) code_verifier with
              | Err rejection =>
                  Ret (Err (token_error InvalidGrant (redemption_description rejection)))
              | Ok _ =>
                  try user <- load_active_user (au_user_id (ac_auth auth_code));;
                  issue_from_code tenant_id h client_id auth_code user proof now ctx
              end
          end
      end
  end.

(** ** [refresh_token] *)

Inductive KeyBinding : Type :=
  | KeyRequired | KeyMismatch | BoundTo (jkt : option string).
(** Step 4b: the key the new tokens are bound to. *)
Definition key_binding (stored : RefreshToken) (proof : option VerifiedDpopProof) : KeyBinding :=
  match rt_dpop_jkt stored, proof with
  | Some _, None => KeyRequired
  | Some bound, Some p => if String.eqb bound (vp_jkt p) then BoundTo (Some bound) else KeyMismatch
  | None, Some p => BoundTo (Some (vp_jkt p))
  | None, None => BoundTo None
  end.

(** Steps 5 and 8: a token that was already used stops its whole family. *)
Definition refresh_reused (tenant_id : TenantId) (stored : RefreshToken) (client_id : string)
  (now : DateTime) (how : string) (ctx : RequestContext) : Prog (Result TokenError IssuedTokens) :=
  try revoked <- sql_or_internal (RefreshRevokeFamily tenant_id (family_hash stored) now);;
  do _ <- record_audit RefreshTokenReuseDetected AuditFailure (Some tenant_id)
            (Some (rt_user_id stored)) (Some client_id)
            (Some ("refresh token " ++ how ++ "; revoked " ++ pretty revoked
                   ++ " token(s) in the grant family")) ctx;;
  do _ <- note_refresh_reuse stored client_id now;;
  Ret (Err (token_error InvalidGrant "refresh_token has already been used")).

(** Step 10: the child of a rotated token. *)
Definition rotated_refresh_token (plain : string) (tenant_id : TenantId) (parent : string)
  (client_id : string) (stored : RefreshToken) (jkt : option string) (now : DateTime)
  : RefreshToken := {|
  rt_token_hash := sha256_hex plain; rt_parent_hash := Some parent;
  rt_grant_hash := Some (family_hash stored); rt_tenant_id := tenant_id;
  rt_user_id := rt_user_id stored; rt_client_id := client_id; rt_scope := rt_scope stored;
  rt_sid := rt_sid stored; rt_methods := rt_methods stored;
  rt_auth_time := Some (auth_time_or_issued stored); rt_dpop_jkt := jkt;
  rt_expires_at := rt_expires_at stored; rt_revoked_at := None; rt_created_at := now |}.

(** Steps 9 and 10. *)
Definition issue_from_refresh (tenant_id : TenantId) (rt_hash client_id : string)
  (stored : RefreshToken) (user : User) (jkt : option string) (now : DateTime)
  (ctx : RequestContext) : Prog (Result TokenError IssuedTokens) :=
  let scope_str := join " " (rt_scope stored) in
  let iat := timestamp now in
  let issuer := tenant_issuer (cfg_base_issuer cfg) tenant_id in
  do id_jti <- perform NewUuid;;
  let id_claims := refresh_id_claims issuer client_id (uuid_to_string id_jti) user stored iat
                     (cfg_id_token_ttl cfg) in
  do at_jti <- perform NewUuid;;
  let access_claims := user_access_claims issuer client_id (uuid_to_string at_jti) scope_str user
                         jkt iat (cfg_access_token_ttl cfg) in
  try id_token <- sign_id_token id_claims;;
  try access_token <- sign_access_token access_claims;;
  do plain <- perform RandomToken;;
  try _ <- sql_or_internal (RefreshCreate
             (rotated_refresh_token plain tenant_id rt_hash client_id stored jkt now));;
  do _ <- match rt_sid stored with
          | Some sid => do _ <- sql (HistoryRefreshUse sid client_id now (ctx_ip_address ctx)
                                       (ctx_user_agent ctx));; Ret tt
          | None => Ret tt
          end;;
  do _ <- record_audit RefreshTokenUsed AuditSuccess (Some tenant_id)
            (Some (rt_user_id stored)) (Some client_id) None ctx;;
  do _ <- record_audit RefreshTokenIssued AuditSuccess (Some tenant_id)
            (Some (rt_user_id stored)) (Some client_id) None ctx;;
  do _ <- record_audit TokenIssued AuditSuccess (Some tenant_id)
            (Some (rt_user_id stored)) (Some client_id) None ctx;;
  Ret (Ok {| tk_access_token := access_token; tk_id_token := Some id_token;
             tk_expires_in := cfg_access_token_ttl cfg; tk_scope := scope_str;
             tk_refresh_token := Some plain; tk_bound_to_key := is_some jkt |}).

(** Steps 5 to 10, once the token is known to be this client's and this key's. *)
Definition rotate_refresh_token (tenant_id : TenantId) (rt_hash client_id : string)
  (stored : RefreshToken) (jkt : option string) (now : DateTime) (ctx : RequestContext)
  : Prog (Result TokenError IssuedTokens) :=
  try already_rotated <- sql_or_internal (RefreshExistsByParentHash rt_hash);;
  if already_rotated : bool then
    refresh_reused tenant_id stored client_id now "already rotated" ctx
  else if negb (rt_is_valid_at stored now) then
    Ret (Err (token_error InvalidGrant "refresh_token is revoked or expired"))
  else
    try user <- load_active_user (rt_user_id stored);;
    do gate <- check tenant_id client_id (rt_user_id stored) ctx;;
    match gate with
    | GateDenied _ _ =>
        try _ <- sql_or_internal (RefreshRevokeFamily tenant_id (family_hash stored) now);;
        Ret (Err (token_error InvalidGrant "the user may no longer use this application"))
    | GateAllowed =>
        try n <- sql_or_internal (RefreshRevoke rt_hash now);;
        if (n =? 0)%nat then
          refresh_reused tenant_id stored client_id now "was rotated concurrently" ctx
        else issue_from_refresh tenant_id rt_hash client_id stored user jkt now ctx
    end.

Definition exchange_refresh_token (tenant : TenantContext) (cmd : TokenCommand)
  (proof : option VerifiedDpopProof) (ctx : RequestContext)
  : Prog (Result TokenError IssuedTokens) :=
  let tenant_id := tc_tenant_id tenant in
  try (client_id, client) <- authenticated_client tenant cmd ctx;;
  match non_empty (cmd_refresh_token cmd) with
  | None => Ret (Err (token_error InvalidRequest "refresh_token is required"))
  | Some rt_plain =>
      let rt_hash := sha256_hex rt_plain in
      do now <- perform Now;;
      try found <- sql_or_internal (RefreshFindByHash tenant_id rt_hash);;
      match found with
      | None => Ret (Err (token_error InvalidGrant "refresh_token not found"))
      | Some stored =>
          if negb (String.eqb (rt_client_id stored) client_id) then
            Ret (Err (token_error InvalidGrant "refresh_token was issued to another client"))
          else match key_binding stored proof with
          | KeyRequired =>
              Ret (Err (token_error InvalidDpopProof
                          "this refresh_token is bound to a key; a DPoP proof is required"))
          | KeyMismatch =>
              do _ <- record_audit RefreshTokenKeyMismatch AuditFailure (Some tenant_id)
                        (Some (rt_user_id stored)) (Some client_id)
                        (Some "refresh token presented with a DPoP proof of another key; nothing revoked")
                        ctx;;
              Ret (Err (token_error InvalidGrant "refresh_token is bound to another key"))
          | BoundTo jkt => rotate_refresh_token tenant_id rt_hash client_id stored jkt now ctx
          end
      end
  end.
End token_service.
