(* ===== verification/ClientCredentials.v ===== *)
(** * The machine grant and the dispatcher ([application/token.rs])

    [issue_client_credentials] with its scope and audience decisions, and
    [TokenService::exchange], which chooses the grant. *)

From S2P Require Import Prelude Values External AuditLog Directory Application ClientJwks.
From S2P Require Import Client AuthorizationRequest AuthSession AuthorizationCode RefreshToken.
From S2P Require Import Dpop ClientAssertion ClientAuth Effects TokenClaims AccessGate.
From S2P Require Import TokenService.

(** [resolve_client_credentials_scopes]. *)
Definition user_bound : list string :=
  [as_str ScopeOpenId; as_str ScopeProfile; as_str ScopeEmail].
Definition is_user_bound (s : string) : bool := existsb (fun u => String.eqb u s) user_bound.
Definition is_offline (s : string) : bool := String.eqb s (as_str ScopeOfflineAccess).
Definition resolve_client_credentials_scopes (c : Client) (requested : option string)
  : Result TokenError (list string) :=
  match non_empty (trim <$> requested) with
  | Some raw =>
      let scopes := split_whitespace raw in
      if existsb is_offline scopes then
        Err (token_error InvalidScope "offline_access is not available for the client_credentials grant")
      else if existsb is_user_bound scopes then
        Err (token_error InvalidScope
               "user-bound scopes are not available for the client_credentials grant")
      else if negb (allows_scopes c scopes) then
        Err (token_error InvalidScope "requested scope exceeds the scopes registered for this client")
      else Ok scopes
  | None => Ok (List.filter (fun s => negb (is_offline s) && negb (is_user_bound s)) (c_scopes c))
  end.

Section client_credentials.
Context {HS : Hashing} {JO : Jose} {DJ : DpopJose} {UC : UrlCrate} {AJ : AssertionJose}
        {PH : PasswordHasher} {JE : JwtEncoder}.
Context (cfg : TokenConfig).

(** An audit line, then the error: how every refusal of this grant ends. *)
Definition refuse {A} (tenant_id : TenantId) (client_id reason : string) (e : TokenError)
  (ctx : RequestContext) : Prog (Result TokenError A) :=
  do _ <- record_audit ClientAuthenticationFailed AuditFailure (Some tenant_id) None
            (Some client_id) (Some reason) ctx;;
  Ret (Err e).

(** The management audience, with the client's permission codes. *)
Definition management_token (tenant_id : TenantId) (client_id : string) (c : Client)
  (own_application : option Application) (own_disabled : bool) (management_aud : string)
  (ctx : RequestContext) : Prog (Result TokenError (string * option string * Z)) :=
  try codes <- (if own_disabled then Ret (Ok [])
                else sql_or_internal (PermissionsListForClient (c_id c)));;
  if bool_decide (codes = []) && negb (is_some own_application) then
    refuse tenant_id client_id "no_management_permissions"
      (token_error InvalidTarget "client holds no management permissions for the requested resource")
      ctx
  else Ret (Ok (management_aud, Some (join " " codes), cfg_management_token_ttl cfg)).

(** Whether a registered resource may be addressed; the error is the audit's
    reason, which the answer does not reveal. *)
Definition issuable_resource (tenant_id : TenantId) (c : Client)
  (found : option ProtectedResource) : Prog (Result TokenError (Result string ProtectedResource)) :=
  match found with
  | None => Ret (Ok (Err "unknown_resource"))
  | Some resource =>
      if negb (resource_is_active resource) then Ret (Ok (Err "resource_disabled"))
      else
        try application <- sql_or_internal
                             (ApplicationsFindByBinding tenant_id (BindResource (pr_id resource)));;
        match application with
        | None => Ret (Ok (Err "resource_not_bound_to_an_application"))
        | Some a =>
            if negb (application_is_active a) then
              Ret (Ok (Err (access_reason (admits_service_account a false))))
            else
              try assigned <- sql_or_internal
                                (ApplicationsIsServiceAccountAssigned (app_id a) (c_id c));;
              Ret (Ok (match admits_service_account a assigned with
                       | AccessAllowed => Ok resource
                       | AccessNotAssigned => Err "service_account_not_assigned"
                       | denied => Err (access_reason denied)
                       end))
        end
  end.
Definition resource_token (tenant_id : TenantId) (client_id : string) (c : Client)
  (requested : string) (ctx : RequestContext)
  : Prog (Result TokenError (string * option string * Z)) :=
  try found <- sql_or_internal (ResourcesFindByUri tenant_id requested);;
  try issuable <- issuable_resource tenant_id c found;;
  match issuable with
  | Ok resource => Ret (Ok (pr_resource_uri resource, None, cfg_access_token_ttl cfg))
  | Err reason =>
      refuse tenant_id client_id reason
        (token_error InvalidTarget
           "the requested resource is not served by this authorization server") ctx
  end.

(** Step 5: audience, permissions and lifetime from [resource]. *)
Definition token_target (tenant_id : TenantId) (client_id : string) (c : Client)
  (own_application : option Application) (own_disabled : bool) (issuer : string)
  (requested : option string) (ctx : RequestContext)
  : Prog (Result TokenError (string * option string * Z)) :=
  let management_aud := management_audience issuer in
  match non_empty requested with
  | None => Ret (Ok (userinfo_audience issuer, None, cfg_access_token_ttl cfg))
  | Some requested =>
      if String.eqb requested management_aud then
        management_token tenant_id client_id c own_application own_disabled management_aud ctx
      else resource_token tenant_id client_id c requested ctx
  end.

Definition issue_client_credentials (tenant : TenantContext) (cmd : TokenCommand)
  (ctx : RequestContext) : Prog (Result TokenError IssuedTokens) :=
  let tenant_id := tc_tenant_id tenant in
  try (client_id, client) <- authenticated_client cfg tenant cmd ctx;;
  if negb (allows_client_credentials client) then
    refuse tenant_id client_id "client_credentials_not_allowed"
      (token_error UnauthorizedClient "client is not allowed to use the client_credentials grant")
      ctx
  else match resolve_client_credentials_scopes client (cmd_scope cmd) with
  | Err e => Ret (Err e)
  | Ok scopes =>
      let scope_str := join " " scopes in
      try own_application <- sql_or_internal
                               (ApplicationsFindByBinding tenant_id (BindServiceAccount (c_id client)));;
      let own_disabled := is_some_and (fun a => negb (application_is_active a)) own_application in
      do now <- perform Now;;
      let iat := timestamp now in
      let issuer := tenant_issuer (cfg_base_issuer cfg) tenant_id in
      let requested := trim <$> cmd_resource cmd in
      if own_disabled && negb (bool_decide (requested = Some (management_audience issuer))) then
        refuse tenant_id client_id "own_application_disabled"
          (token_error UnauthorizedClient
             "the application this service account belongs to is disabled") ctx
      else
        try (audience, perms, ttl) <- token_target tenant_id client_id client own_application
                                        own_disabled issuer requested ctx;;
        do jti <- perform NewUuid;;
        try access_token <- sign_access_token
              (client_access_claims issuer (c_client_id client) (uuid_to_string jti) scope_str
                 audience perms iat ttl);;
        do _ <- record_audit TokenIssued AuditSuccess (Some tenant_id) None
                  (Some (c_client_id client)) (Some "grant=client_credentials") ctx;;
        Ret (Ok {| tk_access_token := access_token; tk_id_token := None;
                   tk_expires_in := ttl; tk_scope := scope_str;
                   tk_refresh_token := None; tk_bound_to_key := false |})
  end.

(** ** [TokenService::exchange] *)
Definition grant_is (cmd : TokenCommand) (g : string) : bool :=
  bool_decide (cmd_grant_type cmd = Some g).
Definition exchange (tenant : TenantContext) (cmd : TokenCommand) (ctx : RequestContext)
  : Prog (Result TokenError IssuedTokens) :=
  if is_some_and (fun r => negb (str_is_empty (trim r))) (cmd_resource cmd)
     && negb (grant_is cmd "client_credentials") then
    Ret (Err (token_error InvalidTarget
      "the `resource` parameter is only supported for the client_credentials grant"))
  else if grant_is cmd "authorization_code" then
    try proof <- verify_dpop_proof cfg tenant cmd;;
    exchange_code cfg tenant cmd proof ctx
  else if grant_is cmd "refresh_token" then
    try proof <- verify_dpop_proof cfg tenant cmd;;
    exchange_refresh_token cfg tenant cmd proof ctx
  else if grant_is cmd "client_credentials" then issue_client_credentials tenant cmd ctx
  else Ret (Err (token_error UnsupportedGrantType
         "grant_type must be `authorization_code`, `refresh_token` or `client_credentials`")).
End client_credentials.
