(* ===== verification/TokenPaths.v ===== *)
(** * Every path of the token endpoint

    What holds of each path through [exchange], whatever the database answers:
    no path purges a row; a path that succeeds with a code has consumed it, one
    that succeeds with a refresh token has revoked it, one that succeeds with a
    DPoP proof has recorded it. *)

From S2P Require Import Prelude Values External AuditLog Directory Application ClientJwks.
From S2P Require Import Client AuthSession AuthorizationCode RefreshToken Dpop ClientAssertion.
From S2P Require Import ClientAuth Effects TokenClaims AccessGate ProgLogic OneShots Frames.
From S2P Require Import Paths TokenService ClientCredentials.

Section paths.
Context {HS : Hashing} {JO : Jose} {DJ : DpopJose} {UC : UrlCrate} {AJ : AssertionJose}
        {PH : PasswordHasher} {JE : JwtEncoder}.
Context (cfg : TokenConfig).
Local Abbreviation safe := (always (sql_prop no_purge)).
Local Abbreviation is_light := (always (sql_prop light)).

Lemma always_sql_or_internal ok {A} (s : Stmt A) :
  ok A s -> always (sql_prop ok) (sql_or_internal s).
Proof. intros H. apply always_bind; [by apply always_sql | done]. Qed.
Hint Resolve always_sql_or_internal : prog.

Lemma light_authenticated_client t cmd ctx : is_light (authenticated_client cfg t cmd ctx).
Proof.
  unfold authenticated_client, load_active_client, authenticate_client, client_auth_failed.
  prog_always.
Qed.
Lemma light_load_active_user u : is_light (load_active_user u).
Proof. unfold load_active_user. prog_always. Qed.
Lemma light_sign ty c : is_light (sign_with ty c).
Proof. unfold sign_with. prog_always. Qed.
Hint Resolve light_authenticated_client light_load_active_user light_sign : prog.
Lemma light_verify_dpop_proof t cmd : is_light (verify_dpop_proof cfg t cmd).
Proof. unfold verify_dpop_proof. prog_always. Qed.
Hint Resolve light_verify_dpop_proof : prog.

Lemma safe_issue_from_code t h c code user proof now ctx :
  safe (issue_from_code cfg t h c code user proof now ctx).
Proof.
  unfold issue_from_code, issue_root_refresh_token, sign_id_token, sign_access_token. prog_always.
Qed.
Lemma safe_code_not_consumed t h c now ctx : safe (code_not_consumed t h c now ctx).
Proof. unfold code_not_consumed. prog_always. Qed.
Hint Resolve safe_issue_from_code safe_code_not_consumed : prog.
Lemma safe_exchange_code t cmd proof ctx : safe (exchange_code cfg t cmd proof ctx).
Proof. unfold exchange_code, consume. prog_always. Qed.

Lemma safe_refresh_reused t r c now how ctx : safe (refresh_reused t r c now how ctx).
Proof. unfold refresh_reused, note_refresh_reuse. prog_always. Qed.
Lemma safe_issue_from_refresh t h c r user jkt now ctx :
  safe (issue_from_refresh cfg t h c r user jkt now ctx).
Proof. unfold issue_from_refresh, sign_id_token, sign_access_token. prog_always. Qed.
Hint Resolve safe_refresh_reused safe_issue_from_refresh : prog.
Lemma safe_exchange_refresh_token t cmd proof ctx :
  safe (exchange_refresh_token cfg t cmd proof ctx).
Proof. unfold exchange_refresh_token, rotate_refresh_token. prog_always. Qed.

Lemma light_refuse {A} t c r e ctx : is_light (@refuse A t c r e ctx).
Proof. unfold refuse. prog_always. Qed.
Hint Resolve light_refuse : prog.
Lemma light_token_target t i c own b iss r ctx : is_light (token_target cfg t i c own b iss r ctx).
Proof.
  unfold token_target, management_token, resource_token, issuable_resource. prog_always.
Qed.
Hint Resolve light_token_target : prog.
Lemma light_issue_client_credentials t cmd ctx : is_light (issue_client_credentials cfg t cmd ctx).
Proof. unfold issue_client_credentials, sign_access_token. prog_always. Qed.
Hint Resolve safe_exchange_code safe_exchange_refresh_token light_issue_client_credentials : prog.
Lemma safe_exchange t cmd ctx : safe (exchange cfg t cmd ctx).
Proof. unfold exchange. prog_always. Qed.

(** ** What success requires *)
Lemma guarded_grant (ev : OpEvent) t cmd ctx :
  (grant_is cmd "authorization_code" = true -> forall proof,
     guarded ev succeeded (exchange_code cfg t cmd proof ctx)) ->
  (grant_is cmd "refresh_token" = true -> forall proof,
     guarded ev succeeded (exchange_refresh_token cfg t cmd proof ctx)) ->
  (grant_is cmd "client_credentials" = true ->
     guarded ev succeeded (issue_client_credentials cfg t cmd ctx)) ->
  guarded ev succeeded (exchange cfg t cmd ctx).
Proof.
  intros Hc Hr Hm. unfold exchange. destruct (_ && _); [apply guarded_Err|].
  destruct (grant_is cmd "authorization_code"); [apply guarded_try_after; auto|].
  destruct (grant_is cmd "refresh_token"); [apply guarded_try_after; auto|].
  destruct (grant_is cmd "client_credentials"); [auto | apply guarded_Err].
Qed.
Lemma grant_is_one cmd g g' : grant_is cmd g = true -> grant_is cmd g' = true -> g = g'.
Proof. unfold grant_is. rewrite !bool_decide_eq_true. congruence. Qed.

Lemma code_not_consumed_fails ev t h c now ctx :
  guarded ev succeeded (code_not_consumed t h c now ctx).
Proof. unfold code_not_consumed. prog_fails. Qed.
(** A successful code exchange has consumed the code presented. *)
Definition presents_code (h : AuthorizationCodeHash) (cmd : TokenCommand) : Prop :=
  grant_is cmd "authorization_code" = true
  /\ exists plain, cmd_code cmd = Some plain /\ hash_code {| code_plain := plain |} = h.
Lemma guarded_exchange_code h t cmd proof ctx :
  presents_code h cmd ->
  guarded (sql_event (code_consumed h)) succeeded (exchange_code cfg t cmd proof ctx).
Proof.
  intros (_ & plain & Hc & Hh). unfold exchange_code.
  apply guarded_try_after. intros [client_id client].
  destruct (presented_verifier cmd); [|apply guarded_Err].
  rewrite Hc. cbn [mbind option_bind]. unfold code_from_presented.
  destruct (str_is_empty plain); [apply guarded_Err|].
  apply guarded_after. intros now. rewrite Hh.
  unfold consume. eapply (guarded_before _ _ (fun r => exists c, r = Ok (Some c))).
  - eapply (guarded_before _ _ (fun r => exists n, r = Ok n /\ n <> 0%nat)).
    + apply guarded_op. intros r (n & -> & Hn). cbn [sql_event]. unfold code_consumed.
      rewrite bool_decide_true by done. by destruct n.
    + intros [n|e] Hr; [|intros [c [=]]].
      destruct (Nat.eqb_spec n 0) as [->|Hn]; [intros [c [=]]|].
      exfalso. apply Hr. eauto.
  - intros [[c|]|e] Hr; [exfalso; apply Hr; eauto | |apply guarded_Err].
    apply code_not_consumed_fails.
Qed.
Lemma guarded_presents_code h t cmd ctx :
  presents_code h cmd ->
  guarded (sql_event (code_consumed h)) succeeded (exchange cfg t cmd ctx).
Proof.
  intros H. pose proof (proj1 H) as Hg.
  apply guarded_grant; [intros _ proof; by apply guarded_exchange_code | |];
    intros Hg'; by pose proof (grant_is_one _ _ _ Hg Hg').
Qed.

(** A successful refresh has revoked the token presented. *)
Definition presents_refresh_token (h : string) (cmd : TokenCommand) : Prop :=
  grant_is cmd "refresh_token" = true
  /\ exists plain, cmd_refresh_token cmd = Some plain /\ sha256_hex plain = h.
Lemma refresh_reused_fails ev t r c now how ctx :
  guarded ev succeeded (refresh_reused t r c now how ctx).
Proof. unfold refresh_reused. prog_fails. Qed.
Lemma guarded_rotate h t c r jkt now ctx :
  guarded (sql_event (token_revoked h)) succeeded (rotate_refresh_token cfg t h c r jkt now ctx).
Proof.
  unfold rotate_refresh_token. apply guarded_try_after. intros [|].
  { apply refresh_reused_fails. }
  destruct (negb _); [apply guarded_Err|].
  apply guarded_try_after. intros user. apply guarded_after. intros [|].
  - eapply (guarded_before _ _ (fun r => exists n, r = Ok n /\ n <> 0%nat)).
    + unfold sql_or_internal. eapply (guarded_before _ _ (fun r => exists n, r = Ok n /\ n <> 0%nat)).
      * apply guarded_op. intros r' (n & -> & Hn). cbn [sql_event]. unfold token_revoked.
        rewrite String.eqb_refl. by destruct n.
      * intros [n|e] Hr; cbn; [|intros (n & [=] & _)]. intros (n' & [= ->] & Hn). apply Hr. eauto.
    + intros [n|e] Hr; [|apply guarded_Err]. destruct (Nat.eqb_spec n 0) as [->|Hn].
      * apply refresh_reused_fails.
      * exfalso. apply Hr. eauto.
  - prog_fails.
Qed.
Lemma guarded_presents_refresh_token h t cmd ctx :
  presents_refresh_token h cmd ->
  guarded (sql_event (token_revoked h)) succeeded (exchange cfg t cmd ctx).
Proof.
  intros (Hg & plain & Hp & Hh).
  apply guarded_grant; [|intros _ proof|]; try (intros Hg'; by pose proof (grant_is_one _ _ _ Hg Hg')).
  unfold exchange_refresh_token. apply guarded_try_after. intros [client_id client].
  rewrite Hp. destruct (non_empty (Some plain)) as [p|] eqn:En; [|apply guarded_Err].
  apply non_empty_Some in En. destruct En as [[= <-] _]. rewrite Hh.
  apply guarded_after. intros now. apply guarded_try_after. intros [r|]; [|apply guarded_Err].
  destruct (negb _); [apply guarded_Err|]. destruct (key_binding r proof).
  - apply guarded_Err.
  - prog_fails.
  - apply guarded_rotate.
Qed.

(** A request with a DPoP proof that succeeds has recorded it. *)
Definition presents_proof (h : string) (cmd : TokenCommand) : Prop :=
  grant_is cmd "client_credentials" = false
  /\ exists proof, cmd_dpop_proof cmd = Some proof
  /\ forall expected p, verify_proof proof expected = Ok p -> replay_key p = h.
Lemma guarded_verify_dpop_proof h t cmd :
  presents_proof h cmd ->
  guarded (sql_event (proof_recorded h)) succeeded (verify_dpop_proof cfg t cmd).
Proof.
  intros (_ & proof & Hp & Hk). unfold verify_dpop_proof. rewrite Hp.
  eapply (guarded_before _ _ succeeded); [|intros [p|[r|m]] Hr; [by destruct Hr | done | done]].
  unfold dpop_verify. apply guarded_after. intros now.
  destruct (verify_proof _ _) as [p|] eqn:Ev; [|apply guarded_Err]. rewrite (Hk _ _ Ev).
  eapply (guarded_before _ _ (fun r => r = Ok true)).
  - apply guarded_op. intros r ->. cbn [sql_event]. unfold proof_recorded.
    by rewrite String.eqb_refl.
  - intros [[|]|e] Hr; [by destruct Hr | apply guarded_Err | apply guarded_Err].
Qed.
Lemma guarded_presents_proof h t cmd ctx :
  presents_proof h cmd ->
  guarded (sql_event (proof_recorded h)) succeeded (exchange cfg t cmd ctx).
Proof.
  intros H. pose proof (proj1 H) as Hg. unfold exchange. destruct (_ && _); [apply guarded_Err|].
  rewrite Hg.
  destruct (grant_is cmd "authorization_code");
    [by apply guarded_try_before, guarded_verify_dpop_proof|].
  destruct (grant_is cmd "refresh_token");
    [by apply guarded_try_before, guarded_verify_dpop_proof|].
  apply guarded_Err.
Qed.
End paths.

#[export] Hint Resolve always_sql_or_internal light_authenticated_client light_load_active_user
  light_sign light_verify_dpop_proof light_refuse light_issue_client_credentials : prog.
