(* ===== verification/TokenSteps.v ===== *)
(** * The steps of the token endpoint, one at a time

    What each helper of [TokenService] has established when it answers [Ok],
    whatever failed on the way, and what it leaves alone.  The theorems on the
    grants compose these. *)

From S2P Require Import Prelude Values External AuditLog Directory Application ClientJwks Client.
From S2P Require Import AuthSession AuthSessionStore AuthorizationCode RefreshToken Dpop.
From S2P Require Import ClientAssertion ClientAuth Effects TokenClaims AccessGate ProgLogic OneShots.
From S2P Require Import Frames Paths TokenService ClientCredentials TokenPaths.

Section statements.
Context {CO : Collation} {HS : Hashing}.

(** [?] on a statement. *)
Lemma run_sql_or_internal {A} (s : Stmt A) w a w' :
  run (sql_or_internal s) w = (Some (Ok a), w') ->
  exec s (w_db_clock w) (w_db w) = (Ok a, w_db w').
Proof.
  unfold sql_or_internal. intros H. apply run_do in H. destruct H as (r & w1 & Hs & Hr).
  cbn in Hr. injection Hr as Hr <-. destruct r as [x|e]; [|done]. injection Hr as ->.
  by apply run_sql_Ok.
Qed.
End statements.

(** ** What each step has established *)
Section steps.
Context {HS : Hashing} {JO : Jose} {DJ : DpopJose} {UC : UrlCrate} {AJ : AssertionJose}
        {PH : PasswordHasher} {JE : JwtEncoder} {CO : Collation}.
Context (cfg : TokenConfig).

(** The presenter of [creds] is the client: it is public, or its secret or its
    assertion checks. *)
Definition proves_identity (t : TenantId) (c : Client) (creds : PresentedClientCredentials)
  (now : DateTime) : Prop :=
  match select creds c with
  | Err _ => False
  | Ok CredentialNotRequired => True
  | Ok (CredentialSecret secret) =>
      exists hash, c_client_secret_hash c = Some hash /\ hasher_verify secret hash = Ok true
  | Ok (CredentialAssertion assertion ty) =>
      exists jwks verified, c_jwks c = Some jwks
        /\ verify_client_assertion ty assertion (c_client_id c) jwks
             (accepted_audiences (cfg_base_issuer cfg) t) now = Some (Ok verified)
  end.
Lemma run_authenticate t c creds w o w' :
  run (authenticate (cfg_base_issuer cfg) t c creds) w = (Some (Ok o), w') ->
  proves_identity t c creds (w_clock w).
Proof.
  unfold authenticate, proves_identity. destruct (select creds c) as [[|s|a ty]|f]; [done| | |done].
  - destruct (c_client_secret_hash c) as [h|]; [|done].
    destruct (hasher_verify s h) as [[|]|] eqn:E; [eauto|done|done].
  - unfold authenticate_assertion. destruct (c_jwks c) as [jwks|]; [|done].
    intros H. apply run_do in H. destruct H as (now & w1 & Hn & H).
    apply run_Now in Hn. destruct Hn as [-> ->].
    destruct (verify_client_assertion _ _ _ _ _ _) as [[v|]|] eqn:E; [eauto|done|done].
Qed.

(** The client of a request: registered in the flow's tenant, active, proven. *)
Record client_of_request (t : TenantId) (cmd : TokenCommand) (w : World) (client_id : string)
  (c : Client) : Prop := {
  cr_resolved : resolve_client_id cmd = Ok client_id;
  cr_found : clients_find_by_client_id (w_db w) t client_id = Some c;
  cr_active : client_is_active c = true;
  cr_proven : proves_identity t c (cmd_credentials cmd) (w_clock w)
}.
Lemma client_of_request_untouched t cmd w w' i c :
  untouched w w' -> client_of_request t cmd w' i c -> client_of_request t cmd w i c.
Proof.
  intros Hu [Hr Hf Ha Hp]. split; try done.
  - by rewrite <- (clients_find_eq _ _ t i (un_directory _ _ Hu)).
  - by rewrite <- (untouched_clock _ _ Hu).
Qed.
Lemma run_authenticated_client tenant cmd ctx w i c w' :
  run (authenticated_client cfg tenant cmd ctx) w = (Some (Ok (i, c)), w') ->
  untouched w w' /\ client_of_request (tc_tenant_id tenant) cmd w i c.
Proof.
  intros H. split; [eapply run_light; [apply light_authenticated_client | exact H]|].
  unfold authenticated_client in H. destruct (resolve_client_id cmd) as [i'|] eqn:Er; [|done].
  apply run_try in H. destruct H as (c' & w1 & Hl & H).
  apply run_try in H. destruct H as ([] & w2 & Ha & H). injection H as -> -> _.
  assert (untouched w w1) as Hu.
  { eapply run_light; [|exact Hl]. unfold load_active_client, client_auth_failed. prog_always. }
  unfold load_active_client in Hl. apply run_do in Hl. destruct Hl as (r & w3 & Hs & Hl).
  destruct r as [[c'|]|]; [|apply run_do in Hl; naive_solver|done].
  destruct (client_is_active c') eqn:Eac; [|apply run_do in Hl; naive_solver].
  injection Hl as -> ->. apply run_sql_Ok in Hs. injection Hs as Hs _.
  unfold authenticate_client in Ha. apply run_do in Ha. destruct Ha as (r & w4 & Ha & Hr).
  destruct r as [o|[f|m]]; [|apply run_do in Hr; naive_solver|done].
  apply run_authenticate in Ha. split; try done. by rewrite <- (untouched_clock _ _ Hu).
Qed.

(** The user a token is issued to: still there, active, of an active tenant. *)
Definition user_in_good_standing (w : World) (id : Uuid) (u : User) : Prop :=
  users_find_by_id (w_db w) id = Some u /\ user_is_active u = true
  /\ exists home, tenants_find_by_id (w_db w) (u_tenant_id u) = Some home
                  /\ tenant_is_active home = true.
Lemma user_standing_directory w w' id u :
  directory (w_db w') = directory (w_db w) ->
  user_in_good_standing w' id u -> user_in_good_standing w id u.
Proof.
  intros Hu. unfold user_in_good_standing. rewrite (users_find_eq _ _ id Hu).
  intros (? & ? & h & Hh & ?). split_and!; try done. exists h.
  by rewrite <- (tenants_find_eq _ _ (u_tenant_id u) Hu).
Qed.
Lemma run_load_active_user id w u w' :
  run (load_active_user id) w = (Some (Ok u), w') ->
  untouched w w' /\ user_in_good_standing w id u.
Proof.
  intros H. split; [eapply run_light; [apply light_load_active_user | exact H]|].
  unfold load_active_user in H. apply run_do in H. destruct H as (r & w1 & Hs & H).
  destruct r as [[u'|]|]; [|done|done]. destruct (user_is_active u') eqn:Ea; [|done].
  assert (untouched w w1) as Hu by (eapply run_light; [|exact Hs]; by apply always_sql).
  apply run_do in H. destruct H as (r & w2 & Ht & H).
  destruct r as [[h|]|]; [|done|done]. destruct (tenant_is_active h) eqn:Eh; [|done].
  injection H as -> _. apply run_sql_Ok in Hs, Ht. injection Hs as Hs _. injection Ht as Ht _.
  split; [done|]. split; [done|]. exists h. split; [|done].
  by rewrite <- (tenants_find_eq _ _ _ (un_directory _ _ Hu)).
Qed.

(** A token: these claims, signed with the active key. *)
Definition signed (w : World) (typ : string) (c : Claims) (token : string) : Prop :=
  exists key, w_signing_key w = Ok key
    /\ jwt_sign (sk_private_pem key) (sk_kid key) typ (sk_algorithm key) c = Ok token.
Lemma signed_fixed w w' typ c token :
  fixed w' = fixed w -> signed w' typ c token -> signed w typ c token.
Proof. intros Hf. unfold signed. by injection Hf as _ _ ->. Qed.
Lemma run_sign typ c w token w' :
  run (sign_with typ c) w = (Some (Ok token), w') -> untouched w w' /\ signed w typ c token.
Proof.
  intros H. split; [eapply run_light; [apply light_sign | exact H]|].
  unfold sign_with in H. apply run_do in H. destruct H as (r & w1 & Hk & H).
  cbn in Hk. injection Hk as <- <-. destruct (w_signing_key w) as [k|] eqn:Ek; [|done].
  injection H as H _. exists k. split; [done|]. by destruct (jwt_sign _ _ _ _ _); [injection H as ->|].
Qed.

(** The DPoP proof of a request, when it carries one, verifies. *)
Definition proof_of_request (t : TenantId) (cmd : TokenCommand) (now : DateTime)
  (proof : option VerifiedDpopProof) : Prop :=
  match cmd_dpop_proof cmd, proof with
  | None, None => True
  | Some raw, Some p =>
      verify_proof raw {| dr_method := "POST";
                          dr_uri := tenant_issuer (cfg_base_issuer cfg) t ++ "/token";
                          dr_access_token := None; dr_now := now |} = Ok p
  | _, _ => False
  end.
Lemma run_verify_dpop_proof tenant cmd w proof w' :
  run (verify_dpop_proof cfg tenant cmd) w = (Some (Ok proof), w') ->
  untouched w w' /\ proof_of_request (tc_tenant_id tenant) cmd (w_clock w) proof.
Proof.
  intros H. split; [eapply run_light; [apply light_verify_dpop_proof | exact H]|].
  unfold verify_dpop_proof, proof_of_request in *. destruct (cmd_dpop_proof cmd) as [raw|].
  2: { by injection H as <- _. }
  apply run_do in H. destruct H as (r & w1 & Hd & H). destruct r as [p|[|]]; [|done|done].
  injection H as <- _. unfold dpop_verify in Hd. apply run_do in Hd.
  destruct Hd as (now & w2 & Hn & Hd). apply run_Now in Hn. destruct Hn as [-> ->].
  destruct (verify_proof _ _) as [p'|]; [|done].
  apply run_do in Hd. destruct Hd as (r & w3 & Hs & Hd). destruct r as [[|]|]; [|done|done].
  by injection Hd as -> _.
Qed.

(** The dispatcher: the DPoP proof first, then the grant. *)
Lemma grant_is_eq cmd g g' : cmd_grant_type cmd = Some g -> grant_is cmd g' = String.eqb g g'.
Proof.
  intros E. unfold grant_is. rewrite E.
  destruct (String.eqb_spec g g'); [apply bool_decide_true | apply bool_decide_false]; congruence.
Qed.
Lemma run_exchange_code tenant cmd ctx w tk w' :
  cmd_grant_type cmd = Some "authorization_code" ->
  run (exchange cfg tenant cmd ctx) w = (Some (Ok tk), w') ->
  exists proof w1, untouched w w1 /\ proof_of_request (tc_tenant_id tenant) cmd (w_clock w) proof
    /\ run (exchange_code cfg tenant cmd proof ctx) w1 = (Some (Ok tk), w').
Proof.
  intros Hg H. unfold exchange in H. destruct (_ && _); [done|].
  rewrite !(grant_is_eq _ _ _ Hg) in H. cbn [String.eqb Ascii.eqb Bool.eqb] in H.
  apply run_try in H. destruct H as (proof & w1 & Hp & H).
  apply run_verify_dpop_proof in Hp. destruct Hp. eauto.
Qed.
Lemma run_exchange_refresh tenant cmd ctx w tk w' :
  cmd_grant_type cmd = Some "refresh_token" ->
  run (exchange cfg tenant cmd ctx) w = (Some (Ok tk), w') ->
  exists proof w1, untouched w w1 /\ proof_of_request (tc_tenant_id tenant) cmd (w_clock w) proof
    /\ run (exchange_refresh_token cfg tenant cmd proof ctx) w1 = (Some (Ok tk), w').
Proof.
  intros Hg H. unfold exchange in H. destruct (_ && _); [done|].
  rewrite !(grant_is_eq _ _ _ Hg) in H. cbn [String.eqb Ascii.eqb Bool.eqb] in H.
  apply run_try in H. destruct H as (proof & w1 & Hp & H).
  apply run_verify_dpop_proof in Hp. destruct Hp. eauto.
Qed.
Lemma run_exchange_machine tenant cmd ctx w :
  cmd_grant_type cmd = Some "client_credentials" ->
  run (exchange cfg tenant cmd ctx) w = run (issue_client_credentials cfg tenant cmd ctx) w.
Proof.
  intros Hg. unfold exchange. rewrite !(grant_is_eq _ _ _ Hg).
  cbn [String.eqb Ascii.eqb Bool.eqb negb]. by rewrite andb_false_r.
Qed.
End steps.
