(* ===== verification/Example.v ===== *)
(** * A concrete deployment

    One tenant, one user, a public and a confidential client, one authorization
    code and one refresh token, over toy instances of the third-party code.
    Witnesses evaluate the development on it. *)

From S2P Require Import Prelude Values External AuditLog Directory Application ClientJwks.
From S2P Require Import Client AuthorizationRequest AuthSession AuthorizationCode RefreshToken.
From S2P Require Import Dpop ClientAssertion ClientAuth Effects TokenClaims AccessGate.
From S2P Require Import TokenService ClientCredentials AuthenticationPolicy Lockout SsoSession SessionKey.
From S2P Require Import Membership SignInStore PasswordPolicy RateLimit.

#[export] Existing Instances toy_hashing toy_jose toy_collation toy_url.

Definition toy_key : string := "0123456789abcdef0123456789abcdef".
Definition toy_endpoint : string := "https://idp/1/token".
(** A proof is [key.jti.signature]. *)
#[export] Instance toy_dpop : DpopJose := {|
  proof_header_from_json x := Some {|
    ph_typ := Some "dpop+jwt"; ph_alg := Some "ES256";
    ph_jwk := Some (list_to_map [("kty", JsonString "EC"); ("crv", JsonString "P-256");
                                 ("x", JsonString x); ("y", JsonString x)]) |};
  decode_proof proof _ :=
    match split_on "." proof with
    | [_; jti; _] => Some {| pc_jti := Some jti; pc_htm := Some "POST";
                             pc_htu := Some toy_endpoint; pc_iat := Some 1000%Z; pc_ath := None |}
    | _ => None
    end
|}.
(** An assertion is [kid.jti.signature], signed by client [batch]. *)
#[export] Instance toy_assertion : AssertionJose := {|
  assertion_header_kid a := match split_on "." a with kid :: _ => Some (Some kid) | [] => None end;
  decode_assertion a _ _ :=
    match split_on "." a with
    | [_; jti; _] => Ok {| cl_iss := "batch"; cl_sub := "batch"; cl_aud := One "https://idp/1";
                           cl_exp := 1200%Z; cl_jti := Some jti |}
    | _ => Err DecodeInvalidSignature
    end;
  json_string_member _ _ := Some "batch"
|}.
#[export] Instance toy_hasher : PasswordHasher := {|
  hasher_verify secret hash := Ok (String.eqb secret hash);
  hasher_hash _ secret := Ok secret
|}.
#[export] Instance toy_encoder : JwtEncoder := {|
  jwt_encode _ _ _ typ claims :=
    Ok (typ ++ ":" ++ match claims with
                      | IdClaims c => it_sub c ++ ":" ++ it_aud c
                      | AccessClaims c => at_sub c ++ ":" ++ at_aud c
                      end)
|}.

Definition toy_config : TokenConfig := {|
  cfg_base_issuer := "https://idp"; cfg_access_token_ttl := 900; cfg_management_token_ttl := 300;
  cfg_id_token_ttl := 3600; cfg_refresh_token_ttl := 2592000 |}.
Definition toy_now : DateTime := seconds 1000.
Definition toy_ctx : RequestContext := {|
  ctx_correlation_id := "c"; ctx_ip_address := None; ctx_user_agent := None |}.
Definition toy_tenant : Tenant := {|
  t_id := 1%N; t_parent_tenant_id := None; t_name := "root"; t_status := TenantActive;
  t_self_registration_enabled := false; t_email_login_enabled := false;
  t_created_at := 0; t_updated_at := 0 |}.
Definition toy_user : User := {|
  u_id := 7%N; u_tenant_id := 1%N; u_sub := 70%N; u_email := "a@example.com";
  u_email_verified := true; u_preferred_username := None; u_name := None; u_language := None;
  u_theme := None; u_password_hash := ""; u_must_change_password := false;
  u_password_changed_at := None; u_status := UserActive; u_pending_setup := false;
  u_failed_login_count := 0; u_locked_until := None; u_created_at := 0; u_updated_at := 0 |}.
Definition toy_client : Client := {|
  c_id := 3%N; c_tenant_id := 1%N; c_client_id := "app"; c_client_secret_hash := None;
  c_client_type := ClientPublic; c_client_status := ClientActive; c_app_name := "App";
  c_redirect_uris := ["https://app/cb"]; c_grant_types := ["authorization_code"; "refresh_token"];
  c_response_types := ["code"]; c_scopes := ["openid"; "offline_access"];
  c_token_endpoint_auth_method := AuthNone; c_jwks := None; c_post_logout_redirect_uris := [];
  c_frontchannel_logout_uri := None; c_backchannel_logout_uri := None;
  c_created_at := 0; c_updated_at := 0 |}.
Definition toy_jwk : Jwk := {|
  jwk_kty := "EC"; jwk_use := "sig"; jwk_kid := "k1"; jwk_alg := "ES256"; jwk_n := None;
  jwk_e := None; jwk_crv := Some "P-256"; jwk_x := Some "x"; jwk_y := Some "y" |}.
(** A service account that signs assertions. *)
Definition toy_batch : Client := {|
  c_id := 4%N; c_tenant_id := 1%N; c_client_id := "batch"; c_client_secret_hash := None;
  c_client_type := ClientConfidential; c_client_status := ClientActive; c_app_name := "Batch";
  c_redirect_uris := []; c_grant_types := ["client_credentials"];
  c_response_types := []; c_scopes := ["jobs:run"; "openid"];
  c_token_endpoint_auth_method := AuthPrivateKeyJwt; c_jwks := Some {| cj_keys := [toy_jwk] |};
  c_post_logout_redirect_uris := []; c_frontchannel_logout_uri := None;
  c_backchannel_logout_uri := None; c_created_at := 0; c_updated_at := 0 |}.

Definition toy_verifier : string := "0123456789012345678901234567890123456789012".
Definition toy_authentication : Authentication := {|
  au_user_id := 7%N; au_auth_time := seconds 990; au_sso_sid := Some "sid";
  au_methods := Some [Password] |}.
Definition toy_code : AuthorizationCode := {|
  ac_hash := {| code_hash_value := "code" |}; ac_tenant_id := 1%N;
  ac_grant := {| cg_client_id := "app"; cg_redirect_uri := "https://app/cb";
                 cg_scope := ["openid"; "offline_access"]; cg_nonce := "n";
                 cg_pkce := {| pk_challenge := toy_verifier; pk_method := S256 |} |};
  ac_auth := toy_authentication; ac_expires_at := seconds 1060; ac_used_at := None;
  ac_created_at := seconds 1000; ac_updated_at := seconds 1000 |}.
Definition toy_refresh : RefreshToken := {|
  rt_token_hash := "rt"; rt_parent_hash := None; rt_grant_hash := Some "grant";
  rt_tenant_id := 1%N; rt_user_id := 7%N; rt_client_id := "app";
  rt_scope := ["openid"; "offline_access"]; rt_sid := Some "sid";
  rt_methods := Some [Password]; rt_auth_time := Some (seconds 990);
  rt_dpop_jkt := None; rt_expires_at := seconds 9000; rt_revoked_at := None;
  rt_created_at := seconds 995 |}.

Definition toy_signin : SignInTables := {|
  si_sessions := []; si_sso := {| st_rows := []; st_contexts := [] |}; si_consents := []; si_devices := []; si_auths := [] |}.
Definition toy_tenancy : Tenancy := {|
  tn_memberships := [new_home 1%N 7%N 0]; tn_policies := [];
  tn_default_effect := fun _ => DefaultAllow;
  tn_sso_lifetime := fun _ => {| sl_idle := seconds 1800; sl_absolute := seconds 43200;
                                 sl_bound := seconds 2592000 |};
  tn_lockout := fun _ => {| lk_max_failed_attempts := 10; lk_lock_duration_secs := 900;
                            lk_max_lock_duration_secs := 3600 |};
  tn_registered_device_required := fun _ => false;
  tn_password_policy := fun _ => password_policy_default; tn_identifiers := []; tn_domains := [] |}.

Definition toy_db : Database := {|
  db_codes := [toy_code]; db_refresh := [toy_refresh]; db_dpop := []; db_jtis := [];
  db_clients := [toy_client; toy_batch]; db_users := [toy_user]; db_tenants := [toy_tenant];
  db_resources := []; db_applications := []; db_bindings := []; db_assignments := [];
  db_permissions := []; db_enforcement := fun _ => AssignmentEnforce; db_audit := []; db_usage := [];
  db_signin := toy_signin; db_tenancy := toy_tenancy |}.
Definition toy_world : World := {|
  w_db := toy_db; w_clock := toy_now; w_db_clock := toy_now;
  w_signing_key := Ok {| sk_kid := "k"; sk_algorithm := "ES256"; sk_private_pem := "pem" |};
  w_faults := []; w_tokens n := "token-" ++ pretty n; w_tokens_drawn := 0;
  w_uuids n := N.of_nat n; w_uuids_drawn := 0;
  w_alerts := []; w_limiter := toy_limiter; w_hash_work := 0; w_dummy := None |}.

Definition toy_credentials : PresentedClientCredentials := {|
  pr_basic := None; pr_body_client_id := Some "app"; pr_body_client_secret := None;
  pr_client_assertion := None; pr_client_assertion_type := None |}.
Definition toy_code_command : TokenCommand := {|
  cmd_grant_type := Some "authorization_code"; cmd_code := Some "code";
  cmd_redirect_uri := Some "https://app/cb"; cmd_code_verifier := Some toy_verifier;
  cmd_credentials := toy_credentials; cmd_refresh_token := None; cmd_scope := None;
  cmd_resource := None; cmd_dpop_proof := None |}.
Definition toy_refresh_command : TokenCommand := {|
  cmd_grant_type := Some "refresh_token"; cmd_code := None; cmd_redirect_uri := None;
  cmd_code_verifier := None; cmd_credentials := toy_credentials;
  cmd_refresh_token := Some "rt"; cmd_scope := None; cmd_resource := None;
  cmd_dpop_proof := None |}.
Definition toy_proof : string := toy_key ++ ".j1.s".
Definition toy_dpop_command : TokenCommand := {|
  cmd_grant_type := Some "refresh_token"; cmd_code := None; cmd_redirect_uri := None;
  cmd_code_verifier := None; cmd_credentials := toy_credentials;
  cmd_refresh_token := Some "rt"; cmd_scope := None; cmd_resource := None;
  cmd_dpop_proof := Some toy_proof |}.
Definition toy_batch_credentials : PresentedClientCredentials := {|
  pr_basic := None; pr_body_client_id := Some "batch"; pr_body_client_secret := None;
  pr_client_assertion := Some "k1.j1.s";
  pr_client_assertion_type := Some JWT_BEARER_ASSERTION_TYPE |}.
Definition toy_batch_command : TokenCommand := {|
  cmd_grant_type := Some "client_credentials"; cmd_code := None; cmd_redirect_uri := None;
  cmd_code_verifier := None; cmd_credentials := toy_batch_credentials;
  cmd_refresh_token := None; cmd_scope := None; cmd_resource := None; cmd_dpop_proof := None |}.

Definition toy_context : TenantContext := {| tc_tenant_id := 1%N |}.
Definition toy_exchange (cmd : TokenCommand) : Prog (Result TokenError IssuedTokens) :=
  exchange toy_config toy_context cmd toy_ctx.
Definition toy_tokens (bound : bool) : IssuedTokens := {|
  tk_access_token := "at+jwt:70:https://idp/1/userinfo"; tk_id_token := Some "JWT:70:app";
  tk_expires_in := 900; tk_scope := "openid offline_access";
  tk_refresh_token := Some "token-0"; tk_bound_to_key := bound |}.
Definition toy_machine_tokens : IssuedTokens := {|
  tk_access_token := "at+jwt:batch:https://idp/1/userinfo"; tk_id_token := None;
  tk_expires_in := 900; tk_scope := "jobs:run"; tk_refresh_token := None;
  tk_bound_to_key := false |}.
Lemma toy_codes_keyed : NoDup (ac_hash <$> db_codes (w_db toy_world)).
Proof. by apply (bool_decide_unpack _); vm_compute. Qed.
(** A request served alone. *)
Definition toy_after (cmd : TokenCommand) : World := (run (toy_exchange cmd) toy_world).2.
Lemma toy_run cmd r :
  (run (toy_exchange cmd) toy_world).1 = r -> run (toy_exchange cmd) toy_world = (r, toy_after cmd).
Proof. intros <-. apply surjective_pairing. Qed.
