(* ===== verification/CredentialTheorems.v ===== *)
(** * What an accepted credential proves

    Client credentials, client assertions and DPoP proofs: what each check has
    established when it accepts. *)

From S2P Require Import Prelude Values External AuditLog Directory Application ClientJwks Client.
From S2P Require Import Dpop ClientAssertion ClientAuth Effects TokenService Example.

(** C31: The registration decides how a client authenticates.  A credential is
    selected only from where the client's registration says: nothing is asked of a
    public client alone; a secret comes from the header under
    [client_secret_basic] and from the body under [client_secret_post], of a client
    that has one; an assertion is used only under [private_key_jwt], with registered
    keys.  A client cannot be talked into a weaker method. *)
Theorem credential_follows_registration p c credential :
  select p c = Ok credential ->
  match credential with
  | CredentialNotRequired => c_client_type c = ClientPublic
  | CredentialSecret s =>
      c_client_type c = ClientConfidential /\ is_Some (c_client_secret_hash c)
      /\ ((c_token_endpoint_auth_method c = AuthClientSecretBasic
           /\ exists i, pr_basic p = Some (i, s))
          \/ (c_token_endpoint_auth_method c = AuthClientSecretPost
              /\ pr_body_client_secret p = Some s /\ s <> ""))
  | CredentialAssertion a ty =>
      uses_private_key_jwt c = true /\ is_Some (c_jwks c)
      /\ pr_client_assertion p = Some a /\ ty = pr_client_assertion_type p
  end.
Proof.
  destruct credential; [apply select_NotRequired | apply select_Secret | apply select_Assertion].
Qed.

Section credentials.
Context {HS : Hashing} {JO : Jose} {DJ : DpopJose} {UC : UrlCrate} {AJ : AssertionJose}.

(** C32: Which DPoP proofs verify, and as what.  [verify_proof] accepts a proof exactly
    when it has three segments, of which the first decodes to a header of type
    [dpop+jwt] (in any case) that names ES256 and holds a public P-256 key ([kty], [crv],
    two 32-byte coordinates, no private part); the JWS library finds the proof signed
    with ES256 under that very key and reads claims from it; the claims have a [jti] of
    1 to 256 bytes, the request's method and URI, an [iat] at most 120 seconds ago and
    at most 60 seconds ahead, and, where a token is presented, its hash.  What it then
    returns is that [jti], that time and that key's thumbprint. *)
Theorem verified_proof_sound proof expected p :
  verify_proof proof expected = Ok p <->
  exists header jwk key dk claims,
    header_accepted proof header jwk key
    /\ from_ec_components (p256_x key) (p256_y key) = Some dk
    /\ decode_proof proof dk = Some claims /\ claims_accepted key claims expected p.
Proof.
  unfold verify_proof. split.
  - destruct (split_on "." proof) as [|hs [|s2 [|s3 [|]]]] eqn:Es; try done.
    destruct (base64url_decode hs ≫= proof_header_from_json) as [header|] eqn:Eh; [|done].
    destruct (ph_typ header) as [typ|] eqn:Et; [|done]. cbn [is_some_and].
    destruct (eq_ignore_ascii_case typ PROOF_TYPE) eqn:Ety; [|done]. cbn [negb].
    case_bool_decide as Ha; [|done]. cbn [negb].
    destruct (ph_jwk header) as [jwk|] eqn:Ej; [|done]. cbn [mbind option_bind].
    destruct (p256_from_jwk jwk) as [key|] eqn:Ek; [|done]. apply p256_from_jwk_iff in Ek.
    destruct (from_ec_components _ _) as [dk|] eqn:Ed; [|done].
    destruct (decode_proof proof dk) as [claims|] eqn:Ec; [|done].
    intros Hp%check_claims_iff. exists header, jwk, key, dk, claims. split; [|done].
    split; [by exists hs, s2, s3|by exists typ|done..].
  - intros (header & jwk & key & dk & claims & [(hs & s2 & s3 & -> & ->) (typ & Ht & Hty) Ha Hj Hk] & Hd & Hc & Hp).
    rewrite Ht. cbn [is_some_and]. rewrite Hty, Ha, Hj, bool_decide_true by done. cbn [negb mbind option_bind].
    apply p256_from_jwk_iff in Hk as ->. rewrite Hd, Hc. by apply check_claims_iff.
Qed.
(** C33: A client assertion that verifies.  It is of the JWT bearer type, signed
    with the client's registered key its [kid] selects, under that key's own
    algorithm; issuer and subject are the client; its audience is one of those
    accepted; it has a [jti]; and it expires at most five minutes ahead and, up to the
    clock leeway, has not expired. *)
Theorem verified_assertion_sound ty assertion client_id jwks auds now v :
  verify_client_assertion ty assertion client_id jwks auds now = Some (Ok v) ->
  exists kid jwk key alg claims,
    ty = Some JWT_BEARER_ASSERTION_TYPE /\ assertion_header_kid assertion = Some kid
    /\ select_key jwks kid = Some jwk /\ jwk ∈ cj_keys jwks
    /\ decoding_key_from_jwk jwk = Some key /\ as_str alg = jwk_alg jwk
    /\ decode_assertion assertion key alg = Ok claims
    /\ cl_iss claims = client_id /\ cl_sub claims = client_id
    /\ (exists a, a ∈ auds /\ audience_contains (cl_aud claims) a = true)
    /\ cl_jti claims = Some (va_jti v) /\ va_jti v <> ""
    /\ va_expires_at v = seconds (cl_exp claims)
    /\ (now - CLOCK_SKEW_LEEWAY <= va_expires_at v
        <= now + MAX_ASSERTION_LIFETIME + CLOCK_SKEW_LEEWAY)%Z.
Proof.
  intros H. apply verify_client_assertion_Ok in H.
  destruct H as (kid & jwk & key & alg & claims & Ht & Hk & Hs & Hd & Ha & Hc & H).
  apply check_assertion_claims_Ok in H. pose proof (select_key_elem _ _ _ Hs).
  exists kid, jwk, key, alg, claims. naive_solver.
Qed.

(** *** Tenants *)
Definition slash_free (s : string) : Prop :=
  str_forallb (fun c => negb (Ascii.eqb c "/")) s = true.
Lemma split_on_suffix x s :
  slash_free x -> s = "" \/ s = "/token" ->
  exists rest, split_on "/" (x ++ s) = x :: rest.
Proof.
  intros Hx [->| ->].
  - rewrite str_app_nil_r. exists []. by apply split_on_free.
  - eexists. change "/token" with (String "/" "token"). by apply split_on_app.
Qed.
Lemma accepted_audience_tenant base t t' a :
  (forall u u', uuid_to_string u = uuid_to_string u' -> u = u') ->
  (forall u, slash_free (uuid_to_string u)) ->
  a ∈ accepted_audiences base t -> a ∈ accepted_audiences base t' -> t = t'.
Proof.
  intros Hinj Hfree Ha Ha'. apply Hinj.
  assert (forall t, a ∈ accepted_audiences base t ->
            exists s, a = (base ++ "/" ++ (uuid_to_string t ++ s))%string /\ (s = "" \/ s = "/token"))
    as Hshape.
  { intros u. unfold accepted_audiences, tenant_issuer.
    rewrite !elem_of_cons, elem_of_nil. intros [->|[->|[]]].
    - exists "/token". rewrite !str_app_assoc. auto.
    - exists "". rewrite str_app_nil_r. auto. }
  destruct (Hshape _ Ha) as (s & E & Hs). destruct (Hshape _ Ha') as (s' & E' & Hs').
  rewrite E in E'. apply str_app_inv_l in E'. apply str_app_inv_l in E'.
  destruct (split_on_suffix _ s (Hfree t) Hs) as (r & H1).
  destruct (split_on_suffix _ s' (Hfree t') Hs') as (r' & H2).
  rewrite E' in H1. congruence.
Qed.
(** A client assertion is good for one tenant and one client.  Tenants have
    different issuers, and UUIDs print injectively and without a slash; so an
    assertion addressed to one audience is never accepted for two tenants, nor for
    two clients. *)
Theorem assertion_bound_to_tenant base t t' claims aud client_id client_id' now now' v v' :
  (forall u u', uuid_to_string u = uuid_to_string u' -> u = u') ->
  (forall u, slash_free (uuid_to_string u)) ->
  cl_aud claims = One aud ->
  check_assertion_claims claims client_id (accepted_audiences base t) now = Some (Ok v) ->
  check_assertion_claims claims client_id' (accepted_audiences base t') now' = Some (Ok v') ->
  t = t' /\ client_id = client_id'.
Proof.
  intros Hinj Hfree Haud H H'. apply check_assertion_claims_Ok in H, H'.
  destruct H as (Hi & _ & (a & Ha & Hc) & _). destruct H' as (Hi' & _ & (a' & Ha' & Hc') & _).
  rewrite Haud in Hc, Hc'. cbn in Hc, Hc'. apply String.eqb_eq in Hc, Hc'. subst a a'.
  split; [by eapply accepted_audience_tenant | congruence].
Qed.
End credentials.

(** ** Witnesses *)
Lemma credential_follows_registration_witness :
  uses_private_key_jwt toy_batch = true /\ is_Some (c_jwks toy_batch)
  /\ pr_client_assertion toy_batch_credentials = Some "k1.j1.s"
  /\ Some JWT_BEARER_ASSERTION_TYPE = pr_client_assertion_type toy_batch_credentials.
Proof.
  apply (credential_follows_registration toy_batch_credentials toy_batch
           (CredentialAssertion "k1.j1.s" (Some JWT_BEARER_ASSERTION_TYPE))).
  reflexivity.
Defined.
Definition toy_expected : DpopProofRequirements := {|
  dr_method := "POST"; dr_uri := toy_endpoint; dr_access_token := None; dr_now := seconds 1010 |}.
Definition toy_proven : VerifiedDpopProof := {|
  vp_jkt := jwk_thumbprint_p256 toy_key toy_key; vp_jti := "j1"; vp_issued_at := seconds 1000 |}.
Lemma verified_proof_sound_witness :
  exists header jwk key dk claims,
    header_accepted toy_proof header jwk key
    /\ from_ec_components (p256_x key) (p256_y key) = Some dk
    /\ decode_proof toy_proof dk = Some claims /\ claims_accepted key claims toy_expected toy_proven.
Proof. apply (verified_proof_sound toy_proof toy_expected toy_proven). vm_compute. reflexivity. Defined.
Definition toy_assertion_verified : VerifiedClientAssertion := {|
  va_jti := "j1"; va_expires_at := seconds 1200; va_replay_guard_until := seconds 1260 |}.
Lemma verified_assertion_sound_witness :
  exists kid jwk key alg claims,
    Some JWT_BEARER_ASSERTION_TYPE = Some JWT_BEARER_ASSERTION_TYPE
    /\ assertion_header_kid "k1.j1.s" = Some kid
    /\ select_key {| cj_keys := [toy_jwk] |} kid = Some jwk
    /\ jwk ∈ cj_keys {| cj_keys := [toy_jwk] |}
    /\ decoding_key_from_jwk jwk = Some key /\ as_str alg = jwk_alg jwk
    /\ decode_assertion "k1.j1.s" key alg = Ok claims
    /\ cl_iss claims = "batch" /\ cl_sub claims = "batch"
    /\ (exists a, a ∈ accepted_audiences "https://idp" 1%N
                  /\ audience_contains (cl_aud claims) a = true)
    /\ cl_jti claims = Some (va_jti toy_assertion_verified) /\ va_jti toy_assertion_verified <> ""
    /\ va_expires_at toy_assertion_verified = seconds (cl_exp claims)
    /\ (seconds 1000 - CLOCK_SKEW_LEEWAY <= va_expires_at toy_assertion_verified
        <= seconds 1000 + MAX_ASSERTION_LIFETIME + CLOCK_SKEW_LEEWAY)%Z.
Proof.
  apply (verified_assertion_sound (Some JWT_BEARER_ASSERTION_TYPE) "k1.j1.s" "batch"
           {| cj_keys := [toy_jwk] |} (accepted_audiences "https://idp" 1%N) (seconds 1000)
           toy_assertion_verified).
  vm_compute. reflexivity.
Defined.

(** UUIDs printed in unary: injective, and plainly without a slash. *)
Fixpoint tally (n : nat) : string := match n with O => "" | S k => String "a" (tally k) end.
Definition tally_hashing : Hashing := {|
  sha256_hex s := s; sha256_base64url s := s; base64url_decode s := Some s;
  uuid_to_string u := tally (N.to_nat u) |}.
Lemma tally_inj n m : tally n = tally m -> n = m.
Proof. revert m. induction n as [|n IH]; intros [|m]; cbn; try done. intros [= E]. f_equal. auto. Qed.
Lemma tally_free n : slash_free (tally n).
Proof. induction n as [|n IH]; [done|]. cbn. exact IH. Qed.
Definition tally_claims : AssertionClaims := {|
  cl_iss := "batch"; cl_sub := "batch"; cl_aud := One "https://idp/a/token"; cl_exp := 1200%Z;
  cl_jti := Some "j1" |}.
Lemma assertion_bound_to_tenant_witness : 1%N = 1%N /\ "batch" = "batch".
Proof.
  apply (assertion_bound_to_tenant (HS := tally_hashing) "https://idp" 1%N 1%N tally_claims
           "https://idp/a/token" "batch" "batch" (seconds 1000) (seconds 1100)
           toy_assertion_verified toy_assertion_verified).
  - intros u u' E. apply N2Nat.inj, tally_inj, E.
  - intros u. apply tally_free.
  - reflexivity.
  - vm_compute. reflexivity.
  - vm_compute. reflexivity.
Defined.
