(* ===== verification/AccessTheorems.v ===== *)
(** * The application gate ([ApplicationAccessService])

    [check] and [check_saml] against [may_use]: under any failures a denial is
    right, without failures so is an admission, and a refusal is always audited. *)

From S2P Require Import Prelude Values External AuditLog Directory Application Client Effects.
From S2P Require Import AccessGate ProgLogic OneShots Frames Paths TokenPaths TokenSteps Example.

Section gate.
Context {HS : Hashing} {CO : Collation}.

Lemma run_audit_calm et r t u c m ctx w :
  calm w -> exists e, run (record_audit et r t u c m ctx) w
    = (Some tt, with_db w (set_logs (w_db w) (db_audit (w_db w) ++ [e])%list (db_usage (w_db w))))
    /\ e = audit_event et r t u c m ctx (w_clock w).
Proof.
  intros Hc. eexists. split; [|reflexivity]. unfold record_audit. rewrite run_bind.
  cbn [run perform step]. rewrite run_bind, run_sql_calm by done. reflexivity.
Qed.

(** What a decision rests on: the application, and whether the user is assigned. *)
Definition gate_right (w : World) (t : TenantId) (application : option Application) (u : Uuid)
  (g : ApplicationGate) : Prop :=
  (gate_is_allowed g = false -> may_use (w_db w) t application u = false)
  /\ (calm w -> gate_is_allowed g = may_use (w_db w) t application u).

Lemma may_use_eq d d' t a u :
  directory d' = directory d -> may_use d' t a u = may_use d t a u.
Proof.
  intros E. unfold may_use, applications_is_assigned. injection E as _ _ _ _ _ -> _ -> _. done.
Qed.
Lemma run_refuse_access t a access party u ctx w g w' :
  run (refuse_access t a access party u ctx) w = (Some g, w') ->
  (gate_is_allowed g = false -> db_enforcement (w_db w) t = AssignmentEnforce)
  /\ (calm w -> gate_is_allowed g = negb (bool_decide (db_enforcement (w_db w) t = AssignmentEnforce))).
Proof.
  unfold refuse_access. intros H. apply run_do in H. destruct H as (r & w1 & Hs & H).
  apply run_do in H. destruct H as ([] & w2 & _ & H).
  assert (calm w -> r = Ok (db_enforcement (w_db w) t)) as Hr.
  { intros Hc. rewrite run_sql_calm in Hs by done. by injection Hs as <- _. }
  assert (forall e, r = Ok e -> db_enforcement (w_db w) t = e) as Hr'.
  { intros e ->. apply run_sql_Ok in Hs. by injection Hs. }
  destruct r as [e|er]; case_bool_decide as He; injection H as <- _; cbn [gate_is_allowed].
  - split; [intros _; rewrite (Hr' e) by done; done|].
    intros Hc. rewrite (Hr' e) by done. by rewrite bool_decide_true.
  - split; [done|]. intros Hc. rewrite (Hr' e) by done. by rewrite bool_decide_false.
  - done.
  - split; [done|]. intros Hc. by specialize (Hr Hc).
Qed.
Lemma run_judge t r party u ctx w g w' :
  run (judge t r party u ctx) w = (Some g, w') ->
  match r with
  | Ok application => gate_right w t application u g
  | Err _ => gate_is_allowed g = true
  end.
Proof.
  unfold judge. destruct r as [[a|]|]; [|by intros [= <- _]|by intros [= <- _]].
  intros H. apply run_do in H. destruct H as (assigned & w1 & Ha & H).
  destruct assigned as [b|e].
  2: { injection H as <- _. split; [done|]. intros Hc.
       destruct (needs_assignment_lookup a); [rewrite run_sql_calm in Ha by done|]; done. }
  assert (admits a b = admits a (applications_is_assigned (w_db w) (app_id a) u)) as Hb.
  { destruct (needs_assignment_lookup a) eqn:En; [|by apply admits_without_lookup].
    apply run_sql_Ok in Ha. injection Ha as <- _. done. }
  assert (fixtures (w_db w1) = fixtures (w_db w)) as Hd by by eapply run_fixtures.
  unfold gate_right, may_use. rewrite <- Hb.
  destruct (access_is_allowed (admits a b)); [injection H as <- _; by split|].
  pose proof (run_refuse_access _ _ _ _ _ _ _ _ _ H) as [H1 H2].
  assert (db_enforcement (w_db w1) t = db_enforcement (w_db w) t) as He
    by (by injection Hd as _ _ _ _ _ _ _ ->).
  rewrite He in H1, H2. cbn [orb]. split.
  - intros Hg. by rewrite H1.
  - intros Hc. apply H2. by eapply run_calm.
Qed.

Lemma run_check t client_id u ctx w g w' :
  run (check t client_id u ctx) w = (Some g, w') ->
  gate_right w t (applications_find_by_oidc_client_id (w_db w) t client_id) u g.
Proof.
  unfold check, resolve_for_oidc_client. intros H. apply run_do in H.
  destruct H as (r & w1 & Hs & H).
  assert (untouched w w1) as U by (eapply run_light; [|exact Hs]; by apply always_sql).
  apply run_judge in H. destruct r as [application|e].
  - pose proof (run_sql_Ok _ _ _ _ Hs) as Ha. injection Ha as -> _.
    destruct H as [H1 H2]. rewrite (may_use_eq _ _ _ _ _ (un_directory _ _ U)) in *.
    split; [done|]. intros Hc. apply H2. by eapply run_calm.
  - split; [congruence|]. intros Hc. rewrite run_sql_calm in Hs by done. done.
Qed.
(** C30: The gate of an OIDC client decides right.  Whatever fails, a user it
    turns away is one the directory does not admit, in a tenant that enforces
    assignments; when nothing fails it also lets through nobody else: the answer
    is [may_use] of the application bound to the client. *)
Theorem application_gate_correct t client_id u ctx w g w' :
  run (check t client_id u ctx) w = (Some g, w') ->
  gate_right w t (applications_find_by_oidc_client_id (w_db w) t client_id) u g.
Proof. apply run_check. Qed.
(** The gate of a SAML service provider decides right, as the OIDC one does. *)
Theorem saml_gate_correct t sp_id entity_id u ctx w g w' :
  run (check_saml t sp_id entity_id u ctx) w = (Some g, w') ->
  gate_right w t (applications_find_by_binding_target (w_db w) t (BindSaml sp_id)) u g.
Proof.
  unfold check_saml, resolve_for_saml_service_provider. intros H. apply run_do in H.
  destruct H as (r & w1 & Hs & H).
  assert (untouched w w1) as U by (eapply run_light; [|exact Hs]; by apply always_sql).
  apply run_judge in H. destruct r as [application|e].
  - pose proof (run_sql_Ok _ _ _ _ Hs) as Ha. injection Ha as -> _.
    destruct H as [H1 H2]. rewrite (may_use_eq _ _ _ _ _ (un_directory _ _ U)) in *.
    split; [done|]. intros Hc. apply H2. by eapply run_calm.
  - split; [congruence|]. intros Hc. rewrite run_sql_calm in Hs by done. done.
Qed.

Lemma run_refuse_access_audits t a access party u ctx w :
  calm w -> exists e g w', run (refuse_access t a access party u ctx) w = (Some g, w')
    /\ db_audit (w_db w') = (db_audit (w_db w) ++ [e])%list
    /\ ev_type e = ApplicationAccessDenied /\ ev_user_id e = Some u /\ ev_client_id e = Some party
    /\ ev_result e = if gate_is_allowed g then AuditSuccess else AuditFailure.
Proof.
  intros Hc. unfold refuse_access. rewrite run_bind, run_sql_calm by done. cbn [exec fst snd].
  rewrite run_bind.
  destruct (run_audit_calm ApplicationAccessDenied
    (if bool_decide (db_enforcement (w_db w) t = AssignmentEnforce) then AuditFailure
     else AuditSuccess) (Some t) (Some u) (Some party)
    (Some ("application=" ++ uuid_to_string (app_id a) ++ " reason=" ++ access_reason access
           ++ " enforcement=" ++ as_str (db_enforcement (w_db w) t))%string) ctx
    (with_db w (w_db w)) Hc) as (e & -> & ->).
  case_bool_decide; eexists _, _, _; (split; [reflexivity | done]).
Qed.
(** A refusal leaves a trace.  When nothing fails, a user whom the
    application does not admit costs exactly one audit line naming the user and
    the client: a failure when the tenant enforces assignments and the user is
    turned away, a success when it only records. *)
Theorem application_refusal_audited t client_id u ctx w a :
  calm w -> applications_find_by_oidc_client_id (w_db w) t client_id = Some a ->
  admits a (applications_is_assigned (w_db w) (app_id a) u) <> AccessAllowed ->
  exists e g w', run (check t client_id u ctx) w = (Some g, w')
    /\ db_audit (w_db w') = (db_audit (w_db w) ++ [e])%list
    /\ ev_type e = ApplicationAccessDenied /\ ev_user_id e = Some u
    /\ ev_client_id e = Some client_id
    /\ ev_result e = if gate_is_allowed g then AuditSuccess else AuditFailure.
Proof.
  intros Hc Ha Hd. unfold check, resolve_for_oidc_client.
  rewrite run_bind, run_sql_calm by done. cbn [exec fst snd]. rewrite Ha. cbn [judge].
  set (w1 := with_db w (w_db w)).
  assert (exists b, run (if needs_assignment_lookup a
                         then sql (ApplicationsIsAssigned (app_id a) u) else Ret (Ok false)) w1
                    = (Some (Ok b), w1) /\ admits a b <> AccessAllowed) as (b & Hb & Hn).
  { destruct (needs_assignment_lookup a) eqn:En.
    - rewrite run_sql_calm by done. by eexists.
    - exists false. split; [done|]. by rewrite (admits_without_lookup a false (applications_is_assigned (w_db w) (app_id a) u) En). }
  rewrite run_bind, Hb.
  assert (access_is_allowed (admits a b) = false) as ->.
  { revert Hn. by destruct (admits a b). }
  exact (run_refuse_access_audits t a _ client_id u ctx w1 Hc).
Qed.
End gate.

(** ** Witnesses: an application the toy user is not assigned to *)
Definition toy_app : Application := {|
  app_id := 20%N; app_tenant_id := 1%N; app_display_name := "App"; app_status := ApplicationActive;
  app_assignment_mode := AssignIndividual; app_created_at := 0; app_updated_at := 0 |}.
(** The toy deployment, with an application bound to the client. *)
Definition gated_db : Database := {|
  db_codes := [toy_code]; db_refresh := [toy_refresh]; db_dpop := []; db_jtis := [];
  db_clients := [toy_client; toy_batch]; db_users := [toy_user]; db_tenants := [toy_tenant];
  db_resources := []; db_applications := [toy_app];
  db_bindings := [{| ab_application_id := 20%N; ab_target := BindOidc 3%N |};
                  {| ab_application_id := 20%N; ab_target := BindSaml 5%N |}];
  db_assignments := []; db_permissions := []; db_enforcement := fun _ => AssignmentEnforce;
  db_audit := []; db_usage := [];
  db_signin := toy_signin; db_tenancy := toy_tenancy |}.
Definition gated_world : World := with_db toy_world gated_db.
Definition toy_gate := run (check 1%N "app" 7%N toy_ctx) gated_world.
Definition toy_saml_gate := run (check_saml 1%N 5%N "urn:sp" 7%N toy_ctx) gated_world.

Lemma application_gate_correct_witness :
  gate_right gated_world 1%N
    (applications_find_by_oidc_client_id (w_db gated_world) 1%N "app") 7%N
    (GateDenied "App" AccessNotAssigned).
Proof.
  apply (application_gate_correct 1%N "app" 7%N toy_ctx gated_world
           (GateDenied "App" AccessNotAssigned) toy_gate.2).
  unfold toy_gate. vm_compute. reflexivity.
Defined.
Lemma saml_gate_correct_witness :
  gate_right gated_world 1%N
    (applications_find_by_binding_target (w_db gated_world) 1%N (BindSaml 5%N)) 7%N
    (GateDenied "App" AccessNotAssigned).
Proof.
  apply (saml_gate_correct 1%N 5%N "urn:sp" 7%N toy_ctx gated_world
           (GateDenied "App" AccessNotAssigned) toy_saml_gate.2).
  unfold toy_saml_gate. vm_compute. reflexivity.
Defined.
Lemma application_refusal_audited_witness :
  exists e g w', run (check 1%N "app" 7%N toy_ctx) gated_world = (Some g, w')
    /\ db_audit (w_db w') = (db_audit (w_db gated_world) ++ [e])%list
    /\ ev_type e = ApplicationAccessDenied /\ ev_user_id e = Some 7%N
    /\ ev_client_id e = Some "app"
    /\ ev_result e = if gate_is_allowed g then AuditSuccess else AuditFailure.
Proof.
  apply (application_refusal_audited 1%N "app" 7%N toy_ctx gated_world toy_app);
    [reflexivity | vm_compute; reflexivity | vm_compute; discriminate].
Defined.
