(* ===== verification/SignInSteps.v ===== *)
(** * The checks on the way to a code, one at a time

    What each program of [SignInGates] has established when it answers, whatever
    failed on the way, and what it leaves alone.  [quiet] programs write no code,
    token, user or consent. *)

From S2P Require Import Prelude Values ResponseMode External AuditLog Directory Application Client.
From S2P Require Import AuthenticationPolicy AuthorizationRequest AuthSession AuthSessionStore.
From S2P Require Import AuthorizationCode SsoSession SessionKey Membership Consent SignInStore.
From S2P Require Import Effects AccessGate SignInGates ProgLogic OneShots Frames Paths AccessTheorems.

(** ** Quiet programs *)
Definition quiet : StmtProp := fun A s => light A s /\ sign_in_prop keeps_consents A s.
Notation is_quiet := (always (sql_prop quiet)) (only parsing).
Lemma light_of_quiet {A} (p : Prog A) : is_quiet p -> always (sql_prop light) p.
Proof. apply sql_prop_weaken. by intros B s [? _]. Qed.
Lemma keeps_consents_of_quiet {A} (p : Prog A) :
  is_quiet p -> always (sql_prop (sign_in_prop keeps_consents)) p.
Proof. apply sql_prop_weaken. by intros B s [_ ?]. Qed.
#[export] Hint Extern 0 (quiet _ _) => (repeat split) : prog.
#[export] Hint Extern 0 (sign_in_prop _ _ _) => exact I : prog.
#[export] Hint Extern 2 (always (sql_prop light) _) =>
  (apply light_of_quiet; solve [auto with prog]) : prog.
#[export] Hint Extern 1 (always (sql_prop (sign_in_prop keeps_consents)) _) =>
  (apply keeps_consents_of_quiet; solve [auto with prog]) : prog.

Record still (w w' : World) : Prop := {
  st_untouched : untouched w w';
  st_consents : si_consents (db_signin (w_db w')) = si_consents (db_signin (w_db w))
}.
#[export] Instance still_preorder : PreOrder still.
Proof.
  split; [by intros w; split|]. intros w1 w2 w3 [] []. split; by etransitivity.
Qed.
Lemma still_clock w w' : still w w' -> w_clock w' = w_clock w.
Proof. intros [H _]. by apply untouched_clock. Qed.
Lemma still_directory w w' : still w w' -> directory (w_db w') = directory (w_db w).
Proof. intros [H _]. apply H. Qed.

Section quiet_programs.
Context {HS : Hashing}.
Lemma quiet_audit et r t u c m ctx : is_quiet (record_audit et r t u c m ctx).
Proof. unfold record_audit. prog_always. Qed.
Hint Resolve quiet_audit : prog.
Lemma quiet_check t c u ctx : is_quiet (check t c u ctx).
Proof. unfold check, resolve_for_oidc_client, judge, refuse_access. prog_always. Qed.
Lemma quiet_decide_policy q : is_quiet (decide_policy q).
Proof. unfold decide_policy, policy_target_for_oidc_client, resolve_for_oidc_client. prog_always. Qed.
Lemma quiet_try_resume t sid ctx : is_quiet (try_resume t sid ctx).
Proof. unfold try_resume. prog_always. Qed.
Lemma quiet_consent t u rq : is_quiet (consent_is_granted t u rq).
Proof. unfold consent_is_granted. prog_always. Qed.
End quiet_programs.
#[export] Hint Resolve quiet_audit quiet_check quiet_decide_policy quiet_try_resume quiet_consent : prog.

Section steps.
Context {HS : Hashing} {CO : Collation}.

Lemma run_quiet {A} (p : Prog A) w r w' : is_quiet p -> run p w = (r, w') -> still w w'.
Proof.
  intros Hp E. split.
  - eapply run_light; [by apply light_of_quiet | exact E].
  - eapply run_keeps_consents; [by apply keeps_consents_of_quiet | exact E].
Qed.
Lemma run_sql_quiet {A} (s : Stmt A) w r w' : quiet A s -> run (sql s) w = (r, w') -> still w w'.
Proof. intros Hs. apply run_quiet. by apply always_sql. Qed.

(** ** The policy *)
Definition policy_application (d : Database) (q : PolicyQuery) : option Uuid :=
  match pq_audience q with
  | OidcClient client_id =>
      app_id <$> applications_find_by_oidc_client_id d (pq_tenant_id q) client_id
  | Unaddressed => None
  end.
Definition policy_decision (d : Database) (q : PolicyQuery) : PolicyDecision :=
  evaluate_policies (policies_list_enabled d (pq_tenant_id q))
    (policy_context q (policy_application d q))
    (tn_default_effect (db_tenancy d) (pq_tenant_id q)).
Lemma policy_decision_eq d d' q :
  directory d' = directory d -> policy_decision d' q = policy_decision d q.
Proof.
  intros E. unfold policy_decision, policy_application, policies_list_enabled.
  destruct (pq_audience q) as [c|]; [rewrite (applications_oidc_eq _ _ _ _ E)|];
    injection E as _ _ _ _ _ _ _ _ -> _; done.
Qed.
Lemma run_decide_policy q w decision w' :
  run (decide_policy q) w = (Some (Ok decision), w') ->
  still w w' /\ decision = policy_decision (w_db w) q.
Proof.
  intros H. split; [eapply run_quiet; [apply quiet_decide_policy | exact H]|].
  unfold decide_policy in H. apply run_try in H. destruct H as (application_id & w1 & Ha & H).
  assert (still w w1 /\ application_id = policy_application (w_db w) q) as [S1 ->].
  { unfold policy_application. destruct (pq_audience q) as [c|].
    - unfold policy_target_for_oidc_client, resolve_for_oidc_client in Ha.
      apply run_do in Ha. destruct Ha as ([x|] & w1' & Hs & Ha); [|done]. injection Ha as <- <-.
      split; [by eapply run_sql_quiet; [|exact Hs]|].
      apply run_sql_Ok in Hs. by injection Hs as <- _.
    - by injection Ha as <- <-. }
  apply run_try in H. destruct H as (effect & w2 & He & H).
  apply run_try in H. destruct H as (policies & w3 & Hp & H). injection H as <- <-.
  assert (still w1 w2) as S2 by by eapply run_sql_quiet; [|exact He].
  pose proof (still_directory _ _ S1) as D1. pose proof (still_directory _ _ S2) as D2.
  apply run_sql_Ok in He, Hp. injection He as <- _. injection Hp as <- _.
  unfold policy_decision, policies_list_enabled.
  injection D1 as _ _ _ _ _ _ _ _ E1 _. injection D2 as _ _ _ _ _ _ _ _ E2 _. by rewrite E2, E1.
Qed.

(** ** The SSO session *)
(** The browser's SSO session [sid] is [s]: known, neither idle nor over, of a user
    in good standing who is an active member of the tenant. *)
Record sso_live (d : Database) (t : TenantId) (sid : string) (now : DateTime) (s : SsoSession) : Prop := {
  sl_found : sso_find_by_hash (si_sso (db_signin d)) (sha256_hex sid) = Some s;
  sl_valid : sso_is_valid_at s now = true;
  sl_user : exists u, users_find_by_id d (so_user_id s) = Some u /\ user_is_active u = true
                      /\ user_is_locked_at u now = false;
  sl_member : active_member (tn_memberships (db_tenancy d)) (db_users d) (db_tenants d) t (so_user_id s)
}.
Lemma members_eq d d' t u :
  directory d' = directory d -> memberships_is_active d' t u = memberships_is_active d t u.
Proof. intros E. unfold memberships_is_active. by injection E as _ -> _ _ _ _ _ _ -> ->. Qed.
Lemma run_try_resume tenant sid ctx w rs w' :
  run (try_resume tenant sid ctx) w = (Some (Ok (Some rs)), w') ->
  still w w' /\ exists s, rs = restored s (sha256_hex sid)
    /\ sso_live (w_db w) (tc_tenant_id tenant) sid (w_clock w) s.
Proof.
  intros H. split; [eapply run_quiet; [apply quiet_try_resume | exact H]|].
  unfold try_resume in H. apply run_try in H. destruct H as ([s|] & w1 & Hf & H); [|done].
  assert (still w w1) as S1 by by eapply run_sql_quiet; [|exact Hf].
  apply run_do in H. destruct H as (now & w1' & Hn & H). apply run_Now in Hn. destruct Hn as [-> ->].
  rewrite (still_clock _ _ S1) in H.
  destruct (sso_is_valid_at s (w_clock w)) eqn:Ev; cbn [negb] in H.
  2: { apply run_try in H. destruct H as ([] & ? & _ & H).
       apply run_do in H. by destruct H as ([] & ? & _ & H). }
  apply run_try in H. destruct H as ([u|] & w2 & Hu & H); [|done].
  assert (still w1 w2) as S2 by by eapply run_sql_quiet; [|exact Hu].
  destruct (user_is_active u && negb (user_is_locked_at u (w_clock w))) eqn:Es; [|done].
  apply andb_true_iff in Es as [Hact Hlock%negb_true_iff].
  apply run_try in H. destruct H as (member & w3 & Hm & H).
  destruct member; cbn [negb] in H; [|done].
  apply run_try in H. destruct H as (lifetime & w4 & _ & H).
  destruct (add_duration _ _) as [idle|]; [|done].
  apply run_try in H. destruct H as ([] & w5 & _ & H).
  apply run_do in H. destruct H as ([] & w6 & _ & H). injection H as <- _.
  apply run_sql_Ok in Hf, Hu, Hm. cbn [exec exec_sign_in] in Hf, Hu, Hm.
  injection Hf as Hf _. injection Hu as Hu _. injection Hm as Hm _.
  exists s. split; [done|]. split; [done|done| |].
  - exists u. by rewrite <- (users_find_eq _ _ _ (still_directory _ _ S1)).
  - apply is_active_member_true. change (memberships_is_active (w_db w) (tc_tenant_id tenant) (so_user_id s) = true).
    by rewrite <- (members_eq _ _ _ _ (still_directory _ _ S1)),
      <- (members_eq _ _ _ _ (still_directory _ _ S2)).
Qed.

(** ** Consent *)
(** The user has granted the client every scope that needs it. *)
Definition consent_stands (d : Database) (t : TenantId) (u : Uuid) (rq : AuthorizationRequest) : Prop :=
  forall scope, In scope (rq_scope rq) -> scope <> "openid" ->
  exists c, consents_find (si_consents (db_signin d)) t u (rq_client_id rq) = Some c
    /\ In scope (cn_scopes c).
Lemma consent_stands_eq d d' t u rq :
  si_consents (db_signin d') = si_consents (db_signin d) ->
  consent_stands d' t u rq -> consent_stands d t u rq.
Proof. intros E H. unfold consent_stands. by rewrite <- E. Qed.
Lemma scopes_needing_consent_In rq scope :
  In scope (scopes_needing_consent rq) <-> In scope (rq_scope rq) /\ scope <> "openid".
Proof.
  unfold scopes_needing_consent. rewrite <- !list_elem_of_In, list_elem_of_filter. tauto.
Qed.
Lemma run_consent_is_granted t u rq w w' :
  run (consent_is_granted t u rq) w = (Some (Ok true), w') -> consent_stands (w_db w) t u rq.
Proof.
  unfold consent_is_granted. intros H scope Hin Hne.
  assert (In scope (scopes_needing_consent rq)) as Hs by by apply scopes_needing_consent_In.
  destruct (scopes_needing_consent rq) as [|x needed] eqn:En; [done|]. rewrite <- En in *. clear En x needed.
  apply run_try in H. destruct H as (found & w1 & Hf & H).
  apply run_sql_Ok in Hf. injection Hf as Hf _. injection H as H _.
  destruct found as [c|]; [|done]. exists c. split; [done|]. by eapply covers_true.
Qed.

(** ** The code *)
(** What an issued code is: a new row for this request and this authentication, in
    tables that are otherwise as they were. *)
Record code_issued (ttl : Duration) (cmd : IssueCodeCommand) (w w' : World) (code : string) : Prop := {
  ci_row : db_codes (w_db w') = (db_codes (w_db w) ++
    [truncate_code (issue (tc_tenant_id (ic_tenant cmd)) (ic_request cmd) (ic_authentication cmd)
                      (w_clock w) ttl {| code_plain := code |}).1 (w_db_clock w)])%list;
  ci_drawn : exists n, code = w_tokens w n;
  ci_directory : directory (w_db w') = directory (w_db w);
  ci_refresh : db_refresh (w_db w') = db_refresh (w_db w);
  ci_consents : si_consents (db_signin (w_db w')) = si_consents (db_signin (w_db w));
  ci_fixed : fixed w' = fixed w;
  ci_tokens : w_tokens w' = w_tokens w;
  ci_calm : calm w -> calm w';
  ci_gate : calm w -> may_use (w_db w) (tc_tenant_id (ic_tenant cmd))
              (applications_find_by_oidc_client_id (w_db w) (tc_tenant_id (ic_tenant cmd))
                 (rq_client_id (ic_request cmd)))
              (au_user_id (ic_authentication cmd)) = true
}.
Lemma run_codes_create c w w' :
  run (sql (CodesCreate c)) w = (Some (Ok tt), w') ->
  db_codes (w_db w') = (db_codes (w_db w) ++ [truncate_code c (w_db_clock w)])%list
  /\ directory (w_db w') = directory (w_db w) /\ db_refresh (w_db w') = db_refresh (w_db w)
  /\ db_signin (w_db w') = db_signin (w_db w).
Proof.
  intros H. apply run_sql_Ok in H. cbn [exec] in H. unfold codes_create in H.
  destruct (existsb _ _); [done|]. by injection H as <-.
Qed.
Lemma run_RandomToken w x w' :
  run (perform RandomToken) w = (Some x, w') -> x = w_tokens w (w_tokens_drawn w) /\ still w w'.
Proof.
  intros H. assert (still w w') as S by (eapply run_quiet; [|exact H]; done).
  cbn in H. by injection H as <- <-.
Qed.
Lemma run_issue_code ttl cmd ctx w code w' :
  run (issue_code ttl cmd ctx) w = (Some (Ok (Issued code)), w') -> code_issued ttl cmd w w' code.
Proof.
  unfold issue_code. intros H. apply run_do in H. destruct H as (gate & w1 & Hg & H).
  pose proof (run_check _ _ _ _ _ _ _ Hg) as [_ Hgate].
  assert (still w w1) as S1 by (eapply run_quiet; [apply quiet_check | exact Hg]).
  destruct gate as [|]; [|done].
  apply run_do in H. destruct H as (now & w1' & Hn & H). apply run_Now in Hn. destruct Hn as [-> ->].
  apply run_do in H. destruct H as (fresh & w2 & Hr & H).
  apply run_RandomToken in Hr. destruct Hr as [-> S2]. cbn beta iota zeta in H.
  destruct (issue _ _ _ _ _ _) as [record plain] eqn:Ei. injection Ei as Ei <-.
  apply run_try in H. destruct H as ([] & w3 & Hc & H).
  pose proof (run_fixed _ _ _ _ Hc) as F3. pose proof (run_tokens _ _ _ _ Hc) as T3.
  assert (calm w2 -> calm w3) as C3 by (intros; by eapply run_calm).
  apply run_codes_create in Hc. destruct Hc as (Hrow & D3 & R3 & K3).
  apply run_do in H. destruct H as ([] & w4 & Ha & H). injection H as <- <-.
  assert (still w3 w4) as S4 by (eapply run_quiet; [apply quiet_audit | exact Ha]).
  assert (still w w2) as [U02 Q02] by by transitivity w1.
  destruct S4 as [U4 Q4]. pose proof (untouched_clock _ _ (st_untouched _ _ S1)) as Clk.
  pose proof (un_fixed _ _ U4) as F4. pose proof (un_fixed _ _ U02) as F02.
  assert (w_db_clock w2 = w_db_clock w) as Edb by by injection F02.
  pose proof (un_tokens _ _ U02) as T02. pose proof (un_tokens _ _ U4) as T4.
  split; cbn [code_plain].
  - rewrite (un_codes _ _ U4), Hrow, (un_codes _ _ U02), Edb. by rewrite <- Ei, Clk.
  - exists (w_tokens_drawn w1). by rewrite (un_tokens _ _ (st_untouched _ _ S1)).
  - by rewrite (un_directory _ _ U4), D3, (un_directory _ _ U02).
  - by rewrite (un_refresh _ _ U4), R3, (un_refresh _ _ U02).
  - by rewrite Q4, K3, Q02.
  - by rewrite F4, F3.
  - by rewrite T4, T3.
  - intros Hc. apply (un_calm _ _ U4), C3, (un_calm _ _ U02), Hc.
  - intros Hc. by rewrite <- Hgate.
Qed.
(** Steps before and after the issue do not matter. *)
Lemma code_issued_still ttl cmd w w1 w2 w3 code :
  still w w1 -> code_issued ttl cmd w1 w2 code -> still w2 w3 -> code_issued ttl cmd w w3 code.
Proof.
  intros S1 [Hrow [n Hn] Hd Hr Hcn Hf Ht Hc Hg] S3. destruct S1 as [U1 Q1], S3 as [U3 Q3].
  pose proof (untouched_clock _ _ U1) as Clk.
  assert (w_db_clock w1 = w_db_clock w) as Edb by by injection (un_fixed _ _ U1).
  split.
  - by rewrite (un_codes _ _ U3), Hrow, (un_codes _ _ U1), Edb, Clk.
  - exists n. by rewrite <- (un_tokens _ _ U1).
  - by rewrite (un_directory _ _ U3), Hd, (un_directory _ _ U1).
  - by rewrite (un_refresh _ _ U3), Hr, (un_refresh _ _ U1).
  - by rewrite Q3, Hcn, Q1.
  - by rewrite (un_fixed _ _ U3), Hf, (un_fixed _ _ U1).
  - by rewrite (un_tokens _ _ U3), Ht, (un_tokens _ _ U1).
  - intros H. by apply (un_calm _ _ U3), Hc, (un_calm _ _ U1).
  - intros H. rewrite <- (may_use_eq _ _ _ _ _ (un_directory _ _ U1)).
    rewrite <- (applications_oidc_eq _ _ _ _ (un_directory _ _ U1)). by apply Hg, (un_calm _ _ U1).
Qed.
End steps.
