(* ===== verification/SignInExample.v ===== *)
(** * A concrete sign-in

    The toy deployment of [Example] with a browser that is signed in: an
    authentication session waiting for its handle, an SSO session and a consent. *)

From S2P Require Import Prelude Values ResponseMode External AuditLog Directory Application Client.
From S2P Require Import AuthenticationPolicy AuthorizationRequest AuthSession AuthSessionStore.
From S2P Require Import AuthorizationCode SsoSession SessionKey Membership Consent SignInStore.
From S2P Require Import Effects AccessGate SignInGates Authorize ConsentFlow Example.

Definition toy_parameters (prompt : option string) : AuthorizationParameters := {|
  p_response_type := Some "code"; p_client_id := Some "app"; p_redirect_uri := Some "https://app/cb";
  p_scope := Some "openid offline_access"; p_state := Some "st"; p_nonce := Some "n";
  p_code_challenge := Some toy_verifier; p_code_challenge_method := Some "S256";
  p_prompt := prompt; p_max_age := Some 60%Z; p_acr_values := None; p_login_hint := None;
  p_ui_locales := None; p_response_mode := None |}.
Definition toy_request (prompt : list Prompt) : AuthorizationRequest := {|
  rq_client_id := "app"; rq_redirect_uri := "https://app/cb"; rq_scope := ["openid"; "offline_access"];
  rq_state := "st"; rq_nonce := "n"; rq_pkce := {| pk_challenge := toy_verifier; pk_method := S256 |};
  rq_prompt := prompt; rq_response_mode := Query; rq_max_age := Some 60%Z;
  rq_acr_values := None; rq_login_hint := None; rq_ui_locales := None |}.
Definition toy_authorize_config : AuthorizeConfig := {|
  az_auth_session_ttl := seconds 600; az_code_ttl := seconds 60 |}.
(** The session that [/authorize] started five seconds ago. *)
Definition started (prompt : list Prompt) : AuthSession :=
  (start 1%N (toy_request prompt) (seconds 995) (seconds 600) (seconds HANDLE_TTL_SECS)
     {| handle_plain := "handle" |} {| session_id_plain := "waiting" |}).1.
Definition toy_sso : SsoSession := {|
  so_session_hash := "browser"; so_user_id := 7%N; so_auth_time := seconds 990;
  so_idle_expires_at := seconds 2000; so_absolute_expires_at := seconds 9000;
  so_authentication_methods := [Password; Totp]; so_authentication_strength := MultiFactor;
  so_mfa_completed_at := Some (seconds 990); so_step_up_at := Some (seconds 990);
  so_user_agent := None; so_ip_address := None; so_created_at := seconds 990;
  so_updated_at := seconds 990 |}.
Definition toy_consent : ClientConsent := {|
  cn_user_id := 7%N; cn_tenant_id := 1%N; cn_client_id := "app"; cn_scopes := ["offline_access"];
  cn_granted_at := seconds 900; cn_updated_at := seconds 900 |}.

Definition browser_tables (session : AuthSession) (consents : ConsentTable) : SignInTables := {|
  si_sessions := [insert_row session (seconds 995)];
  si_sso := {| st_rows := [toy_sso]; st_contexts := [] |};
  si_consents := consents; si_devices := []; si_auths := [] |}.
Definition browser_world (session : AuthSession) (consents : ConsentTable) : World :=
  with_db toy_world (set_signin toy_db (browser_tables session consents)).
Definition resume_world (prompt : list Prompt) : World := browser_world (started prompt) [toy_consent].
Definition toy_resume : ResumeCommand := {| rc_handle := "handle"; rc_sso_session_id := Some "browser" |}.
Definition toy_continue : ContinueCommand := {|
  cc_auth_session_id := "waiting"; cc_sso_session_id := Some "browser" |}.
(** Where a success sends the browser. *)
Definition toy_code_location : string := location (success_response (toy_request []) "token-1").

(** Runs whose answer is known. *)
Definition resumed (prompt : list Prompt) (cmd : ResumeCommand) : option ResumeOutcome * World :=
  run (resume toy_authorize_config toy_context cmd toy_ctx) (resume_world prompt).
Definition continued : option ResumeOutcome * World :=
  run (continue_with_sso toy_authorize_config toy_context toy_continue toy_ctx) (resume_world []).
Definition authorized : option AuthorizeOutcome * World :=
  run (authorize toy_authorize_config toy_context (toy_parameters None)) toy_world.
Lemma resumed_run prompt cmd r : (resumed prompt cmd).1 = r ->
  run (resume toy_authorize_config toy_context cmd toy_ctx) (resume_world prompt) = (r, (resumed prompt cmd).2).
Proof. intros <-. unfold resumed. apply surjective_pairing. Qed.
Lemma continued_run r : continued.1 = r ->
  run (continue_with_sso toy_authorize_config toy_context toy_continue toy_ctx) (resume_world []) = (r, continued.2).
Proof. intros <-. unfold continued. apply surjective_pairing. Qed.
Lemma authorized_run r : authorized.1 = r ->
  run (authorize toy_authorize_config toy_context (toy_parameters None)) toy_world = (r, authorized.2).
Proof. intros <-. unfold authorized. apply surjective_pairing. Qed.

(** The consent page: the user has signed in, nothing is granted yet. *)
Definition consent_row : AuthSessionRow :=
  set_progress (seconds 999) "page" (Some 7%N) (Some (seconds 999)) None (Some "sid")
    (Some [Password; Totp]) (insert_row (started []) (seconds 995)).
Definition consent_world : World :=
  with_db toy_world (set_signin toy_db {|
    si_sessions := [consent_row]; si_sso := {| st_rows := [toy_sso]; st_contexts := [] |};
    si_consents := []; si_devices := []; si_auths := [] |}).
Definition approved : option ConsentOutcome * World :=
  run (approve (seconds 60) toy_context "page" toy_ctx) consent_world.
Lemma approved_run r : approved.1 = r ->
  run (approve (seconds 60) toy_context "page" toy_ctx) consent_world = (r, approved.2).
Proof. intros <-. unfold approved. apply surjective_pairing. Qed.
Definition denied : option ConsentOutcome * World :=
  run (deny toy_context "page" toy_ctx) consent_world.
Lemma denied_run r : denied.1 = r ->
  run (deny toy_context "page" toy_ctx) consent_world = (r, denied.2).
Proof. intros <-. unfold denied. apply surjective_pairing. Qed.
