(* ===== verification/AuthorizeTheorems.v ===== *)
(** * What the authorization endpoint guarantees *)

From S2P Require Import Prelude Values ResponseMode External AuditLog Directory Application Client.
From S2P Require Import AuthenticationPolicy AuthorizationRequest AuthSession AuthSessionStore.
From S2P Require Import AuthorizationCode SsoSession SessionKey Membership Consent SignInStore.
From S2P Require Import Effects AccessGate SignInGates Authorize ProgLogic OneShots Frames Handoff Paths.
From S2P Require Import AccessTheorems SignInSteps Example SignInExample.

(** ** What a restored session must satisfy *)
(** How the methods of an earlier sign-in meet the policies that apply now. *)
Record policy_respected (policies : list AuthenticationPolicy) (ctx : AuthenticationContext)
  (default_effect : DefaultPolicyEffect) (methods : list AuthenticationMethod) : Prop := {
  pr_no_deny : none_applies policies ctx EffectDeny;
  pr_methods : forall p, applying policies ctx EffectRequireSpecificMethod p ->
    satisfied_by (mr_requirement (requirement_of p)) methods (bool_decide (WebAuthn ∈ methods)) = true;
  pr_mfa : forall p, applying policies ctx EffectRequireMfa p ->
    none_applies policies ctx EffectRequireSpecificMethod -> from_methods methods = MultiFactor;
  pr_acr : requests_mfa (cx_requested_acr ctx) = true -> from_methods methods = MultiFactor;
  pr_default : default_effect = DefaultDeny -> (forall e, none_applies policies ctx e) ->
    requests_mfa (cx_requested_acr ctx) = true
}.
Lemma restored_policy_respected policies ctx default_effect methods :
  restored_policy (evaluate_policies policies ctx default_effect) methods = PolicyOk ->
  policy_respected policies ctx default_effect methods.
Proof.
  pose proof (evaluate_policies_spec policies ctx default_effect) as Hd.
  destruct (evaluate_policies policies ctx default_effect) as [found|code|code|rs] eqn:E; cbn; [| done | |].
  - intros _. destruct Hd as (Hn & Ha & Hf). split.
    + by apply Hn.
    + intros p Hp. destruct (Hn EffectRequireSpecificMethod ltac:(done) p Hp).
    + intros p Hp. destruct (Hn EffectRequireMfa ltac:(done) p Hp).
    + congruence.
    + intros -> Hnone. destruct found; [|by destruct Hf]. destruct Hf as (p & [Hp _] & _).
      destruct (Hnone _ p Hp).
  - destruct Hd as (Hn & Hs & Hm). destruct (existsb is_second_factor methods) eqn:Ef; [|done]. intros _.
    assert (from_methods methods = MultiFactor) as Hmf.
    { apply from_methods_multi. apply existsb_exists in Ef as (m & Hin & Hm'). exists m.
      by rewrite list_elem_of_In. }
    split; [done|intros p Hp; destruct (Hs p Hp)|done|done|].
    intros _ Hnone. destruct Hm as [(p & [Hp _] & _)|(_ & Ha & _)]; [destruct (Hnone _ p Hp)|done].
  - intros H. destruct (find _ rs) eqn:Eu; [done|]. clear H.
    destruct (proj1 (all_enforced policies ctx default_effect rs methods (bool_decide (WebAuthn ∈ methods)) E) Eu)
      as [Hm Ha].
    destruct Hd as (Hn & (p & Hp) & _). split; [done|done| |done|].
    + intros q _ Hno. destruct (Hno p Hp).
    + intros _ Hnone. destruct (Hnone _ p Hp).
Qed.

Lemma respected_restored_policy policies ctx default_effect methods :
  policy_respected policies ctx default_effect methods ->
  restored_policy (evaluate_policies policies ctx default_effect) methods = PolicyOk.
Proof.
  intros [Hdeny Hm Hmfa Hacr Hdef].
  pose proof (evaluate_policies_spec policies ctx default_effect) as Hd.
  destruct (evaluate_policies policies ctx default_effect) as [found|code|code|rs] eqn:E; cbn; [done|..].
  - exfalso. destruct Hd as [(p & [Hp _] & _)|(Hn & Ha & Hdf & _)]; [by apply (Hdeny p)|].
    by rewrite Hdef in Ha.
  - destruct Hd as (_ & Hs & Hor).
    assert (from_methods methods = MultiFactor) as Hmf.
    { destruct Hor as [(p & [Hp _] & _)|(_ & Ha & _)]; [by eapply Hmfa|by apply Hacr]. }
    apply from_methods_multi in Hmf as (m & Hin & Hm2).
    assert (existsb is_second_factor methods = true) as ->; [|done].
    apply existsb_exists. exists m. by rewrite <- list_elem_of_In.
  - pose proof (proj2 (all_enforced policies ctx default_effect rs methods _ E) (conj Hm Hacr)) as Hu.
    cbn in Hu. by rewrite Hu.
Qed.

Definition request_query (t : TenantId) (rq : AuthorizationRequest) (u : Uuid) (ip : option string)
  (now : DateTime) : PolicyQuery := {|
  pq_tenant_id := t; pq_audience := OidcClient (rq_client_id rq); pq_user_id := u;
  pq_ip_address := ip; pq_requested_acr := requested_acr rq; pq_now := now |}.
Definition sso_authentication (s : SsoSession) `{Hashing} (sid : string) : Authentication := {|
  au_user_id := so_user_id s; au_auth_time := so_auth_time s;
  au_sso_sid := Some (sid_of (sha256_hex sid));
  au_methods := Some (so_authentication_methods s) |}.

Section theorems.
Context {HS : Hashing} {UC : UrlCrate} {CO : Collation} (cfg : AuthorizeConfig).

(** The SSO session [s] that the browser names [sid] answers the request [rq]
    without a new sign-in. *)
Record sso_suffices (d : Database) (t : TenantId) (rq : AuthorizationRequest) (sid : string)
  (ip : option string) (now : DateTime) (s : SsoSession) : Prop := {
  sf_live : sso_live d t sid now s;
  sf_policy :
    let q := request_query t rq (so_user_id s) ip now in
    policy_respected (policies_list_enabled d t) (policy_context q (policy_application d q))
      (tn_default_effect (db_tenancy d) t) (so_authentication_methods s);
  sf_age : authentication_is_too_old rq (so_auth_time s) now = false;
  sf_no_reauthentication : forces_reauthentication rq = false
}.

(** ** The pieces leave the tables alone *)
Lemma quiet_delete_session s : is_quiet (delete_session s).
Proof. unfold delete_session. prog_always. Qed.
Lemma quiet_exchange_handle t h now : is_quiet (exchange_handle t h now).
Proof. unfold exchange_handle. prog_always. Qed.
Lemma quiet_evaluate t rq u ms ctx now : is_quiet (evaluate_for_restored_session t rq u ms ctx now).
Proof. unfold evaluate_for_restored_session. prog_always. Qed.
Lemma quiet_check_consent t u rq : is_quiet (check_consent t u rq).
Proof. unfold check_consent. prog_always. Qed.
(** Once the handle is exchanged no session is created. *)
Lemma completion_creates_no_session t s sso ctx now :
  always (sql_prop (sign_in_prop creates_no_session)) (complete_with_sso cfg t s sso ctx now).
Proof.
  assert (forall e r t u c m ctx, always (sql_prop (sign_in_prop creates_no_session)) (record_audit e r t u c m ctx))
    by (intros; unfold record_audit; prog_always).
  assert (forall t a p u ctx, always (sql_prop (sign_in_prop creates_no_session)) (judge t a p u ctx))
    by (intros; unfold judge, refuse_access; prog_always).
  unfold complete_with_sso, try_resume, evaluate_for_restored_session, decide_policy, authorize_restored,
    check_consent, consent_is_granted, issue_restored_code, issue_code, check,
    resolve_for_oidc_client, delete_session.
  prog_always.
Qed.
Hint Resolve quiet_delete_session quiet_exchange_handle quiet_evaluate quiet_check_consent : prog.

(** ** What each step has established *)
(** The session found by a handle carries that handle. *)
Lemma found_by_handle rows t h s ho :
  sql_find_by_handoff rows t h = Ok (Some s) -> as_handoff s = Some ho -> ho_handle_hash ho = h.
Proof.
  unfold sql_find_by_handoff, sql_fetch. destruct (find _ _) as [r|] eqn:Ef; [|done].
  apply find_some in Ef. destruct Ef as [_ Ef]. apply andb_true_iff in Ef. destruct Ef as [Eh _].
  apply bool_decide_eq_true in Eh. unfold map_row. destruct (parse _); [|done]. intros [= <-]. cbn.
  unfold handoff_of_parts. cbn. rewrite Eh. cbn. destruct (r_handle_expires_at r); [|done]. intros [= <-].
  by destruct h.
Qed.
(** A session that can be taken up with the handle the web presents. *)
Definition session_of_handle (d : Database) (t : TenantId) (raw : string) (now : DateTime)
  (s : AuthSession) : Prop :=
  exists h, handle_from_presented raw = Some h
    /\ sql_find_by_handoff (si_sessions (db_signin d)) t (hash_handle h) = Ok (Some s)
    /\ handoff_is_valid_at s now = true /\ session_is_expired_at s now = false.
(** The handle the web presented takes nothing up any more. *)
Definition handoff_spent (raw : string) (d : Database) : Prop :=
  forall h, handle_from_presented raw = Some h ->
  handle_spent (handle_hash_value (hash_handle h)) (si_sessions (db_signin d)).
Lemma run_exchange_handle tenant raw w s i w' :
  run (exchange_handle tenant raw (w_clock w)) w = (Some (Ok (s, i)), w') ->
  still w w' /\ si_sso (db_signin (w_db w')) = si_sso (db_signin (w_db w))
  /\ (exists s0, session_of_handle (w_db w) (tc_tenant_id tenant) raw (w_clock w) s0
        /\ as_request s = as_request s0)
  /\ (handles_keyed (si_sessions (db_signin (w_db w))) -> handoff_spent raw (w_db w')).
Proof.
  intros H. split; [eapply run_quiet; [apply quiet_exchange_handle | exact H]|]. split.
  { eapply (run_keeps_sso _ _ _ _); [|exact H]. unfold exchange_handle. prog_always. }
  unfold exchange_handle in H. destruct (handle_from_presented raw) as [h|] eqn:Eh; [|done].
  apply run_do in H. destruct H as ([[s0|]|e] & w1 & Hf & H); [|done|done].
  pose proof (run_handles_keyed _ _ _ _ Hf) as K1. apply run_sql_Ok in Hf. injection Hf as Hf _.
  apply run_do in H. destruct H as (fresh & w2 & Hfr & H).
  pose proof (run_handles_keyed _ _ _ _ Hfr) as K2.
  destruct (exchange_handoff _ _ _) as [[s1 x]|] eqn:Ex; [|done].
  apply exchange_handoff_Ok in Ex. destruct Ex as (ho & Hho & Hv & He & -> & ->).
  apply run_do in H. destruct H as ([[]|e] & w3 & Hsave & H); [|done|done]. injection H as <- _ <-. split.
  - exists s0. split; [|done]. exists h. split; [done|]. split; [done|].
    unfold handoff_is_valid_at, session_is_expired_at. rewrite Hho. cbn. split; lia.
  - intros Hk h' Hh'. rewrite Eh in Hh'. injection Hh' as <-. pose proof (found_by_handle _ _ _ _ _ Hf Hho) as <-.
    apply run_sql_Ok in Hsave. cbn [exec] in Hsave.
    destruct (exec_sign_in _ _ _) as [[b|] d'] eqn:Es; [|done]. injection Hsave as -> <-.
    apply exchange_spends in Es; [exact Es|by apply K2, K1].
Qed.
Lemma run_evaluate tenant rq u methods ctx w w' :
  run (evaluate_for_restored_session tenant rq u methods ctx (w_clock w)) w = (Some PolicyOk, w') ->
  let q := request_query (tc_tenant_id tenant) rq u (ctx_ip_address ctx) (w_clock w) in
  policy_respected (policies_list_enabled (w_db w) (tc_tenant_id tenant))
    (policy_context q (policy_application (w_db w) q))
    (tn_default_effect (db_tenancy (w_db w)) (tc_tenant_id tenant)) methods.
Proof.
  unfold evaluate_for_restored_session. intros H. apply run_do in H.
  destruct H as ([decision|e] & w1 & Hd & H); [|done].
  apply run_decide_policy in Hd. destruct Hd as [_ ->]. injection H as H _.
  by apply restored_policy_respected.
Qed.
Lemma run_issue_restored_code tenant s a ttl ctx w loc form ttl' w' :
  run (issue_restored_code cfg tenant s a ttl ctx) w = (Some (Redirect loc form ttl'), w') ->
  exists code, ttl' = ttl
    /\ code_issued (az_code_ttl cfg) {| ic_tenant := tenant; ic_request := as_request s;
                                        ic_authentication := a |} w w' code
    /\ {| ds_location := loc; ds_form_post := form |} = dispatch (success_response (as_request s) code).
Proof.
  unfold issue_restored_code, resume_error. intros H. apply run_do in H.
  destruct H as ([[code|name]|e] & w1 & Hi & H); [| |done].
  2: { destruct (forbids_interaction _); [|done]. apply run_do in H. destruct H as ([] & ? & _ & H); by cbn in H. }
  apply run_issue_code in Hi. apply run_do in H. destruct H as ([] & w2 & Hdel & H).
  injection H as <- <- <- <-. exists code. split; [done|]. split; [|reflexivity].
  eapply code_issued_still; [reflexivity | exact Hi|].
  eapply run_quiet; [apply quiet_delete_session | exact Hdel].
Qed.
Lemma run_authorize_restored tenant s a ttl ctx w loc form ttl' w' :
  run (authorize_restored cfg tenant s a ttl ctx) w = (Some (Redirect loc form ttl'), w') ->
  exists code, ttl' = ttl /\ forces_consent (as_request s) = false
    /\ consent_stands (w_db w) (tc_tenant_id tenant) (au_user_id a) (as_request s)
    /\ code_issued (az_code_ttl cfg) {| ic_tenant := tenant; ic_request := as_request s;
                                        ic_authentication := a |} w w' code
    /\ {| ds_location := loc; ds_form_post := form |} = dispatch (success_response (as_request s) code).
Proof.
  unfold authorize_restored, resume_error. intros H. apply run_do in H. destruct H as (consented & w1 & Hc & H).
  destruct consented.
  2: { exfalso. destruct (forbids_interaction _).
       - apply run_do in H. destruct H as ([] & ? & _ & H); by cbn in H.
       - apply run_do in H. destruct H as (fresh & w2 & _ & H). cbn beta iota zeta in H.
         destruct (complete_authentication _ _ _) as [s' x] eqn:Ex.
         apply run_do in H. by destruct H as ([|] & ? & _ & H). }
  destruct (forces_consent (as_request s)) eqn:Ef; cbn [negb] in Hc; [done|].
  assert (still w w1) as S1 by (eapply run_quiet; [apply quiet_check_consent | exact Hc]).
  unfold check_consent in Hc. apply run_do in Hc. destruct Hc as ([b|e] & w1' & Hg & Hc); [|done].
  injection Hc as -> <-. apply run_consent_is_granted in Hg.
  apply run_issue_restored_code in H. destruct H as (code & -> & Hi & Hl).
  exists code. split; [done|]. split; [done|]. split; [done|]. split; [|done].
  eapply code_issued_still; [exact S1 | exact Hi | reflexivity].
Qed.
Lemma run_complete_with_sso tenant s sso ctx w loc form ttl w' :
  run (complete_with_sso cfg tenant s sso ctx (w_clock w)) w = (Some (Some (Redirect loc form ttl)), w') ->
  exists sid x code, non_empty sso = Some sid
    /\ sso_suffices (w_db w) (tc_tenant_id tenant) (as_request s) sid (ctx_ip_address ctx) (w_clock w) x
    /\ forces_consent (as_request s) = false
    /\ consent_stands (w_db w) (tc_tenant_id tenant) (so_user_id x) (as_request s)
    /\ ttl = absolute_ttl_secs x
    /\ code_issued (az_code_ttl cfg) {| ic_tenant := tenant; ic_request := as_request s;
                                        ic_authentication := sso_authentication x sid |} w w' code
    /\ {| ds_location := loc; ds_form_post := form |} = dispatch (success_response (as_request s) code).
Proof.
  unfold complete_with_sso, resume_error. intros H.
  destruct (forces_reauthentication (as_request s)) eqn:Er; [done|].
  destruct (non_empty sso) as [sid|]; [|done].
  apply run_do in H. destruct H as ([[rs|]|e] & w1 & Ht & H); [|done|done].
  apply run_try_resume in Ht. destruct Ht as (S1 & x & -> & Hlive).
  apply run_do in H. destruct H as (policy & w2 & Hp & H).
  assert (still w1 w2) as S2 by (eapply run_quiet; [apply quiet_evaluate | exact Hp]).
  destruct policy; [|done| |done].
  2: { apply run_do in H. destruct H as ([] & ? & _ & H); by cbn in H. }
  rewrite <- (still_clock _ _ S1) in Hp. apply run_evaluate in Hp. rewrite (still_clock _ _ S1) in Hp.
  destruct (authentication_is_too_old _ _ _) eqn:Ea; [done|].
  apply run_do in H. destruct H as (outcome & w3 & H & Ho). injection Ho as -> <-.
  assert (still w w2) as S12 by by transitivity w1.
  apply run_authorize_restored in H. destruct H as (code & -> & Hf & Hc & Hi & Hl).
  exists sid, x, code. split; [done|]. split.
  { split; [done| |done|done]. cbn zeta in Hp |- *.
    pose proof (still_directory _ _ S1) as D1.
    unfold policies_list_enabled, policy_application in *. cbn [pq_audience request_query] in *.
    rewrite (applications_oidc_eq _ _ _ _ D1) in Hp. injection D1 as _ _ _ _ _ _ _ _ E1 _.
    rewrite E1 in Hp. exact Hp. }
  split; [done|]. split; [eapply consent_stands_eq; [apply (st_consents _ _ S12) | exact Hc]|].
  split; [done|]. split; [|done].
  eapply code_issued_still; [exact S12 | exact Hi | reflexivity].
Qed.

(** Neither does a step that leaves the SSO sessions alone change what suffices. *)
Lemma sso_suffices_eq d d' t rq sid ip now s :
  directory d' = directory d -> si_sso (db_signin d') = si_sso (db_signin d) ->
  sso_suffices d' t rq sid ip now s -> sso_suffices d t rq sid ip now s.
Proof.
  intros D Es [[Hf Hv Hu Hm] Hp Ha Hr]. split; [split|..]; try done.
  - by rewrite <- Es.
  - destruct Hu as (u & Hu & Hst). exists u. by rewrite <- (users_find_eq _ _ _ D).
  - apply is_active_member_true in Hm. apply is_active_member_true.
    change (memberships_is_active d t (so_user_id s) = true).
    by rewrite <- (members_eq _ _ _ _ D).
  - cbn zeta in *. unfold policies_list_enabled, policy_application in *.
    cbn [pq_audience request_query] in *. rewrite (applications_oidc_eq _ _ _ _ D) in Hp.
    injection D as _ _ _ _ _ _ _ _ E _. by rewrite E in Hp.
Qed.
Lemma sso_suffices_still w w' t rq sid ip now s :
  still w w' -> si_sso (db_signin (w_db w')) = si_sso (db_signin (w_db w)) ->
  sso_suffices (w_db w') t rq sid ip now s -> sso_suffices (w_db w) t rq sid ip now s.
Proof. intros S. apply sso_suffices_eq, (still_directory _ _ S). Qed.
Lemma run_exchange_handle_Err tenant raw now w o w' :
  run (exchange_handle tenant raw now) w = (Some (Err o), w') ->
  o = ExpiredHandle \/ exists m, o = ResumeInternal m.
Proof.
  unfold exchange_handle. intros H. destruct (handle_from_presented raw); [|injection H; auto].
  apply run_do in H. destruct H as ([[s0|]|e] & w1 & _ & H); [|injection H; auto | injection H; eauto].
  apply run_do in H. destruct H as (fresh & w2 & _ & H).
  destruct (exchange_handoff _ _ _) as [[s1 x]|]; [|injection H; auto].
  apply run_do in H.
  destruct H as ([[]|e] & w3 & _ & H); [done | injection H; auto | injection H; eauto].
Qed.

(** C7: A code is issued without a sign-in only to whom it may be.  If [resume]
    answers with a code, whatever failed on the way, then the handle was live; the
    request asked for no new authentication and no new consent; the browser's SSO
    session was valid, of an active, unlocked user with an active membership in
    the tenant; no policy that applies denies, and the methods of the session meet
    every demand of the policies and of the client; it is young enough for
    [max_age]; the user has consented to every scope; when nothing fails, the
    application admits the user (a failed lookup lets everybody through); the one
    new code is for this request and this authentication, and is sent to the
    request's redirect URI; and, the handles being unique as the table's key makes
    them, the hand-off is spent: no session can be taken up with the handle again. *)
Theorem resume_sound tenant cmd ctx w loc form ttl w' :
  run (resume cfg tenant cmd ctx) w = (Some (Redirect loc form ttl), w') ->
  exists s sid x code,
    session_of_handle (w_db w) (tc_tenant_id tenant) (rc_handle cmd) (w_clock w) s
    /\ non_empty (rc_sso_session_id cmd) = Some sid
    /\ sso_suffices (w_db w) (tc_tenant_id tenant) (as_request s) sid (ctx_ip_address ctx) (w_clock w) x
    /\ forces_consent (as_request s) = false
    /\ consent_stands (w_db w) (tc_tenant_id tenant) (so_user_id x) (as_request s)
    /\ ttl = absolute_ttl_secs x
    /\ code_issued (az_code_ttl cfg) {| ic_tenant := tenant; ic_request := as_request s;
                                        ic_authentication := sso_authentication x sid |} w w' code
    /\ {| ds_location := loc; ds_form_post := form |} = dispatch (success_response (as_request s) code)
    /\ (handles_keyed (si_sessions (db_signin (w_db w))) -> handoff_spent (rc_handle cmd) (w_db w')).
Proof.
  unfold resume. intros H. apply run_do in H. destruct H as (now & w0 & Hn & H).
  apply run_Now in Hn. destruct Hn as [-> ->].
  apply run_do in H. destruct H as ([[s i]|o] & w1 & Hx & H).
  2: { injection H as -> <-. by destruct (run_exchange_handle_Err _ _ _ _ _ _ Hx) as [|[? ?]]. }
  apply run_exchange_handle in Hx. destruct Hx as (S1 & Hsso & (s0 & Hs0 & Hrq) & Hspent).
  apply run_do in H. destruct H as (completed & w2 & Hc & H).
  destruct completed as [o|].
  2: { destruct (forbids_interaction _); [|done].
       apply run_do in H. destruct H as ([] & ? & _ & H); by cbn in H. }
  injection H as -> <-. rewrite <- (still_clock _ _ S1) in Hc.
  assert (handles_keyed (si_sessions (db_signin (w_db w))) -> handoff_spent (rc_handle cmd) (w_db w2)) as Hgone.
  { intros Hk h Hh. eapply run_handle_spent; [|exact Hc|by apply Hspent]. apply completion_creates_no_session. }
  apply run_complete_with_sso in Hc.
  destruct Hc as (sid & x & code & Hsid & Hsf & Hfc & Hcn & -> & Hi & Hl).
  rewrite (still_clock _ _ S1), Hrq in *. exists s0, sid, x, code.
  split; [done|]. split; [done|]. split; [by eapply sso_suffices_still|]. split; [done|].
  split; [eapply consent_stands_eq; [apply (st_consents _ _ S1) | exact Hcn]|].
  split; [done|]. split; [|by split].
  eapply code_issued_still; [exact S1 | exact Hi | reflexivity].
Qed.
(** So is a code issued when a login page is opened again.  [continue_with_sso]
    issues a code only for a live session nobody has begun to sign in to, under
    the same conditions on the SSO session, the policies, the age, the consent and
    the application. *)
Theorem continue_sound tenant cmd ctx w loc form ttl w' :
  run (continue_with_sso cfg tenant cmd ctx) w = (Some (Redirect loc form ttl), w') ->
  exists i s sid x code,
    session_id_from_presented (cc_auth_session_id cmd) = Some i
    /\ sql_find (si_sessions (db_signin (w_db w))) (tc_tenant_id tenant) (hash_session_id i) = Ok (Some s)
    /\ session_is_expired_at s (w_clock w) = false /\ as_progress s = Anonymous
    /\ non_empty (cc_sso_session_id cmd) = Some sid
    /\ sso_suffices (w_db w) (tc_tenant_id tenant) (as_request s) sid (ctx_ip_address ctx) (w_clock w) x
    /\ forces_consent (as_request s) = false
    /\ consent_stands (w_db w) (tc_tenant_id tenant) (so_user_id x) (as_request s)
    /\ ttl = absolute_ttl_secs x
    /\ code_issued (az_code_ttl cfg) {| ic_tenant := tenant; ic_request := as_request s;
                                        ic_authentication := sso_authentication x sid |} w w' code
    /\ {| ds_location := loc; ds_form_post := form |} = dispatch (success_response (as_request s) code).
Proof.
  unfold continue_with_sso. intros H. apply run_do in H. destruct H as (now & w0 & Hn & H).
  apply run_Now in Hn. destruct Hn as [-> ->].
  destruct (session_id_from_presented _) as [i|]; [|done].
  apply run_do in H. destruct H as ([[s|]|e] & w1 & Hf & H); [|done|done].
  assert (still w w1) as S1 by by eapply run_sql_quiet; [|exact Hf].
  assert (si_sso (db_signin (w_db w1)) = si_sso (db_signin (w_db w))) as Hsso.
  { eapply (run_keeps_sso _ _ _ _); [|exact Hf]. by apply always_sql. }
  apply run_sql_Ok in Hf. injection Hf as Hf _.
  destruct (session_is_expired_at s (w_clock w)) eqn:Ee; [done|].
  destruct (as_progress s) eqn:Ep; [|done|done].
  apply run_do in H. destruct H as (completed & w2 & Hc & H). destruct completed as [o|]; [|done].
  injection H as -> <-. rewrite <- (still_clock _ _ S1) in Hc.
  apply run_complete_with_sso in Hc.
  destruct Hc as (sid & x & code & Hsid & Hsf & Hfc & Hcn & -> & Hi & Hl).
  rewrite (still_clock _ _ S1) in *. exists i, s, sid, x, code.
  split; [done|]. split; [done|]. split; [done|]. split; [done|]. split; [done|].
  split; [by eapply sso_suffices_still|]. split; [done|].
  split; [eapply consent_stands_eq; [apply (st_consents _ _ S1) | exact Hcn]|].
  split; [done|]. split; [|done].
  eapply code_issued_still; [exact S1 | exact Hi | reflexivity].
Qed.

(** ** prompt=none *)
Definition interactive (o : ResumeOutcome) : Prop :=
  match o with
  | ResumeConsentRequired _ _ | ResumeLoginRequired _ | ApplicationNotPermitted _ => True
  | _ => False
  end.
Ltac no_ui :=
  repeat first
    [ (by intros (? & [= <-] & Hui)) | (by intros []) | done
    | apply guarded_after; intros | case_match | progress cbn beta iota zeta ].
Lemma authorize_restored_no_ui tenant s a ttl ctx :
  forbids_interaction (as_request s) = true ->
  guarded never interactive (authorize_restored cfg tenant s a ttl ctx).
Proof.
  intros Hf. unfold authorize_restored, issue_restored_code, resume_error. rewrite Hf. no_ui.
Qed.
Lemma complete_with_sso_no_ui tenant s sso ctx now :
  forbids_interaction (as_request s) = true ->
  guarded never (fun r => exists o, r = Some o /\ interactive o) (complete_with_sso cfg tenant s sso ctx now).
Proof.
  intros Hf. unfold complete_with_sso, resume_error.
  destruct (forces_reauthentication _); [no_ui|]. destruct (non_empty sso); [|no_ui].
  apply guarded_after. intros [[rs|]|e]; [|no_ui..].
  apply guarded_after. intros []; [|no_ui..].
  destruct (authentication_is_too_old _ _ _); [no_ui|].
  eapply (guarded_before _ _ interactive); [by apply authorize_restored_no_ui|].
  intros o Ho. by intros (o' & [= <-] & Hi).
Qed.
(** [prompt=none] never shows a page.  Whatever the browser's session, the
    policies, the consents and the failures, a request that forbids interaction is
    answered with a code or an error for the client, never with a sign-in page, a
    consent page or a refusal of our own. *)
Theorem prompt_none_never_interacts tenant cmd ctx w o w' :
  (forall s, session_of_handle (w_db w) (tc_tenant_id tenant) (rc_handle cmd) (w_clock w) s ->
             forbids_interaction (as_request s) = true) ->
  run (resume cfg tenant cmd ctx) w = (Some o, w') -> ~ interactive o.
Proof.
  intros Hs H. unfold resume in H. apply run_do in H. destruct H as (now & w0 & Hn & H).
  apply run_Now in Hn. destruct Hn as [-> ->].
  apply run_do in H. destruct H as ([[s i]|o'] & w1 & Hx & H).
  2: { injection H as <- _. by destruct (run_exchange_handle_Err _ _ _ _ _ _ Hx) as [->|[m ->]]; intros []. }
  apply run_exchange_handle in Hx. destruct Hx as (_ & _ & (s0 & Hs0 & Hrq) & _).
  specialize (Hs _ Hs0). rewrite <- Hrq in Hs.
  apply run_do in H. destruct H as (completed & w2 & Hc & H).
  pose proof (guarded_never_run _ _ _ _ _ (complete_with_sso_no_ui tenant s _ ctx (w_clock w) Hs) Hc) as Hno.
  destruct completed as [o'|].
  - injection H as <- _. intros Hi. apply Hno. by exists o'.
  - rewrite Hs in H. apply run_do in H. destruct H as ([] & w3 & _ & H). injection H as <- _. by intros [].
Qed.

(** ** The start of the flow *)
(** C26: [authorize] starts a flow only for a request the client may make, and
    redirects an error nowhere but to a URI the client registered.  A handle is
    given out only with a stored session, anonymous and of this tenant, for the
    request that an active, registered client made and [accept] let through; no
    failure makes it redirect elsewhere. *)
Theorem authorize_sound tenant params w o w' :
  run (authorize cfg tenant params) w = (Some o, w') ->
  match o with
  | HandoffToWeb handle => exists client rq id, 
      clients_find_by_client_id (w_db w) (tc_tenant_id tenant) (unwrap_or "" (p_client_id params)) = Some client
      /\ accept params client = Some (Ok rq) /\ request_valid client rq
      /\ si_sessions (db_signin (w_db w')) = (si_sessions (db_signin (w_db w))
           ++ [insert_row (start (tc_tenant_id tenant) rq (w_clock w) (az_auth_session_ttl cfg)
                (seconds HANDLE_TTL_SECS) {| handle_plain := handle |} {| session_id_plain := id |}).1
                (w_db_clock w)])%list
  | ErrorRedirect location => exists client uri e d st,
      clients_find_by_client_id (w_db w) (tc_tenant_id tenant) (unwrap_or "" (p_client_id params)) = Some client
      /\ c_client_status client = ClientActive /\ uri ∈ c_redirect_uris client
      /\ location = error_redirect_with_state uri e d st
  | FatalError _ _ => True
  end.
Proof.
  unfold authorize. intros H.
  destruct (non_empty (p_client_id params)) as [client_id|] eqn:Ec; [|by injection H as <- _].
  apply run_do in H. destruct H as ([[client|]|e] & w1 & Hf & H);
    [|by injection H as <- _|by injection H as <- _].
  apply non_empty_Some in Ec. destruct Ec as [Ec _]. rewrite Ec. cbn [unwrap_or].
  assert (still w w1) as S1 by by eapply run_sql_quiet; [|exact Hf].
  apply run_sql_Ok in Hf. injection Hf as Hf Hdb.
  destruct (accept params client) as [[rq|[e d|uri st e d]]|] eqn:Ea; [| | |done].
  2: { by injection H as <- _. }
  2: { injection H as <- _. apply accept_redirectable in Ea. destruct Ea as (Hact & Hu & _).
       by exists client, uri, e, d, st. }
  apply run_do in H. destruct H as (now & w2 & Hn & H). apply run_Now in Hn. destruct Hn as [-> ->].
  apply run_do in H. destruct H as (handle & w2 & Hh & H).
  apply run_do in H. destruct H as (id & w3 & Hid & H).
  apply run_do in H. destruct H as (r & w4 & Hs & H).
  apply accept_Ok in Ea as Hv.
  assert (si_sessions (db_signin (w_db w3)) = si_sessions (db_signin (w_db w))
          /\ w_db_clock w3 = w_db_clock w /\ w_clock w3 = w_clock w) as (E3 & C3 & N3).
  { cbn in Hh, Hid. injection Hh as _ <-. injection Hid as _ <-. cbn.
    rewrite <- Hdb. pose proof (un_fixed _ _ (st_untouched _ _ S1)) as F. by injection F as -> -> _. }
  rewrite (still_clock _ _ S1) in Hs. destruct r as [[]|e].
  - injection H as <- <-. exists client, rq, id. split; [done|]. split; [done|]. split; [done|].
    apply run_sql_Ok in Hs. cbn [exec exec_sign_in] in Hs. unfold written, sql_create in Hs.
    destruct (existsb _ _); [done|]. injection Hs as <-. cbn [si_sessions set_sessions db_signin set_signin].
    by rewrite E3, C3.
  - injection H as <- _. exists client, (rq_redirect_uri rq). do 3 eexists. split; [done|].
    split; [apply Hv|]. split; [apply Hv|]. reflexivity.
Qed.
End theorems.

(** ** Witnesses *)
Lemma resume_world_keyed : handles_keyed (si_sessions (db_signin (w_db (resume_world [])))).
Proof. intros r r' h Hr Hr' _ _. apply list_elem_of_singleton in Hr, Hr'. by subst. Qed.
Lemma resume_sound_witness :
  (resumed [] toy_resume).1 = Some (Redirect "https://app/cb?code=token-1&state=st" None 8010)
  /\ exists s sid x code,
    session_of_handle (w_db (resume_world [])) (tc_tenant_id toy_context) (rc_handle toy_resume)
      (w_clock (resume_world [])) s
    /\ non_empty (rc_sso_session_id toy_resume) = Some sid
    /\ sso_suffices (w_db (resume_world [])) (tc_tenant_id toy_context) (as_request s) sid
         (ctx_ip_address toy_ctx) (w_clock (resume_world [])) x
    /\ forces_consent (as_request s) = false
    /\ consent_stands (w_db (resume_world [])) (tc_tenant_id toy_context) (so_user_id x) (as_request s)
    /\ 8010%Z = absolute_ttl_secs x
    /\ code_issued (az_code_ttl toy_authorize_config) {| ic_tenant := toy_context; ic_request := as_request s;
                                   ic_authentication := sso_authentication x sid |}
         (resume_world []) (resumed [] toy_resume).2 code
    /\ {| ds_location := "https://app/cb?code=token-1&state=st"; ds_form_post := None |}
       = dispatch (success_response (as_request s) code)
    /\ handoff_spent (rc_handle toy_resume) (w_db (resumed [] toy_resume).2).
Proof.
  split; [by vm_compute|].
  destruct (resume_sound toy_authorize_config toy_context toy_resume toy_ctx (resume_world [])
           "https://app/cb?code=token-1&state=st" None 8010 (resumed [] toy_resume).2
           (resumed_run [] toy_resume (Some (Redirect "https://app/cb?code=token-1&state=st" None 8010))
              ltac:(by vm_compute)))
    as (s & sid & x & code & H1 & H2 & H3 & H4 & H5 & H6 & H7 & H8 & H9).
  exists s, sid, x, code.
  exact (conj H1 (conj H2 (conj H3 (conj H4 (conj H5 (conj H6 (conj H7 (conj H8 (H9 resume_world_keyed))))))))).
Defined.
Lemma continue_sound_witness :
  continued.1 = Some (Redirect "https://app/cb?code=token-0&state=st" None 8010)
  /\ exists i s sid x code,
    session_id_from_presented (cc_auth_session_id toy_continue) = Some i
    /\ sql_find (si_sessions (db_signin (w_db (resume_world [])))) (tc_tenant_id toy_context) (hash_session_id i) = Ok (Some s)
    /\ session_is_expired_at s (w_clock (resume_world [])) = false /\ as_progress s = Anonymous
    /\ non_empty (cc_sso_session_id toy_continue) = Some sid
    /\ sso_suffices (w_db (resume_world [])) (tc_tenant_id toy_context) (as_request s) sid
         (ctx_ip_address toy_ctx) (w_clock (resume_world [])) x
    /\ forces_consent (as_request s) = false
    /\ consent_stands (w_db (resume_world [])) (tc_tenant_id toy_context) (so_user_id x) (as_request s)
    /\ 8010%Z = absolute_ttl_secs x
    /\ code_issued (az_code_ttl toy_authorize_config) {| ic_tenant := toy_context; ic_request := as_request s;
                                   ic_authentication := sso_authentication x sid |}
         (resume_world []) continued.2 code
    /\ {| ds_location := "https://app/cb?code=token-0&state=st"; ds_form_post := None |}
       = dispatch (success_response (as_request s) code).
Proof.
  split; [by vm_compute|].
  apply (continue_sound toy_authorize_config toy_context toy_continue toy_ctx (resume_world [])
           "https://app/cb?code=token-0&state=st" None 8010 continued.2).
  apply continued_run. by vm_compute.
Defined.
Lemma started_of_handle prompt s :
  session_of_handle (w_db (resume_world prompt)) 1%N "handle" toy_now s ->
  rq_prompt (as_request s) = prompt_parse (unwrap_or "" (prompt_to_storage prompt)).
Proof.
  intros (h & Hh & Hf & _ & _). cbn in Hh. injection Hh as <-.
  cbv -[prompt_parse prompt_to_storage unwrap_or] in Hf. by injection Hf as <-.
Qed.
Lemma prompt_none_never_interacts_witness :
  (resumed [PromptNone] toy_resume).1 = Some (Redirect "https://app/cb?code=token-1&state=st" None 8010)
  /\ ~ interactive (Redirect "https://app/cb?code=token-1&state=st" None 8010).
Proof.
  split; [by vm_compute|].
  apply (prompt_none_never_interacts toy_authorize_config toy_context toy_resume toy_ctx
           (resume_world [PromptNone]) _ (resumed [PromptNone] toy_resume).2).
  - intros s Hs. apply started_of_handle in Hs. unfold forbids_interaction. rewrite Hs. by vm_compute.
  - apply resumed_run. by vm_compute.
Defined.
Lemma authorize_sound_witness :
  authorized.1 = Some (HandoffToWeb "token-0")
  /\ exists client rq id,
    clients_find_by_client_id (w_db toy_world) (tc_tenant_id toy_context)
      (unwrap_or "" (p_client_id (toy_parameters None))) = Some client
    /\ accept (toy_parameters None) client = Some (Ok rq) /\ request_valid client rq
    /\ si_sessions (db_signin (w_db authorized.2)) = (si_sessions (db_signin (w_db toy_world))
         ++ [insert_row (start (tc_tenant_id toy_context) rq (w_clock toy_world)
               (az_auth_session_ttl toy_authorize_config) (seconds HANDLE_TTL_SECS)
               {| handle_plain := "token-0" |} {| session_id_plain := id |}).1 (w_db_clock toy_world)])%list.
Proof.
  split; [by vm_compute|].
  apply (authorize_sound toy_authorize_config toy_context (toy_parameters None) toy_world
           (HandoffToWeb "token-0") authorized.2).
  apply authorized_run. by vm_compute.
Defined.
