(* ===== verification/AuthorizeComplete.v ===== *)
(** * When nothing fails, the authorization endpoint does its work

    The converse of [AuthorizeTheorems]: a request that may be answered from the
    browser's SSO session is. *)

From S2P Require Import Prelude Values ResponseMode External AuditLog Directory Application Client.
From S2P Require Import AuthenticationPolicy AuthorizationRequest AuthSession AuthSessionStore.
From S2P Require Import AuthorizationCode SsoSession SessionKey Membership Consent SignInStore.
From S2P Require Import Effects AccessGate SignInGates Authorize ProgLogic OneShots Frames Paths.
From S2P Require Import AccessTheorems SignInSteps AuthorizeTheorems Example SignInExample.

(** ** Single operations in a calm world *)
Section calm.
Context {HS : Hashing} {UC : UrlCrate} {CO : Collation} (cfg : AuthorizeConfig).

(** A read changes nothing. *)
Lemma run_read {A} (s : Stmt A) w a :
  calm w -> exec s (w_db_clock w) (w_db w) = (Ok a, w_db w) -> run (sql s) w = (Some (Ok a), w).
Proof. intros Hc E. rewrite run_sql_calm, E by done. by destruct w. Qed.
Lemma run_read_sign_in {A} (s : SignInStmt A) w a :
  calm w -> exec_sign_in s (w_db_clock w) (db_signin (w_db w)) = (Ok a, db_signin (w_db w)) ->
  run (sql (SignIn s)) w = (Some (Ok a), w).
Proof.
  intros Hc E. apply run_read; [done|]. cbn [exec]. rewrite E. by destruct (w_db w).
Qed.
(** A write that goes through. *)
Lemma run_write {A} (s : Stmt A) w a d :
  calm w -> exec s (w_db_clock w) (w_db w) = (Ok a, d) -> run (sql s) w = (Some (Ok a), with_db w d).
Proof. intros Hc E. by rewrite run_sql_calm, E by done. Qed.
Lemma run_audit_ends et r t u c m ctx w :
  calm w -> exists w', run (record_audit et r t u c m ctx) w = (Some tt, w') /\ still w w'.
Proof.
  intros Hc. destruct (run_audit_calm et r t u c m ctx w Hc) as (e & E & _).
  eexists. split; [exact E|]. eapply run_quiet; [apply quiet_audit | exact E].
Qed.

(** ** The checks *)
Lemma run_decide_policy_calm q w :
  calm w -> run (decide_policy q) w = (Some (Ok (policy_decision (w_db w) q)), w).
Proof.
  intros Hc. unfold decide_policy, policy_decision, policy_application.
  rewrite run_bind. destruct (pq_audience q) as [c|].
  - unfold policy_target_for_oidc_client, resolve_for_oidc_client.
    rewrite run_bind. erewrite run_read by done. cbn [run].
    rewrite run_bind. erewrite run_read by done. cbn [run].
    rewrite run_bind. erewrite run_read by done. done.
  - cbn [run]. rewrite run_bind. erewrite run_read by done. cbn [run].
    rewrite run_bind. erewrite run_read by done. done.
Qed.
Lemma run_consent_calm t u rq w :
  calm w -> consent_stands (w_db w) t u rq ->
  run (consent_is_granted t u rq) w = (Some (Ok true), w).
Proof.
  intros Hc Hs. unfold consent_is_granted, consent_stands in *.
  pose proof (scopes_needing_consent_In rq) as Hin.
  destruct (scopes_needing_consent rq) as [|x needed] eqn:En; [done|].
  rewrite run_bind. erewrite run_read_sign_in by done. cbn [run].
  destruct (proj1 (Hin x) (or_introl eq_refl)) as [Hx Hne].
  destruct (Hs x Hx Hne) as (c & Hf & _). rewrite Hf. cbn [is_some_and].
  assert (covers c (x :: needed) = true) as ->; [|done].
  apply covers_true. intros s Hsin. apply Hin in Hsin as [Hs1 Hs2].
  destruct (Hs s Hs1 Hs2) as (c' & Hf' & Hc'). congruence.
Qed.
Lemma run_check_calm t client_id u ctx w :
  calm w -> may_use (w_db w) t (applications_find_by_oidc_client_id (w_db w) t client_id) u = true ->
  exists w', run (check t client_id u ctx) w = (Some GateAllowed, w') /\ still w w'.
Proof.
  intros Hc Hm. destruct (total_run (check t client_id u ctx) w) as (g & w' & E).
  { unfold check, resolve_for_oidc_client, judge, refuse_access, record_audit.
    repeat first [done | apply total_bind | progress intros | case_match]. }
  pose proof (run_check _ _ _ _ _ _ _ E) as [_ Hg]. specialize (Hg Hc). rewrite Hm in Hg.
  destruct g; [|done]. exists w'. split; [done|]. eapply run_quiet; [apply quiet_check | exact E].
Qed.

(** The tenant's SSO lifetime leads to a representable instant. *)
Definition lifetime_representable (w : World) (u : Uuid) : Prop :=
  forall user, users_find_by_id (w_db w) u = Some user ->
  is_Some (add_duration (w_clock w) (sl_idle (tn_sso_lifetime (db_tenancy (w_db w)) (u_tenant_id user)))).
Lemma run_try_resume_calm tenant sid ctx w s :
  calm w -> sso_live (w_db w) (tc_tenant_id tenant) sid (w_clock w) s ->
  lifetime_representable w (so_user_id s) ->
  exists w', run (try_resume tenant sid ctx) w = (Some (Ok (Some (restored s (sha256_hex sid)))), w')
    /\ still w w'.
Proof.
  intros Hc [Hf Hv (u & Hu & Ha & Hl) Hm] Hrep. destruct (Hrep u Hu) as [idle Hidle].
  apply is_active_member_true in Hm.
  change (memberships_is_active (w_db w) (tc_tenant_id tenant) (so_user_id s) = true) in Hm.
  assert (exists w', run (try_resume tenant sid ctx) w
            = (Some (Ok (Some (restored s (sha256_hex sid)))), w')) as [w' E].
  2: { exists w'. split; [done|]. eapply run_quiet; [apply quiet_try_resume | exact E]. }
  unfold try_resume. rewrite run_bind. erewrite run_read_sign_in by done. cbn [run]. rewrite Hf, run_bind.
  cbn [run perform step]. rewrite Hv. cbn [negb].
  rewrite run_bind. erewrite run_read by done. cbn [run]. rewrite Hu, Ha, Hl. cbn [andb negb].
  rewrite run_bind. erewrite run_read by done. cbn [run]. rewrite Hm. cbn [negb].
  rewrite run_bind. erewrite run_read by done. cbn [run]. rewrite Hidle.
  rewrite run_bind. erewrite run_write by done. cbn [run]. rewrite run_bind.
  match goal with |- context [run (record_audit ?a ?b ?c ?d ?e ?f ?g) ?w] =>
    destruct (run_audit_ends a b c d e f g w) as (w' & -> & _); [done|] end.
  by eexists.
Qed.

(** No random value is one that a stored code, or a stored session, has. *)
Definition codes_fresh (w : World) : Prop :=
  forall n, existsb (code_has_hash (hash_code {| code_plain := w_tokens w n |})) (db_codes (w_db w)) = false.
Definition sessions_fresh (w : World) : Prop :=
  forall n r, In r (si_sessions (db_signin (w_db w))) -> r_id_hash r <> sha256_hex (w_tokens w n).
Lemma run_issue_code_calm ttl cmd ctx w :
  calm w -> codes_fresh w ->
  may_use (w_db w) (tc_tenant_id (ic_tenant cmd))
    (applications_find_by_oidc_client_id (w_db w) (tc_tenant_id (ic_tenant cmd))
       (rq_client_id (ic_request cmd)))
    (au_user_id (ic_authentication cmd)) = true ->
  exists code w', run (issue_code ttl cmd ctx) w = (Some (Ok (Issued code)), w').
Proof.
  intros Hc Hfresh Hm. unfold issue_code. rewrite run_bind.
  destruct (run_check_calm _ _ _ ctx w Hc Hm) as (w1 & -> & S1).
  pose proof (un_calm _ _ (st_untouched _ _ S1) Hc) as Hc1.
  rewrite run_bind. cbn [run perform step]. rewrite run_bind. cbn [run perform step].
  destruct (issue _ _ _ _ _ _) as [record plain] eqn:Ei. injection Ei as Er Ep.
  rewrite run_bind. erewrite run_write; [|done|].
  2: { cbn [exec]. unfold codes_create. rewrite <- Er. cbn [ac_hash w_db with_drawn].
       rewrite (un_codes _ _ (st_untouched _ _ S1)), (un_tokens _ _ (st_untouched _ _ S1)), Hfresh. done. }
  cbn [run]. rewrite run_bind.
  match goal with |- context [run (record_audit ?a ?b ?c ?d ?e ?f ?g) ?w] =>
    destruct (run_audit_ends a b c d e f g w) as (w' & -> & _); [done|] end.
  by eexists _, _.
Qed.

(** ** The hand-off *)
Lemma filter_one {A K} (key : A -> K) (p : A -> bool) (l : list A) x :
  NoDup (key <$> l) -> In x l -> p x = true -> (forall y, In y l -> p y = true -> key y = key x) ->
  length (List.filter p l) = 1%nat.
Proof.
  intros Hnd Hin Hp Hk. induction l as [|y l IH]; [done|].
  rewrite fmap_cons in Hnd. apply NoDup_cons in Hnd as [Hny Hnd]. cbn [List.filter].
  destruct Hin as [->|Hin].
  - rewrite Hp. cbn. f_equal. destruct (List.filter p l) as [|z l'] eqn:E; [done|].
    assert (In z (List.filter p l)) as [Hz Hpz]%filter_In by (rewrite E; by left).
    destruct Hny. rewrite <- (Hk z ltac:(by right) Hpz). apply list_elem_of_fmap. exists z.
    by rewrite list_elem_of_In.
  - destruct (p y) eqn:Ey.
    + destruct Hny. rewrite (Hk y ltac:(by left) Ey). apply list_elem_of_fmap. exists x.
      by rewrite list_elem_of_In.
    + apply IH; [done..|]. intros z Hz. apply Hk. by right.
Qed.
Definition sessions_keyed (d : Database) : Prop := NoDup (r_id_hash <$> si_sessions (db_signin d)).
Lemma save_handoff_exchange_ok rows t h s fresh now db_now s' x :
  NoDup (r_id_hash <$> rows) ->
  (forall r, In r rows -> r_id_hash r <> session_id_hash (hash_session_id fresh)) ->
  sql_find_by_handoff rows t h = Ok (Some s) -> exchange_handoff s now fresh = Ok (s', x) ->
  exists rows', sql_save_handoff_exchange rows x db_now = Ok (rows', true).
Proof.
  unfold sql_find_by_handoff, sql_fetch, sql_save_handoff_exchange, sql_update. intros Hnd Hfr Hf Hx.
  destruct (find _ rows) as [r|] eqn:Er; [|done].
  apply find_some in Er as [Hin [Hh _]%andb_true_iff]. apply bool_decide_eq_true in Hh.
  unfold map_row in Hf. destruct (parse (r_code_challenge_method r)) as [m|]; [|done]. injection Hf as <-.
  apply exchange_handoff_Ok in Hx. destruct Hx as (ho & Hho & _ & _ & -> & ->).
  cbn [hx_rotation hx_consumed rot_previous rot_issued issued_hash].
  assert (existsb (fun r0 => String.eqb (r_id_hash r0) (session_id_hash (hash_session_id fresh)) &&
    negb (String.eqb (r_id_hash r0) (session_id_hash (as_id_hash (reconstitute (row_parts r m)))) &&
          bool_decide (r_handle_hash r0 = Some (handle_hash_value (ho_handle_hash ho))))) rows = false) as En.
  { apply not_true_iff_false. intros (y & Hy & [He%String.eqb_eq _]%andb_true_iff)%existsb_exists.
    by apply (Hfr y). }
  unfold issued_hash. cbn [rot_issued]. rewrite En. cbn [andb]. eexists. do 2 f_equal.
  apply Nat.eqb_eq. apply (filter_one r_id_hash _ _ r); [done|done| |].
  - cbn. rewrite String.eqb_refl. apply bool_decide_eq_true.
    unfold reconstitute, handoff_of_parts, row_parts in Hho. cbn in Hho. rewrite Hh in Hho. cbn in Hho.
    destruct (r_handle_expires_at r); [|done]. by injection Hho as <-.
  - intros y _ [He%String.eqb_eq _]%andb_true_iff. exact He.
Qed.
Lemma run_exchange_handle_calm tenant raw w s :
  calm w -> sessions_keyed (w_db w) -> sessions_fresh w ->
  session_of_handle (w_db w) (tc_tenant_id tenant) raw (w_clock w) s ->
  exists s' i w', run (exchange_handle tenant raw (w_clock w)) w = (Some (Ok (s', i)), w')
    /\ as_request s' = as_request s.
Proof.
  intros Hc Hnd Hfr (h & Hh & Hf & Hv & He). unfold exchange_handle. rewrite Hh.
  rewrite run_bind. erewrite run_read_sign_in; [|done|by cbn [exec_sign_in]; rewrite Hf].
  cbn [run]. rewrite run_bind. cbn [run perform step].
  destruct (exchange_handoff s _ _) as [[s' x]|] eqn:Ex.
  2: { unfold exchange_handoff in Ex. rewrite Hv, He in Ex. cbn in Ex.
       unfold handoff_is_valid_at in Hv. by destruct (as_handoff s). }
  destruct (save_handoff_exchange_ok _ _ _ _ {| session_id_plain := w_tokens w (w_tokens_drawn w) |} _ (w_db_clock w) _ _ Hnd (Hfr (w_tokens_drawn w)) Hf Ex)
    as [rows' Es].
  rewrite run_bind. erewrite run_write; [|done|cbn [exec exec_sign_in]; cbn [w_db w_db_clock with_drawn];
    rewrite Es; done].
  cbn [run]. apply exchange_handoff_Ok in Ex. destruct Ex as (ho & _ & _ & _ & -> & ->). by eexists _, _, _.
Qed.

(** ** The flow *)
Lemma run_evaluate_calm tenant rq u methods ctx w :
  calm w ->
  (let q := request_query (tc_tenant_id tenant) rq u (ctx_ip_address ctx) (w_clock w) in
   policy_respected (policies_list_enabled (w_db w) (tc_tenant_id tenant))
     (policy_context q (policy_application (w_db w) q))
     (tn_default_effect (db_tenancy (w_db w)) (tc_tenant_id tenant)) methods) ->
  run (evaluate_for_restored_session tenant rq u methods ctx (w_clock w)) w = (Some PolicyOk, w).
Proof.
  intros Hc Hp. unfold evaluate_for_restored_session. rewrite run_bind, run_decide_policy_calm by done.
  cbn [run]. do 2 f_equal. exact (respected_restored_policy _ _ _ _ Hp).
Qed.
Lemma run_authorize_restored_calm tenant s a ttl ctx w :
  calm w -> codes_fresh w -> forces_consent (as_request s) = false ->
  consent_stands (w_db w) (tc_tenant_id tenant) (au_user_id a) (as_request s) ->
  may_use (w_db w) (tc_tenant_id tenant)
    (applications_find_by_oidc_client_id (w_db w) (tc_tenant_id tenant) (rq_client_id (as_request s)))
    (au_user_id a) = true ->
  exists loc form w', run (authorize_restored cfg tenant s a ttl ctx) w = (Some (Redirect loc form ttl), w').
Proof.
  intros Hc Hfr Hf Hcn Hm. unfold authorize_restored. rewrite Hf. cbn [negb]. rewrite run_bind.
  unfold check_consent. rewrite run_bind, (run_consent_calm _ _ _ _ Hc Hcn). cbn [run].
  unfold issue_restored_code. rewrite run_bind.
  destruct (run_issue_code_calm (az_code_ttl cfg) {| ic_tenant := tenant; ic_request := as_request s;
    ic_authentication := a |} ctx w Hc Hfr Hm) as (code & w1 & ->).
  rewrite run_bind. unfold delete_session. rewrite run_bind.
  destruct (run (sql (SignIn (SessionsDelete (as_id_hash s)))) w1) as [[r|] w2] eqn:E; [by eexists _, _, _|].
  destruct (total_run (sql (SignIn (SessionsDelete (as_id_hash s)))) w1) as (? & ? & E'); [done|congruence].
Qed.
Lemma codes_fresh_still w w' : still w w' -> codes_fresh w -> codes_fresh w'.
Proof. intros [U _] H n. by rewrite (un_tokens _ _ U), (un_codes _ _ U). Qed.
Lemma run_complete_with_sso_calm tenant s sso sid ctx w x :
  calm w -> codes_fresh w -> non_empty sso = Some sid ->
  sso_suffices (w_db w) (tc_tenant_id tenant) (as_request s) sid (ctx_ip_address ctx) (w_clock w) x ->
  lifetime_representable w (so_user_id x) -> forces_consent (as_request s) = false ->
  consent_stands (w_db w) (tc_tenant_id tenant) (so_user_id x) (as_request s) ->
  may_use (w_db w) (tc_tenant_id tenant)
    (applications_find_by_oidc_client_id (w_db w) (tc_tenant_id tenant) (rq_client_id (as_request s)))
    (so_user_id x) = true ->
  exists loc form w', run (complete_with_sso cfg tenant s sso ctx (w_clock w)) w
    = (Some (Some (Redirect loc form (absolute_ttl_secs x))), w').
Proof.
  intros Hc Hfr Hsid [Hl Hp Ha Hr] Hrep Hf Hcn Hm. unfold complete_with_sso. rewrite Hr, Hsid, run_bind.
  destruct (run_try_resume_calm tenant sid ctx w x Hc Hl Hrep) as (w1 & -> & S1).
  pose proof (still_directory _ _ S1) as D1. pose proof (un_calm _ _ (st_untouched _ _ S1) Hc) as Hc1.
  rewrite run_bind, <- (still_clock _ _ S1). rewrite run_evaluate_calm; [|done|].
  2: { cbn zeta in *. rewrite (still_clock _ _ S1).
       unfold policies_list_enabled, policy_application in *. cbn [pq_audience request_query restored rs_user_id
         rs_authentication_methods] in *.
       rewrite (applications_oidc_eq _ _ _ _ D1). injection D1 as _ _ _ _ _ _ _ _ -> _. exact Hp. }
  cbn [restored rs_auth_time]. rewrite (still_clock _ _ S1), Ha, run_bind.
  destruct (run_authorize_restored_calm tenant s (sso_authentication x sid) (absolute_ttl_secs x) ctx w1)
    as (loc & form & w2 & E).
  - done.
  - by eapply codes_fresh_still.
  - done.
  - eapply consent_stands_eq; [symmetry; apply S1 | exact Hcn].
  - cbn [au_user_id sso_authentication].
    by rewrite (applications_oidc_eq _ _ _ _ D1), (may_use_eq _ _ _ _ _ D1).
  - exists loc, form, w2. unfold sso_authentication in E. cbn [restored rs_user_id rs_session_hash
      rs_authentication_methods rs_absolute_ttl_secs]. by rewrite E.
Qed.

(** C17: When nothing fails, a browser that is signed in is not asked to sign in
    again.  If the handle names a live session, the browser's SSO session answers
    the request (valid, of a user in good standing, meeting every policy and
    [max_age]), the user has consented and the application admits the user, then
    [resume] redirects with a code.  With [resume_sound] the conditions are exact. *)
Theorem resume_complete tenant cmd ctx w s sid x :
  calm w -> sessions_keyed (w_db w) -> sessions_fresh w -> codes_fresh w ->
  session_of_handle (w_db w) (tc_tenant_id tenant) (rc_handle cmd) (w_clock w) s ->
  non_empty (rc_sso_session_id cmd) = Some sid ->
  sso_suffices (w_db w) (tc_tenant_id tenant) (as_request s) sid (ctx_ip_address ctx) (w_clock w) x ->
  lifetime_representable w (so_user_id x) ->
  forces_consent (as_request s) = false ->
  consent_stands (w_db w) (tc_tenant_id tenant) (so_user_id x) (as_request s) ->
  may_use (w_db w) (tc_tenant_id tenant)
    (applications_find_by_oidc_client_id (w_db w) (tc_tenant_id tenant) (rq_client_id (as_request s)))
    (so_user_id x) = true ->
  exists loc form w', run (resume cfg tenant cmd ctx) w = (Some (Redirect loc form (absolute_ttl_secs x)), w').
Proof.
  intros Hc Hk Hsf Hcf Hs Hsid Hx Hrep Hf Hcn Hm. unfold resume. rewrite run_bind.
  cbn [run perform step]. rewrite run_bind.
  destruct (run_exchange_handle_calm _ _ _ _ Hc Hk Hsf Hs) as (s' & i & w1 & E & Erq). rewrite E.
  apply run_exchange_handle in E. destruct E as (S1 & Esso & _).
  pose proof (still_directory _ _ S1) as D1. rewrite <- Erq in *. rewrite run_bind, <- (still_clock _ _ S1).
  destruct (run_complete_with_sso_calm tenant s' (rc_sso_session_id cmd) sid ctx w1 x)
    as (loc & form & w2 & ->).
  - by apply S1.
  - by eapply codes_fresh_still.
  - done.
  - rewrite (still_clock _ _ S1). by eapply sso_suffices_eq; [symmetry| symmetry|].
  - intros u Hu. rewrite (still_clock _ _ S1). rewrite (users_find_eq _ _ _ D1) in Hu.
    injection D1 as _ _ _ _ _ _ _ _ -> _. by apply Hrep.
  - done.
  - eapply consent_stands_eq; [symmetry; apply S1 | exact Hcn].
  - by rewrite (applications_oidc_eq _ _ _ _ D1), (may_use_eq _ _ _ _ _ D1).
  - by eexists _, _, _.
Qed.
End calm.

(** ** Witness *)
Lemma toy_sso_suffices :
  sso_suffices (w_db (resume_world [])) 1%N (toy_request []) "browser" None toy_now toy_sso.
Proof.
  split; [split|..]; [by vm_compute|by vm_compute| | | |by vm_compute|by vm_compute].
  - exists toy_user. by vm_compute.
  - apply is_active_member_true. by vm_compute.
  - apply restored_policy_respected. by vm_compute.
Qed.
Definition toy_row : AuthSessionRow := insert_row (started []) (seconds 995).
Definition toy_started : AuthSession := reconstitute (row_parts toy_row S256).
Lemma resume_complete_witness :
  sso_suffices (w_db (resume_world [])) 1%N (toy_request []) "browser" None toy_now toy_sso
  /\ exists loc form w',
    run (resume toy_authorize_config toy_context toy_resume toy_ctx) (resume_world [])
    = (Some (Redirect loc form (absolute_ttl_secs toy_sso)), w').
Proof.
  split; [apply toy_sso_suffices|].
  apply (resume_complete toy_authorize_config toy_context toy_resume toy_ctx (resume_world [])
           toy_started "browser" toy_sso).
  - done.
  - by apply (bool_decide_unpack _); vm_compute.
  - intros n r [<-|[]]. by vm_compute.
  - intros n. by vm_compute.
  - exists {| handle_plain := "handle" |}. by vm_compute.
  - done.
  - apply toy_sso_suffices.
  - intros user Hu. vm_compute in Hu. injection Hu as <-. vm_compute. by eexists.
  - done.
  - intros scope [<-|[<-|[]]] Hne; [done|]. exists toy_consent. split; [by vm_compute|by left].
  - by vm_compute.
Defined.
