(* ===== verification/ConsentTheorems.v ===== *)
(** * What the consent page guarantees *)

From S2P Require Import Prelude Values ResponseMode External AuditLog Directory Application Client.
From S2P Require Import AuthenticationPolicy AuthorizationRequest AuthSession AuthSessionStore.
From S2P Require Import AuthorizationCode SsoSession SessionKey Membership Consent SignInStore.
From S2P Require Import Effects AccessGate SignInGates Authorize ConsentFlow ProgLogic OneShots Frames Paths.
From S2P Require Import AccessTheorems SignInSteps AuthorizeTheorems Example SignInExample.

Section theorems.
Context {HS : Hashing} {UC : UrlCrate} {CO : Collation} (code_ttl : Duration).

Lemma quiet_live_session t raw : is_quiet (live_session t raw).
Proof. unfold live_session. prog_always. Qed.

(** The session a page names: stored under its identifier, of this tenant, not
    expired. *)
Definition session_of_id (d : Database) (t : TenantId) (raw : string) (now : DateTime)
  (s : AuthSession) : Prop :=
  exists i, session_id_from_presented raw = Some i
    /\ sql_find (si_sessions (db_signin d)) t (hash_session_id i) = Ok (Some s)
    /\ session_is_expired_at s now = false.
Lemma run_live_session t raw w s w' :
  run (live_session t raw) w = (Some (Ok (Some s)), w') ->
  still w w' /\ session_of_id (w_db w) (tc_tenant_id t) raw (w_clock w) s.
Proof.
  intros H. split; [eapply run_quiet; [apply quiet_live_session | exact H]|].
  unfold live_session in H. destruct (session_id_from_presented raw) as [i|] eqn:Ei; [|done].
  apply run_try in H. destruct H as ([s0|] & w1 & Hf & H); [|done].
  assert (still w w1) as S1 by by eapply run_sql_quiet; [|exact Hf].
  apply run_do in H. destruct H as (now & w1' & Hn & H). apply run_Now in Hn. destruct Hn as [-> ->].
  rewrite (still_clock _ _ S1) in H. destruct (session_is_expired_at s0 (w_clock w)) eqn:Ee.
  - apply run_do in H. destruct H as ([] & ? & _ & H). by cbn in H.
  - injection H as -> _. apply run_sql_Ok in Hf. injection Hf as Hf _. by exists i.
Qed.

(** The database with what the user has just granted. *)
Definition granted (d : Database) (c : ClientConsent) : Database :=
  set_signin d (set_consents (db_signin d) (consents_upsert (si_consents (db_signin d)) c)).
Lemma run_consents_upsert c w w0 w' :
  still w0 w -> run (sql (SignIn (ConsentsUpsert c))) w = (Some (Ok tt), w') ->
  still (with_db w0 (granted (w_db w0) c)) w'.
Proof.
  intros [U Q] H. pose proof (run_fixed _ _ _ _ H) as F. pose proof (run_tokens _ _ _ _ H) as T.
  assert (calm w -> calm w') as C by (intros; by eapply run_calm).
  apply run_sql_Ok in H. cbn [exec exec_sign_in] in H. injection H as H.
  split; [split|]; rewrite <- ?H; cbn.
  - apply U.
  - apply U.
  - apply U.
  - rewrite F. apply U.
  - rewrite T. apply U.
  - intros Hc. apply C, U. exact Hc.
  - by rewrite Q.
Qed.

(** C25: An approval issues what was asked, to who signed in.  If [approve] answers
    with a redirect, whatever failed on the way, then the page named a live session
    of this tenant with a completed authentication; the user's grant of the
    request's scopes is recorded, so that every scope is consented to; and the one
    new code is for the session's request and the session's authentication, behind
    the application gate, and is sent to the request's redirect URI. *)
Theorem approve_sound tenant raw ctx w loc form w' :
  run (approve code_ttl tenant raw ctx) w = (Some (Approved loc form), w') ->
  exists s a code,
    session_of_id (w_db w) (tc_tenant_id tenant) raw (w_clock w) s
    /\ completed_authentication s = Some a
    /\ let c := consent_of tenant a (as_request s) (w_clock w) in
       code_issued code_ttl {| ic_tenant := tenant; ic_request := as_request s; ic_authentication := a |}
         (with_db w (granted (w_db w) c)) w' code
       /\ consent_stands (w_db w') (tc_tenant_id tenant) (au_user_id a) (as_request s)
       /\ {| ds_location := loc; ds_form_post := form |} = dispatch (success_response (as_request s) code).
Proof.
  unfold approve. intros H. apply run_do in H.
  destruct H as ([[s|]|e] & w1 & Hl & H); [|done|done].
  apply run_live_session in Hl. destruct Hl as [S1 Hs].
  destruct (completed_authentication s) as [a|] eqn:Ea; [|done].
  apply run_do in H. destruct H as (now & w1' & Hn & H). apply run_Now in Hn. destruct Hn as [-> ->].
  rewrite (still_clock _ _ S1) in H. set (c := consent_of tenant a (as_request s) (w_clock w)) in *.
  apply run_do in H. destruct H as ([[]|e] & w2 & Hu & H); [|done].
  apply (run_consents_upsert _ _ _ _ S1) in Hu.
  apply run_do in H. destruct H as ([] & w3 & Ha & H).
  assert (still w2 w3) as S3 by (eapply run_quiet; [apply quiet_audit | exact Ha]).
  apply run_do in H. destruct H as ([[code|name]|e] & w4 & Hi & H); [|done|done].
  apply run_issue_code in Hi. apply run_do in H. destruct H as ([] & w5 & Hd & H). injection H as <- <- <-.
  assert (still w4 w5) as S5 by (eapply run_quiet; [apply quiet_delete_session | exact Hd]).
  eapply code_issued_still in Hi; [|etransitivity; [exact Hu | exact S3] | exact S5].
  exists s, a, code. split; [done|]. split; [done|]. split; [exact Hi|]. split; [|reflexivity].
  intros scope Hin _. rewrite (ci_consents _ _ _ _ _ Hi). cbn [w_db with_db granted db_signin set_signin
    si_consents set_consents].
  destruct (upsert_find (si_consents (db_signin (w_db w))) c (rq_client_id (as_request s))) as (c' & Hf & Hsc).
  { unfold collates. by rewrite String.eqb_refl. }
  exists c'. split; [exact Hf|]. by rewrite Hsc.
Qed.

(** A refusal issues nothing.  [deny] writes no code, token or consent, and
    sends the browser to the request's redirect URI with [access_denied]. *)
Theorem deny_sound tenant raw ctx w o w' :
  run (deny tenant raw ctx) w = (Some o, w') ->
  still w w' /\
  match o with
  | ConsentRefused loc form => exists s,
      session_of_id (w_db w) (tc_tenant_id tenant) raw (w_clock w) s
      /\ {| ds_location := loc; ds_form_post := form |}
         = dispatch (error_response (as_request s) AccessDenied "user denied consent")
  | ConsentSessionExpired | ConsentInternal _ => True
  | Approved _ _ | ConsentNotPermitted _ => False
  end.
Proof.
  intros H. split.
  { eapply run_quiet; [|exact H]. unfold deny. pose proof quiet_delete_session. pose proof quiet_live_session.
    prog_always. }
  unfold deny in H. apply run_do in H. destruct H as ([[s|]|e] & w1 & Hl & H).
  - apply run_live_session in Hl. destruct Hl as [_ Hs].
    apply run_do in H. destruct H as ([] & w2 & _ & H).
    apply run_do in H. destruct H as ([] & w3 & _ & H). injection H as <- _. by exists s.
  - by injection H as <- _.
  - by injection H as <- _.
Qed.
End theorems.

(** ** Witnesses *)
Lemma approve_sound_witness :
  approved.1 = Some (Approved "https://app/cb?code=token-0&state=st" None)
  /\ exists s a code,
    session_of_id (w_db consent_world) (tc_tenant_id toy_context) "page" (w_clock consent_world) s
    /\ completed_authentication s = Some a
    /\ let c := consent_of toy_context a (as_request s) (w_clock consent_world) in
       code_issued (seconds 60) {| ic_tenant := toy_context; ic_request := as_request s; ic_authentication := a |}
         (with_db consent_world (granted (w_db consent_world) c)) approved.2 code
       /\ consent_stands (w_db approved.2) (tc_tenant_id toy_context) (au_user_id a) (as_request s)
       /\ {| ds_location := "https://app/cb?code=token-0&state=st"; ds_form_post := None |}
          = dispatch (success_response (as_request s) code).
Proof.
  split; [by vm_compute|].
  apply (approve_sound (seconds 60) toy_context "page" toy_ctx consent_world
           "https://app/cb?code=token-0&state=st" None approved.2).
  apply approved_run. by vm_compute.
Defined.
Definition toy_refusal : AuthorizationDispatch :=
  dispatch (error_response (toy_request []) AccessDenied "user denied consent").
Lemma deny_sound_witness :
  denied.1 = Some (ConsentRefused (ds_location toy_refusal) (ds_form_post toy_refusal))
  /\ still consent_world denied.2.
Proof.
  split; [by vm_compute|].
  apply (deny_sound toy_context "page" toy_ctx consent_world
           (ConsentRefused (ds_location toy_refusal) (ds_form_post toy_refusal)) denied.2).
  apply denied_run. by vm_compute.
Defined.
