(* ===== verification/CompletionTheorems.v ===== *)
(** * What the end of a sign-in guarantees

    The device gate, the SSO session that is established, and the code that is
    issued to its user. *)

From S2P Require Import Prelude Values ResponseMode External AuditLog Directory Application Client.
From S2P Require Import AuthenticationPolicy AuthorizationRequest AuthSession AuthSessionStore.
From S2P Require Import AuthorizationCode SsoSession SessionKey Membership Consent UserDevice.
From S2P Require Import Decimal EnrollmentTicket SignInStore Effects AccessGate SignInGates Authorize DeviceGate.
From S2P Require Import SignInCompletion ProgLogic OneShots Frames Paths AccessTheorems SignInSteps.
From S2P Require Import AuthorizeTheorems Example SignInExample.

Section theorems.
Context {HS : Hashing} {UC : UrlCrate} {CO : Collation} {TC : TicketCrypto}.

(** ** The device gate *)
Definition user_devices (d : Database) : DeviceTable := si_devices (db_signin d).
(** Who may sign in from this browser: who was approved in the registered app,
    whose home tenant asks for nothing, or who has registered the browser. *)
Definition device_trusted (d : Database) (origin : RequestOrigin) (a : AdmissionAttempt) : bool :=
  aa_app_approved a
  || negb (tn_registered_device_required (db_tenancy d) (aa_home_tenant_id a))
  || is_some_and (fun device => is_some (devices_find (user_devices d) (aa_user_id a) device))
       (ro_device origin).
Lemma quiet_send_alert u k now o ctx d : is_quiet (send_alert u k now o ctx d).
Proof. unfold send_alert. prog_always. Qed.
Hint Resolve quiet_send_alert : prog.
Lemma quiet_gate_admit key origin a ctx now : is_quiet (gate_admit key origin a ctx now).
Proof. unfold gate_admit, refuse_device. prog_always. Qed.
Hint Resolve quiet_gate_admit : prog.
Lemma gate_admit_keeps_sso key origin a ctx now :
  always (sql_prop (sign_in_prop keeps_sso)) (gate_admit key origin a ctx now).
Proof. unfold gate_admit, refuse_device, send_alert, record_audit. prog_always. Qed.

Lemma run_refuse_device key origin a ctx now w r w' :
  run (refuse_device key origin a ctx now) w = (Some (Ok r), w') ->
  r = EnrollmentRequired (ticket_sign key (ticket_for a (ro_device origin) now)).
Proof.
  unfold refuse_device. intros H. apply run_do in H. destruct H as ([] & w1 & _ & H).
  apply run_try in H. destruct H as (user & w2 & _ & H).
  apply run_do in H. destruct H as ([] & w3 & _ & H). by injection H as <- _.
Qed.
Lemma record_audit_keeps_sso et r t u c m ctx :
  always (sql_prop (sign_in_prop keeps_sso)) (record_audit et r t u c m ctx).
Proof. unfold record_audit. prog_always. Qed.
Lemma run_gate_admit key origin a ctx now w r w' :
  run (gate_admit key origin a ctx now) w = (Some (Ok r), w') ->
  still w w' /\ si_sso (db_signin (w_db w')) = si_sso (db_signin (w_db w))
  /\ r = if device_trusted (w_db w) origin a then DeviceAdmitted
         else EnrollmentRequired (ticket_sign key (ticket_for a (ro_device origin) now)).
Proof.
  intros H. split; [eapply run_quiet; [apply quiet_gate_admit | exact H]|]. split.
  { eapply (run_keeps_sso _ _ _ _); [apply gate_admit_keeps_sso | exact H]. }
  unfold gate_admit, device_trusted in *. destruct (aa_app_approved a); [by injection H as <- _|].
  apply run_try in H. destruct H as (required & w1 & Hr & H).
  apply run_sql_Ok in Hr. injection Hr as Hr Hdb.
  rewrite Hr. destruct required; cbn [negb orb] in *; [|by injection H as <- _].
  destruct (ro_device origin) as [device|] eqn:Ed; cbn [is_some_and].
  2: { apply run_refuse_device in H. by rewrite Ed in H. }
  apply run_try in H. destruct H as (known & w2 & Hk & H).
  apply run_sql_Ok in Hk. cbn [exec exec_sign_in] in Hk. injection Hk as Hk _.
  unfold user_devices. rewrite Hdb, Hk. destruct (is_some known); [by injection H as <- _|].
  apply run_refuse_device in H. by rewrite Ed in H.
Qed.
(** C18: Only registered devices get in.  Whatever fails on the way, [gate_admit] answers
    [Admitted] exactly when the device is trusted, and otherwise with a ticket for
    this tenant, user, browser and these methods, good for ten minutes; it makes no
    session and writes no code, token, user or consent. *)
Theorem device_gate_correct key origin a ctx now w r w' :
  run (gate_admit key origin a ctx now) w = (Some (Ok r), w') ->
  still w w' /\ si_sso (db_signin (w_db w')) = si_sso (db_signin (w_db w))
  /\ r = if device_trusted (w_db w) origin a then DeviceAdmitted
         else EnrollmentRequired (ticket_sign key (ticket_for a (ro_device origin) now)).
Proof. apply run_gate_admit. Qed.
(** The ticket opens in the browser it was made for, and nowhere else.  For ten
    minutes [open_ticket] gives back the user, the browser and the methods the gate
    refused; another tenant, another browser or a later time gets nothing. *)
Theorem enrollment_ticket_opens key origin tenant a device now now' :
  crypto_laws -> no_dot (device_ref_hash device) ->
  device_ref_hash device <> "-" -> device_ref_hash device <> "" ->
  in_i64 (timestamp now + ENROLLMENT_TICKET_TTL_SECS) = true ->
  (str_len (ticket_sign key (ticket_for a (Some device) now)) <= 512)%Z ->
  open_ticket key origin tenant (ticket_sign key (ticket_for a (Some device) now)) now'
  = if N.eqb (aa_tenant_id a) tenant && bool_decide (ro_device origin = Some device)
       && (timestamp now' <=? timestamp now + ENROLLMENT_TICKET_TTL_SECS)%Z
    then Some (ticket_for a (Some device) now) else None.
Proof.
  intros L Hd Hdash Hne Hz Hlen. unfold open_ticket. rewrite ticket_verify_signed by done.
  cbn [ticket_for et_expires_at].
  destruct (Z.ltb_spec (timestamp now + ENROLLMENT_TICKET_TTL_SECS) (timestamp now')) as [Hlt|Hle]; cbn [mbind option_bind].
  { rewrite (proj2 (Z.leb_gt _ _)), andb_false_r by lia. done. }
  rewrite (proj2 (Z.leb_le _ _)), andb_true_r by lia. cbn [ticket_for et_tenant_id et_device unwrap_or fmap option_fmap option_map].
  apply str_is_empty_false in Hne. rewrite Hne, orb_false_r.
  destruct (N.eqb (aa_tenant_id a) tenant); cbn [negb andb]; [|done].
  destruct (ro_device origin) as [[h]|]; cbn [mbind option_bind device_ref_hash].
  2: { by rewrite bool_decide_eq_false_2. }
  destruct device as [h']. cbn. destruct (String.eqb_spec h h') as [->|Hn].
  - by rewrite bool_decide_eq_true_2.
  - rewrite bool_decide_eq_false_2; [done|]. by intros [= ->].
Qed.

(** ** The session *)
Context (code_ttl : Duration) (device_gate : option string) (origin : RequestOrigin).
(** [new_session]: what a sign-in stores and hands to the browser. *)
Record sso_established (w w' : World) (sign_in : SignInFacts) (binding : SessionBinding)
  (e : EstablishedSso) (now : DateTime) : Prop := {
  en_trusted : device_gate = None
    \/ device_trusted (w_db w) origin (admission_attempt sign_in binding) = true;
  en_secret : exists n, es_session_id e = w_tokens w n;
  en_hash : so_session_hash (es_session e) = sha256_hex (es_session_id e);
  en_user : so_user_id (es_session e) = sn_user_id sign_in;
  en_time : so_auth_time (es_session e) = now;
  en_methods : so_authentication_methods (es_session e) = sn_methods sign_in;
  en_life : let l := tn_sso_lifetime (db_tenancy (w_db w)) (sn_home_tenant_id sign_in) in
    (so_idle_expires_at (es_session e), so_absolute_expires_at (es_session e))
    = lifetime_for now (now + sl_idle l)%Z binding false (sl_absolute l) (sl_bound l);
  en_stored : sso_find_by_hash (si_sso (db_signin (w_db w'))) (so_session_hash (es_session e))
    = Some (sso_row (es_session e) (w_db_clock w));
  en_new : sso_find_by_hash (si_sso (db_signin (w_db w))) (so_session_hash (es_session e)) = None;
  en_still : still w w'
}.
Lemma sso_create_find t s now t' :
  sso_create t s now = Some t' ->
  sso_find_by_hash t (so_session_hash s) = None
  /\ sso_find_by_hash t' (so_session_hash s) = Some (sso_row s now).
Proof.
  unfold sso_create, sso_find_by_hash. destruct (existsb _ _) eqn:E; [done|]. intros [= <-]. split.
  - destruct (find _ _) as [x|] eqn:F; [|done]. apply find_some in F as [Hin Hx].
    apply not_true_iff_false in E. destruct E. apply existsb_exists. eauto.
  - cbn. unfold by_hash at 1. cbn. by rewrite String.eqb_refl.
Qed.
Lemma run_admit sign_in binding ctx now w r w' :
  run (admit_device device_gate origin sign_in binding ctx now) w = (Some (Ok r), w') ->
  still w w' /\ si_sso (db_signin (w_db w')) = si_sso (db_signin (w_db w))
  /\ (r = DeviceAdmitted -> device_gate = None
      \/ device_trusted (w_db w) origin (admission_attempt sign_in binding) = true).
Proof.
  unfold admit_device. destruct device_gate as [key|].
  - intros H. apply run_gate_admit in H. destruct H as (S & Hs & ->). split; [done|]. split; [done|].
    destruct (device_trusted _ _ _); [auto|done].
  - intros [= <- <-]. split; [done|]. auto.
Qed.
Lemma run_establish sign_in binding ctx now w e w' :
  run (establish_sso_with_binding device_gate origin sign_in binding ctx now) w
    = (Some (Ok (Established e)), w') ->
  sso_established w w' sign_in binding e now.
Proof.
  unfold establish_sso_with_binding. intros H. apply run_try in H. destruct H as (adm & w1 & Ha & H).
  apply run_admit in Ha. destruct Ha as (S1 & Hs1 & Ht). destruct adm as [|ticket]; [|done].
  specialize (Ht eq_refl).
  apply run_try in H. destruct H as (l & w2 & Hl & H).
  assert (still w1 w2) as S2 by by eapply run_sql_quiet; [|exact Hl].
  apply run_sql_Ok in Hl. injection Hl as Hl Hdb2.
  pose proof (still_directory _ _ S1) as D1. injection D1 as _ _ _ _ _ _ _ _ Et _. rewrite Et in Hl.
  destruct (add_duration now (sl_idle l)) as [idle|] eqn:Ei; [|done].
  destruct (lifetime_for now idle binding false (sl_absolute l) (sl_bound l)) as [ie ae] eqn:El.
  apply run_do in H. destruct H as (secret & w3 & Hr & H).
  pose proof Hr as Hr'. cbn in Hr'. injection Hr' as _ Hw3.
  apply run_RandomToken in Hr. destruct Hr as [-> S3].
  destruct (establish _ _ _ _ _ _ _ _) as [session|] eqn:Es; [|done].
  apply run_try in H. destruct H as ([] & w4 & Hc & H).
  assert (still w3 w4) as S4 by by eapply run_sql_quiet; [|exact Hc].
  apply run_sql_Ok in Hc. cbn [exec exec_sign_in] in Hc.
  destruct (sso_create _ _ _) as [t|] eqn:Ecr; [|done]. injection Hc as Hc.
  apply sso_create_find in Ecr. destruct Ecr as [Hnew Hfind].
  apply run_do in H. destruct H as ([] & w5 & Ha5 & H).
  apply run_do in H. destruct H as ([] & w6 & Ha6 & H). injection H as <- <-.
  pose proof (run_keeps_sso _ _ _ _ (record_audit_keeps_sso _ _ _ _ _ _ _) Ha5) as K5.
  pose proof (run_keeps_sso _ _ _ _ (record_audit_keeps_sso _ _ _ _ _ _ _) Ha6) as K6.
  assert (still w4 w5) as S5 by (eapply run_quiet; [apply quiet_audit | exact Ha5]).
  assert (still w5 w6) as S6 by (eapply run_quiet; [apply quiet_audit | exact Ha6]).
  assert (still w w3) as S03 by by (transitivity w1; [|transitivity w2]).
  unfold establish in Es.
  destruct (add_duration now (ie - now)) as [i|] eqn:Ei1; [|done].
  destruct (add_duration now (ae - now)) as [b|] eqn:Eb; [|done]. injection Es as <-.
  apply add_duration_Some in Ei, Ei1, Eb. cbn [es_session es_session_id so_session_hash] in *.
  split; cbn [es_session es_session_id so_session_hash so_user_id so_auth_time so_authentication_methods
    so_idle_expires_at so_absolute_expires_at]; try done.
  - exists (w_tokens_drawn w2). rewrite (un_tokens _ _ (st_untouched _ _ S2)).
    by rewrite (un_tokens _ _ (st_untouched _ _ S1)).
  - cbn zeta. rewrite Hl, <- Ei, El. f_equal; lia.
  - rewrite K6, K5, <- Hc. cbn [db_signin set_signin si_sso set_sso]. rewrite Hfind.
    pose proof (un_fixed _ _ (st_untouched _ _ S03)) as F. by injection F as _ -> _.
  - rewrite <- Hs1. subst w3. cbn [w_db with_drawn] in Hnew. by rewrite Hdb2.
  - transitivity w3; [done|]. transitivity w4; [done|]. by transitivity w5.
Qed.
(** A session is established for whom it says.  If a sign-in ends with a session,
    whatever failed on the way, the device gate let it pass; the session is stored
    under the hash of a fresh secret that only the caller has, of this user, with
    these methods, at this time and with the lifetime the user's home tenant sets;
    and no code, token, user or consent has changed. *)
Theorem establish_sound sign_in binding ctx now w e w' :
  run (establish_sso_with_binding device_gate origin sign_in binding ctx now) w
    = (Some (Ok (Established e)), w') ->
  sso_established w w' sign_in binding e now.
Proof. apply run_establish. Qed.

(** ** The flow goes on *)
Lemma continue_keeps_sso tenant s sso now ctx :
  always (sql_prop (sign_in_prop keeps_sso)) (continue_authorization code_ttl tenant s sso now ctx).
Proof.
  unfold continue_authorization, consent_is_granted, issue_code, check, resolve_for_oidc_client, judge,
    refuse_access, delete_session, record_audit. prog_always.
Qed.
Lemma run_continue_authorization tenant s sso now ctx w d w' :
  run (continue_authorization code_ttl tenant s sso now ctx) w = (Some (Ok (Authorized d)), w') ->
  si_sso (db_signin (w_db w')) = si_sso (db_signin (w_db w))
  /\ exists code,
    let a := authentication_of (es_session sso) now in
    code_issued code_ttl {| ic_tenant := tenant; ic_request := as_request s; ic_authentication := a |} w w' code
    /\ consent_stands (w_db w) (tc_tenant_id tenant) (so_user_id (es_session sso)) (as_request s)
    /\ d = dispatch (success_response (as_request s) code).
Proof.
  intros H. split; [eapply (run_keeps_sso _ _ _ _); [apply continue_keeps_sso | exact H]|].
  unfold continue_authorization in H. apply run_do in H. destruct H as (fresh & w1 & Hr & H).
  apply run_RandomToken in Hr. destruct Hr as [_ S1].
  destruct (complete_authentication _ _ _) as [s' x] eqn:Ex.
  assert (as_request s' = as_request s) as Erq by by injection Ex as <- _.
  apply run_try in H. destruct H as ([] & w2 & Hs & H).
  assert (still w1 w2) as S2 by by eapply run_sql_quiet; [|exact Hs].
  apply run_try in H. destruct H as (consented & w3 & Hc & H).
  assert (still w2 w3) as S3 by (eapply run_quiet; [apply quiet_consent | exact Hc]).
  destruct consented; cbn [negb] in H; [|done]. apply run_consent_is_granted in Hc.
  apply run_try in H. destruct H as ([code|name] & w4 & Hi & H); [|done].
  apply run_issue_code in Hi. apply run_do in H. destruct H as ([] & w5 & Hd & H). injection H as <- <-.
  assert (still w4 w5) as S5 by (eapply run_quiet; [apply quiet_delete_session | exact Hd]).
  assert (still w w3) as S03 by by (transitivity w1; [|transitivity w2]).
  rewrite Erq in *. exists code. split; [by eapply code_issued_still|]. split; [|done].
  eapply consent_stands_eq; [|exact Hc]. etransitivity; [apply S2 | apply S1].
Qed.
(** After the sign-in the code is for the one who signed in.  If
    [continue_authorization] ends the flow, the user has consented to every scope,
    the application admits the user, and the one new code is for the session's
    request and names the user, the methods and the identifier of the SSO session
    just established. *)
Theorem continue_authorization_sound tenant s sso now ctx w d w' :
  run (continue_authorization code_ttl tenant s sso now ctx) w = (Some (Ok (Authorized d)), w') ->
  si_sso (db_signin (w_db w')) = si_sso (db_signin (w_db w))
  /\ exists code,
    let a := authentication_of (es_session sso) now in
    code_issued code_ttl {| ic_tenant := tenant; ic_request := as_request s; ic_authentication := a |} w w' code
    /\ consent_stands (w_db w) (tc_tenant_id tenant) (so_user_id (es_session sso)) (as_request s)
    /\ d = dispatch (success_response (as_request s) code).
Proof. apply run_continue_authorization. Qed.
End theorems.
