(* ===== verification/AuthenticatorTheorems.v ===== *)
(** * What the registry of authenticators guarantees

    Codes are used once and TOTP steps only forward, whatever requests run at the same
    time; enrolment as the code does it, and two ways in which it goes wrong. *)

From S2P Require Import Prelude Values External AuditLog Directory AuthSessionStore SsoSession Authenticator.
From S2P Require Import LoginIdentifier Lockout SignInStore Effects AccessGate PasswordPolicy.
From S2P Require Import AuthenticatorManagement Authorize Login MfaLogin ProgLogic OneShots Frames Paths.

(** ** UPDATE .. WHERE *)
Lemma update_where_none p f now rows rows' :
  update_where p f now rows = (rows', 0) -> rows' = rows.
Proof.
  unfold update_where. intros [= <- Hn]. apply nil_length_inv in Hn.
  induction rows as [|a rows IH]; [done|]. cbn in *. destruct (p a); [done|]. by rewrite IH.
Qed.
Lemma update_where_some p f now rows rows' n :
  update_where p f now rows = (rows', S n) -> exists a, In a rows /\ p a = true.
Proof.
  unfold update_where. intros [= _ Hn]. destruct (List.filter p rows) as [|a l] eqn:E; [done|].
  exists a. apply filter_In. rewrite E. by left.
Qed.
Lemma update_where_In p f now rows rows' n a' :
  update_where p f now rows = (rows', n) -> In a' rows' ->
  exists a, In a rows /\ a' = if p a then change_row now a (f a) else a.
Proof. unfold update_where. intros [= <- _] H. apply in_map_iff in H as (a & <- & Ha). by exists a. Qed.

(** ** What the statements do to the rows that satisfy a predicate *)
Inductive auths_change (q : UserAuthenticator -> bool) : AuthenticatorTable -> AuthenticatorTable -> Prop :=
  | auths_same rows : auths_change q rows rows
  | auths_added rows a : q a = false -> auths_change q rows (rows ++ [a])%list
  | auths_mapped rows f : (forall a, q (f a) = true -> q a = true) -> auths_change q rows (map f rows)
  | auths_cut rows p : auths_change q rows (List.filter p rows).
Lemma auths_change_count q rows rows' :
  auths_change q rows rows' -> length (List.filter q rows') <= length (List.filter q rows).
Proof.
  intros [| rows0 a Ha | rows0 f Hf | rows0 p]; [done|..].
  - rewrite List.filter_app, length_app. cbn. rewrite Ha. cbn. lia.
  - induction rows0 as [|a rows0 IH]; [done|]. cbn. destruct (q (f a)) eqn:E.
    + rewrite (Hf _ E). cbn. lia.
    + destruct (q a); cbn; lia.
  - induction rows0 as [|a rows0 IH]; [done|]. cbn. destruct (p a); cbn; destruct (q a); cbn; lia.
Qed.
Lemma auths_change_update q p f now rows :
  (forall a, p a = true -> q (change_row now a (f a)) = true -> q a = true) ->
  auths_change q rows (update_where p f now rows).1.
Proof. intros H. apply auths_mapped. intros a. destruct (p a) eqn:E; [by apply H|done]. Qed.

(** ** Codes are used once *)
(** A code that could still be used: a row of this user and type with this hash that
    is active. *)
Definition open_code (u : Uuid) (t : AuthenticatorType) (h : string) (a : UserAuthenticator) : bool :=
  has_user_type u t a && has_secret h a && bool_decide (ua_status a = StatusActive).
(** Nobody meanwhile issues the same code again or sets an authenticator active. *)
Definition keeps_code (u : Uuid) (t : AuthenticatorType) (h : string) : StmtProp := fun A s =>
  match s with
  | SignIn (AuthsCreate a) => has_user_type u t a && has_secret h a = false
  | SignIn (AuthsUpdateStatus _ _ status _) => status <> StatusActive
  | SignIn (TotpUpsert _) => t <> TypeTotp
  | _ => True
  end.
Definition code_claimed (u : Uuid) (t : AuthenticatorType) (h : string) : StmtEvent := fun A s =>
  match s in Stmt A return A -> bool with
  | SignIn s => match s in SignInStmt A return A -> bool with
      | AuthsClaimCode u' t' h' _ => fun n =>
          N.eqb u' u && bool_decide (t' = t) && String.eqb h' h && (0 <? n)%nat
      | _ => fun _ => false
      end
  | _ => fun _ => false
  end.
Definition open_codes (u : Uuid) (t : AuthenticatorType) (h : string) (d : Database) : nat :=
  length (List.filter (open_code u t h) (si_auths (db_signin d))).

Section codes.
Context {CO : Collation} {HS : Hashing}.

(** A statement that is an UPDATE .. WHERE. *)
Ltac as_update :=
  match goal with |- auths_change _ ?rows (si_auths (?e).2) =>
    match e with context [update_where ?p ?f ?n rows] =>
      apply (auths_change_update _ p f n rows)
    end
  end.
Definition keeps_open (u : Uuid) (t : AuthenticatorType) (h : string) : SignInProp := fun A s =>
  keeps_code u t h A (SignIn s).
Lemma exec_sign_in_auths u t h A (s : SignInStmt A) now d :
  keeps_open u t h A s -> auths_change (open_code u t h) (si_auths d) (si_auths (exec_sign_in s now d).2).
Proof.
  destruct s; intros Hok; try (rewrite exec_keeps_auths by done; apply auths_same); cbn [exec_sign_in].
  - unfold auths_create. destruct (existsb _ _); [apply auths_same|]. apply auths_added.
    unfold keeps_open, keeps_code in Hok. unfold open_code, has_user_type, has_secret in *. cbn. by rewrite Hok.
  - unfold auths_update_status. as_update. intros a _. unfold open_code. cbn.
    rewrite (bool_decide_eq_false_2 (status = StatusActive)), andb_false_r by done. done.
  - unfold auths_claim_code. as_update. intros a _. unfold open_code. cbn. by rewrite andb_false_r.
  - unfold auths_revoke_all_of_type. as_update. intros a _. unfold open_code. cbn. by rewrite andb_false_r.
  - unfold auths_revoke_issued_codes. as_update. intros a _. unfold open_code. cbn. by rewrite andb_false_r.
  - unfold auths_confirm_pending. as_update. intros a _. unfold open_code, has_secret. cbn.
    by rewrite andb_false_r.
  - apply auths_cut.
  - unfold totp_upsert. destruct (update_where _ _ _ _) as [rows n] eqn:E.
    destruct (Nat.eqb n 0); [apply auths_same|]. cbn [written snd si_auths set_auths].
    change rows with (rows, n).1. rewrite <- E. apply auths_change_update. intros a Hp.
    unfold open_code, live_totp, has_user_type in *. cbn. rewrite !andb_true_iff in *.
    rewrite !bool_decide_eq_true in *. intros [[[_ Ht] _] _]. destruct Hp as [[_ Ht'] _].
    unfold keeps_open, keeps_code in Hok. congruence.
  - apply auths_change_update. intros a _. by unfold open_code, has_user_type, has_secret.
  - apply auths_change_update. intros a _. unfold open_code, has_secret. cbn. by rewrite andb_false_r.
  - unfold totp_record_step. as_update. intros a _. by unfold open_code, has_user_type, has_secret.
Qed.
Lemma exec_auths u t h A (s : Stmt A) now d :
  keeps_code u t h A s ->
  auths_change (open_code u t h) (si_auths (db_signin d)) (si_auths (db_signin (exec s now d).2)).
Proof.
  destruct s; intros Hok; try (apply auths_same); cbn [exec];
    try (by repeat case_match; cbn; apply auths_same).
  pose proof (exec_sign_in_auths u t h _ s now (db_signin d) Hok) as H. by destruct (exec_sign_in _ _ _).
Qed.
#[export] Program Instance code_claimed_oneshot u t h : DbOneShot (code_claimed u t h) (keeps_code u t h) := {
  db_inv d := open_codes u t h d <= 1;
  db_spent d := open_codes u t h d = 0
}.
Next Obligation.
  intros u t h A s now d Hok Hi. pose proof (auths_change_count _ _ _ (exec_auths u t h _ s now d Hok)).
  unfold open_codes in *. lia.
Qed.
Next Obligation.
  intros u t h A s now d a d' _ Hi E He. destruct s; try done. destruct s; try done.
  cbn [exec exec_sign_in] in E. cbv beta iota delta [code_claimed] in He.
  rewrite !andb_true_iff, N.eqb_eq, bool_decide_eq_true, String.eqb_eq, Nat.ltb_lt in He.
  destruct He as [[[-> ->] ->] Hn].
  destruct (auths_claim_code _ _ _ _ _ _) as [rows n] eqn:Ec. injection E as <- <-. unfold open_codes in *. cbn.
  destruct n as [|n]; [lia|]. unfold auths_claim_code in Ec.
  pose proof (update_where_some _ _ _ _ _ _ Ec) as (a & Hin & Ha).
  assert (open_code u t h a = true) as Ho by (unfold consumable_code, open_code in *; by rewrite !andb_true_iff in *; tauto).
  assert (In a (List.filter (open_code u t h) (si_auths (db_signin d)))) as Hf by by apply filter_In.
  split; [by destruct (List.filter _ _)|].
  destruct (List.filter (open_code u t h) rows) as [|b l] eqn:Er; [done|]. exfalso.
  assert (In b rows /\ open_code u t h b = true) as [Hb Hob] by (apply filter_In; rewrite Er; by left).
  destruct (update_where_In _ _ _ _ _ _ _ Ec Hb) as (b0 & Hb0 & ->).
  destruct (consumable_code u t h now0 b0) eqn:Eb.
  { unfold open_code in Hob. cbn in Hob. by rewrite andb_false_r in Hob. }
  assert (In b0 (List.filter (open_code u t h) (si_auths (db_signin d)))) as Hf0 by by apply filter_In.
  destruct (List.filter (open_code u t h) (si_auths (db_signin d))) as [|x [|y l']]; [done| |cbn in Hi; lia].
  destruct Hf as [<-|[]], Hf0 as [<-|[]]. congruence.
Qed.
Next Obligation.
  intros u t h A s now d Hok Hi Hs. pose proof (auths_change_count _ _ _ (exec_auths u t h _ s now d Hok)).
  unfold open_codes in *. lia.
Qed.

(** ** TOTP steps go forward *)
(** A row that would still accept the step. *)
Definition open_step (u : Uuid) (step : Z) (a : UserAuthenticator) : bool := live_totp u a && older_step step a.
(** Nobody meanwhile enrols the user again or takes a row out of revocation. *)
Definition keeps_steps (u : Uuid) : StmtProp := fun A s =>
  match s with
  | SignIn (AuthsCreate a) => has_user_type u TypeTotp a = false
  | SignIn (AuthsUpdateStatus _ _ status _) => status = StatusRevoked
  | _ => True
  end.
Definition keeps_open_steps (u : Uuid) : SignInProp := fun A s => keeps_steps u A (SignIn s).
Definition step_recorded (u : Uuid) (step : Z) : StmtEvent := fun A s =>
  match s in Stmt A return A -> bool with
  | SignIn s => match s in SignInStmt A return A -> bool with
      | TotpRecordStep u' step' _ => fun b => N.eqb u' u && Z.eqb step' step && b
      | _ => fun _ => false
      end
  | _ => fun _ => false
  end.
Lemma not_open_revoked u step now a c : ch_status c = StatusRevoked -> open_step u step (change_row now a c) = false.
Proof. intros E. unfold open_step, live_totp, is_revoked. cbn. rewrite E. by rewrite !andb_false_r. Qed.
Lemma exec_sign_in_steps u step A (s : SignInStmt A) now d :
  keeps_open_steps u A s -> auths_change (open_step u step) (si_auths d) (si_auths (exec_sign_in s now d).2).
Proof.
  destruct s; intros Hok; try (rewrite exec_keeps_auths by done; apply auths_same); cbn [exec_sign_in].
  - unfold auths_create. destruct (existsb _ _); [apply auths_same|]. apply auths_added.
    unfold keeps_open_steps, keeps_steps in Hok. unfold open_step, live_totp, has_user_type in *. cbn. by rewrite Hok.
  - unfold auths_update_status. as_update. intros a _. rewrite not_open_revoked; [done|]. exact Hok.
  - unfold auths_claim_code. as_update. intros a _. by rewrite not_open_revoked.
  - unfold auths_revoke_all_of_type. as_update. intros a _. by rewrite not_open_revoked.
  - unfold auths_revoke_issued_codes. as_update. intros a _. by rewrite not_open_revoked.
  - unfold auths_confirm_pending. as_update. intros a Hp.
    rewrite !andb_true_iff, bool_decide_eq_true in Hp. destruct Hp as [[_ Hs] _].
    unfold open_step, live_totp, is_revoked, has_user_type. cbn. rewrite Hs, (bool_decide_eq_false_2 (StatusActive = StatusRevoked)), (bool_decide_eq_false_2 (StatusPending = StatusRevoked)) by done. done.
  - apply auths_cut.
  - unfold totp_upsert. destruct (update_where _ _ _ _) as [rows n] eqn:E.
    destruct (Nat.eqb n 0); [apply auths_same|]. cbn [written snd si_auths set_auths].
    change rows with (rows, n).1. rewrite <- E. apply auths_change_update. intros a _. done.
  - apply auths_change_update. intros a _. done.
  - apply auths_change_update. intros a _. done.
  - unfold totp_record_step. as_update. intros a Hp. unfold open_step, live_totp, older_step in *.
    unfold has_user_type, is_revoked in *. cbn. rewrite !andb_true_iff in *. rewrite !Z.ltb_lt in *.
    intros [? ?]. split; [done|]. destruct Hp as [_ Hp]. cbn in Hp. lia.
Qed.
Lemma exec_steps u step A (s : Stmt A) now d :
  keeps_steps u A s ->
  auths_change (open_step u step) (si_auths (db_signin d)) (si_auths (db_signin (exec s now d).2)).
Proof.
  destruct s; intros Hok; try (apply auths_same); cbn [exec];
    try (by repeat case_match; cbn; apply auths_same).
  pose proof (exec_sign_in_steps u step _ s now (db_signin d) Hok) as H. by destruct (exec_sign_in _ _ _).
Qed.
(** What recording a step means for the rows. *)
Lemma totp_record_step_true rows u step at_ now rows' :
  totp_record_step rows u step at_ now = (rows', true) ->
  (exists a, In a rows /\ open_step u step a = true) /\ List.filter (open_step u step) rows' = [].
Proof.
  unfold totp_record_step. destruct (update_where _ _ _ _) as [rows1 n] eqn:E. intros [= <- Hn].
  apply Nat.ltb_lt in Hn. destruct n as [|n]; [lia|]. split; [by eapply update_where_some|].
  destruct (List.filter (open_step u step) rows1) as [|b l] eqn:Er; [done|]. exfalso.
  assert (In b rows1 /\ open_step u step b = true) as [Hb Hob] by (apply filter_In; rewrite Er; by left).
  destruct (update_where_In _ _ _ _ _ _ _ E Hb) as (b0 & _ & ->).
  destruct (live_totp u b0 && older_step step b0) eqn:Eb; [|unfold open_step in Hob; congruence].
  unfold open_step, older_step in Hob. cbn in Hob. by rewrite Z.ltb_irrefl, andb_false_r in Hob.
Qed.
Lemma totp_record_step_false rows u step at_ now rows' :
  totp_record_step rows u step at_ now = (rows', false) -> rows' = rows.
Proof.
  unfold totp_record_step. destruct (update_where _ _ _ _) as [rows1 n] eqn:E. intros [= <- Hn].
  apply Nat.ltb_ge in Hn. assert (n = 0)%nat as -> by lia. by eapply update_where_none.
Qed.
#[export] Program Instance step_oneshot u step : DbOneShot (step_recorded u step) (keeps_steps u) := {
  db_inv _ := True;
  db_spent d := List.filter (open_step u step) (si_auths (db_signin d)) = []
}.
Next Obligation. done. Qed.
Next Obligation.
  intros u step A s now d a d' _ _ E He. destruct s; try done. destruct s; try done.
  cbn [exec exec_sign_in] in E. cbv beta iota delta [step_recorded] in He.
  rewrite !andb_true_iff, N.eqb_eq, Z.eqb_eq in He. destruct He as [[-> ->] ->].
  destruct (totp_record_step _ _ _ _ _) as [rows b] eqn:Er. injection E as -> <-. cbn.
  destruct (totp_record_step_true _ _ _ _ _ _ Er) as [(x & Hin & Hx) Hs]. split; [|exact Hs].
  intros Hnil. assert (In x (List.filter (open_step u step) (si_auths (db_signin d)))) as Hf by by apply filter_In.
  by rewrite Hnil in Hf.
Qed.
Next Obligation.
  intros u step A s now d Hok _ Hs. pose proof (auths_change_count _ _ _ (exec_steps u step _ s now d Hok)) as H.
  cbn in Hs. rewrite Hs in H. cbn beta. apply nil_length_inv. cbn in H. lia.
Qed.

(** ** Concurrent requests *)
Context {UN : UnicodeCase} {AG : AesGcm} {TO : TotpCrate} (key_encryption_key : string).

(** What the others may do between the steps. *)
Definition env_ok {ev : StmtEvent} {ok : StmtProp} {D : DbOneShot ev ok} (t : Turn) : Prop :=
  turn_ok (ev := sql_event ev) (ok := sql_prop ok) t.

Record FactorAttempt : Type := { fc_tenant : TenantId; fc_code : string; fc_ctx : RequestContext }.
Definition factor_attempt (u : Uuid) (x : FactorAttempt) : Prog (Result string (option AuthenticationMethod)) :=
  verify_second_factor key_encryption_key (fc_tenant x) u (fc_code x) (fc_ctx x).

Lemma keeps_code_attempt u t h x : always (sql_prop (keeps_code u t h)) (factor_attempt u x).
Proof.
  unfold factor_attempt, verify_second_factor, check_totp, accept_totp, is_blocked_in_registry.
  unfold single_use_kinds, check_single_use, consume_single_use_code, consume_single_use, record_audit.
  prog_always.
Qed.
(** A code of type [t] is accepted only by claiming it. *)
Definition accepted_as (m : AuthenticationMethod) (r : Result string (option AuthenticationMethod)) : Prop :=
  r = Ok (Some m).
Lemma guarded_consume u t code now :
  guarded (sql_event (code_claimed u t (sha256_hex (normalize_code t code)))) (fun r => r = Ok true)
    (consume_single_use_code u t code now).
Proof.
  unfold consume_single_use_code, consume_single_use. destruct (str_is_empty _); [done|].
  apply (guarded_before _ _ (fun r : Result DomainError (option UserAuthenticator) => exists x, r = Ok (Some x))).
  - apply (guarded_before _ _ (fun r : Result DomainError nat => exists n, r = Ok (S n))).
    + apply guarded_op. intros r [n ->]. cbn. by rewrite N.eqb_refl, bool_decide_eq_true_2, String.eqb_refl by done.
    + intros [[|n]|e] Hr; cbn; [by intros [x Hx]|by destruct Hr; exists n|by intros [x Hx]].
  - intros [[x|]|e] Hr; cbn; [by destruct Hr; exists x|done|done].
Qed.
Lemma guarded_check_single_use tenant u code ctx now t m kinds :
  In (t, m) kinds -> (forall t' m', In (t', m') kinds -> m' = m -> t' = t) ->
  guarded (sql_event (code_claimed u t (sha256_hex (normalize_code t code)))) (accepted_as m)
    (check_single_use tenant u code ctx now kinds).
Proof.
  intros _. induction kinds as [|[t' m'] kinds IH]; intros Hm; cbn [check_single_use]; [done|].
  assert (forall used, guarded (sql_event (code_claimed u t (sha256_hex (normalize_code t code)))) (accepted_as m)
    (if used : bool then do _ <- record_audit RecoveryCodeUsed AuditSuccess (Some tenant) (Some u) None
                       (Some ("type=" ++ as_str t')) ctx;; Ret (Ok (Some m')) else check_single_use tenant u code ctx now kinds)
    \/ (m' = m /\ used = true)) as Hk.
  { intros [|]; [|left; apply IH; intros; apply (Hm t'0 m'0); [by right|done]].
    destruct (decide (m' = m)) as [|Hn]; [by right|left]. apply guarded_after. intros _. by intros [=]. }
  apply (guarded_before _ _ (fun r => r = Ok true /\ m' = m)).
  - destruct (decide (m' = m)) as [->|Hn].
    + rewrite (Hm t' m) by (by left || done). unfold str_error, or_error.
      apply (guarded_before _ _ (fun r => r = Ok true)); [apply guarded_consume|].
      intros [[|]|e] Hr; cbn; by intros [[=] _].
    + apply (guarded_weaken _ (fun _ => False)); [by intros b [_ ?]|]. unfold str_error, or_error.
      apply guarded_after. intros [|]; cbn; tauto.
  - intros [used|e] Hr; [|done]. destruct (Hk used) as [H|[-> ->]]; [exact H|]. by destruct Hr.
Qed.
(** C11: A recovery code or one-time code lets one request in.  Of any number of
    second-factor checks of one user that run at the same time, interleaved statement
    by statement and with database failures, at most one is accepted by a given code,
    as long as the code was stored once and nobody issues it again or reactivates an
    authenticator meanwhile. *)
Theorem single_use_code_once u t m h xs schedule w ps w' i j xi xj :
  In (t, m) single_use_kinds -> Forall (env_ok (ev := code_claimed u t h)) schedule ->
  open_codes u t h (w_db w) <= 1 ->
  run_pool schedule (factor_attempt u <$> xs, w) = (ps, w') ->
  xs !! i = Some xi -> xs !! j = Some xj ->
  sha256_hex (normalize_code t (fc_code xi)) = h -> sha256_hex (normalize_code t (fc_code xj)) = h ->
  ps !! i = Some (Ret (Ok (Some m))) -> ps !! j = Some (Ret (Ok (Some m))) -> i = j.
Proof.
  intros Hk Hs Hi Hrun Hxi Hxj Hhi Hhj Hpi Hpj.
  set (contender k := exists x, xs !! k = Some x /\ sha256_hex (normalize_code t (fc_code x)) = h).
  apply (at_most_one_succeeds (ev := sql_event (code_claimed u t h)) (ok := sql_prop (keeps_code u t h))
           (accepted_as m) contender schedule (factor_attempt u <$> xs) w ps w' i j
           (Ok (Some m)) (Ok (Some m))); try done; try (by eexists).
  - intros k p Hp. rewrite list_lookup_fmap in Hp. destruct (xs !! k); [|done]. injection Hp as <-.
    apply keeps_code_attempt.
  - intros k p Hp (x & Hx & Hh). rewrite list_lookup_fmap, Hx in Hp. injection Hp as <-. subst h.
    unfold factor_attempt, verify_second_factor.
    apply guarded_after. intros [[|]|e]; [|apply guarded_after; intros now|done].
    + intros E. injection E as <-. cbn in Hk. naive_solver.
    + rewrite <- Hh. apply guarded_check_single_use; [done|]. intros t' m' Hin ->. cbn in Hk, Hin. naive_solver.
Qed.

Definition totp_attempt (u : Uuid) (secret code : string) : Prog (Result string bool) := accept_totp u secret code.
(** C12: A TOTP code lets one request in.  Of any number of checks of one user's TOTP
    that run at the same time with codes of one time step, at most one is accepted,
    as long as the user is not enrolled again meanwhile. *)
Theorem totp_step_once u step secret codes schedule w ps w' i j :
  (forall code s, In code codes -> totp_check secret code (s * TOTP_STEP) = true -> s = step) ->
  Forall (env_ok (ev := step_recorded u step)) schedule ->
  run_pool schedule (totp_attempt u secret <$> codes, w) = (ps, w') ->
  ps !! i = Some (Ret (Ok true)) -> ps !! j = Some (Ret (Ok true)) -> i = j.
Proof.
  intros Hc Hs Hrun Hpi Hpj.
  apply (at_most_one_succeeds (ev := sql_event (step_recorded u step)) (ok := sql_prop (keeps_steps u))
           (fun r => r = Ok true) (fun _ => True) schedule (totp_attempt u secret <$> codes) w ps w' i j
           (Ok true) (Ok true)); try done.
  - intros k p Hp. rewrite list_lookup_fmap in Hp. destruct (codes !! k); [|done]. injection Hp as <-.
    unfold totp_attempt, accept_totp, str_error, or_error. prog_always.
  - intros k p Hp _. rewrite list_lookup_fmap in Hp. destruct (codes !! k) as [code|] eqn:Ek; [|done]. injection Hp as <-.
    unfold totp_attempt, accept_totp. apply guarded_after. intros real.
    destruct (verify_totp_code secret code real) as [[s|]|e] eqn:Ev; [|done|done].
    apply guarded_after. intros now. unfold str_error, or_error.
    apply (guarded_before _ _ (fun r => r = Ok true)).
    + apply guarded_op. intros r ->. cbn. unfold verify_totp_code in Ev.
      destruct (totp_build_error secret); [done|]. destruct (real <? 0)%Z; [done|]. injection Ev as Ev.
      apply find_some in Ev as [_ Ev]. rewrite (Hc code s) by (try done; apply list_elem_of_In; by eapply list_elem_of_lookup_2).
      by rewrite N.eqb_refl, Z.eqb_refl.
    + intros [[|]|e] Hr; cbn; [by destruct Hr|done|done].
Qed.

(** ** Enrolment *)
Lemma insert_newest_In a b rows : In b (insert_newest a rows) <-> b = a \/ In b rows.
Proof. induction rows as [|c rows IH]; cbn; [naive_solver|]. destruct (_ <? _)%Z; cbn; [naive_solver|]. rewrite IH. naive_solver. Qed.
Lemma newest_first_In b rows : In b (newest_first rows) <-> In b rows.
Proof. induction rows as [|a rows IH]; cbn; [done|]. rewrite insert_newest_In, IH. naive_solver. Qed.
Lemma has_user_type_true u t a : has_user_type u t a = true <-> ua_user_id a = u /\ ua_authenticator_type a = t.
Proof. unfold has_user_type. by rewrite andb_true_iff, N.eqb_eq, bool_decide_eq_true. Qed.

(** The registry calls a type blocked as soon as one of its rows is. *)
Lemma run_is_blocked u t w b w' :
  run (is_blocked_in_registry u t None) w = (Some (Ok b), w') ->
  (b = true <-> exists a, In a (si_auths (db_signin (w_db w))) /\ has_user_type u t a = true /\ is_blocked a = true)
  /\ si_auths (db_signin (w_db w')) = si_auths (db_signin (w_db w)).
Proof.
  unfold is_blocked_in_registry. intros H. apply run_try in H. destruct H as (rows & w1 & Hs & H). injection H as <- <-.
  apply run_sql_Ok in Hs. injection Hs as <- <-. split; [|done]. rewrite existsb_exists. unfold auths_list_for_user. split.
  - intros (a & Ha & Hb). rewrite !filter_In, newest_first_In, filter_In in Ha. destruct Ha as [[[Hin Hu] Ht] _].
    exists a. split; [done|]. unfold has_user_type. by rewrite Hu, Ht.
  - intros (a & Hin & Ht & Hb). unfold has_user_type in Ht. apply andb_true_iff in Ht as [Hu Ht].
    exists a. by rewrite !filter_In, newest_first_In, filter_In.
Qed.
Definition revoked_totp (u : Uuid) (d : Database) : Prop :=
  exists a, In a (si_auths (db_signin d)) /\ has_user_type u TypeTotp a = true /\ is_revoked a = true.
Lemma single_use_not_totp tenant u code ctx now :
  guarded never (fun r => r = Ok (Some Totp)) (check_single_use tenant u code ctx now single_use_kinds).
Proof.
  unfold single_use_kinds, check_single_use.
  repeat first [ done | apply guarded_after | progress intros | case_match | by intros [=] ].
Qed.
Lemma revoked_totp_refused u w tenant code ctx r w' :
  revoked_totp u (w_db w) ->
  run (verify_second_factor key_encryption_key tenant u code ctx) w = (Some r, w') -> r <> Ok (Some Totp).
Proof.
  intros (a & Hin & Ht & Hr) H ->. unfold verify_second_factor in H. apply run_try in H.
  destruct H as (by_totp & w1 & Hc & H). destruct by_totp.
  - unfold check_totp in Hc. apply run_try in Hc. destruct Hc as (blocked & w2 & Hb & Hc).
    unfold str_error, or_error in Hb. apply run_do in Hb. destruct Hb as ([b|] & w2' & Hb & Heq); [|done].
    injection Heq as <- <-. apply run_is_blocked in Hb. destruct Hb as [Hb _].
    assert (b = true) as -> by (apply Hb; exists a; repeat split; [done..|]; unfold is_blocked, is_revoked in *;
      apply bool_decide_eq_true in Hr; by rewrite Hr).
    apply run_try in Hc. destruct Hc as ([x|] & w3 & _ & Hc); [|done]. by rewrite andb_false_r in Hc.
  - apply run_do in H. destruct H as (now & w2 & _ & H).
    by apply (guarded_never_run _ _ _ _ _ (single_use_not_totp tenant u code ctx now)) in H.
Qed.
(** C39: Enrolling TOTP a second time locks it out for good.  Once a user who already
    has a TOTP row registers again, no sequence of calls that leaves the revoked row
    alone can make any TOTP code of that user acceptable as a second factor, whatever
    secret is confirmed afterwards: the gate of the registry counts revoked rows. *)
Theorem second_enrolment_blocks_totp u w w1 w2 tenant code ctx r w3 :
  run (register_totp_pending u) w = (Some (Ok tt), w1) ->
  (exists a, In a (si_auths (db_signin (w_db w))) /\ has_user_type u TypeTotp a = true) ->
  incl (List.filter is_revoked (si_auths (db_signin (w_db w1)))) (si_auths (db_signin (w_db w2))) ->
  run (verify_second_factor key_encryption_key tenant u code ctx) w2 = (Some r, w3) ->
  r <> Ok (Some Totp).
Proof.
  intros H (a & Hin & Ht) Hincl. apply revoked_totp_refused.
  assert (revoked_totp u (w_db w1)) as (b & Hb & Htb & Hrb).
  2: { exists b. split; [apply Hincl; by apply filter_In|done]. }
  unfold register_totp_pending in H. apply run_do in H. destruct H as (now & w' & Hn & H).
  apply run_Now in Hn. destruct Hn as [-> ->].
  apply run_try in H. destruct H as (n & w2' & Hrv & H).
  unfold or_error in Hrv. apply run_do in Hrv. destruct Hrv as ([n'|] & w2'' & Hrv & Heq); [|done].
  injection Heq as <- <-. apply run_sql_Ok in Hrv. cbn [exec exec_sign_in] in Hrv.
  apply run_do in H. destruct H as (id & w3' & Hid & H).
  unfold or_error in H. apply run_do in H. destruct H as ([[]|] & w4 & Hcr & Heq); [|done]. injection Heq as <-.
  apply run_sql_Ok in Hcr. cbn [exec exec_sign_in] in Hcr.
  assert (w_db w3' = w_db w2'') as E3 by by cbn in Hid; injection Hid as _ <-. rewrite E3 in Hcr.
  destruct (auths_revoke_all_of_type _ _ _ _ _) as [rows k] eqn:Er. injection Hrv as _ Hrv. rewrite <- Hrv in Hcr. cbn in Hcr.
  unfold written, auths_create in Hcr. destruct (existsb _ rows); [done|]. injection Hcr as Hcr.
  unfold revoked_totp. rewrite <- Hcr. cbn.
  exists (if has_user_type u TypeTotp a && negb (is_revoked a)
          then change_row (w_db_clock w) a (revoked_row (w_clock w) false a) else a).
  unfold auths_revoke_all_of_type, update_where in Er. injection Er as <- _.
  rewrite Ht. cbn [andb]. repeat split.
  - apply in_app_iff. left. apply in_map_iff. exists a. by rewrite Ht.
  - by destruct (is_revoked a).
  - destruct (is_revoked a) eqn:Ea; cbn [negb]; [exact Ea|]. by unfold is_revoked.
Qed.

(** ** Recovery codes *)
(** What the loop adds: one active row per code. *)
Definition is_recovery (u : Uuid) (a : UserAuthenticator) : bool :=
  has_user_type u TypeRecoveryCode a && negb (is_revoked a).
Lemma run_create_recovery_codes u now n : forall codes w out w',
  run (create_recovery_codes u now n codes) w = (Some (Ok out), w') ->
  exists fresh rows, out = (codes ++ fresh)%list /\ length fresh = n
    /\ si_auths (db_signin (w_db w')) = (si_auths (db_signin (w_db w)) ++ rows)%list
    /\ Forall2 (fun code a => open_code u TypeRecoveryCode (sha256_hex code) a = true
                              /\ ua_expires_at a = None) fresh rows.
Proof.
  induction n as [|n IH]; intros codes w out w' H; cbn [create_recovery_codes] in H.
  { injection H as <- <-. exists [], []. rewrite !app_nil_r. repeat split; constructor. }
  apply run_do in H. destruct H as (code & w1 & Hc & H). apply run_do in H. destruct H as (id & w2 & Hi & H).
  apply run_try in H. destruct H as ([] & w3 & Hs & H). apply run_or_error, run_sql_Ok in Hs.
  assert (w_db w2 = w_db w) as E2 by (cbn in Hc, Hi; injection Hc as _ <-; injection Hi as _ <-; done).
  rewrite E2 in Hs. cbn [exec exec_sign_in] in Hs. unfold written, auths_create in Hs.
  destruct (existsb _ _); [done|]. injection Hs as Hs.
  apply IH in H. destruct H as (fresh & rows & -> & Hl & Hr & Hf). rewrite <- Hs in Hr. cbn in Hr.
  eexists (code :: fresh), (_ :: rows). rewrite Hr, <- !app_assoc. split; [done|]. split; [by rewrite <- Hl|].
  split; [reflexivity|]. constructor; [|exact Hf]. unfold open_code, has_user_type, has_secret. cbn.
  by rewrite N.eqb_refl, !bool_decide_eq_true_2.
Qed.
(** The sheet in hand is the only sheet.  When [issue_recovery_codes] answers,
    whatever failed on the way, it has ten codes, each of them stored as a usable row
    under its hash, and every other recovery code of the user is revoked. *)
Theorem recovery_codes_replace tenant u ctx w codes w' :
  run (issue_recovery_codes tenant u ctx) w = (Some (Ok codes), w') ->
  length codes = RECOVERY_CODE_COUNT
  /\ (forall code, In code codes -> exists a, In a (si_auths (db_signin (w_db w')))
        /\ open_code u TypeRecoveryCode (sha256_hex code) a = true /\ ua_expires_at a = None)
  /\ (forall a, In a (si_auths (db_signin (w_db w'))) -> is_recovery u a = true ->
        exists code, In code codes /\ has_secret (sha256_hex code) a = true).
Proof.
  unfold issue_recovery_codes. intros H. apply run_do in H. destruct H as (now & w0 & Hn & H).
  apply run_Now in Hn. destruct Hn as [-> ->].
  apply run_try in H. destruct H as (k & w1 & Hr & H). apply run_or_error, run_sql_Ok in Hr.
  cbn [exec exec_sign_in] in Hr.
  destruct (auths_revoke_all_of_type _ _ _ _ _) as [rows0 k0] eqn:Er. injection Hr as _ Hr.
  apply run_try in H. destruct H as (out & w2 & Hc & H).
  apply run_create_recovery_codes in Hc. destruct Hc as (fresh & rows & -> & Hl & Ha & Hf).
  apply run_do in H. destruct H as ([] & w3 & Hd & H). injection H as <- <-.
  assert (si_auths (db_signin (w_db w3)) = si_auths (db_signin (w_db w2))) as E3.
  { eapply run_keeps_auths; [|exact Hd]. unfold record_audit. prog_always. }
  rewrite E3, Ha, <- Hr. cbn [app]. split; [done|]. split.
  - intros code Hin. apply list_elem_of_In, list_elem_of_lookup in Hin as (i & Hi).
    destruct (Forall2_lookup_l _ _ _ _ _ Hf Hi) as (a & Hai & Hoa).
    exists a. split; [|done]. apply in_app_iff. right. apply list_elem_of_In. by eapply list_elem_of_lookup_2.
  - intros a Hin Hrec. apply in_app_iff in Hin as [Hin|Hin].
    + exfalso. cbn in Hin. destruct (update_where_In _ _ _ _ _ _ _ Er Hin) as (b & _ & ->).
      fold (is_recovery u b) in Hrec. destruct (is_recovery u b) eqn:Eb; [|congruence].
      unfold is_recovery, is_revoked in Hrec. cbn in Hrec. by rewrite andb_false_r in Hrec.
    + apply list_elem_of_In, list_elem_of_lookup in Hin as (i & Hi).
      destruct (Forall2_lookup_r _ _ _ _ _ Hf Hi) as (code & Hci & Hoa & _).
      exists code. split; [apply list_elem_of_In; by eapply list_elem_of_lookup_2|].
      unfold open_code in Hoa. rewrite !andb_true_iff in Hoa. tauto.
Qed.
End codes.
