(* ===== verification/RegistryInvariant.v ===== *)
(** * The registry of authenticators stays well formed

    Identifiers are unique, a row says when it was revoked exactly if it is revoked,
    and an active row has been confirmed: an invariant of every statement, and so of
    any interleaving of the services over the registry. *)

From S2P Require Import Prelude Values External AuditLog Directory AuthSessionStore SsoSession Authenticator.
From S2P Require Import LoginIdentifier Lockout PasswordPolicy SignInStore Effects AccessGate.
From S2P Require Import AuthenticatorManagement Authorize Login MfaLogin ProgLogic OneShots Frames Paths.
From S2P Require Import AuthenticatorTheorems.

Record authenticator_wf (a : UserAuthenticator) : Prop := {
  aw_revoked : is_some (ua_revoked_at a) = is_revoked a;
  aw_confirmed : ua_status a = StatusActive -> is_some (ua_confirmed_at a) = true
}.
Record registry_wf (rows : AuthenticatorTable) : Prop := {
  rw_keyed : NoDup (ua_id <$> rows);
  rw_rows : Forall authenticator_wf rows
}.
(** What is stored is well formed to begin with. *)
Definition stores_wf : StmtProp := fun A s =>
  match s with SignIn (AuthsCreate a) => authenticator_wf a | _ => True end.

Lemma update_where_wf p f now rows :
  (forall a, authenticator_wf a -> p a = true -> authenticator_wf (change_row now a (f a))) ->
  registry_wf rows -> registry_wf (update_where p f now rows).1.
Proof.
  intros H [Hk Hr]. split.
  - assert (ua_id <$> (update_where p f now rows).1 = ua_id <$> rows) as ->; [|done].
    cbn. clear Hk Hr. induction rows as [|a rows IH]; [done|]. cbn. f_equal; [by destruct (p a)|done].
  - cbn. change (map ?g rows) with (g <$> rows). apply Forall_fmap. eapply Forall_impl; [exact Hr|].
    intros a Ha. cbn. destruct (p a) eqn:E; [by apply H|done].
Qed.
Lemma registry_wf_filter p rows : registry_wf rows -> registry_wf (List.filter p rows).
Proof.
  intros [Hk Hr]. split.
  - induction rows as [|a rows IH]; [done|]. cbn in Hk |- *. apply NoDup_cons in Hk as [Hn Hk].
    apply Forall_cons in Hr as [_ Hr]. destruct (p a); [|by apply IH]. cbn. apply NoDup_cons.
    split; [|by apply IH]. intros Hin. apply Hn. apply list_elem_of_fmap in Hin as (b & -> & Hb).
    apply list_elem_of_fmap. exists b. split; [done|]. apply list_elem_of_In in Hb. apply filter_In in Hb.
    apply list_elem_of_In. tauto.
  - apply Forall_forall. intros a Hin. apply list_elem_of_In, filter_In in Hin as [Hin _].
    apply list_elem_of_In in Hin. by eapply Forall_forall in Hr.
Qed.
Lemma auths_create_wf rows a now rows' :
  authenticator_wf a -> registry_wf rows -> auths_create rows a now = Ok rows' -> registry_wf rows'.
Proof.
  intros [Hrev Hcon] [Hk Hr]. unfold auths_create. destruct (existsb _ rows) eqn:E; [done|]. intros [= <-].
  split.
  - rewrite fmap_app, NoDup_app. split; [done|]. split; [|apply NoDup_singleton].
    intros i Hin. cbn. rewrite list_elem_of_singleton. intros ->. apply not_true_iff_false in E. apply E.
    apply list_elem_of_fmap in Hin as (b & Hb & Hin). apply existsb_exists. exists b.
    split; [by apply list_elem_of_In|]. by apply N.eqb_eq.
  - apply Forall_app. split; [done|]. constructor; [|done]. split; cbn.
    + unfold is_revoked in *; cbn; rewrite <- Hrev. by destruct (ua_revoked_at a).
    + intros Hs. specialize (Hcon Hs). by destruct (ua_confirmed_at a).
Qed.

#[export] Hint Extern 1 (stores_wf _ _) => exact I : prog.
Section invariant.
Context {CO : Collation} {HS : Hashing} {UN : UnicodeCase} {AG : AesGcm} {TO : TotpCrate}.
Context (key_encryption_key issuer : string).

Ltac wf_row := intros a [Hrev Hcon] Hp; split; unfold is_revoked in *; cbn in *;
  rewrite ?andb_true_iff, ?bool_decide_eq_true, ?negb_true_iff, ?bool_decide_eq_false in *; try done; try tauto.
Lemma exec_sign_in_wf A (s : SignInStmt A) now d :
  stores_wf A (SignIn s) -> registry_wf (si_auths d) -> registry_wf (si_auths (exec_sign_in s now d).2).
Proof.
  destruct s; intros Hok Hw; try (by rewrite exec_keeps_auths); cbn [exec_sign_in].
  - unfold written. destruct (auths_create _ _ _) as [rows|] eqn:E; [|done]. cbn. by eapply auths_create_wf.
  - unfold auths_update_status. apply (update_where_wf _ _ now (si_auths d)); [|done]. wf_row.
    + by destruct (bool_decide (status = StatusRevoked)).
    + intros ->. rewrite bool_decide_eq_true_2 by done. by destruct (ua_confirmed_at a).
  - apply (update_where_wf _ _ now (si_auths d)); [|done]. wf_row.
  - apply (update_where_wf _ _ now (si_auths d)); [|done]. wf_row.
  - apply (update_where_wf _ _ now (si_auths d)); [|done]. wf_row.
  - apply (update_where_wf _ _ now (si_auths d)); [|done]. wf_row.
    destruct Hp as [[_ Hp] _]. rewrite Hp in Hrev. by rewrite Hrev.
  - by apply registry_wf_filter.
  - unfold totp_upsert. destruct (update_where _ _ _ _) as [rows n] eqn:E. destruct (Nat.eqb n 0); [done|].
    cbn. change rows with (rows, n).1. rewrite <- E. apply update_where_wf; [|done]. wf_row.
    intros Hs. specialize (Hcon Hs). by destruct (ua_confirmed_at a).
  - apply (update_where_wf _ _ now (si_auths d)); [|done]. wf_row.
  - apply (update_where_wf _ _ now (si_auths d)); [|done]. wf_row.
  - unfold totp_record_step. destruct (update_where _ _ _ _) as [rows n] eqn:E.
    cbn. change rows with (rows, n).1. rewrite <- E. apply update_where_wf; [|done]. wf_row.
Qed.
Lemma exec_wf A (s : Stmt A) now d :
  stores_wf A s -> registry_wf (si_auths (db_signin d)) -> registry_wf (si_auths (db_signin (exec s now d).2)).
Proof.
  destruct s; intros Hok Hw; try done; cbn [exec]; try (by repeat case_match).
  pose proof (exec_sign_in_wf _ s now (db_signin d) Hok Hw) as H. by destruct (exec_sign_in _ _ _).
Qed.
Lemma step_wf X (op : Op X) w x w' :
  sql_prop stores_wf X op -> registry_wf (si_auths (db_signin (w_db w))) -> step op w = (x, w') ->
  registry_wf (si_auths (db_signin (w_db w'))).
Proof.
  destruct op as [| | | | | | | |A s]; cbn; intros Hok Hw E; try (by injection E as _ <-).
  pose proof (step_sql_db s w) as [Hd|Hd]; rewrite E in Hd; cbn in Hd; rewrite Hd; [done|]. by apply exec_wf.
Qed.

Lemma run_wf {A} (p : Prog A) w r w' :
  always (sql_prop stores_wf) p -> run p w = (r, w') ->
  registry_wf (si_auths (db_signin (w_db w))) -> registry_wf (si_auths (db_signin (w_db w'))).
Proof.
  revert w. induction p as [a| |X op k IH]; cbn [always run]; [by intros w _ [= _ <-] | by intros w _ [= _ <-] |].
  intros w [Hop Hk] E Hw. destruct (step op w) as [x w1] eqn:Es.
  eapply (IH x w1 (Hk x) E). by eapply step_wf.
Qed.

(** ** The services over the registry *)
Definition ignoring {A} (p : Prog A) : Prog unit := do _ <- p;; Ret tt.
Inductive registry_program : Prog unit -> Prop :=
  | rp_set_status t u i next ctx : registry_program (ignoring (set_status t u i next ctx))
  | rp_issue t u ctx : registry_program (ignoring (issue_recovery_codes t u ctx))
  | rp_recovery t u code ctx : registry_program (ignoring (consume_recovery_code t u code ctx))
  | rp_email u code : registry_program (ignoring (consume_email_otp u code))
  | rp_sms u code : registry_program (ignoring (consume_sms_otp u code))
  | rp_phone t u code ctx : registry_program (ignoring (confirm_phone_registration t u code ctx))
  | rp_webauthn u i : registry_program (ignoring (revoke_webauthn u i))
  | rp_reset u : registry_program (ignoring (revoke_all_for_user u))
  | rp_setup sso : registry_program (ignoring (totp_setup key_encryption_key issuer sso))
  | rp_confirm sso code : registry_program (ignoring (totp_confirm_code key_encryption_key sso code))
  | rp_remove sso : registry_program (ignoring (totp_remove sso))
  | rp_second_factor t u code ctx :
      registry_program (ignoring (verify_second_factor key_encryption_key t u code ctx)).

Lemma new_row_wf id u t status secret confirmed now :
  status <> StatusRevoked -> (status = StatusActive -> is_some confirmed = true) ->
  authenticator_wf (new_row id u t status secret confirmed now).
Proof. intros H Hc. split; [|exact Hc]. unfold is_revoked. cbn. by rewrite bool_decide_eq_false_2. Qed.
#[local] Hint Extern 2 (stores_wf _ (SignIn (AuthsCreate (new_row _ _ _ _ _ _ _)))) =>
  (by apply new_row_wf) : prog.
#[local] Hint Extern 1 (always _ (totp_from_registry _)) => (apply always_bind) : prog.
Lemma stores_wf_codes u now n codes : always (sql_prop stores_wf) (create_recovery_codes u now n codes).
Proof. revert codes. induction n as [|n IH]; intros codes; cbn [create_recovery_codes]; prog_always. Qed.
Lemma stores_wf_types u now types : always (sql_prop stores_wf) (revoke_types u now types).
Proof. induction types as [|t types IH]; cbn [revoke_types]; prog_always. Qed.
Lemma stores_wf_single_use t u c x n kinds : always (sql_prop stores_wf) (check_single_use t u c x n kinds).
Proof.
  induction kinds as [|[k m] kinds IH]; cbn [check_single_use];
    unfold consume_single_use_code, consume_single_use, record_audit; prog_always.
Qed.
Hint Resolve stores_wf_codes stores_wf_types stores_wf_single_use : prog.
Lemma registry_program_stores p : registry_program p -> always (sql_prop stores_wf) p.
Proof.
  intros []; unfold ignoring.
  all: unfold set_status, issue_recovery_codes, consume_recovery_code, consume_email_otp, consume_sms_otp,
    usable_recovery_code_count, consume_single_use_code, consume_single_use, confirm_phone_registration,
    confirm_pending, revoke_webauthn, revoke_all_for_user, totp_setup, totp_confirm_code, totp_remove,
    totp_resolve_user, account_name, register_totp_pending, activate_totp, create_active_totp, revoke_totp,
    totp_from_registry, verify_second_factor, check_totp, is_blocked_in_registry, accept_totp, record_audit.
  all: prog_always.
Qed.
(** What a change from outside must respect. *)
Definition env_wf (t : Turn) : Prop :=
  match t with
  | Thread _ => True
  | Env f => forall w, registry_wf (si_auths (db_signin (w_db w))) -> registry_wf (si_auths (db_signin (w_db (f w))))
  end.
(** C19: The registry stays well formed.  Any number of calls of the registry's services
    (codes, phone, TOTP and passkey registration, suspension, reset and second-factor
    checks), interleaved statement by statement with database failures, keep the
    identifiers of the rows unique, a revocation time on exactly the revoked rows and a
    confirmation time on every active one. *)
Theorem registry_stays_wf schedule ps w :
  Forall registry_program ps -> Forall env_wf schedule ->
  registry_wf (si_auths (db_signin (w_db w))) ->
  registry_wf (si_auths (db_signin (w_db (run_pool schedule (ps, w)).2))).
Proof.
  intros Hps Hs Hw.
  apply (run_pool_invariant (sql_prop stores_wf) (fun w => registry_wf (si_auths (db_signin (w_db w)))));
    [by apply step_wf|done| |done].
  eapply Forall_impl; [exact Hps|]. intros p Hp. by apply registry_program_stores.
Qed.
End invariant.
