(* ===== verification/LoginSteps.v ===== *)
(** * The steps of a sign-in form, one at a time

    What the shared programs of [Login] have established when they answer, and what
    they leave alone: a [resting] program writes no code, token, user, consent, SSO
    session, device or authenticator. *)

From S2P Require Import Prelude Values ResponseMode External AuditLog Directory Application.
From S2P Require Import AuthenticationPolicy AuthorizationRequest AuthSession AuthSessionStore SsoSession.
From S2P Require Import SessionKey Lockout Csrf LoginIdentifier IdentifierLookup PasswordPolicy RateLimit.
From S2P Require Import Membership Authenticator UserDevice SignInStore Effects AccessGate AuthenticatorManagement.
From S2P Require Import SignInGates Authorize EnrollmentTicket DeviceGate SignInCompletion Login MfaLogin.
From S2P Require Import ProgLogic OneShots Frames Paths AccessTheorems SignInSteps AuthorizeTheorems.
From S2P Require Import CompletionTheorems.

(** ** Resting programs *)
Definition resting : StmtProp := fun A s =>
  quiet A s /\ sign_in_prop keeps_sso A s /\ sign_in_prop keeps_devices A s /\ sign_in_prop keeps_auths A s.
Notation is_resting := (always (sql_prop resting)) (only parsing).
#[export] Hint Extern 0 (resting _ _) => (repeat split) : prog.
Record rested (w w' : World) : Prop := {
  re_still : still w w';
  re_sso : si_sso (db_signin (w_db w')) = si_sso (db_signin (w_db w));
  re_devices : si_devices (db_signin (w_db w')) = si_devices (db_signin (w_db w));
  re_auths : si_auths (db_signin (w_db w')) = si_auths (db_signin (w_db w))
}.
#[export] Instance rested_preorder : PreOrder rested.
Proof.
  split; [by intros w; split|]. intros w1 w2 w3 [] []. split; by etransitivity.
Qed.
Lemma rested_clock w w' : rested w w' -> w_clock w' = w_clock w.
Proof. intros [H _ _ _]. by apply still_clock. Qed.
Lemma rested_directory w w' : rested w w' -> directory (w_db w') = directory (w_db w).
Proof. intros [H _ _ _]. by apply still_directory. Qed.

Section steps.
Context {HS : Hashing} {CO : Collation} {TC : TicketCrypto} {UN : UnicodeCase}.

Lemma run_resting {A} (p : Prog A) w r w' : is_resting p -> run p w = (r, w') -> rested w w'.
Proof.
  intros Hp E. split.
  - eapply run_quiet; [|exact E]. eapply sql_prop_weaken; [|exact Hp]. by intros B s (? & _).
  - eapply run_keeps_sso; [|exact E]. eapply sql_prop_weaken; [|exact Hp]. by intros B s (_ & ? & _).
  - eapply run_keeps_devices; [|exact E]. eapply sql_prop_weaken; [|exact Hp]. by intros B s (_ & _ & ? & _).
  - eapply run_keeps_auths; [|exact E]. eapply sql_prop_weaken; [|exact Hp]. by intros B s (_ & _ & _ & ?).
Qed.
Lemma run_sql_resting {A} (s : Stmt A) w r w' :
  resting A s -> run (sql s) w = (r, w') -> rested w w'.
Proof. intros Hs. apply run_resting. by apply always_sql. Qed.

(** ** The session of the flow *)
(** The session the browser presented, under its identifier. *)
Record presented_session (d : Database) (t : TenantId) (presented : option string) (now : DateTime)
  (session_id : string) (s : AuthSession) : Prop := {
  ps_presented : presented = Some session_id;
  ps_non_empty : session_id <> "";
  ps_found : sql_find (si_sessions (db_signin d)) t (hash_session_id {| session_id_plain := session_id |})
    = Ok (Some s);
  ps_live : session_is_expired_at s now = false
}.
Lemma resting_flow_session tenant presented now : is_resting (flow_session tenant presented now).
Proof. unfold flow_session, delete_session. prog_always. Qed.
Lemma run_flow_session tenant presented now w session_id s w' :
  run (flow_session tenant presented now) w = (Some (Ok (Some (session_id, s))), w') ->
  presented_session (w_db w) (tc_tenant_id tenant) presented now session_id s.
Proof.
  unfold flow_session. destruct presented as [x|]; cbn [opt_filter]; [|done].
  destruct (str_is_empty x) eqn:Ex; cbn [negb]; [done|]. apply str_is_empty_false in Ex. intros H.
  apply run_try in H. destruct H as ([s0|] & w1 & Hf & H); [|done]. apply run_str_error, run_sql_Ok in Hf.
  injection Hf as Hf _. destruct (session_is_expired_at s0 now) eqn:Ee.
  - apply run_do in H. by destruct H as ([] & ? & _ & H).
  - injection H as <- <- _. by split.
Qed.
Lemma resting_rate_allows ctx now : is_resting (rate_allows ctx now).
Proof. unfold rate_allows. prog_always. Qed.
(** Nobody is limited without an address. *)
Definition within_rate (w : World) (ctx : RequestContext) (now : DateTime) : Prop :=
  forall ip, ctx_ip_address ctx = Some ip -> (check_and_record ip now (w_limiter w)).1 = true.
Lemma resting_note_failure e t u c r ctx : is_resting (note_failure e t u c r ctx).
Proof. unfold note_failure, record_audit. prog_always. Qed.
Lemma resting_decide_policy q : is_resting (decide_policy q).
Proof. unfold decide_policy, policy_target_for_oidc_client, resolve_for_oidc_client. prog_always. Qed.
Lemma resting_has_totp u : is_resting (user_has_confirmed_totp u).
Proof. unfold user_has_confirmed_totp. prog_always. Qed.

(** ** Which user is meant *)
Definition directory_match (d : Database) (scope : IdentifierScope) (t : TenantId) (input : string)
  : LoginIdentifierMatch := match_of_rows (users_identified d scope t (lookup_candidates input)).
(** The order of the resolution: the tenant's own users, then the users of the tenant
    the domain belongs to, then guests; the first that is not "nobody" counts. *)
Definition or_else (a b : LoginIdentifierMatch) : LoginIdentifierMatch :=
  if should_continue a then b else a.
Definition domain_match (d : Database) (t : TenantId) (input : string) : LoginIdentifierMatch :=
  match split_qualified_identifier input with
  | None => Unresolved ReasonNotFound
  | Some (local_part, domain) =>
      match domains_find_tenant (tn_domains (db_tenancy d)) domain with
      | None => Unresolved ReasonNotFound
      | Some home =>
          let by_name := directory_match d (ScopeMemberWithHomeTenant home) t local_part in
          if N.eqb home t then by_name
          else or_else (directory_match d (ScopeMemberWithHomeTenant home) t input) by_name
      end
  end.
Definition login_user (d : Database) (t : TenantId) (input : string) : LoginIdentifierMatch :=
  or_else (directory_match d ScopeHome t input)
    (or_else (domain_match d t input) (directory_match d ScopeActiveGuest t input)).

Lemma resting_resolve_identifier scope t input : is_resting (resolve_login_identifier scope t input).
Proof. unfold resolve_login_identifier. prog_always. Qed.
Lemma resting_first_match t home xs : is_resting (first_match t home xs).
Proof. induction xs as [|x xs IH]; cbn [first_match]; pose proof resting_resolve_identifier; prog_always. Qed.
Lemma resting_resolve_login_user t input : is_resting (resolve_login_user t input).
Proof.
  unfold resolve_login_user, resolve_by_domain.
  pose proof resting_resolve_identifier. pose proof resting_first_match. prog_always.
Qed.
Lemma directory_match_eq d d' scope t input :
  directory d' = directory d -> directory_match d' scope t input = directory_match d scope t input.
Proof.
  intros E. unfold directory_match, users_identified. by injection E as _ -> _ _ _ _ _ _ -> ->.
Qed.
Lemma identifiers_select_nil identifiers members users tenants scope t :
  identifiers_select identifiers members users tenants scope t [] = [].
Proof.
  unfold identifiers_select. assert (forall us : list User, List.filter (identified identifiers members tenants scope t []) us = []) as ->; [|done].
  induction us as [|u us IH]; [done|]. cbn [List.filter].
  assert (identified identifiers members tenants scope t [] u = false) as ->; [|exact IH].
  unfold identified. apply not_true_iff_false. intros H. apply existsb_exists in H as (i & _ & H).
  apply andb_true_iff in H as [_ H]. unfold identifier_admits in H. by rewrite andb_false_r in H.
Qed.
Lemma run_resolve_identifier scope t input w m w' :
  run (resolve_login_identifier scope t input) w = (Some (Ok m), w') ->
  rested w w' /\ m = directory_match (w_db w) scope t input.
Proof.
  intros H. split; [eapply run_resting; [apply resting_resolve_identifier | exact H]|].
  unfold resolve_login_identifier in H. unfold directory_match, users_identified.
  destruct (lookup_candidates input) as [|c cs].
  - injection H as <- _. by rewrite identifiers_select_nil.
  - apply run_try in H. destruct H as (rows & w1 & Hs & H). injection H as <- _.
    apply run_sql_Ok in Hs. by injection Hs as <- _.
Qed.
Lemma run_first_match t home xs w m w' :
  run (first_match t home xs) w = (Some (Ok m), w') ->
  unwrap_or (Unresolved ReasonNotFound) m
  = foldr (fun x => or_else (directory_match (w_db w) (ScopeMemberWithHomeTenant home) t x))
      (Unresolved ReasonNotFound) xs
  /\ (m = None <-> should_continue (unwrap_or (Unresolved ReasonNotFound) m) = true).
Proof.
  revert w. induction xs as [|x xs IH]; intros w H; cbn [first_match] in H.
  { by injection H as <- _. }
  apply run_try in H. destruct H as (found & w1 & Hf & H). apply run_resolve_identifier in Hf.
  destruct Hf as [R ->]. cbn [foldr]. unfold or_else at 1.
  destruct (should_continue (directory_match (w_db w) _ t x)) eqn:Ec; cbn [negb] in H.
  - apply IH in H. destruct H as [-> Hm]. split; [|done].
    clear Hm IH. induction xs as [|y ys IH]; [done|]. cbn [foldr].
    rewrite IH. by rewrite (directory_match_eq _ _ _ _ _ (rested_directory _ _ R)).
  - injection H as <- _. split; [done|]. cbn. by rewrite Ec.
Qed.
Lemma or_else_assoc a b : or_else a (Unresolved ReasonNotFound) = a /\ or_else (Unresolved ReasonNotFound) b = b.
Proof. split; [|done]. unfold or_else. by destruct a as [|[]]. Qed.
Lemma run_resolve_by_domain t input w m w' :
  run (resolve_by_domain t input) w = (Some (Ok m), w') ->
  unwrap_or (Unresolved ReasonNotFound) m = domain_match (w_db w) t input
  /\ (m = None <-> should_continue (domain_match (w_db w) t input) = true).
Proof.
  unfold resolve_by_domain, domain_match. destruct (split_qualified_identifier input) as [[local domain]|].
  2: { intros H. by injection H as <- _. }
  intros H. apply run_try in H. destruct H as (home & w1 & Hh & H).
  assert (rested w w1) as R by by eapply run_sql_resting; [|exact Hh].
  apply run_sql_Ok in Hh. injection Hh as Hh _. rewrite Hh.
  destruct home as [home|]; [|by injection H as <- _].
  apply run_first_match in H. destruct H as [H Hm]. rewrite H in Hm. rewrite H, Hm. clear H Hm.
  assert (forall x, directory_match (w_db w1) (ScopeMemberWithHomeTenant home) t x
                    = directory_match (w_db w) (ScopeMemberWithHomeTenant home) t x) as E
    by (intros x; apply directory_match_eq; by apply rested_directory).
  destruct (N.eqb home t); cbn [foldr]; rewrite !E; by rewrite (proj1 (or_else_assoc _ (Unresolved ReasonNotFound))).
Qed.
Lemma domain_match_eq d d' t input :
  directory d' = directory d -> domain_match d' t input = domain_match d t input.
Proof.
  intros E. unfold domain_match.
  assert (tn_domains (db_tenancy d') = tn_domains (db_tenancy d)) as ->
    by by injection E as _ _ _ _ _ _ _ _ -> _.
  destruct (split_qualified_identifier input) as [[local domain]|]; [|done].
  destruct (domains_find_tenant _ _); [|done]. by rewrite !(directory_match_eq _ _ _ _ _ E).
Qed.
Lemma run_resolve_login_user t input w m w' :
  run (resolve_login_user t input) w = (Some (Ok m), w') ->
  rested w w' /\ m = login_user (w_db w) t input.
Proof.
  intros H. split; [eapply run_resting; [apply resting_resolve_login_user | exact H]|].
  unfold resolve_login_user, login_user in *. apply run_try in H. destruct H as (a & w1 & Ha & H).
  apply run_resolve_identifier in Ha. destruct Ha as [R1 ->]. unfold or_else at 1.
  destruct (should_continue (directory_match (w_db w) ScopeHome t input)); cbn [negb] in H; [|by injection H as <- _].
  apply run_try in H. destruct H as (b & w2 & Hb & H).
  assert (rested w1 w2) as R2.
  { eapply run_resting; [|exact Hb]. unfold resolve_by_domain. pose proof resting_first_match. prog_always. }
  apply run_resolve_by_domain in Hb. destruct Hb as [Hb Hn].
  pose proof (domain_match_eq _ _ t input (rested_directory _ _ R1)) as Ed.
  rewrite Ed in *. unfold or_else. destruct b as [b|].
  - injection H as <- _. cbn in Hb. subst b. destruct (should_continue (domain_match _ _ _)); [|done].
    by pose proof (proj2 Hn eq_refl).
  - rewrite (proj1 Hn eq_refl). apply run_resolve_identifier in H. destruct H as [_ ->].
    apply directory_match_eq. by rewrite (rested_directory _ _ R2), (rested_directory _ _ R1).
Qed.

Lemma login_user_eq d d' t input :
  directory d' = directory d -> login_user d' t input = login_user d t input.
Proof.
  intros E. unfold login_user. by rewrite !(directory_match_eq _ _ _ _ _ E), (domain_match_eq _ _ _ _ E).
Qed.

(** ** The failure counter *)
(** The database after the counter of a user was written. *)
Lemma run_users_update u n l w w' :
  run (sql (UsersUpdateLoginState u n l)) w = (Some (Ok tt), w') ->
  w_db w' = set_users (w_db w) (users_update_login_state (db_users (w_db w)) u n l (w_db_clock w)).
Proof. intros H. apply run_sql_Ok in H. by injection H as <-. Qed.
(** [counted]: the one statement that counts a failure has run on the users. *)
Definition counted (d d' : Database) (user : User) (lockout : LockoutPolicy) (now db_now : DateTime) : Prop :=
  users_record_failure (db_users d) (u_id user) lockout now db_now = Some (Ok (db_users d')).
Lemma run_record_login_failure id lockout now w r w' :
  run (record_login_failure id lockout now) w = (Some (Ok r), w') ->
  users_record_failure (db_users (w_db w)) id lockout now (w_db_clock w) = Some (Ok (db_users (w_db w')))
  /\ fixtures (w_db w') = fixtures (w_db w)
  /\ r = users_failure_record (db_users (w_db w')) id now.
Proof.
  intros H. split; [|split; [by eapply run_fixtures|]]; revert H; unfold record_login_failure, users_record_failure;
    (destruct (bind_arms _ _) as [arms|]; [|done]); intros H;
    apply run_try in H; destruct H as ([] & w1 & Hc & H);
    apply run_try in H; destruct H as (row & w2 & Hs & H); injection H as <- <-;
    apply run_sql_Ok in Hc, Hs; cbn [exec] in Hc, Hs; injection Hs as Hs Hw;
    destruct (users_count_failure _ _ _ _) as [rows|] eqn:Eu; try done; injection Hc as Hc; cbn [mbind option_bind].
  - rewrite Eu. rewrite <- Hw, <- Hc. done.
  - unfold users_failure_record. by rewrite <- Hw, <- Hs.
Qed.
Lemma run_count_failure t user c reason ctx now w locked w' :
  run (count_failure t user c reason ctx now) w = (Some (Ok locked), w') ->
  counted (w_db w) (w_db w') user (tn_lockout (db_tenancy (w_db w)) (u_tenant_id user)) now (w_db_clock w)
  /\ locked = failure_is_locked (users_failure_record (db_users (w_db w')) (u_id user) now).
Proof.
  unfold count_failure. intros H. apply run_try in H. destruct H as (lockout & w1 & Hl & H).
  apply run_str_error in Hl. pose proof (run_fixed _ _ _ _ Hl) as F1.
  apply run_sql_Ok in Hl. injection Hl as Hl Hw1.
  apply run_try in H. destruct H as (failure & w2 & Hf & H). apply run_str_error in Hf.
  apply run_record_login_failure in Hf. destruct Hf as (Hc & _ & ->).
  apply run_do in H. destruct H as ([] & w3 & Hn & H).
  assert (directory (w_db w3) = directory (w_db w2)) as D3.
  { apply rested_directory. eapply run_resting; [apply resting_note_failure | exact Hn]. }
  assert (directory (w_db w') = directory (w_db w2) /\ locked = failure_is_locked (users_failure_record (db_users (w_db w2)) (u_id user) now)) as [D ->].
  { destruct (failure_is_locked _) eqn:El.
    - apply run_do in H. destruct H as ([] & w4 & Hn4 & H). injection H as <- <-. split; [|done].
      etransitivity; [|exact D3]. apply rested_directory. eapply run_resting; [apply resting_note_failure | exact Hn4].
    - injection H as <- <-. by split. }
  injection D as _ _ _ _ _ _ _ _ _ Eu. rewrite Eu. split; [|done].
  unfold counted. rewrite Hl, Eu, Hw1. injection F1 as _ <- _. done.
Qed.
End steps.
