(* ===== verification/LoginTheorems.v ===== *)
(** * What signing in with a password guarantees *)

From S2P Require Import Prelude Values ResponseMode External AuditLog Directory Application.
From S2P Require Import AuthenticationPolicy AuthorizationRequest AuthSession AuthSessionStore AuthorizationCode.
From S2P Require Import SsoSession SessionKey Lockout Csrf LoginIdentifier IdentifierLookup PasswordPolicy.
From S2P Require Import RateLimit Membership Authenticator UserDevice SignInStore Effects AccessGate.
From S2P Require Import AuthenticatorManagement SignInGates Authorize EnrollmentTicket DeviceGate.
From S2P Require Import SignInCompletion Login MfaLogin ProgLogic OneShots Frames Paths AccessTheorems.
From S2P Require Import SignInSteps AuthorizeTheorems CompletionTheorems LoginSteps.

(** ** How a completed sign-in changes the world *)
(** Before the completion only the user's failure counter has been reset. *)
Record prepared (w w1 : World) (user : User) : Prop := {
  pp_fixtures : fixtures (w_db w1) = fixtures (w_db w);
  pp_users : db_users (w_db w1) = db_users (w_db w)
    \/ db_users (w_db w1) = users_update_login_state (db_users (w_db w)) (u_id user) 0 None (w_db_clock w);
  pp_codes : db_codes (w_db w1) = db_codes (w_db w);
  pp_refresh : db_refresh (w_db w1) = db_refresh (w_db w);
  pp_consents : si_consents (db_signin (w_db w1)) = si_consents (db_signin (w_db w));
  pp_sso : si_sso (db_signin (w_db w1)) = si_sso (db_signin (w_db w));
  pp_devices : si_devices (db_signin (w_db w1)) = si_devices (db_signin (w_db w));
  pp_fixed : fixed w1 = fixed w;
  pp_tokens : w_tokens w1 = w_tokens w
}.
Lemma prepared_rested w w1 user : rested w w1 -> prepared w w1 user.
Proof.
  intros [[U Q] Hs Hd _]. pose proof (un_directory _ _ U) as D.
  split; try (by apply U); try done.
  - unfold directory in D. congruence.
  - left. unfold directory in D. congruence.
Qed.
Lemma prepared_trans w w1 w2 user : rested w w1 -> prepared w1 w2 user -> prepared w w2 user.
Proof.
  intros R [Hf Hu Hc Hr Hcn Hs Hd Hx Ht]. destruct (prepared_rested _ _ user R) as [Hf' Hu' Hc' Hr' Hcn' Hs' Hd' Hx' Ht'].
  assert (w_db_clock w1 = w_db_clock w) as Ec by by injection Hx'.
  assert (db_users (w_db w1) = db_users (w_db w)) as Eu
    by (pose proof (rested_directory _ _ R) as D; unfold directory in D; congruence).
  split; try (by etransitivity). by rewrite <- Eu, <- Ec.
Qed.

Section theorems.
Context {HS : Hashing} {CO : Collation} {TC : TicketCrypto} {UN : UnicodeCase}.
Context (code_ttl : Duration) (device_gate : option string) (origin : RequestOrigin) (csrf_secret : string).

Lemma run_reset_failures user w w' :
  run (reset_failures user) w = (Some (Ok tt), w') -> prepared w w' user.
Proof.
  unfold reset_failures. destruct (_ || _); [|by intros [= <-]; apply prepared_rested].
  intros H. apply run_str_error in H.
  pose proof (run_fixed _ _ _ _ H) as F. pose proof (run_tokens _ _ _ _ H) as T.
  apply run_users_update in H. split; rewrite ?H; try done. by right.
Qed.

(** [signed_in]: a session was established for these facts, and the flow went on to
    a code for the session's request. *)
Definition signed_in (w w' : World) (tenant : TenantContext) (session : AuthSession) (facts : SignInFacts)
  (now : DateTime) (d : AuthorizationDispatch) (sso_session_id : string) : Prop :=
  exists w1 sso code,
    sso_established device_gate origin w w1 facts Unbound sso now
    /\ es_session_id sso = sso_session_id
    /\ si_sso (db_signin (w_db w')) = si_sso (db_signin (w_db w1))
    /\ consent_stands (w_db w1) (tc_tenant_id tenant) (sn_user_id facts) (as_request session)
    /\ code_issued code_ttl {| ic_tenant := tenant; ic_request := as_request session;
         ic_authentication := authentication_of (es_session sso) now |} w1 w' code
    /\ d = dispatch (success_response (as_request session) code).
Lemma run_finish_sign_in facts tenant session ctx now w d id ttl w' :
  run (finish_sign_in code_ttl device_gate origin facts tenant session ctx now) w
    = (Some (Ok (EndSuccess d id ttl)), w') ->
  signed_in w w' tenant session facts now d id.
Proof.
  unfold finish_sign_in. intros H. apply run_try in H. destruct H as (e & w1 & He & H).
  apply run_str_error in He. destruct e as [sso|ticket]; [|done].
  unfold establish_sso in He. apply run_establish in He.
  apply run_try in H. destruct H as (c & w2 & Hc & H). destruct c as [a|n|d']; try done. injection H as -> <- _ <-.
  apply run_str_error in Hc. apply run_continue_authorization in Hc. destruct Hc as (Hs & code & Hi & Hcn & ->).
  exists w1, sso, code. rewrite (en_user _ _ _ _ _ _ _ _ He) in Hcn. done.
Qed.

(** ** The process's own state: the limiter, and how often a password was hashed *)
Definition login_guard (w : World) : RateLimiter * nat * option (option string) :=
  (w_limiter w, w_hash_work w, w_dummy w).
Definition plain : OpProp := fun X op =>
  match op with HashWork | DummyHash _ | RateCheck _ _ => False | _ => True end.
Lemma run_plain {A} (p : Prog A) w r w' :
  always plain p -> run p w = (r, w') -> login_guard w' = login_guard w.
Proof.
  revert w. induction p as [a| |X op k IH]; cbn [always run]; [by intros w _ [= _ <-] | by intros w _ [= _ <-] |].
  intros w [Hop Hk] E. destruct (step op w) as [x w1] eqn:Es. rewrite (IH x w1 (Hk x) E).
  destruct op; cbn in Es; try done; try (by injection Es as _ <-).
  unfold step_sql in Es. destruct (exec _ _ _) as [? ?].
  destruct (w_faults w) as [|[] ?]; by injection Es as _ <-.
Qed.
Lemma plain_note e t u c r ctx : always plain (note_failure e t u c r ctx).
Proof. unfold note_failure, record_audit. prog_always. Qed.
Lemma plain_flow_session t p now : always plain (flow_session t p now).
Proof. unfold flow_session, delete_session. prog_always. Qed.
Lemma plain_resolve t input : always plain (resolve_login_user t input).
Proof.
  assert (forall s t i, always plain (resolve_login_identifier s t i)) as Hi
    by (intros; unfold resolve_login_identifier; prog_always).
  assert (forall t h xs, always plain (first_match t h xs)) as Hf
    by (intros t' h xs; induction xs; cbn [first_match]; prog_always).
  unfold resolve_login_user, resolve_by_domain. prog_always.
Qed.
Lemma plain_count_failure t u c r ctx now : always plain (count_failure t u c r ctx now).
Proof. pose proof plain_note. unfold count_failure, record_login_failure. prog_always. Qed.

(** ** The password form *)
Context {PH : PasswordHasher}.
Notation run_login tenant cmd ctx w :=
  (run (login code_ttl device_gate origin csrf_secret tenant cmd ctx) w).

(** No password was compared, and the time of a comparison was spent all the same:
    one computation against the reference hash that stands, none when it could not be
    made; the first such refusal of the process also makes it, or fails to. *)
Definition equalized (w w' : World) : Prop :=
  match w_dummy w with
  | Some made =>
      w_dummy w' = Some made /\ w_hash_work w' = w_hash_work w + (if made then 1 else 0)
  | None =>
      match hasher_hash (w_hash_work w) "timing-equalizer.not-a-credential" with
      | Ok hash => w_dummy w' = Some (Some hash) /\ w_hash_work w' = w_hash_work w + 2
      | Err _ => w_dummy w' = Some None /\ w_hash_work w' = w_hash_work w + 1
      end
  end.
(** One password was compared. *)
Definition compared (w w' : World) : Prop :=
  w_hash_work w' = w_hash_work w + 1 /\ w_dummy w' = w_dummy w.
Lemma equalized_standing w w' hash :
  w_dummy w = Some (Some hash) -> equalized w w' -> w_hash_work w' = S (w_hash_work w).
Proof. unfold equalized. intros ->. lia. Qed.
Lemma compared_one w w' : compared w w' -> w_hash_work w' = S (w_hash_work w).
Proof. unfold compared. lia. Qed.
Lemma equalized_guard w w1 w' w2 :
  w_hash_work w1 = w_hash_work w -> w_dummy w1 = w_dummy w -> login_guard w2 = login_guard w' ->
  equalized w1 w' -> equalized w w2.
Proof. intros Ew Ed [= _ E1 E2]. unfold equalized. by rewrite Ew, Ed, E1, E2. Qed.
Lemma run_verify_against_dummy password w w' :
  run (verify_against_dummy password) w = (Some tt, w') ->
  equalized w w' /\ w_db w' = w_db w.
Proof.
  unfold verify_against_dummy, equalized. cbn. unfold dummy_hash, dummy_work, make_dummy_hash.
  destruct (w_dummy w) as [[hash|]|]; [..|destruct (hasher_hash _ _)];
    cbn; intros [= <-]; cbn; (split; [split; [done|lia]|done]).
Qed.

(** The form was the browser's own and in time. *)
Record form_accepted (w : World) (tenant : TenantContext) (presented : option string) (csrf : string)
  (ctx : RequestContext) (session_id : string) (s : AuthSession) : Prop := {
  fa_session : presented_session (w_db w) (tc_tenant_id tenant) presented (w_clock w) session_id s;
  fa_csrf : csrf = login_csrf_token session_id csrf_secret;
  fa_rate : within_rate w ctx (w_clock w)
}.
(** What every answer that looked at the user has behind it. *)
Lemma run_try_login tenant cmd ctx w o w' :
  run (try_login code_ttl device_gate origin csrf_secret tenant cmd ctx) w = (Some (Ok o), w') ->
  In o [SessionExpired; CsrfMismatch; RateLimited]
  \/ exists session_id s w1,
      form_accepted w tenant (lc_auth_session_id cmd) (lc_csrf_token cmd) ctx session_id s
      /\ rested w w1 /\ w_hash_work w1 = w_hash_work w /\ w_dummy w1 = w_dummy w
      /\ ((exists reason, login_user (w_db w) (tc_tenant_id tenant) (lc_username cmd) = Unresolved reason
             /\ o = InvalidCredentials /\ directory (w_db w') = directory (w_db w)
             /\ equalized w w')
          \/ exists user, login_user (w_db w) (tc_tenant_id tenant) (lc_username cmd) = Resolved user
             /\ run (check_password code_ttl device_gate origin tenant s user (lc_password cmd) ctx (w_clock w)) w1
                = (Some (Ok o), w')).
Proof.
  unfold try_login. intros H. apply run_do in H. destruct H as (now & w0 & Hn & H). apply run_Now in Hn.
  destruct Hn as [-> ->]. apply run_try in H. destruct H as (found & w1 & Hf & H).
  assert (rested w w1) as R1 by (eapply run_resting; [apply resting_flow_session | exact Hf]).
  pose proof (run_plain _ _ _ _ (plain_flow_session _ _ _) Hf) as G1.
  destruct found as [[session_id s]|]; [|injection H as <- _; left; set_solver].
  apply run_flow_session in Hf.
  destruct (csrf_verify _ _) eqn:Ev; cbn [negb] in H.
  2: { apply run_do in H. destruct H as ([] & ? & _ & H). injection H as <- _. left; set_solver. }
  apply csrf_verify_eq in Ev.
  apply run_do in H. destruct H as (allowed & w2 & Hr & H).
  assert (rested w1 w2) as R2 by (eapply run_resting; [apply resting_rate_allows | exact Hr]).
  assert (w_hash_work w2 = w_hash_work w1 /\ w_dummy w2 = w_dummy w1
          /\ (allowed = true -> within_rate w ctx (w_clock w))) as (W2 & U2 & Hrate).
  { unfold rate_allows in Hr. unfold within_rate. destruct (ctx_ip_address ctx) as [ip|].
    - cbn in Hr. injection Hr as <- <-. split; [done|]. split; [done|]. intros Ha ip' [= <-]. by injection G1 as <- _ _.
    - injection Hr as <- <-. done. }
  destruct allowed; cbn [negb] in H.
  2: { apply run_do in H. destruct H as ([] & ? & _ & H). injection H as <- _. left; set_solver. }
  apply run_try in H. destruct H as (m & w3 & Hm & H). apply run_str_error in Hm.
  pose proof (run_plain _ _ _ _ (plain_resolve _ _) Hm) as G3.
  apply run_resolve_login_user in Hm. destruct Hm as [R3 ->].
  assert (rested w w2) as R02 by by transitivity w1.
  assert (login_user (w_db w2) (tc_tenant_id tenant) (lc_username cmd)
          = login_user (w_db w) (tc_tenant_id tenant) (lc_username cmd)) as El
    by by apply login_user_eq, rested_directory.
  rewrite El in H. right. exists session_id, s, w3.
  split; [split; [done|done|by apply Hrate]|]. split; [by transitivity w2|].
  injection G3 as _ W3 U3. injection G1 as _ W1 U1.
  assert (w_hash_work w3 = w_hash_work w) as W by congruence. assert (w_dummy w3 = w_dummy w) as U by congruence.
  split; [done|]. split; [done|].
  destruct (login_user _ _ _) as [user|reason]; [right|left].
  - by exists user.
  - exists reason. split; [done|].
    apply run_do in H. destruct H as ([] & w4 & Hd & H). apply run_do in H. destruct H as ([] & w5 & Hn & H).
    injection H as <- <-. split; [done|].
    pose proof (run_plain _ _ _ _ (plain_note _ _ _ _ _ _) Hn) as G5.
    assert (rested w4 w5) as R5 by (eapply run_resting; [apply resting_note_failure | exact Hn]).
    apply run_verify_against_dummy in Hd. destruct Hd as [Hd D4]. split.
    + rewrite (rested_directory _ _ R5), D4, (rested_directory _ _ R3). by apply rested_directory.
    + by eapply equalized_guard.
Qed.

(** Who is asked for a password, and what becomes of it. *)
Lemma run_check_password tenant s user password ctx now w o w' :
  run (check_password code_ttl device_gate origin tenant s user password ctx now) w = (Some (Ok o), w') ->
  if user_is_locked_at user now
  then o = Locked /\ directory (w_db w') = directory (w_db w) /\ equalized w w'
  else if negb (user_is_active user)
  then o = InvalidCredentials /\ directory (w_db w') = directory (w_db w) /\ equalized w w'
  else match hasher_verify password (u_password_hash user) with
  | Err _ => False
  | Ok false =>
      counted (w_db w) (w_db w') user (tn_lockout (db_tenancy (w_db w)) (u_tenant_id user)) (w_clock w) (w_db_clock w)
      /\ o = (if failure_is_locked (users_failure_record (db_users (w_db w')) (u_id user) (w_clock w))
              then Locked else InvalidCredentials)
      /\ compared w w'
  | Ok true =>
      run (after_password code_ttl device_gate origin tenant s user ctx now)
        (with_login_guard w (w_limiter w) (S (w_hash_work w))) = (Some (Ok o), w')
  end.
Proof.
  unfold check_password.
  assert (forall e c r (o1 : LoginOutcome),
    run (do _ <- verify_against_dummy password;; do _ <- note_failure e (tc_tenant_id tenant) (Some (u_id user)) c r ctx;;
         Ret (@Ok string _ o1)) w = (Some (Ok o), w') ->
    o = o1 /\ directory (w_db w') = directory (w_db w) /\ equalized w w') as Hrefuse.
  { intros e c r o1 H. apply run_do in H. destruct H as ([] & w1 & Hd & H).
    apply run_do in H. destruct H as ([] & w2 & Hn & H). injection H as -> <-.
    pose proof (run_plain _ _ _ _ (plain_note _ _ _ _ _ _) Hn) as G. split; [done|].
    apply run_resting in Hn; [|apply resting_note_failure]. rewrite (rested_directory _ _ Hn).
    apply run_verify_against_dummy in Hd. destruct Hd as [Hd ->]. split; [done|]. by eapply equalized_guard. }
  destruct (user_is_locked_at user now); [apply Hrefuse|].
  destruct (user_is_active user); cbn [negb]; [|apply Hrefuse].
  intros H. apply run_do in H. destruct H as ([] & w1 & Hh & H). cbn in Hh. injection Hh as <-.
  destruct (hasher_verify _ _) as [[|]|]; [exact H| |done].
  apply run_do in H. destruct H as (failed_at & w2 & Hn & H). apply run_Now in Hn. destruct Hn as [-> ->].
  apply run_try in H. destruct H as (locked & w3 & Hc & H). injection H as <- <-.
  pose proof (run_plain _ _ _ _ (plain_count_failure _ _ _ _ _ _) Hc) as G.
  apply run_count_failure in Hc. destruct Hc as [Hc ->]. split; [exact Hc|]. split; [done|].
  injection G as _ E1 E2. unfold compared. rewrite E1, E2. cbn. split; [lia|done].
Qed.
(** After the password the credentials are never called wrong. *)
Lemma after_password_accepts tenant s user ctx now w o w' :
  run (after_password code_ttl device_gate origin tenant s user ctx now) w = (Some (Ok o), w') ->
  o <> InvalidCredentials /\ o <> Locked.
Proof.
  intros H. apply (guarded_never_run (fun r => r = Ok InvalidCredentials \/ r = Ok Locked)) in H.
  { split; intros ->; apply H; auto. }
  unfold after_password, after_policy, password_verified.
  repeat first [ by intros [|] | exact I | apply guarded_after | progress intros | case_match ].
Qed.

(** The first half of a conjunction from the second. *)
Lemma and_of_right (A B : Prop) : B -> (B -> A) -> A /\ B.
Proof. tauto. Qed.

(** C13: A refusal takes its time and forgets nothing.  When the form answers
    [InvalidCredentials] or [Locked], whatever failed on the way: the hasher has
    computed exactly once, whether the user is unknown, locked, disabled or gave a
    wrong password, as soon as the process's reference hash stands.  Before that, a
    refusal that compared no password also makes the reference hash (one computation
    more, or the failed attempt alone), and where making it failed none follows.  A
    wrong password has been counted by the one statement the lockout policy of the
    user's home tenant builds, and in the other cases no user was written. *)
Theorem login_refused tenant cmd ctx w o w' :
  run_login tenant cmd ctx w = (Some o, w') -> o = InvalidCredentials \/ o = Locked ->
  (forall hash, w_dummy w = Some (Some hash) -> w_hash_work w' = S (w_hash_work w))
  /\ match login_user (w_db w) (tc_tenant_id tenant) (lc_username cmd) with
     | Unresolved _ => o = InvalidCredentials /\ directory (w_db w') = directory (w_db w) /\ equalized w w'
     | Resolved user =>
         if user_is_locked_at user (w_clock w)
         then o = Locked /\ directory (w_db w') = directory (w_db w) /\ equalized w w'
         else if negb (user_is_active user)
         then o = InvalidCredentials /\ directory (w_db w') = directory (w_db w) /\ equalized w w'
         else hasher_verify (lc_password cmd) (u_password_hash user) = Ok false
           /\ counted (w_db w) (w_db w') user (tn_lockout (db_tenancy (w_db w)) (u_tenant_id user))
                (w_clock w) (w_db_clock w)
           /\ o = (if failure_is_locked (users_failure_record (db_users (w_db w')) (u_id user) (w_clock w))
                   then Locked else InvalidCredentials)
           /\ compared w w'
     end.
Proof.
  intros H Ho. apply and_of_right; revgoals.
  { clear. intros H hash Hh.
    destruct (login_user _ _ _) as [user|reason]; [|by eapply equalized_standing; [|apply H]].
    destruct (user_is_locked_at _ _); [by eapply equalized_standing; [|apply H]|].
    destruct (user_is_active _); cbn [negb] in H; [|by eapply equalized_standing; [|apply H]].
    by apply compared_one, H. }
  unfold login in H. apply run_do in H. destruct H as (r & w0 & H & Hr). injection Hr as Hr ->.
  destruct r as [o'|e]; cbn in Hr; [subst o'|subst; by destruct Ho].
  apply run_try_login in H.
  destruct H as [H|(sid & s & w1 & _ & R & W & U & [(reason & -> & -> & Hdir & Hw)|(user & -> & H)])].
  - destruct H as [<-|[<-|[<-|[]]]]; by destruct Ho.
  - auto.
  - apply run_check_password in H. pose proof (rested_directory _ _ R) as D.
    pose proof (rested_clock _ _ R) as C.
    pose proof (un_fixed _ _ (st_untouched _ _ (re_still _ _ R))) as F. injection F as _ Fd _.
    assert (equalized w1 w' -> equalized w w') as Eq by by apply equalized_guard.
    rewrite D, C, Fd in H.
    destruct (user_is_locked_at user (w_clock w)); [destruct H as (? & ? & ?); auto|].
    destruct (user_is_active user); cbn [negb] in *; [|destruct H as (? & ? & ?); auto].
    destruct (hasher_verify _ _) as [[|]|]; [|..|done].
    + apply after_password_accepts in H. by destruct H, Ho.
    + destruct H as (Hc & -> & Hw). split; [done|]. split; [|split; [done|unfold compared in *; by rewrite <- W, <- U]].
      unfold counted in *. unfold directory, fixtures in D. injection D as _ _ _ _ _ _ _ _ Et Eu.
      by rewrite <- Eu, <- Et.
Qed.

(** ** What a right password gives *)
Definition confirmed_totp (d : Database) (u : Uuid) : bool :=
  match totp_find_by_user_id (si_auths (db_signin d)) u with Some x => totp_is_confirmed x | None => false end.
(** A decision that a password alone satisfies. *)
Definition password_suffices (decision : PolicyDecision) : bool :=
  match decision with
  | DecisionDeny _ | DecisionRequireMfa _ => false
  | _ => negb (is_some (unmet_method_requirement decision [Password] false))
  end.
Definition denied (decision : PolicyDecision) : bool :=
  match decision with DecisionDeny _ => true | _ => false end.
Lemma run_password_verified s user now outcome w o w' :
  run (password_verified s user now outcome) w = (Some (Ok o), w') ->
  rested w w' /\ exists n, o = outcome (w_tokens w n).
Proof.
  intros H. split; [eapply run_resting; [|exact H]; unfold password_verified; prog_always|].
  unfold password_verified in H. apply run_do in H. destruct H as (fresh & w1 & Hr & H).
  apply run_RandomToken in Hr. destruct Hr as [-> _].
  destruct (record_password_verification _ _ _ _) as [s' v] eqn:Ev. injection Ev as _ <-.
  apply run_try in H. destruct H as ([] & w2 & _ & H). injection H as <- _. by eexists.
Qed.
(** [gives]: what an answer after the password stands for. *)
Definition gives (w w' : World) (tenant : TenantContext) (s : AuthSession) (user : User) (now : DateTime)
  (decision : PolicyDecision) (o : LoginOutcome) : Prop :=
  match o with
  | MfaRequired id | PasswordChangeRequired id => rested w w' /\ (exists n, id = w_tokens w n)
  | LoginEnded (EndSuccess d id _) _ =>
      password_suffices decision = true
      /\ password_change_required user (tn_password_policy (db_tenancy (w_db w)) (u_tenant_id user)) now = Some false
      /\ confirmed_totp (w_db w) (u_id user) = false
      /\ exists w1, prepared w w1 user
         /\ signed_in w1 w' tenant s
              (login_facts (tc_tenant_id tenant) user (rq_client_id (as_request s)) [Password]) now d id
  | _ => True
  end.
Lemma run_has_totp u w b w' :
  run (user_has_confirmed_totp u) w = (Some (Ok b), w') -> b = confirmed_totp (w_db w) u.
Proof.
  unfold user_has_confirmed_totp. intros H. apply run_try in H. destruct H as (x & w1 & Hx & H).
  injection H as <- _. apply run_sql_Ok in Hx. injection Hx as Hx _. unfold confirmed_totp. by rewrite Hx.
Qed.
Lemma run_after_policy tenant s user ctx now decision w o w' :
  denied decision = false ->
  run (after_policy code_ttl device_gate origin tenant s user ctx now decision) w = (Some (Ok o), w') ->
  gives w w' tenant s user now decision o.
Proof.
  unfold after_policy. intros Hden H. apply run_try in H. destruct H as (policy & w1 & Hp & H).
  apply run_str_error in Hp. assert (rested w w1) as R1 by by eapply run_sql_resting; [|exact Hp].
  apply run_sql_Ok in Hp. injection Hp as Hp _.
  destruct (password_change_required user policy now) as [[|]|] eqn:Ec; [| |done].
  { apply run_password_verified in H. destruct H as (R & n & ->). split; [by transitivity w1|].
    exists n. by rewrite (un_tokens _ _ (st_untouched _ _ (re_still _ _ R1))). }
  apply run_try in H. destruct H as (has_totp & w2 & Ht & H). apply run_str_error in Ht.
  assert (rested w1 w2) as R2 by (eapply run_resting; [apply resting_has_totp | exact Ht]).
  apply run_has_totp in Ht.
  assert (rested w w2) as R by by transitivity w1.
  assert (confirmed_totp (w_db w1) (u_id user) = confirmed_totp (w_db w) (u_id user)) as E
    by (unfold confirmed_totp; by rewrite (re_auths _ _ R1)).
  rewrite E in Ht. destruct has_totp.
  { apply run_password_verified in H. destruct H as (R3 & n & ->). split; [by transitivity w2|].
    exists n. by rewrite (un_tokens _ _ (st_untouched _ _ (re_still _ _ R))). }
  assert (o = MfaEnrollmentRequired \/ o = PolicyDenied \/ (password_suffices decision = true /\
    run (try _ <- reset_failures user;;
         try ended <- finish_sign_in code_ttl device_gate origin
             (login_facts (tc_tenant_id tenant) user (rq_client_id (as_request s)) [Password]) tenant s ctx now;;
         Ret (Ok (LoginEnded ended (u_language user)))) w2 = (Some (Ok o), w'))) as [->|[->|[Hsuf Hrun]]]; [|done|done|].
  { unfold password_suffices. destruct decision; try done;
      try (destruct (unmet_method_requirement _ _ _) as [u|]; [|by right; right]);
      apply run_do in H; destruct H as ([] & ? & _ & H); injection H as <- _; auto. }
  apply run_try in Hrun. destruct Hrun as ([] & w3 & Hr & Hrun). apply run_reset_failures in Hr.
  apply run_try in Hrun. destruct Hrun as (ended & w4 & Hf & Hrun). injection Hrun as <- <-.
  destruct ended as [d id ttl| | |]; try done. apply run_finish_sign_in in Hf.
  split; [done|]. split; [by rewrite Hp|]. split; [done|]. exists w3. split; [by eapply prepared_trans|done].
Qed.
Lemma run_after_password tenant s user ctx now w o w' :
  run (after_password code_ttl device_gate origin tenant s user ctx now) w = (Some (Ok o), w') ->
  let decision := policy_decision (w_db w) (login_query (tc_tenant_id tenant) s (u_id user) ctx now) in
  (o = EmailVerificationRequired \/ o = PolicyDenied)
  \/ u_email_verified user = true /\ denied decision = false /\ gives w w' tenant s user now decision o.
Proof.
  unfold after_password. intros H. cbn zeta. destruct (u_email_verified user); cbn [negb] in H.
  2: { apply run_do in H. destruct H as ([] & ? & _ & H). injection H as <- _. auto. }
  apply run_try in H. destruct H as (decision & w1 & Hd & H). apply run_str_error in Hd.
  assert (rested w w1) as R1 by (eapply run_resting; [apply resting_decide_policy | exact Hd]).
  apply run_decide_policy in Hd. destruct Hd as [_ Hd]. rewrite <- Hd.
  destruct (denied decision) eqn:Eden.
  { destruct decision; try done. apply run_do in H. destruct H as ([] & ? & _ & H). injection H as <- _. auto. }
  right. split; [done|]. split; [done|].
  assert (gives w1 w' tenant s user now decision o) as G
    by (apply (run_after_policy tenant s user ctx now decision w1 o w' Eden); by destruct decision).
  pose proof (rested_directory _ _ R1) as D.
  assert (db_tenancy (w_db w1) = db_tenancy (w_db w)) as Et by by injection D as _ _ _ _ _ _ _ _ -> _.
  unfold gives in *. destruct o as [[]| | | | | | | | | | |]; try done.
  - destruct G as (H1 & H2 & H3 & w2 & Hp & Hs). rewrite <- Et. split; [done|]. split; [done|].
    split; [unfold confirmed_totp in *; by rewrite <- (re_auths _ _ R1)|].
    exists w2. split; [by eapply prepared_trans|done].
  - destruct G as (R & n & ->). split; [by transitivity w1|]. exists n.
    by rewrite (un_tokens _ _ (st_untouched _ _ (re_still _ _ R1))).
  - destruct G as (R & n & ->). split; [by transitivity w1|]. exists n.
    by rewrite (un_tokens _ _ (st_untouched _ _ (re_still _ _ R1))).
Qed.

(** The password of a user the input names was right, and may be used here. *)
Record password_accepted (w : World) (tenant : TenantContext) (cmd : LoginCommand) (ctx : RequestContext)
  (session_id : string) (s : AuthSession) (user : User) : Prop := {
  pa_form : form_accepted w tenant (lc_auth_session_id cmd) (lc_csrf_token cmd) ctx session_id s;
  pa_user : login_user (w_db w) (tc_tenant_id tenant) (lc_username cmd) = Resolved user;
  pa_unlocked : user_is_locked_at user (w_clock w) = false;
  pa_active : user_is_active user = true;
  pa_password : hasher_verify (lc_password cmd) (u_password_hash user) = Ok true;
  pa_email : u_email_verified user = true;
  pa_policy : denied (policy_decision (w_db w)
    (login_query (tc_tenant_id tenant) s (u_id user) ctx (w_clock w))) = false
}.
Lemma gives_rested w w1 w' tenant s user now decision o :
  rested w w1 -> gives w1 w' tenant s user now decision o -> gives w w' tenant s user now decision o.
Proof.
  intros R G. pose proof (rested_directory _ _ R) as D.
  assert (db_tenancy (w_db w1) = db_tenancy (w_db w)) as Et by by injection D as _ _ _ _ _ _ _ _ -> _.
  pose proof (un_tokens _ _ (st_untouched _ _ (re_still _ _ R))) as T.
  unfold gives in *. destruct o as [[]| | | | | | | | | | |]; try done.
  - destruct G as (H1 & H2 & H3 & w2 & Hp & Hs). rewrite <- Et. split; [done|]. split; [done|].
    split; [unfold confirmed_totp in *; by rewrite <- (re_auths _ _ R)|].
    exists w2. split; [by eapply prepared_trans|done].
  - destruct G as (R' & n & ->). split; [by transitivity w1|]. exists n. by rewrite T.
  - destruct G as (R' & n & ->). split; [by transitivity w1|]. exists n. by rewrite T.
Qed.
Definition past_password (o : LoginOutcome) : bool :=
  match o with LoginEnded _ _ | MfaRequired _ | PasswordChangeRequired _ => true | _ => false end.
Lemma run_login_past tenant cmd ctx w o w' :
  run_login tenant cmd ctx w = (Some o, w') -> past_password o = true ->
  exists session_id s user, password_accepted w tenant cmd ctx session_id s user
    /\ gives w w' tenant s user (w_clock w)
         (policy_decision (w_db w) (login_query (tc_tenant_id tenant) s (u_id user) ctx (w_clock w))) o.
Proof.
  intros H Hp. unfold login in H. apply run_do in H. destruct H as (r & w0 & H & Hr). injection Hr as Hr ->.
  destruct r as [o'|e]; cbn in Hr; [subst o'|by subst].
  apply run_try_login in H. destruct H as [H|(sid & s & w1 & Hform & R & W & _ & [(reason & _ & -> & _)|(user & Hu & H)])];
    [by destruct H as [<-|[<-|[<-|[]]]] | done |].
  apply run_check_password in H. cbn zeta in H.
  destruct (user_is_locked_at user (w_clock w)) eqn:El; [by destruct H as [-> _]|].
  destruct (user_is_active user) eqn:Ea; cbn [negb] in H; [|by destruct H as [-> _]].
  destruct (hasher_verify _ _) as [[|]|] eqn:Ev; [|by destruct H as (_ & -> & _); case_match|done].
  apply run_after_password in H. cbn zeta in H.
  destruct H as [[->| ->]|(Hem & Hden & G)]; [done..|].
  change (w_db (with_login_guard w1 _ _)) with (w_db w1) in *.
  rewrite (policy_decision_eq _ _ _ (rested_directory _ _ R)) in *.
  exists sid, s, user. split; [by split|].
  eapply gives_rested; [|exact G]. by destruct R as [[[] ?] ? ? ?]; split; [split; [split|]|..].
Qed.

(** C6: A sign-in is earned.  If the password form ends with a redirect, whatever
    failed on the way, then the browser's own unexpired session of this tenant came
    with its CSRF token and within the rate; the input named one active unlocked user,
    whose password, e-mail and age of password were right and who has no second
    factor set up; the policy is satisfied by a password alone; nothing but the
    user's failure counter was written before; and a new SSO session and one code for
    the session's request, both for this user and this password, are what follows. *)
Theorem login_sound tenant cmd ctx w d id ttl lang w' :
  run_login tenant cmd ctx w = (Some (LoginEnded (EndSuccess d id ttl) lang), w') ->
  exists session_id s user, password_accepted w tenant cmd ctx session_id s user
    /\ password_suffices (policy_decision (w_db w)
         (login_query (tc_tenant_id tenant) s (u_id user) ctx (w_clock w))) = true
    /\ password_change_required user (tn_password_policy (db_tenancy (w_db w)) (u_tenant_id user)) (w_clock w)
       = Some false
    /\ confirmed_totp (w_db w) (u_id user) = false
    /\ exists w1, prepared w w1 user
       /\ signed_in w1 w' tenant s (login_facts (tc_tenant_id tenant) user (rq_client_id (as_request s)) [Password])
            (w_clock w) d id.
Proof.
  intros H. apply run_login_past in H; [|done]. destruct H as (sid & s & user & Hp & G). by exists sid, s, user.
Qed.
(** C14: A password alone opens nothing when more is due.  If the form asks for the
    second factor or for a new password, the password was right, and neither a code,
    an SSO session, a token, a consent nor a user has changed: in particular the
    failure counter stands, so that repeating the password does not lift a lock that
    wrong second factors approach.  The browser is moved to a fresh identifier. *)
Theorem password_alone_opens_nothing tenant cmd ctx w o w' id :
  run_login tenant cmd ctx w = (Some o, w') -> o = MfaRequired id \/ o = PasswordChangeRequired id ->
  rested w w' /\ (exists n, id = w_tokens w n)
  /\ exists session_id s user, password_accepted w tenant cmd ctx session_id s user.
Proof.
  intros H Ho. apply run_login_past in H; [|by destruct Ho as [-> | ->]].
  destruct H as (sid & s & user & Hp & G). destruct Ho as [-> | ->]; destruct G as [R Hn]; eauto 10.
Qed.
End theorems.
