(* ===== verification/MfaTheorems.v ===== *)
(** * What the second factor of a sign-in guarantees *)

From S2P Require Import Prelude Values ResponseMode External AuditLog Directory AuthenticationPolicy.
From S2P Require Import AuthorizationRequest AuthSession AuthSessionStore SsoSession SessionKey Csrf Lockout.
From S2P Require Import LoginIdentifier PasswordPolicy RateLimit Authenticator UserDevice SignInStore Effects AccessGate.
From S2P Require Import AuthenticatorManagement SignInGates Authorize EnrollmentTicket DeviceGate.
From S2P Require Import SignInCompletion Login MfaLogin ProgLogic OneShots Frames Paths AccessTheorems.
From S2P Require Import SignInSteps AuthorizeTheorems CompletionTheorems AuthenticatorTheorems LoginSteps LoginTheorems.

(** ** Programs that write authenticators at most *)
Definition registry_only : StmtProp := fun A s =>
  quiet A s /\ sign_in_prop keeps_sso A s /\ sign_in_prop keeps_devices A s.
#[export] Hint Extern 0 (registry_only _ _) => (repeat split) : prog.
Record registered (w w' : World) : Prop := {
  rg_still : still w w';
  rg_sso : si_sso (db_signin (w_db w')) = si_sso (db_signin (w_db w));
  rg_devices : si_devices (db_signin (w_db w')) = si_devices (db_signin (w_db w))
}.
#[export] Instance registered_preorder : PreOrder registered.
Proof. split; [by intros w; split|]. intros w1 w2 w3 [] []. split; by etransitivity. Qed.
Lemma registered_rested w w' : rested w w' -> registered w w'.
Proof. by intros []. Qed.
Lemma registered_directory w w' : registered w w' -> directory (w_db w') = directory (w_db w).
Proof. intros [H _ _]. by apply still_directory. Qed.
Lemma registered_prepared w w1 w2 user : registered w w1 -> prepared w1 w2 user -> prepared w w2 user.
Proof.
  intros [S Hsso Hdev] [Hf Hu Hc Hr Hcn Hs Hd Hx Ht]. destruct S as [U Q].
  pose proof (un_directory _ _ U) as D. pose proof (un_fixed _ _ U) as F.
  assert (fixtures (w_db w1) = fixtures (w_db w)) as Ef by (unfold directory in D; congruence).
  assert (db_users (w_db w1) = db_users (w_db w)) as Eu by (unfold directory in D; congruence).
  assert (w_db_clock w1 = w_db_clock w) as Ec by by injection F.
  split; try (etransitivity; [eassumption|]); try done; try (by apply U). by rewrite <- Eu, <- Ec.
Qed.

Section theorems.
Context {HS : Hashing} {CO : Collation} {UN : UnicodeCase} {AG : AesGcm} {TO : TotpCrate}.
Context (key_encryption_key : string).

Lemma run_registered {A} (p : Prog A) w r w' :
  always (sql_prop registry_only) p -> run p w = (r, w') -> registered w w'.
Proof.
  intros Hp E. split.
  - eapply run_quiet; [|exact E]. eapply sql_prop_weaken; [|exact Hp]. by intros B s (? & _).
  - eapply run_keeps_sso; [|exact E]. eapply sql_prop_weaken; [|exact Hp]. by intros B s (_ & ? & _).
  - eapply run_keeps_devices; [|exact E]. eapply sql_prop_weaken; [|exact Hp]. by intros B s (_ & _ & ?).
Qed.

(** ** The second factor *)
(** What a code shows: a TOTP code of an unspent step of the user's confirmed secret,
    no TOTP row of the user being suspended or revoked; or a usable code in the registry. *)
Definition totp_shown (auths : AuthenticatorTable) (u : Uuid) (code : string) (now : DateTime) : Prop :=
  exists record secret step,
    totp_find_by_user_id auths u = Some record /\ totp_is_confirmed record = true
    /\ decrypt (ts_secret_encrypted record) key_encryption_key = Ok secret
    /\ In step (totp_steps (timestamp now)) /\ totp_check secret code (step * TOTP_STEP) = true
    /\ (exists a, In a auths /\ open_step u step a = true)
    /\ (forall a, In a auths -> has_user_type u TypeTotp a = true -> is_blocked a = false).
Definition factor_shown (auths : AuthenticatorTable) (u : Uuid) (code : string) (now : DateTime)
  (m : AuthenticationMethod) : Prop :=
  (m = Totp /\ totp_shown auths u code now)
  \/ exists t a, In (t, m) single_use_kinds /\ In a auths /\ normalize_code t code <> ""
       /\ consumable_code u t (sha256_hex (normalize_code t code)) now a = true.

Lemma latest_by_In key rows : rows <> [] -> is_some (latest_by key rows) = true.
Proof. destruct rows as [|a rows]; [done|]. intros _. cbn. by destruct (latest_by key rows). Qed.
Lemma run_consume_code u t code now w used w' :
  run (consume_single_use_code u t code now) w = (Some (Ok used), w') ->
  if used then normalize_code t code <> ""
    /\ exists a, In a (si_auths (db_signin (w_db w)))
         /\ consumable_code u t (sha256_hex (normalize_code t code)) now a = true
  else si_auths (db_signin (w_db w')) = si_auths (db_signin (w_db w)).
Proof.
  unfold consume_single_use_code. destruct (str_is_empty _) eqn:Ee; [by intros [= <- <-]|].
  apply str_is_empty_false in Ee. set (h := sha256_hex _). intros H.
  apply run_try in H. destruct H as (consumed & w1 & Hc & H). injection H as <- <-.
  unfold consume_single_use in Hc. apply run_try in Hc. destruct Hc as (n & w2 & Hs & Hc).
  apply run_sql_Ok in Hs. cbn [exec exec_sign_in] in Hs.
  destruct (auths_claim_code _ _ _ _ _ _) as [rows k] eqn:Er. injection Hs as -> Hw. unfold auths_claim_code in Er.
  destruct n as [|n]; cbn [Nat.eqb] in Hc.
  - injection Hc as <- <-. cbn. rewrite <- Hw. by apply update_where_none in Er.
  - destruct (update_where_some _ _ _ _ _ _ Er) as (a & Hin & Ha).
    apply run_sql_Ok in Hc. cbn [exec exec_sign_in] in Hc. injection Hc as Hc _.
    assert (is_some consumed = true) as ->; [|by split; [|exists a]].
    rewrite <- Hc, <- Hw. cbn. apply latest_by_In. intros Hnil.
    assert (In (change_row (w_db_clock w) a (revoked_row now true a)) rows) as Hrow.
    { unfold update_where in Er. injection Er as <- _. apply in_map_iff. exists a. by rewrite Ha. }
    unfold consumable_code in Ha. rewrite !andb_true_iff in Ha. destruct Ha as [[[Ht Hh] _] _].
    enough (In (change_row (w_db_clock w) a (revoked_row now true a))
              (List.filter (fun a => has_user_type u t a && has_secret h a) rows)) as F by (by rewrite Hnil in F).
    apply filter_In. split; [done|]. unfold has_user_type, has_secret in *. cbn. by rewrite Ht, Hh.
Qed.
Lemma run_check_single_use tenant u code ctx now kinds : forall w m w',
  run (check_single_use tenant u code ctx now kinds) w = (Some (Ok (Some m)), w') ->
  exists t a, In (t, m) kinds /\ In a (si_auths (db_signin (w_db w))) /\ normalize_code t code <> ""
    /\ consumable_code u t (sha256_hex (normalize_code t code)) now a = true.
Proof.
  induction kinds as [|[t method] kinds IH]; intros w m w' H; cbn [check_single_use] in H; [done|].
  apply run_try in H. destruct H as (used & w1 & Hc & H). apply run_str_error, run_consume_code in Hc.
  destruct used.
  - apply run_do in H. destruct H as ([] & w2 & _ & H). injection H as <- _. destruct Hc as (Hn & a & Hin & Ha).
    exists t, a. split; [by left|done].
  - apply IH in H. destruct H as (t' & a & Hk & Hin & H). rewrite Hc in Hin. exists t', a. split; [by right|done].
Qed.
Lemma run_accept_totp u secret code w b w' :
  run (accept_totp u secret code) w = (Some (Ok b), w') ->
  if b then exists step, In step (totp_steps (timestamp (w_clock w)))
    /\ totp_check secret code (step * TOTP_STEP) = true
    /\ exists a, In a (si_auths (db_signin (w_db w))) /\ open_step u step a = true
  else si_auths (db_signin (w_db w')) = si_auths (db_signin (w_db w)).
Proof.
  unfold accept_totp. intros H. apply run_do in H. destruct H as (real & w1 & Hn & H).
  apply run_Now in Hn. destruct Hn as [-> ->].
  destruct (verify_totp_code secret code (w_clock w)) as [[step|]|] eqn:Ev; [|by injection H as <- <-|done].
  apply run_do in H. destruct H as (now & w2 & Hn & H). apply run_Now in Hn. destruct Hn as [-> ->].
  apply run_str_error, run_sql_Ok in H. cbn [exec exec_sign_in] in H.
  destruct (totp_record_step _ _ _ _ _) as [rows b'] eqn:Er. injection H as -> <-.
  unfold verify_totp_code in Ev. destruct (totp_build_error secret); [done|].
  destruct (w_clock w <? 0)%Z; [done|]. injection Ev as Ev. apply find_some in Ev as [Hin Ht].
  destruct b.
  - exists step. split; [done|]. split; [done|]. by apply (totp_record_step_true _ _ _ _ _ _ Er).
  - cbn. by eapply totp_record_step_false.
Qed.
Lemma run_check_totp u code w b w' :
  run (check_totp key_encryption_key u code) w = (Some (Ok b), w') ->
  w_clock w' = w_clock w
  /\ if b then totp_shown (si_auths (db_signin (w_db w))) u code (w_clock w)
     else si_auths (db_signin (w_db w')) = si_auths (db_signin (w_db w)).
Proof.
  intros H. split.
  { eapply still_clock, rg_still, run_registered; [|exact H].
    unfold check_totp, is_blocked_in_registry, accept_totp. prog_always. }
  unfold check_totp in H. apply run_try in H. destruct H as (blocked & w1 & Hb & H). apply run_str_error in Hb.
  assert (w_clock w1 = w_clock w) as C1.
  { eapply rested_clock, run_resting; [|exact Hb]. unfold is_blocked_in_registry. prog_always. }
  apply run_is_blocked in Hb. destruct Hb as [Hb E1].
  apply run_try in H. destruct H as (found & w2 & Hf & H). apply run_str_error in Hf.
  assert (w_clock w2 = w_clock w1) as C2 by (eapply rested_clock; by eapply run_sql_resting; [|exact Hf]).
  apply run_sql_Ok in Hf. cbn [exec exec_sign_in] in Hf. injection Hf as Hf E2.
  assert (si_auths (db_signin (w_db w2)) = si_auths (db_signin (w_db w))) as E by (by rewrite <- E2, <- E1).
  rewrite E1 in Hf. destruct found as [record|]; [|by injection H as <- <-].
  destruct (totp_is_confirmed record) eqn:Ec; cbn [andb] in H; [|by injection H as <- <-].
  destruct blocked; cbn [negb] in H; [by injection H as <- <-|].
  destruct (decrypt _ _) as [secret|] eqn:Ed; [|done].
  apply run_accept_totp in H. rewrite E, C2, C1 in H. destruct b; [|done].
  destruct H as (step & Hin & Ht & a & Ha & Ho). exists record, secret, step. repeat split; try done; [by exists a|].
  intros a' Hin' Ht'. apply not_true_iff_false. intros Hbl.
  assert (false = true) by (apply Hb; by exists a'). done.
Qed.
Lemma registry_only_second_factor tenant u code ctx :
  always (sql_prop registry_only) (verify_second_factor key_encryption_key tenant u code ctx).
Proof.
  assert (forall kinds t u c x n, always (sql_prop registry_only) (check_single_use t u c x n kinds)) as Hk.
  { intros kinds; induction kinds as [|[t m] kinds IH]; intros; cbn [check_single_use];
      unfold consume_single_use_code, consume_single_use, record_audit; prog_always. }
  unfold verify_second_factor, check_totp, is_blocked_in_registry, accept_totp. prog_always.
Qed.
Lemma run_second_factor tenant u code ctx w m w' :
  run (verify_second_factor key_encryption_key tenant u code ctx) w = (Some (Ok (Some m)), w') ->
  registered w w' /\ factor_shown (si_auths (db_signin (w_db w))) u code (w_clock w) m.
Proof.
  intros H. split; [eapply run_registered; [apply registry_only_second_factor | exact H]|].
  unfold verify_second_factor in H. apply run_try in H. destruct H as (by_totp & w1 & Hc & H).
  apply run_check_totp in Hc. destruct Hc as [C Hc]. destruct by_totp; [injection H as <- _; by left|right].
  apply run_do in H. destruct H as (now & w2 & Hn & H). apply run_Now in Hn. destruct Hn as [-> ->].
  apply run_check_single_use in H. by rewrite Hc, C in H.
Qed.

(** ** The form *)
Context {TC : TicketCrypto} (code_ttl : Duration) (device_gate : option string) (origin : RequestOrigin).
Context (csrf_secret : string).

(** The password was right before, and the code shows a second factor now. *)
Record factor_accepted (w : World) (tenant : TenantContext) (cmd : MfaLoginCommand) (ctx : RequestContext)
  (session_id : string) (s : AuthSession) (user : User) (m : AuthenticationMethod) : Prop := {
  mf_form : form_accepted csrf_secret w tenant (mc_auth_session_id cmd) (mc_csrf_token cmd) ctx session_id s;
  mf_verified : password_verified_user s = Some (u_id user);
  mf_user : users_find_by_id (w_db w) (u_id user) = Some user;
  mf_unlocked : user_is_locked_at user (w_clock w) = false;
  mf_active : user_is_active user = true;
  mf_shown : factor_shown (si_auths (db_signin (w_db w))) (u_id user) (mc_totp_code cmd) (w_clock w) m;
  mf_policy : let decision := policy_decision (w_db w)
      (login_query (tc_tenant_id tenant) s (u_id user) ctx (w_clock w)) in
    denied decision = false /\ unmet_method_requirement decision [Password; m] false = None
}.
Lemma run_after_second_factor tenant s user m ctx now w d id ttl lang w' :
  run (after_second_factor code_ttl device_gate origin tenant s user m ctx now) w
    = (Some (Ok (MfaEnded (EndSuccess d id ttl) lang)), w') ->
  (let decision := policy_decision (w_db w) (login_query (tc_tenant_id tenant) s (u_id user) ctx now) in
   denied decision = false /\ unmet_method_requirement decision [Password; m] false = None)
  /\ exists w1, prepared w w1 user
     /\ signed_in code_ttl device_gate origin w1 w' tenant s
          (login_facts (tc_tenant_id tenant) user (rq_client_id (as_request s)) [Password; m]) now d id.
Proof.
  unfold after_second_factor. intros H. apply run_try in H. destruct H as (decision & w1 & Hd & H).
  apply run_str_error in Hd.
  assert (rested w w1) as R1 by (eapply run_resting; [apply resting_decide_policy | exact Hd]).
  apply run_decide_policy in Hd. destruct Hd as [_ Hd]. cbn zeta. rewrite <- Hd. clear Hd.
  assert (denied decision = false /\ unmet_method_requirement decision [Password; m] false = None /\
    run (try _ <- reset_failures user;;
         try ended <- finish_sign_in code_ttl device_gate origin
             (login_facts (tc_tenant_id tenant) user (rq_client_id (as_request s)) [Password; m]) tenant s ctx now;;
         Ret (Ok (MfaEnded ended (u_language user)))) w1
    = (Some (Ok (MfaEnded (EndSuccess d id ttl) lang)), w')) as (Hden & Hun & Hrun).
  { destruct decision; try (destruct (unmet_method_requirement _ _ _)); try done;
      apply run_do in H; destruct H as ([] & ? & _ & H); done. }
  split; [done|]. clear H. apply run_try in Hrun. destruct Hrun as ([] & w2 & Hr & Hrun).
  apply run_reset_failures in Hr. apply run_try in Hrun. destruct Hrun as (ended & w3 & Hf & Hrun).
  injection Hrun as -> _ <-. apply run_finish_sign_in in Hf.
  exists w2. split; [by eapply prepared_trans|done].
Qed.
(** C5: With a second factor the sign-in is earned twice.  If the form for the code
    ends with a redirect, whatever failed on the way, then the browser's own unexpired
    session carried a password verified for this user and came with its CSRF token and
    within the rate; the user is active and not locked; the code shows one second
    factor, from an unspent TOTP step of a secret that is not blocked or from a usable
    code of the registry; the policy is satisfied by the password with that factor;
    and a new SSO session and one code, for this user with these two methods, are
    what follows, with nothing but the user's failure counter and the registry
    written before. *)
Theorem mfa_sound tenant cmd ctx w d id ttl lang w' :
  run (verify_mfa code_ttl device_gate origin csrf_secret key_encryption_key tenant cmd ctx) w
    = (Some (MfaEnded (EndSuccess d id ttl) lang), w') ->
  exists session_id s user m, factor_accepted w tenant cmd ctx session_id s user m
    /\ exists w1, prepared w w1 user
       /\ signed_in code_ttl device_gate origin w1 w' tenant s
            (login_facts (tc_tenant_id tenant) user (rq_client_id (as_request s)) [Password; m]) (w_clock w) d id.
Proof.
  unfold verify_mfa. intros H. apply run_do in H. destruct H as (r & w0 & H & Hr). injection Hr as Hr ->.
  destruct r as [o|]; [|done]. cbn in Hr. subst o. unfold try_verify in H.
  apply run_do in H. destruct H as (now & w1 & Hn & H). apply run_Now in Hn. destruct Hn as [-> ->].
  apply run_try in H. destruct H as (found & w1 & Hf & H).
  assert (rested w w1) as R1 by (eapply run_resting; [apply resting_flow_session | exact Hf]).
  pose proof (run_plain _ _ _ _ (plain_flow_session _ _ _) Hf) as G1.
  destruct found as [[sid s]|]; [|done]. apply run_flow_session in Hf.
  destruct (password_verified_user s) as [u|] eqn:Ep; [|done].
  destruct (csrf_verify _ _) eqn:Ev; cbn [negb] in H; [|done]. apply csrf_verify_eq in Ev.
  apply run_do in H. destruct H as (allowed & w2 & Hr & H).
  assert (rested w1 w2) as R2 by (eapply run_resting; [apply resting_rate_allows | exact Hr]).
  assert (allowed = true -> within_rate w ctx (w_clock w)) as Hrate.
  { unfold rate_allows in Hr. unfold within_rate. destruct (ctx_ip_address ctx) as [ip|].
    - cbn in Hr. injection Hr as <- <-. intros Ha ip' [= <-]. by injection G1 as <- _.
    - by injection Hr as <- <-. }
  destruct allowed; cbn [negb] in H.
  2: { apply run_do in H. by destruct H as ([] & ? & _ & H). }
  apply run_try in H. destruct H as (found & w3 & Hu & H). apply run_str_error in Hu.
  assert (rested w2 w3) as R3 by by eapply run_sql_resting; [|exact Hu].
  apply run_sql_Ok in Hu. cbn [exec] in Hu. injection Hu as Hu _. destruct found as [user|]; [|done].
  assert (rested w w3) as R by by rewrite R1, R2.
  assert (users_find_by_id (w_db w) u = Some user) as Hu'.
  { pose proof (rested_directory _ _ R1) as D1. pose proof (rested_directory _ _ R2) as D2.
    unfold users_find_by_id in *. injection D1 as _ _ _ _ _ _ _ _ _ <-. by injection D2 as _ _ _ _ _ _ _ _ _ <-. }
  assert (u_id user = u) as Eu by (apply find_some in Hu' as [_ E]; by apply N.eqb_eq in E). subst u.
  unfold check_second_factor in H.
  destruct (user_is_locked_at user (w_clock w)) eqn:El; [apply run_do in H; by destruct H as ([] & ? & _ & H)|].
  destruct (user_is_active user) eqn:Ea; cbn [negb] in H; [|done].
  apply run_try in H. destruct H as (factor & w4 & Hs & H).
  destruct factor as [m|]; [|apply run_try in H; by destruct H as ([|] & ? & _ & H)].
  apply run_second_factor in Hs. destruct Hs as [G Hs].
  rewrite (re_auths _ _ R), (rested_clock _ _ R) in Hs.
  assert (registered w w4) as G4 by (by rewrite <- G; apply registered_rested).
  apply run_after_second_factor in H. cbn zeta in H.
  rewrite (policy_decision_eq _ _ _ (registered_directory _ _ G4)) in H. destruct H as (Hp & w5 & Hprep & Hsig).
  exists sid, s, user, m. split; [by split; auto; split; auto|].
  exists w5. split; [by eapply registered_prepared|done].
Qed.
End theorems.
