(* ===== verification/LoginExample.v ===== *)
(** * Concrete sign-ins

    A user with a password, with and without TOTP, on the toy deployment: the
    hypotheses of the theorems about sign-in forms hold there. *)

From S2P Require Import Prelude Values ResponseMode External AuditLog Directory Application.
From S2P Require Import AuthenticationPolicy AuthorizationRequest AuthSession AuthSessionStore.
From S2P Require Import SsoSession SessionKey Lockout Csrf LoginIdentifier IdentifierLookup PasswordPolicy.
From S2P Require Import RateLimit Membership Consent Authenticator UserDevice SignInStore Effects AccessGate.
From S2P Require Import AuthenticatorManagement SignInGates Authorize EnrollmentTicket DeviceGate.
From S2P Require Import SignInCompletion Login MfaLogin ProgLogic Frames SignInSteps Example SignInExample.
From S2P Require Import AuthorizeTheorems CompletionTheorems AuthenticatorTheorems LoginSteps LoginTheorems.

#[export] Existing Instances toy_tickets toy_aes_gcm toy_totp.
#[export] Instance toy_unicode : UnicodeCase := {|
  to_lowercase := to_ascii_lowercase; to_uppercase := to_ascii_uppercase |}.

Definition alice : User := {|
  u_id := 7%N; u_tenant_id := 1%N; u_sub := 70%N; u_email := "a@example.com";
  u_email_verified := true; u_preferred_username := None; u_name := None; u_language := None;
  u_theme := None; u_password_hash := "pw"; u_must_change_password := false;
  u_password_changed_at := None; u_status := UserActive; u_pending_setup := false;
  u_failed_login_count := 3; u_locked_until := None; u_created_at := 0; u_updated_at := 0 |}.
Definition alice_identifier : UserLoginIdentifier := {|
  li_id := 1%N; li_tenant_id := 1%N; li_user_id := 7%N; li_identifier_type := Username;
  li_display_value := "Alice"; li_normalized_value := "alice"; li_is_active := true;
  li_is_primary := true; li_is_primary_email := false; li_created_at := 0; li_updated_at := 0 |}.
Definition alice_totp : UserAuthenticator := {|
  ua_id := 11%N; ua_user_id := 7%N; ua_authenticator_type := TypeTotp; ua_status := StatusActive;
  ua_label := "TOTP"; ua_secret_encrypted := Some "0123456789abseed"; ua_target := None;
  ua_confirmed_at := Some (seconds 900); ua_last_used_at := None; ua_expires_at := None;
  ua_revoked_at := None; ua_created_at := 0; ua_updated_at := 0; ua_totp_last_used_step := None |}.
Definition alice_recovery : UserAuthenticator := {|
  ua_id := 12%N; ua_user_id := 7%N; ua_authenticator_type := TypeRecoveryCode; ua_status := StatusActive;
  ua_label := "1"; ua_secret_encrypted := Some "abcd"; ua_target := None;
  ua_confirmed_at := Some (seconds 900); ua_last_used_at := None; ua_expires_at := None;
  ua_revoked_at := None; ua_created_at := 0; ua_updated_at := 0; ua_totp_last_used_step := None |}.
Definition login_tenancy : Tenancy := {|
  tn_memberships := [new_home 1%N 7%N 0]; tn_policies := [];
  tn_default_effect := fun _ => DefaultAllow;
  tn_sso_lifetime := tn_sso_lifetime toy_tenancy; tn_lockout := tn_lockout toy_tenancy;
  tn_registered_device_required := fun _ => true;
  tn_password_policy := fun _ => password_policy_default;
  tn_identifiers := [alice_identifier]; tn_domains := [] |}.
Definition login_db (auths : AuthenticatorTable) : Database := {|
  db_codes := [toy_code]; db_refresh := [toy_refresh]; db_dpop := []; db_jtis := [];
  db_clients := [toy_client; toy_batch]; db_users := [alice]; db_tenants := [toy_tenant];
  db_resources := []; db_applications := []; db_bindings := []; db_assignments := [];
  db_permissions := []; db_enforcement := fun _ => AssignmentEnforce; db_audit := []; db_usage := [];
  db_signin := {|
    si_sessions := [insert_row (started []) (seconds 995)];
    si_sso := {| st_rows := []; st_contexts := [] |}; si_consents := [toy_consent];
    si_devices := []; si_auths := auths |};
  db_tenancy := login_tenancy |}.
Definition login_world (auths : AuthenticatorTable) : World := with_db toy_world (login_db auths).
Definition login_form (username password : string) : LoginCommand := {|
  lc_auth_session_id := Some "waiting"; lc_username := username; lc_password := password;
  lc_csrf_token := login_csrf_token "waiting" "csrf" |}.
Definition no_device : RequestOrigin := {| ro_device := None; ro_country := None |}.
Definition logged_in (auths : AuthenticatorTable) (username password : string) : option LoginOutcome * World :=
  run (login (seconds 60) None no_device "csrf" toy_context (login_form username password) toy_ctx)
    (login_world auths).
Lemma logged_in_run auths username password r : (logged_in auths username password).1 = r ->
  run (login (seconds 60) None no_device "csrf" toy_context (login_form username password) toy_ctx)
    (login_world auths) = (r, (logged_in auths username password).2).
Proof. intros <-. unfold logged_in. apply surjective_pairing. Qed.

(** ** The password form *)
(** A wrong password; and an unknown user, at the first refusal of the process and
    once the reference hash stands. *)
Definition reference_world : World :=
  with_dummy (login_world []) 2 (Some "timing-equalizer.not-a-credential").
Definition unknown_user (w : World) : option LoginOutcome * World :=
  run (login (seconds 60) None no_device "csrf" toy_context (login_form "nobody" "px") toy_ctx) w.
Lemma unknown_user_run w r : (unknown_user w).1 = r ->
  run (login (seconds 60) None no_device "csrf" toy_context (login_form "nobody" "px") toy_ctx) w
    = (r, (unknown_user w).2).
Proof. intros <-. unfold unknown_user. apply surjective_pairing. Qed.
Lemma login_refused_witness :
  (logged_in [] "alice" "px").1 = Some InvalidCredentials
  /\ compared (login_world []) (logged_in [] "alice" "px").2
  /\ u_failed_login_count <$> db_users (w_db (logged_in [] "alice" "px").2) = [4%Z]
  /\ w_hash_work (unknown_user (login_world [])).2 = 2%nat
  /\ w_hash_work (unknown_user reference_world).2 = 3%nat.
Proof.
  pose proof (login_refused (seconds 60) None no_device "csrf" toy_context
    (login_form "alice" "px") toy_ctx (login_world []) InvalidCredentials (logged_in [] "alice" "px").2
    (logged_in_run [] "alice" "px" (Some InvalidCredentials) ltac:(by vm_compute))
    (or_introl eq_refl)) as [_ H].
  pose proof (login_refused (seconds 60) None no_device "csrf" toy_context
    (login_form "nobody" "px") toy_ctx reference_world InvalidCredentials (unknown_user reference_world).2
    (unknown_user_run reference_world (Some InvalidCredentials) ltac:(by vm_compute))
    (or_introl eq_refl)) as [Hone _].
  split; [by vm_compute|]. split; [exact (proj2 (proj2 (proj2 H)))|]. split; [by vm_compute|].
  split; [by vm_compute|]. exact (Hone _ eq_refl).
Defined.
Definition login_success : LoginOutcome :=
  LoginEnded (EndSuccess {| ds_location := "https://app/cb?code=token-2&state=st"; ds_form_post := None |}
                "token-0" 43200) None.
Lemma login_sound_witness :
  (logged_in [] "alice" "pw").1 = Some login_success
  /\ exists session_id s user,
       password_accepted "csrf" (login_world []) toy_context (login_form "alice" "pw") toy_ctx session_id s user.
Proof.
  pose proof (login_sound (seconds 60) None no_device "csrf" toy_context
    (login_form "alice" "pw") toy_ctx (login_world [])
    {| ds_location := "https://app/cb?code=token-2&state=st"; ds_form_post := None |} "token-0" 43200 None
    (logged_in [] "alice" "pw").2 (logged_in_run [] "alice" "pw" (Some login_success) ltac:(by vm_compute))) as H.
  split; [by vm_compute|]. destruct H as (sid & s & user & H & _). by exists sid, s, user.
Defined.
Lemma password_alone_opens_nothing_witness :
  (logged_in [alice_totp] "ALICE" "pw").1 = Some (MfaRequired "token-0")
  /\ rested (login_world [alice_totp]) (logged_in [alice_totp] "ALICE" "pw").2.
Proof.
  pose proof (password_alone_opens_nothing (seconds 60) None no_device "csrf" toy_context
    (login_form "ALICE" "pw") toy_ctx (login_world [alice_totp]) (MfaRequired "token-0")
    (logged_in [alice_totp] "ALICE" "pw").2 "token-0"
    (logged_in_run [alice_totp] "ALICE" "pw" (Some (MfaRequired "token-0")) ltac:(by vm_compute))
    (or_introl eq_refl)) as H.
  split; [by vm_compute | exact (proj1 H)].
Defined.

(** ** The common end *)
Definition long_device : DeviceRef := {| device_ref_hash := "0123456789abcdef" |}.
Definition known_device : RequestOrigin := {| ro_device := Some long_device; ro_country := None |}.
Definition alice_attempt : AdmissionAttempt := {|
  aa_tenant_id := 1%N; aa_user_id := 7%N; aa_home_tenant_id := 1%N; aa_methods := [Password; Totp];
  aa_client_id := Some "app"; aa_app_approved := false |}.
Definition refused_device : option (Result DomainError Admission) * World :=
  run (gate_admit "key" known_device alice_attempt toy_ctx toy_now) (login_world []).
Lemma refused_device_run r : refused_device.1 = r ->
  run (gate_admit "key" known_device alice_attempt toy_ctx toy_now) (login_world []) = (r, refused_device.2).
Proof. intros <-. unfold refused_device. apply surjective_pairing. Qed.
Definition alice_ticket : string := ticket_sign "key" (ticket_for alice_attempt (Some long_device) toy_now).
Lemma device_gate_correct_witness :
  refused_device.1 = Some (Ok (EnrollmentRequired alice_ticket))
  /\ still (login_world []) refused_device.2.
Proof.
  pose proof (device_gate_correct "key" known_device alice_attempt toy_ctx toy_now (login_world [])
    (EnrollmentRequired alice_ticket) refused_device.2
    (refused_device_run (Some (Ok (EnrollmentRequired alice_ticket))) ltac:(by vm_compute))) as H.
  split; [by vm_compute | exact (proj1 H)].
Defined.
Lemma enrollment_ticket_opens_witness :
  open_ticket "key" known_device 1%N alice_ticket (seconds 1600)
    = Some (ticket_for alice_attempt (Some long_device) toy_now)
  /\ open_ticket "key" known_device 2%N alice_ticket (seconds 1600) = None
  /\ open_ticket "key" known_device 1%N alice_ticket (seconds 1601) = None.
Proof.
  pose proof (fun tenant now' => enrollment_ticket_opens "key" known_device tenant alice_attempt long_device
    toy_now now' toy_crypto_laws ltac:(by apply (bool_decide_unpack _); vm_compute) ltac:(done) ltac:(done)
    ltac:(by vm_compute) ltac:(by vm_compute)) as H.
  split; [exact (H 1%N (seconds 1600)) | split; [exact (H 2%N (seconds 1600)) | exact (H 1%N (seconds 1601))]].
Defined.
Definition alice_facts : SignInFacts := login_facts 1%N alice "app" [Password].
Definition opened : option (Result DomainError Establishment) * World :=
  run (establish_sso_with_binding None no_device alice_facts Unbound toy_ctx toy_now) (login_world []).
Lemma opened_run r : opened.1 = r ->
  run (establish_sso_with_binding None no_device alice_facts Unbound toy_ctx toy_now) (login_world []) = (r, opened.2).
Proof. intros <-. unfold opened. apply surjective_pairing. Qed.
Definition alice_sso : EstablishedSso :=
  match opened.1 with
  | Some (Ok (Established e)) => e
  | _ => {| es_session := toy_sso; es_session_id := "" |}
  end.
Lemma establish_sound_witness :
  opened.1 = Some (Ok (Established alice_sso)) /\ es_session_id alice_sso = "token-0"
  /\ sso_established None no_device (login_world []) opened.2 alice_facts Unbound alice_sso toy_now.
Proof.
  split; [by vm_compute|]. split; [by vm_compute|].
  exact (establish_sound None no_device alice_facts Unbound toy_ctx toy_now (login_world []) alice_sso opened.2
    (opened_run (Some (Ok (Established alice_sso))) ltac:(by vm_compute))).
Defined.
Definition went_on : option (Result DomainError AuthorizationContinuation) * World :=
  run (continue_authorization (seconds 60) toy_context (started []) alice_sso toy_now toy_ctx) opened.2.
Lemma went_on_run r : went_on.1 = r ->
  run (continue_authorization (seconds 60) toy_context (started []) alice_sso toy_now toy_ctx) opened.2
  = (r, went_on.2).
Proof. intros <-. unfold went_on. apply surjective_pairing. Qed.
Definition went_to : AuthorizationDispatch :=
  {| ds_location := "https://app/cb?code=token-2&state=st"; ds_form_post := None |}.
Lemma continue_authorization_sound_witness :
  went_on.1 = Some (Ok (Authorized went_to))
  /\ si_sso (db_signin (w_db went_on.2)) = si_sso (db_signin (w_db opened.2)).
Proof.
  pose proof (continue_authorization_sound (seconds 60) toy_context (started []) alice_sso toy_now toy_ctx opened.2
    went_to went_on.2 (went_on_run (Some (Ok (Authorized went_to))) ltac:(by vm_compute))) as H.
  split; [by vm_compute | exact (proj1 H)].
Defined.
