(* ===== verification/AuthenticatorExample.v ===== *)
(** * Concrete second factors

    Codes raced by two requests, a fresh sheet of recovery codes, and a user who
    enrols TOTP, removes it and enrols again. *)

From S2P Require Import Prelude Values External Directory AuthSessionStore SsoSession Authenticator.
From S2P Require Import PasswordPolicy SignInStore Effects AuthenticatorManagement Login MfaLogin ProgLogic OneShots.
From S2P Require Import SignInGates Csrf Example SignInExample AuthenticatorTheorems LoginTheorems MfaTheorems LoginExample.

Definition two_threads (n : nat) : list Turn := concat (repeat [Thread 0; Thread 1] n).
Lemma two_threads_keep ev ok `{DbOneShot ev ok} n : Forall (env_ok (ev := ev)) (two_threads n).
Proof. induction n as [|n IH]; [constructor|]. by do 2 constructor. Qed.
Definition settled {A} (ps : list (Prog A)) : list (option A) :=
  map (fun p => match p with Ret a => Some a | _ => None end) ps.
Lemma settled_lookup {A} (ps : list (Prog A)) i a : settled ps !! i = Some (Some a) -> ps !! i = Some (Ret a).
Proof.
  unfold settled. change (map ?f ps) with (f <$> ps). rewrite list_lookup_fmap. destruct (ps !! i) as [[]|]; cbn; congruence.
Qed.
Definition second_world : World := login_world [alice_totp; alice_recovery].

(** ** A recovery code, twice *)
Definition sheet_attempt : FactorAttempt := {| fc_tenant := 1%N; fc_code := "AB-cd"; fc_ctx := toy_ctx |}.
Definition sheet_race : list (Prog (Result string (option AuthenticationMethod))) * World :=
  run_pool (two_threads 20) (factor_attempt "kek" 7%N <$> [sheet_attempt; sheet_attempt], second_world).
Lemma sheet_race_pair :
  run_pool (two_threads 20) (factor_attempt "kek" 7%N <$> [sheet_attempt; sheet_attempt], second_world)
  = (sheet_race.1, sheet_race.2).
Proof. unfold sheet_race. apply surjective_pairing. Qed.
Lemma single_use_code_once_witness :
  settled sheet_race.1 = [Some (Ok (Some RecoveryCode)); Some (Ok None)] /\ 0 = 0.
Proof.
  split; [by vm_compute|].
  apply (single_use_code_once "kek" 7%N TypeRecoveryCode RecoveryCode "abcd" [sheet_attempt; sheet_attempt]
           (two_threads 20) second_world sheet_race.1 sheet_race.2 0 0 sheet_attempt sheet_attempt).
  - by left.
  - apply two_threads_keep.
  - apply Nat.leb_le. by vm_compute.
  - exact sheet_race_pair.
  - reflexivity.
  - reflexivity.
  - by vm_compute.
  - by vm_compute.
  - apply settled_lookup. by vm_compute.
  - apply settled_lookup. by vm_compute.
Defined.

(** ** A TOTP code, twice *)
Definition totp_race : list (Prog (Result string bool)) * World :=
  run_pool (two_threads 20) (totp_attempt 7%N "seed" <$> ["33"; "33"], second_world).
Lemma totp_race_pair :
  run_pool (two_threads 20) (totp_attempt 7%N "seed" <$> ["33"; "33"], second_world)
  = (totp_race.1, totp_race.2).
Proof. unfold totp_race. apply surjective_pairing. Qed.
Lemma only_step_33 code s :
  In code ["33"; "33"] -> totp_check "seed" code (s * TOTP_STEP) = true -> s = 33%Z.
Proof.
  intros Hin H. assert (code = "33") as -> by (by destruct Hin as [<-|[<-|[]]]).
  change (String.eqb "33" (pretty (s * 30 / 30)%Z) = true) in H.
  rewrite Z.div_mul in H by done. apply String.eqb_eq in H.
  change "33" with (pretty 33%Z) in H. symmetry. by apply (inj pretty).
Qed.
Lemma totp_step_once_witness :
  settled totp_race.1 = [Some (Ok true); Some (Ok false)] /\ 0 = 0.
Proof.
  split; [by vm_compute|].
  apply (totp_step_once 7%N 33%Z "seed" ["33"; "33"] (two_threads 20) second_world totp_race.1 totp_race.2 0 0).
  - exact only_step_33.
  - apply two_threads_keep.
  - exact totp_race_pair.
  - apply settled_lookup. by vm_compute.
  - apply settled_lookup. by vm_compute.
Defined.

(** ** Enrol, remove, enrol again *)
Definition enrolment_world : World := with_db toy_world (set_signin (login_db []) {|
  si_sessions := []; si_sso := {| st_rows := [toy_sso]; st_contexts := [] |};
  si_consents := []; si_devices := []; si_auths := [] |}).
Definition enrolled (w : World) : World :=
  (run (totp_confirm_code "kek" "browser" "33") (run (totp_setup "kek" "idp" "browser") w).2).2.
Definition removed : World := (run (totp_remove "browser") (enrolled enrolment_world)).2.
Definition registered : World := (run (register_totp_pending 7%N) removed).2.
Lemma registered_run :
  (run (register_totp_pending 7%N) removed).1 = Some (Ok tt) ->
  run (register_totp_pending 7%N) removed = (Some (Ok tt), registered).
Proof. unfold registered. intros <-. apply surjective_pairing. Qed.
Definition tried (w : World) : option (Result string (option AuthenticationMethod)) * World :=
  run (verify_second_factor "kek" 1%N 7%N "34" toy_ctx) w.
Lemma tried_run w r : (tried w).1 = r ->
  run (verify_second_factor "kek" 1%N 7%N "34" toy_ctx) w = (r, (tried w).2).
Proof. intros <-. unfold tried. apply surjective_pairing. Qed.
(** After the first enrolment the code of the next step is accepted; after the second
    one it is not, although the new secret is confirmed. *)
Lemma second_enrolment_blocks_totp_witness :
  (tried (enrolled enrolment_world)).1 = Some (Ok (Some Totp))
  /\ ua_status <$> si_auths (db_signin (w_db (enrolled removed))) = [StatusRevoked; StatusActive]
  /\ (tried (enrolled removed)).1 = Some (Ok None) /\ Ok None <> (Ok (Some Totp) : Result string _).
Proof.
  split; [by vm_compute|]. split; [by vm_compute|]. split; [by vm_compute|].
  apply (second_enrolment_blocks_totp "kek" 7%N removed registered (enrolled removed) 1%N "34" toy_ctx
           (Ok None) (tried (enrolled removed)).2).
  - apply registered_run. by vm_compute.
  - destruct (si_auths (db_signin (w_db removed))) as [|a l] eqn:E; [vm_compute in E; discriminate|].
    exists a. split; [by left|]. vm_compute in E. by injection E as <- <-.
  - vm_compute. intros a [<-|[]]. by left.
  - apply tried_run. by vm_compute.
Defined.

(** ** A fresh sheet *)
Definition new_sheet : option (Result AuthenticatorManagementError (list string)) * World :=
  run (issue_recovery_codes 1%N 7%N toy_ctx) second_world.
Lemma new_sheet_run r : new_sheet.1 = r -> run (issue_recovery_codes 1%N 7%N toy_ctx) second_world = (r, new_sheet.2).
Proof. intros <-. unfold new_sheet. apply surjective_pairing. Qed.
Definition new_codes : list string := map (fun n : nat => "token-" ++ pretty n) (seq 0 10).
Lemma recovery_codes_replace_witness :
  new_sheet.1 = Some (Ok new_codes) /\ length new_codes = RECOVERY_CODE_COUNT.
Proof.
  pose proof (recovery_codes_replace 1%N 7%N toy_ctx second_world new_codes new_sheet.2
                (new_sheet_run (Some (Ok new_codes)) ltac:(by vm_compute))) as H.
  split; [by vm_compute | exact (proj1 H)].
Defined.
(** ** The stored secret *)
Lemma toy_box_laws : box_laws.
Proof. split; [done|]. by intros ? ? ? ? [= <-]. Qed.
Lemma secret_box_roundtrip_witness :
  encrypt "0123456789ab" "seed" "kek" = Ok "0123456789abseed" /\ decrypt "0123456789abseed" "kek" = Ok "seed".
Proof.
  split; [done|].
  exact (secret_box_roundtrip "0123456789ab" "seed" "kek" "0123456789abseed" toy_box_laws eq_refl eq_refl).
Defined.

(** ** The second step of a sign-in *)
Definition mfa_world : World := (logged_in [alice_totp] "alice" "pw").2.
Definition mfa_form : MfaLoginCommand := {|
  mc_auth_session_id := Some "token-0"; mc_totp_code := "33"; mc_csrf_token := login_csrf_token "token-0" "csrf" |}.
Definition second_step : option MfaLoginOutcome * World :=
  run (verify_mfa (seconds 60) None no_device "csrf" "kek" toy_context mfa_form toy_ctx) mfa_world.
Lemma second_step_run r : second_step.1 = r ->
  run (verify_mfa (seconds 60) None no_device "csrf" "kek" toy_context mfa_form toy_ctx) mfa_world
  = (r, second_step.2).
Proof. intros <-. unfold second_step. apply surjective_pairing. Qed.
Definition second_location : AuthorizationDispatch :=
  {| ds_location := "https://app/cb?code=token-3&state=st"; ds_form_post := None |}.
Lemma mfa_sound_witness :
  second_step.1 = Some (MfaEnded (EndSuccess second_location "token-1" 43200) None)
  /\ exists session_id s user m, factor_accepted "kek" "csrf" mfa_world toy_context mfa_form toy_ctx session_id s user m.
Proof.
  pose proof (mfa_sound "kek" (seconds 60) None no_device "csrf" toy_context mfa_form toy_ctx mfa_world
    second_location "token-1" 43200 None second_step.2
    (second_step_run (Some (MfaEnded (EndSuccess second_location "token-1" 43200) None)) ltac:(by vm_compute))) as H.
  split; [by vm_compute|]. destruct H as (sid & s & user & m & H & _). by exists sid, s, user, m.
Defined.
