(* ===== verification/RevocationRace.v ===== *)
(** * Revocation is not final

    [set_status] reads a row, checks the transition, and writes the new status by the
    row's identifier alone: what it read may no longer be so. *)

From S2P Require Import Prelude Values External AuditLog Directory AuthSessionStore SsoSession Authenticator.
From S2P Require Import PasswordPolicy SignInStore Effects AccessGate AuthenticatorManagement Login MfaLogin.
From S2P Require Import ProgLogic OneShots Frames Paths AccessTheorems SignInSteps RegistryInvariant AuthorizeComplete.
From S2P Require Import Example SignInExample LoginExample AuthenticatorExample.

Section race.
Context {HS : Hashing} {CO : Collation}.

(** A row with this identifier, of this user, in this status. *)
Definition has_status (d : Database) (i u : Uuid) (status : AuthenticatorStatus) : Prop :=
  exists a, auths_find_by_id (si_auths (db_signin d)) i = Some a /\ ua_user_id a = u /\ ua_status a = status.
Lemma auths_update_status_one rows i u status at_ db_now a :
  registry_wf rows -> auths_find_by_id rows i = Some a -> ua_user_id a = u ->
  exists rows', auths_update_status rows i u status at_ db_now = (rows', true)
    /\ auths_find_by_id rows' i = Some (change_row db_now a (with_new_status status at_ a)).
Proof.
  intros [Hk _] Ha Hu. unfold auths_find_by_id in Ha. unfold auths_update_status. cbn.
  eexists. split; [f_equal; apply Nat.eqb_eq|].
  - pose proof (find_some _ _ Ha) as [Hin Hi]. apply N.eqb_eq in Hi.
    eapply (filter_one ua_id); [exact Hk|exact Hin|..].
    + by rewrite Hi, Hu, !N.eqb_refl.
    + intros y _ Hy. apply andb_true_iff in Hy as [Hy _]. apply N.eqb_eq in Hy. congruence.
  - clear Hk. unfold auths_find_by_id. induction rows as [|b rows IH]; [done|]. cbn in *.
    destruct (N.eqb (ua_id b) i) eqn:E.
    + injection Ha as ->. rewrite Hu, N.eqb_refl. cbn. by rewrite E.
    + cbn. rewrite E. by apply IH.
Qed.
(** What follows the check, and how the service is made of it. *)
Definition write_status (t : TenantId) (u i : Uuid) (a : UserAuthenticator) (next : AuthenticatorStatus)
  (ctx : RequestContext) : Prog (Result AuthenticatorManagementError unit) :=
  do now <- perform Now;;
  try updated <- or_error am_internal (sql (SignIn (AuthsUpdateStatus i u next now)));;
  if negb updated then Ret (Err AmNotFound)
  else
    do _ <- record_audit AuthenticatorStatusChanged AuditSuccess (Some t) (Some u) None
              (Some ("type=" ++ as_str (ua_authenticator_type a) ++ " status=" ++ as_str next)) ctx;;
    Ret (Ok tt).
Lemma set_status_reads t u i next ctx : exists k,
  set_status t u i next ctx = Vis (Sql (SignIn (AuthsFindById i))) k
  /\ forall a, ua_user_id a = u -> can_transition_to (ua_status a) next = true ->
       k (Ok (Some a)) = write_status t u i a next ctx.
Proof.
  eexists. split; [reflexivity|]. intros a Hu Hc. cbn -[can_transition_to]. rewrite Hu, N.eqb_refl, Hc. reflexivity.
Qed.
Lemma write_status_takes t u i a next ctx : takes_at_most 4 (write_status t u i a next ctx).
Proof. intros now r. destruct r as [[|]|]; cbn; [by repeat intros ?|done..]. Qed.
Lemma set_status_takes t u i next ctx : takes_at_most 5 (set_status t u i next ctx).
Proof.
  intros [[a|]|e]; cbn; [|done..]. destruct (negb _); [done|]. destruct (negb _); [done|].
  exact (write_status_takes t u i a next ctx).
Qed.
Lemma run_write_status t u i a next ctx w b :
  calm w -> registry_wf (si_auths (db_signin (w_db w))) ->
  auths_find_by_id (si_auths (db_signin (w_db w))) i = Some b -> ua_user_id b = u ->
  exists w', run (write_status t u i a next ctx) w = (Some (Ok tt), w') /\ calm w' /\ has_status (w_db w') i u next.
Proof.
  intros Hc Hw Hb Hu.
  destruct (auths_update_status_one _ i u next (w_clock w) (w_db_clock w) b Hw Hb Hu) as (rows & Eu & Hs).
  enough (exists w', run (write_status t u i a next ctx) w = (Some (Ok tt), w') /\ has_status (w_db w') i u next)
    as (w' & E & Hs') by (exists w'; split; [done|]; split; [by eapply run_calm|done]).
  unfold write_status, or_error. rewrite run_bind. cbn [run perform step]. rewrite !run_bind.
  erewrite run_write; [|done|cbn [exec exec_sign_in]; by rewrite Eu]. cbn [run negb]. rewrite run_bind.
  match goal with |- context [run (record_audit ?x1 ?x2 ?x3 ?x4 ?x5 ?x6 ?x7) ?w0] =>
    destruct (run_audit_calm x1 x2 x3 x4 x5 x6 x7 w0) as (e & -> & _); [done|] end.
  eexists. split; [reflexivity|]. by eexists.
Qed.
Lemma registry_wf_write_status t u i a next ctx w r w' :
  run (write_status t u i a next ctx) w = (r, w') -> registry_wf (si_auths (db_signin (w_db w))) ->
  registry_wf (si_auths (db_signin (w_db w'))).
Proof.
  intros E Hw. eapply run_wf; [|exact E|exact Hw].
  unfold write_status, or_error, record_audit. prog_always.
Qed.

(** One call has read the row when the other one runs; then it goes on. *)
Definition overtaken : list Turn := Thread 0 :: repeat (Thread 1) 5 ++ repeat (Thread 0) 4.
(** C40: An authenticator comes back from revocation.  If a suspended authenticator is
    resumed and revoked at the same time, an interleaving exists in which both calls
    answer [Ok], the revocation ends before the resumption writes, and the row is
    active in the end, with its revocation time gone. *)
Theorem revoked_authenticator_revived t u i ctx w a :
  calm w -> registry_wf (si_auths (db_signin (w_db w))) ->
  auths_find_by_id (si_auths (db_signin (w_db w))) i = Some a -> ua_user_id a = u ->
  ua_status a = StatusSuspended ->
  exists w1 w',
    run (set_status t u i StatusRevoked ctx) w = (Some (Ok tt), w1) /\ has_status (w_db w1) i u StatusRevoked
    /\ run_pool overtaken ([set_status t u i StatusActive ctx; set_status t u i StatusRevoked ctx], w)
       = ([Ret (Ok tt); Ret (Ok tt)], w')
    /\ has_status (w_db w') i u StatusActive.
Proof.
  intros Hc Hw Ha Hu Hs.
  destruct (set_status_reads t u i StatusActive ctx) as (k0 & E0 & K0).
  destruct (set_status_reads t u i StatusRevoked ctx) as (k1 & E1 & K1).
  specialize (K0 a Hu ltac:(by rewrite Hs)). specialize (K1 a Hu ltac:(by rewrite Hs)).
  assert (step (Sql (SignIn (AuthsFindById i))) w = (Ok (Some a), w)) as Eread.
  { pose proof (run_read_sign_in (AuthsFindById i) w (Some a) Hc ltac:(by cbn; rewrite Ha)) as E.
    unfold sql in E. rewrite run_perform in E. destruct (step _ w). by injection E as -> ->. }
  destruct (run_write_status t u i a StatusRevoked ctx w a Hc Hw Ha Hu) as (w1 & R1 & C1 & S1).
  pose proof (registry_wf_write_status _ _ _ _ _ _ _ _ _ R1 Hw) as Hw1.
  pose proof S1 as (b & Hb & Hub & _).
  destruct (run_write_status t u i a StatusActive ctx w1 b C1 Hw1 Hb Hub) as (w' & R' & _ & S').
  exists w1, w'.
  assert (run (set_status t u i StatusRevoked ctx) w = (Some (Ok tt), w1)) as Rev
    by (rewrite E1; cbn [run]; by rewrite Eread, K1).
  split; [done|]. split; [done|]. split; [|done].
  unfold overtaken. rewrite E0. cbn [app run_pool pool_step lookup list_lookup]. rewrite Eread.
  rewrite run_pool_app, (pool_alone 1 5 _ w (set_status t u i StatusRevoked ctx) (Ok tt) w1);
    [|done|apply set_status_takes|done].
  rewrite (pool_alone 0 4 _ w1 (write_status t u i a StatusActive ctx) (Ok tt) w');
    [done|by rewrite <- K0|apply write_status_takes|done].
Qed.
End race.

(** ** A suspended passkey *)
Definition alice_passkey : UserAuthenticator := {|
  ua_id := 13%N; ua_user_id := 7%N; ua_authenticator_type := TypeWebAuthn; ua_status := StatusSuspended;
  ua_label := "key"; ua_secret_encrypted := None; ua_target := None; ua_confirmed_at := Some 0%Z;
  ua_last_used_at := None; ua_expires_at := None; ua_revoked_at := None; ua_created_at := 0;
  ua_updated_at := 0; ua_totp_last_used_step := None |}.
Definition passkey_world : World := login_world [alice_passkey; alice_recovery].
Lemma passkey_registry_wf : registry_wf (si_auths (db_signin (w_db passkey_world))).
Proof.
  split; [by apply (bool_decide_unpack _); vm_compute|].
  repeat (constructor; try done).
Qed.
Lemma revoked_authenticator_revived_witness :
  exists w1 w',
    run (set_status 1%N 7%N 13%N StatusRevoked toy_ctx) passkey_world = (Some (Ok tt), w1)
    /\ has_status (w_db w1) 13%N 7%N StatusRevoked
    /\ run_pool overtaken ([set_status 1%N 7%N 13%N StatusActive toy_ctx;
                            set_status 1%N 7%N 13%N StatusRevoked toy_ctx], passkey_world)
       = ([Ret (Ok tt); Ret (Ok tt)], w')
    /\ has_status (w_db w') 13%N 7%N StatusActive.
Proof.
  apply (revoked_authenticator_revived 1%N 7%N 13%N toy_ctx passkey_world alice_passkey);
    [reflexivity | exact passkey_registry_wf | reflexivity | reflexivity | reflexivity].
Defined.
(** Two calls over the registry. *)
Lemma registry_stays_wf_witness :
  registry_wf (si_auths (db_signin (w_db
    (run_pool (two_threads 20)
       ([ignoring (issue_recovery_codes 1%N 7%N toy_ctx); ignoring (set_status 1%N 7%N 13%N StatusActive toy_ctx)],
        passkey_world)).2))).
Proof.
  apply (registry_stays_wf "kek" "idp" (two_threads 20)
    [ignoring (issue_recovery_codes 1%N 7%N toy_ctx); ignoring (set_status 1%N 7%N 13%N StatusActive toy_ctx)]
    passkey_world).
  - repeat constructor.
  - unfold two_threads. cbn. repeat constructor.
  - exact passkey_registry_wf.
Defined.
