(* ===== verification/SignInEnds.v ===== *)
(** * The sign-in forms come to an end

    How many operations each part of a sign-in makes at most, whatever the database,
    the limiter and the generator answer.  No part waits for another request, so a
    request that gets that many turns among any others has ended. *)

From S2P Require Import Prelude Values External AuditLog Directory Application AuthSession SsoSession SessionKey.
From S2P Require Import LoginIdentifier IdentifierLookup PasswordPolicy Authenticator SignInStore Effects AccessGate.
From S2P Require Import AuthenticatorManagement SignInGates Authorize EnrollmentTicket DeviceGate.
From S2P Require Import SignInCompletion Login MfaLogin ProgLogic Example SignInExample LoginExample.

Create HintDb ends.
Lemma takes_perform {X} (op : Op X) : takes_at_most 1 (perform op).
Proof. done. Qed.
Lemma takes_sql {A} (s : Stmt A) : takes_at_most 1 (sql s).
Proof. done. Qed.
Lemma takes_ret {A} n (a : A) : takes_at_most n (Ret a).
Proof. done. Qed.
Lemma takes_or_error {E A} n (f : DomainError -> E) (p : Prog (Result DomainError A)) :
  takes_at_most n p -> takes_at_most n (or_error f p).
Proof. intros H. eapply takes_then; [exact H|done|done]. Qed.
#[export] Hint Resolve takes_perform takes_sql takes_ret takes_or_error : ends.
#[export] Hint Extern 1 (takes_at_most _ (str_error _)) => (apply takes_or_error) : ends.
(** In a head the first branch is the longest. *)
#[export] Hint Extern 4 (takes_at_most _ (match ?x with _ => _ end)) => (destruct x) : ends.
Ltac prog_ends :=
  repeat first
    [ exact I
    | progress intros
    | eapply takes_then; [ solve [eauto 6 with ends] | apply Nat.leb_le; reflexivity | ]
    | match goal with |- takes_at_most ?n (match ?x with _ => _ end) => destruct x end
    | eapply takes_weaken; [ | solve [eauto 6 with ends] ]; apply Nat.leb_le; reflexivity ].

Section ends.
Context {HS : Hashing} {TC : TicketCrypto} {UN : UnicodeCase} {PH : PasswordHasher} {AG : AesGcm} {TO : TotpCrate}.
Context (code_ttl : Duration) (device_gate : option string) (origin : RequestOrigin).
Context (csrf_secret key_encryption_key : string).

(** ** The shared parts *)
Lemma audit_ends e r t u c m ctx : takes_at_most 2 (record_audit e r t u c m ctx).
Proof. unfold record_audit. prog_ends. Qed.
Hint Resolve audit_ends : ends.
Lemma delete_session_ends s : takes_at_most 1 (delete_session s).
Proof. unfold delete_session. prog_ends. Qed.
Hint Resolve delete_session_ends : ends.
Lemma check_ends t c u ctx : takes_at_most 5 (check t c u ctx).
Proof. unfold check, judge, refuse_access, resolve_for_oidc_client. prog_ends. Qed.
Hint Resolve check_ends : ends.
Lemma policy_target_ends t c : takes_at_most 1 (policy_target_for_oidc_client t c).
Proof. unfold policy_target_for_oidc_client, resolve_for_oidc_client. prog_ends. Qed.
Hint Resolve policy_target_ends : ends.
Lemma decide_policy_ends q : takes_at_most 3 (decide_policy q).
Proof. unfold decide_policy. prog_ends. Qed.
Lemma issue_code_ends cmd ctx : takes_at_most 10 (issue_code code_ttl cmd ctx).
Proof. unfold issue_code. prog_ends. Qed.
Lemma consent_ends t u rq : takes_at_most 1 (consent_is_granted t u rq).
Proof. unfold consent_is_granted. prog_ends. Qed.
Hint Resolve decide_policy_ends issue_code_ends consent_ends : ends.
Lemma send_alert_ends u k now o ctx d : takes_at_most 1 (send_alert u k now o ctx d).
Proof. unfold send_alert. prog_ends. Qed.
Hint Resolve send_alert_ends : ends.
Lemma gate_admit_ends key a ctx now : takes_at_most 6 (gate_admit key origin a ctx now).
Proof. unfold gate_admit, refuse_device. prog_ends. Qed.
Hint Resolve gate_admit_ends : ends.
Lemma establish_ends facts ctx now : takes_at_most 13 (establish_sso device_gate origin facts ctx now).
Proof. unfold establish_sso, establish_sso_with_binding, admit_device. prog_ends. Qed.
Lemma continue_ends t s sso now ctx : takes_at_most 14 (continue_authorization code_ttl t s sso now ctx).
Proof. unfold continue_authorization. prog_ends. Qed.
Hint Resolve establish_ends continue_ends : ends.
Lemma finish_ends facts t s ctx now : takes_at_most 27 (finish_sign_in code_ttl device_gate origin facts t s ctx now).
Proof. unfold finish_sign_in. prog_ends. Qed.
Hint Resolve finish_ends : ends.
(** ** The forms *)
Lemma flow_session_ends t p now : takes_at_most 2 (flow_session t p now).
Proof. unfold flow_session. prog_ends. Qed.
Lemma rate_ends ctx now : takes_at_most 1 (rate_allows ctx now).
Proof. unfold rate_allows. prog_ends. Qed.
Lemma note_ends e t u c r ctx : takes_at_most 2 (note_failure e t u c r ctx).
Proof. unfold note_failure. prog_ends. Qed.
Lemma identifier_ends s t i : takes_at_most 1 (resolve_login_identifier s t i).
Proof. unfold resolve_login_identifier. prog_ends. Qed.
Hint Resolve flow_session_ends rate_ends note_ends identifier_ends : ends.
Lemma first_match_ends t home xs : takes_at_most (length xs) (first_match t home xs).
Proof.
  induction xs as [|x xs IH]; [done|]. cbn [first_match length].
  eapply takes_then; [apply identifier_ends|lia|]. intros [m|e]; [|done]. destruct (negb _); [done|].
  by rewrite Nat.sub_succ, Nat.sub_0_r.
Qed.
Lemma by_domain_ends t i : takes_at_most 3 (resolve_by_domain t i).
Proof.
  unfold resolve_by_domain. destruct (split_qualified_identifier i) as [[local domain]|]; [|done].
  eapply (takes_then 1); [apply takes_sql|lia|]. intros [[home|]|e]; [|done..].
  eapply takes_weaken; [|apply first_match_ends]. destruct (N.eqb home t); cbn; lia.
Qed.
Hint Resolve by_domain_ends : ends.
Lemma resolve_user_ends t i : takes_at_most 5 (resolve_login_user t i).
Proof. unfold resolve_login_user. prog_ends. Qed.
Lemma record_failure_ends u l now : takes_at_most 2 (record_login_failure u l now).
Proof. unfold record_login_failure. prog_ends. Qed.
Hint Resolve resolve_user_ends record_failure_ends : ends.
Lemma count_failure_ends t u c r ctx now : takes_at_most 7 (count_failure t u c r ctx now).
Proof. unfold count_failure. prog_ends. Qed.
Lemma reset_ends u : takes_at_most 1 (reset_failures u).
Proof. unfold reset_failures. prog_ends. Qed.
Lemma has_totp_ends u : takes_at_most 1 (user_has_confirmed_totp u).
Proof. unfold user_has_confirmed_totp. prog_ends. Qed.
Lemma verified_ends s u now o : takes_at_most 2 (password_verified s u now o).
Proof. unfold password_verified. prog_ends. Qed.
Lemma dummy_ends p : takes_at_most 2 (verify_against_dummy p).
Proof. unfold verify_against_dummy. prog_ends. Qed.
Hint Resolve count_failure_ends reset_ends has_totp_ends verified_ends dummy_ends : ends.
Lemma after_policy_ends t s u ctx now d : takes_at_most 30 (after_policy code_ttl device_gate origin t s u ctx now d).
Proof. unfold after_policy. prog_ends. Qed.
Hint Resolve after_policy_ends : ends.
Lemma after_password_ends t s u ctx now : takes_at_most 33 (after_password code_ttl device_gate origin t s u ctx now).
Proof. unfold after_password. prog_ends. Qed.
Hint Resolve after_password_ends : ends.
Lemma check_password_ends t s u p ctx now :
  takes_at_most 34 (check_password code_ttl device_gate origin t s u p ctx now).
Proof. unfold check_password. prog_ends. Qed.
Hint Resolve check_password_ends : ends.
Lemma try_login_ends t cmd ctx :
  takes_at_most 43 (try_login code_ttl device_gate origin csrf_secret t cmd ctx).
Proof. unfold try_login. prog_ends. Qed.
Hint Resolve try_login_ends : ends.
Lemma login_ends t cmd ctx : takes_at_most 43 (login code_ttl device_gate origin csrf_secret t cmd ctx).
Proof. unfold login. prog_ends. Qed.

(** ** The second factor *)
Lemma consume_single_use_ends u t h now : takes_at_most 2 (consume_single_use u t h now).
Proof. unfold consume_single_use. prog_ends. Qed.
Hint Resolve consume_single_use_ends : ends.
Lemma consume_code_ends u t c now : takes_at_most 2 (consume_single_use_code u t c now).
Proof. unfold consume_single_use_code. prog_ends. Qed.
Hint Resolve consume_code_ends : ends.
Lemma single_use_ends t u c ctx now kinds :
  takes_at_most (2 * length kinds + 2) (check_single_use t u c ctx now kinds).
Proof.
  induction kinds as [|[k m] kinds IH]; [done|]. cbn [check_single_use length].
  eapply takes_then; [eauto with ends|lia|]. intros [[|]|e]; [| |done].
  - eapply takes_then; [apply audit_ends|lia|done].
  - eapply takes_weaken; [|exact IH]. lia.
Qed.
Lemma is_blocked_ends u t i : takes_at_most 1 (is_blocked_in_registry u t i).
Proof. unfold is_blocked_in_registry. prog_ends. Qed.
Hint Resolve is_blocked_ends : ends.
Lemma accept_totp_ends u s c : takes_at_most 3 (accept_totp u s c).
Proof. unfold accept_totp. prog_ends. Qed.
Hint Resolve accept_totp_ends : ends.
Lemma check_totp_ends u c : takes_at_most 5 (check_totp key_encryption_key u c).
Proof. unfold check_totp. prog_ends. Qed.
Lemma second_factor_ends t u c ctx : takes_at_most 14 (verify_second_factor key_encryption_key t u c ctx).
Proof.
  unfold verify_second_factor. eapply takes_then; [apply check_totp_ends|lia|]. intros [[|]|e]; [done| |done].
  eapply takes_then; [apply takes_perform|lia|]. intros now. exact (single_use_ends t u c ctx now single_use_kinds).
Qed.
Hint Resolve second_factor_ends : ends.
Lemma after_second_factor_ends t s u m ctx now :
  takes_at_most 31 (after_second_factor code_ttl device_gate origin t s u m ctx now).
Proof. unfold after_second_factor. prog_ends. Qed.
Hint Resolve after_second_factor_ends : ends.
Lemma check_second_factor_ends t s u c ctx now :
  takes_at_most 45 (check_second_factor code_ttl device_gate origin key_encryption_key t s u c ctx now).
Proof. unfold check_second_factor. prog_ends. Qed.
Hint Resolve check_second_factor_ends : ends.
Lemma try_verify_ends t cmd ctx :
  takes_at_most 50 (try_verify code_ttl device_gate origin csrf_secret key_encryption_key t cmd ctx).
Proof. unfold try_verify. prog_ends. Qed.
Hint Resolve try_verify_ends : ends.
Lemma verify_mfa_ends t cmd ctx :
  takes_at_most 50 (verify_mfa code_ttl device_gate origin csrf_secret key_encryption_key t cmd ctx).
Proof. unfold verify_mfa. prog_ends. Qed.

(** ** Among others *)
(** A request to one of the two forms. *)
Inductive FormRequest : Type :=
  | PasswordForm (t : TenantContext) (cmd : LoginCommand) (ctx : RequestContext)
  | CodeForm (t : TenantContext) (cmd : MfaLoginCommand) (ctx : RequestContext).
Definition serve_form (r : FormRequest) : Prog (LoginOutcome + MfaLoginOutcome) :=
  match r with
  | PasswordForm t cmd ctx =>
      do o <- login code_ttl device_gate origin csrf_secret t cmd ctx;; Ret (inl o)
  | CodeForm t cmd ctx =>
      do o <- verify_mfa code_ttl device_gate origin csrf_secret key_encryption_key t cmd ctx;; Ret (inr o)
  end.
Context {CO : Collation}.
(** C20: The sign-in forms come to an end.  Among any number of requests to the password
    form and the form for the code, interleaved in any way with each other, with other
    changes of the database and with its failures, a request that has had fifty turns
    has ended: nothing is retried, and nobody waits for anybody (but for the one making
    of the reference hash, which [OnceLock] guards and the model takes in one step). *)
Theorem sign_in_forms_end requests schedule w j r :
  requests !! j = Some r -> 50 <= turns_of j schedule ->
  exists p, (run_pool schedule (serve_form <$> requests, w)).1 !! j = Some p /\ ended p = true.
Proof.
  intros Hj Hn. apply (pool_ends schedule j 50 _ w (serve_form r)); [by rewrite list_lookup_fmap, Hj| |done].
  destruct r as [t cmd ctx|t cmd ctx]; (apply (takes_then 50); [|lia|done]).
  - eapply takes_weaken; [|apply login_ends]. lia.
  - apply verify_mfa_ends.
Qed.
End ends.

Lemma sign_in_forms_end_witness :
  exists p, (run_pool (repeat (Thread 0) 50)
    (serve_form (seconds 60) None no_device "csrf" "kek"
       <$> [PasswordForm toy_context (login_form "alice" "pw") toy_ctx], login_world [])).1 !! 0 = Some p
    /\ ended p = true.
Proof.
  apply (sign_in_forms_end (seconds 60) None no_device "csrf" "kek"
    [PasswordForm toy_context (login_form "alice" "pw") toy_ctx] (repeat (Thread 0) 50) (login_world []) 0
    (PasswordForm toy_context (login_form "alice" "pw") toy_ctx)); [reflexivity|].
  apply Nat.leb_le. by vm_compute.
Defined.
