(* ===== verification/TokenSound.v ===== *)
(** * What a successful answer of the token endpoint means

    For each grant: if [exchange] answers with tokens, whatever failed on the
    way, then the credential was good, the client and the user are who they
    should be, and the tables hold what the answer says. *)

From S2P Require Import Prelude Values External AuditLog Directory Application ClientJwks Client.
From S2P Require Import AuthorizationRequest AuthSession AuthSessionStore AuthorizationCode.
From S2P Require Import RefreshToken Dpop ClientAssertion ClientAuth Effects TokenClaims AccessGate.
From S2P Require Import ProgLogic OneShots Frames Paths TokenService ClientCredentials TokenPaths.
From S2P Require Import TokenSteps AccessTheorems Example.

Section sound.
Context {HS : Hashing} {JO : Jose} {DJ : DpopJose} {UC : UrlCrate} {AJ : AssertionJose}
        {PH : PasswordHasher} {JE : JwtEncoder} {CO : Collation}.
Context (cfg : TokenConfig).

(** ** The code exchange *)
Lemma keeps_users_consume t h now : always (sql_prop keeps_users) (consume t h now).
Proof. unfold consume. prog_always. Qed.
Lemma run_consume t h now w c w' :
  NoDup (ac_hash <$> db_codes (w_db w)) ->
  run (consume t h now) w = (Some (Ok (Some c)), w') ->
  exists c0, In c0 (db_codes (w_db w)) /\ consumable t h now c0 = true
    /\ c = with_used_at (w_db_clock w) now c0
    /\ ~ fresh_in h (db_codes (w_db w')) /\ db_refresh (w_db w') = db_refresh (w_db w).
Proof.
  intros Hnd H. unfold consume in H. apply run_do in H. destruct H as (r & w1 & Hm & H).
  destruct r as [n|]; [|done]. destruct (Nat.eqb_spec n 0) as [->|Hn]; [done|].
  assert (untouched w1 w') as Hu by (eapply run_light; [|exact H]; by apply always_sql).
  rewrite (un_codes _ _ Hu), (un_refresh _ _ Hu).
  apply run_sql_Ok in Hm, H. cbn [exec] in Hm, H. injection H as Hc _.
  destruct (codes_mark_used _ _ _ _ _) as [rows n'] eqn:Em. injection Hm as <- Hd.
  pose proof (codes_mark_used_once _ _ _ _ _ _ _ Hnd Em ltac:(lia)) as Hused.
  assert (db_codes (w_db w1) = rows /\ db_refresh (w_db w1) = db_refresh (w_db w)) as [Hc1 Hr1]
    by by rewrite <- Hd.
  rewrite Hc1 in *. injection Em as <- Hlen. unfold codes_select in Hc. apply find_some in Hc.
  destruct Hc as [Hin Hh]. apply code_has_hash_true in Hh. pose proof Hin as Hin'.
  apply in_map_iff in Hin. destruct Hin as (c0 & Hc0 & Hin).
  destruct (consumable t h now c0) eqn:Ec; [eauto 10|]. exfalso. subst c0.
  assert (0 < length (List.filter (consumable t h now) (db_codes (w_db w))))%nat as Hpos by lia.
  apply filter_length_pos in Hpos. destruct Hpos as (c1 & Hin1 & Hc1').
  pose proof (proj1 (consumable_true _ _ _ _) Hc1') as (Hh1 & _).
  assert (c = c1) as -> by (eapply codes_key_unique; eauto; congruence). congruence.
Qed.
(** The code that was redeemed. *)
Record code_redeemed (t : TenantId) (cmd : TokenCommand) (w w' : World) (client_id : string)
  (c : AuthorizationCode) : Prop := {
  cx_presented : exists plain, cmd_code cmd = Some plain
                   /\ ac_hash c = hash_code {| code_plain := plain |};
  cx_stored : In c (db_codes (w_db w));
  cx_tenant : ac_tenant_id c = t;
  cx_unused : ac_used_at c = None;
  cx_unexpired : (to_micros (w_clock w) < ac_expires_at c)%Z;
  cx_client : cg_client_id (ac_grant c) = client_id;
  cx_redirect : cmd_redirect_uri cmd = Some (cg_redirect_uri (ac_grant c));
  cx_pkce : exists v, cmd_code_verifier cmd = Some v /\ is_valid_code_verifier v = true
              /\ s256_challenge v = pk_challenge (cg_pkce (ac_grant c));
  cx_spent : ~ fresh_in (ac_hash c) (db_codes (w_db w'))
}.
(** The row that a code exchange stores: the root of the code's family. *)
Record root_of (t : TenantId) (now : DateTime) (client_id : string) (c : AuthorizationCode)
  (jkt : option string) (plain : string) (root : RefreshToken) : Prop := {
  ro_hash : rt_token_hash root = sha256_hex plain;
  ro_parent : rt_parent_hash root = None;
  ro_family : family_hash root = code_hash_value (ac_hash c);
  ro_owner : rt_tenant_id root = t /\ rt_user_id root = au_user_id (ac_auth c)
             /\ rt_client_id root = client_id;
  ro_scope : rt_scope root = cg_scope (ac_grant c);
  ro_authentication : rt_sid root = au_sso_sid (ac_auth c)
    /\ rt_methods root = au_methods (ac_auth c)
    /\ rt_auth_time root = Some (to_micros (au_auth_time (ac_auth c)));
  ro_key : rt_dpop_jkt root = jkt;
  ro_lifetime : rt_expires_at root = to_micros (now + seconds (cfg_refresh_token_ttl cfg))%Z;
  ro_live : rt_revoked_at root = None
}.
Lemma root_refresh_token_root t now i c jkt plain e db_now :
  add_std_duration now (cfg_refresh_token_ttl cfg) = Some e ->
  root_of t now i c jkt plain
    (truncate_refresh (root_refresh_token plain t (ac_hash c) i c jkt now e) db_now).
Proof.
  unfold add_std_duration. destruct (_ && _)%bool; [|done]. intros [= <-]. by split.
Qed.
(** The tokens of a code exchange, and the row behind the refresh token. *)
Record code_answer (t : TenantId) (w w' : World) (client_id : string) (c : AuthorizationCode)
  (user : User) (proof : option VerifiedDpopProof) (tk : IssuedTokens) : Prop := {
  ca_id_token : exists jti id_token, tk_id_token tk = Some id_token
    /\ signed w "JWT" (IdClaims (code_id_claims (tenant_issuer (cfg_base_issuer cfg) t) client_id
         (uuid_to_string jti) user (ac_grant c) (ac_auth c) (timestamp (w_clock w))
         (cfg_id_token_ttl cfg))) id_token;
  ca_access_token : exists jti,
    signed w "at+jwt" (AccessClaims (user_access_claims (tenant_issuer (cfg_base_issuer cfg) t)
         client_id (uuid_to_string jti) (grant_scope_string (ac_grant c)) user (vp_jkt <$> proof)
         (timestamp (w_clock w)) (cfg_access_token_ttl cfg))) (tk_access_token tk);
  ca_scope : tk_scope tk = grant_scope_string (ac_grant c);
  ca_bound : tk_bound_to_key tk = is_some proof;
  ca_refresh_token :
    if grant_includes (ac_grant c) ScopeOfflineAccess then
      exists plain root, tk_refresh_token tk = Some plain
        /\ db_refresh (w_db w') = (db_refresh (w_db w) ++ [root])%list
        /\ root_of t (w_clock w) client_id c (vp_jkt <$> proof) plain root
    else tk_refresh_token tk = None /\ db_refresh (w_db w') = db_refresh (w_db w)
}.

Lemma run_refresh_create r w w' :
  run (sql_or_internal (RefreshCreate r)) w = (Some (Ok tt), w') ->
  db_refresh (w_db w') = (db_refresh (w_db w) ++ [truncate_refresh r (w_db_clock w)])%list
  /\ db_codes (w_db w') = db_codes (w_db w).
Proof.
  intros H. apply run_sql_or_internal in H. cbn [exec] in H. unfold refresh_create in H.
  destruct (existsb _ _); [done|]. injection H as <-. done.
Qed.
Lemma run_issue_root_refresh_token t h i c jkt now ctx w plain w' :
  run (issue_root_refresh_token cfg t h i c jkt now ctx) w = (Some (Ok plain), w') ->
  exists expires_at, add_std_duration now (cfg_refresh_token_ttl cfg) = Some expires_at
    /\ db_refresh (w_db w') = (db_refresh (w_db w) ++
         [truncate_refresh (root_refresh_token plain t h i c jkt now expires_at)
            (w_db_clock w)])%list.
Proof.
  unfold issue_root_refresh_token. intros H. apply run_do in H. destruct H as (p & w1 & Hp & H).
  assert (untouched w w1) as Hu by (eapply run_light; [|exact Hp]; done).
  destruct (add_std_duration _ _) as [e|]; [|done]. exists e. split; [done|].
  apply run_try in H. destruct H as ([] & w2 & Hc & H).
  apply run_do in H. destruct H as ([] & w3 & Ha & H). injection H as -> <-.
  apply run_light in Ha; [|apply light_audit]. rewrite (un_refresh _ _ Ha).
  destruct (run_refresh_create _ _ _ Hc) as [-> _]. rewrite (un_refresh _ _ Hu).
  by injection (un_fixed _ _ Hu) as _ -> _.
Qed.
Lemma run_draw {X} (op : Op X) w x w' :
  always (sql_prop light) (perform op) -> run (perform op) w = (Some x, w') -> untouched w w'.
Proof. intros Hl. by apply run_light. Qed.
Lemma run_issue_from_code t h i c user proof w ctx tk w' :
  run (issue_from_code cfg t h i c user proof (w_clock w) ctx) w = (Some (Ok tk), w') ->
  ac_hash c = h -> code_answer t w w' i c user proof tk.
Proof.
  intros H <-. unfold issue_from_code in H.
  apply run_do in H. destruct H as (j1 & w1 & H1 & H).
  apply run_draw in H1; [|by prog_always].
  apply run_do in H. destruct H as (j2 & w2 & H2 & H).
  apply run_draw in H2; [|by prog_always].
  apply run_try in H. destruct H as (id_token & w3 & Hid & H).
  apply run_sign in Hid. destruct Hid as [H3 Hid].
  apply run_try in H. destruct H as (access & w4 & Hat & H).
  apply run_sign in Hat. destruct Hat as [H4 Hat].
  apply run_try in H. destruct H as (refresh & w5 & Hrt & H).
  apply run_do in H. destruct H as ([] & w6 & H6 & H).
  apply run_light in H6; [|prog_always].
  apply run_do in H. destruct H as ([] & w7 & H7 & H).
  apply run_light in H7; [|apply light_audit]. injection H as <- <-.
  assert (untouched w w2) as U2 by (by transitivity w1).
  assert (untouched w w3) as U3 by (by transitivity w2).
  assert (untouched w w4) as U4 by (by transitivity w3).
  assert (db_refresh (w_db w7) = db_refresh (w_db w5)) as Hr7
    by (rewrite (un_refresh _ _ H7); apply (un_refresh _ _ H6)).
  split; cbn [tk_id_token tk_access_token tk_scope tk_bound_to_key tk_refresh_token]; try done.
  - exists j1, id_token. split; [done|]. by apply (signed_fixed w w2), Hid; apply U2.
  - exists j2. by apply (signed_fixed w w3), Hat; apply U3.
  - destruct (grant_includes (ac_grant c) ScopeOfflineAccess).
    + apply run_try in Hrt. destruct Hrt as (plain & w8 & Hrt & H8). injection H8 as <- ->.
      apply run_issue_root_refresh_token in Hrt. destruct Hrt as (e & He & Hrt).
      eexists plain, _. split; [done|]. rewrite Hr7, Hrt, (un_refresh _ _ U4).
      split; [reflexivity | by apply root_refresh_token_root].
    + injection Hrt as <- ->. split; [done|]. by rewrite Hr7, (un_refresh _ _ U4).
Qed.
Lemma code_answer_rebase t w w1 w' i c user proof tk :
  fixed w1 = fixed w -> db_refresh (w_db w1) = db_refresh (w_db w) ->
  code_answer t w1 w' i c user proof tk -> code_answer t w w' i c user proof tk.
Proof.
  intros Hf Hr [(j1 & x & Hx & H1) (j2 & H2) Hs Hb Ht].
  assert (w_clock w1 = w_clock w) as Hc by by injection Hf.
  rewrite Hc in *. rewrite Hr in Ht.
  split; try done; [exists j1, x; split; [done|] | exists j2]; by apply (signed_fixed w w1).
Qed.

(** Marking the code changes nothing the answer depends on. *)
Lemma code_answer_used a b t w w' i c user proof tk :
  code_answer t w w' i (with_used_at a b c) user proof tk -> code_answer t w w' i c user proof tk.
Proof.
  intros [H1 H2 Hs Hb Ht]. split; try done. change (ac_grant (with_used_at a b c)) with (ac_grant c) in Ht.
  destruct (grant_includes (ac_grant c) ScopeOfflineAccess); [|done].
  destruct Ht as (plain & root & Hp & Hr & []). exists plain, root. by split_and!; [| |split].
Qed.
Lemma keeps_codes_issue_from_code t h i c user proof now ctx :
  always (sql_prop keeps_codes) (issue_from_code cfg t h i c user proof now ctx).
Proof.
  unfold issue_from_code, issue_root_refresh_token, sign_id_token, sign_access_token. prog_always.
Qed.

(** C3: What a redeemed code means.  If [/token] answers an
    [authorization_code] request with tokens, then its client is registered in
    the tenant, active and proven; the code presented is stored for that tenant,
    was unused and unexpired, was issued to that client for the [redirect_uri]
    presented, and the [code_verifier] hashes to its challenge; its user and the
    user's home tenant are active; a DPoP proof, if any, verified; the tokens
    carry the claims of that code, user and key; the code is spent; and a refresh
    token comes, and is stored, exactly when [offline_access] was granted. *)
Theorem code_exchange_sound tenant cmd ctx w tk w' :
  cmd_grant_type cmd = Some "authorization_code" ->
  NoDup (ac_hash <$> db_codes (w_db w)) ->
  run (exchange cfg tenant cmd ctx) w = (Some (Ok tk), w') ->
  exists client_id client c user proof,
    client_of_request cfg (tc_tenant_id tenant) cmd w client_id client
    /\ code_redeemed (tc_tenant_id tenant) cmd w w' client_id c
    /\ user_in_good_standing w (au_user_id (ac_auth c)) user
    /\ proof_of_request cfg (tc_tenant_id tenant) cmd (w_clock w) proof
    /\ code_answer (tc_tenant_id tenant) w w' client_id c user proof tk.
Proof.
  intros Hg Hnd H. apply run_exchange_code in H; [|done]. destruct H as (proof & w1 & U1 & Hp & H).
  unfold exchange_code in H. apply run_try in H. destruct H as ([i client] & w2 & Ha & H).
  apply run_authenticated_client in Ha. destruct Ha as [U2 Ha].
  assert (untouched w w2) as U by (by transitivity w1).
  destruct (presented_verifier cmd) as [v|] eqn:Ev; [|done].
  destruct (cmd_code cmd ≫= code_from_presented) as [code|] eqn:Ec; [|done].
  apply run_do in H. destruct H as (now & w3 & Hn & H). apply run_Now in Hn. destruct Hn as [-> ->].
  apply run_do in H. destruct H as (r & w4 & Hc & H). destruct r as [[c'|]|]; [| |done].
  2: { by apply (guarded_never_run succeeded) in H; [|apply code_not_consumed_fails]. }
  apply run_do in H. destruct H as ([] & w5 & Ha5 & H). apply run_light in Ha5; [|apply light_audit].
  destruct (redeem _ _ _ _) as [[]|] eqn:Er; [|done]. apply redeem_Ok in Er.
  apply run_try in H. destruct H as (user & w6 & Hu & H).
  apply run_load_active_user in Hu. destruct Hu as [U6 Hu].
  assert (untouched w4 w6) as U46 by (by transitivity w5).
  pose proof (run_directory _ _ _ _ (keeps_users_consume _ _ _) Hc) as Hd. pose proof (run_fixed _ _ _ _ Hc) as Hf.
  rewrite (untouched_clock _ _ U) in Hc, H.
  apply run_consume in Hc; [|by rewrite (un_codes _ _ U)].
  destruct Hc as (c & Hin & Hcons & -> & Hspent & Hrt).
  apply consumable_true in Hcons. destruct Hcons as (Hh & Ht & Hun & Hexp).
  rewrite (un_codes _ _ U) in Hin. rewrite (un_refresh _ _ U) in Hrt. rewrite (un_fixed _ _ U) in Hf.
  assert (fixed w6 = fixed w) as Hf6 by (by rewrite (un_fixed _ _ U46)).
  assert (w_clock w6 = w_clock w) as Hc6 by by injection Hf6.
  exists i, client, c, user, proof.
  split; [exact (client_of_request_untouched cfg _ _ _ _ _ _ U1 Ha)|].
  split; [|split; [|split; [done|]]].
  - split; try done.
    + destruct (cmd_code cmd) as [plain|]; [|done]. cbn in Ec. unfold code_from_presented in Ec.
      destruct (str_is_empty plain); [done|]. injection Ec as <-. eauto.
    + apply Er.
    + apply Er.
    + unfold presented_verifier in Ev.
      destruct (non_empty _) as [v'|] eqn:En; [|done]. apply non_empty_Some in En.
      destruct (is_valid_code_verifier v') eqn:Evv; [|done]. injection Ev as <-.
      exists v'. split; [apply En|]. split; [done|]. apply Er.
    + rewrite Hh. rewrite <- Hc6 in H.
      pose proof (run_frame db_codes keeps_codes _ _ _ _ exec_keeps_codes
                    (keeps_codes_issue_from_code _ _ _ _ _ _ _ _) H) as ->.
      by rewrite (un_codes _ _ U46).
  - apply (user_standing_directory w w5); [|done].
    by rewrite (un_directory _ _ Ha5), Hd, (un_directory _ _ U).
  - rewrite <- Hc6 in H. apply run_issue_from_code in H; [|done].
    apply code_answer_used in H.
    eapply code_answer_rebase; [exact Hf6 | | exact H].
    by rewrite (un_refresh _ _ U46).
Qed.

(** ** The refresh *)

(** The refresh token that was presented, and the key it may be used with. *)
Record token_accepted (t : TenantId) (cmd : TokenCommand) (w : World) (client_id : string)
  (proof : option VerifiedDpopProof) (jkt : option string) (r : RefreshToken) : Prop := {
  ra_presented : exists plain, cmd_refresh_token cmd = Some plain /\ plain <> ""
                   /\ rt_token_hash r = sha256_hex plain;
  ra_stored : In r (db_refresh (w_db w));
  ra_tenant : rt_tenant_id r = t;
  ra_client : rt_client_id r = client_id;
  ra_valid : rt_is_valid_at r (w_clock w) = true;
  ra_not_rotated : refresh_exists_by_parent_hash (db_refresh (w_db w)) (rt_token_hash r) = false;
  ra_key : match rt_dpop_jkt r with
           | Some bound => jkt = Some bound /\ exists p, proof = Some p /\ vp_jkt p = bound
           | None => jkt = vp_jkt <$> proof
           end
}.
(** The child a rotation stores: of the same family, user, scope, session and
    authentication, and no longer-lived than its parent. *)
Record child_of (t : TenantId) (client_id : string) (r : RefreshToken) (jkt : option string)
  (plain : string) (child : RefreshToken) : Prop := {
  co_hash : rt_token_hash child = sha256_hex plain;
  co_parent : rt_parent_hash child = Some (rt_token_hash r);
  co_family : family_hash child = family_hash r;
  co_owner : rt_tenant_id child = t /\ rt_user_id child = rt_user_id r
             /\ rt_client_id child = client_id;
  co_scope : rt_scope child = rt_scope r;
  co_authentication : rt_sid child = rt_sid r /\ rt_methods child = rt_methods r
    /\ rt_auth_time child = Some (to_micros (auth_time_or_issued r));
  co_key : rt_dpop_jkt child = jkt;
  co_lifetime : rt_expires_at child = to_micros (rt_expires_at r)
                /\ (rt_expires_at child <= rt_expires_at r)%Z;
  co_live : rt_revoked_at child = None
}.
Lemma rotated_refresh_token_child t i r jkt plain now db_now :
  child_of t i r jkt plain
    (truncate_refresh (rotated_refresh_token plain t (rt_token_hash r) i r jkt now) db_now).
Proof.
  split; try done. split; [done|]. cbn. apply to_micros_le.
Qed.
(** The tokens of a refresh, and the refresh token table after it: the presented
    row revoked, its child added, nothing else. *)
Record refresh_answer (t : TenantId) (w w' : World) (client_id : string) (r : RefreshToken)
  (user : User) (jkt : option string) (tk : IssuedTokens) : Prop := {
  rx_id_token : exists jti id_token, tk_id_token tk = Some id_token
    /\ signed w "JWT" (IdClaims (refresh_id_claims (tenant_issuer (cfg_base_issuer cfg) t) client_id
         (uuid_to_string jti) user r (timestamp (w_clock w)) (cfg_id_token_ttl cfg))) id_token;
  rx_access_token : exists jti,
    signed w "at+jwt" (AccessClaims (user_access_claims (tenant_issuer (cfg_base_issuer cfg) t)
         client_id (uuid_to_string jti) (join " " (rt_scope r)) user jkt
         (timestamp (w_clock w)) (cfg_access_token_ttl cfg))) (tk_access_token tk);
  rx_scope : tk_scope tk = join " " (rt_scope r);
  rx_bound : tk_bound_to_key tk = is_some jkt;
  rx_rotated : exists plain child, tk_refresh_token tk = Some plain
    /\ db_refresh (w_db w') =
       ((refresh_revoke (db_refresh (w_db w)) (rt_token_hash r) (w_clock w)).1 ++ [child])%list
    /\ child_of t client_id r jkt plain child
}.

Lemma run_issue_from_refresh t i r user jkt w ctx tk w' :
  run (issue_from_refresh cfg t (rt_token_hash r) i r user jkt (w_clock w) ctx) w
  = (Some (Ok tk), w') ->
  (exists jti id_token, tk_id_token tk = Some id_token
    /\ signed w "JWT" (IdClaims (refresh_id_claims (tenant_issuer (cfg_base_issuer cfg) t) i
         (uuid_to_string jti) user r (timestamp (w_clock w)) (cfg_id_token_ttl cfg))) id_token)
  /\ (exists jti,
    signed w "at+jwt" (AccessClaims (user_access_claims (tenant_issuer (cfg_base_issuer cfg) t)
         i (uuid_to_string jti) (join " " (rt_scope r)) user jkt
         (timestamp (w_clock w)) (cfg_access_token_ttl cfg))) (tk_access_token tk))
  /\ tk_scope tk = join " " (rt_scope r) /\ tk_bound_to_key tk = is_some jkt
  /\ exists plain, tk_refresh_token tk = Some plain
    /\ db_refresh (w_db w') = (db_refresh (w_db w) ++
        [truncate_refresh (rotated_refresh_token plain t (rt_token_hash r) i r jkt (w_clock w))
           (w_db_clock w)])%list.
Proof.
  unfold issue_from_refresh. intros H.
  apply run_do in H. destruct H as (j1 & w1 & H1 & H).
  apply run_draw in H1; [|by prog_always].
  apply run_do in H. destruct H as (j2 & w2 & H2 & H).
  apply run_draw in H2; [|by prog_always].
  apply run_try in H. destruct H as (id_token & w3 & Hid & H).
  apply run_sign in Hid. destruct Hid as [H3 Hid].
  apply run_try in H. destruct H as (access & w4 & Hat & H).
  apply run_sign in Hat. destruct Hat as [H4 Hat].
  apply run_do in H. destruct H as (plain & w5 & H5 & H).
  apply run_draw in H5; [|by prog_always].
  apply run_try in H. destruct H as ([] & w6 & H6 & H). apply run_refresh_create in H6.
  assert (untouched w6 w' /\ tk = {| tk_access_token := access; tk_id_token := Some id_token;
    tk_expires_in := cfg_access_token_ttl cfg; tk_scope := join " " (rt_scope r);
    tk_refresh_token := Some plain; tk_bound_to_key := is_some jkt |}) as [U6 ->].
  { split; [eapply run_light; [|exact H]; prog_always|].
    do 4 (apply run_do in H; destruct H as (? & ? & _ & H)). by injection H as <- _. }
  assert (untouched w w2) as U2 by (by transitivity w1).
  assert (untouched w w3) as U3 by (by transitivity w2).
  assert (untouched w w5) as U5 by (transitivity w4; [by transitivity w3 | done]).
  cbn [tk_id_token tk_access_token tk_scope tk_bound_to_key tk_refresh_token].
  split; [|split; [|split; [done|split; [done|]]]].
  - exists j1, id_token. split; [done|]. by apply (signed_fixed w w2), Hid; apply U2.
  - exists j2. by apply (signed_fixed w w3), Hat; apply U3.
  - exists plain. split; [done|]. destruct H6 as [H6 _].
    rewrite (un_refresh _ _ U6), H6, (un_refresh _ _ U5).
    by injection (un_fixed _ _ U5) as _ -> _.
Qed.

Lemma refresh_answer_untouched w w1 t w' i r user jkt tk :
  untouched w w1 -> refresh_answer t w1 w' i r user jkt tk -> refresh_answer t w w' i r user jkt tk.
Proof.
  intros U [(j1 & x & Hx & H1) (j2 & H2) Hs Hb Ht]. pose proof (un_fixed _ _ U) as Hf.
  assert (w_clock w1 = w_clock w) as Hc by by injection Hf.
  rewrite Hc in *. rewrite (un_refresh _ _ U) in Ht.
  split; try done; [exists j1, x; split; [done|] | exists j2]; by apply (signed_fixed w w1).
Qed.
Lemma run_revoke h now w n w' :
  run (sql_or_internal (RefreshRevoke h now)) w = (Some (Ok n), w') ->
  db_refresh (w_db w') = (refresh_revoke (db_refresh (w_db w)) h now).1.
Proof.
  intros H. apply run_sql_or_internal in H. cbn [exec] in H.
  destruct (refresh_revoke _ _ _) as [rows m]. by injection H as _ <-.
Qed.
Lemma run_rotate t i r jkt w ctx tk w' :
  run (rotate_refresh_token cfg t (rt_token_hash r) i r jkt (w_clock w) ctx) w
  = (Some (Ok tk), w') ->
  refresh_exists_by_parent_hash (db_refresh (w_db w)) (rt_token_hash r) = false
  /\ rt_is_valid_at r (w_clock w) = true
  /\ exists user, user_in_good_standing w (rt_user_id r) user
    /\ (calm w -> may_use (w_db w) t
          (applications_find_by_oidc_client_id (w_db w) t i) (rt_user_id r) = true)
    /\ refresh_answer t w w' i r user jkt tk.
Proof.
  unfold rotate_refresh_token. intros H.
  apply run_try in H. destruct H as (rotated & w1 & H1 & H).
  assert (untouched w w1) as U1 by (eapply run_light; [|exact H1]; by apply always_sql_or_internal).
  apply run_sql_or_internal in H1. injection H1 as Hrot _. destruct rotated.
  { by apply (guarded_never_run succeeded) in H; [|apply refresh_reused_fails]. }
  destruct (rt_is_valid_at r (w_clock w)) eqn:Ev; [|done]. cbn [negb] in H.
  apply run_try in H. destruct H as (user & w2 & H2 & H).
  apply run_load_active_user in H2. destruct H2 as [U2 Hu].
  apply run_do in H. destruct H as (gate & w3 & H3 & H).
  assert (untouched w2 w3) as U3 by (eapply run_light; [|exact H3]; apply light_check).
  apply run_check in H3. destruct gate as [|].
  2: { apply run_try in H. by destruct H as (? & ? & _ & H). }
  apply run_try in H. destruct H as (n & w4 & H4 & H).
  destruct (n =? 0)%nat.
  { by apply (guarded_never_run succeeded) in H; [|apply refresh_reused_fails]. }
  assert (untouched w w2) as U02 by (by transitivity w1).
  assert (untouched w w3) as U03 by (by transitivity w2).
  pose proof (run_fixed _ _ _ _ H4) as Hf. apply run_revoke in H4.
  rewrite (un_refresh _ _ U03) in H4. rewrite (un_fixed _ _ U03) in Hf.
  assert (w_clock w4 = w_clock w /\ w_db_clock w4 = w_db_clock w) as [Hc Hd] by by injection Hf.
  rewrite <- Hc in H. apply run_issue_from_refresh in H.
  destruct H as ((j1 & id & Hid & Hs1) & (j2 & Hs2) & Hsc & Hb & plain & Hpl & Hrt).
  rewrite Hc in *. split; [done|]. split; [done|]. exists user.
  split; [by apply (user_standing_directory w w1); [apply U1|]|]. split.
  - intros Hcalm. destruct H3 as [_ H3]. specialize (H3 (un_calm _ _ U02 Hcalm)).
    by rewrite (may_use_eq _ _ _ _ _ (un_directory _ _ U02)),
      (applications_oidc_eq _ _ _ _ (un_directory _ _ U02)) in H3.
  - split; try done.
    + exists j1, id. split; [done|]. by apply (signed_fixed w w4).
    + exists j2. by apply (signed_fixed w w4).
    + eexists plain, _. split; [done|]. rewrite Hrt, H4.
      split; [reflexivity | apply rotated_refresh_token_child].
Qed.
(** C4: What a used refresh token means.  If [/token] answers a [refresh_token]
    request with tokens, then its client is registered in the tenant, active and
    proven; the token presented is stored for that tenant and client, is neither
    revoked, expired nor already rotated, and if it is bound to a key, the request
    proves that key; its user and the user's home tenant are active, and (nothing
    failing) may use the application; and of the refresh token table only this
    changes: the presented row is revoked, and a child is added that keeps its
    family, user, client, scope, session, authentication and expiry. *)
Theorem refresh_sound tenant cmd ctx w tk w' :
  cmd_grant_type cmd = Some "refresh_token" ->
  run (exchange cfg tenant cmd ctx) w = (Some (Ok tk), w') ->
  exists client_id client r user proof jkt,
    client_of_request cfg (tc_tenant_id tenant) cmd w client_id client
    /\ proof_of_request cfg (tc_tenant_id tenant) cmd (w_clock w) proof
    /\ token_accepted (tc_tenant_id tenant) cmd w client_id proof jkt r
    /\ user_in_good_standing w (rt_user_id r) user
    /\ (calm w -> may_use (w_db w) (tc_tenant_id tenant)
          (applications_find_by_oidc_client_id (w_db w) (tc_tenant_id tenant) client_id)
          (rt_user_id r) = true)
    /\ refresh_answer (tc_tenant_id tenant) w w' client_id r user jkt tk.
Proof.
  intros Hg H. apply run_exchange_refresh in H; [|done]. destruct H as (proof & w1 & U1 & Hp & H).
  unfold exchange_refresh_token in H. apply run_try in H. destruct H as ([i client] & w2 & Ha & H).
  apply run_authenticated_client in Ha. destruct Ha as [U2 Ha].
  destruct (non_empty (cmd_refresh_token cmd)) as [plain|] eqn:En; [|done].
  apply non_empty_Some in En. destruct En as [Hplain Hne].
  apply run_do in H. destruct H as (now & w2' & Hn & H). apply run_Now in Hn.
  destruct Hn as [-> ->].
  apply run_try in H. destruct H as (found & w3 & H3 & H).
  assert (untouched w2 w3) as U3 by (eapply run_light; [|exact H3]; by apply always_sql_or_internal).
  apply run_sql_or_internal in H3. injection H3 as H3 _. destruct found as [r|]; [|done].
  apply refresh_find_Some in H3. destruct H3 as (Hin & Hh & Ht).
  destruct (String.eqb_spec (rt_client_id r) i) as [Hi|]; [|done]. cbn [negb] in H.
  assert (untouched w w2) as U02 by (by transitivity w1).
  assert (untouched w w3) as U by (by transitivity w2).
  rewrite (un_refresh _ _ U02) in Hin.
  destruct (key_binding r proof) as [| |jkt] eqn:Ek; [done| |].
  { apply run_do in H. by destruct H as (? & ? & _ & H). }
  rewrite <- Hh, <- (untouched_clock _ _ U3) in H. apply run_rotate in H.
  rewrite (untouched_clock _ _ U) in H.
  destruct H as (Hrot & Hv & user & Hu & Hgate & Hans).
  exists i, client, r, user, proof, jkt.
  split; [exact (client_of_request_untouched cfg _ _ _ _ _ _ U1 Ha)|]. split; [done|].
  split; [|split; [|split]].
  - split; try done; [by exists plain | by rewrite <- (un_refresh _ _ U) |].
    unfold key_binding in Ek. destruct (rt_dpop_jkt r) as [bound|], proof as [p|]; try done.
    + destruct (String.eqb_spec bound (vp_jkt p)) as [E|]; [|done]. injection Ek as <-. eauto.
    + by injection Ek as <-.
    + by injection Ek as <-.
  - apply (user_standing_directory w w3); [apply U | done].
  - intros Hc. specialize (Hgate (un_calm _ _ U Hc)).
    rewrite (may_use_eq _ _ _ _ _ (un_directory _ _ U)) in Hgate.
    by rewrite <- (applications_oidc_eq _ _ _ _ (un_directory _ _ U)).
  - by apply (refresh_answer_untouched w w3).
Qed.

(** ** The machine grant *)

(** To whom, with which permissions and for how long a client's own token is. *)
Inductive token_addressed (d : Database) (t : TenantId) (c : Client) (own : option Application)
  (requested : option string) : string -> option string -> Z -> Prop :=
  | to_userinfo :
      non_empty requested = None ->
      is_some_and (fun a => negb (application_is_active a)) own = false ->
      token_addressed d t c own requested
        (userinfo_audience (tenant_issuer (cfg_base_issuer cfg) t)) None (cfg_access_token_ttl cfg)
  | to_management codes :
      requested = Some (management_audience (tenant_issuer (cfg_base_issuer cfg) t)) ->
      codes = (if is_some_and (fun a => negb (application_is_active a)) own then []
               else permissions_list_codes_for_client d (c_id c)) ->
      codes <> [] \/ is_Some own ->
      token_addressed d t c own requested
        (management_audience (tenant_issuer (cfg_base_issuer cfg) t)) (Some (join " " codes))
        (cfg_management_token_ttl cfg)
  | to_resource uri r a :
      requested = Some uri ->
      is_some_and (fun a => negb (application_is_active a)) own = false ->
      resources_find_by_uri d t uri = Some r -> resource_is_active r = true ->
      applications_find_by_binding_target d t (BindResource (pr_id r)) = Some a ->
      application_is_active a = true ->
      applications_is_service_account_assigned d (app_id a) (c_id c) = true ->
      token_addressed d t c own requested (pr_resource_uri r) None (cfg_access_token_ttl cfg).

Lemma token_addressed_directory d d' t c own requested audience perms ttl :
  directory d = directory d' ->
  token_addressed d t c own requested audience perms ttl ->
  token_addressed d' t c own requested audience perms ttl.
Proof.
  intros E. destruct 1 as [|codes Hr Hc|uri r a Hr Ho Hf Hra Ha Haa Has]; [by constructor | |].
  - rewrite (permissions_list_eq _ _ _ E) in Hc. by constructor.
  - rewrite (resources_find_eq _ _ _ _ E) in Hf. rewrite (applications_find_eq _ _ _ _ E) in Ha.
    rewrite (service_account_assigned_eq _ _ _ _ E) in Has. by econstructor.
Qed.
Lemma refuse_fails ev {A} t i reason e ctx : guarded ev succeeded (@refuse A t i reason e ctx).
Proof. unfold refuse. prog_fails. Qed.
Lemma run_issuable_resource t c found w r w' :
  run (issuable_resource t c found) w = (Some (Ok (Ok r)), w') ->
  found = Some r /\ resource_is_active r = true
  /\ exists a, applications_find_by_binding_target (w_db w) t (BindResource (pr_id r)) = Some a
    /\ application_is_active a = true
    /\ applications_is_service_account_assigned (w_db w) (app_id a) (c_id c) = true.
Proof.
  unfold issuable_resource. destruct found as [x|]; [|done].
  destruct (resource_is_active x) eqn:Ex; [cbn [negb]|done].
  intros H. apply run_try in H. destruct H as (found & w1 & H1 & H).
  assert (untouched w w1) as U1 by (eapply run_light; [|exact H1]; by apply always_sql_or_internal).
  apply run_sql_or_internal in H1. injection H1 as H1 _.
  destruct found as [a|]; [|done].
  destruct (application_is_active a) eqn:Ea; cbn [negb] in H; [|done].
  apply run_try in H. destruct H as (assigned & w2 & H2 & H).
  apply run_sql_or_internal in H2. injection H2 as H2 _.
  rewrite (service_account_assigned_eq _ _ _ _ (un_directory _ _ U1)) in H2.
  destruct (admits_service_account a assigned) eqn:Ead; [|done|done].
  apply admits_service_account_Allowed in Ead. destruct Ead as [_ ->].
  injection H as -> _. split; [done|]. split; [done|]. by exists a.
Qed.
Lemma run_token_target t i c own requested w audience perms ttl ctx w' :
  run (token_target cfg t i c own (is_some_and (fun a => negb (application_is_active a)) own)
         (tenant_issuer (cfg_base_issuer cfg) t) requested ctx) w
  = (Some (Ok (audience, perms, ttl)), w') ->
  (is_some_and (fun a => negb (application_is_active a)) own = true ->
   requested = Some (management_audience (tenant_issuer (cfg_base_issuer cfg) t))) ->
  token_addressed (w_db w) t c own requested audience perms ttl.
Proof.
  intros H Hown. unfold token_target in H.
  destruct (non_empty requested) as [uri|] eqn:En.
  2: { injection H as <- <- <- _. constructor; [done|].
       destruct (is_some_and _ own) eqn:Eo; [|done]. rewrite (Hown eq_refl) in En.
       apply non_empty_None in En. destruct En as [|[= En]]; [done|].
       unfold management_audience in En. by destruct (tenant_issuer _ _). }
  apply non_empty_Some in En. destruct En as [-> Hne].
  destruct (String.eqb_spec uri (management_audience (tenant_issuer (cfg_base_issuer cfg) t)))
    as [->|Hu].
  - unfold management_token in H. apply run_try in H. destruct H as (codes & w1 & H1 & H).
    assert (codes = if is_some_and (fun a => negb (application_is_active a)) own then []
                    else permissions_list_codes_for_client (w_db w) (c_id c)) as Hcodes.
    { destruct (is_some_and _ own); [by injection H1|].
      apply run_sql_or_internal in H1. by injection H1. }
    destruct (bool_decide (codes = []) && negb (is_some own)) eqn:E.
    { by apply (guarded_never_run succeeded) in H; [|apply refuse_fails]. }
    injection H as <- <- <- _. apply to_management; [done|done|].
    rewrite <- is_some_true. apply andb_false_iff in E.
    rewrite bool_decide_eq_false, negb_false_iff in E. done.
  - assert (is_some_and (fun a => negb (application_is_active a)) own = false) as Eo.
    { destruct (is_some_and _ own); [|done]. by injection (Hown eq_refl). }
    unfold resource_token in H. apply run_try in H. destruct H as (found & w1 & H1 & H).
    assert (untouched w w1) as U1 by (eapply run_light; [|exact H1]; by apply always_sql_or_internal).
    apply run_sql_or_internal in H1. injection H1 as H1 _.
    apply run_try in H. destruct H as (issuable & w2 & H2 & H). destruct issuable as [r|reason].
    2: { by apply (guarded_never_run succeeded) in H; [|apply refuse_fails]. }
    injection H as <- <- <- _. apply run_issuable_resource in H2.
    destruct H2 as (-> & Hr & a & Ha & Haa & Has).
    rewrite (applications_find_eq _ _ _ _ (un_directory _ _ U1)) in Ha.
    rewrite (service_account_assigned_eq _ _ _ _ (un_directory _ _ U1)) in Has.
    by apply (to_resource _ _ _ _ _ uri r a).
Qed.

Lemma resolve_client_credentials_scopes_Ok c requested scopes :
  resolve_client_credentials_scopes c requested = Ok scopes ->
  scopes ⊆ c_scopes c
  /\ forall s, s ∈ scopes -> is_user_bound s = false /\ is_offline s = false.
Proof.
  unfold resolve_client_credentials_scopes. destruct (non_empty _) as [raw|].
  - destruct (existsb is_offline _) eqn:Eo; [done|].
    destruct (existsb is_user_bound _) eqn:Eu; [done|].
    destruct (allows_scopes c _) eqn:Ea; [cbn [negb]|done]. intros [= <-].
    split; [by apply allows_scopes_spec|]. intros s Hs. apply list_elem_of_In in Hs.
    rewrite <- !not_true_iff_false in *. split; intros E; [apply Eu | apply Eo];
      apply existsb_exists; eauto.
  - intros [= <-]. split.
    + intros s. rewrite !list_elem_of_In, filter_In. tauto.
    + intros s. rewrite list_elem_of_In, filter_In, andb_true_iff, !negb_true_iff. tauto.
Qed.

(** C8: What a machine token means.  If [/token] answers a [client_credentials]
    request with a token, then the client is registered in the tenant, active,
    proven, confidential and registered for the grant; the scopes are within its
    registration and none of them is bound to a user; the token is addressed to
    [/userinfo], to the management API with exactly the client's permissions (none
    when its application is disabled), or to an active resource whose active
    application the client is assigned to; its subject is the client; there is no
    ID token and no refresh token, and codes and refresh tokens are untouched. *)
Theorem client_credentials_sound tenant cmd ctx w tk w' :
  cmd_grant_type cmd = Some "client_credentials" ->
  run (exchange cfg tenant cmd ctx) w = (Some (Ok tk), w') ->
  exists client_id c scopes audience perms ttl jti,
    client_of_request cfg (tc_tenant_id tenant) cmd w client_id c
    /\ c_client_type c = ClientConfidential
    /\ as_str GrantClientCredentials ∈ c_grant_types c
    /\ scopes ⊆ c_scopes c
    /\ (forall s, s ∈ scopes -> is_user_bound s = false /\ is_offline s = false)
    /\ token_addressed (w_db w) (tc_tenant_id tenant) c
         (applications_find_by_binding_target (w_db w) (tc_tenant_id tenant)
            (BindServiceAccount (c_id c)))
         (trim <$> cmd_resource cmd) audience perms ttl
    /\ signed w "at+jwt" (AccessClaims (client_access_claims
         (tenant_issuer (cfg_base_issuer cfg) (tc_tenant_id tenant)) (c_client_id c)
         (uuid_to_string jti) (join " " scopes) audience perms (timestamp (w_clock w)) ttl))
         (tk_access_token tk)
    /\ tk_id_token tk = None /\ tk_refresh_token tk = None /\ tk_scope tk = join " " scopes
    /\ untouched w w'.
Proof.
  intros Hg H. rewrite run_exchange_machine in H by done.
  assert (untouched w w') as Uall by (eapply run_light; [|exact H]; apply light_issue_client_credentials).
  unfold issue_client_credentials in H.
  apply run_try in H. destruct H as ([i c] & w1 & Ha & H).
  apply run_authenticated_client in Ha. destruct Ha as [U1 Ha].
  destruct (allows_client_credentials c) eqn:Eac; cbn [negb] in H.
  2: { by apply (guarded_never_run succeeded) in H; [|apply refuse_fails]. }
  apply allows_client_credentials_spec in Eac. destruct Eac as [Hconf Hgt].
  destruct (resolve_client_credentials_scopes c (cmd_scope cmd)) as [scopes|] eqn:Es; [|done].
  apply resolve_client_credentials_scopes_Ok in Es. destruct Es as [Hsub Hnone].
  apply run_try in H. destruct H as (own & w2 & H2 & H).
  assert (untouched w1 w2) as U2 by (eapply run_light; [|exact H2]; by apply always_sql_or_internal).
  apply run_sql_or_internal in H2. injection H2 as Hown _.
  rewrite (applications_find_eq _ _ _ _ (un_directory _ _ U1)) in Hown.
  apply run_do in H. destruct H as (now & w2' & Hn & H). apply run_Now in Hn.
  destruct Hn as [-> ->].
  destruct (_ && _) eqn:Eown.
  { by apply (guarded_never_run succeeded) in H; [|apply refuse_fails]. }
  apply run_try in H. destruct H as ([[audience perms] ttl] & w3 & H3 & H).
  assert (untouched w2 w3) as U3 by (eapply run_light; [|exact H3]; apply light_token_target).
  apply run_token_target in H3.
  2: { intros Ho. rewrite Ho in Eown. cbn [andb] in Eown.
       by apply negb_false_iff, bool_decide_eq_true in Eown. }
  apply run_do in H. destruct H as (jti & w4 & H4 & H). apply run_draw in H4; [|by prog_always].
  apply run_try in H. destruct H as (token & w5 & H5 & H).
  apply run_sign in H5. destruct H5 as [_ H5].
  apply run_do in H. destruct H as ([] & w6 & _ & H). injection H as <- _.
  assert (untouched w w2) as U02 by (by transitivity w1).
  assert (untouched w w4) as U04 by (transitivity w3; [by transitivity w2 | done]).
  rewrite (untouched_clock _ _ U02) in H5.
  exists i, c, scopes, audience, perms, ttl, jti.
  split; [done|]. split_and!; try done.
  - rewrite Hown. apply (token_addressed_directory (w_db w2)); [apply U02 | done].
  - by apply (signed_fixed w w4), H5; apply U04.
Qed.
End sound.

(** ** Witnesses *)
Lemma code_exchange_sound_witness :
  exists client_id client c user proof,
    client_of_request toy_config 1%N toy_code_command toy_world client_id client
    /\ code_redeemed 1%N toy_code_command toy_world (toy_after toy_code_command) client_id c
    /\ user_in_good_standing toy_world (au_user_id (ac_auth c)) user
    /\ proof_of_request toy_config 1%N toy_code_command (w_clock toy_world) proof
    /\ code_answer toy_config 1%N toy_world (toy_after toy_code_command) client_id c user proof
         (toy_tokens false).
Proof.
  apply (code_exchange_sound toy_config toy_context toy_code_command toy_ctx toy_world
           (toy_tokens false) (toy_after toy_code_command)).
  - reflexivity.
  - exact toy_codes_keyed.
  - apply toy_run. vm_compute. reflexivity.
Defined.
Lemma refresh_sound_witness :
  exists client_id client r user proof jkt,
    client_of_request toy_config 1%N toy_dpop_command toy_world client_id client
    /\ proof_of_request toy_config 1%N toy_dpop_command (w_clock toy_world) proof
    /\ token_accepted 1%N toy_dpop_command toy_world client_id proof jkt r
    /\ user_in_good_standing toy_world (rt_user_id r) user
    /\ (calm toy_world -> may_use (w_db toy_world) 1%N
          (applications_find_by_oidc_client_id (w_db toy_world) 1%N client_id)
          (rt_user_id r) = true)
    /\ refresh_answer toy_config 1%N toy_world (toy_after toy_dpop_command) client_id r user jkt
         (toy_tokens true).
Proof.
  apply (refresh_sound toy_config toy_context toy_dpop_command toy_ctx toy_world
           (toy_tokens true) (toy_after toy_dpop_command)).
  - reflexivity.
  - apply toy_run. vm_compute. reflexivity.
Defined.
Lemma client_credentials_sound_witness :
  exists client_id c scopes audience perms ttl jti,
    client_of_request toy_config 1%N toy_batch_command toy_world client_id c
    /\ c_client_type c = ClientConfidential
    /\ as_str GrantClientCredentials ∈ c_grant_types c
    /\ scopes ⊆ c_scopes c
    /\ (forall s, s ∈ scopes -> is_user_bound s = false /\ is_offline s = false)
    /\ token_addressed toy_config (w_db toy_world) 1%N c
         (applications_find_by_binding_target (w_db toy_world) 1%N (BindServiceAccount (c_id c)))
         (trim <$> cmd_resource toy_batch_command) audience perms ttl
    /\ signed toy_world "at+jwt" (AccessClaims (client_access_claims
         (tenant_issuer (cfg_base_issuer toy_config) 1%N) (c_client_id c)
         (uuid_to_string jti) (join " " scopes) audience perms (timestamp (w_clock toy_world)) ttl))
         (tk_access_token toy_machine_tokens)
    /\ tk_id_token toy_machine_tokens = None /\ tk_refresh_token toy_machine_tokens = None
    /\ tk_scope toy_machine_tokens = join " " scopes
    /\ untouched toy_world (toy_after toy_batch_command).
Proof.
  apply (client_credentials_sound toy_config toy_context toy_batch_command toy_ctx toy_world
           toy_machine_tokens (toy_after toy_batch_command)).
  - reflexivity.
  - apply toy_run. vm_compute. reflexivity.
Defined.
