(* ===== verification/TokenReplay.v ===== *)
(** * Replays and stolen tokens at the token endpoint

    A code or a refresh token that is presented again stops the family of tokens
    that descends from it; a refresh token presented with the wrong key stops
    nothing.  The last section shows the limit: a replay that is noticed while
    the winner is still issuing does not stop the winner's own token. *)

From S2P Require Import Prelude Values External AuditLog Directory Application ClientJwks Client.
From S2P Require Import AuthorizationRequest AuthSession AuthSessionStore AuthorizationCode.
From S2P Require Import RefreshToken Dpop ClientAssertion ClientAuth Effects TokenClaims AccessGate.
From S2P Require Import ProgLogic OneShots Frames Paths TokenService ClientCredentials TokenPaths.
From S2P Require Import TokenSteps AccessTheorems Example.

Section replay.
Context {HS : Hashing} {JO : Jose} {DJ : DpopJose} {UC : UrlCrate} {AJ : AssertionJose}
        {PH : PasswordHasher} {JE : JwtEncoder} {CO : Collation}.
Context (cfg : TokenConfig).

Lemma run_sql_or_internal_calm {A} (s : Stmt A) w :
  calm w -> run (sql_or_internal s) w
    = (Some (map_err (fun _ => internal) (exec s (w_db_clock w) (w_db w)).1),
       with_db w (exec s (w_db_clock w) (w_db w)).2).
Proof. intros Hc. unfold sql_or_internal. by rewrite run_bind, run_sql_calm. Qed.

(** A request, no statement failing, whose DPoP proof and client are good. *)
Record good_request (grant : string) (tenant : TenantContext) (cmd : TokenCommand)
  (ctx : RequestContext) (w w2 : World) (proof : option VerifiedDpopProof) (client_id : string)
  (client : Client) : Prop := {
  gr_calm : calm w;
  gr_grant : cmd_grant_type cmd = Some grant;
  gr_resource : cmd_resource cmd = None;
  gr_checked : exists w1, run (verify_dpop_proof cfg tenant cmd) w = (Some (Ok proof), w1)
    /\ run (authenticated_client cfg tenant cmd ctx) w1 = (Some (Ok (client_id, client)), w2)
}.
Lemma good_request_untouched g tenant cmd ctx w w2 proof i c :
  good_request g tenant cmd ctx w w2 proof i c -> untouched w w2.
Proof.
  intros [_ _ _ (w1 & H1 & H2)]. transitivity w1.
  - by apply run_verify_dpop_proof in H1 as [? _].
  - by apply run_authenticated_client in H2 as [? _].
Qed.

(** ** Refresh tokens *)
Definition reused : TokenError := token_error InvalidGrant "refresh_token has already been used".
Lemma run_refresh_reused t r i now how ctx w :
  calm w -> exists e w', run (refresh_reused t r i now how ctx) w = (Some (Err reused), w')
    /\ db_refresh (w_db w') = (refresh_revoke_family (db_refresh (w_db w)) t (family_hash r) now).1
    /\ db_audit (w_db w') = (db_audit (w_db w) ++ [e])%list
    /\ ev_type e = RefreshTokenReuseDetected.
Proof.
  intros Hc. unfold refresh_reused. rewrite run_bind, run_sql_or_internal_calm by done.
  cbn [exec]. destruct (refresh_revoke_family _ _ _ _) as [rows n]. cbn [fst snd map_err].
  rewrite run_bind. set (w1 := with_db w _).
  match goal with |- context [record_audit ?a ?b ?c ?d ?e ?f ?g] =>
    destruct (run_audit_calm a b c d e f g w1 Hc) as (ev & -> & Hev) end.
  exists ev. rewrite Hev. unfold note_refresh_reuse. rewrite run_bind. destruct (rt_sid r) as [sid|].
  - rewrite run_bind, run_sql_calm by done. by eexists.
  - by eexists.
Qed.

(** The refresh token of a good request, and the row it names. *)
Record token_presented (tenant : TenantContext) (cmd : TokenCommand) (w : World)
  (client_id : string) (r : RefreshToken) : Prop := {
  tp_stored : exists plain, cmd_refresh_token cmd = Some plain /\ plain <> ""
    /\ refresh_find_by_hash (db_refresh (w_db w)) (tc_tenant_id tenant) (sha256_hex plain) = Some r;
  tp_client : rt_client_id r = client_id
}.
Lemma run_presented tenant cmd ctx w w2 proof i c r :
  good_request "refresh_token" tenant cmd ctx w w2 proof i c ->
  token_presented tenant cmd w i r ->
  exists w3, untouched w w3 /\ run (exchange cfg tenant cmd ctx) w =
    run (match key_binding r proof with
         | KeyRequired => Ret (Err (token_error InvalidDpopProof
             "this refresh_token is bound to a key; a DPoP proof is required"))
         | KeyMismatch =>
             do _ <- record_audit RefreshTokenKeyMismatch AuditFailure (Some (tc_tenant_id tenant))
                       (Some (rt_user_id r)) (Some i)
                       (Some "refresh token presented with a DPoP proof of another key; nothing revoked")
                       ctx;;
             Ret (Err (token_error InvalidGrant "refresh_token is bound to another key"))
         | BoundTo jkt => rotate_refresh_token cfg (tc_tenant_id tenant) (rt_token_hash r) i r jkt
                            (w_clock w) ctx
         end) w3.
Proof.
  intros G [(plain & Hp & Hne & Hf) Hi].
  pose proof (good_request_untouched _ _ _ _ _ _ _ _ _ G) as U.
  destruct G as [Hc Hg Hr (w1 & H1 & H2)].
  unfold exchange. rewrite Hr. cbn [is_some_and andb].
  rewrite !(grant_is_eq _ _ _ Hg). cbn [String.eqb Ascii.eqb Bool.eqb].
  rewrite run_bind, H1. unfold exchange_refresh_token. rewrite run_bind, H2.
  rewrite (proj2 (non_empty_Some _ plain)) by done. rewrite run_bind. cbn [run perform step].
  rewrite (untouched_clock _ _ U), run_bind, run_sql_or_internal_calm by (by apply (un_calm _ _ U)).
  cbn [exec fst snd map_err]. rewrite (un_refresh _ _ U), Hf.
  pose proof (refresh_find_Some _ _ _ _ Hf) as (_ & Hh & _). rewrite <- Hh.
  rewrite (proj2 (String.eqb_eq _ _) Hi). cbn [negb]. exists (with_db w2 (w_db w2)).
  split; [by destruct w2 | done].
Qed.

(** C9: A refresh token used twice stops its family.  When nothing fails and a
    good request presents a token that has already been rotated, the answer is
    [invalid_grant]; every token of the family is revoked, tokens of other
    families are left as they were, and the reuse is in the audit log. *)
Theorem refresh_replay_stops_family tenant cmd ctx w w2 proof i c r jkt :
  good_request "refresh_token" tenant cmd ctx w w2 proof i c ->
  token_presented tenant cmd w i r -> key_binding r proof = BoundTo jkt ->
  refresh_exists_by_parent_hash (db_refresh (w_db w)) (rt_token_hash r) = true ->
  exists w', run (exchange cfg tenant cmd ctx) w = (Some (Err reused), w')
    /\ (forall r', In r' (db_refresh (w_db w')) ->
          in_family (tc_tenant_id tenant) (family_hash r) r' = true -> rt_is_revoked r' = true)
    /\ (forall r', In r' (db_refresh (w_db w)) ->
          in_family (tc_tenant_id tenant) (family_hash r) r' = false -> In r' (db_refresh (w_db w')))
    /\ exists e, In e (db_audit (w_db w')) /\ ev_type e = RefreshTokenReuseDetected.
Proof.
  intros G P Hk Hrot. destruct (run_presented _ _ _ _ _ _ _ _ _ G P) as (w3 & U & ->).
  pose proof (un_calm _ _ U (gr_calm _ _ _ _ _ _ _ _ _ G)) as Hc. rewrite Hk.
  unfold rotate_refresh_token. rewrite run_bind, run_sql_or_internal_calm by done.
  cbn [exec fst snd map_err]. rewrite (un_refresh _ _ U), Hrot.
  destruct (run_refresh_reused (tc_tenant_id tenant) r i (w_clock w) "already rotated" ctx
              (with_db w3 (w_db w3)) Hc) as (e & w' & -> & Hr & Ha & He).
  exists w'. split; [done|]. cbn [w_db with_db] in Hr, Ha. rewrite (un_refresh _ _ U) in Hr.
  destruct (refresh_revoke_family _ _ _ _) as [rows n] eqn:Ef. cbn [fst] in Hr. rewrite Hr.
  split; [|split].
  - intros r' Hin. by eapply (refresh_revoke_where_spec (in_family _ _)); [|exact Ef|].
  - intros r' Hin. by apply (refresh_revoke_where_other (in_family _ _) _ _ _ _ r' Ef).
  - exists e. split; [|done]. rewrite Ha. apply in_app_iff. right. by left.
Qed.

(** A stolen refresh token of another key harms nobody.  When nothing fails
    and a good request presents a bound token with a proof of another key, or
    without a proof, the answer is an error and no refresh token changes: the
    rightful holder's family lives on. *)
Theorem wrong_key_revokes_nothing tenant cmd ctx w w2 proof i c r :
  good_request "refresh_token" tenant cmd ctx w w2 proof i c ->
  token_presented tenant cmd w i r ->
  (forall jkt, key_binding r proof <> BoundTo jkt) ->
  exists e w', run (exchange cfg tenant cmd ctx) w = (Some (Err e), w')
    /\ te_code e = (if is_some proof then InvalidGrant else InvalidDpopProof)
    /\ db_refresh (w_db w') = db_refresh (w_db w) /\ db_codes (w_db w') = db_codes (w_db w).
Proof.
  intros G P Hk. destruct (run_presented _ _ _ _ _ _ _ _ _ G P) as (w3 & U & ->).
  pose proof (un_calm _ _ U (gr_calm _ _ _ _ _ _ _ _ _ G)) as Hc.
  destruct (key_binding r proof) as [| |jkt] eqn:Ek; [| |by destruct (Hk jkt)].
  - eexists _, w3. split; [reflexivity|]. split; [|by rewrite (un_refresh _ _ U), (un_codes _ _ U)].
    unfold key_binding in Ek. destruct (rt_dpop_jkt r), proof; try done. by destruct (String.eqb _ _).
  - rewrite run_bind.
    match goal with |- context [record_audit ?a ?b ?c ?d ?e ?f ?g] =>
      destruct (run_audit_calm a b c d e f g w3 Hc) as (ev & -> & Hev) end.
    eexists _, _. split; [reflexivity|].
    split; [|cbn; by rewrite (un_refresh _ _ U), (un_codes _ _ U)].
    unfold key_binding in Ek. destruct (rt_dpop_jkt r), proof; try done.
Qed.

(** ** Codes *)
Definition code_invalid : TokenError :=
  token_error InvalidGrant "authorization code is invalid, expired, or already used".
Lemma run_code_not_consumed t h i now ctx w c :
  calm w -> codes_find_used (db_codes (w_db w)) t h = Some c ->
  exists e w', run (code_not_consumed t h i now ctx) w = (Some (Err code_invalid), w')
    /\ db_refresh (w_db w')
       = (refresh_revoke_family (db_refresh (w_db w)) t (code_hash_value h) now).1
    /\ db_codes (w_db w') = db_codes (w_db w)
    /\ db_audit (w_db w') = (db_audit (w_db w) ++ [e])%list
    /\ ev_type e = AuthorizationCodeReuseDetected.
Proof.
  intros Hc Hf. unfold code_not_consumed. rewrite run_bind, run_sql_or_internal_calm by done.
  cbn [exec fst snd map_err]. rewrite Hf, run_bind, run_bind, run_sql_or_internal_calm by done.
  cbn [exec w_db with_db]. destruct (refresh_revoke_family _ _ _ _) as [rows n].
  cbn [fst snd map_err run]. rewrite run_bind. set (w1 := with_db _ _).
  match goal with |- context [record_audit ?a ?b ?c ?d ?e ?f ?g] =>
    destruct (run_audit_calm a b c d e f g w1 Hc) as (ev & -> & Hev) end.
  exists ev. rewrite Hev. by eexists.
Qed.

(** C10: A code used twice stops the tokens it gave.  When nothing fails and a
    good request presents a code that has already been redeemed, the answer is
    [invalid_grant]; every refresh token that descends from the code is revoked,
    all others are left as they were, and the reuse is in the audit log. *)
Theorem code_replay_stops_family tenant cmd ctx w w2 proof i client plain c :
  good_request "authorization_code" tenant cmd ctx w w2 proof i client ->
  is_ok (presented_verifier cmd) = true -> cmd_code cmd = Some plain -> plain <> "" ->
  NoDup (ac_hash <$> db_codes (w_db w)) ->
  codes_find_used (db_codes (w_db w)) (tc_tenant_id tenant)
    (hash_code {| code_plain := plain |}) = Some c ->
  let family := in_family (tc_tenant_id tenant)
                  (code_hash_value (hash_code {| code_plain := plain |})) in
  exists w', run (exchange cfg tenant cmd ctx) w = (Some (Err code_invalid), w')
    /\ (forall r, In r (db_refresh (w_db w')) -> family r = true -> rt_is_revoked r = true)
    /\ (forall r, In r (db_refresh (w_db w)) -> family r = false -> In r (db_refresh (w_db w')))
    /\ exists e, In e (db_audit (w_db w')) /\ ev_type e = AuthorizationCodeReuseDetected.
Proof.
  intros G Hv Hcode Hne Hnd Hf family.
  pose proof (good_request_untouched _ _ _ _ _ _ _ _ _ G) as U.
  pose proof (un_calm _ _ U (gr_calm _ _ _ _ _ _ _ _ _ G)) as Hc.
  destruct G as [_ Hg Hr (w1 & H1 & H2)].
  unfold exchange. rewrite Hr. cbn [is_some_and andb].
  rewrite !(grant_is_eq _ _ _ Hg). cbn [String.eqb Ascii.eqb Bool.eqb].
  rewrite run_bind, H1. unfold exchange_code. rewrite run_bind, H2.
  destruct (presented_verifier cmd) as [v|]; [|done].
  rewrite Hcode. cbn [mbind option_bind]. unfold code_from_presented.
  rewrite (proj2 (str_is_empty_false plain) Hne), run_bind. cbn [run perform step].
  rewrite run_bind. unfold consume. rewrite run_bind, run_sql_calm by done. cbn [exec].
  rewrite (un_codes _ _ U), (codes_mark_used_used _ _ _ _ _ _ Hnd Hf).
  cbn [fst snd run]. rewrite (Nat.eqb_refl 0). cbn [run].
  set (w3 := with_db w2 _).
  assert (codes_find_used (db_codes (w_db w3)) (tc_tenant_id tenant)
            (hash_code {| code_plain := plain |}) = Some c) as Hf3 by done.
  destruct (run_code_not_consumed (tc_tenant_id tenant) _ i (w_clock w2) ctx w3 c Hc Hf3)
    as (e & w' & -> & Hrt & _ & Ha & He).
  exists w'. split; [done|].
  assert (db_refresh (w_db w3) = db_refresh (w_db w)) as H3 by apply (un_refresh _ _ U).
  rewrite H3 in Hrt. destruct (refresh_revoke_family _ _ _ _) as [rows n] eqn:Ef.
  cbn [fst] in Hrt. rewrite Hrt. split; [|split].
  - intros r' Hin. by eapply (refresh_revoke_where_spec (in_family _ _)); [|exact Ef|].
  - intros r' Hin. by apply (refresh_revoke_where_other (in_family _ _) _ _ _ _ r' Ef).
  - exists e. split; [|done]. rewrite Ha. apply in_app_iff. right. by left.
Qed.
End replay.

(** ** Witnesses: the second presentation of the toy code and refresh token *)
Definition toy_checked (cmd : TokenCommand) (w : World)
  : option (Result TokenError (option VerifiedDpopProof))
    * option (Result TokenError (string * Client)) :=
  let '(r, w1) := run (verify_dpop_proof toy_config toy_context cmd) w in
  (r, (run (authenticated_client toy_config toy_context cmd toy_ctx) w1).1).
Lemma toy_good g cmd w p i c :
  calm w -> cmd_grant_type cmd = Some g -> cmd_resource cmd = None ->
  toy_checked cmd w = (Some (Ok p), Some (Ok (i, c))) ->
  exists w2, good_request toy_config g toy_context cmd toy_ctx w w2 p i c.
Proof.
  unfold toy_checked. intros Hc Hg Hr. destruct (run (verify_dpop_proof _ _ _) w) as [r w1] eqn:E1.
  intros [= -> E2]. exists (run (authenticated_client toy_config toy_context cmd toy_ctx) w1).2.
  split; try done. exists w1. split; [done|]. rewrite <- E2. apply surjective_pairing.
Qed.

Lemma toy_after_calm cmd : calm (toy_after cmd).
Proof. unfold toy_after. eapply run_calm; [|apply surjective_pairing]. reflexivity. Qed.
Lemma refresh_replay_stops_family_witness :
  exists w', run (exchange toy_config toy_context toy_refresh_command toy_ctx) (toy_after toy_refresh_command)
             = (Some (Err reused), w')
    /\ (forall r', In r' (db_refresh (w_db w')) ->
          in_family (tc_tenant_id toy_context)
            (family_hash (with_revoked_at toy_now toy_refresh)) r' = true -> rt_is_revoked r' = true)
    /\ (forall r', In r' (db_refresh (w_db (toy_after toy_refresh_command))) ->
          in_family (tc_tenant_id toy_context)
            (family_hash (with_revoked_at toy_now toy_refresh)) r' = false -> In r' (db_refresh (w_db w')))
    /\ exists e, In e (db_audit (w_db w')) /\ ev_type e = RefreshTokenReuseDetected.
Proof.
  destruct (toy_good "refresh_token" toy_refresh_command (toy_after toy_refresh_command) None "app"
              toy_client) as (w2 & G);
    [apply toy_after_calm | reflexivity | reflexivity | vm_compute; reflexivity |].
  apply (refresh_replay_stops_family toy_config toy_context toy_refresh_command toy_ctx
           (toy_after toy_refresh_command) w2 None "app" toy_client
           (with_revoked_at toy_now toy_refresh) None G).
  - split; [|reflexivity]. exists "rt". split; [reflexivity|]. split; [discriminate|].
    vm_compute. reflexivity.
  - reflexivity.
  - vm_compute. reflexivity.
Defined.

(** The toy refresh token, bound to a key nobody here holds. *)
Definition bound_refresh : RefreshToken := {|
  rt_token_hash := "rt"; rt_parent_hash := None; rt_grant_hash := Some "grant";
  rt_tenant_id := 1%N; rt_user_id := 7%N; rt_client_id := "app"; rt_scope := ["openid"];
  rt_sid := None; rt_methods := None; rt_auth_time := None; rt_dpop_jkt := Some "other";
  rt_expires_at := seconds 9000; rt_revoked_at := None; rt_created_at := seconds 995 |}.
Definition bound_world : World := with_db toy_world (set_refresh toy_db [bound_refresh]).
Definition toy_verified : VerifiedDpopProof := {|
  vp_jkt := jwk_thumbprint_p256 toy_key toy_key; vp_jti := "j1"; vp_issued_at := seconds 1000 |}.
Lemma wrong_key_revokes_nothing_witness :
  exists e w', run (exchange toy_config toy_context toy_dpop_command toy_ctx) bound_world = (Some (Err e), w')
    /\ te_code e = (if is_some (Some toy_verified) then InvalidGrant else InvalidDpopProof)
    /\ db_refresh (w_db w') = db_refresh (w_db bound_world)
    /\ db_codes (w_db w') = db_codes (w_db bound_world).
Proof.
  destruct (toy_good "refresh_token" toy_dpop_command bound_world
              (Some toy_verified) "app" toy_client) as (w2 & G);
    [reflexivity | reflexivity | reflexivity | vm_compute; reflexivity |].
  apply (wrong_key_revokes_nothing toy_config toy_context toy_dpop_command toy_ctx bound_world w2
           (Some toy_verified) "app" toy_client bound_refresh G).
  - split; [|reflexivity]. exists "rt". split; [reflexivity|]. split; [discriminate|].
    vm_compute. reflexivity.
  - intros jkt. vm_compute. discriminate.
Defined.
Lemma code_replay_stops_family_witness :
  exists w', run (exchange toy_config toy_context toy_code_command toy_ctx) (toy_after toy_code_command)
             = (Some (Err code_invalid), w')
    /\ (forall r, In r (db_refresh (w_db w')) ->
          in_family 1%N "code" r = true -> rt_is_revoked r = true)
    /\ (forall r, In r (db_refresh (w_db (toy_after toy_code_command))) ->
          in_family 1%N "code" r = false -> In r (db_refresh (w_db w')))
    /\ exists e, In e (db_audit (w_db w')) /\ ev_type e = AuthorizationCodeReuseDetected.
Proof.
  destruct (toy_good "authorization_code" toy_code_command (toy_after toy_code_command) None "app"
              toy_client) as (w2 & G);
    [apply toy_after_calm | reflexivity | reflexivity | vm_compute; reflexivity |].
  apply (code_replay_stops_family toy_config toy_context toy_code_command toy_ctx
           (toy_after toy_code_command) w2 None "app" toy_client "code"
           (with_used_at toy_now toy_now toy_code) G).
  - reflexivity.
  - reflexivity.
  - discriminate.
  - apply (bool_decide_unpack _). vm_compute. reflexivity.
  - vm_compute. reflexivity.
Defined.
