(* ===== verification/TokenComplete.v ===== *)
(** * Good requests succeed

    The converse of [TokenSound]: when nothing fails, a good request with a good
    code, or a good refresh token, is answered with tokens. *)

From S2P Require Import Prelude Values External AuditLog Directory Application ClientJwks Client.
From S2P Require Import AuthorizationRequest AuthSession AuthSessionStore AuthorizationCode.
From S2P Require Import RefreshToken Dpop ClientAssertion ClientAuth Effects TokenClaims AccessGate.
From S2P Require Import ProgLogic OneShots Frames Paths TokenService ClientCredentials TokenPaths.
From S2P Require Import TokenSteps AccessTheorems TokenReplay Example.

Ltac prog_total :=
  repeat first [ done | apply total_bind | progress intros | case_match | progress cbn [total] ].

Section complete.
Context {HS : Hashing} {JO : Jose} {DJ : DpopJose} {UC : UrlCrate} {AJ : AssertionJose}
        {PH : PasswordHasher} {JE : JwtEncoder} {CO : Collation}.
Context (cfg : TokenConfig).

Lemma total_check t c u ctx : total (check t c u ctx).
Proof.
  unfold check, resolve_for_oidc_client, judge, refuse_access, record_audit. prog_total.
Qed.
Lemma total_audit et r t u c m ctx : total (record_audit et r t u c m ctx).
Proof. unfold record_audit. prog_total. Qed.
(** A light program without a panic: a result, and the tables as they were. *)
Lemma run_total_light {A} (p : Prog A) w :
  always (sql_prop light) p -> total p ->
  exists a w', run p w = (Some a, w') /\ untouched w w'.
Proof.
  intros Hl Ht. destruct (total_run p w Ht) as (a & w' & E). exists a, w'. split; [done|].
  by eapply run_light.
Qed.

(** The key service answers, and the encoder signs with its key. *)
Definition can_sign (w : World) : Prop :=
  exists key, w_signing_key w = Ok key
    /\ forall typ c, is_ok (jwt_sign (sk_private_pem key) (sk_kid key) typ (sk_algorithm key) c) = true.
Lemma run_can_sign typ c w : can_sign w -> exists token, run (sign_with typ c) w = (Some (Ok token), w).
Proof.
  intros (k & Hk & Hs). unfold sign_with. rewrite run_bind. cbn [run perform step]. rewrite Hk.
  specialize (Hs typ c). destruct (jwt_sign _ _ _ _ _) as [token|]; [|done]. by exists token.
Qed.
Lemma can_sign_fixed w w' : fixed w' = fixed w -> can_sign w -> can_sign w'.
Proof. intros Hf. unfold can_sign. by injection Hf as _ _ ->. Qed.

Lemma run_good_user w id u :
  calm w -> user_in_good_standing w id u ->
  exists w', run (load_active_user id) w = (Some (Ok u), w') /\ untouched w w'.
Proof.
  intros Hc (Hu & Ha & home & Hh & Hha). unfold load_active_user.
  rewrite run_bind, run_sql_calm by done. cbn [exec fst snd]. rewrite Hu, Ha.
  rewrite run_bind, run_sql_calm by done. cbn [exec fst snd w_db with_db]. rewrite Hh, Hha.
  eexists. split; [reflexivity|]. by destruct w.
Qed.

(** No random value is that of a token already stored. *)
Definition tokens_fresh (w : World) : Prop :=
  forall n, existsb (rt_has_hash (sha256_hex (w_tokens w n))) (db_refresh (w_db w)) = false.

(** Run the head of the goal's program: a signature, or a program that cannot panic. *)
Ltac run_sign Hs :=
  rewrite run_bind;
  match goal with |- context [run (sign_with ?typ ?c) ?w] =>
    let token := fresh "token" in destruct (run_can_sign typ c w Hs) as (token & ->) end.
Ltac run_total tac :=
  rewrite run_bind;
  match goal with |- context [run ?p ?w] =>
    let a := fresh "a" in let w' := fresh "w'" in let E := fresh "E" in
    destruct (total_run p w ltac:(tac)) as (a & w' & E); rewrite E; clear E end.

Lemma run_good_issue_from_refresh t h i r user jkt now ctx w :
  calm w -> can_sign w -> tokens_fresh w ->
  exists tk w', run (issue_from_refresh cfg t h i r user jkt now ctx) w = (Some (Ok tk), w').
Proof.
  intros Hc Hs Hf. unfold issue_from_refresh, sign_id_token, sign_access_token.
  rewrite run_bind. cbn [run perform step]. rewrite run_bind. cbn [run perform step].
  set (w2 := with_drawn _ _ _). assert (can_sign w2) as Hs2 by done.
  run_sign Hs2. run_sign Hs2. rewrite run_bind. cbn [run perform step].
  rewrite run_bind, run_sql_or_internal_calm by done.
  cbn [exec]. unfold refresh_create. cbn [rotated_refresh_token rt_token_hash].
  subst w2. cbn [w_tokens w_tokens_drawn w_db with_drawn].
  rewrite (Hf (w_tokens_drawn w)). cbn [fst snd map_err].
  run_total ltac:(idtac; prog_total). run_total ltac:(apply total_audit).
  run_total ltac:(apply total_audit). run_total ltac:(apply total_audit). by eexists _, _.
Qed.

(** C16: A good refresh succeeds.  When nothing fails, the key service signs and
    random values are fresh, a good request that presents a stored token of its
    client, valid, not yet rotated and, if bound, with its key, for a user in good
    standing whom the application admits, is answered with tokens. *)
Theorem refresh_complete tenant cmd ctx w w2 proof i c r jkt user :
  good_request cfg "refresh_token" tenant cmd ctx w w2 proof i c ->
  token_presented tenant cmd w i r -> key_binding r proof = BoundTo jkt ->
  refresh_exists_by_parent_hash (db_refresh (w_db w)) (rt_token_hash r) = false ->
  rt_is_valid_at r (w_clock w) = true ->
  user_in_good_standing w (rt_user_id r) user ->
  may_use (w_db w) (tc_tenant_id tenant)
    (applications_find_by_oidc_client_id (w_db w) (tc_tenant_id tenant) i) (rt_user_id r) = true ->
  can_sign w -> tokens_fresh w ->
  exists tk w', run (exchange cfg tenant cmd ctx) w = (Some (Ok tk), w').
Proof.
  intros G P Hk Hrot Hv Hu Hmay Hs Hf.
  destruct (run_presented _ _ _ _ _ _ _ _ _ _ G P) as (w3 & U & ->). rewrite Hk.
  pose proof (un_calm _ _ U (gr_calm _ _ _ _ _ _ _ _ _ _ G)) as Hc.
  unfold rotate_refresh_token. rewrite run_bind, run_sql_or_internal_calm by done.
  cbn [exec fst snd map_err]. rewrite (un_refresh _ _ U), Hrot, Hv. cbn [negb].
  set (w4 := with_db w3 (w_db w3)).
  assert (user_in_good_standing w4 (rt_user_id r) user) as Hu4
    by (apply (user_standing_directory w4 w); [symmetry; apply (un_directory _ _ U) | done]).
  rewrite run_bind. destruct (run_good_user w4 _ _ Hc Hu4) as (w5 & -> & U5).
  assert (untouched w w5) as U05.
  { transitivity w4; [|done]. transitivity w3; [done|]. by destruct w3. }
  rewrite run_bind.
  destruct (total_run (check (tc_tenant_id tenant) i (rt_user_id r) ctx) w5
              (total_check _ _ _ _)) as (g & w6 & E). rewrite E.
  assert (untouched w5 w6) as U6 by (eapply run_light; [|exact E]; apply light_check).
  apply run_check in E. destruct E as [_ E]. specialize (E (un_calm _ _ U5 Hc)).
  rewrite (may_use_eq _ _ _ _ _ (un_directory _ _ U05)),
    (applications_oidc_eq _ _ _ _ (un_directory _ _ U05)), Hmay in E.
  destruct g as [|]; [|done].
  assert (untouched w w6) as U06 by (by transitivity w5).
  rewrite run_bind, run_sql_or_internal_calm by (by apply (un_calm _ _ U6), (un_calm _ _ U5)).
  cbn [exec]. destruct (refresh_revoke _ _ _) as [rows n] eqn:Er. cbn [fst snd map_err].
  rewrite (un_refresh _ _ U06) in Er.
  assert (0 < n)%nat as Hn.
  { destruct P as [(plain & _ & _ & Hfind) _]. apply refresh_find_Some in Hfind.
    unfold rt_is_valid_at in Hv. apply andb_true_iff in Hv. rewrite negb_true_iff in Hv.
    pose proof (refresh_revoke_counts (db_refresh (w_db w)) (rt_token_hash r) (w_clock w) r
                  (proj1 Hfind) eq_refl (proj1 Hv)) as Hn. by rewrite Er in Hn. }
  destruct (Nat.eqb_spec n 0) as [->|_]; [lia|].
  apply run_good_issue_from_refresh.
  - by apply (un_calm _ _ U6), (un_calm _ _ U5).
  - apply (can_sign_fixed w); [apply (un_fixed _ _ U06) | done].
  - intros m. cbn [w_tokens with_db w_db db_refresh set_refresh].
    rewrite (un_tokens _ _ U06). rewrite <- (Hf m).
    replace rows with (refresh_revoke (db_refresh (w_db w)) (rt_token_hash r) (w_clock w)).1
      by (by rewrite Er). apply refresh_revoke_where_existsb.
Qed.

(** ** Codes *)
Lemma run_good_consume t h now c w :
  calm w -> NoDup (ac_hash <$> db_codes (w_db w)) -> In c (db_codes (w_db w)) ->
  consumable t h now c = true ->
  exists w', run (consume t h now) w = (Some (Ok (Some (with_used_at (w_db_clock w) now c))), w')
    /\ directory (w_db w') = directory (w_db w) /\ db_refresh (w_db w') = db_refresh (w_db w)
    /\ fixed w' = fixed w /\ w_tokens w' = w_tokens w /\ calm w'.
Proof.
  intros Hc Hnd Hin Hcons. unfold consume. rewrite run_bind, run_sql_calm by done. cbn [exec].
  destruct (codes_mark_used _ _ _ _ _) as [rows n] eqn:Em. cbn [fst snd].
  injection Em as Hrows Hn.
  assert (0 < length (List.filter (consumable t h now) (db_codes (w_db w))))%nat as Hpos
    by (apply filter_length_pos; by exists c).
  destruct (Nat.eqb_spec n 0) as [->|_]; [lia|]. rewrite run_sql_calm by done.
  cbn [exec fst snd w_db with_db db_codes set_codes].
  assert (codes_select rows h = Some (with_used_at (w_db_clock w) now c)) as ->.
  { destruct (proj1 (consumable_true _ _ _ _) Hcons) as (Hh & _). unfold codes_select.
    destruct (find (code_has_hash h) rows) as [c'|] eqn:Ef.
    - apply find_some in Ef. destruct Ef as [Hin' Hh']. apply code_has_hash_true in Hh'.
      rewrite <- Hrows in Hin'. apply in_map_iff in Hin'. destruct Hin' as (c1 & <- & Hin1).
      assert (c1 = c) as ->; [|by rewrite Hcons].
      eapply codes_key_unique; [exact Hnd | done | done |].
      rewrite Hh. by destruct (consumable t h now c1).
    - assert (In (with_used_at (w_db_clock w) now c) rows) as Hin'
        by (rewrite <- Hrows; apply in_map_iff; exists c; by rewrite Hcons).
      pose proof (find_none _ _ Ef _ Hin') as Hno.
      by rewrite (proj2 (code_has_hash_true h (with_used_at (w_db_clock w) now c)) Hh) in Hno. }
  by eexists.
Qed.
Lemma run_good_issue_root t h i c jkt now ctx w e :
  calm w -> tokens_fresh w -> add_std_duration now (cfg_refresh_token_ttl cfg) = Some e ->
  exists plain w', run (issue_root_refresh_token cfg t h i c jkt now ctx) w = (Some (Ok plain), w').
Proof.
  intros Hc Hf He. unfold issue_root_refresh_token. rewrite run_bind. cbn [run perform step].
  rewrite He, run_bind, run_sql_or_internal_calm by done. cbn [exec]. unfold refresh_create.
  cbn [root_refresh_token rt_token_hash w_db with_drawn]. rewrite (Hf (w_tokens_drawn w)).
  cbn [fst snd map_err]. run_total ltac:(apply total_audit). by eexists _, _.
Qed.
Lemma run_good_issue_from_code t h i c user proof now ctx w :
  calm w -> can_sign w -> tokens_fresh w ->
  is_some (add_std_duration now (cfg_refresh_token_ttl cfg)) = true ->
  exists tk w', run (issue_from_code cfg t h i c user proof now ctx) w = (Some (Ok tk), w').
Proof.
  intros Hc Hs Hf He. unfold issue_from_code, sign_id_token, sign_access_token.
  rewrite run_bind. cbn [run perform step]. rewrite run_bind. cbn [run perform step].
  set (w2 := with_drawn (with_drawn _ _ _) _ _). assert (can_sign w2) as Hs2 by done.
  run_sign Hs2. run_sign Hs2. rewrite run_bind.
  match goal with |- context [run ?p w2] =>
    assert (exists rf w', run p w2 = (Some (Ok rf), w')) as (rf & w3 & ->) end.
  { destruct (grant_includes _ _); [|by eexists _, _].
    apply is_some_true in He. destruct He as (e & He).
    destruct (run_good_issue_root t h i c (vp_jkt <$> proof) now ctx w2 e Hc Hf He) as (p & w3 & E).
    rewrite run_bind, E. by eexists _, _. }
  run_total ltac:(idtac; prog_total). run_total ltac:(apply total_audit). by eexists _, _.
Qed.

(** C15: A good code exchange succeeds.  When nothing fails, the key service
    signs, random values are fresh and the refresh lifetime is representable, a
    good request that presents a stored code of the tenant, unused and unexpired,
    with the right client, [redirect_uri] and [code_verifier], for a user in good
    standing, is answered with tokens. *)
Theorem code_exchange_complete tenant cmd ctx w w2 proof i client plain v c user :
  good_request cfg "authorization_code" tenant cmd ctx w w2 proof i client ->
  presented_verifier cmd = Ok v -> cmd_code cmd = Some plain -> plain <> "" ->
  NoDup (ac_hash <$> db_codes (w_db w)) -> In c (db_codes (w_db w)) ->
  consumable (tc_tenant_id tenant) (hash_code {| code_plain := plain |}) (w_clock w) c = true ->
  redeem c i (cmd_redirect_uri cmd) v = Ok tt ->
  user_in_good_standing w (au_user_id (ac_auth c)) user ->
  can_sign w -> tokens_fresh w ->
  is_some (add_std_duration (w_clock w) (cfg_refresh_token_ttl cfg)) = true ->
  exists tk w', run (exchange cfg tenant cmd ctx) w = (Some (Ok tk), w').
Proof.
  intros G Hv Hcode Hne Hnd Hin Hcons Hred Hu Hs Hf He.
  pose proof (good_request_untouched _ _ _ _ _ _ _ _ _ _ G) as U.
  pose proof (un_calm _ _ U (gr_calm _ _ _ _ _ _ _ _ _ _ G)) as Hc.
  destruct G as [_ Hg Hr (w1 & H1 & H2)].
  unfold exchange. rewrite Hr. cbn [is_some_and andb].
  rewrite !(grant_is_eq _ _ _ Hg). cbn [String.eqb Ascii.eqb Bool.eqb].
  rewrite run_bind, H1. unfold exchange_code. rewrite run_bind, H2, Hv, Hcode.
  cbn [mbind option_bind]. unfold code_from_presented.
  rewrite (proj2 (str_is_empty_false plain) Hne), run_bind. cbn [run perform step].
  rewrite (untouched_clock _ _ U), run_bind.
  destruct (run_good_consume (tc_tenant_id tenant) (hash_code {| code_plain := plain |})
    (w_clock w) c w2 Hc) as (w3 & -> & Hd3 & Hr3 & Hf3 & Ht3 & Hc3);
    [by rewrite (un_codes _ _ U) | by rewrite (un_codes _ _ U) | done |].
  set (c' := with_used_at _ _ c). change (ac_auth c') with (ac_auth c). rewrite run_bind.
  match goal with |- context [record_audit ?a ?b ?c ?d ?e ?f ?g] =>
    destruct (run_total_light (record_audit a b c d e f g) w3) as ([] & w4 & -> & U4);
      [apply light_audit | apply total_audit |] end.
  change (redeem c' i (cmd_redirect_uri cmd) v) with (redeem c i (cmd_redirect_uri cmd) v).
  rewrite Hred, run_bind.
  pose proof (un_calm _ _ U4 Hc3) as Hc4.
  destruct (run_good_user w4 (au_user_id (ac_auth c)) user Hc4) as (w5 & -> & U5).
  { apply (user_standing_directory w4 w); [|done].
    by rewrite (un_directory _ _ U4), Hd3, (un_directory _ _ U). }
  assert (fixed w5 = fixed w) as Hf5
    by by rewrite (un_fixed _ _ U5), (un_fixed _ _ U4), Hf3, (un_fixed _ _ U).
  apply run_good_issue_from_code; [by apply (un_calm _ _ U5) | by apply (can_sign_fixed w) | | done].
  intros m. by rewrite (un_refresh _ _ U5), (un_refresh _ _ U4), Hr3, (un_refresh _ _ U),
    (un_tokens _ _ U5), (un_tokens _ _ U4), Ht3, (un_tokens _ _ U).
Qed.
End complete.

(** ** Witnesses *)
Lemma toy_can_sign : can_sign toy_world.
Proof. eexists. split; [reflexivity|]. intros typ c. reflexivity. Qed.
Lemma toy_tokens_fresh : tokens_fresh toy_world.
Proof. intros n. reflexivity. Qed.
Lemma toy_user_standing : user_in_good_standing toy_world 7%N toy_user.
Proof. split; [reflexivity|]. split; [reflexivity|]. by exists toy_tenant. Qed.

Lemma refresh_complete_witness :
  exists tk w', run (exchange toy_config toy_context toy_refresh_command toy_ctx) toy_world
                = (Some (Ok tk), w').
Proof.
  destruct (toy_good "refresh_token" toy_refresh_command toy_world None "app" toy_client)
    as (w2 & G); [reflexivity | reflexivity | reflexivity | vm_compute; reflexivity |].
  apply (refresh_complete toy_config toy_context toy_refresh_command toy_ctx toy_world w2 None "app"
           toy_client toy_refresh None toy_user G).
  - split; [|reflexivity]. exists "rt". split; [reflexivity|]. split; [discriminate|].
    vm_compute. reflexivity.
  - reflexivity.
  - reflexivity.
  - reflexivity.
  - exact toy_user_standing.
  - reflexivity.
  - exact toy_can_sign.
  - exact toy_tokens_fresh.
Defined.
Lemma code_exchange_complete_witness :
  exists tk w', run (exchange toy_config toy_context toy_code_command toy_ctx) toy_world
                = (Some (Ok tk), w').
Proof.
  destruct (toy_good "authorization_code" toy_code_command toy_world None "app" toy_client)
    as (w2 & G); [reflexivity | reflexivity | reflexivity | vm_compute; reflexivity |].
  apply (code_exchange_complete toy_config toy_context toy_code_command toy_ctx toy_world w2 None
           "app" toy_client "code" toy_verifier toy_code toy_user G).
  - reflexivity.
  - reflexivity.
  - discriminate.
  - exact toy_codes_keyed.
  - left. reflexivity.
  - vm_compute. reflexivity.
  - vm_compute. reflexivity.
  - exact toy_user_standing.
  - exact toy_can_sign.
  - exact toy_tokens_fresh.
  - reflexivity.
Defined.
