(* ===== verification/ReplayWindow.v ===== *)
(** * How long a replay is remembered

    A DPoP proof and a client assertion are recorded until the time at which they
    stop being acceptable, and the background purge removes records whose time
    has come.  The record outlives the acceptance, except at one instant: both
    bounds are inclusive, so at that instant a purged proof is accepted again. *)

From S2P Require Import Prelude Values External AuditLog Directory Application ClientJwks Client.
From S2P Require Import AuthSession AuthSessionStore AuthorizationCode RefreshToken Dpop.
From S2P Require Import ClientAssertion ClientAuth Effects TokenClaims AccessGate RateLimit Example.

Section windows.
Context {HS : Hashing} {JO : Jose} {DJ : DpopJose} {UC : UrlCrate} {AJ : AssertionJose}
        {CO : Collation}.

Lemma dpop_purge_keeps rows h until purged_at :
  In (h, to_micros until) rows -> (to_micros purged_at < to_micros until)%Z ->
  dpop_recorded (dpop_purge rows purged_at) h = true.
Proof.
  intros Hin Hlt. unfold dpop_recorded, dpop_purge. apply existsb_exists.
  exists (h, to_micros until). split; [|apply String.eqb_refl].
  apply filter_In. split; [done|]. cbn. apply negb_true_iff, Z.leb_gt, Hlt.
Qed.

(** A recorded proof stays recorded while it is acceptable.  If a DPoP proof
    still verifies at some time, then a purge at that time or earlier has kept
    the record made of it, so a replay is refused; the only exception is the very
    instant at which the proof runs out. *)
Theorem dpop_purge_keeps_acceptable proof expected p rows purged_at :
  verify_proof proof expected = Ok p -> (purged_at <= dr_now expected)%Z ->
  In (replay_key p, to_micros (retain_until p)) rows ->
  dpop_recorded (dpop_purge rows purged_at) (replay_key p) = true
  \/ (purged_at = dr_now expected /\ dr_now expected = retain_until p).
Proof.
  intros Hv Hle Hin. apply verify_proof_Ok in Hv.
  destruct Hv as (key & claims & Hc).
  destruct (claims_accepted_issued_at _ _ _ _ Hc) as (iat & Hiat).
  pose proof (ca_window _ _ _ _ Hc) as [Hold _].
  assert (retain_until p = seconds (iat + MAX_PROOF_AGE_SECS)) as Hr
    by (unfold retain_until; rewrite Hiat; unfold seconds; lia).
  pose proof (to_micros_le purged_at). pose proof (to_micros_seconds (iat + MAX_PROOF_AGE_SECS)).
  destruct (Z.eq_dec purged_at (retain_until p)) as [E|E].
  - right. unfold retain_until in *. lia.
  - left. eapply dpop_purge_keeps; [exact Hin|]. unfold retain_until in *. rewrite Hr. lia.
Qed.

Lemma jti_purge_keeps (rows : JtiTable) t c j r purged_at :
  In r rows -> jti_key t c j r = true -> (to_micros purged_at < jr_expires_at r)%Z ->
  jti_recorded (jti_purge rows purged_at) t c j = true.
Proof.
  intros Hin Hk Hlt. unfold jti_recorded, jti_purge. apply existsb_exists.
  exists r. split; [|done]. apply filter_In. split; [done|]. apply negb_true_iff, Z.leb_gt, Hlt.
Qed.
(** A recorded client assertion stays recorded while it is acceptable: the
    same for assertions and their [jti], with the same one instant excepted. *)
Theorem assertion_purge_keeps_acceptable ty assertion client_id jwks auds now v rows t r purged_at :
  verify_client_assertion ty assertion client_id jwks auds now = Some (Ok v) ->
  (purged_at <= now)%Z -> In r rows -> jti_key t client_id (va_jti v) r = true ->
  jr_expires_at r = to_micros (va_replay_guard_until v) ->
  jti_recorded (jti_purge rows purged_at) t client_id (va_jti v) = true
  \/ (purged_at = now /\ now = va_replay_guard_until v).
Proof.
  intros Hv Hle Hin Hk Hexp. apply verify_client_assertion_Ok in Hv.
  destruct Hv as (kid & jwk & key & alg & claims & _ & _ & _ & _ & _ & _ & Hc).
  apply check_assertion_claims_Ok in Hc.
  destruct Hc as (_ & _ & _ & _ & _ & _ & He & Hg & Hw & _).
  assert (va_replay_guard_until v = seconds (cl_exp claims + 60)) as Hr
    by (rewrite Hg, He; unfold CLOCK_SKEW_LEEWAY, seconds; lia).
  pose proof (to_micros_le purged_at). pose proof (to_micros_seconds (cl_exp claims + 60)).
  destruct (Z.eq_dec purged_at (va_replay_guard_until v)) as [E|E]; [right; lia|].
  left. eapply jti_purge_keeps; [exact Hin | exact Hk |]. rewrite Hexp, Hr. lia.
Qed.

(** When the assertion check panics.  The checks on a signed assertion's
    claims leave the total functions in one case: issuer, subject and audience are
    right and [exp] lies within the last 60 seconds that chrono can represent, so
    that adding the clock leeway overflows. *)
Theorem assertion_check_panics_iff claims client_id auds now :
  check_assertion_claims claims client_id auds now = None <->
  cl_iss claims = client_id /\ cl_sub claims = client_id
  /\ (exists a, a ∈ auds /\ audience_contains (cl_aud claims) a = true)
  /\ (CHRONO_MAX_SECS - 60 < cl_exp claims <= CHRONO_MAX_SECS)%Z.
Proof.
  unfold check_assertion_claims.
  destruct (String.eqb_spec (cl_iss claims) client_id) as [Hi|Hi]; [|cbn; naive_solver].
  destruct (String.eqb_spec (cl_sub claims) client_id) as [Hs|Hs]; [|cbn; naive_solver].
  cbn [negb orb].
  assert ((exists a, a ∈ auds /\ audience_contains (cl_aud claims) a = true)
          <-> existsb (audience_contains (cl_aud claims)) auds = true) as Ha.
  { rewrite existsb_exists. by setoid_rewrite list_elem_of_In. }
  rewrite Ha. destruct (existsb _ auds); cbn [negb]; [|naive_solver].
  unfold from_timestamp.
  destruct ((CHRONO_MIN_SECS <=? cl_exp claims)%Z && (cl_exp claims <=? CHRONO_MAX_SECS)%Z) eqn:Er.
  - apply andb_true_iff in Er. rewrite !Z.leb_le in Er.
    destruct (Z.ltb_spec (seconds CHRONO_MAX_SECS) (seconds (cl_exp claims) + CLOCK_SKEW_LEEWAY))
      as [Hlt|Hge]; unfold seconds, CLOCK_SKEW_LEEWAY, seconds, NANOS in *.
    + split; [|done]. intros _. split_and!; try done; lia.
    + split; [|intros (_ & _ & _ & ? & ?); lia]. intros H. exfalso. revert H. by repeat case_match.
  - split; [done|]. intros (_ & _ & _ & H). apply andb_false_iff in Er.
    rewrite !Z.leb_gt in Er. unfold CHRONO_MIN_SECS, CHRONO_MAX_SECS in *. lia.
Qed.
End windows.

(** ** The excepted instant *)

(** The toy proof was issued at second 1000; at second 1120 it runs out. *)
Definition last_instant : World := {|
  w_db := toy_db; w_clock := seconds 1120; w_db_clock := seconds 1120;
  w_signing_key := w_signing_key toy_world; w_faults := []; w_tokens := w_tokens toy_world;
  w_tokens_drawn := 0; w_uuids := w_uuids toy_world; w_uuids_drawn := 0;
  w_alerts := []; w_limiter := toy_limiter; w_hash_work := 0; w_dummy := None |}.
Definition toy_dpop_verify : Prog (Result DpopProofFailure VerifiedDpopProof) :=
  dpop_verify toy_proof "POST" toy_endpoint None.
(** At that instant a proof is accepted twice.  A proof is verified at the
    last instant of its life; the purge runs, at the same instant; the proof is
    verified again, although it was recorded. *)
Theorem dpop_replay_at_last_instant :
  exists p, (run (do first <- toy_dpop_verify;; do _ <- sql (DpopPurge (seconds 1120));;
                  do second <- toy_dpop_verify;; Ret (first, second)) last_instant).1
            = Some (Ok p, Ok p)
  /\ (run (do first <- toy_dpop_verify;; do second <- toy_dpop_verify;; Ret (first, second))
        last_instant).1 = Some (Ok p, Err (ProofRejected Replayed)).
Proof. eexists. split; vm_compute; reflexivity. Qed.
Definition last_assertion_instant : World := {|
  w_db := toy_db; w_clock := seconds 1260; w_db_clock := seconds 1260;
  w_signing_key := w_signing_key toy_world; w_faults := []; w_tokens := w_tokens toy_world;
  w_tokens_drawn := 0; w_uuids := w_uuids toy_world; w_uuids_drawn := 0;
  w_alerts := []; w_limiter := toy_limiter; w_hash_work := 0; w_dummy := None |}.
Definition toy_authenticate : Prog (Result ClientAuthError ClientAuthOutcome) :=
  authenticate "https://idp" 1%N toy_batch toy_batch_credentials.
(** At the instant [exp + 60 s] a client assertion is accepted twice: the
    same, around the purge of the recorded [jti]s. *)
Theorem assertion_replay_at_last_instant :
  (run (do first <- toy_authenticate;; do _ <- sql (JtiPurge (seconds 1260));;
        do second <- toy_authenticate;; Ret (first, second)) last_assertion_instant).1
  = Some (Ok Authenticated_ok, Ok Authenticated_ok)
  /\ (run (do first <- toy_authenticate;; do second <- toy_authenticate;; Ret (first, second))
        last_assertion_instant).1
    = Some (Ok Authenticated_ok, Err (AuthFailed ReplayedAssertion)).
Proof. split; vm_compute; reflexivity. Qed.

(** ** Witnesses *)
Definition toy_last_proof : VerifiedDpopProof := {|
  vp_jkt := jwk_thumbprint_p256 toy_key toy_key; vp_jti := "j1"; vp_issued_at := seconds 1000 |}.
Definition toy_requirements (now : DateTime) : DpopProofRequirements := {|
  dr_method := "POST"; dr_uri := toy_endpoint; dr_access_token := None; dr_now := now |}.
(** One second earlier the record survives the purge. *)
Lemma dpop_purge_keeps_acceptable_witness :
  dpop_recorded (dpop_purge [(replay_key toy_last_proof, to_micros (retain_until toy_last_proof))]
                   (seconds 1119)) (replay_key toy_last_proof) = true
  \/ (seconds 1119 = seconds 1119 /\ seconds 1119 = retain_until toy_last_proof).
Proof.
  apply (dpop_purge_keeps_acceptable toy_proof (toy_requirements (seconds 1119)) toy_last_proof).
  - vm_compute. reflexivity.
  - apply Z.le_refl.
  - left. reflexivity.
Defined.
Definition toy_last_assertion : VerifiedClientAssertion := {|
  va_jti := "j1"; va_expires_at := seconds 1200; va_replay_guard_until := seconds 1260 |}.
Definition toy_jti_row : JtiRow := {|
  jr_tenant_id := 1%N; jr_client_id := "batch"; jr_jti := "j1"; jr_expires_at := seconds 1260 |}.
Lemma assertion_purge_keeps_acceptable_witness :
  jti_recorded (jti_purge [toy_jti_row] (seconds 1250)) 1%N "batch" "j1" = true
  \/ (seconds 1250 = seconds 1255 /\ seconds 1255 = seconds 1260).
Proof.
  apply (assertion_purge_keeps_acceptable (Some JWT_BEARER_ASSERTION_TYPE) "k1.j1.s" "batch"
           {| cj_keys := [toy_jwk] |} (accepted_audiences "https://idp" 1%N) (seconds 1255)
           toy_last_assertion [toy_jti_row] 1%N toy_jti_row (seconds 1250)).
  - vm_compute. reflexivity.
  - vm_compute. discriminate.
  - left. reflexivity.
  - vm_compute. reflexivity.
  - vm_compute. reflexivity.
Defined.
