(* ===== verification/TokenConcurrency.v ===== *)
(** * The token endpoint under concurrency

    Any number of requests run at once; their statements interleave in the order
    a schedule gives, may fail, and the rest of the system may change the world
    in between as long as it purges no row of the table in question.  A code, a
    refresh token, a DPoP proof and a client assertion each let one request
    succeed. *)

From S2P Require Import Prelude Values External AuditLog Directory Application ClientJwks.
From S2P Require Import Client AuthorizationRequest AuthSession AuthSessionStore.
From S2P Require Import AuthorizationCode RefreshToken Dpop ClientAssertion ClientAuth Effects.
From S2P Require Import TokenClaims AccessGate ProgLogic OneShots Paths TokenService.
From S2P Require Import ClientCredentials TokenPaths Example.

(** A request as the endpoint receives it. *)
Record Request : Type := { rq_tenant : TenantContext; rq_cmd : TokenCommand; rq_ctx : RequestContext }.

Section concurrency.
Context {HS : Hashing} {JO : Jose} {DJ : DpopJose} {UC : UrlCrate} {AJ : AssertionJose}
        {PH : PasswordHasher} {JE : JwtEncoder} {CO : Collation}.
Context (cfg : TokenConfig).

Definition serve (r : Request) : Prog (Result TokenError IssuedTokens) :=
  exchange cfg (rq_tenant r) (rq_cmd r) (rq_ctx r).
Definition request_at (rs : list Request) (P : TokenCommand -> Prop) (i : nat) : Prop :=
  exists r, rs !! i = Some r /\ P (rq_cmd r).

(** What the rest of the system may do between two statements, for an event of
    the database: keep its key unique, and not undo it. *)
Definition env_keeps (ev : StmtEvent) `{DbOneShot ev no_purge} (t : Turn) : Prop :=
  turn_ok (ev := sql_event ev) (ok := sql_prop no_purge) t.

Lemma one_success (ev : StmtEvent) `{DbOneShot ev no_purge} (P : TokenCommand -> Prop)
  rs schedule w ps w' i j a b :
  (forall r, P (rq_cmd r) -> guarded (sql_event ev) succeeded (serve r)) ->
  Forall (env_keeps ev) schedule -> db_inv (w_db w) ->
  run_pool schedule (serve <$> rs, w) = (ps, w') ->
  request_at rs P i -> request_at rs P j ->
  ps !! i = Some (Ret (Ok a)) -> ps !! j = Some (Ret (Ok b)) -> i = j.
Proof.
  intros HP Hs Hi Hrun Hri Hrj Hpi Hpj.
  apply (at_most_one_succeeds (ev := sql_event ev) (ok := sql_prop no_purge) succeeded
           (request_at rs P) schedule (serve <$> rs) w ps w' i j (Ok a) (Ok b)); try done.
  - intros k p Hk. rewrite list_lookup_fmap in Hk. destruct (rs !! k) as [r|]; [|done].
    injection Hk as <-. apply safe_exchange.
  - intros k p Hk (r & Hr & Hp). rewrite list_lookup_fmap, Hr in Hk. injection Hk as <-. auto.
Qed.

(** C1: A code is used once.  Of any number of concurrent requests that present
    the same authorization code, to any tenants and in any interleaving, with
    any database failures, at most one obtains tokens. *)
Theorem code_single_use h rs schedule w ps w' i j a b :
  NoDup (ac_hash <$> db_codes (w_db w)) -> Forall (env_keeps (code_consumed h)) schedule ->
  run_pool schedule (serve <$> rs, w) = (ps, w') ->
  request_at rs (presents_code h) i -> request_at rs (presents_code h) j ->
  ps !! i = Some (Ret (Ok a)) -> ps !! j = Some (Ret (Ok b)) -> i = j.
Proof.
  intros Hk Hs. apply (one_success (code_consumed h)); [|exact Hs|exact Hk].
  intros r Hr. by apply guarded_presents_code.
Qed.

(** C2: A refresh token is used once.  Of any number of concurrent requests
    that present the same refresh token, at most one obtains tokens: two
    requests that race past the reuse check cannot both rotate it. *)
Theorem refresh_token_single_use h rs schedule w ps w' i j a b :
  Forall (env_keeps (token_revoked h)) schedule ->
  run_pool schedule (serve <$> rs, w) = (ps, w') ->
  request_at rs (presents_refresh_token h) i -> request_at rs (presents_refresh_token h) j ->
  ps !! i = Some (Ret (Ok a)) -> ps !! j = Some (Ret (Ok b)) -> i = j.
Proof.
  intros Hs. apply (one_success (token_revoked h)); [|exact Hs|exact I].
  intros r Hr. by apply guarded_presents_refresh_token.
Qed.

(** C21: A DPoP proof is used once.  Of any number of concurrent token requests of the
    grants that verify a proof ([authorization_code] and [refresh_token], and any other
    that is not [client_credentials]) carrying proofs of the same key with the same
    [jti], at most one obtains tokens, whatever code or refresh token each presents.
    [client_credentials] never looks at a proof (ADR-0075 leaves machines out): its
    requests are not among them. *)
Theorem dpop_proof_single_use h rs schedule w ps w' i j a b :
  Forall (env_keeps (proof_recorded h)) schedule ->
  run_pool schedule (serve <$> rs, w) = (ps, w') ->
  request_at rs (presents_proof h) i -> request_at rs (presents_proof h) j ->
  ps !! i = Some (Ret (Ok a)) -> ps !! j = Some (Ret (Ok b)) -> i = j.
Proof.
  intros Hs. apply (one_success (proof_recorded h)); [|exact Hs|exact I].
  intros r Hr. by apply guarded_presents_proof.
Qed.

(** ** Client assertions *)
Record AssertionAttempt : Type := {
  aa_tenant : TenantId; aa_client : Client; aa_credentials : PresentedClientCredentials }.
Definition attempt (base : string) (x : AssertionAttempt) :=
  authenticate base (aa_tenant x) (aa_client x) (aa_credentials x).
(** The attempt carries an assertion that, if it verifies, has this [jti]. *)
Definition carries_assertion (t : TenantId) (client_id jti : string) (x : AssertionAttempt) : Prop :=
  aa_tenant x = t /\ c_client_id (aa_client x) = client_id
  /\ exists a ty, select (aa_credentials x) (aa_client x) = Ok (CredentialAssertion a ty)
  /\ forall jwks auds now v,
       verify_client_assertion ty a client_id jwks auds now = Some (Ok v) -> va_jti v = jti.
Lemma guarded_attempt base t client_id jti x :
  carries_assertion t client_id jti x ->
  guarded (sql_event (assertion_recorded t client_id jti)) succeeded (attempt base x).
Proof.
  intros (<- & <- & a & ty & Hs & Hv). unfold attempt, authenticate. rewrite Hs.
  unfold authenticate_assertion. destruct (c_jwks _) as [jwks|]; [|apply guarded_Err].
  apply guarded_after. intros now.
  destruct (verify_client_assertion _ _ _ _ _ _) as [[v|f]|] eqn:Ev; [|apply guarded_Err|done].
  rewrite (Hv _ _ _ _ Ev).
  eapply (guarded_before _ _ (fun r => r = Ok true)).
  - apply guarded_op. intros r ->. cbn [sql_event]. unfold assertion_recorded.
    by rewrite N.eqb_refl, !String.eqb_refl.
  - intros [[|]|e] Hr; [by destruct Hr | apply guarded_Err | apply guarded_Err].
Qed.

(** C22: A client assertion is used once.  Of any number of concurrent attempts
    to authenticate a client of a tenant with assertions of one [jti], at most
    one authenticates. *)
Theorem assertion_single_use base t client_id jti xs schedule w ps w' i j a b :
  Forall (env_keeps (assertion_recorded t client_id jti)) schedule ->
  Forall (carries_assertion t client_id jti) xs ->
  run_pool schedule (attempt base <$> xs, w) = (ps, w') ->
  ps !! i = Some (Ret (Ok a)) -> ps !! j = Some (Ret (Ok b)) -> i = j.
Proof.
  intros Hs Hx Hrun Hpi Hpj.
  apply (at_most_one_succeeds (ev := sql_event (assertion_recorded t client_id jti))
           (ok := sql_prop no_purge) succeeded (fun _ => True) schedule (attempt base <$> xs)
           w ps w' i j (Ok a) (Ok b)); try done.
  - intros k p Hk. rewrite list_lookup_fmap in Hk. destruct (xs !! k) as [x|]; [|done].
    injection Hk as <-. apply safe_of_light, light_authenticate.
  - intros k p Hk _. rewrite list_lookup_fmap in Hk. destruct (xs !! k) as [x|] eqn:Ex; [|done].
    injection Hk as <-. apply guarded_attempt. rewrite Forall_lookup in Hx. by eapply Hx.
Qed.
End concurrency.

(** ** Witnesses: two requests step in turn until both have answered *)
Definition alternate (n : nat) : list Turn :=
  concat (repeat [Thread 0; Thread 1] n).
Definition toy_request (cmd : TokenCommand) : Request := {|
  rq_tenant := toy_context; rq_cmd := cmd; rq_ctx := toy_ctx |}.
Definition toy_race (cmd : TokenCommand) : list (Prog (Result TokenError IssuedTokens)) * World :=
  run_pool (alternate 40) (serve toy_config <$> [toy_request cmd; toy_request cmd], toy_world).
Definition answers {A} (c : list (Prog A) * World) : list (option A) :=
  map (fun p => match p with Ret a => Some a | _ => None end) c.1.
Definition won {E A} (o : option (Result E A)) : bool := is_some_and is_ok o.

(** A schedule of threads alone needs nothing of the environment. *)
Lemma threads_only ev `{DbOneShot ev no_purge} n : Forall (env_keeps ev) (alternate n).
Proof. induction n as [|n IH]; [constructor|]. by do 2 constructor. Qed.

Lemma pool_answer {A} (c : list (Prog A) * World) i a :
  answers c !! i = Some (Some a) -> c.1 !! i = Some (Ret a).
Proof.
  unfold answers. change (map ?f c.1) with (f <$> c.1). rewrite list_lookup_fmap.
  destruct (c.1 !! i) as [[]|]; try done. by intros [= ->].
Qed.

Lemma toy_race_pair cmd :
  run_pool (alternate 40) (serve toy_config <$> [toy_request cmd; toy_request cmd], toy_world)
  = ((toy_race cmd).1, (toy_race cmd).2).
Proof. unfold toy_race. apply surjective_pairing. Qed.
Lemma race_answer cmd i r :
  answers (toy_race cmd) !! i = Some (Some r) -> (toy_race cmd).1 !! i = Some (Ret r).
Proof. apply pool_answer. Qed.

Lemma toy_at (P : TokenCommand -> Prop) cmd :
  P cmd -> request_at [toy_request cmd; toy_request cmd] P 0.
Proof. intros H. by exists (toy_request cmd). Qed.
Lemma toy_presents_code :
  request_at [toy_request toy_code_command; toy_request toy_code_command]
    (presents_code {| code_hash_value := "code" |}) 0.
Proof. apply toy_at. split; [done|]. by exists "code". Qed.
Lemma toy_presents_refresh_token :
  request_at [toy_request toy_refresh_command; toy_request toy_refresh_command]
    (presents_refresh_token "rt") 0.
Proof. apply toy_at. split; [done|]. by exists "rt". Qed.

(** The first request wins and the second, which arrived with it, is refused. *)
Lemma code_single_use_witness :
  map won (answers (toy_race toy_code_command)) = [true; false]
  /\ (toy_race toy_code_command).1 !! 0 = Some (Ret (Ok (toy_tokens false))) /\ 0 = 0.
Proof.
  split; [by vm_compute|].
  assert ((toy_race toy_code_command).1 !! 0 = Some (Ret (Ok (toy_tokens false)))) as Ha.
  { apply race_answer. vm_compute. reflexivity. }
  split; [exact Ha|].
  apply (code_single_use toy_config {| code_hash_value := "code" |}
           [toy_request toy_code_command; toy_request toy_code_command] (alternate 40) toy_world
           (toy_race toy_code_command).1 (toy_race toy_code_command).2 0 0
           (toy_tokens false) (toy_tokens false)).
  - exact toy_codes_keyed.
  - apply threads_only.
  - exact (toy_race_pair toy_code_command).
  - exact toy_presents_code.
  - exact toy_presents_code.
  - exact Ha.
  - exact Ha.
Defined.
Lemma refresh_token_single_use_witness :
  map won (answers (toy_race toy_refresh_command)) = [true; false]
  /\ (toy_race toy_refresh_command).1 !! 0 = Some (Ret (Ok (toy_tokens false))) /\ 0 = 0.
Proof.
  split; [by vm_compute|].
  assert ((toy_race toy_refresh_command).1 !! 0 = Some (Ret (Ok (toy_tokens false)))) as Ha.
  { apply race_answer. vm_compute. reflexivity. }
  split; [exact Ha|].
  apply (refresh_token_single_use toy_config "rt"
           [toy_request toy_refresh_command; toy_request toy_refresh_command] (alternate 40) toy_world
           (toy_race toy_refresh_command).1 (toy_race toy_refresh_command).2 0 0
           (toy_tokens false) (toy_tokens false)).
  - apply threads_only.
  - exact (toy_race_pair toy_refresh_command).
  - exact toy_presents_refresh_token.
  - exact toy_presents_refresh_token.
  - exact Ha.
  - exact Ha.
Defined.
(** The replay key of the toy proof, whatever the endpoint and the time. *)
Definition toy_replay_key : string :=
  replay_key {| vp_jkt := jwk_thumbprint_p256 toy_key toy_key; vp_jti := "j1"; vp_issued_at := 0 |}.
Lemma toy_presents_proof : presents_proof toy_replay_key toy_dpop_command.
Proof.
  split; [done|]. exists toy_proof. split; [done|]. intros expected p Hp.
  change (check_claims {| p256_x := toy_key; p256_y := toy_key |}
            {| pc_jti := Some "j1"; pc_htm := Some "POST"; pc_htu := Some toy_endpoint;
               pc_iat := Some 1000%Z; pc_ath := None |} expected = Ok p) in Hp.
  apply check_claims_iff in Hp. destruct Hp as [[= Hj] _ _ _ _ _ _ Hk].
  unfold toy_replay_key, replay_key. by rewrite <- Hj, Hk.
Qed.
Lemma dpop_proof_single_use_witness :
  map won (answers (toy_race toy_dpop_command)) = [true; false]
  /\ (toy_race toy_dpop_command).1 !! 0 = Some (Ret (Ok (toy_tokens true))) /\ 0 = 0.
Proof.
  split; [by vm_compute|].
  assert ((toy_race toy_dpop_command).1 !! 0 = Some (Ret (Ok (toy_tokens true)))) as Ha.
  { apply race_answer. vm_compute. reflexivity. }
  split; [exact Ha|].
  apply (dpop_proof_single_use toy_config toy_replay_key
           [toy_request toy_dpop_command; toy_request toy_dpop_command] (alternate 40) toy_world
           (toy_race toy_dpop_command).1 (toy_race toy_dpop_command).2 0 0
           (toy_tokens true) (toy_tokens true)).
  - apply threads_only.
  - exact (toy_race_pair toy_dpop_command).
  - exact (toy_at _ _ toy_presents_proof).
  - exact (toy_at _ _ toy_presents_proof).
  - exact Ha.
  - exact Ha.
Defined.

Definition toy_attempt : AssertionAttempt := {|
  aa_tenant := 1%N; aa_client := toy_batch; aa_credentials := toy_batch_credentials |}.
Lemma toy_carries_assertion : carries_assertion 1%N "batch" "j1" toy_attempt.
Proof.
  split; [done|]. split; [done|]. exists "k1.j1.s", (Some JWT_BEARER_ASSERTION_TYPE).
  split; [done|]. intros jwks auds now v Hv. apply verify_client_assertion_Ok in Hv.
  destruct Hv as (kid & jwk & key & alg & claims & _ & _ & _ & _ & _ & Hd & Hc).
  apply check_assertion_claims_Ok in Hc. destruct Hc as (_ & _ & _ & Hj & _).
  injection Hd as <-. by injection Hj.
Qed.
Definition toy_attempts : list (Prog (Result ClientAuthError ClientAuthOutcome)) * World :=
  run_pool (alternate 10) (attempt "https://idp" <$> [toy_attempt; toy_attempt], toy_world).
Lemma toy_attempts_pair :
  run_pool (alternate 10) (attempt "https://idp" <$> [toy_attempt; toy_attempt], toy_world)
  = (toy_attempts.1, toy_attempts.2).
Proof. unfold toy_attempts. apply surjective_pairing. Qed.
Lemma assertion_single_use_witness :
  map won (answers toy_attempts) = [true; false]
  /\ toy_attempts.1 !! 0 = Some (Ret (Ok Authenticated_ok)) /\ 0 = 0.
Proof.
  split; [by vm_compute|].
  assert (toy_attempts.1 !! 0 = Some (Ret (Ok Authenticated_ok))) as Ha.
  { apply pool_answer. by vm_compute. }
  split; [exact Ha|].
  apply (assertion_single_use "https://idp" 1%N "batch" "j1" [toy_attempt; toy_attempt]
           (alternate 10) toy_world toy_attempts.1 toy_attempts.2 0 0
           Authenticated_ok Authenticated_ok).
  - apply threads_only.
  - constructor; [exact toy_carries_assertion|].
    constructor; [exact toy_carries_assertion | constructor].
  - exact toy_attempts_pair.
  - exact Ha.
  - exact Ha.
Defined.

(** ** What single use does not give *)

(** A live token of the family. *)
Definition family_lives (t : TenantId) (family : string) (rows : RefreshTable) : Prop :=
  exists r, In r rows /\ in_family t family r = true /\ rt_is_revoked r = false.
Lemma family_lives_check t family rows :
  existsb (fun r => in_family t family r && negb (rt_is_revoked r)) rows = true ->
  family_lives t family rows.
Proof.
  intros H. apply existsb_exists in H. destruct H as (r & Hr & E).
  apply andb_true_iff in E. rewrite negb_true_iff in E. exists r. tauto.
Qed.

(** A detected race does not stop the winner.  There is an interleaving of
    two requests with one refresh token in which the second is answered as a
    reuse, after it has revoked the family, and yet the family still has a live
    token: the loser's revocation ran before the winner inserted its child. *)
Theorem refresh_race_spares_the_winner :
  exists schedule c,
    run_pool schedule
      (serve toy_config <$> [toy_request toy_refresh_command; toy_request toy_refresh_command],
       toy_world) = c
    /\ c.1 !! 0 = Some (Ret (Ok (toy_tokens false)))
    /\ c.1 !! 1 = Some (Ret (Err (token_error InvalidGrant "refresh_token has already been used")))
    /\ existsb (fun e => bool_decide (ev_type e = RefreshTokenReuseDetected))
         (db_audit (w_db c.2)) = true
    /\ family_lives 1%N "grant" (db_refresh (w_db c.2)).
Proof.
  exists (alternate 40), (toy_race toy_refresh_command).
  split; [unfold toy_race; reflexivity|].
  split; [apply race_answer; vm_compute; reflexivity|].
  split; [apply race_answer; vm_compute; reflexivity|].
  split; [vm_compute; reflexivity|]. apply family_lives_check. vm_compute. reflexivity.
Qed.
(** A detected code replay does not stop the winner.  The same for two
    requests with one authorization code: the second is refused as a replay, the
    tokens of the code are revoked, and the first still ends with a live one. *)
Theorem code_race_spares_the_winner :
  exists schedule c,
    run_pool schedule
      (serve toy_config <$> [toy_request toy_code_command; toy_request toy_code_command],
       toy_world) = c
    /\ c.1 !! 0 = Some (Ret (Ok (toy_tokens false)))
    /\ c.1 !! 1 = Some (Ret (Err (token_error InvalidGrant
         "authorization code is invalid, expired, or already used")))
    /\ existsb (fun e => bool_decide (ev_type e = AuthorizationCodeReuseDetected))
         (db_audit (w_db c.2)) = true
    /\ family_lives 1%N "code" (db_refresh (w_db c.2)).
Proof.
  exists (alternate 40), (toy_race toy_code_command).
  split; [unfold toy_race; reflexivity|].
  split; [apply race_answer; vm_compute; reflexivity|].
  split; [apply race_answer; vm_compute; reflexivity|].
  split; [vm_compute; reflexivity|]. apply family_lives_check. vm_compute. reflexivity.
Qed.
